(* ===== verification/_CoqProject ===== *)
-Q . S2P
Prelude.v
Js.v
Json.v
Secrets.v
React.v
Components.v
Query.v
Client.v
Auth.v
Api.v
Page.v
Handlers.v
Accounts.v
Sessions.v
Rbac.v
Reset.v
GoTime.v
Delivery.v
Template.v
SendPage.v
Notify.v
Hub.v
Sockets.v
Providers.v
ProviderConfigs.v
Content.v
Tenants.v
Provision.v
Users.v
Roles.v
TenantDetail.v
Templates.v
Contacts.v
Groups.v
Campaigns.v
ApiKeys.v
Channels.v
Features.v
Switches.v
Queues.v
AuditLogs.v
Notifications.v
Permissions.v
Settings.v
Dashboard.v
Integration.v
App.v
Access.v
