(* ===== verification/Prelude.v ===== *)
(** * The notification platform's admin UI, verified

    The repository is a notification service: notification-core-api (Go) queues
    and delivers messages for tenants, and notification-admin-ui (TypeScript,
    React) is where people run it.  This library models the admin UI, page by page,
    and of the API what the UI relies on: permissions, routes, the types of the
    bodies, the search, filters and paging of lists, and what the writes of its tables
    leave; who may do what: sessions, tokens, users, roles, API keys and resets of
    passwords; providers and tenants with their encrypted secrets; and the way of a
    notification from the form of the UI through the API to the workers that deliver
    it and the web sockets that show it.  File names below are under notification-admin-ui/src unless
    they start with internal/, which is notification-core-api/internal.

    ** Parts and how they interact

    A page is a React component: its state, effects that run after a render when
    a dependency changed, handlers attached to the controls it renders, and
    requests it awaits through api/client.ts.  The client adds the credentials,
    refreshes them once for all the calls answered 401 together, and otherwise
    ends the session, which auth/AuthContext.tsx holds and the layout and the
    routes read.  Pages share pagination, toasts, a confirmation dialog and
    selection controls.

    - Prelude.v (this file): record update, the operations on texts, lists and
      objects the language provides, and their lemmas; the [js] hint database.
      An [obj V] is an object with its properties in insertion order (the code
      modelled uses no property named like an array index, nor one inherited
      from Object.prototype).
    - Js.v: JSON values, [Number] and the printing of numbers (exact decimals: rounding
      to a double is left out), requests, thrown values.
    - Json.v: [JSON.parse] as a lexer and a stack machine, [JSON.stringify] with an
      indentation, [atob]; [parse_show] and [parse_stringify] are their round trips.
    - Secrets.v: internal/secrets: base64, encryption over a cipher of which only the
      law of its interface [Aead] is assumed, and the masking of secrets in answers.
    - React.v: handlers as programs ([Ui.prog]) that run up to an awaited
      request; rendered trees ([node]) and the actions they offer; [Ui.step], one
      turn of the event loop: a render commits and its effects run, a user acts
      on the latest render, an answer resumes a suspended program.  Answers come
      in any order, with any value.  [Ui.reachable_safe] and [Ui.reachable_at]
      prove a property of every interleaving from one obligation per handler;
      [Ui.exec] runs one handler with its answers, and is one of the
      interleavings ([Ui.exec_reachable]); [Ui.play] runs a script of renders,
      gestures on labelled controls and answers, and is another
      ([Ui.play_reachable]).
    - Components.v: hooks/usePagination.ts with components/TablePagination.tsx
      (Pagination), Toast.tsx (Toast), ConfirmDialog.tsx (Confirm),
      SearchSelect.tsx, TenantFilter.tsx, StatusBadge.tsx with StatusToggle.tsx
      (Status) and Modal.tsx.
    - Query.v: URLSearchParams on UTF-8 bytes, and [listPage].
    - Client.v: api/client.ts: the classification of errors, [apiRequest] as a
      recursion on the network, and in Shared the concurrent calls with the
      refresh promise they share, one event per suspension point.
    - Auth.v: permissions, navigation, routes and redirections; Session, the
      provider's state and the stored credentials; LoginPage.
    - Api.v: [HasPermission] of internal/auth/auth.go, the table of routes of
      internal/http/router.go, the Go types the handlers decode bodies into
      ([decodes], [body_types]), and in DataTable the search, the filters and the
      paging of internal/http/middleware/middleware.go on 64-bit integers.
    - Page.v: what pages share: embedded components, the dialog around a page's
      own program, lists with filters, and [careful]: a request the API lets the
      user make and understands.
    - Handlers.v: of internal/http/handlers/, the checks of the writes on
      templates, contacts, groups, campaigns, queues and settings, and the row each
      leaves (TemplateRow, ContactRow, GroupRow, CampaignRow, QueueRow,
      TenantConfig).  The answer of the database that a handler does not determine
      is an argument; the columns declared NOT NULL in migrations/ are checked.
    - Accounts.v: the rows of users, memberships, roles, permissions and API keys, and the
      query of a user's permissions.  Sessions.v: login with its lockout, refresh,
      logout and the check of a request (internal/auth, internal/http/middleware);
      [run] is a call, a refresh cut at its query, and [serves] the tables over time
      with the tokens issued.  A login is also cut into its statements, between which
      other logins run: [Login_whole] puts the parts together.  Rbac.v: the writes of rbac.go and of handlers.go on users
      and keys, [serve] their routes, and the check of a public call by its key.
      Access.v: the pages of users, roles and API keys with those handlers.
      Reset.v: the reset of a forgotten password and the verification of an email, by
      tokens; a reset is its query, its two updates, and what others do in between.
    - Content.v: the tables of templates, contacts, groups, members and campaigns over time.
    - Delivery.v: internal/queue, internal/delivery and internal/retry: the turns of
      the workers on the messages of the broker and the rows of the deliveries, as
      executable functions to lists of effects, and [step], which takes any message,
      lets its turn happen with any answers of the database, the broker and the
      provider, or lets the process die after any of its effects.  [look] projects
      the state to one delivery; [life] is the specification of its life.
    - GoTime.v: [time.Parse] for RFC 3339.  Notify.v: internal/notifications with the
      checks it calls (ratelimit, channels, features, tenant, queue/control.go):
      [Send] and [RouteDueScheduled], which hand Delivery.v its jobs.  The counters in Redis
      have their expiry, and [allow_turn] cuts the check of the quotas into its commands.
    - Hub.v: internal/websocket: the clients of the hub and their buffers as a machine,
      the inbox rows written with a broadcast, and those a new client is sent because it
      has not read them.  Sockets.v: the tokens that
      connections are opened with, in front of the hub, and the marks of read messages.
    - ProviderConfigs.v: the rows of providers, what the adapters of internal/providers
      require, and the handlers that create, change, delete and test a provider.
      Provision.v: the handlers that create and change a tenant with all it contains,
      and the tenants page in front of them.
    - Switches.v: the switches of the catalogs and of a tenant, as their pages send them,
      the queries that Notify.v makes of the tables, and [served], what a tenant needs to
      send on a channel.
    - Template.v and SendPage.v: pages/notifications/SendNotificationPage.tsx.
    - Providers.v, Tenants.v, TenantDetail.v, Users.v, Roles.v, Templates.v,
      Contacts.v, Groups.v, Campaigns.v, ApiKeys.v, Channels.v, Features.v, Queues.v
      (pages/queues/QueueControlsPage.tsx), AuditLogs.v, Notifications.v (with the
      list handler of the log), Permissions.v, Settings.v, Dashboard.v (with the rate
      the API computes), Integration.v: the page of that name.
    - App.v: the routes of app/main.tsx with their pages: [runs], what a run of a
      page has asked of the API, and [needs], what its reads take.

    In the file of a page, [state] is its useState cells, [action] its controls,
    [event] its requests ([http] gives each its method, path and body),
    [effects], [handle] and [view] what the component does; a handler keeps the
    name of its function.  What a handler reads from the render it was created
    in is an argument (the state [s] of [handle], the [load_args] of a reload
    asked for in a dialog), what it sets is an update of the current state.
    Layout, icons, class names, dates and placeholder texts are left out.

    ** What the theorems show

    - The client: at most one refresh is under way and every waiting call waits
      on it, no call waits for ever, the session ends once per call that could
      not be refreshed; one call terminates whenever refreshing does, and can
      retry any number of times.
    - Sending: in every interleaving the page at rest selects channels of the
      tenant on screen and holds the variables of the template on screen; it
      posts exactly when valid, what it shows; every placeholder is asked for.
    - Delivering: on a calm day every event is a step of a delivery's specified life,
      which ends after a bounded number of tries; without calm no delivery is lost
      while publications succeed; what a form sends reaches the workers of its
      channels, at the address it says; a scheduled notification is an instant one
      sent later, but cannot be scheduled from the page; quotas hold.
    - Permissions and types: the check of the UI is that of the API but for one
      permission; navigation and routes follow it; in every run of every page every
      request has a route, a body its handler decodes, and a permission the user
      holds or a read of the page's own ([app_authorized], from the [_authorized]
      theorem of each page); the entries of the side bar open pages the API serves,
      but for four that read more.
    - Access: a request that passes was granted by the tables within the life of a token;
      a refresh token is good once, and a session lasts while it is refreshed; passwords compared before a lock
      are bounded by the limit and the logins under way at once; a created user signs in with exactly the permissions of the role
      chosen; an edited role decides what its holders may do; a key lives until it is
      revoked, but one made on its page opens nothing.
      A reset of a password lets its owner in with the new one, and a token can do so twice
      when two resets overlap.
    - Isolation: the rows on a tenant's page are those of a tenant visited; what the users
      of a tenant write stays there, but for the tables of roles, whose statements do not
      name a tenant; no message of the hub
      reaches a client of another tenant, and each client was vouched for by a token of it;
      members of groups exist and are of the tenant of their group.
    - Switches: a send passes every switch and nothing else of a channel; a switch stops
      exactly what it names and gives back what it stopped, but for the catalog of
      features, which stops nothing, and for what was scheduled before.
    - Data sent: the configuration of a provider, the payload of a tenant opened
      and saved, a role with its permissions, a user with a role.
    - Providers and tenants: the settings saved are the settings tested, through
      encryption; the table of providers keeps one default at most per channel; an edit
      replaces all settings; a tenant saved is as its form, which therefore destroys what
      the form does not show.
    - From a form to the database: saving a template, a contact, a group, the
      status of a queue, the step of a campaign and the settings of a tenant, through
      the request, the checks of the handler and the row it leaves; settings that
      are opened and saved are unchanged; the steps offered for a campaign are those
      of its life; queues stay in their bounds whatever is sent.
    - What is shown: audit events once, by session; permissions by category; the
      bars and shares of the overview within their frame; a payload of the guide
      that is JSON.
    - Paging: the pages walked through in the UI and answered by the API are the
      rows, each once, in order; the log of notifications, paged twice, shows its
      first page only.
    - Components: toasts are bounded and timed, one confirmation runs at a time,
      a selection offers what it filters, a page number stays in range.
    - Defects, as theorems with the run that shows them: an editor can save over
      a tenant or a role what belongs to another, a logout can be undone by a
      late answer, a page number can make the API panic, and others; the
      half-done creations are part of the functional theorems.

    ** Bounds and fuel

    [apiRequest] takes fuel for its retries and [apiRequest_terminates] shows
    that a network that settles leaves it unused; [tokens_fuel] and the Markdown
    passes take the length of the text, of which each round consumes a part;
    [Ui.drain] and [navigate] take a number of turns, used on concrete runs only
    or with the number the theorem states.  Recursion is otherwise structural.
    Integers of the browser are unbounded here, page numbers and lengths staying
    far below 2^53; those of the API are 64-bit and wrap.

    ** Not modelled

    Browser storage failures, events of other tabs, timers other than those of
    toasts and of copied marks, rendering itself, and React's batching beyond this:
    between two commits no event of the user is handled.  A thrown error that is
    not caught ends a page only where its file says so.  The fixed
    paragraphs of the guide are left out.  Of the
    API: its lists but three, the public status of a notification, sorting and the
    queries of the database but those of permissions and switches; the audit trail and
    the metrics; the calls of the adapters to the services that send; of a delivery the
    time it takes; of web sockets the protocol of the connection itself. *)
From stdpp Require Export base gmap strings list pretty.
From Stdlib Require Export ZArith Lia Ascii.

#[global] Open Scope Z_scope.

(** * Tactics *)

(** Case analysis on the scrutinee of the first [match] or [if] of the goal. *)
Ltac dmatch :=
  match goal with
  | |- context [match ?x with _ => _ end] => destruct x eqn:?
  end.

(** The same in a hypothesis. *)
Ltac dmatch_in H :=
  match type of H with
  | context [match ?x with _ => _ end] => destruct x eqn:?
  end.

(** Breaks every conjunction, disjunction and existential of the context. *)
Ltac dall :=
  repeat match goal with
  | H : _ /\ _ |- _ => destruct H
  | H : _ \/ _ |- _ => destruct H
  | H : exists _, _ |- _ => destruct H
  | H : False |- _ => destruct H
  | H : (_ && _)%bool = true |- _ => apply andb_prop in H
  end.

(** * Record update

    A React state variable is one field of a page's state record, and its
    setter is [r <| field := v |>].  A record declares [Eta] (its own
    eta-expansion) once, and the setter of each field is found by [Setter]. *)

Class Eta (R : Type) := eta : R -> R.

Class Setter {R T : Type} (proj : R -> T) := setter : T -> R -> R.

Ltac find_setter :=
  lazymatch goal with
  | |- @Setter ?R ?T ?proj =>
      let v := fresh "v" in
      let r := fresh "r" in
      intros v r;
      let e := constr:(_ : Eta R) in
      let t := eval hnf in (e r) in
      lazymatch eval pattern (proj r) in t with
      | ?f _ => let u := eval cbv beta in (f v) in exact u
      end
  end.

#[export] Hint Extern 0 (Setter _) => find_setter : typeclass_instances.

Declare Scope js_scope.
Delimit Scope js_scope with js.
Notation "r <| p := v |>" := (setter (proj := p) v r)
  (at level 1, left associativity, p at level 10, v at level 200,
   format "r  <|  p  :=  v  |>") : js_scope.
#[global] Open Scope js_scope.

(** * Strings of the language

    A JavaScript string is modelled by its UTF-8 bytes.  [length_js] counts
    UTF-16 code units; the other operations are the source's on ASCII text. *)

(** [a || b] on strings: the empty string is falsy. *)
Definition jsor (a b : string) : string := if decide (a = "") then b else a.
Notation "a ||| b" := (jsor a b) (at level 50, left associativity) : js_scope.

(** A string as a condition. *)
Definition truthy (s : string) : bool := negb (bool_decide (s = "")).

(** [x ?? d] and [x || ''] on an optional string field. *)
Definition or_empty (o : option string) : string := default "" o.

Definition byte (c : ascii) : Z := Z.of_nat (nat_of_ascii c).

Definition is_space (c : ascii) : bool :=
  let b := byte c in ((9 <=? b) && (b <=? 13)) || (b =? 32).

Definition lower_char (c : ascii) : ascii :=
  let b := byte c in
  if (65 <=? b) && (b <=? 90) then ascii_of_nat (Z.to_nat (b + 32)) else c.

Definition upper_char (c : ascii) : ascii :=
  let b := byte c in
  if (97 <=? b) && (b <=? 122) then ascii_of_nat (Z.to_nat (b - 32)) else c.

Fixpoint string_map (f : ascii -> ascii) (s : string) : string :=
  match s with
  | EmptyString => EmptyString
  | String c s => String (f c) (string_map f s)
  end.

Definition to_lower (s : string) : string := string_map lower_char s.
Definition to_upper (s : string) : string := string_map upper_char s.

(** [s.replace(/c/g, d)] and [s.replace('c', d)] for one-character patterns. *)
Definition replace_all_char (c d : ascii) (s : string) : string :=
  string_map (fun x => if decide (x = c) then d else x) s.

Fixpoint replace_first_char (c d : ascii) (s : string) : string :=
  match s with
  | EmptyString => EmptyString
  | String x s =>
      if decide (x = c) then String d s else String x (replace_first_char c d s)
  end.

Fixpoint ltrim (s : string) : string :=
  match s with
  | EmptyString => EmptyString
  | String c s' => if is_space c then ltrim s' else s
  end.

Fixpoint rtrim (s : string) : string :=
  match s with
  | EmptyString => EmptyString
  | String c s =>
      match rtrim s with
      | EmptyString => if is_space c then EmptyString else String c EmptyString
      | s' => String c s'
      end
  end.

Definition trim (s : string) : string := rtrim (ltrim s).

Fixpoint starts_with (p s : string) : bool :=
  match p, s with
  | EmptyString, _ => true
  | String a p, String b s => bool_decide (a = b) && starts_with p s
  | String _ _, EmptyString => false
  end.

(** [s.includes(p)] *)
Fixpoint includes_str (p s : string) : bool :=
  starts_with p s ||
  match s with
  | EmptyString => false
  | String _ s => includes_str p s
  end.

(** [s.slice(0, n)] *)
Fixpoint slice0 (n : nat) (s : string) : string :=
  match n, s with
  | S n, String c s => String c (slice0 n s)
  | _, _ => EmptyString
  end.

Fixpoint length_js (s : string) : Z :=
  match s with
  | EmptyString => 0
  | String c s =>
      let b := byte c in
      (if b <? 128 then 1 else if b <? 192 then 0 else if b <? 240 then 1 else 2)
      + length_js s
  end.

Fixpoint blank (s : string) : bool :=
  match s with
  | EmptyString => true
  | String c s => is_space c && blank s
  end.

Definition quote : ascii := ascii_of_nat 34.
Definition backslash : ascii := ascii_of_nat 92.
Definition newline : ascii := ascii_of_nat 10.

(** * Arrays of the language *)

(** [xs.includes(x)] *)
Definition includes (xs : list string) (x : string) : bool := bool_decide (x ∈ xs).

(** [[...new Set(xs)]]: the first occurrence of each element, in order. *)
Fixpoint unique_from (seen xs : list string) : list string :=
  match xs with
  | [] => []
  | x :: xs =>
      if decide (x ∈ seen) then unique_from seen xs
      else x :: unique_from (x :: seen) xs
  end.
Definition unique (xs : list string) : list string := unique_from [] xs.

(** [xs.find(p)], [xs.filter(p)] *)
Fixpoint find {A} (p : A -> bool) (xs : list A) : option A :=
  match xs with
  | [] => None
  | x :: xs => if p x then Some x else find p xs
  end.

Fixpoint filter_by {A} (p : A -> bool) (xs : list A) : list A :=
  match xs with
  | [] => []
  | x :: xs => if p x then x :: filter_by p xs else filter_by p xs
  end.

(** [xs.includes(x) ? xs.filter(v => v !== x) : [...xs, x]] *)
Definition toggle_elem (x : string) (xs : list string) : list string :=
  if includes xs x then filter_by (fun v => negb (bool_decide (v = x))) xs
  else xs ++ [x].

(** [xs.map((v, j) => j === i ? f(v) : v)] and [xs.filter((_, j) => j !== i)] *)
Definition map_at {A} (i : nat) (f : A -> A) (xs : list A) : list A :=
  imap (fun j v => if decide (j = i) then f v else v) xs.

Fixpoint remove_at {A} (i : nat) (xs : list A) : list A :=
  match i, xs with
  | _, [] => []
  | O, _ :: xs => xs
  | S i, x :: xs => x :: remove_at i xs
  end.

(** * Objects of the language: the own properties in insertion order *)

Abbreviation obj V := (list (string * V)).

Fixpoint oget {V} (o : obj V) (k : string) : option V :=
  match o with
  | [] => None
  | (k', v) :: o => if decide (k = k') then Some v else oget o k
  end.

Fixpoint oset {V} (o : obj V) (k : string) (v : V) : obj V :=
  match o with
  | [] => [(k, v)]
  | (k', v') :: o => if decide (k = k') then (k', v) :: o else (k', v') :: oset o k v
  end.

(** [{ ...a, ...b }] *)
Definition ospread {V} (a b : obj V) : obj V :=
  fold_left (fun acc kv => oset acc kv.1 kv.2) b a.

(** [delete o[k]] *)
Definition odelete {V} (o : obj V) (k : string) : obj V :=
  filter_by (fun kv => negb (bool_decide (kv.1 = k))) o.

Definition okeys {V} (o : obj V) : list string := map fst o.

(** [o[k] || ''] on an object of strings *)
Definition oget_str (o : obj string) (k : string) : string := or_empty (oget o k).

(** [if (!acc[k]) acc[k] = []; acc[k].push(v)] *)
Definition push_at {V} (o : obj (list V)) (k : string) (v : V) : obj (list V) :=
  oset o k (default [] (oget o k) ++ [v]).

(** The grouping loop of the pages: one list per key, keys in order of first use. *)
Definition group_by {V} (key : V -> string) (xs : list V) : obj (list V) :=
  fold_left (fun acc v => push_at acc (key v) v) xs [].

(** * Lemmas on objects *)

Lemma oget_oset {V} (o : obj V) k k' v :
  oget (oset o k v) k' = if decide (k' = k) then Some v else oget o k'.
Proof.
  induction o as [|[k0 v0] o IH]; simpl.
  - repeat case_decide; congruence.
  - repeat (case_decide; simpl; subst); simplify_eq; try congruence.
Qed.

Lemma oget_oset_eq {V} (o : obj V) k v : oget (oset o k v) k = Some v.
Proof. rewrite oget_oset. by case_decide. Qed.

Lemma oget_oset_ne {V} (o : obj V) k k' v :
  k' <> k -> oget (oset o k v) k' = oget o k'.
Proof. intros. rewrite oget_oset. by case_decide. Qed.

Lemma oget_None {V} (o : obj V) k : oget o k = None <-> k ∉ okeys o.
Proof.
  induction o as [|[k0 v0] o IH]; simpl; [set_solver|].
  case_decide; set_solver.
Qed.

Lemma oget_Some_elem {V} (o : obj V) k v : oget o k = Some v -> (k, v) ∈ o.
Proof.
  induction o as [|[k0 v0] o IH]; simpl; [done|].
  case_decide; set_solver.
Qed.

Lemma oget_elem {V} (o : obj V) k v :
  NoDup (okeys o) -> (k, v) ∈ o -> oget o k = Some v.
Proof.
  induction o as [|[k0 v0] o IH]; simpl; [set_solver|].
  intros [Hni Hnd]%NoDup_cons [Heq|Hin]%elem_of_cons.
  - simplify_eq. by case_decide.
  - case_decide as Hk; [|auto]. subst.
    exfalso. apply Hni. apply list_elem_of_fmap. by exists (k0, v).
Qed.

Lemma okeys_oset {V} (o : obj V) k v k' :
  k' ∈ okeys (oset o k v) <-> k' = k \/ k' ∈ okeys o.
Proof.
  induction o as [|[k0 v0] o IH]; simpl; [set_solver|].
  case_decide; set_solver.
Qed.

Lemma NoDup_oset {V} (o : obj V) k v :
  NoDup (okeys o) -> NoDup (okeys (oset o k v)).
Proof.
  induction o as [|[k0 v0] o IH]; simpl.
  - intros _. apply NoDup_singleton.
  - intros [Hni Hnd]%NoDup_cons. case_decide as Hk; simpl; constructor; auto.
    change (k0 ∉ okeys (oset o k v)). rewrite okeys_oset. set_solver.
Qed.

Lemma oset_fresh {V} (o : obj V) k v : k ∉ okeys o -> oset o k v = o ++ [(k, v)].
Proof.
  induction o as [|[k0 v0] o IH]; simpl; [done|]. rewrite not_elem_of_cons. intros [Hk Ho].
  by rewrite decide_False, IH by done.
Qed.

Lemma oset_keys_present {V} (o : obj V) k v :
  k ∈ okeys o -> okeys (oset o k v) = okeys o.
Proof.
  induction o as [|[k0 v0] o IH]; simpl; [set_solver|].
  case_decide; simpl; [done|]. intros Hin. f_equal. apply IH. set_solver.
Qed.

Lemma oget_ospread {V} (a b : obj V) k :
  NoDup (okeys b) ->
  oget (ospread a b) k = match oget b k with Some v => Some v | None => oget a k end.
Proof.
  unfold ospread. revert a. induction b as [|[k0 v0] b IH]; intros a; simpl; [done|].
  intros [Hni Hnd]%NoDup_cons. rewrite IH by done.
  rewrite oget_oset. case_decide as Hk; subst.
  - destruct (oget b k0) eqn:E; [|done].
    apply oget_Some_elem in E. exfalso. apply Hni.
    apply list_elem_of_fmap. by exists (k0, v).
  - done.
Qed.

Lemma NoDup_ospread {V} (a b : obj V) :
  NoDup (okeys a) -> NoDup (okeys (ospread a b)).
Proof.
  unfold ospread. revert a. induction b as [|[k v] b IH]; intros a H; simpl; auto.
  apply IH. by apply NoDup_oset.
Qed.

(** * Lemmas on arrays *)

Lemma includes_true xs x : includes xs x = true <-> x ∈ xs.
Proof. apply bool_decide_eq_true. Qed.

Lemma includes_false xs x : includes xs x = false <-> x ∉ xs.
Proof. apply bool_decide_eq_false. Qed.

Lemma elem_of_filter_by {A} (p : A -> bool) xs x :
  x ∈ filter_by p xs <-> p x = true /\ x ∈ xs.
Proof.
  induction xs as [|y xs IH]; simpl.
  - split; [by intros ?%not_elem_of_nil | by intros [_ ?%not_elem_of_nil]].
  - destruct (p y) eqn:E; rewrite ?elem_of_cons, IH; naive_solver congruence.
Qed.

Lemma filter_by_all {A} (p : A -> bool) xs :
  Forall (fun x => p x = true) xs -> filter_by p xs = xs.
Proof. induction 1 as [|x xs Hx _ IH]; simpl; [done|]. by rewrite Hx, IH. Qed.

Lemma filter_by_none {A} (p : A -> bool) xs :
  Forall (fun x => p x = false) xs -> filter_by p xs = [].
Proof. induction 1 as [|x xs Hx _ IH]; simpl; [done|]. by rewrite Hx. Qed.

Lemma filter_by_app {A} (p : A -> bool) xs ys :
  filter_by p (xs ++ ys) = filter_by p xs ++ filter_by p ys.
Proof. induction xs as [|x xs IH]; simpl; [done|]. by destruct (p x); simpl; rewrite IH. Qed.

Lemma filter_by_length {A} (p : A -> bool) xs :
  (length (filter_by p xs) <= length xs)%nat.
Proof. induction xs as [|x xs IH]; simpl; [lia|]. destruct (p x); simpl; lia. Qed.

Lemma NoDup_filter_by {A} (p : A -> bool) xs : NoDup xs -> NoDup (filter_by p xs).
Proof.
  induction 1 as [|x xs Hni Hnd IH]; simpl; [constructor|].
  destruct (p x); [|done]. constructor; [|done]. rewrite elem_of_filter_by. tauto.
Qed.

Lemma find_Some {A} (p : A -> bool) xs x :
  find p xs = Some x -> p x = true /\ x ∈ xs.
Proof.
  induction xs as [|y xs IH]; simpl; [done|].
  destruct (p y) eqn:E; intros H; [simplify_eq; split; [done|by left]|].
  destruct (IH H) as [Hp Hx]. split; [done|by right].
Qed.

Lemma find_None {A} (p : A -> bool) xs :
  find p xs = None <-> forall x, x ∈ xs -> p x = false.
Proof.
  induction xs as [|y xs IH]; simpl; [set_solver|].
  destruct (p y) eqn:E; [split; [done|]|].
  - intros H. specialize (H y). rewrite E in H. set_solver.
  - rewrite IH. split; [|set_solver]. intros H x [->|Hx]%elem_of_cons; auto.
Qed.

Lemma elem_of_toggle x y xs :
  y ∈ toggle_elem x xs <->
  if decide (y = x) then x ∉ xs else y ∈ xs.
Proof.
  unfold toggle_elem. destruct (includes xs x) eqn:E.
  - apply includes_true in E. rewrite elem_of_filter_by, negb_true_iff, bool_decide_eq_false.
    case_decide; subst; tauto.
  - apply includes_false in E. case_decide; subst; set_solver.
Qed.

Lemma NoDup_toggle x xs : NoDup xs -> NoDup (toggle_elem x xs).
Proof.
  intros H. unfold toggle_elem. destruct (includes xs x) eqn:E.
  - by apply NoDup_filter_by.
  - apply includes_false in E. apply NoDup_app. repeat split; [done| |apply NoDup_singleton].
    intros y Hy Hyx. apply list_elem_of_singleton in Hyx. by subst.
Qed.

Lemma elem_of_unique_from seen xs x :
  x ∈ unique_from seen xs <-> x ∈ xs /\ x ∉ seen.
Proof.
  revert seen. induction xs as [|y xs IH]; intros seen; simpl; [set_solver|].
  case_decide; [rewrite IH; set_solver|].
  rewrite elem_of_cons, IH. destruct (decide (x = y)); set_solver.
Qed.

Lemma elem_of_unique xs x : x ∈ unique xs <-> x ∈ xs.
Proof. unfold unique. rewrite elem_of_unique_from. set_solver. Qed.

Lemma NoDup_unique_from seen xs : NoDup (unique_from seen xs).
Proof.
  revert seen. induction xs as [|y xs IH]; intros seen; simpl; [constructor|].
  case_decide; [done|]. constructor; [|done]. rewrite elem_of_unique_from. set_solver.
Qed.

Lemma NoDup_unique xs : NoDup (unique xs).
Proof. apply NoDup_unique_from. Qed.

(** * Lemmas on strings *)

Lemma truthy_true s : truthy s = true <-> s <> "".
Proof. unfold truthy. rewrite negb_true_iff. apply bool_decide_eq_false. Qed.

Lemma truthy_false s : truthy s = false <-> s = "".
Proof. unfold truthy. rewrite negb_false_iff. apply bool_decide_eq_true. Qed.

Lemma app_str_assoc (a b c : string) : (a +:+ b) +:+ c = a +:+ (b +:+ c).
Proof. induction a as [|x a IH]; [done|]. simpl. unfold String.app in *. simpl. by rewrite IH. Qed.

Lemma app_str_nil (a : string) : a +:+ "" = a.
Proof. induction a as [|x a IH]; [done|]. unfold String.app in *. simpl. by rewrite IH. Qed.

Lemma app_cons_str x (a b : string) : String x a +:+ b = String x (a +:+ b).
Proof. done. Qed.

Lemma rtrim_blank s : blank s = true -> rtrim s = "".
Proof.
  induction s as [|c s IH]; simpl; [done|].
  intros [Hc Hs]%andb_prop. by rewrite IH, Hc.
Qed.

Lemma rtrim_empty s : rtrim s = "" -> blank s = true.
Proof.
  induction s as [|c s IH]; simpl; [done|].
  destruct (rtrim s) eqn:E; [|done]. destruct (is_space c); [|done]. by rewrite IH.
Qed.

Lemma ltrim_blank s : ltrim s = "" <-> blank s = true.
Proof.
  induction s as [|c s IH]; simpl; [done|].
  destruct (is_space c); simpl; [done|]. split; done.
Qed.

(** [!s.trim()] holds exactly of the strings of white space. *)
Lemma trim_empty s : trim s = "" <-> blank s = true.
Proof.
  unfold trim. split.
  - intros H%rtrim_empty. revert H. induction s as [|c s IH]; simpl; [done|].
    destruct (is_space c) eqn:E; simpl; [done|]. by rewrite E.
  - intros H. by apply ltrim_blank in H as ->.
Qed.

(** * Grouping *)

Lemma group_by_snoc {V} (key : V -> string) xs x :
  group_by key (xs ++ [x]) = push_at (group_by key xs) (key x) x.
Proof. unfold group_by. by rewrite fold_left_app. Qed.

Lemma NoDup_group_by {V} (key : V -> string) xs : NoDup (okeys (group_by key xs)).
Proof.
  induction xs as [|x xs IH] using rev_ind; [constructor|].
  rewrite group_by_snoc. by apply NoDup_oset.
Qed.

(** The group of [k]: the elements with that key, in their order. *)
Lemma oget_group_by {V} (key : V -> string) xs k :
  oget (group_by key xs) k =
  match filter_by (fun x => bool_decide (key x = k)) xs with [] => None | l => Some l end.
Proof.
  induction xs as [|x xs IH] using rev_ind; [done|].
  rewrite group_by_snoc, filter_by_app. unfold push_at. rewrite oget_oset. simpl.
  case_decide as H; subst.
  - rewrite IH. rewrite bool_decide_true by done. by destruct (filter_by _ xs).
  - rewrite bool_decide_false by done. by rewrite app_nil_r.
Qed.

Lemma push_at_perm {V} (o : obj (list V)) k v :
  concat (map snd (push_at o k v)) ≡ₚ v :: concat (map snd o).
Proof.
  unfold push_at. induction o as [|[k' l] o IH]; simpl; [done|].
  case_decide; simpl.
  - rewrite <- app_assoc. simpl. by rewrite Permutation_middle.
  - rewrite IH. by rewrite Permutation_middle.
Qed.

(** Grouping neither drops nor repeats an element. *)
Lemma group_by_perm {V} (key : V -> string) xs : concat (map snd (group_by key xs)) ≡ₚ xs.
Proof.
  induction xs as [|x xs IH] using rev_ind; [done|].
  rewrite group_by_snoc, push_at_perm, IH. by rewrite Permutation_cons_append.
Qed.

Lemma group_by_key {V} (key : V -> string) xs k l x :
  (k, l) ∈ group_by key xs -> x ∈ l -> key x = k.
Proof.
  intros Hk Hx. apply (oget_elem _ _ _ (NoDup_group_by key xs)) in Hk.
  rewrite oget_group_by in Hk. destruct (filter_by _ xs) eqn:E; [done|].
  injection Hk as <-. rewrite <- E in Hx. by apply elem_of_filter_by in Hx as [Hx%bool_decide_eq_true _].
Qed.

#[export] Hint Rewrite includes_true includes_false truthy_true truthy_false trim_empty : js.
#[export] Hint Resolve NoDup_unique NoDup_toggle NoDup_filter_by NoDup_oset NoDup_ospread NoDup_group_by : js.
