(* ===== verification/Js.v ===== *)
(** JSON values, the number conversion the pages use, thrown values, and the
    requests a page hands to [apiRequest]. *)
From S2P Require Import Prelude.

(** * Numbers

    [Dec m e] is the number m * 10^e before its rounding to a double. *)

Inductive num :=
| NaN
| Infinity (negative : bool)
| Dec (m e : Z).

Definition int (z : Z) : num := Dec z 0.

Definition is_digit (c : ascii) : bool := (48 <=? byte c) && (byte c <=? 57).

(** The longest prefix of digits read in base ten from [acc], the number of
    digits read, and the rest. *)
Fixpoint read_digits (acc : Z) (n : Z) (s : string) : Z * Z * string :=
  match s with
  | String c s' =>
      if is_digit c then read_digits (acc * 10 + (byte c - 48)) (n + 1) s'
      else (acc, n, s)
  | EmptyString => (acc, n, s)
  end.

(** A sign, and the rest. *)
Definition read_sign (s : string) : bool * string :=
  match s with
  | String c s' =>
      if decide (byte c = 45) then (true, s')
      else if decide (byte c = 43) then (false, s')
      else (false, s)
  | EmptyString => (false, s)
  end.

(** The exponent part, absent or well formed to the end of the text. *)
Definition read_exponent (s : string) : option Z :=
  match s with
  | EmptyString => Some 0
  | String c s' =>
      if decide (byte c = 101 \/ byte c = 69) then
        let '(neg, s1) := read_sign s' in
        let '(v, n, rest) := read_digits 0 0 s1 in
        if (0 <? n) && bool_decide (rest = "") then Some (if neg then - v else v)
        else None
      else None
  end.

Definition read_decimal (s : string) : option (Z * Z) :=
  let '(ip, n1, s1) := read_digits 0 0 s in
  let '(m, n2, s2) :=
    match s1 with
    | String c s' => if decide (byte c = 46) then read_digits ip 0 s' else (ip, 0, s1)
    | EmptyString => (ip, 0, s1)
    end in
  if 0 <? n1 + n2 then
    match read_exponent s2 with
    | Some e => Some (m, e - n2)
    | None => None
    end
  else None.

Definition radix_digit (c : ascii) : option Z :=
  let b := byte c in
  if (48 <=? b) && (b <=? 57) then Some (b - 48)
  else if (97 <=? b) && (b <=? 102) then Some (b - 87)
  else if (65 <=? b) && (b <=? 70) then Some (b - 55)
  else None.

Fixpoint read_radix (r acc : Z) (s : string) : option Z :=
  match s with
  | EmptyString => Some acc
  | String c s =>
      match radix_digit c with
      | Some d => if d <? r then read_radix r (acc * r + d) s else None
      | None => None
      end
  end.

(** A literal in base 16, 8 or 2: no sign, at least one digit. *)
Definition read_prefixed (s : string) : option Z :=
  match s with
  | String z (String x (String d s')) =>
      if decide (byte z = 48) then
        let r := if decide (byte x = 120 \/ byte x = 88) then 16
                 else if decide (byte x = 111 \/ byte x = 79) then 8
                 else if decide (byte x = 98 \/ byte x = 66) then 2 else 0 in
        if 0 <? r then read_radix r 0 (String d s') else None
      else None
  | _ => None
  end.

(** [Number(s)] on a string. *)
Definition Number (s : string) : num :=
  let t := trim s in
  if decide (t = "") then int 0
  else match read_prefixed t with
  | Some v => int v
  | None =>
      let '(neg, u) := read_sign t in
      if decide (u = "Infinity") then Infinity neg
      else match read_decimal u with
      | Some (m, e) => Dec (if neg then - m else m) e
      | None => NaN
      end
  end.

(** Removes the factors of ten of a positive mantissa. *)
Fixpoint strip_zeros (fuel : nat) (m e : Z) : Z * Z :=
  match fuel with
  | S fuel => if (m mod 10 =? 0) && negb (m =? 0) then strip_zeros fuel (m / 10) (e + 1)
              else (m, e)
  | O => (m, e)
  end.

Fixpoint zeros (n : nat) : string :=
  match n with O => "" | S n => String (ascii_of_nat 48) (zeros n) end.

Fixpoint drop (n : nat) (s : string) : string :=
  match n, s with
  | S n, String _ s => drop n s
  | _, _ => s
  end.

(** The decimal text of a number, as the language prints it. *)
Definition num_text (x : num) : string :=
  match x with
  | NaN => "NaN"
  | Infinity false => "Infinity"
  | Infinity true => "-Infinity"
  | Dec m e =>
      if m =? 0 then "0" else
      let '(a, e') := strip_zeros (Z.to_nat (Z.log2_up (Z.abs m) + 1)) (Z.abs m) e in
      let ds := pretty a in
      let k := Z.of_nat (String.length ds) in
      let n := k + e' in
      let sign := if m <? 0 then "-" else "" in
      sign +:+
      (if (k <=? n) && (n <=? 21) then ds +:+ zeros (Z.to_nat (n - k))
       else if (0 <? n) && (n <=? 21) then
         slice0 (Z.to_nat n) ds +:+ "." +:+ drop (Z.to_nat n) ds
       else if (-6 <? n) && (n <=? 0) then "0." +:+ zeros (Z.to_nat (- n)) +:+ ds
       else
         slice0 1 ds +:+ (if 1 <? k then "." +:+ drop 1 ds else "") +:+
         "e" +:+ (if n - 1 <? 0 then "-" else "+") +:+ pretty (Z.abs (n - 1)))
  end.

(** * JSON *)

Inductive json :=
| JNull
| JBool (b : bool)
| JNum (n : num)
| JStr (s : string)
| JArr (xs : list json)
| JObj (fields : list (string * json)).

Definition hex_digit (n : Z) : ascii :=
  ascii_of_nat (Z.to_nat (if n <? 10 then 48 + n else 87 + n)).

(** One character of a JSON string literal. *)
Definition json_char (c : ascii) : string :=
  let b := byte c in
  let esc (k : Z) := String backslash (String (ascii_of_nat (Z.to_nat k)) "") in
  if decide (c = quote \/ c = backslash) then String backslash (String c "")
  else if b =? 8 then esc 98 else if b =? 9 then esc 116 else if b =? 10 then esc 110
  else if b =? 12 then esc 102 else if b =? 13 then esc 114
  else if b <? 32 then
    esc 117 +:+ "00" +:+ String (hex_digit (b / 16)) (String (hex_digit (b mod 16)) "")
  else String c "".

Fixpoint json_chars (s : string) : string :=
  match s with
  | EmptyString => ""
  | String c s => json_char c +:+ json_chars s
  end.

Definition json_string (s : string) : string :=
  String quote "" +:+ json_chars s +:+ String quote "".

Fixpoint join (sep : string) (xs : list string) : string :=
  match xs with
  | [] => ""
  | [x] => x
  | x :: xs => x +:+ sep +:+ join sep xs
  end.

(** [JSON.stringify(v)] *)
Fixpoint stringify (v : json) : string :=
  match v with
  | JNull => "null"
  | JBool true => "true"
  | JBool false => "false"
  | JNum (Dec m e) => num_text (Dec m e)
  | JNum _ => "null"
  | JStr s => json_string s
  | JArr xs => "[" +:+ join "," (map stringify xs) +:+ "]"
  | JObj kvs =>
      "{" +:+ join "," (map (fun kv => json_string kv.1 +:+ ":" +:+ stringify kv.2) kvs) +:+ "}"
  end.

Definition jstrs (xs : list string) : json := JArr (map JStr xs).

Definition jfield (v : json) (k : string) : option json :=
  match v with JObj kvs => oget kvs k | _ => None end.

(** * Requests and thrown values *)

(** What a caller passes to [apiRequest]: the method, the path and the body. *)
Record request := Request {
  req_method : string;
  req_path : string;
  req_body : option json;
}.

Definition GET (p : string) : request := Request "GET" p None.
Definition POST (p : string) (b : json) : request := Request "POST" p (Some b).
Definition PUT (p : string) (b : json) : request := Request "PUT" p (Some b).
Definition PATCH (p : string) (b : json) : request := Request "PATCH" p (Some b).
Definition DELETE (p : string) : request := Request "DELETE" p None.

(** A thrown value: the client's [ApiError], another [Error], or anything else. *)
Inductive thrown :=
| ApiError (status : Z) (code detail : string)
| OtherError (message : string)
| NotAnError.

(** The outcome of an awaited promise. *)
Inductive result (X : Type) :=
| Ok (x : X)
| Threw (e : thrown).
Arguments Ok {X} x.
Arguments Threw {X} e.

(** * The text of a natural number *)

Lemma digit_char m : (m < 10)%N ->
  is_digit (pretty_N_char m) = true /\ byte (pretty_N_char m) - 48 = Z.of_N m.
Proof.
  intros Hm. assert (Hin : m ∈ [0; 1; 2; 3; 4; 5; 6; 7; 8; 9]%N) by (rewrite !elem_of_cons; lia).
  rewrite !elem_of_cons in Hin.
  repeat destruct Hin as [->|Hin]; try (split; reflexivity). by apply not_elem_of_nil in Hin.
Qed.

Lemma read_digits_go x s : exists d, 0 <= d /\ (x <> 0%N -> 0 < d) /\
  read_digits 0 0 (pretty_N_go x s) = read_digits (Z.of_N x) d s.
Proof.
  revert s. induction x as [x IH] using (well_founded_ind N.lt_wf_0). intros s.
  destruct (decide (x = 0)%N) as [->|Hx].
  - exists 0. rewrite pretty_N_go_0. done.
  - rewrite pretty_N_go_step by lia.
    destruct (IH (x `div` 10)%N ltac:(apply N.div_lt; lia)
      (String (pretty_N_char (x `mod` 10)) s)) as (d & Hd & _ & ->).
    exists (d + 1). split; [lia|]. split; [lia|].
    pose proof (N.mod_lt x 10 ltac:(lia)) as Hm.
    destruct (digit_char _ Hm) as [Hc1 Hc2]. cbn [read_digits]. rewrite Hc1, Hc2.
    f_equal. rewrite N2Z.inj_div, N2Z.inj_mod.
    pose proof (Z.div_mod (Z.of_N x) 10 ltac:(lia)). lia.
Qed.

Lemma read_sign_digits s : match s with String c _ => is_digit c = true | "" => False end ->
  read_sign s = (false, s).
Proof.
  destruct s as [|c s]; [done|]. unfold is_digit. simpl. intros [H1 H2]%andb_prop.
  rewrite !decide_False by lia. done.
Qed.

Lemma go_digit x c s : is_digit c = true ->
  exists c' s', pretty_N_go x (String c s) = String c' s' /\ is_digit c' = true.
Proof.
  revert c s. induction x as [x IH] using (well_founded_ind N.lt_wf_0). intros c s Hc.
  destruct (decide (x = 0)%N) as [->|Hx]; [rewrite pretty_N_go_0; eauto|].
  rewrite pretty_N_go_step by lia. apply IH; [apply N.div_lt; lia|].
  apply digit_char, N.mod_lt. lia.
Qed.

Example number_int : Number " 587 " = Dec 587 0.
Proof. reflexivity. Qed.
Example number_frac : num_text (Number "-0.50") = "-0.5".
Proof. reflexivity. Qed.
Example number_word : Number "58x" = NaN.
Proof. reflexivity. Qed.
Example number_hex : num_text (Number "0x1F") = "31".
Proof. reflexivity. Qed.
Example number_exp : num_text (Number "1.5e3") = "1500".
Proof. reflexivity. Qed.
Example stringify_obj :
  stringify (JObj [("a", JNum NaN); ("b", JArr [JStr "x"; JBool true])])
  = String.concat (String quote "") ["{"; "a"; ":null,"; "b"; ":["; "x"; ",true]}"].
Proof. reflexivity. Qed.
