(* ===== verification/Json.v ===== *)
(** [JSON.parse], [JSON.stringify] with an indentation, and [atob]: the texts the
    settings and the permissions pages read and write.  The parser is a lexer, one
    character at a time, and a stack machine on its tokens, so that neither needs
    fuel; [parse_show] and [parse_stringify] are the round trips. *)
From S2P Require Import Prelude Js.

(** * Tokens *)

(** A character of a string literal, or a code unit written with an escape. *)
Inductive unit_ := Raw (c : ascii) | Code (z : Z).

(** The UTF-8 bytes of a code point. *)
Definition utf8 (z : Z) : string :=
  let chr b := ascii_of_nat (Z.to_nat b) in
  let tail k := chr (128 + Z.land (Z.shiftr z k) 63) in
  if z <? 128 then String (chr z) ""
  else if z <? 2048 then String (chr (192 + Z.shiftr z 6)) (String (tail 0) "")
  else if z <? 65536 then
    String (chr (224 + Z.shiftr z 12)) (String (tail 6) (String (tail 0) ""))
  else
    String (chr (240 + Z.shiftr z 18)) (String (tail 12) (String (tail 6) (String (tail 0) ""))).

Definition high_surrogate (z : Z) : bool := (55296 <=? z) && (z <=? 56319).
Definition low_surrogate (z : Z) : bool := (56320 <=? z) && (z <=? 57343).

(** The text of a literal: two surrogates that follow each other are one character. *)
Fixpoint text (us : list unit_) : string :=
  match us with
  | [] => ""
  | Raw c :: us => String c (text us)
  | Code h :: us =>
      match us with
      | Code l :: us' =>
          if high_surrogate h && low_surrogate l
          then utf8 (65536 + (h - 55296) * 1024 + (l - 56320)) +:+ text us'
          else utf8 h +:+ text us
      | _ => utf8 h +:+ text us
      end
  end.

Inductive token :=
| TPunct (c : ascii)
| TStr (s : string)
| TVal (v : json).

(** A number: no plus sign, no leading zero, digits on both sides of the point. *)
Definition json_number (s : string) : option num :=
  let '(neg, u) :=
    match s with
    | String c s' => if decide (byte c = 45) then (true, s') else (false, s)
    | EmptyString => (false, s)
    end in
  let '(ip, n1, s1) := read_digits 0 0 u in
  let leading := match u with String c _ => bool_decide (byte c = 48) | EmptyString => false end in
  if (n1 =? 0) || (leading && (1 <? n1)) then None else
  let '(m, n2, s2, ok) :=
    match s1 with
    | String c s' =>
        if decide (byte c = 46) then
          let '(m, n2, s2) := read_digits ip 0 s' in (m, n2, s2, 0 <? n2)
        else (ip, 0, s1, true)
    | EmptyString => (ip, 0, s1, true)
    end in
  if ok then
    match read_exponent s2 with
    | Some e => Some (Dec (if neg then - m else m) (e - n2))
    | None => None
    end
  else None.

(** A literal or a number. *)
Definition scalar (w : string) : option json :=
  if decide (w = "null") then Some JNull
  else if decide (w = "true") then Some (JBool true)
  else if decide (w = "false") then Some (JBool false)
  else option_map JNum (json_number w).

Inductive lexstate :=
| Idle (out : list token)
| InWord (out : list token) (w : string)
| InStr (out : list token) (us : list unit_)
| InEsc (out : list token) (us : list unit_)
| InHex (out : list token) (us : list unit_) (k : nat) (v : Z).

Definition json_space (c : ascii) : bool :=
  (byte c =? 32) || (byte c =? 9) || (byte c =? 10) || (byte c =? 13).

Definition json_punct (c : ascii) : bool :=
  (byte c =? 91) || (byte c =? 93) || (byte c =? 123) || (byte c =? 125)
  || (byte c =? 44) || (byte c =? 58).

(** A character between two tokens. *)
Definition lex_idle (out : list token) (c : ascii) : lexstate :=
  if json_space c then Idle out
  else if json_punct c then Idle (out ++ [TPunct c])
  else if decide (c = quote) then InStr out []
  else InWord out (String c "").

(** The character an escape stands for. *)
Definition escaped (c : ascii) : option ascii :=
  if decide (c = quote \/ c = backslash) then Some c
  else let b := byte c in
  if b =? 47 then Some c
  else if b =? 98 then Some (ascii_of_nat 8) else if b =? 102 then Some (ascii_of_nat 12)
  else if b =? 110 then Some (ascii_of_nat 10) else if b =? 114 then Some (ascii_of_nat 13)
  else if b =? 116 then Some (ascii_of_nat 9) else None.

Definition lex_char (st : lexstate) (c : ascii) : option lexstate :=
  match st with
  | Idle out => Some (lex_idle out c)
  | InWord out w =>
      if json_space c || json_punct c || bool_decide (c = quote) then
        match scalar w with
        | Some v => Some (lex_idle (out ++ [TVal v]) c)
        | None => None
        end
      else Some (InWord out (w +:+ String c ""))
  | InStr out us =>
      if decide (c = quote) then Some (Idle (out ++ [TStr (text us)]))
      else if decide (c = backslash) then Some (InEsc out us)
      else if byte c <? 32 then None
      else Some (InStr out (us ++ [Raw c]))
  | InEsc out us =>
      match escaped c with
      | Some d => Some (InStr out (us ++ [Raw d]))
      | None => if byte c =? 117 then Some (InHex out us 4 0) else None
      end
  | InHex out us k v =>
      match k, radix_digit c with
      | S O, Some d => Some (InStr out (us ++ [Code (v * 16 + d)]))
      | S k, Some d => Some (InHex out us k (v * 16 + d))
      | _, _ => None
      end
  end.

Fixpoint lex_from (st : lexstate) (s : string) : option lexstate :=
  match s with
  | EmptyString => Some st
  | String c s => match lex_char st c with Some st => lex_from st s | None => None end
  end.

(** The tokens at the end of the text. *)
Definition flush (st : lexstate) : option (list token) :=
  match st with
  | Idle out => Some out
  | InWord out w => match scalar w with Some v => Some (out ++ [TVal v]) | None => None end
  | _ => None
  end.

Definition lex (s : string) : option (list token) :=
  match lex_from (Idle []) s with Some st => flush st | None => None end.

(** * Values *)

Inductive frame :=
| FArr (xs : list json)
| FObj (fs : obj json)
| FKey (fs : obj json) (k : string).

(** What the next token can be: a value, a value or the end of an empty array, a key,
    a key or the end of an empty object, a colon, what follows a value, or nothing. *)
Inductive expect := EValue | EFirst | EKey | EKeyFirst | EColon | ENext | EDone (v : json).

Definition pstate := (expect * list frame)%type.

(** A value is complete; the last one of a key that is given twice wins. *)
Definition complete (v : json) (st : list frame) : option pstate :=
  match st with
  | [] => Some (EDone v, [])
  | FArr xs :: st => Some (ENext, FArr (xs ++ [v]) :: st)
  | FKey fs k :: st => Some (ENext, FObj (oset fs k v) :: st)
  | FObj _ :: _ => None
  end.

Definition step (p : pstate) (t : token) : option pstate :=
  let '(e, st) := p in
  match e, t with
  | (EValue | EFirst), TStr s => complete (JStr s) st
  | (EValue | EFirst), TVal v => complete v st
  | (EKey | EKeyFirst), TStr k =>
      match st with FObj fs :: st => Some (EColon, FKey fs k :: st) | _ => None end
  | _, TPunct c =>
      let b := byte c in
      match e, st with
      | EFirst, FArr xs :: st' =>
          if b =? 93 then complete (JArr xs) st'
          else if b =? 91 then Some (EFirst, FArr [] :: st)
          else if b =? 123 then Some (EKeyFirst, FObj [] :: st) else None
      | (EValue | EFirst), _ =>
          if b =? 91 then Some (EFirst, FArr [] :: st)
          else if b =? 123 then Some (EKeyFirst, FObj [] :: st) else None
      | EKeyFirst, FObj fs :: st => if b =? 125 then complete (JObj fs) st else None
      | EColon, _ => if b =? 58 then Some (EValue, st) else None
      | ENext, FArr xs :: st' =>
          if b =? 44 then Some (EValue, st) else if b =? 93 then complete (JArr xs) st' else None
      | ENext, FObj fs :: st' =>
          if b =? 44 then Some (EKey, st) else if b =? 125 then complete (JObj fs) st' else None
      | _, _ => None
      end
  | _, _ => None
  end.

Fixpoint run (p : pstate) (ts : list token) : option pstate :=
  match ts with
  | [] => Some p
  | t :: ts => match step p t with Some p => run p ts | None => None end
  end.

(** [JSON.parse(s)]; [None] is its [SyntaxError]. *)
Definition parse (s : string) : option json :=
  match lex s with
  | Some ts => match run (EValue, []) ts with Some (EDone v, _) => Some v | _ => None end
  | None => None
  end.

(** * Printing with an indentation *)

Definition newline_ (ind : string) : string := String newline ind.

(** [JSON.stringify(v, null, 2)], from the indentation of the line it is on. *)
Fixpoint show (ind : string) (v : json) : string :=
  let inner := ind +:+ "  " in
  match v with
  | JArr [] => "[]"
  | JArr xs =>
      "[" +:+ newline_ inner +:+ join ("," +:+ newline_ inner) (map (show inner) xs) +:+ newline_ ind +:+ "]"
  | JObj [] => "{}"
  | JObj kvs =>
      "{" +:+ newline_ inner
      +:+ join ("," +:+ newline_ inner)
            (map (fun kv => json_string kv.1 +:+ ": " +:+ show inner kv.2) kvs)
      +:+ newline_ ind +:+ "}"
  | _ => stringify v
  end.

(** * Base64 *)

Definition base64_digit (c : ascii) : option Z :=
  let b := byte c in
  if (65 <=? b) && (b <=? 90) then Some (b - 65)
  else if (97 <=? b) && (b <=? 122) then Some (b - 71)
  else if (48 <=? b) && (b <=? 57) then Some (b + 4)
  else if b =? 43 then Some 62 else if b =? 47 then Some 63 else None.

Fixpoint sextets (digit : ascii -> option Z) (s : string) : option (list Z) :=
  match s with
  | EmptyString => Some []
  | String c s =>
      match digit c, sextets digit s with Some d, Some ds => Some (d :: ds) | _, _ => None end
  end.

(** Three bytes of four digits; two of the last three, one of the last two. *)
Fixpoint octets (ds : list Z) : option (list Z) :=
  match ds with
  | a :: b :: c :: d :: ds =>
      let n := a * 262144 + b * 4096 + c * 64 + d in
      option_map (fun os => n / 65536 :: n / 256 mod 256 :: n mod 256 :: os) (octets ds)
  | [a; b; c] => let n := a * 4096 + b * 64 + c in Some [n / 1024; n / 4 mod 256]
  | [a; b] => Some [(a * 64 + b) / 16]
  | [_] => None
  | [] => Some []
  end.

(** Without its white space, and without one or two equal signs that complete the
    last group. *)
Definition strip_padding (s : string) : string :=
  let keep := fix keep s :=
    match s with
    | String c s => if json_space c || (byte c =? 12) then keep s else String c (keep s)
    | EmptyString => ""
    end in
  let s := keep s in
  let n := String.length s in
  if decide (n mod 4 = 0 /\ n <> 0)%nat then
    if bool_decide (String.substring (n - 2) 2 s = "==") then slice0 (n - 2) s
    else if bool_decide (String.substring (n - 1) 1 s = "=") then slice0 (n - 1) s else s
  else s.

(** [atob(s)]: each byte is a character; [None] is its exception. *)
Definition atob (s : string) : option string :=
  match sextets base64_digit (strip_padding s) with
  | Some ds => option_map (fun os => fold_right (fun z t => utf8 z +:+ t) "" os) (octets ds)
  | None => None
  end.

Example parse_example :
  parse (String.concat (String quote "") [" {"; "a\u00e9"; " : [1, -2.5e1,true ] ,"; "b"; ":"; "\n"; "}"])
  = Some (JObj [("a" +:+ utf8 233, JArr [JNum (int 1); JNum (Dec (-25) 0); JBool true]);
                ("b", JStr (String newline ""))]).
Proof. vm_compute. reflexivity. Qed.
Example parse_errors : map parse [""; "01"; "[1,]"; "1 2"; "{a:1}"; "+1"; "1."; "nul"] = repeat None 8.
Proof. vm_compute. reflexivity. Qed.
Example atob_example : atob "W3siaWQiOiAxfV0=" = Some (String.concat (String quote "") ["[{"; "id"; ": 1}]"]).
Proof. vm_compute. reflexivity. Qed.

(** * The round trip *)

Section JsonInd.
Variable P : json -> Prop.
Hypothesis Pnull : P JNull.
Hypothesis Pbool : forall b, P (JBool b).
Hypothesis Pnum : forall n, P (JNum n).
Hypothesis Pstr : forall s, P (JStr s).
Hypothesis Parr : forall xs, Forall P xs -> P (JArr xs).
Hypothesis Pobj : forall kvs, Forall (fun kv => P kv.2) kvs -> P (JObj kvs).

Fixpoint json_ind' (v : json) : P v :=
  match v with
  | JNull => Pnull
  | JBool b => Pbool b
  | JNum n => Pnum n
  | JStr s => Pstr s
  | JArr xs =>
      Parr xs ((fix go xs : Forall P xs :=
        match xs with
        | [] => @List.Forall_nil _ P
        | x :: xs => @List.Forall_cons _ P x xs (json_ind' x) (go xs)
        end) xs)
  | JObj kvs =>
      Pobj kvs ((fix go kvs : Forall (fun kv => P kv.2) kvs :=
        match kvs with
        | [] => @List.Forall_nil _ (fun kv => P kv.2)
        | kv :: kvs => @List.Forall_cons _ (fun kv => P kv.2) kv kvs (json_ind' kv.2) (go kvs)
        end) kvs)
  end.
End JsonInd.

(** A value whose text determines it: its numbers are integers a double holds
    exactly, and no object has a key twice. *)
Fixpoint plain (v : json) : Prop :=
  match v with
  | JNum (Dec z e) => e = 0 /\ Z.abs z <= 2 ^ 53
  | JNum _ => False
  | JArr xs => fold_right (fun x P => plain x /\ P) True xs
  | JObj kvs => NoDup (okeys kvs) /\ fold_right (fun kv P => plain kv.2 /\ P) True kvs
  | _ => True
  end.

Fixpoint sep_by (t : token) (tss : list (list token)) : list token :=
  match tss with
  | [] => []
  | [ts] => ts
  | ts :: tss => ts ++ t :: sep_by t tss
  end.

Definition punct (b : nat) : token := TPunct (ascii_of_nat b).

Fixpoint tokens (v : json) : list token :=
  match v with
  | JStr s => [TStr s]
  | JArr xs => punct 91 :: sep_by (punct 44) (map tokens xs) ++ [punct 93]
  | JObj kvs =>
      punct 123 :: sep_by (punct 44) (map (fun kv => TStr kv.1 :: punct 58 :: tokens kv.2) kvs)
      ++ [punct 125]
  | _ => [TVal v]
  end.

(** The stack machine on the tokens of a value. *)

Definition then_run (p : option pstate) (ts : list token) : option pstate :=
  match p with Some p => run p ts | None => None end.

Definition runs (v : json) : Prop :=
  forall e st ts, e = EValue \/ e = EFirst -> run (e, st) (tokens v ++ ts) = then_run (complete v st) ts.

Lemma run_elements xs e acc st ts : xs <> [] -> Forall runs xs -> e = EValue \/ e = EFirst ->
  run (e, FArr acc :: st) (sep_by (punct 44) (map tokens xs) ++ punct 93 :: ts)
  = then_run (complete (JArr (acc ++ xs)) st) ts.
Proof.
  intros Hne HF. revert e acc Hne. induction HF as [|x xs Hx HF IH]; intros e acc Hne He; [done|].
  destruct xs as [|y xs].
  - cbn [map sep_by]. rewrite Hx by done. reflexivity.
  - change (sep_by (punct 44) (map tokens (x :: y :: xs)))
      with (tokens x ++ punct 44 :: sep_by (punct 44) (map tokens (y :: xs))).
    rewrite <- app_assoc, Hx by done. cbn [complete then_run].
    rewrite <- app_comm_cons. change (run (ENext, ?s) (punct 44 :: ?r)) with (run (EValue, s) r).
    rewrite IH by auto. by rewrite <- app_assoc.
Qed.

Lemma run_fields kvs e acc st ts : kvs <> [] -> Forall (fun kv => runs kv.2) kvs ->
  e = EKey \/ e = EKeyFirst -> NoDup (okeys (acc ++ kvs)) ->
  run (e, FObj acc :: st)
    (sep_by (punct 44) (map (fun kv => TStr kv.1 :: punct 58 :: tokens kv.2) kvs) ++ punct 125 :: ts)
  = then_run (complete (JObj (acc ++ kvs)) st) ts.
Proof.
  intros Hne HF. revert e acc Hne.
  induction HF as [|[k v] kvs Hv HF IH]; intros e acc Hne He Hnd; [done|].
  assert (Hset : oset acc k v = acc ++ [(k, v)]).
  { apply oset_fresh. intros Hin. unfold okeys in Hnd. rewrite map_app in Hnd.
    apply NoDup_app in Hnd as (_ & Hd & _). apply (Hd k Hin). simpl. left. }
  assert (Hkey : forall r, run (e, FObj acc :: st) (TStr k :: punct 58 :: r)
    = run (EValue, FKey acc k :: st) r) by (by destruct He as [-> | ->]).
  destruct kvs as [|kv' kvs].
  - cbn [map sep_by fst snd]. rewrite <- !app_comm_cons, Hkey, Hv by auto.
    cbn [complete then_run snd]. by rewrite Hset.
  - cbn [map sep_by fst snd] in IH |- *. rewrite <- !app_comm_cons, <- app_assoc, Hkey, Hv by auto.
    cbn [complete then_run snd]. rewrite Hset. rewrite <- app_comm_cons.
    change (run (ENext, ?s) (punct 44 :: ?r)) with (run (EKey, s) r). rewrite (IH EKey); auto;
      rewrite <- app_assoc; done.
Qed.

Lemma plain_arr xs : plain (JArr xs) <-> Forall plain xs.
Proof.
  simpl. induction xs as [|x xs IH]; simpl; [by rewrite Forall_nil|]. by rewrite Forall_cons, IH.
Qed.

Lemma plain_obj kvs : plain (JObj kvs) <-> NoDup (okeys kvs) /\ Forall (fun kv => plain kv.2) kvs.
Proof.
  simpl. apply and_iff_compat_l.
  induction kvs as [|kv kvs IH]; simpl; [by rewrite Forall_nil|]. by rewrite Forall_cons, IH.
Qed.

Lemma Forall_mp {A} (P Q : A -> Prop) xs : Forall (fun x => P x -> Q x) xs -> Forall P xs -> Forall Q xs.
Proof. intros HF HP. eapply Forall_impl; [apply Forall_and; split; [exact HF|exact HP]|]. simpl. tauto. Qed.

Lemma run_tokens v : plain v -> runs v.
Proof.
  induction v as [| | | |xs IH|kvs IH] using json_ind'; intros Hp e st ts He;
    try (by destruct He as [-> | ->]).
  - apply plain_arr in Hp. specialize (Forall_mp _ _ _ IH Hp) as HF.
    assert (Hopen : forall r, run (e, st) (punct 91 :: r) = run (EFirst, FArr [] :: st) r).
    { intros r. by destruct He as [-> | ->]; destruct st as [|[] ?]. }
    cbn [tokens]. rewrite <- app_comm_cons, Hopen, <- app_assoc. cbn [app].
    destruct xs as [|x xs]; [reflexivity|].
    by rewrite (run_elements (x :: xs)) by auto.
  - apply plain_obj in Hp as [Hnd Hp]. specialize (Forall_mp _ _ _ IH Hp) as HF.
    assert (Hopen : forall r, run (e, st) (punct 123 :: r) = run (EKeyFirst, FObj [] :: st) r).
    { intros r. by destruct He as [-> | ->]; destruct st as [|[] ?]. }
    cbn [tokens]. rewrite <- app_comm_cons, Hopen, <- app_assoc. cbn [app].
    destruct kvs as [|kv kvs]; [reflexivity|].
    by rewrite (run_fields (kv :: kvs)) by auto.
Qed.

(** The lexer. *)

Lemma lex_from_app st a b :
  lex_from st (a +:+ b) = match lex_from st a with Some st => lex_from st b | None => None end.
Proof.
  revert st. induction a as [|c a IH]; intros st; [done|].
  rewrite app_cons_str. cbn [lex_from].
  destruct (lex_char st c); [apply IH|done].
Qed.

(** The state after the last token of a text. *)
Inductive at_end (out : list token) : lexstate -> Prop :=
| end_idle : at_end out (Idle out)
| end_word out' w v : scalar w = Some v -> out = out' ++ [TVal v] -> at_end out (InWord out' w).

Definition delimiter (c : ascii) : bool := json_space c || json_punct c.

Lemma at_end_flush out st : at_end out st -> flush st = Some out.
Proof. intros [|out' w v Hw ->]; simpl; [done|by rewrite Hw]. Qed.

Lemma at_end_next out st c : at_end out st -> delimiter c = true -> lex_char st c = Some (lex_idle out c).
Proof.
  unfold delimiter. intros [|out' w v Hw ->] Hc; simpl; [done|]. by rewrite Hc, Hw.
Qed.

(** The text [s] is read as the tokens [ts]. *)
Definition lexes (s : string) (ts : list token) : Prop :=
  forall out, exists st, lex_from (Idle out) s = Some st /\ at_end (out ++ ts) st.

Lemma lexes_then s ts c r out : lexes s ts -> delimiter c = true ->
  lex_from (Idle out) (s +:+ String c r) = lex_from (lex_idle (out ++ ts) c) r.
Proof.
  intros Hs Hc. destruct (Hs out) as (st & Hl & He). rewrite lex_from_app, Hl. cbn [lex_from].
  by rewrite (at_end_next _ _ _ He Hc).
Qed.

(** White space is skipped. *)
Definition skipped (s : string) : Prop := forall out, lex_from (Idle out) s = Some (Idle out).

Lemma skip s r out : skipped s -> lex_from (Idle out) (s +:+ r) = lex_from (Idle out) r.
Proof. intros Hs. by rewrite lex_from_app, Hs. Qed.

Fixpoint white (s : string) : bool :=
  match s with EmptyString => true | String c s => json_space c && white s end.

Lemma white_char c out : json_space c = true -> lex_idle out c = Idle out.
Proof. intros H. unfold lex_idle. by rewrite H. Qed.

Lemma white_skipped s : white s = true -> skipped s.
Proof.
  induction s as [|c s IH]; intros H out; [done|]. apply andb_prop in H as [Hc Hs].
  cbn [lex_from lex_char]. rewrite white_char by done. by apply IH.
Qed.

Lemma white_indent s : white s = true -> white (s +:+ "  ") = true.
Proof. induction s as [|c s IH]; [done|]. rewrite app_cons_str. simpl. rewrite !andb_true_iff. naive_solver. Qed.

Lemma lexes_white s ts w : lexes s ts -> white w = true -> lexes (s +:+ w) ts.
Proof.
  intros Hs Hw out. destruct w as [|c w].
  - rewrite app_str_nil. apply Hs.
  - apply andb_prop in Hw as [Hc Hw]. rewrite (lexes_then _ _ _ _ _ Hs) by (unfold delimiter; by rewrite Hc).
    rewrite white_char by done. exists (Idle (out ++ ts)). split; [by apply white_skipped|constructor].
Qed.

Definition unit_of (c : ascii) : unit_ :=
  if (byte c <? 32) && negb (bool_decide (byte c ∈ [8; 9; 10; 12; 13])) then Code (byte c) else Raw c.

Lemma lex_json_char c r out us :
  lex_from (InStr out us) (json_char c +:+ r) = lex_from (InStr out (us ++ [unit_of c])) r.
Proof. destruct c as [[] [] [] [] [] [] [] []]; reflexivity. Qed.

Lemma text_unit_of c us : text (unit_of c :: us) = String c (text us).
Proof. destruct c as [[] [] [] [] [] [] [] []]; destruct us as [|[] ?]; reflexivity. Qed.

Lemma lex_json_chars s r out us : exists us', text us' = s /\
  lex_from (InStr out us) (json_chars s +:+ r) = lex_from (InStr out (us ++ us')) r.
Proof.
  revert us. induction s as [|c s IH]; intros us.
  - exists []. by rewrite app_nil_r.
  - destruct (IH (us ++ [unit_of c])) as (us' & Ht & Hl). exists (unit_of c :: us').
    split; [by rewrite text_unit_of, Ht|]. cbn [json_chars].
    rewrite app_str_assoc, lex_json_char, Hl. by rewrite <- app_assoc.
Qed.

Lemma lexes_string s : lexes (json_string s) [TStr s].
Proof.
  intros out. destruct (lex_json_chars s (String quote "") out []) as (us & Ht & Hl).
  unfold json_string. exists (Idle (out ++ [TStr s])). split; [|constructor].
  change (lex_from (Idle out) (String quote "" +:+ ?r)) with (lex_from (InStr out []) r).
  rewrite Hl. simpl. by rewrite Ht.
Qed.

(** Values with parts. *)

Lemma lexes_items sep items : white sep = true -> items <> [] ->
  Forall (fun it => lexes it.1 it.2) items ->
  lexes (join ("," +:+ sep) (map fst items)) (sep_by (punct 44) (map snd items)).
Proof.
  intros Hsep Hne HF. induction HF as [|[s ts] items Hs HF IH]; [done|].
  destruct items as [|it items]; [exact Hs|]. intros out.
  change (join ("," +:+ sep) (map fst ((s, ts) :: it :: items)))
    with (s +:+ ("," +:+ sep) +:+ join ("," +:+ sep) (map fst (it :: items))).
  change (sep_by (punct 44) (map snd ((s, ts) :: it :: items)))
    with (ts ++ punct 44 :: sep_by (punct 44) (map snd (it :: items))).
  rewrite !app_str_assoc, app_cons_str, (lexes_then _ _ _ _ _ Hs) by done.
  change ("" +:+ ?t) with t. change (lex_idle ?o ",") with (Idle (o ++ [punct 44])).
  rewrite skip by by apply white_skipped.
  destruct (IH ltac:(done) ((out ++ ts) ++ [punct 44])) as (st & Hl & He). exists st. split; [exact Hl|].
  by rewrite <- !app_assoc in He.
Qed.

(** Items between brackets, with white space after the first and after each comma,
    and before the last. *)
Lemma lexes_group b e first last items : white first = true -> white last = true -> items <> [] ->
  Forall (fun it => lexes it.1 it.2) items ->
  (b = 91 /\ e = 93 \/ b = 123 /\ e = 125)%nat ->
  lexes (String (ascii_of_nat b) ""
         +:+ first +:+ join ("," +:+ first) (map fst items) +:+ last +:+ String (ascii_of_nat e) "")
    (punct b :: sep_by (punct 44) (map snd items) ++ [punct e]).
Proof.
  intros Hfirst Hlast Hne HF Hb out.
  assert (Hopen : forall r, lex_from (Idle out) (String (ascii_of_nat b) "" +:+ r)
    = lex_from (Idle (out ++ [punct b])) r) by (by destruct Hb as [[-> _]|[-> _]]).
  rewrite Hopen, skip by by apply white_skipped.
  pose proof (lexes_white _ _ last (lexes_items first items Hfirst Hne HF) Hlast) as Hitems.
  rewrite <- app_str_assoc, (lexes_then _ _ _ _ _ Hitems) by by destruct Hb as [[-> ->]|[-> ->]].
  replace (out ++ punct b :: sep_by (punct 44) (map snd items) ++ [punct e])
    with (((out ++ [punct b]) ++ sep_by (punct 44) (map snd items)) ++ [punct e])
    by (by rewrite <- !app_assoc).
  eexists. split; [|constructor]. by destruct Hb as [[-> ->]|[-> ->]].
Qed.

Lemma lexes_field k w s ts : white w = true -> lexes s ts ->
  lexes (json_string k +:+ (":" +:+ w) +:+ s) (TStr k :: punct 58 :: ts).
Proof.
  intros Hw Hs out. destruct (Hs (out ++ [TStr k; punct 58])) as (st & Hl & He). exists st.
  change ((":" +:+ w) +:+ s) with (String (ascii_of_nat 58) (w +:+ s)).
  rewrite (lexes_then _ _ _ _ _ (lexes_string k)) by done.
  change (lex_idle ?o (ascii_of_nat 58)) with (Idle (o ++ [punct 58])).
  rewrite skip by by apply white_skipped. rewrite <- app_assoc. split; [exact Hl|].
  by rewrite <- app_assoc in He.
Qed.

(** Numbers. *)

Definition word_char (c : ascii) : bool := negb (delimiter c) && negb (bool_decide (c = quote)).

Fixpoint wordy (s : string) : bool :=
  match s with EmptyString => true | String c s => word_char c && wordy s end.

Lemma lex_word w0 w out : wordy w = true -> lex_from (InWord out w0) w = Some (InWord out (w0 +:+ w)).
Proof.
  revert w0. induction w as [|c w IH]; intros w0 Hw; [by rewrite app_str_nil|].
  cbn [wordy] in Hw. apply andb_prop in Hw as [Hc Hw]. cbn [lex_from lex_char].
  unfold word_char, delimiter in Hc. apply andb_prop in Hc as [H1 H2].
  apply negb_true_iff in H1, H2. rewrite H1, H2. cbn [orb].
  rewrite IH, app_str_assoc by done. done.
Qed.

Lemma lexes_scalar w v : wordy w = true -> scalar w = Some v -> lexes w [TVal v].
Proof.
  intros Hw Hv out. destruct w as [|c w]; [discriminate|].
  exists (InWord out (String c w)). split; [|by econstructor].
  cbn [wordy] in Hw. apply andb_prop in Hw as [Hc Hw]. cbn [lex_from lex_char].
  unfold lex_idle. unfold word_char, delimiter in Hc. apply andb_prop in Hc as [H1 H2].
  apply negb_true_iff in H1, H2. apply orb_false_elim in H1 as [-> ->].
  apply bool_decide_eq_false in H2. rewrite decide_False by done.
  by rewrite lex_word by done.
Qed.

Lemma length_app_str a b : String.length (a +:+ b) = (String.length a + String.length b)%nat.
Proof. induction a as [|c a IH]; [done|]. rewrite app_cons_str. simpl. by rewrite IH. Qed.

Lemma go_app x s : pretty_N_go x s = pretty_N_go x "" +:+ s.
Proof.
  revert s. induction x as [x IH] using (well_founded_ind N.lt_wf_0). intros s.
  destruct (decide (x = 0)%N) as [->|Hx]; [by rewrite !pretty_N_go_0|].
  rewrite (pretty_N_go_step x s), (pretty_N_go_step x "") by lia.
  rewrite IH, (IH _ (N.div_lt x 10 ltac:(lia) eq_refl) (String _ "")) by (apply N.div_lt; lia).
  by rewrite app_str_assoc.
Qed.

Lemma go_step x : (0 < x)%N ->
  pretty_N_go x "" = pretty_N_go (x `div` 10) "" +:+ String (pretty_N_char (x `mod` 10)) "".
Proof. intros Hx. by rewrite pretty_N_go_step, go_app by done. Qed.

Lemma go_ten x : (0 < x)%N -> pretty_N_go (10 * x) "" = pretty_N_go x "" +:+ "0".
Proof.
  intros Hx. rewrite go_step by lia.
  by rewrite N.mul_comm, N.div_mul, N.Div0.mod_mul by done.
Qed.

Lemma pretty_go z : 0 < z -> pretty z = pretty_N_go (Z.to_N z) "".
Proof.
  intros Hz. destruct z as [|p|p]; [lia| |lia].
  change (pretty (Z.pos p)) with (pretty (N.pos p)). unfold pretty, pretty_N. by rewrite decide_False.
Qed.

Lemma zeros_snoc n : zeros n +:+ "0" = zeros (S n).
Proof. induction n as [|n IH]; [done|]. simpl in *. rewrite app_cons_str. by rewrite IH. Qed.

Lemma strip_zeros_text fuel m e : 0 < m -> let '(a, e') := strip_zeros fuel m e in
  0 < a /\ e <= e' /\ pretty m = pretty a +:+ zeros (Z.to_nat (e' - e)).
Proof.
  revert m e. induction fuel as [|fuel IH]; intros m e Hm; simpl.
  - rewrite Z.sub_diag, app_str_nil. auto with lia.
  - destruct ((m mod 10 =? 0) && negb (m =? 0)) eqn:E.
    2: { rewrite Z.sub_diag, app_str_nil. auto with lia. }
    apply andb_prop in E as [E _]. apply Z.eqb_eq in E.
    assert (Hd : m = 10 * (m / 10)) by (apply Z.div_exact; lia).
    specialize (IH (m / 10) (e + 1) ltac:(lia)).
    destruct (strip_zeros fuel (m / 10) (e + 1)) as [a e']. destruct IH as (Ha & He & Hp).
    split; [done|]. split; [lia|].
    rewrite pretty_go by done. replace (Z.to_N m) with (10 * Z.to_N (m / 10))%N by lia.
    rewrite go_ten by lia. rewrite <- pretty_go, Hp, app_str_assoc, zeros_snoc by lia.
    do 2 f_equal. lia.
Qed.

Lemma go_length x : (0 < x)%N ->
  (0 < String.length (pretty_N_go x ""))%nat
  /\ 10 ^ (Z.of_nat (String.length (pretty_N_go x "")) - 1) <= Z.of_N x.
Proof.
  induction x as [x IH] using (well_founded_ind N.lt_wf_0). intros Hx.
  rewrite go_step, length_app_str by done. simpl (String.length (String _ "")).
  split; [lia|]. destruct (decide (x < 10)%N) as [Hs|Hs].
  - rewrite N.div_small by done. rewrite pretty_N_go_0. simpl. lia.
  - destruct (IH (x `div` 10)%N) as [H1 H2]; [apply N.div_lt; lia|apply N.div_str_pos; lia|].
    set (l := String.length _) in *. replace (Z.of_nat (l + 1) - 1) with (Z.succ (Z.of_nat l - 1)) by lia.
    rewrite Z.pow_succ_r by lia. rewrite N2Z.inj_div in H2.
    pose proof (Z.mul_div_le (Z.of_N x) 10). lia.
Qed.

Lemma num_text_pos z : 0 < z <= 2 ^ 53 -> num_text (int z) = pretty z.
Proof.
  intros Hz. unfold num_text, int. replace (z =? 0) with false by lia.
  rewrite Z.abs_eq by lia. pose proof (strip_zeros_text (Z.to_nat (Z.log2_up z + 1)) z 0 ltac:(lia)) as Hs.
  destruct (strip_zeros _ _ _) as [a e']. destruct Hs as (Ha & He & Hp).
  replace (z <? 0) with false by lia. change ("" +:+ ?t) with t.
  assert (Hl : Z.of_nat (String.length (pretty z)) <= 21).
  { rewrite pretty_go by lia. destruct (go_length (Z.to_N z) ltac:(lia)) as [_ H].
    destruct (decide (Z.of_nat (String.length (pretty_N_go (Z.to_N z) "")) <= 21)) as [|Hn]; [done|].
    assert (10 ^ 21 <= 10 ^ (Z.of_nat (String.length (pretty_N_go (Z.to_N z) "")) - 1))
      by (apply Z.pow_le_mono_r; lia). lia. }
  rewrite Hp, length_app_str in Hl. set (k := String.length (pretty a)) in *.
  assert (Hzl : forall n, String.length (zeros n) = n) by (induction n; simpl; congruence).
  rewrite Hzl in Hl. replace ((Z.of_nat k <=? Z.of_nat k + e') && (Z.of_nat k + e' <=? 21)) with true by lia.
  rewrite Hp. do 2 f_equal. lia.
Qed.

Lemma num_text_neg z : num_text (int (Z.neg z)) = "-" +:+ num_text (int (Z.pos z)).
Proof.
  unfold num_text, int. simpl (Z.neg z =? 0). simpl (Z.pos z =? 0). cbv iota.
  simpl (Z.abs _). destruct (strip_zeros _ _ _) as [a e']. done.
Qed.

Lemma go_head x : (0 < x)%N -> exists c s,
  pretty_N_go x "" = String c s /\ 48 < byte c <= 57.
Proof.
  induction x as [x IH] using (well_founded_ind N.lt_wf_0). intros Hx. rewrite go_step by done.
  destruct (decide (x < 10)%N) as [Hs|Hs].
  - rewrite N.div_small, pretty_N_go_0, N.mod_small by done. eexists _, _. split; [reflexivity|].
    destruct (digit_char x Hs) as [_ H]. lia.
  - destruct (IH (x `div` 10)%N) as (c & s & -> & Hc); [apply N.div_lt; lia|apply N.div_str_pos; lia|].
    eexists c, _. by split.
Qed.

Lemma wordy_app a b : wordy (a +:+ b) = wordy a && wordy b.
Proof. induction a as [|c a IH]; [done|]. rewrite app_cons_str. cbn [wordy]. by rewrite IH, andb_assoc. Qed.

Lemma go_wordy x : wordy (pretty_N_go x "") = true.
Proof.
  induction x as [x IH] using (well_founded_ind N.lt_wf_0).
  destruct (decide (x = 0)%N) as [->|Hx]; [done|]. rewrite go_step, wordy_app, IH by (lia || (apply N.div_lt; lia)).
  pose proof (N.mod_lt x 10 ltac:(lia)) as Hm. set (m := (x `mod` 10)%N) in *. clearbody m.
  assert (Hin : m ∈ [0; 1; 2; 3; 4; 5; 6; 7; 8; 9]%N) by (rewrite !elem_of_cons; lia).
  rewrite !elem_of_cons in Hin. repeat destruct Hin as [->|Hin]; try reflexivity.
  by apply not_elem_of_nil in Hin.
Qed.

Definition signed (neg : bool) (s : string) : string := if neg then "-" +:+ s else s.

Lemma json_number_pretty neg z : 0 < z ->
  json_number (signed neg (pretty z)) = Some (int (if neg then - z else z)).
Proof.
  intros Hz. rewrite pretty_go by done. destruct (go_head (Z.to_N z) ltac:(lia)) as (c & s & Hs & Hc).
  destruct (read_digits_go (Z.to_N z) "") as (d & _ & Hd & Hr). specialize (Hd ltac:(lia)).
  rewrite Z2N.id in Hr by lia. unfold json_number.
  assert (Hsign : match signed neg (pretty_N_go (Z.to_N z) "") with
    | String c s' => if decide (byte c = 45) then (true, s') else (false, signed neg (pretty_N_go (Z.to_N z) ""))
    | EmptyString => (false, signed neg (pretty_N_go (Z.to_N z) "")) end
    = (neg, pretty_N_go (Z.to_N z) "")).
  { destruct neg; [done|]. simpl. rewrite Hs. by rewrite decide_False by lia. }
  rewrite Hsign, Hr. cbn [read_digits]. rewrite Hs. rewrite bool_decide_eq_false_2 by lia.
  replace (d =? 0) with false by lia. cbn [orb andb read_exponent]. by destruct neg.
Qed.

Lemma scalar_number s n : json_number s = Some n -> s <> "null" -> s <> "true" -> s <> "false" ->
  scalar s = Some (JNum n).
Proof. intros Hn H1 H2 H3. unfold scalar. by rewrite !decide_False, Hn by done. Qed.

Lemma lexes_int z : Z.abs z <= 2 ^ 53 -> lexes (num_text (int z)) [TVal (JNum (int z))].
Proof.
  intros Hz. assert (Hcase : exists neg a, (z = 0 \/ 0 < a /\ num_text (int z) = signed neg (pretty a)
    /\ z = if neg then - a else a)).
  { destruct z as [|p|p]; [by exists false, 0; left| |].
    - exists false, (Z.pos p). right. by rewrite num_text_pos by lia.
    - exists true, (Z.pos p). right. by rewrite num_text_neg, num_text_pos by lia. }
  destruct Hcase as (neg & a & [-> | (Ha & -> & ->)]); [by apply lexes_scalar|].
  apply lexes_scalar.
  - rewrite pretty_go by done. destruct neg; [|apply go_wordy].
    unfold signed. by rewrite wordy_app, go_wordy.
  - apply scalar_number; [by apply json_number_pretty|..];
      rewrite pretty_go by done; destruct (go_head (Z.to_N a) ltac:(lia)) as (c & s & -> & Hc);
      (destruct neg; [done|]); cbn [signed]; intros [= -> _]; destruct Hc as [_ Hc]; by apply Hc.
Qed.

Lemma lexes_empty b e : (b = 91 /\ e = 93 \/ b = 123 /\ e = 125)%nat ->
  lexes (String (ascii_of_nat b) (String (ascii_of_nat e) "")) [punct b; punct e].
Proof.
  intros Hb out. exists (Idle ((out ++ [punct b]) ++ [punct e])).
  split; [by destruct Hb as [[-> ->]|[-> ->]]|]. rewrite <- app_assoc. constructor.
Qed.

(** Each value is read as its tokens: printed with spaces after the brackets and
    commas, which depend on the indentation, and after the colons. *)
Lemma lexes_value (print : string -> json -> string) (inner gap last : string -> string) colon :
  (forall ind, white ind = true ->
     white (inner ind) = true /\ white (gap ind) = true /\ white (last ind) = true) ->
  white colon = true ->
  (forall ind v, match v with JArr (_ :: _) | JObj (_ :: _) => True | _ => print ind v = stringify v end) ->
  (forall ind x xs, print ind (JArr (x :: xs))
     = "[" +:+ gap ind +:+ join ("," +:+ gap ind) (map (print (inner ind)) (x :: xs)) +:+ last ind +:+ "]") ->
  (forall ind kv kvs, print ind (JObj (kv :: kvs))
     = "{" +:+ gap ind +:+ join ("," +:+ gap ind)
         (map (fun kv => json_string kv.1 +:+ (":" +:+ colon) +:+ print (inner ind) kv.2) (kv :: kvs))
       +:+ last ind +:+ "}") ->
  forall v, plain v -> forall ind, white ind = true -> lexes (print ind v) (tokens v).
Proof.
  intros Hw Hcolon Hscalar Harr Hobj v.
  induction v as [|b|[|neg|z e]|s|xs IH|kvs IH] using json_ind'; intros Hp ind Hind; try done.
  - rewrite (Hscalar ind JNull). by apply lexes_scalar.
  - rewrite (Hscalar ind (JBool b)). destruct b; by apply lexes_scalar.
  - rewrite (Hscalar ind (JNum (Dec z e))). destruct Hp as [-> Hz]. by apply lexes_int.
  - rewrite (Hscalar ind (JStr s)). apply lexes_string.
  - apply plain_arr in Hp. specialize (Forall_mp _ _ _ IH Hp) as HF. destruct (Hw ind Hind) as (Hi & Hg & Hl).
    destruct xs as [|x xs]; [rewrite (Hscalar ind (JArr [])); apply (lexes_empty 91 93); by left|].
    pose proof (lexes_group 91 93 (gap ind) (last ind)
      (map (fun x => (print (inner ind) x, tokens x)) (x :: xs)) Hg Hl) as H.
    rewrite !map_map in H. rewrite Harr. apply H; [done| |by left]. apply Forall_map.
    eapply Forall_impl; [exact HF|]. intros y Hy. by apply Hy.
  - apply plain_obj in Hp as [_ Hp]. specialize (Forall_mp _ _ _ IH Hp) as HF. destruct (Hw ind Hind) as (Hi & Hg & Hl).
    destruct kvs as [|kv kvs]; [rewrite (Hscalar ind (JObj [])); apply (lexes_empty 123 125); by right|].
    pose proof (lexes_group 123 125 (gap ind) (last ind)
      (map (fun kv => (json_string kv.1 +:+ (":" +:+ colon) +:+ print (inner ind) kv.2,
                       TStr kv.1 :: punct 58 :: tokens kv.2)) (kv :: kvs)) Hg Hl) as H.
    rewrite !map_map in H. rewrite Hobj. apply H; [done| |by right]. apply Forall_map.
    eapply Forall_impl; [exact HF|]. intros y Hy. apply lexes_field; [done|]. by apply Hy.
Qed.

Lemma lexes_show v : plain v -> lexes (show "" v) (tokens v).
Proof.
  intros Hp. apply (lexes_value show (fun ind => ind +:+ "  ") (fun ind => newline_ (ind +:+ "  ")) newline_ " "); try done.
  - intros ind H. split_and!; [by apply white_indent|by apply white_indent|done].
  - by intros ind [| | | |[]|[]].
Qed.

Lemma lexes_stringify v : plain v -> lexes (stringify v) (tokens v).
Proof.
  intros Hp. apply (lexes_value (fun _ => stringify) (fun _ => "") (fun _ => "") (fun _ => "") "") with (ind := ""); try done.
  by intros _ [| | | |[]|[]].
Qed.

Lemma parse_tokens s v : lexes s (tokens v) -> plain v -> parse s = Some v.
Proof.
  intros Hs Hv. unfold parse, lex. destruct (Hs []) as (st & -> & He). rewrite (at_end_flush _ _ He).
  pose proof (run_tokens v Hv EValue [] [] ltac:(by left)) as Hr. rewrite app_nil_r in Hr.
  cbn [app]. by rewrite Hr.
Qed.

(** The text of a value is parsed as the value, printed with an indentation or
    without. *)
Lemma parse_show v : plain v -> parse (show "" v) = Some v.
Proof. intros Hv. apply parse_tokens; [|done]. by apply lexes_show. Qed.
Lemma parse_stringify v : plain v -> parse (stringify v) = Some v.
Proof. intros Hv. apply parse_tokens; [|done]. by apply lexes_stringify. Qed.
