(* ===== verification/Secrets.v ===== *)
(** Secrets of the API (internal/security): the text of bytes in base64, the encryption
    of what is stored, and the masks of what is shown.

    The cipher itself is AES-GCM of the language's library, with the one law used of
    it: what is sealed is opened with the same key and nonce. *)
From S2P Require Import Prelude Js Json.

(** * base64.RawURLEncoding *)

Definition url_char (d : Z) : ascii :=
  ascii_of_nat (Z.to_nat (if d <? 26 then d + 65 else if d <? 52 then d + 71 else if d <? 62 then d - 4
                          else if d =? 62 then 45 else 95)).
Definition url_digit (c : ascii) : option Z :=
  let b := byte c in
  if (65 <=? b) && (b <=? 90) then Some (b - 65)
  else if (97 <=? b) && (b <=? 122) then Some (b - 71)
  else if (48 <=? b) && (b <=? 57) then Some (b + 4)
  else if b =? 45 then Some 62 else if b =? 95 then Some 63 else None.

(** Four digits of three bytes, three of the last two, two of the last one. *)
Fixpoint digits (os : list Z) : list Z :=
  match os with
  | a :: b :: c :: os =>
      let n := a * 65536 + b * 256 + c in
      n / 262144 :: n / 4096 mod 64 :: n / 64 mod 64 :: n mod 64 :: digits os
  | [a; b] => let n := (a * 256 + b) * 4 in [n / 4096; n / 64 mod 64; n mod 64]
  | [a] => [a * 16 / 64; a * 16 mod 64]
  | [] => []
  end.

Fixpoint of_bytes (os : list Z) : string :=
  match os with [] => "" | o :: os => String (ascii_of_nat (Z.to_nat o)) (of_bytes os) end.
Fixpoint to_bytes (s : string) : list Z :=
  match s with EmptyString => [] | String c s => byte c :: to_bytes s end.
Fixpoint spell (ds : list Z) : string :=
  match ds with [] => "" | d :: ds => String (url_char d) (spell ds) end.

Definition EncodeToString (s : string) : string := spell (digits (to_bytes s)).

(** Ends of lines are skipped, and bits that are left over. *)
Fixpoint without_newlines (s : string) : string :=
  match s with
  | EmptyString => ""
  | String c s =>
      if (byte c =? 10) || (byte c =? 13) then without_newlines s else String c (without_newlines s)
  end.
Definition DecodeString (s : string) : option string :=
  match sextets url_digit (without_newlines s) with
  | Some ds => option_map of_bytes (octets ds)
  | None => None
  end.

Definition octet (o : Z) : Prop := 0 <= o < 256.
Definition sextet (d : Z) : Prop := 0 <= d < 64.

(** Induction on lists by three elements at a time. *)
Lemma list_ind3 {A} (P : list A -> Prop) :
  P [] -> (forall a, P [a]) -> (forall a b, P [a; b]) -> (forall a b c l, P l -> P (a :: b :: c :: l)) ->
  forall l, P l.
Proof.
  intros H0 H1 H2 H3. fix IH 1. intros [|a [|b [|c l]]]; [done|apply H1|apply H2|apply H3, IH].
Qed.

Ltac by_division := Z.to_euclidean_division_equations; lia.

Lemma octets_digits os : Forall octet os -> octets (digits os) = Some os.
Proof.
  induction os as [|a|a b|a b c os IH] using list_ind3; intros H; [done|..]; rewrite !Forall_cons in H;
    unfold octet in H; cbn [digits octets].
  - do 2 f_equal. by_division.
  - do 3 f_equal; [|f_equal]; by_division.
  - rewrite IH by tauto. cbn [option_map]. f_equal. f_equal; [|f_equal; [|f_equal]]; by_division.
Qed.

Lemma digits_sextets os : Forall octet os -> Forall sextet (digits os).
Proof.
  induction os as [|a|a b|a b c os IH] using list_ind3; intros H; [done|..]; rewrite !Forall_cons in H;
    unfold octet in H; cbn [digits]; rewrite !Forall_cons; unfold sextet; split_and!;
    try apply Forall_nil_2; try (apply IH; tauto); by_division.
Qed.

Lemma url_digit_char d : sextet d -> url_digit (url_char d) = Some d /\ byte (url_char d) <> 10 /\ byte (url_char d) <> 13.
Proof.
  intros Hd. assert (Hall : forallb (fun n => bool_decide (url_digit (url_char (Z.of_nat n)) = Some (Z.of_nat n)
      /\ byte (url_char (Z.of_nat n)) <> 10 /\ byte (url_char (Z.of_nat n)) <> 13)) (List.seq 0 64) = true)
    by (vm_compute; reflexivity).
  rewrite forallb_forall in Hall. specialize (Hall (Z.to_nat d)).
  rewrite Z2Nat.id in Hall by (unfold sextet in Hd; lia). eapply bool_decide_eq_true, Hall, in_seq. unfold sextet in Hd. lia.
Qed.

Lemma sextets_spell ds : Forall sextet ds -> sextets url_digit (without_newlines (spell ds)) = Some ds.
Proof.
  induction ds as [|d ds IH]; intros H; [done|]. apply Forall_cons in H as [Hd Hds]. cbn [spell without_newlines].
  destruct (url_digit_char d Hd) as (Hdig & H10 & H13).
  replace (_ || _) with false by lia. cbn [sextets]. by rewrite Hdig, IH.
Qed.

Lemma to_bytes_octets s : Forall octet (to_bytes s).
Proof.
  induction s as [|c s IH]; [done|]. apply Forall_cons. split; [|done]. unfold octet, byte.
  pose proof (nat_ascii_bounded c). lia.
Qed.
Lemma of_to_bytes s : of_bytes (to_bytes s) = s.
Proof.
  induction s as [|c s IH]; [done|]. cbn [to_bytes of_bytes]. rewrite IH. f_equal. unfold byte.
  by rewrite Nat2Z.id, ascii_nat_embedding.
Qed.

(** Every text is decoded from its encoding. *)
Lemma DecodeString_EncodeToString s : DecodeString (EncodeToString s) = Some s.
Proof.
  unfold DecodeString, EncodeToString. pose proof (to_bytes_octets s) as H.
  rewrite sextets_spell by by apply digits_sextets. rewrite octets_digits by done. simpl. by rewrite of_to_bytes.
Qed.

(** The characters of an encoded text. *)
Fixpoint all_chars (P : ascii -> bool) (s : string) : bool :=
  match s with EmptyString => true | String c s => P c && all_chars P s end.

Lemma all_chars_app P a b : all_chars P (a +:+ b) = all_chars P a && all_chars P b.
Proof. induction a as [|c a IH]; [done|]. rewrite app_cons_str. simpl. by rewrite IH, andb_assoc. Qed.

Lemma encoded_chars P s : forallb (fun n => P (url_char (Z.of_nat n))) (List.seq 0 64) = true ->
  all_chars P (EncodeToString s) = true.
Proof.
  intros HP. rewrite forallb_forall in HP. unfold EncodeToString.
  pose proof (digits_sextets _ (to_bytes_octets s)) as H. induction H as [|d ds Hd _ IH]; [done|].
  cbn [spell all_chars]. rewrite IH, andb_true_r. specialize (HP (Z.to_nat d)). unfold sextet in Hd.
  rewrite Z2Nat.id in HP by lia. apply HP, in_seq. lia.
Qed.

Example encoded_text : EncodeToString "any+bytes?>~" = "YW55K2J5dGVzPz5-".
Proof. reflexivity. Qed.
Example decoded_texts :
  map DecodeString ["YW55"; "YW5"; "YW4"; "YW"; "Y"; "invalid-base64!!!"] = [Some "any"; Some "an"; Some "an"; Some "a"; None; None].
Proof. reflexivity. Qed.

(** * Encryption *)

(** AES-GCM, with the key and a nonce of its size. *)
Class Aead := {
  seal : string -> string -> string -> string;
  open : string -> string -> string -> option string;
  open_seal key nonce plain : open key nonce (seal key nonce plain) = Some plain
}.
Definition NonceSize : nat := 12.

Section Encryption.
Context `{cipher : Aead}.
Variable sha256 : string -> string.

(** [SetEncryptionKey]: the first key stays. *)
Definition SetEncryptionKey (key : string) (encKey : option string) : option string :=
  match encKey with Some _ => encKey | None => Some (sha256 key) end.

(** [Encrypt], with the nonce that is read from the source of randomness. *)
Definition Encrypt (encKey rand : option string) (plain : string) : option string :=
  if decide (plain = "") then Some ""
  else
    match encKey, rand with
    | Some key, Some nonce => Some ("enc:v1:" +:+ EncodeToString (nonce +:+ seal key nonce plain))
    | _, _ => None
    end.

(** A text that is not decoded is no error. *)
Definition Decrypt (encKey : option string) (ciphertext : string) : option string :=
  if decide (ciphertext = "") then Some ""
  else if negb (starts_with "enc:v1:" ciphertext) then Some ciphertext
  else
    match encKey with
    | None => None
    | Some key =>
        match DecodeString (drop 7 ciphertext) with
        | None => Some ""
        | Some raw =>
            if bool_decide (String.length raw < NonceSize)%nat then None
            else open key (slice0 NonceSize raw) (drop NonceSize raw)
        end
    end.

Lemma slice0_app a b : slice0 (String.length a) (a +:+ b) = a.
Proof. induction a as [|c a IH]; [by destruct b|]. rewrite app_cons_str. simpl. by rewrite IH. Qed.
Lemma drop_app a b : drop (String.length a) (a +:+ b) = b.
Proof. induction a as [|c a IH]; [done|]. rewrite app_cons_str. simpl. apply IH. Qed.

(** What is encrypted is decrypted with the same key, whatever the nonce. *)
Lemma Decrypt_Encrypt encKey rand plain e :
  (forall nonce, rand = Some nonce -> String.length nonce = NonceSize) ->
  Encrypt encKey rand plain = Some e -> Decrypt encKey e = Some plain.
Proof.
  unfold Encrypt. intros Hn He. case_decide as Hp; [by simplify_eq|]. destruct encKey as [key|], rand as [nonce|]; try done.
  simplify_eq. specialize (Hn nonce eq_refl). unfold Decrypt. rewrite decide_False by done.
  change (starts_with "enc:v1:" _) with true. change (drop 7 ("enc:v1:" +:+ ?x)) with x. cbn [negb].
  rewrite DecodeString_EncodeToString, length_app_str. rewrite bool_decide_eq_false_2 by lia.
  rewrite <- Hn, slice0_app, drop_app. apply open_seal.
Qed.

(** An encrypted text is no JSON. *)
Lemma encrypted_is_no_json encKey rand plain e :
  Encrypt encKey rand plain = Some e -> plain <> "" -> parse e = None.
Proof.
  unfold Encrypt. intros He Hp. rewrite decide_False in He by done. destruct encKey, rand; try done. by simplify_eq.
Qed.
End Encryption.

(** * Masks *)

Definition secretKeys : list string :=
  ["secret"; "token"; "password"; "api_key"; "apikey"; "authorization"; "private_key"].
Definition containsSecretKey (key : string) : bool := existsb (fun secret => includes_str secret key) secretKeys.

(** [RedactMap]: objects within objects, but not those within lists. *)
Fixpoint RedactMap (v : json) : json :=
  match v with
  | JObj kvs =>
      JObj (map (fun kv =>
        if containsSecretKey (to_lower kv.1) then (kv.1, JStr "[REDACTED]")
        else (kv.1, match kv.2 with JObj _ => RedactMap kv.2 | _ => kv.2 end)) kvs)
  | _ => v
  end.

(** The value at the end of a path of keys. *)
Fixpoint at_path (v : json) (path : list string) : option json :=
  match path with
  | [] => Some v
  | k :: path => v ← jfield v k; at_path v path
  end.

Lemma jfield_redacted kvs k :
  jfield (RedactMap (JObj kvs)) k
  = (fun v => if containsSecretKey (to_lower k) then JStr "[REDACTED]" else match v with JObj _ => RedactMap v | _ => v end)
    <$> jfield (JObj kvs) k.
Proof.
  cbn [RedactMap]. unfold jfield. induction kvs as [|[k' v] kvs IH]; [done|]. cbn [map oget fst snd].
  destruct (decide (k = k')) as [<-|Hne].
  - cbn [fmap option_fmap option_map]. destruct (containsSecretKey (to_lower k)) eqn:E; cbn [oget]; by rewrite decide_True.
  - rewrite <- IH. destruct (containsSecretKey (to_lower k')) eqn:E; cbn [oget]; by rewrite decide_False.
Qed.

(** Below a key that names a secret nothing is left. *)
Lemma secrets_are_masked path v x :
  at_path (RedactMap v) path = Some x -> Exists (fun k => containsSecretKey (to_lower k) = true) path ->
  x = JStr "[REDACTED]" /\ exists above k, path = above ++ [k].
Proof.
  revert v. induction path as [|k path IH]; intros v; [by intros _ ?%Exists_nil|].
  intros Hx Hs. destruct v as [| | | | |kvs]; try done. cbn [at_path] in Hx. rewrite jfield_redacted in Hx.
  destruct (jfield (JObj kvs) k) as [w|]; [|done]. cbn [fmap option_fmap option_map mbind option_bind] in Hx.
  destruct (containsSecretKey (to_lower k)) eqn:E.
  - destruct path; [|done]. simplify_eq/=. split; [done|]. by exists [], k.
  - apply Exists_cons in Hs as [Hs|Hs]; [congruence|].
    destruct w as [| | | | |kvs']; try (destruct path; [by apply Exists_nil in Hs|done]).
    destruct (IH _ Hx Hs) as (-> & above & k' & ->). split; [done|]. by exists (k :: above), k'.
Qed.

(** The members of a list are shown as they are. *)
Example secrets_in_lists_are_shown :
  at_path (RedactMap (JObj [("users", JArr [JObj [("password", JStr "hunter2")]])])) ["users"]
  = Some (JArr [JObj [("password", JStr "hunter2")]]).
Proof. reflexivity. Qed.
Example redacted_map :
  RedactMap (JObj [("api_key", JStr "super-secret"); ("nested", JObj [("token", JStr "hidden")]); ("safe", JStr "visible")])
  = JObj [("api_key", JStr "[REDACTED]"); ("nested", JObj [("token", JStr "[REDACTED]")]); ("safe", JStr "visible")].
Proof. reflexivity. Qed.
