(* ===== verification/React.v ===== *)
(** The runtime the pages run on: handlers as programs that suspend at each
    awaited request, effects, rendering, and the interleavings of all three.

    A page gives its state [S], its user actions [A] and its requests [E]
    (indexed by the type the caller expects back, the [T] of [apiRequest<T>]).
    [Ui.step] is one turn of the browser's event loop; a theorem about a page
    is proved for every interleaving with [Ui.reachable_safe]. *)
From S2P Require Import Prelude Js.

Inductive toast_kind := ToastSuccess | ToastError | ToastInfo.

(** What the environment observes of a page. *)
Inductive obs :=
| OReq (r : request)
| OToast (k : toast_kind) (title : string) (message : option string)
| ONav (path : string)
| OClipboard (text : string)
| OScroll (element : string).

(** The part of a rendered tree a user can read or act on; layout elements
    and class names are left out. *)
Inductive node (A : Type) :=
| Txt (s : string)
| Btn (label : string) (disabled : bool) (on_click : A)
| Inp (label value : string) (disabled : bool) (on_change : string -> A)
| Sel (label value : string) (disabled : bool) (options : list (string * string))
      (on_change : string -> A)
| Chk (label : string) (checked disabled : bool) (on_toggle : A)
| Link (label to : string)
| Grp (label : string) (children : list (node A)).
Arguments Txt {A} s.
Arguments Btn {A} label disabled on_click.
Arguments Inp {A} label value disabled on_change.
Arguments Sel {A} label value disabled options on_change.
Arguments Chk {A} label checked disabled on_toggle.
Arguments Link {A} label to.
Arguments Grp {A} label children.

(** [cond && <node>] and [cond ? <a> : <b>] in a list of children. *)
Definition when {A} (b : bool) (ns : list (node A)) : list (node A) :=
  if b then ns else [].

(** The actions a user can trigger in a tree: a disabled control offers none,
    a selection offers the values of its options. *)
Fixpoint offers {A} (n : node A) (a : A) : Prop :=
  match n with
  | Txt _ | Link _ _ => False
  | Btn _ d act | Chk _ _ d act => d = false /\ a = act
  | Inp _ _ d f => d = false /\ exists v, a = f v
  | Sel _ _ d opts f => d = false /\ exists o, In o opts /\ a = f o.1
  | Grp _ ns =>
      (fix any (ns : list (node A)) : Prop :=
         match ns with [] => False | n :: ns => offers n a \/ any ns end) ns
  end.

Fixpoint offered {A} (ns : list (node A)) (a : A) : Prop :=
  match ns with [] => False | n :: ns => offers n a \/ offered ns a end.

Section NodeInd.
Context {A : Type} (P : node A -> Prop).
Hypothesis Hleaf : forall n, match n with Grp _ _ => True | _ => P n end.
Hypothesis Hgrp : forall l ns, Forall P ns -> P (Grp l ns).

(** Induction through the children of groups. *)
Fixpoint node_ind' (n : node A) : P n :=
  match n with
  | Grp l ns =>
      Hgrp l ns ((fix go ns : Forall P ns :=
        match ns with
        | [] => Forall_nil_2 P
        | n :: ns => Forall_cons_2 P n ns (node_ind' n) (go ns)
        end) ns)
  | n => Hleaf n
  end.
End NodeInd.

(** * Gestures *)

(** What a user does to the controls with a given label. *)
Inductive gesture := Click (label : string) | Fill (label value : string).

(** The actions of the enabled controls of a tree that a gesture fits. *)
Fixpoint does {A} (g : gesture) (n : node A) : list A :=
  match n, g with
  | Btn l d a, Click label | Chk l _ d a, Click label =>
      if negb d && bool_decide (l = label) then [a] else []
  | Inp l _ d f, Fill label v => if negb d && bool_decide (l = label) then [f v] else []
  | Sel l _ d opts f, Fill label v =>
      if negb d && bool_decide (l = label) && bool_decide (v ∈ map fst opts) then [f v] else []
  | Grp _ ns, _ => concat (map (does g) ns)
  | _, _ => []
  end.

Definition doing {A} (g : gesture) (ns : list (node A)) : list A := concat (map (does g) ns).

Lemma does_offers {A} (g : gesture) (n : node A) a : a ∈ does g n -> offers n a.
Proof.
  revert n. apply (node_ind' (fun n => a ∈ does g n -> offers n a)).
  - intros [ | | | | | |]; destruct g; try done; simpl; intros H; repeat case_match; try set_solver;
      apply list_elem_of_singleton in H as ->;
      repeat match goal with H : (_ && _)%bool = true |- _ => apply andb_prop in H as [? ?] end;
      rewrite ?negb_true_iff in *; split; eauto.
    rename select (bool_decide (_ ∈ _) = true) into Hv.
    apply bool_decide_eq_true, list_elem_of_fmap in Hv as (o & -> & Ho).
    exists o. split; [by apply list_elem_of_In|done].
  - intros l ns IH. simpl. induction IH as [|n ns Hn _ IH]; simpl; [by intros ?%not_elem_of_nil|].
    intros [H|H]%elem_of_app; [by left; apply Hn|right; by apply IH].
Qed.

Lemma doing_offered {A} (g : gesture) (ns : list (node A)) a : a ∈ doing g ns -> offered ns a.
Proof.
  unfold doing. induction ns as [|n ns IH]; simpl; [by intros ?%not_elem_of_nil|].
  intros [H|H]%elem_of_app; [left; by apply does_offers in H|right; auto].
Qed.

Module Ui.
Section Page.
Context {E : Type -> Type} {S A : Type}.

(** The HTTP requests of an awaited event: one, or those of a [Promise.all]
    whose values are used together. *)
Variable http : forall X, E X -> list request.

(** One promise of a [Promise.all] whose [then] and [catch] only set state:
    the state update it resolves with, or the value it rejects with. *)
Record branch := Branch {
  b_type : Type;
  b_event : E b_type;
  b_then : result b_type -> (S -> S) + thrown;
}.

(** A handler: synchronous state updates and outputs, then an awaited request.
    [Fork p k] calls the asynchronous function [p] without awaiting it. *)
Inductive prog :=
| Done
| SetS (f : S -> S) (k : prog)
| Emit (o : obs) (k : prog)
| Call {X : Type} (e : E X) (k : result X -> prog)
| Join (bs : list branch) (k : option thrown -> prog)
| Fork (p k : prog).

(** Runs a program up to its awaited request: the state, the outputs and the
    suspended programs. *)
Fixpoint sync (p : prog) (s : S) : S * list obs * list prog :=
  match p with
  | Done => (s, [], [])
  | SetS f k => sync k (f s)
  | Emit o k => let '(s', os, ps) := sync k s in (s', o :: os, ps)
  | Call e k => (s, map OReq (http _ e), [Call e k])
  | Join bs k => (s, map OReq (concat (map (fun b => http _ (b_event b)) bs)), [Join bs k])
  | Fork p k =>
      let '(s1, os1, ps1) := sync p s in
      let '(s2, os2, ps2) := sync k s1 in
      (s2, os1 ++ os2, ps1 ++ ps2)
  end.

Fixpoint sync_all (ps : list prog) (s : S) : S * list obs * list prog :=
  match ps with
  | [] => (s, [], [])
  | p :: ps =>
      let '(s1, os1, qs1) := sync p s in
      let '(s2, os2, qs2) := sync_all ps s1 in
      (s2, os1 ++ os2, qs1 ++ qs2)
  end.

(** [await p; k] for an asynchronous function [p] of the page. *)
Fixpoint seq (p k : prog) : prog :=
  match p with
  | Done => k
  | SetS f p => SetS f (seq p k)
  | Emit o p => Emit o (seq p k)
  | Call e c => Call e (fun r => seq (c r) k)
  | Join bs c => Join bs (fun x => seq (c x) k)
  | Fork q p => Fork q (seq p k)
  end.

(** What a page is: its effects (given the state of the previous render, if
    any), its handlers and its view. *)
Variable effects : option S -> S -> list prog.
Variable handle : A -> S -> prog.
Variable view : S -> list (node A).

(** The state, the state of the last committed render, whether a render is
    due, the suspended programs and the outputs, latest first. *)
Record config := Config {
  c_state : S;
  c_rendered : option S;
  c_dirty : bool;
  c_pool : list prog;
  c_trace : list obs;
}.

Definition initial (s : S) : config := Config s None true [] [].

(** Continues a configuration with program [p], in place of thread [i]. *)
Definition resume (c : config) (pool : list prog) (p : prog) : config :=
  let '(s, os, ps) := sync p (c_state c) in
  Config s (c_rendered c) true (pool ++ ps) (rev os ++ c_trace c).

(** A render commits and its effects run. *)
Definition commit (c : config) : config :=
  let es := effects (c_rendered c) (c_state c) in
  let '(s, os, ps) := sync_all es (c_state c) in
  Config s (Some (c_state c)) (match es with [] => false | _ => true end)
    (c_pool c ++ ps) (rev os ++ c_trace c).

Inductive step : config -> config -> Prop :=
| step_commit c : c_dirty c = true -> step c (commit c)
| step_event c a :
    c_dirty c = false -> offered (view (c_state c)) a ->
    step c (resume c (c_pool c) (handle a (c_state c)))
| step_reply c i X (e : E X) k (r : result X) :
    c_pool c !! i = Some (Call e k) ->
    step c (resume c (delete i (c_pool c)) (k r))
| step_branch c i bs k j b r f :
    c_pool c !! i = Some (Join bs k) -> bs !! j = Some b -> b_then b r = inl f ->
    step c (Config (f (c_state c)) (c_rendered c) true
              (<[i := Join (delete j bs) k]> (c_pool c)) (c_trace c))
| step_reject c i bs k j b r x :
    c_pool c !! i = Some (Join bs k) -> bs !! j = Some b -> b_then b r = inr x ->
    step c (resume c (<[i := Join (delete j bs) (fun _ => Done)]> (c_pool c)) (k (Some x)))
| step_joined c i k :
    c_pool c !! i = Some (Join [] k) ->
    step c (resume c (delete i (c_pool c)) (k None)).

Inductive reachable (s0 : S) : config -> Prop :=
| reach_init : reachable s0 (initial s0)
| reach_step c c' : reachable s0 c -> step c c' -> reachable s0 c'.

(** * A server that answers every request at once, and in order *)

Section Answered.
Variable srv : forall X, E X -> result X.

(** One turn given to the oldest suspended program. *)
Definition turn (c : config) : option config :=
  match c_pool c with
  | Call e k :: ps => Some (resume c ps (k (srv _ e)))
  | Join [] k :: ps => Some (resume c ps (k None))
  | Join (b :: bs) k :: ps =>
      match b_then b (srv _ (b_event b)) with
      | inl f => Some (Config (f (c_state c)) (c_rendered c) true (Join bs k :: ps) (c_trace c))
      | inr x => Some (resume c (Join bs (fun _ => Done) :: ps) (k (Some x)))
      end
  | _ => None
  end.

Fixpoint drain (n : nat) (c : config) : config :=
  match n with
  | O => c
  | Datatypes.S n => match turn c with Some c' => drain n c' | None => c end
  end.

Lemma turn_step c c' : turn c = Some c' -> step c c'.
Proof.
  unfold turn. destruct (c_pool c) as [|[|f k|o k|X e k|bs k|p k] ps] eqn:Hp; try done.
  - intros [= <-]. pose proof (step_reply c 0 X e k (srv X e)) as H.
    rewrite Hp in H. by apply H.
  - destruct bs as [|b bs].
    + intros [= <-]. pose proof (step_joined c 0 k) as H. rewrite Hp in H. by apply H.
    + destruct (b_then b _) as [f|x] eqn:Hb; intros [= <-].
      * pose proof (step_branch c 0 (b :: bs) k 0 b (srv _ (b_event b)) f) as H. rewrite Hp in H. by apply H.
      * pose proof (step_reject c 0 (b :: bs) k 0 b (srv _ (b_event b)) x) as H. rewrite Hp in H. by apply H.
Qed.

Lemma drain_reachable s0 n c : reachable s0 c -> reachable s0 (drain n c).
Proof.
  revert c. induction n as [|n IH]; intros c Hc; simpl; [done|].
  destruct (turn c) eqn:Ht; [|done]. apply IH. eapply reach_step; [done|]. by apply turn_step.
Qed.
(** The [i]-th suspended call is answered, out of turn. *)
Definition reply (i : nat) (c : config) : config :=
  match c_pool c !! i with
  | Some (Call e k) => resume c (delete i (c_pool c)) (k (srv _ e))
  | _ => c
  end.

Lemma reply_reachable s0 i c : reachable s0 c -> reachable s0 (reply i c).
Proof.
  intros Hc. unfold reply. destruct (c_pool c !! i) as [[| | |X e k| |]|] eqn:Hi; try done.
  eapply reach_step; [done|]. by apply (step_reply c i X e k (srv X e)).
Qed.
End Answered.

(** * A handler alone: no event and no other answer between its awaited requests *)

Section Alone.
Variable srv : forall X, E X -> result X.

(** The state, the outputs, and what the handler started without awaiting it. *)
Fixpoint exec (p : prog) (s : S) : S * list obs * list prog :=
  match p with
  | Call e k =>
      let '(s', os, ps) := exec (k (srv _ e)) s in (s', map OReq (http _ e) ++ os, ps)
  | SetS f k => exec k (f s)
  | Emit o k => let '(s', os, ps) := exec k s in (s', o :: os, ps)
  | Fork p k =>
      let '(s1, os1, ps1) := sync p s in
      let '(s2, os2, ps2) := exec k s1 in
      (s2, os1 ++ os2, ps1 ++ ps2)
  | Done | Join _ _ => sync p s
  end.

(** [exec] is one of the interleavings of [step]. *)
Lemma exec_reachable s0 p : forall r d s pool tr,
  (forall s' os ps, sync p s = (s', os, ps) ->
     reachable s0 (Config s' r d (pool ++ ps) (rev os ++ tr))) ->
  exists d', reachable s0 (Config (exec p s).1.1 r d' (pool ++ (exec p s).2) (rev (exec p s).1.2 ++ tr)).
Proof.
  induction p as [|f k IH|o k IH|X e k IH|bs k IH|p _ k IH]; intros r d s pool tr H; simpl in *.
  - exists d. by apply (H s [] []).
  - by apply (IH r d).
  - specialize (IH r d s pool (o :: tr)). destruct (exec k s) as [[s' os] ps]. simpl in *.
    rewrite <- app_assoc. apply IH. intros s1 os1 ps1 Hy. rewrite Hy in H.
    specialize (H _ _ _ eq_refl). simpl in H. by rewrite <- app_assoc in H.
  - specialize (H _ _ _ eq_refl).
    specialize (IH (srv X e) r true s pool (rev (map OReq (http X e)) ++ tr)).
    destruct (exec (k (srv X e)) s) as [[s' os] ps]. simpl in *.
    rewrite rev_app_distr, <- app_assoc. apply IH. intros s1 os1 ps1 Hy.
    pose proof (step_reply _ (length pool) X e k (srv X e) (list_lookup_middle pool [] (Call e k) _ eq_refl : c_pool (Config s r d (pool ++ [Call e k]) (rev (map OReq (http X e)) ++ tr)) !! length pool = _)) as Hs.
    unfold resume in Hs. cbn [c_state c_pool c_rendered c_trace] in Hs. rewrite Hy in Hs.
    rewrite delete_middle, app_nil_r in Hs. by eapply reach_step.
  - exists d. by apply (H s _ _).
  - destruct (sync p s) as [[s1 os1] ps1] eqn:Hp.
    specialize (IH r d s1 (pool ++ ps1) (rev os1 ++ tr)).
    destruct (exec k s1) as [[s2 os2] ps2]. simpl in *.
    rewrite rev_app_distr, <- app_assoc, app_assoc. apply IH. intros s3 os3 ps3 Hy. rewrite Hy in H.
    specialize (H _ _ _ eq_refl). by rewrite rev_app_distr, <- app_assoc, app_assoc in H.
Qed.
End Alone.

(** * Scripts: a user, renders and answers, in a given order *)

Section Script.
Variable srv : forall X, E X -> result X.

(** A user acts on the latest render. *)
Definition act (a : A) (c : config) : config := resume c (c_pool c) (handle a (c_state c)).

Lemma commit_reachable s0 c : reachable s0 c -> c_dirty c = true -> reachable s0 (commit c).
Proof. intros Hc Hd. eapply reach_step; [done|by apply step_commit]. Qed.

Lemma act_reachable s0 c a :
  reachable s0 c -> c_dirty c = false -> offered (view (c_state c)) a -> reachable s0 (act a c).
Proof. intros Hc Hd Ha. eapply reach_step; [done|by apply step_event]. Qed.

(** [Do g i]: the [i]-th control that the gesture fits, in document order;
    [Settle n]: up to [n] turns of answers, oldest first; [Answer i]: one answer. *)
Inductive move := Render | Do (g : gesture) (i : nat) | Settle (n : nat) | Answer (i : nat).

Definition play1 (m : move) (c : config) : option config :=
  match m with
  | Render => if c_dirty c then Some (commit c) else None
  | Do g i =>
      if c_dirty c then None
      else match doing g (view (c_state c)) !! i with Some a => Some (act a c) | None => None end
  | Settle n => Some (drain srv n c)
  | Answer i => Some (reply srv i c)
  end.

Fixpoint play (ms : list move) (c : config) : option config :=
  match ms with
  | [] => Some c
  | m :: ms => match play1 m c with Some c' => play ms c' | None => None end
  end.

(** A script that can be played is an interleaving of the page. *)
Lemma play_reachable s0 ms : forall c c',
  reachable s0 c -> play ms c = Some c' -> reachable s0 c'.
Proof.
  induction ms as [|m ms IH]; intros c c' Hc; simpl; [by intros [= <-]|].
  destruct (play1 m c) as [c1|] eqn:Hm; [|done]. apply IH. clear IH.
  destruct m as [|g i|n|i]; simpl in Hm.
  - destruct (c_dirty c) eqn:Hd; [|done]. simplify_eq. by apply commit_reachable.
  - destruct (c_dirty c) eqn:Hd; [done|]. destruct (doing _ _ !! i) as [a|] eqn:Ha; [|done].
    simplify_eq. apply act_reachable; [done..|]. eapply doing_offered, list_elem_of_lookup_2, Ha.
  - simplify_eq. by apply drain_reachable.
  - simplify_eq. by apply reply_reachable.
Qed.

(** The same, from the first render. *)
Lemma played s0 ms c : play ms (initial s0) = Some c -> reachable s0 c.
Proof. apply play_reachable, reach_init. Qed.
End Script.

(** * Safety of programs: state updates keep [I], outputs satisfy [Q] *)

Section Safe.
Variable I : S -> Prop.
Variable Q : obs -> Prop.

Definition branch_safe (b : branch) : Prop :=
  forall r, match b_then b r with inl f => forall s, I s -> I (f s) | inr _ => True end.

Inductive safe : prog -> Prop :=
| safe_done : safe Done
| safe_set f k : (forall s, I s -> I (f s)) -> safe k -> safe (SetS f k)
| safe_block fs k :
    (forall s, I s -> I (fold_left (fun s f => f s) fs s)) -> safe k -> safe (fold_right SetS k fs)
| safe_emit o k : Q o -> safe k -> safe (Emit o k)
| safe_call X (e : E X) k :
    Forall (fun r => Q (OReq r)) (http _ e) -> (forall r, safe (k r)) -> safe (Call e k)
| safe_join bs k :
    Forall (fun b => Forall (fun r => Q (OReq r)) (http _ (b_event b))) bs ->
    Forall branch_safe bs -> (forall x, safe (k x)) -> safe (Join bs k)
| safe_fork p k : safe p -> safe k -> safe (Fork p k).

Definition config_safe (c : config) : Prop :=
  I (c_state c) /\ Forall safe (c_pool c) /\ Forall Q (c_trace c).

Lemma sync_safe p : safe p -> forall s, I s ->
  let '(s', os, ps) := sync p s in I s' /\ Forall Q os /\ Forall safe ps.
Proof.
  induction 1 as [|f k Hf _ IH|fs k Hf _ IH|o k Ho _ IH|X e k He Hk _|bs k He Hb Hk _|p k _ IHp _ IHk];
    intros s Hs; simpl.
  - auto.
  - apply IH. auto.
  - assert (Hy : forall s, sync (fold_right SetS k fs) s = sync k (fold_left (fun s f => f s) fs s)).
    { clear. induction fs as [|f fs IHf]; intros s; simpl; [done|apply IHf]. }
    rewrite Hy. apply IH. auto.
  - specialize (IH s Hs). destruct (sync k s) as [[s' os] ps]. naive_solver.
  - repeat split; auto.
    + by apply Forall_map.
    + constructor; [|constructor]. by constructor.
  - repeat split; auto.
    + apply Forall_map. apply Forall_concat. by apply Forall_map.
    + constructor; [|constructor]. by constructor.
  - specialize (IHp s Hs). destruct (sync p s) as [[s1 os1] ps1].
    destruct IHp as (H1 & Ho1 & Hp1). specialize (IHk s1 H1).
    destruct (sync k s1) as [[s2 os2] ps2]. destruct IHk as (H2 & Ho2 & Hp2).
    repeat split; auto; by apply Forall_app.
Qed.

Lemma seq_block fs p k : seq (fold_right SetS p fs) k = fold_right SetS (seq p k) fs.
Proof. induction fs as [|f fs IH]; simpl; [done|]. by rewrite IH. Qed.

Lemma seq_safe p k : safe p -> safe k -> safe (seq p k).
Proof.
  induction 1; intros; simpl; [done|apply safe_set|rewrite seq_block; apply safe_block|apply safe_emit
    |apply safe_call|apply safe_join|apply safe_fork]; auto.
Qed.

Lemma sync_all_safe ps : Forall safe ps -> forall s, I s ->
  let '(s', os, qs) := sync_all ps s in I s' /\ Forall Q os /\ Forall safe qs.
Proof.
  induction 1 as [|p ps Hp _ IH]; intros s Hs; simpl; [auto|].
  pose proof (sync_safe p Hp s Hs) as H1. destruct (sync p s) as [[s1 os1] qs1].
  destruct H1 as (H1 & Ho1 & Hq1). specialize (IH s1 H1).
  destruct (sync_all ps s1) as [[s2 os2] qs2]. destruct IH as (H2 & Ho2 & Hq2).
  repeat split; auto; by apply Forall_app.
Qed.

Lemma resume_safe c pool p :
  config_safe c -> Forall safe pool -> safe p -> config_safe (resume c pool p).
Proof.
  intros (Hs & _ & Ht) Hpool Hp. unfold resume.
  pose proof (sync_safe p Hp _ Hs) as H. destruct (sync p (c_state c)) as [[s os] ps].
  destruct H as (H1 & H2 & H3). repeat split; simpl; auto; apply Forall_app; split; auto.
  by apply Forall_rev.
Qed.

Hypothesis effects_safe : forall r s, I s -> Forall safe (effects r s).
Hypothesis handle_safe : forall a s, I s -> offered (view s) a -> safe (handle a s).

Lemma safe_call_inv X (e : E X) k : safe (Call e k) -> forall r, safe (k r).
Proof.
  intros H. remember (Call e k) as p eqn:Hp. revert Hp. induction H as [| | | |Y e' k' _ Hk _| |]; try done.
  - intros Hp. destruct fs as [|f fs]; [auto|done].
  - intros Hp. refine (match Hp in _ = p return
      match p with Call _ k => forall r, safe (k r) | _ => True end with eq_refl => Hk end).
Qed.

Lemma safe_join_inv bs k : safe (Join bs k) ->
  Forall (fun b => Forall (fun r => Q (OReq r)) (http _ (b_event b))) bs
  /\ Forall branch_safe bs /\ forall x, safe (k x).
Proof.
  intros H. remember (Join bs k) as p eqn:Hp. revert Hp.
  induction H as [| |fs k' _ _ IH| | |bs' k' H1 H2 H3 _|]; try done.
  - intros Hp. destruct fs as [|f fs]; [auto|done].
  - intros [= -> ->]. done.
Qed.

Lemma step_safe c c' : step c c' -> config_safe c -> config_safe c'.
Proof.
  intros Hstep Hc. pose proof Hc as (Hs & Hp & Ht).
  destruct Hstep as [c Hd|c a Hd Ha|c i X e k r Hi|c i bs k j b r f Hi Hj Hb
                    |c i bs k j b r x Hi Hj Hb|c i k Hi].
  - unfold commit. pose proof (sync_all_safe _ (effects_safe (c_rendered c) _ Hs) _ Hs) as H.
    destruct (sync_all _ _) as [[s os] ps]. destruct H as (H1 & H2 & H3).
    repeat split; simpl; auto; apply Forall_app; split; auto. by apply Forall_rev.
  - apply resume_safe; auto.
  - apply resume_safe; [done|by apply Forall_delete|].
    eapply safe_call_inv, Forall_lookup_1; eauto.
  - pose proof (Forall_lookup_1 _ _ _ _ Hp Hi) as (He & Hbs & Hk)%safe_join_inv.
    pose proof (Forall_lookup_1 _ _ _ _ Hbs Hj r) as Hf. rewrite Hb in Hf.
    repeat split; simpl; auto.
    apply Forall_insert; auto. constructor; auto; by apply Forall_delete.
  - pose proof (Forall_lookup_1 _ _ _ _ Hp Hi) as (He & Hbs & Hk)%safe_join_inv.
    apply resume_safe; auto. apply Forall_insert; auto.
    constructor; try (by apply Forall_delete). intros; constructor.
  - pose proof (Forall_lookup_1 _ _ _ _ Hp Hi) as (_ & _ & Hk)%safe_join_inv.
    apply resume_safe; [done|by apply Forall_delete|auto].
Qed.

(** Every interleaving of a page whose effects and offered handlers are safe
    keeps the invariant and produces only permitted outputs. *)
Lemma reachable_safe s0 c : I s0 -> reachable s0 c -> config_safe c.
Proof.
  intros H0. induction 1 as [|c c' _ IH Hstep].
  - repeat split; simpl; auto.
  - eapply step_safe; eauto.
Qed.

End Safe.

(** * Invariants that mention the render on screen

    [R r s] relates the last committed render to the state; handlers run on the
    render the user acted on. *)

Section Rendered.
Variable R : option S -> S -> Prop.
Variable Q : obs -> Prop.

Definition branch_at (b : branch) : Prop :=
  forall r x, match b_then b x with inl f => forall s, R r s -> R r (f s) | inr _ => True end.

Inductive safe_at : option S -> prog -> Prop :=
| at_done r : safe_at r Done
| at_set r f k : (forall s, R r s -> R r (f s)) -> safe_at r k -> safe_at r (SetS f k)
| at_emit r o k : Q o -> safe_at r k -> safe_at r (Emit o k)
| at_call r X (e : E X) k :
    Forall (fun q => Q (OReq q)) (http _ e) -> (forall r' x, safe_at r' (k x)) ->
    safe_at r (Call e k)
| at_join r bs k :
    Forall (fun b => Forall (fun q => Q (OReq q)) (http _ (b_event b))) bs ->
    Forall branch_at bs -> (forall r' x, safe_at r' (k x)) -> safe_at r (Join bs k)
| at_fork r p k : safe_at r p -> safe_at r k -> safe_at r (Fork p k).

(** What a suspended program satisfies: it may be resumed after any render. *)
Definition suspended (p : prog) : Prop := forall r, safe_at r p.

Definition config_at (c : config) : Prop :=
  R (c_rendered c) (c_state c) /\ Forall suspended (c_pool c) /\ Forall Q (c_trace c)
  /\ (c_dirty c = false -> c_rendered c = Some (c_state c)).

Lemma sync_at r p : safe_at r p -> forall s, R r s ->
  let '(s', os, ps) := sync p s in R r s' /\ Forall Q os /\ Forall suspended ps.
Proof.
  induction 1 as [r|r f k Hf _ IH|r o k Ho _ IH|r X e k He Hk _|r bs k He Hb Hk _|r p k _ IHp _ IHk];
    intros s Hs; simpl.
  - auto.
  - apply IH. auto.
  - specialize (IH s Hs). destruct (sync k s) as [[s' os] ps]. naive_solver.
  - repeat split; auto; [by apply Forall_map|].
    constructor; [|constructor]. intros r'. by constructor.
  - repeat split; auto; [apply Forall_map, Forall_concat; by apply Forall_map|].
    constructor; [|constructor]. intros r'. by constructor.
  - specialize (IHp s Hs). destruct (sync p s) as [[s1 os1] ps1].
    destruct IHp as (H1 & Ho1 & Hp1). specialize (IHk s1 H1).
    destruct (sync k s1) as [[s2 os2] ps2]. destruct IHk as (H2 & Ho2 & Hp2).
    repeat split; auto; by apply Forall_app.
Qed.

Lemma sync_all_at r ps : Forall (safe_at r) ps -> forall s, R r s ->
  let '(s', os, qs) := sync_all ps s in R r s' /\ Forall Q os /\ Forall suspended qs.
Proof.
  induction 1 as [|p ps Hp _ IH]; intros s Hs; simpl; [auto|].
  pose proof (sync_at r p Hp s Hs) as H1. destruct (sync p s) as [[s1 os1] qs1].
  destruct H1 as (H1 & Ho1 & Hq1). specialize (IH s1 H1).
  destruct (sync_all ps s1) as [[s2 os2] qs2]. destruct IH as (H2 & Ho2 & Hq2).
  repeat split; auto; by apply Forall_app.
Qed.

(** Effects in a row: from [P] to [P'], with their outputs and suspensions. *)
Definition runs (P P' : S -> Prop) (ps : list prog) : Prop :=
  forall s, P s ->
    let '(s', os, qs) := sync_all ps s in P' s' /\ Forall Q os /\ Forall suspended qs.

Lemma runs_nil (P P' : S -> Prop) : (forall s, P s -> P' s) -> runs P P' [].
Proof. intros H s Hs. simpl. auto. Qed.

Lemma runs_app P P1 P' ps qs : runs P P1 ps -> runs P1 P' qs -> runs P P' (ps ++ qs).
Proof.
  intros H1 H2 s Hs. assert (Happ : forall s, sync_all (ps ++ qs) s =
    let '(s1, o1, q1) := sync_all ps s in
    let '(s2, o2, q2) := sync_all qs s1 in (s2, o1 ++ o2, q1 ++ q2)).
  { clear. induction ps as [|p ps IH]; intros s; simpl.
    - by destruct (sync_all qs s) as [[? ?] ?].
    - destruct (sync p s) as [[s1 o1] q1]. rewrite IH.
      destruct (sync_all ps s1) as [[s2 o2] q2]. destruct (sync_all qs s2) as [[s3 o3] q3].
      by rewrite !app_assoc. }
  rewrite Happ. specialize (H1 s Hs). destruct (sync_all ps s) as [[s1 o1] q1].
  destruct H1 as (H1 & Ho1 & Hq1). specialize (H2 s1 H1).
  destruct (sync_all qs s1) as [[s2 o2] q2]. destruct H2 as (H2 & Ho2 & Hq2).
  repeat split; auto; by apply Forall_app.
Qed.

(** An effect that runs under a condition, and one state update. *)
Lemma runs_if P P' (b : bool) ps :
  (b = true -> runs P P' ps) -> (b = false -> forall s, P s -> P' s) ->
  runs P P' (if b then ps else []).
Proof. intros H1 H2. destruct b; [auto|]. apply runs_nil. auto. Qed.

Lemma runs_set P P' f : (forall s, P s -> P' (f s)) -> runs P P' [SetS f Done].
Proof. intros H s Hs. simpl. auto. Qed.

Lemma runs_call P X (e : E X) k :
  Forall (fun q => Q (OReq q)) (http _ e) -> (forall r x, safe_at r (k x)) ->
  runs P P [Call e k].
Proof.
  intros He Hk s Hs. simpl. repeat split; auto.
  - rewrite app_nil_r. by apply Forall_map.
  - constructor; [|constructor]. intros r. by constructor.
Qed.

Lemma resume_at c pool p :
  config_at c -> Forall suspended pool -> safe_at (c_rendered c) p -> config_at (resume c pool p).
Proof.
  intros (Hs & _ & Ht & _) Hpool Hp. unfold resume.
  pose proof (sync_at _ p Hp _ Hs) as H. destruct (sync p (c_state c)) as [[s os] ps].
  destruct H as (H1 & H2 & H3). repeat split; simpl; auto; [apply Forall_app; auto| |done].
  apply Forall_app; split; auto. by apply Forall_rev.
Qed.

Hypothesis commit_at : forall r s, R r s ->
  let '(s', os, ps) := sync_all (effects r s) s in R (Some s) s' /\ Forall Q os /\ Forall suspended ps.
Hypothesis handle_at : forall a s,
  R (Some s) s -> offered (view s) a -> safe_at (Some s) (handle a s).

Lemma suspended_call_inv X (e : E X) k : suspended (Call e k) -> forall r x, safe_at r (k x).
Proof.
  intros H r. refine (match H r in safe_at _ p return
    match p with Call _ k => forall r x, safe_at r (k x) | _ => True end with
    | at_call _ _ _ _ _ Hk => Hk | _ => _ end r); exact Logic.I.
Qed.

Lemma suspended_join_inv bs k : suspended (Join bs k) ->
  Forall (fun b => Forall (fun q => Q (OReq q)) (http _ (b_event b))) bs
  /\ Forall branch_at bs /\ forall r x, safe_at r (k x).
Proof. intros H. specialize (H None). inversion H; auto. Qed.

Lemma commit_keeps c : config_at c -> config_at (commit c).
Proof.
  intros (Hs & Hp & Ht & _). unfold commit. pose proof (commit_at _ _ Hs) as H.
  destruct (sync_all _ _) as [[s os] ps] eqn:Hy. destruct H as (H1 & H2 & H3).
  repeat split; simpl; auto; [by apply Forall_app|apply Forall_app; split; [by apply Forall_rev|done]|].
  destruct (effects _ _) eqn:Ef; [|done]. simpl in Hy. by simplify_eq.
Qed.

Lemma step_at c c' : step c c' -> config_at c -> config_at c'.
Proof.
  intros Hstep Hc. pose proof Hc as (Hs & Hp & Ht & Hd).
  destruct Hstep as [c Hdirty|c a Hdirty Ha|c i X e k r Hi|c i bs k j b r f Hi Hj Hb
                    |c i bs k j b r x Hi Hj Hb|c i k Hi].
  - by apply commit_keeps.
  - specialize (Hd Hdirty). apply resume_at; auto. rewrite Hd. apply handle_at; [|done].
    by rewrite <- Hd.
  - apply resume_at; [done|by apply Forall_delete|].
    eapply suspended_call_inv, (Forall_lookup_1 suspended); eauto.
  - pose proof (Forall_lookup_1 _ _ _ _ Hp Hi) as (He & Hbs & Hk)%suspended_join_inv.
    pose proof (Forall_lookup_1 _ _ _ _ Hbs Hj (c_rendered c) r) as Hf. rewrite Hb in Hf.
    repeat split; simpl; auto; [|done].
    apply Forall_insert; auto. intros r'. constructor; auto; by apply Forall_delete.
  - pose proof (Forall_lookup_1 _ _ _ _ Hp Hi) as (He & Hbs & Hk)%suspended_join_inv.
    apply resume_at; auto. apply Forall_insert; auto. intros r'.
    constructor; try (by apply Forall_delete). intros; constructor.
  - pose proof (Forall_lookup_1 _ _ _ _ Hp Hi) as (_ & _ & Hk)%suspended_join_inv.
    apply resume_at; [done|by apply Forall_delete|auto].
Qed.

(** The same for an invariant that relates the state to the render on screen;
    and while no render is due, the render on screen is the state. *)
Lemma reachable_at s0 c : R None s0 -> reachable s0 c -> config_at c.
Proof.
  intros H0. induction 1 as [|c c' _ IH Hstep]; [|by eapply step_at].
  repeat split; simpl; auto; done.
Qed.

End Rendered.
End Page.
End Ui.

Arguments Ui.Done {E S}.
Arguments Ui.SetS {E S} f k.
Arguments Ui.Emit {E S} o k.
Arguments Ui.Call {E S X} e k.
Arguments Ui.Join {E S} bs k.
Arguments Ui.Fork {E S} p k.
Arguments Ui.Branch {E S b_type} b_event b_then.
Arguments Ui.seq {E S} p k.
Arguments Ui.prog : clear implicits.
Arguments Ui.branch : clear implicits.
Export Ui (prog, Done, SetS, Emit, Call, Join, Fork, branch, Branch, seq).

(** [setX(v)] for one field, and the outputs of the toast context. *)
Notation "'set!' f ;; k" := (SetS f k)
  (at level 200, f at level 99, right associativity) : js_scope.
Notation "'fork!' p ;; k" := (Fork p k)
  (at level 200, p at level 99, right associativity) : js_scope.
Notation "'emit!' o ;; k" := (Emit o k)
  (at level 200, o at level 99, right associativity) : js_scope.
Notation "'await!' r <- e ;; k" := (Call e (fun r => k))
  (at level 200, r name, e at level 99, right associativity) : js_scope.

Definition success (title : string) : obs := OToast ToastSuccess title None.
Definition success_msg (title msg : string) : obs := OToast ToastSuccess title (Some msg).
Definition failure (title : string) : obs := OToast ToastError title None.
Definition failure_msg (title msg : string) : obs := OToast ToastError title (Some msg).

(** * Offered actions of composite trees *)

Lemma offers_grp {A} l (ns : list (node A)) a : offers (Grp l ns) a <-> offered ns a.
Proof. simpl. induction ns as [|n ns IH]; simpl; [done|]. by rewrite <- IH. Qed.

Lemma offered_app {A} (xs ys : list (node A)) a :
  offered (xs ++ ys) a <-> offered xs a \/ offered ys a.
Proof. induction xs as [|x xs IH]; simpl; [tauto|]. rewrite IH. tauto. Qed.

Lemma offered_cons {A} (n : node A) ns a : offered (n :: ns) a <-> offers n a \/ offered ns a.
Proof. done. Qed.

Lemma offered_when {A} b (ns : list (node A)) a : offered (when b ns) a <-> b = true /\ offered ns a.
Proof. destruct b; simpl; intuition discriminate. Qed.

Lemma offered_map {A B} (f : B -> node A) (xs : list B) a :
  offered (map f xs) a <-> exists x, x ∈ xs /\ offers (f x) a.
Proof.
  induction xs as [|x xs IH]; simpl.
  - split; [done|]. by intros (? & ?%not_elem_of_nil & _).
  - rewrite IH. split.
    + intros [H|(y & Hy & H)]; [exists x|exists y]; split; auto; by constructor.
    + intros (y & [->|Hy]%elem_of_cons & H); [by left|right; by exists y].
Qed.

Lemma offered_concat {A B} (f : B -> list (node A)) (xs : list B) a :
  offered (concat (map f xs)) a <-> exists x, x ∈ xs /\ offered (f x) a.
Proof.
  induction xs as [|x xs IH]; simpl.
  - split; [done|]. by intros (? & ?%not_elem_of_nil & _).
  - rewrite offered_app, IH. split.
    + intros [H|(y & Hy & H)]; [exists x|exists y]; split; auto; by constructor.
    + intros (y & [->|Hy]%elem_of_cons & H); [by left|right; by exists y].
Qed.

(** Decomposes an offered action into the control that offers it: one goal per
    control, with its guards. *)
Ltac offers_cases H :=
  repeat lazymatch type of H with
  | offered [] _ => destruct H
  | offered (_ :: _) _ => destruct H as [H|H]
  | offered (_ ++ _) _ => apply offered_app in H; destruct H as [H|H]
  | offered (when _ _) _ =>
      let G := fresh "G" in apply offered_when in H; destruct H as [G H]
  | offered (concat (map _ _)) _ =>
      let x := fresh "x" in let G := fresh "G" in
      apply offered_concat in H; destruct H as (x & G & H)
  | offered (map _ _) _ =>
      let x := fresh "x" in let G := fresh "G" in
      apply offered_map in H; destruct H as (x & G & H)
  | offered (if ?b then _ else _) _ => let G := fresh "G" in destruct b eqn:G
  | offered (match ?b with _ => _ end) _ => let G := fresh "G" in destruct b eqn:G
  | offers (Txt _) _ => destruct H
  | offers (Link _ _) _ => destruct H
  | offers (Btn _ _ _) _ => let G := fresh "G" in destruct H as [G H]
  | offers (Chk _ _ _ _) _ => let G := fresh "G" in destruct H as [G H]
  | offers (Inp _ _ _ _) _ =>
      let G := fresh "G" in let v := fresh "v" in destruct H as [G [v H]]
  | offers (Sel _ _ _ _ _) _ =>
      let G := fresh "G" in let o := fresh "o" in let Go := fresh "Go" in
      destruct H as [G (o & Go & H)]
  | offers (Grp _ _) _ => apply offers_grp in H
  | offers (if ?b then _ else _) _ => let G := fresh "G" in destruct b eqn:G
  | offers (match ?b with _ => _ end) _ => let G := fresh "G" in destruct b eqn:G
  end.

#[export] Hint Constructors Ui.safe Ui.safe_at : react.
#[export] Hint Resolve Ui.seq_safe : react.

(** Whether a dependency of an effect changed since the previous render. *)
Definition changed {S B} `{EqDecision B} (f : S -> B) (r : option S) (s : S) : bool :=
  match r with Some r => negb (bool_decide (f r = f s)) | None => true end.

Lemma changed_false {S B} `{EqDecision B} (f : S -> B) r s :
  changed f r s = false -> exists r0, r = Some r0 /\ f r0 = f s.
Proof.
  destruct r as [r0|]; [|done]. simpl. rewrite negb_false_iff, bool_decide_eq_true. eauto.
Qed.
