(* ===== verification/Components.v ===== *)
(** The shared components of the admin UI: pagination (hooks/usePagination.ts,
    components/TablePagination.tsx), toasts, the confirmation dialog, the
    searchable selection, status badges, toggles and modal buttons. *)
From S2P Require Import Prelude Js React.

Module Pagination.

Record PaginationMeta := {
  m_page : Z; m_per_page : Z; m_total : Z; m_total_pages : Z }.

(** The state of [usePagination]. *)
Record state := State { page : Z; perPage : Z }.
#[export] Instance eta_state : Eta state := fun s => State (page s) (perPage s).

Definition usePagination : state := State 1 25.

Definition setPage (v : Z) (s : state) : state := s <| page := v |>.

Definition setPerPage (v : Z) (s : state) : state := s <| perPage := v |> <| page := 1 |>.

(** [Math.max(1, meta?.total_pages ?? 1)] and the summary of [TablePagination]. *)
Definition total (meta : option PaginationMeta) : Z := from_option m_total 0 meta.
Definition totalPages (meta : option PaginationMeta) : Z :=
  Z.max 1 (from_option m_total_pages 1 meta).
Definition from (meta : option PaginationMeta) (s : state) : Z :=
  if total meta =? 0 then 0 else (page s - 1) * perPage s + 1.
Definition to (meta : option PaginationMeta) (s : state) : Z :=
  Z.min (page s * perPage s) (total meta).

Inductive action := PageChange (p : Z) | PerPageChange (n : Z).

Definition sizes : list Z := [10; 25; 50; 100].

(** A size as the value of its option, and back ([Number(event.target.value)]). *)
Definition size_option (n : Z) : string * string := (pretty n, pretty n).
Definition size_value (v : string) : Z :=
  match Number v with Dec m e => m * 10 ^ e | _ => 0 end.

Definition TablePagination (meta : option PaginationMeta) (s : state) : list (node action) :=
  [ Txt (pretty (from meta s) +:+ "-" +:+ pretty (to meta s) +:+ " of " +:+ pretty (total meta));
    Sel "Rows per page" (pretty (perPage s)) false (map size_option sizes)
      (fun v => PerPageChange (size_value v));
    Btn "Previous" (page s <=? 1) (PageChange (page s - 1));
    Txt ("Page " +:+ pretty (page s) +:+ " of " +:+ pretty (totalPages meta));
    Btn "Next" (totalPages meta <=? page s) (PageChange (page s + 1)) ].

(** [onPageChange={setPage} onPerPageChange={setPerPage}] *)
Definition apply (a : action) (s : state) : state :=
  match a with PageChange p => setPage p s | PerPageChange n => setPerPage n s end.

(** One user action offered by the control, for the totals on screen; or the
    effect of [usePagination] when a reset key changes. *)
Inductive step (meta : option PaginationMeta) : state -> state -> Prop :=
| step_action s a : offered (TablePagination meta s) a -> step meta s (apply a s)
| step_reset s : step meta s (setPage 1 s).

(** A server that splits [n] rows in pages of the requested size. *)
Definition paged (n : Z) (s : state) : PaginationMeta :=
  {| m_page := page s; m_per_page := perPage s; m_total := n;
     m_total_pages := (n + perPage s - 1) / perPage s |}.

Inductive run (n : Z) : state -> Prop :=
| run_start : run n usePagination
| run_step s s' : run n s -> step (Some (paged n s)) s s' -> run n s'.

Definition wf (n : Z) (s : state) : Prop :=
  0 < perPage s /\ 1 <= page s /\ (page s <= totalPages (Some (paged n s))).

Lemma size_value_sizes o : In o (map size_option sizes) -> 0 < size_value o.1.
Proof. simpl. intros H. repeat destruct H as [<-|H]; [..|done]; vm_compute; reflexivity. Qed.

Lemma wf_reset n s : 0 < perPage s -> wf n (setPage 1 s).
Proof. unfold wf, totalPages. simpl. lia. Qed.

Lemma wf_action n s a :
  wf n s -> offered (TablePagination (Some (paged n s)) s) a -> wf n (apply a s).
Proof.
  intros (Hp & H1 & H2) Ha. unfold TablePagination in Ha. offers_cases Ha; subst; simpl.
  - pose proof (size_value_sizes _ Go). unfold wf, totalPages. simpl. lia.
  - apply Z.leb_gt in G. unfold wf, totalPages in *. simpl in *. lia.
  - apply Z.leb_gt in G. unfold wf, totalPages in *. simpl in *. lia.
Qed.

(** However the user pages, resizes and filters, the page shown stays
    between 1 and the number of pages of the [n] rows, and the page size stays
    positive. *)
Theorem pagination_in_range n s : run n s -> wf n s.
Proof.
  induction 1 as [|s s' _ IH Hs].
  - unfold wf, totalPages. simpl. lia.
  - inversion Hs as [s0 a Ha|s0]; subst; [by apply wf_action|]. apply wf_reset, IH.
Qed.

Lemma pagination_in_range_witness : wf 60 (State 2 25).
Proof.
  apply pagination_in_range. eapply run_step; [apply run_start|].
  apply (step_action _ usePagination (PageChange 2)). do 4 right. left. by split.
Defined.

(** The pages partition the rows: row [i] of [n] is in the summary range
    "from-to" of exactly one page of the control. *)
Theorem pages_partition_rows n k i :
  0 < k -> 1 <= i <= n ->
  exists! p, 1 <= p <= totalPages (Some (paged n (State p k)))
    /\ from (Some (paged n (State p k))) (State p k) <= i
       <= to (Some (paged n (State p k))) (State p k).
Proof.
  intros Hk Hi. exists ((i - 1) / k + 1).
  unfold totalPages, from, to, total, paged; simpl.
  assert (Hn : (n =? 0) = false) by lia. rewrite Hn.
  pose proof (Z.div_mod (i - 1) k ltac:(lia)) as Hd.
  pose proof (Z.mod_pos_bound (i - 1) k Hk) as Hm.
  pose proof (Z.div_pos (i - 1) k ltac:(lia) Hk) as Hq.
  split.
  - repeat split; try nia.
    enough ((i - 1) / k + 1 <= (n + k - 1) / k) by lia.
    apply Z.div_le_lower_bound; nia.
  - intros p (Hp & Hl & Hr). assert ((i - 1) / k = p - 1); [|lia].
    symmetry. apply (Z.div_unique_pos _ _ _ (i - 1 - (p - 1) * k)); nia.
Qed.

Lemma pages_partition_rows_witness :
  exists! p, 1 <= p <= totalPages (Some (paged 60 (State p 25)))
    /\ from (Some (paged 60 (State p 25))) (State p 25) <= 51
       <= to (Some (paged 60 (State p 25))) (State p 25).
Proof. apply (pages_partition_rows 60 25 51); lia. Defined.

End Pagination.

Module Toast.

Record item := Item {
  i_id : Z; i_kind : toast_kind; i_title : string; i_message : option string }.

(** The list on screen, and the identifiers of the pending timers. *)
Record state := State { items : list item; timers : list Z }.
#[export] Instance eta_state : Eta state := fun s => State (items s) (timers s).

(** [xs.slice(-n)] *)
Definition slice_last {A} (n : nat) (xs : list A) : list A :=
  skipn (length xs - n) xs.

Definition without (id : Z) (xs : list item) : list item :=
  filter_by (fun x => negb (i_id x =? id)) xs.

(** [push]: [id] is [Date.now() + Math.floor(Math.random() * 1000)]. *)
Definition push (id : Z) (k : toast_kind) (title : string) (msg : option string)
    (s : state) : state :=
  s <| items := slice_last 4 (items s ++ [Item id k title msg]) |>
    <| timers := timers s ++ [id] |>.

(** The timer of [push] fires. *)
Definition expire (id : Z) (s : state) : state :=
  s <| items := without id (items s) |>.

(** The dismiss button of one toast. *)
Definition dismiss (id : Z) (s : state) : state :=
  s <| items := without id (items s) |>.

(** The rendered list: per toast its kind, title, message and dismiss button. *)
Definition view (s : state) : list (node Z) :=
  map (fun x =>
    Grp (match i_kind x with
         | ToastSuccess => "success" | ToastError => "error" | ToastInfo => "info" end)
      (Txt (i_title x)
       :: when (truthy (or_empty (i_message x))) [Txt (or_empty (i_message x))]
       ++ [Btn "Dismiss notification" false (i_id x)])) (items s).

Inductive step : state -> state -> Prop :=
| step_push s id k title msg : step s (push id k title msg s)
| step_timer s i id :
    timers s !! i = Some id -> step s (expire id s <| timers := delete i (timers s) |>)
| step_dismiss s id : offered (view s) id -> step s (dismiss id s).

Inductive reachable : state -> Prop :=
| reach_start : reachable (State [] [])
| reach_step s s' : reachable s -> step s s' -> reachable s'.

(** All the pending timers fire, in any order. *)
Inductive timeouts : state -> state -> Prop :=
| timeouts_none s : timers s = [] -> timeouts s s
| timeouts_one s i id s' :
    timers s !! i = Some id ->
    timeouts (expire id s <| timers := delete i (timers s) |>) s' -> timeouts s s'.

Definition wf (s : state) : Prop :=
  (length (items s) <= 4)%nat /\ Forall (fun x => i_id x ∈ timers s) (items s).

Lemma without_sub id xs x : x ∈ without id xs -> x ∈ xs /\ i_id x <> id.
Proof.
  unfold without. rewrite elem_of_filter_by. intros [H1 H2]. split; [done|].
  apply negb_true_iff in H1. lia.
Qed.

Lemma without_wf id s ts :
  wf s -> (forall y, y ∈ timers s -> y <> id -> y ∈ ts) ->
  wf (State (without id (items s)) ts).
Proof.
  intros [Hl Hf] Hts. split; simpl.
  - etrans; [apply filter_by_length|done].
  - apply Forall_forall. intros x [Hx Hid]%without_sub.
    apply Hts; [|done]. by eapply Forall_forall in Hf.
Qed.

Lemma elem_of_delete_other (l : list Z) i x y :
  l !! i = Some x -> y ∈ l -> y <> x -> y ∈ delete i l.
Proof.
  intros Hi Hy Hne. rewrite delete_take_drop. rewrite elem_of_app.
  rewrite <- (take_drop_middle l i x Hi) in Hy.
  rewrite elem_of_app, elem_of_cons in Hy. naive_solver.
Qed.

Lemma elem_of_skipn {A} n (xs : list A) x : x ∈ skipn n xs -> x ∈ xs.
Proof. intros H. rewrite <- (take_drop n xs). apply elem_of_app. by right. Qed.

Lemma step_wf s s' : step s s' -> wf s -> wf s'.
Proof.
  intros [s0 id k t m|s0 i id Hi|s0 id _] Hwf.
  - destruct Hwf as [Hl Hf]. split; simpl.
    + unfold slice_last. rewrite length_skipn, length_app. simpl. lia.
    + apply Forall_forall. intros x Hx%elem_of_skipn.
      apply elem_of_app in Hx as [Hx| ->%list_elem_of_singleton]; [|set_solver].
      eapply Forall_forall in Hf; [|done]. apply elem_of_app. by left.
  - apply (without_wf id s0); [done|]. intros y. by apply elem_of_delete_other.
  - by apply (without_wf id s0).
Qed.

(** At most four toasts are ever on screen, and each one has a pending
    timer that will remove it. *)
Theorem toasts_bounded_and_timed s : reachable s -> wf s.
Proof.
  induction 1 as [|s s' _ IH Hs].
  - split; simpl; [lia|constructor].
  - by eapply step_wf.
Qed.

Lemma toasts_bounded_and_timed_witness :
  wf (push 7 ToastError "Unable to load users" None (State [] [])).
Proof. apply toasts_bounded_and_timed. eapply reach_step; [apply reach_start|constructor]. Defined.

Lemma timeouts_clear s s' : timeouts s s' -> wf s -> items s' = [].
Proof.
  induction 1 as [s Ht|s i id s' Hi _ IH]; intros Hwf.
  - destruct Hwf as [_ Hf]. rewrite Ht in Hf. destruct (items s) as [|x xs]; [done|].
    inversion Hf as [|? ? Hx _]; subst. by apply not_elem_of_nil in Hx.
  - apply IH. eapply step_wf; [by eapply step_timer|done].
Qed.

Lemma timeouts_exist s : exists s', timeouts s s'.
Proof.
  remember (length (timers s)) as n eqn:Hn. revert s Hn.
  induction n as [|n IH]; intros s Hn.
  - exists s. constructor. by apply nil_length_inv.
  - destruct (timers s) as [|id ts] eqn:Ht; [done|].
    destruct (IH (expire id s <| timers := ts |>)) as [s' Hs']; [simpl; simpl in Hn; lia|].
    exists s'. eapply (timeouts_one s 0 id); rewrite Ht; done.
Qed.

(** No toast stays for ever: from any reachable state the pending timers
    can fire, and once they have fired, in whatever order, nothing is left on
    screen. *)
Theorem toasts_all_expire s :
  reachable s ->
  (exists s', timeouts s s') /\ forall s', timeouts s s' -> items s' = [].
Proof.
  intros Hr. split; [apply timeouts_exist|].
  intros s' H. eapply timeouts_clear; [done|].
  clear H. induction Hr as [|s s1 _ IH Hs].
  - split; simpl; [lia|constructor].
  - by eapply step_wf.
Qed.

Lemma toasts_all_expire_witness :
  (exists s', timeouts (push 7 ToastInfo "Saved" None (State [] [])) s') /\
  forall s', timeouts (push 7 ToastInfo "Saved" None (State [] [])) s' -> items s' = [].
Proof. apply toasts_all_expire. eapply reach_step; [apply reach_start|constructor]. Defined.

End Toast.

(** [useConfirmDialog], over the confirmations [K] its page can request. *)
Module Confirm.
Section Dialog.
Context {K : Type}.

(** The texts of an intent; [onConfirm] is the page's program for [K]. *)
Record intent := Intent {
  title : string; description : option string; body : option string;
  confirmLabel : option string; danger : bool; payload : K }.

Record state := State { pending : option intent; running : bool }.
#[export] Instance eta_state : Eta state := fun s => State (pending s) (running s).

Inductive action := Request (i : intent) | Close | Cancel | Accept.

(** [await intent.onConfirm()], an asynchronous function of the page. *)
Inductive event : Type -> Type := OnConfirm (k : K) : event unit.
Definition http (X : Type) (e : event X) : list request := [].

Definition confirm (s : state) : prog event state :=
  match pending s with
  | None => Done
  | Some i =>
      set! (fun s => s <| running := true |>) ;;
      await! r <- OnConfirm (payload i) ;;
      match r with
      | Ok _ =>
          set! (fun s => s <| pending := None |>) ;;
          set! (fun s => s <| running := false |>) ;; Done
      | Threw _ => set! (fun s => s <| running := false |>) ;; Done
      end
  end.

Definition handle (a : action) (s : state) : prog event state :=
  match a with
  | Request i => set! (fun s => s <| pending := Some i |>) ;; Done
  | Close => if running s then Done else set! (fun s => s <| pending := None |>) ;; Done
  | Cancel => set! (fun s => s <| pending := None |>) ;; Done
  | Accept => confirm s
  end.

(** The dialog; closing it ([onClose]) is its backdrop, its cross and Escape. *)
Definition confirmDialog (s : state) : list (node action) :=
  match pending s with
  | None => []
  | Some i =>
      [ Txt (title i); Txt (or_empty (description i)); Btn "Close" false Close;
        Txt (match body i with Some b => b | None => "This action will be applied immediately." end);
        Btn "Cancel" (running s) Cancel;
        Btn (if running s then "Saving..." else or_empty (confirmLabel i) ||| "Confirm")
          (running s) Accept ]
  end.

(** The page around the dialog may request any confirmation at any time. *)
Definition view (requests : list intent) (s : state) : list (node action) :=
  map (fun i => Btn (title i) false (Request i)) requests ++ confirmDialog s.

Definition effects (r : option state) (s : state) : list (prog event state) := [].

Definition initial : state := State None false.

Definition reachable (requests : list intent) :=
  Ui.reachable http effects handle (view requests) initial.

(** A suspended confirmation, with the continuation of [confirm]. *)
Definition awaiting (k : K) : prog event state :=
  await! r <- OnConfirm k ;;
  match r with
  | Ok _ =>
      set! (fun s : state => s <| pending := None |>) ;;
      set! (fun s : state => s <| running := false |>) ;; Done
  | Threw _ => set! (fun s : state => s <| running := false |>) ;; Done
  end.

Definition single (c : Ui.config) : Prop :=
  if running (Ui.c_state c) then exists k, Ui.c_pool c = [awaiting k]
  else Ui.c_pool c = [].

Lemma awaiting_inv k X (e : event X) kk :
  awaiting k = Call e kk ->
  forall r s, exists s', Ui.sync http (kk r) s = (s', [], []) /\ running s' = false.
Proof.
  unfold awaiting. intros H.
  refine (match H in _ = p return
    match p with
    | Call e kk => forall r s, exists s', Ui.sync http (kk r) s = (s', [], []) /\ running s' = false
    | _ => True end with eq_refl => _ end).
  intros [u|t] s; simpl; eauto.
Qed.

Lemma single_step requests c c' :
  Ui.step http effects handle (view requests) c c' -> single c -> single c'.
Proof.
  intros Hs. unfold single. destruct Hs as [c Hd|c a Hd Ha|c i X e k r Hi
    |c i bs k j b r f Hi Hj Hb|c i bs k j b r x Hi Hj Hb|c i k Hi]; intros Hc.
  - unfold Ui.commit. simpl. by rewrite app_nil_r.
  - unfold Ui.resume, view in *. apply offered_app in Ha.
    destruct (running (Ui.c_state c)) eqn:Hr.
    + destruct Ha as [Ha|Ha]; [offers_cases Ha; subst; simpl; rewrite Hr, app_nil_r; done|].
      unfold confirmDialog in Ha. offers_cases Ha; subst; try congruence.
      simpl. rewrite Hr. simpl. rewrite Hr, app_nil_r. done.
    + destruct Ha as [Ha|Ha]; [offers_cases Ha; subst; simpl; rewrite Hr, app_nil_r; done|].
      unfold confirmDialog in Ha. offers_cases Ha; subst; simpl.
      * rewrite Hr. simpl. by rewrite Hr, app_nil_r.
      * by rewrite Hr, app_nil_r.
      * unfold confirm. rewrite G. simpl. rewrite Hc. by exists (payload i).
  - destruct (running (Ui.c_state c)) eqn:Hr; [|by rewrite Hc in Hi].
    destruct Hc as [k0 Hc]. rewrite Hc in Hi. destruct i as [|i]; [|done].
    apply (inj Some) in Hi. destruct (awaiting_inv k0 X e k Hi r (Ui.c_state c)) as (s' & Hy & Hr').
    unfold Ui.resume. rewrite Hy, Hc. simpl. by rewrite Hr'.
  - destruct (running (Ui.c_state c)); [destruct Hc as [k0 Hc]|]; rewrite Hc in Hi;
      destruct i; done.
  - destruct (running (Ui.c_state c)); [destruct Hc as [k0 Hc]|]; rewrite Hc in Hi;
      destruct i; done.
  - destruct (running (Ui.c_state c)); [destruct Hc as [k0 Hc]|]; rewrite Hc in Hi;
      destruct i; done.
Qed.

End Dialog.
Arguments intent : clear implicits.
Arguments state : clear implicits.
Arguments action : clear implicits.
Arguments event : clear implicits.

(** Under every interleaving of requests, clicks and completions, at most
    one confirmed action is in flight, and one is exactly while the dialog
    shows "Saving...". *)
Theorem confirm_single_flight {K} (requests : list (intent K)) c :
  reachable requests c -> single c.
Proof.
  induction 1 as [|c c' _ IH Hs]; [done|]. by eapply single_step.
Qed.

Definition sample : intent nat := Intent "Delete user" None None None true 4%nat.

Lemma confirm_single_flight_witness :
  exists c, Ui.c_pool c = [awaiting 4%nat] /\ single c.
Proof.
  set (v := view [sample]). set (h := @http nat). set (ef := @effects nat).
  set (c1 := Ui.commit h ef (Ui.initial initial)).
  set (c2 := Ui.commit h ef
    (Ui.resume h c1 (Ui.c_pool c1) (handle (Request sample) (Ui.c_state c1)))).
  set (c3 := Ui.resume h c2 (Ui.c_pool c2) (handle Accept (Ui.c_state c2))).
  exists c3. split; [reflexivity|].
  apply (confirm_single_flight [sample]).
  eapply Ui.reach_step; [|apply (Ui.step_event h ef handle v c2 Accept)].
  - eapply Ui.reach_step; [|by apply Ui.step_commit].
    eapply Ui.reach_step; [|apply (Ui.step_event h ef handle v c1 (Request sample))].
    + eapply Ui.reach_step; [apply Ui.reach_init|by apply Ui.step_commit].
    + reflexivity.
    + left. by split.
  - reflexivity.
  - do 6 right. left. by split.
Defined.

End Confirm.

Module SearchSelect.

Record option_ := Opt { value : string; label : string; disabled : bool }.

(** The menu's state; its place on screen is left out. *)
Record state := State { open : bool; query : string }.
#[export] Instance eta_state : Eta state := fun s => State (open s) (query s).
Definition initial : state := State false "".

Definition selected (v : string) (options : list option_) : option option_ :=
  find (fun o => bool_decide (value o = v)) options.

Definition filtered (s : state) (options : list option_) : list option_ :=
  filter_by (fun o => includes_str (to_lower (query s)) (to_lower (label o))) options.

Inductive action :=
| Toggle                 (* the button *)
| Outside                (* a mouse press outside the button and the menu *)
| Type_ (q : string)     (* the query field *)
| Choose (v : string).   (* an option's button *)

Definition view (v : string) (options : list option_) (placeholder : string) (s : state)
    : list (node action) :=
  Btn (match selected v options with
       | Some o => label o ||| placeholder | None => placeholder end) false Toggle
  :: when (open s)
      (Inp "Search..." (query s) false Type_
       :: map (fun o => Btn (label o) (disabled o) (Choose (value o))) (filtered s options)
       ++ when (match filtered s options with [] => true | _ => false end)
            [Txt "No results found"]).

(** The new state, and the argument of the caller's [onChange]. *)
Definition handle (a : action) (s : state) : state * option string :=
  match a with
  | Toggle => (s <| open := negb (open s) |> <| query := "" |>, None)
  | Outside => (s <| open := false |>, None)
  | Type_ q => (s <| query := q |>, None)
  | Choose v => (s <| open := false |>, Some v)
  end.

(** The values handed to [onChange] while a user works the control. *)
Inductive run (v : string) (options : list option_) (ph : string)
    : state -> list string -> Prop :=
| run_start : run v options ph initial []
| run_act s out a :
    run v options ph s out -> offered (view v options ph s) a ->
    run v options ph (handle a s).1 (option_list (handle a s).2 ++ out)
| run_outside s out : run v options ph s out -> run v options ph (handle Outside s).1 out.

(** What the pages rely on ([Sel] in [React.node]): a selection yields the
    value of one of its enabled options. *)
Definition selectable (options : list option_) (v : string) : Prop :=
  exists o, o ∈ options /\ disabled o = false /\ value o = v.

Lemma run_selects v options ph s out :
  run v options ph s out -> Forall (selectable options) out.
Proof.
  induction 1 as [|s out a _ IH Ha|s out _ IH]; [constructor| |done].
  apply Forall_app. split; [|done]. unfold view in Ha. offers_cases Ha; subst; simpl; try constructor.
  - unfold filtered in G0. apply elem_of_filter_by in G0 as [_ Hx]. by exists x.
  - constructor.
Qed.

Lemma includes_empty s : includes_str "" s = true.
Proof. by destruct s. Qed.

Lemma filtered_open options : filtered (handle Toggle initial).1 options = options.
Proof.
  unfold filtered. apply filter_by_all, Forall_forall. intros o _. simpl. apply includes_empty.
Qed.

(** The control refines a plain selection: the values it can hand to
    [onChange] are exactly the values of its enabled options, whatever is typed
    in the search field. *)
Theorem search_select_refines v options ph x :
  (exists s out, run v options ph s out /\ x ∈ out) <-> selectable options x.
Proof.
  split.
  - intros (s & out & Hr & Hx). eapply Forall_forall; [by eapply run_selects|done].
  - intros (o & Ho & Hd & <-).
    exists (handle (Choose (value o)) (handle Toggle initial).1).1, [value o].
    split; [|by left].
    apply (run_act v options ph (handle Toggle initial).1 [] (Choose (value o))).
    + apply (run_act v options ph initial [] Toggle); [constructor|]. left. by split.
    + right. simpl. right. apply offered_app. left.
      apply offered_map. exists o. split; [|by split].
      change (filtered {| open := true; query := "" |} options)
        with (filtered (handle Toggle initial).1 options).
      by rewrite filtered_open.
Qed.

End SearchSelect.

Module TenantFilter.

Record option_ := Opt { id : string; name : string; slug : option string }.

(** The options of the tenant selection: all tenants first. *)
Definition options (tenants : list option_) : list (string * string) :=
  ("", "All tenants")
  :: map (fun t =>
       (id t, if truthy (or_empty (slug t))
              then name t +:+ " (" +:+ or_empty (slug t) +:+ ")" else name t)) tenants.

Definition view {A} (value : string) (on_change : string -> A) (tenants : list option_)
    : node A :=
  Sel "Tenant" value false (options tenants) on_change.

End TenantFilter.

Module Status.

Definition positive : list string :=
  ["active"; "enabled"; "sent"; "approved"; "healthy"; "connected"; "sending"].
Definition negative : list string :=
  ["inactive"; "disabled"; "failed"; "revoked"; "cancelled"; "dead"; "blocked"].

Inductive status := SBool (b : bool) | SText (s : string) | SAbsent.
Inductive tone := Good | Bad | Neutral.

Definition status_value (s : status) : string :=
  match s with
  | SBool b => if b then "enabled" else "disabled"
  | SText s => to_lower (s ||| "unknown")
  | SAbsent => to_lower "unknown"
  end.

(** The tone (icon and colours) and the text of a badge. *)
Definition StatusBadge (s : status) : tone * string :=
  let value := status_value s in
  let good := includes positive value in
  let bad := includes negative value in
  (if good then Good else if bad then Bad else Neutral,
   replace_all_char (ascii_of_nat 95) (ascii_of_nat 32) value).

(** A switch: its label announces the state it is in. *)
Definition StatusToggle {A} (value : bool) (label : string) (disabled : bool) (on_toggle : A)
    : node A :=
  Chk (label +:+ ": " +:+ (if value then "Enabled" else "Disabled")) value disabled on_toggle.

End Status.

Module Modal.

Inductive icon := LoaderCircle | X | Trash2 | Pencil | Plus | Check_ | Save.

Definition has (label w : string) : bool := includes_str w label.

(** The icon of a modal button, from its text; [None] for other children. *)
Definition modalIcon (children : option string) : option icon :=
  let label := to_lower (or_empty children) in
  if has label "creating" || has label "saving" || has label "deleting" then Some LoaderCircle
  else if has label "cancel" || has label "close" then Some X
  else if has label "delete" || has label "revoke" then Some Trash2
  else if has label "edit" then Some Pencil
  else if has label "create" || has label "add" then Some Plus
  else if has label "save" || has label "saved" then
    Some (if has label "saved" then Check_ else Save)
  else None.

(** [/creating|saving|deleting/i.test(children)]: whether the icon spins. *)
Definition spins (children : option string) : bool :=
  match children with
  | Some s => has (to_lower s) "creating" || has (to_lower s) "saving" || has (to_lower s) "deleting"
  | None => false
  end.

(** The dialog of a page: its title, description, closing buttons, content and
    footer.  Its cross, its backdrop and Escape all call [onClose]. *)
Definition Modal {A} (title description : string) (on_close : A)
    (children footer : list (node A)) : node A :=
  Grp title
    ([Btn "Close modal" false on_close; Txt description; Btn "Close" false on_close]
     ++ children ++ footer).

Definition ModalButton {A} (label : string) (disabled : bool) (on_click : A) : node A :=
  Btn label disabled on_click.

End Modal.
