(* ===== verification/Query.v ===== *)
(** Query strings: the standard library's URLSearchParams and
    encodeURIComponent on UTF-8 bytes, and [listPage] of api/client.ts. *)
From S2P Require Import Prelude Js.

(** * Percent encoding *)

Definition hex_upper (n : Z) : ascii :=
  ascii_of_nat (Z.to_nat (if n <? 10 then 48 + n else 55 + n)).

Definition percent : ascii := ascii_of_nat 37.
Definition plus : ascii := ascii_of_nat 43.
Definition amp : ascii := ascii_of_nat 38.
Definition equals : ascii := ascii_of_nat 61.
Definition question : ascii := ascii_of_nat 63.
Definition space : ascii := ascii_of_nat 32.

Definition is_alnum (c : ascii) : bool :=
  let b := byte c in
  ((48 <=? b) && (b <=? 57)) || ((65 <=? b) && (b <=? 90)) || ((97 <=? b) && (b <=? 122)).

(** The bytes the query serializer leaves alone: letters, digits, "*-._". *)
Definition form_safe (c : ascii) : bool :=
  is_alnum c || (byte c =? 42) || (byte c =? 45) || (byte c =? 46) || (byte c =? 95).

(** The bytes [encodeURIComponent] leaves alone: also "!~'()" but not "+". *)
Definition component_safe (c : ascii) : bool :=
  form_safe c || (byte c =? 33) || (byte c =? 126) || ((39 <=? byte c) && (byte c <=? 41)).

Definition pct (c : ascii) : string :=
  String percent (String (hex_upper (byte c / 16)) (String (hex_upper (byte c mod 16)) "")).

Definition form_char (c : ascii) : string :=
  if form_safe c then String c ""
  else if decide (c = space) then String plus "" else pct c.

Fixpoint form_encode (s : string) : string :=
  match s with
  | EmptyString => ""
  | String c s => form_char c +:+ form_encode s
  end.

Fixpoint encodeURIComponent (s : string) : string :=
  match s with
  | EmptyString => ""
  | String c s =>
      (if component_safe c then String c "" else pct c) +:+ encodeURIComponent s
  end.

Definition unhex (c : ascii) : option Z :=
  let b := byte c in
  if (48 <=? b) && (b <=? 57) then Some (b - 48)
  else if (65 <=? b) && (b <=? 70) then Some (b - 55)
  else if (97 <=? b) && (b <=? 102) then Some (b - 87)
  else None.

(** "+" is a space, "%XY" a byte, anything else itself. *)
Fixpoint form_decode (s : string) : string :=
  match s with
  | EmptyString => ""
  | String c s' =>
      if decide (c = plus) then String space (form_decode s')
      else if decide (c = percent) then
        match s' with
        | String h (String l s'') =>
            match unhex h, unhex l with
            | Some a, Some b => String (ascii_of_nat (Z.to_nat (a * 16 + b))) (form_decode s'')
            | _, _ => String c (form_decode s')
            end
        | _ => String c (form_decode s')
        end
      else String c (form_decode s')
  end.

(** * Splitting *)

(** [s.split(c)] *)
Fixpoint split (c : ascii) (s : string) : list string :=
  match s with
  | EmptyString => [""]
  | String x s =>
      if decide (x = c) then "" :: split c s
      else match split c s with
           | p :: ps => String x p :: ps
           | [] => [String x ""]
           end
  end.

(** The text before the first [c], and after it. *)
Fixpoint cut (c : ascii) (s : string) : string * string :=
  match s with
  | EmptyString => ("", "")
  | String x s =>
      if decide (x = c) then ("", s) else let '(a, b) := cut c s in (String x a, b)
  end.

(** * URLSearchParams *)

(** The list of name-value pairs. *)
Abbreviation params := (list (string * string)).

Definition parse_pair (s : string) : string * string :=
  let '(n, v) := cut equals s in (form_decode n, form_decode v).

(** [new URLSearchParams(init)], for an [init] without a leading "?". *)
Definition parse (s : string) : params :=
  map parse_pair (filter_by truthy (split amp s)).

Definition print_pair (nv : string * string) : string :=
  form_encode nv.1 +:+ String equals (form_encode nv.2).

(** [query.toString()] *)
Definition serialize (q : params) : string := join (String amp "") (map print_pair q).

(** [query.set(name, value)]: the first pair of that name takes the value and
    the others go; without one the pair is appended. *)
Fixpoint query_replace (name value : string) (seen : bool) (q : params) : params :=
  match q with
  | [] => []
  | (n, v) :: q =>
      if decide (n = name) then
        if seen then query_replace name value true q
        else (n, value) :: query_replace name value true q
      else (n, v) :: query_replace name value seen q
  end.

Definition query_set (q : params) (name value : string) : params :=
  match find (fun nv => bool_decide (nv.1 = name)) q with
  | None => q ++ [(name, value)]
  | Some _ => query_replace name value false q
  end.

(** The first value of a name, as the API's [r.URL.Query().Get] reads it. *)
Definition query_get (q : params) (name : string) : string := or_empty (oget q name).

(** * [listPage]

    A parameter is [None] when undefined; a number is given by its text. *)
Definition set_params (q : params) (ps : list (string * option string)) : params :=
  fold_left (fun q kv =>
    match kv.2 with
    | Some v => if truthy v then query_set q kv.1 v else q
    | None => q
    end) ps q.

Definition listPage_path (path : string) (ps : list (string * option string)) : string :=
  let parts := split question path in
  let base := default "" (parts !! 0%nat) in
  let existing := default "" (parts !! 1%nat) in
  let qs := serialize (set_params (parse existing) ps) in
  base +:+ (if truthy qs then String question qs else "").

Definition listPage (path : string) (ps : list (string * option string)) : request :=
  GET (listPage_path path ps).

Definition list_ (path : string) : request := GET path.

(** * Lemmas *)

Fixpoint has_char (c : ascii) (s : string) : bool :=
  match s with
  | EmptyString => false
  | String x s => bool_decide (x = c) || has_char c s
  end.

Lemma all_ascii (P : ascii -> bool) :
  forallb P (map ascii_of_nat (seq 0 256)) = true -> forall c, P c = true.
Proof.
  intros H c. rewrite forallb_forall in H. apply H.
  rewrite <- (ascii_nat_embedding c). apply in_map, in_seq.
  pose proof (nat_ascii_bounded c). lia.
Qed.

Lemma has_char_app c a b : has_char c (a +:+ b) = has_char c a || has_char c b.
Proof.
  induction a as [|x a IH]; [done|]. rewrite app_cons_str. simpl. rewrite IH. apply orb_assoc.
Qed.

(** The two shapes of an encoded byte, checked on every byte. *)
Definition form_char_ok (c : ascii) : bool :=
  match form_char c with
  | String x "" =>
      if decide (x = plus) then bool_decide (c = space)
      else negb (bool_decide (x = percent)) && bool_decide (x = c) && form_safe x
  | String x (String h (String l "")) =>
      bool_decide (x = percent) && form_safe h && form_safe l &&
      match unhex h, unhex l with
      | Some a, Some b => bool_decide (c = ascii_of_nat (Z.to_nat (a * 16 + b)))
      | _, _ => false
      end
  | _ => false
  end.

Lemma form_char_shape c : form_char_ok c = true.
Proof. apply all_ascii. vm_compute. reflexivity. Qed.

Lemma form_char_decode c s : form_decode (form_char c +:+ s) = String c (form_decode s).
Proof.
  pose proof (form_char_shape c) as H. unfold form_char_ok in H.
  destruct (form_char c) as [|x [|h [|l [|]]]]; try done.
  - rewrite app_cons_str. change ("" +:+ s) with s. cbn [form_decode].
    destruct (decide (x = plus)); [by apply bool_decide_eq_true in H as ->|].
    apply andb_prop in H as [[Hx ->%bool_decide_eq_true]%andb_prop _].
    by destruct (decide (c = percent)) as [->|].
  - apply andb_prop in H as [[[->%bool_decide_eq_true _]%andb_prop _]%andb_prop H].
    rewrite !app_cons_str. change ("" +:+ s) with s. cbn [form_decode].
    destruct (decide (percent = plus)); [done|]. destruct (decide (percent = percent)); [|done].
    destruct (unhex h), (unhex l); try done. by apply bool_decide_eq_true in H as ->.
Qed.

Lemma form_roundtrip s : form_decode (form_encode s) = s.
Proof. induction s as [|c s IH]; [done|]. cbn [form_encode]. by rewrite form_char_decode, IH. Qed.

(** The serializer's separators never occur in encoded text. *)
Lemma form_encode_no_sep c s : form_safe c = false -> c <> plus -> c <> percent ->
  has_char c (form_encode s) = false.
Proof.
  intros Hc Hp Hq. induction s as [|x s IH]; [done|]. cbn [form_encode].
  rewrite has_char_app, IH, orb_false_r.
  assert (Hne : forall y, form_safe y = true -> bool_decide (y = c) = false).
  { intros y Hy. apply bool_decide_eq_false. congruence. }
  pose proof (form_char_shape x) as H. unfold form_char_ok in H.
  destruct (form_char x) as [|a [|h [|l [|]]]]; try done; cbn [has_char].
  - destruct (decide (a = plus)) as [->|].
    + by rewrite bool_decide_eq_false_2.
    + apply andb_prop in H as [_ H]. by rewrite Hne.
  - apply andb_prop in H as [[[->%bool_decide_eq_true Hh]%andb_prop Hl]%andb_prop _].
    by rewrite bool_decide_eq_false_2, !Hne.
Qed.

Lemma cut_no_sep c a b : has_char c a = false -> cut c (a +:+ String c b) = (a, b).
Proof.
  induction a as [|x a IH]; cbn [has_char].
  - intros _. change ("" +:+ String c b) with (String c b). simpl. by case_decide.
  - intros [Hx Ha]%orb_false_iff. rewrite app_cons_str. cbn [cut split].
    rewrite IH by done. apply bool_decide_eq_false in Hx. by rewrite decide_False.
Qed.

Lemma split_no_sep c a : has_char c a = false -> split c a = [a].
Proof.
  induction a as [|x a IH]; simpl; [done|]. intros [Hx Ha]%orb_false_iff.
  apply bool_decide_eq_false in Hx. by rewrite decide_False, IH.
Qed.

Lemma split_app_sep c a b : has_char c a = false -> split c (a +:+ String c b) = a :: split c b.
Proof.
  induction a as [|x a IH]; cbn [has_char].
  - intros _. change ("" +:+ String c b) with (String c b). simpl. by case_decide.
  - intros [Hx Ha]%orb_false_iff. rewrite app_cons_str. cbn [cut split].
    apply bool_decide_eq_false in Hx. rewrite decide_False, IH; done.
Qed.

Lemma split_join c xs :
  xs <> [] -> Forall (fun x => has_char c x = false) xs ->
  split c (join (String c "") xs) = xs.
Proof.
  intros Hne. induction 1 as [|x xs Hx Hxs IH]; [done|]. destruct xs as [|y xs].
  - by apply split_no_sep.
  - change (join (String c "") (x :: y :: xs))
      with (x +:+ String c (join (String c "") (y :: xs))).
    rewrite split_app_sep by done. by rewrite IH.
Qed.

Lemma parse_print_pair nv : parse_pair (print_pair nv) = nv.
Proof.
  unfold parse_pair, print_pair. rewrite cut_no_sep by (by apply form_encode_no_sep).
  rewrite !form_roundtrip. by destruct nv.
Qed.

Lemma print_pair_no_amp nv : has_char amp (print_pair nv) = false.
Proof.
  unfold print_pair. rewrite has_char_app. cbn [has_char].
  by rewrite !form_encode_no_sep.
Qed.

Lemma print_pair_truthy nv : truthy (print_pair nv) = true.
Proof.
  apply truthy_true. unfold print_pair. destruct (form_encode nv.1); [done|].
  by rewrite app_cons_str.
Qed.

Lemma parse_serialize q : parse (serialize q) = q.
Proof.
  unfold parse, serialize. destruct q as [|nv q]; [done|].
  rewrite split_join; [|done|apply Forall_map, Forall_forall; intros; apply print_pair_no_amp].
  rewrite filter_by_all
    by (apply Forall_map, Forall_forall; intros; apply print_pair_truthy).
  rewrite map_map. generalize (nv :: q). clear nv q. intros q.
  induction q as [|nv q IH]; simpl; [done|]. by rewrite parse_print_pair, IH.
Qed.

Lemma oget_app {V} (a b : obj V) k :
  oget (a ++ b) k = match oget a k with Some v => Some v | None => oget b k end.
Proof. induction a as [|[k0 v0] a IH]; simpl; [done|]. by case_decide. Qed.

Lemma oget_query_replace name value seen q k :
  oget (query_replace name value seen q) k =
  if decide (k = name)
  then if seen then None else match oget q k with Some _ => Some value | None => None end
  else oget q k.
Proof.
  revert seen. induction q as [|[n v] q IH]; intros seen; simpl.
  - by repeat case_match.
  - destruct (decide (n = name)) as [->|Hn].
    + destruct seen; simpl; rewrite ?IH; repeat case_decide; try done; congruence.
    + simpl. rewrite IH. repeat case_decide; try done; congruence.
Qed.

Lemma oget_query_set q name value k :
  oget (query_set q name value) k = if decide (k = name) then Some value else oget q k.
Proof.
  unfold query_set. destruct (find _ q) as [[n v]|] eqn:Hf.
  - apply find_Some in Hf as [Hn%bool_decide_eq_true Hin]. simpl in Hn. subst n.
    rewrite oget_query_replace. case_decide as Hk; [subst|done].
    destruct (oget q name) eqn:Hg; [done|]. apply oget_None in Hg.
    exfalso. apply Hg, list_elem_of_fmap. by exists (name, v).
  - rewrite oget_app. simpl.
    assert (Hq : oget q name = None).
    { apply oget_None. intros Hin. apply list_elem_of_fmap in Hin as [[n v] [-> Hin]].
      pose proof (proj1 (find_None _ _) Hf _ Hin) as H. by apply bool_decide_eq_false in H. }
    repeat case_decide; subst; [by rewrite Hq|]. by destruct (oget q k).
Qed.

Lemma oget_set_params ps q k : NoDup (map fst ps) ->
  oget (set_params q ps) k =
  match oget ps k with
  | Some (Some v) => if truthy v then Some v else oget q k
  | _ => oget q k
  end.
Proof.
  unfold set_params. revert q. induction ps as [|[n o] ps IH]; intros q; simpl; [done|].
  intros [Hn Hnd]%NoDup_cons. rewrite IH by done. case_decide as Hk; subst.
  - assert (oget ps n = None) as -> by (by apply oget_None).
    destruct o as [v|]; [|done]. destruct (truthy v); [|done].
    rewrite oget_query_set. by case_decide.
  - assert (Hq : oget (match o with Some v => if truthy v then query_set q n v else q
                       | None => q end) k = oget q k).
    { destruct o as [v|]; [|done]. destruct (truthy v); [|done].
      rewrite oget_query_set. by case_decide. }
    by rewrite Hq.
Qed.

(** The query the API parses out of a request path. *)
Definition server_query (path : string) : params := parse (cut question path).2.

Lemma split_cut c s : exists rest, split c s = (cut c s).1 :: rest.
Proof.
  induction s as [|x s [rest IH]]; simpl; [by eexists|].
  case_decide; [by eexists|]. rewrite IH. destruct (cut c s). by eexists.
Qed.

Lemma cut_no_char c s : has_char c (cut c s).1 = false.
Proof.
  induction s as [|x s IH]; simpl; [done|]. case_decide as Hx; simpl; [done|].
  destruct (cut c s). simpl in *. by rewrite bool_decide_eq_false_2.
Qed.

Lemma cut_nothing c s : has_char c s = false -> cut c s = (s, "").
Proof.
  induction s as [|x s IH]; simpl; [done|]. intros [Hx%bool_decide_eq_false Hs]%orb_false_iff.
  rewrite decide_False by done. by rewrite IH.
Qed.

Lemma server_query_listPage path ps :
  server_query (listPage_path path ps) =
  set_params (parse (default "" (split question path !! 1%nat))) ps.
Proof.
  unfold listPage_path. destruct (split_cut question path) as [rest ->]. simpl.
  set (q := set_params _ ps). unfold server_query.
  pose proof (cut_no_char question path) as Hb.
  destruct (truthy (serialize q)) eqn:Ht.
  - rewrite cut_no_sep by done. apply parse_serialize.
  - apply truthy_false in Ht. rewrite app_str_nil, cut_nothing by done. simpl.
    rewrite <- Ht. apply parse_serialize.
Qed.

(** Every parameter a page gives to [listPage] reaches the API as it was
    given, whatever its bytes; an undefined or empty one leaves what the path
    already said. *)
Theorem listPage_params_reach_api path ps k :
  NoDup (map fst ps) ->
  query_get (server_query (listPage_path path ps)) k =
  match oget ps k with
  | Some (Some v) =>
      if truthy v then v else query_get (parse (default "" (split question path !! 1%nat))) k
  | _ => query_get (parse (default "" (split question path !! 1%nat))) k
  end.
Proof.
  intros Hnd. rewrite server_query_listPage. unfold query_get. rewrite oget_set_params by done.
  destruct (oget ps k) as [[v|]|]; try done. by destruct (truthy v).
Qed.

Lemma listPage_params_reach_api_witness :
  query_get (server_query (listPage_path "/admin/api/v1/templates?page=9"
    [("q", Some "50% off & more"); ("page", Some "2"); ("tenant_id", None)])) "q"
  = "50% off & more".
Proof.
  rewrite listPage_params_reach_api; [reflexivity|]. vm_compute.
  repeat (constructor; [set_solver|]). constructor.
Defined.

(** The serializer and the parser of query strings are inverse on every list
    of pairs, and the path built for one is parsed back without its separators
    being read from a name or a value. *)
Theorem query_roundtrip q base :
  has_char question base = false ->
  parse (serialize q) = q /\
  server_query (base +:+ String question (serialize q)) = q.
Proof.
  intros Hb. split; [apply parse_serialize|].
  unfold server_query. rewrite cut_no_sep by done. apply parse_serialize.
Qed.

Lemma query_roundtrip_witness :
  parse (serialize [("a&b", "c=d +%?"); ("", "")]) = [("a&b", "c=d +%?"); ("", "")] /\
  server_query ("/x" +:+ String question (serialize [("a&b", "c=d +%?"); ("", "")]))
  = [("a&b", "c=d +%?"); ("", "")].
Proof. apply query_roundtrip. reflexivity. Defined.

(** [encodeURIComponent] keeps a value inside one segment of the path. *)
Lemma encode_component_no_slash s c :
  component_safe c = false -> c <> percent -> has_char c (encodeURIComponent s) = false.
Proof.
  intros Hc Hp. induction s as [|x s IH]; [done|]. cbn [encodeURIComponent].
  rewrite has_char_app, IH, orb_false_r.
  assert (Hne : forall y, component_safe y = true -> bool_decide (y = c) = false).
  { intros y Hy. apply bool_decide_eq_false. congruence. }
  destruct (component_safe x) eqn:Hx; cbn [has_char]; [by rewrite Hne|].
  assert (H : component_safe (hex_upper (byte x / 16)) && component_safe (hex_upper (byte x mod 16)) = true).
  { apply (all_ascii (fun x => component_safe (hex_upper (byte x / 16))
      && component_safe (hex_upper (byte x mod 16)))). vm_compute. reflexivity. }
  apply andb_prop in H as [H1 H2]. unfold pct. cbn [has_char].
  by rewrite bool_decide_eq_false_2, !Hne.
Qed.
