(* ===== verification/Client.v ===== *)
(** api/client.ts: error classification, [apiRequest] with its token refresh,
    and the shared refresh of concurrent calls. *)
From S2P Require Import Prelude Js Query.

(** * Errors *)

Definition STATUS_ERROR_CODES : list (Z * string) :=
  [ (400, "VALIDATION_ERROR"); (401, "AUTHENTICATION_ERROR"); (403, "AUTHORIZATION_ERROR");
    (404, "NOT_FOUND"); (409, "CONFLICT"); (422, "VALIDATION_ERROR"); (429, "RATE_LIMITED") ].

Definition errorCodeForStatus (status : Z) : string :=
  match find (fun sc => sc.1 =? status) STATUS_ERROR_CODES with
  | Some (_, code) => code
  | None => if 500 <=? status then "SERVER_ERROR" else "REQUEST_ERROR"
  end.

(** A response of [fetch]; [r_json] is [None] when its body is not JSON. *)
Record response := Response {
  r_status : Z; r_statusText : string; r_json : option json }.

(** [response.ok] *)
Definition r_ok (r : response) : bool := (200 <=? r_status r) && (r_status r <=? 299).

(** [await response.json().catch(() => ({}))] *)
Definition r_data (r : response) : json := default (JObj []) (r_json r).

(** A JSON value as a condition, and [String(v)]. *)
Definition json_truthy (v : option json) : bool :=
  match v with
  | None | Some JNull => false
  | Some (JBool b) => b
  | Some (JNum NaN) => false
  | Some (JNum (Dec m _)) => negb (m =? 0)
  | Some (JNum (Infinity _)) => true
  | Some (JStr s) => truthy s
  | Some (JArr _) | Some (JObj _) => true
  end.

Fixpoint js_String (v : json) : string :=
  match v with
  | JNull => "null"
  | JBool b => if b then "true" else "false"
  | JNum n => num_text n
  | JStr s => s
  | JArr xs => join "," (map (fun x => match x with JNull => "" | _ => js_String x end) xs)
  | JObj _ => "[object Object]"
  end.

(** [s.replace(/\s+/g, ' ')] *)
Fixpoint collapse (in_space : bool) (s : string) : string :=
  match s with
  | EmptyString => ""
  | String c s =>
      if is_space c then if in_space then collapse true s else String space (collapse true s)
      else String c (collapse false s)
  end.

(** [a || b] on optional JSON values. *)
Definition jor (a b : option json) : option json := if json_truthy a then a else b.

Definition cleanServerMessage (data : json) (r : response) : string :=
  let raw :=
    jor (jfield data "message") (jor (jfield data "error") (jor (jfield data "detail")
      (jor (Some (JStr (r_statusText r))) (Some (JStr "Request failed"))))) in
  trim (collapse false (match raw with Some v => js_String v | None => "undefined" end)).

(** [error.message] of the client's error class. *)
Definition ApiError_message (status : Z) (code detail : string) : string :=
  code +:+ " (" +:+ pretty status +:+ "): " +:+ detail.

(** [getErrorMessage(error, fallback)], also inlined by the pages as
    [err instanceof Error ? err.message : fallback]. *)
Definition getErrorMessage (e : thrown) (fallback : string) : string :=
  match e with
  | ApiError status code detail => ApiError_message status code detail
  | OtherError m => m
  | NotAnError => fallback
  end.

(** * Stored credentials *)

Record storage := Storage {
  access_token : option string; refresh_token : option string; stored_user : option json }.
#[export] Instance eta_storage : Eta storage :=
  fun s => Storage (access_token s) (refresh_token s) (stored_user s).

Definition shouldRefresh (path : string) : bool :=
  negb (includes_str "/admin/api/v1/auth/login" path)
  && negb (includes_str "/admin/api/v1/auth/refresh" path).

(** The [Authorization] header of a request. *)
Definition bearer (s : storage) : option string :=
  match access_token s with
  | Some t => if truthy t then Some ("Bearer " +:+ t) else None
  | None => None
  end.

(** What happens once the refresh request is answered: the storage, and whether
    the waiting calls retry.  A failed [fetch] and a [data] that is [null] end
    in the [catch]. *)
Definition on_refreshed (o : result response) (s : storage) : storage * bool :=
  match o with
  | Threw _ => (s, false)
  | Ok r =>
      let data := r_data r in
      match jfield data "access_token", jfield data "refresh_token" with
      | Some a, Some f =>
          if r_ok r && json_truthy (Some a) && json_truthy (Some f) then
            let s1 := s <| access_token := Some (js_String a) |>
                        <| refresh_token := Some (js_String f) |> in
            (match jfield data "user" with
             | Some u => if json_truthy (Some u) then s1 <| stored_user := Some u |> else s1
             | None => s1
             end, true)
          else (s, false)
      | _, _ => (s, false)
      end
  end.

Definition clear_storage (s : storage) : storage := Storage None None None.

(** How a call ends when it does not retry. *)
Definition settle (r : response) : result json :=
  if r_ok r then Ok (r_data r)
  else Threw (ApiError (r_status r) (errorCodeForStatus (r_status r))
                (cleanServerMessage (r_data r) r)).

(** * One call, alone

    The network is a function of its own state [W]; a fetch is the path, the
    [Authorization] header, and for a refresh the token sent. *)

Inductive fetch := FetchApi (path : string) (auth : option string) | FetchRefresh (token : string).

(** The parts of the page a call can change. *)
Record env := Env { e_store : storage; e_location : string; e_logouts : nat }.

Definition clearAuthAndRedirect (e : env) : env :=
  Env (clear_storage (e_store e)) "/login" (S (e_logouts e)).

Section Alone.
Context {W : Type}.
Variable net : W -> fetch -> result response * W.

(** [refreshAccessToken] when no refresh is under way. *)
Definition refreshAccessToken (e : env) (w : W) : env * W * bool :=
  match refresh_token (e_store e) with
  | Some t =>
      if truthy t then
        let '(o, w') := net w (FetchRefresh t) in
        let '(s, b) := on_refreshed o (e_store e) in
        (Env s (e_location e) (e_logouts e), w', b)
      else (e, w, false)
  | None => (e, w, false)
  end.

Fixpoint apiRequest (fuel : nat) (path : string) (e : env) (w : W)
    : option (result json * env * W) :=
  match fuel with
  | O => None
  | S fuel =>
      let '(o, w1) := net w (FetchApi path (bearer (e_store e))) in
      match o with
      | Threw x => Some (Threw x, e, w1)
      | Ok r =>
          if (r_status r =? 401) && shouldRefresh path then
            let '(e2, w2, refreshed) := refreshAccessToken e w1 in
            if refreshed then apiRequest fuel path e2 w2
            else Some (settle r, clearAuthAndRedirect e2, w2)
          else Some (settle r, e, w1)
      end
  end.

Lemma apiRequest_fuel n m path e w r :
  apiRequest n path e w = Some r -> (n <= m)%nat -> apiRequest m path e w = Some r.
Proof.
  revert m e w. induction n as [|n IH]; intros m e w H Hle; [done|].
  destruct m as [|m]; [lia|]. simpl in *.
  destruct (net w _) as [[r0|x] w1]; [|done].
  destruct ((r_status r0 =? 401) && shouldRefresh path); [|done].
  destruct (refreshAccessToken e w1) as [[e2 w2] []]; [|done]. apply IH; [done|lia].
Qed.

(** The number of times a call is answered 401 and refreshed before the API
    gives another answer. *)
Inductive settles (path : string) : nat -> env -> W -> Prop :=
| settles_now e w :
    (forall r, (net w (FetchApi path (bearer (e_store e)))).1 = Ok r ->
       r_status r <> 401 \/ shouldRefresh path = false) ->
    settles path 0 e w
| settles_refused e w :
    (refreshAccessToken e (net w (FetchApi path (bearer (e_store e)))).2).2 = false ->
    settles path 0 e w
| settles_later n e w e2 w2 :
    refreshAccessToken e (net w (FetchApi path (bearer (e_store e)))).2 = (e2, w2, true) ->
    settles path n e2 w2 -> settles path (S n) e w.

End Alone.

(** A call ends as soon as the API stops answering it 401 or refuses a
    refresh: after [n] refreshes at most [n + 1] attempts are made, and the call
    settles. *)
Theorem apiRequest_terminates {W} (net : W -> fetch -> result response * W) path n e w :
  settles net path n e w -> exists r, apiRequest net (S n) path e w = Some r.
Proof.
  induction 1 as [e w H|e w H|n e w e2 w2 H _ IH]; simpl.
  - destruct (net w _) as [[r|x] w1]; [|eauto]. specialize (H r eq_refl).
    destruct (r_status r =? 401) eqn:E; simpl; [|eauto].
    destruct H as [H| ->]; [lia|eauto].
  - destruct (net w _) as [[r|x] w1]; [|eauto]. simpl in H.
    destruct ((r_status r =? 401) && shouldRefresh path); [|eauto].
    destruct (refreshAccessToken net e w1) as [[e2 w2] b]. simpl in H. subst. eauto.
  - destruct (net w _) as [[r|x] w1]; [|eauto]. simpl in H.
    destruct ((r_status r =? 401) && shouldRefresh path); [|eauto].
    rewrite H. destruct IH as [r' Hr']. exists r'. exact Hr'.
Qed.

(** A network for the examples: [w] refreshes are needed before the API accepts. *)
Definition pair_json : json := JObj [("access_token", JStr "a2"); ("refresh_token", JStr "r2")].
Definition sample_net (w : nat) (f : fetch) : result response * nat :=
  match f with
  | FetchRefresh _ => (Ok (Response 200 "OK" (Some pair_json)), pred w)
  | FetchApi _ _ =>
      match w with
      | O => (Ok (Response 200 "OK" (Some (JObj []))), w)
      | S _ => (Ok (Response 401 "Unauthorized" None), w)
      end
  end.
Definition sample_env : env := Env (Storage (Some "a1") (Some "r1") None) "/users" 0.

Lemma apiRequest_terminates_witness :
  exists r, apiRequest sample_net 2 "/admin/api/v1/users" sample_env 1%nat = Some r.
Proof.
  apply apiRequest_terminates. eapply settles_later; [reflexivity|].
  apply settles_now. intros r [= <-]. by left.
Defined.

(** The call has no bound of its own: an API that answers it 401 and accepts
    every refresh is called for ever; whatever the fuel, it does not return. *)
Theorem apiRequest_retries_unbounded {W} (net : W -> fetch -> result response * W) path :
  shouldRefresh path = true ->
  (forall w auth, exists r w', net w (FetchApi path auth) = (Ok r, w') /\ r_status r = 401) ->
  (forall w t s, exists o w', net w (FetchRefresh t) = (o, w')
     /\ (on_refreshed o s).2 = true /\ refresh_token (on_refreshed o s).1 = Some "r2") ->
  forall fuel e w,
    refresh_token (e_store e) = Some "r2" -> apiRequest net fuel path e w = None.
Proof.
  intros Hp H401 Hr. induction fuel as [|fuel IH]; intros e w Hs; [done|]. simpl.
  destruct (H401 w (bearer (e_store e))) as (r & w1 & -> & ->). rewrite Hp. simpl.
  unfold refreshAccessToken. rewrite Hs. simpl.
  destruct (Hr w1 "r2" (e_store e)) as (o & w2 & -> & Hb & Hs2).
  destruct (on_refreshed o (e_store e)) as [s b]. simpl in *. subst b. by apply IH.
Qed.

Definition stubborn_net (w : unit) (f : fetch) : result response * unit :=
  match f with
  | FetchRefresh _ => (Ok (Response 200 "OK" (Some pair_json)), tt)
  | FetchApi _ _ => (Ok (Response 401 "Unauthorized" None), tt)
  end.

Lemma apiRequest_retries_unbounded_witness :
  apiRequest stubborn_net 50 "/admin/api/v1/users"
    (Env (Storage (Some "a1") (Some "r2") None) "/users" 0) tt = None.
Proof.
  apply apiRequest_retries_unbounded.
  - reflexivity.
  - intros [] auth. by eexists _, _.
  - intros [] t s. eexists _, _. split; [reflexivity|]. split; reflexivity.
  - reflexivity.
Defined.

(** * Concurrent calls

    The calls of a page share [refreshRequest], the promise of the refresh under
    way.  Every await is a point where the other calls, and the rest of the page
    writing the stored credentials, can run. *)
Module Shared.

(** A refresh promise: sent; answered, with its [finally] still to run; resolved. *)
Inductive promise := InFlight (token : string) | Finishing (b : bool) | Resolved (b : bool).

(** Where a call of [apiRequest] is suspended: on its fetch, on the refresh
    promise [p] after the 401 response [r], on the [false] returned at once for
    lack of a refresh token, or settled. *)
Inductive call :=
| Sent (path : string) (auth : option string)
| Waiting (path : string) (r : response) (p : nat)
| Refused (path : string) (r : response)
| Settled (path : string) (o : result json).

Record state := State {
  env_ : env; refreshRequest : option nat; promises : list promise; calls : list call }.
#[export] Instance eta_state : Eta state :=
  fun s => State (env_ s) (refreshRequest s) (promises s) (calls s).

Inductive event :=
| Call (path : string)                       (* a page calls [apiRequest] *)
| Answer (i : nat) (o : response + string)   (* the fetch of call [i] is answered, or fails *)
| RefreshAnswer (p : nat) (o : result response)
| Finally (p : nat)
| Resume (i : nat)                           (* call [i] gets the refresh outcome *)
| Store (s : storage).                       (* a login or a logout elsewhere *)

Definition initial (s : storage) : state := State (Env s "/" 0) None [] [].

Definition store (s : state) : storage := e_store (env_ s).

Definition set_call (i : nat) (c : call) (s : state) : state :=
  s <| calls := <[i := c]> (calls s) |>.

(** The rest of a call after its fetch: done, or [refreshAccessToken]. *)
Definition answered (i : nat) (path : string) (o : response + string) (s : state) : state :=
  match o with
  | inr m => set_call i (Settled path (Threw (OtherError m))) s
  | inl r =>
      if (r_status r =? 401) && shouldRefresh path then
        match refresh_token (store s) with
        | Some t =>
            if truthy t then
              match refreshRequest s with
              | Some p => set_call i (Waiting path r p) s
              | None =>
                  let p := length (promises s) in
                  set_call i (Waiting path r p) (s <| promises := promises s ++ [InFlight t] |>
                                                   <| refreshRequest := Some p |>)
              end
            else set_call i (Refused path r) s
        | None => set_call i (Refused path r) s
        end
      else set_call i (Settled path (settle r)) s
  end.

(** [clearAuthAndRedirect(); throw ...] *)
Definition refused (i : nat) (path : string) (r : response) (s : state) : state :=
  set_call i (Settled path (settle r)) (s <| env_ := clearAuthAndRedirect (env_ s) |>).

Definition put_store (st : storage) (s : state) : state :=
  s <| env_ := Env st (e_location (env_ s)) (e_logouts (env_ s)) |>.

Definition step (e : event) (s : state) : option state :=
  match e with
  | Call path => Some (s <| calls := calls s ++ [Sent path (bearer (store s))] |>)
  | Answer i o =>
      match calls s !! i with
      | Some (Sent path _) => Some (answered i path o s)
      | _ => None
      end
  | RefreshAnswer p o =>
      match promises s !! p with
      | Some (InFlight _) =>
          let '(st, b) := on_refreshed o (store s) in
          Some (put_store st s <| promises := <[p := Finishing b]> (promises s) |>)
      | _ => None
      end
  | Finally p =>
      match promises s !! p with
      | Some (Finishing b) =>
          Some (s <| promises := <[p := Resolved b]> (promises s) |> <| refreshRequest := None |>)
      | _ => None
      end
  | Resume i =>
      match calls s !! i with
      | Some (Waiting path r p) =>
          match promises s !! p with
          | Some (Resolved true) => Some (set_call i (Sent path (bearer (store s))) s)
          | Some (Resolved false) => Some (refused i path r s)
          | _ => None
          end
      | Some (Refused path r) => Some (refused i path r s)
      | _ => None
      end
  | Store st => Some (put_store st s)
  end.

Fixpoint run (es : list event) (s : state) : option state :=
  match es with
  | [] => Some s
  | e :: es => match step e s with Some s' => run es s' | None => None end
  end.

(** A call that ended in the 401 it could not refresh. *)
Definition unauthorized (c : call) : bool :=
  match c with
  | Settled path (Threw (ApiError 401 _ _)) => shouldRefresh path
  | _ => false
  end.

Definition open_ (p : promise) : bool := match p with Resolved _ => false | _ => true end.

(** The shared refresh: [refreshRequest] is the only promise not resolved, and
    every waiting call waits on a promise that exists. *)
Definition coherent (s : state) : Prop :=
  (forall p x, promises s !! p = Some x -> open_ x = true -> refreshRequest s = Some p)
  /\ (forall p, refreshRequest s = Some p -> exists x, promises s !! p = Some x /\ open_ x = true)
  /\ (forall i path r p, calls s !! i = Some (Waiting path r p) -> (p < length (promises s))%nat).

Lemma settle_unauthorized path r :
  unauthorized (Settled path (settle r)) = (r_status r =? 401) && shouldRefresh path.
Proof.
  unfold settle, r_ok. destruct (Z.eqb_spec (r_status r) 401) as [->|Hne]; [done|].
  destruct ((200 <=? r_status r) && (r_status r <=? 299)); [done|]. simpl.
  by repeat (dmatch; simpl; try done); subst.
Qed.

Definition count_unauthorized (cs : list call) : nat := length (filter_by unauthorized cs).

(** What an update of one call does to the two invariants. *)
Definition balanced (s : state) : Prop := e_logouts (env_ s) = count_unauthorized (calls s).

Lemma count_insert cs i c0 c :
  cs !! i = Some c0 -> unauthorized c0 = false ->
  count_unauthorized (<[i := c]> cs)
  = ((if unauthorized c then 1 else 0) + count_unauthorized cs)%nat.
Proof.
  intros Hi H0. unfold count_unauthorized.
  rewrite <- (take_drop_middle cs i c0 Hi) at 2.
  rewrite insert_take_drop by (by eapply lookup_lt_Some).
  rewrite !filter_by_app, !length_app. simpl. rewrite H0.
  destruct (unauthorized c); simpl; lia.
Qed.

(** Waiting calls stay on promises that exist when one call changes. *)
Lemma waits_insert (cs : list call) (ps : list promise) i c :
  (forall path r p, c = Waiting path r p -> (p < length ps)%nat) ->
  (forall j path r p, cs !! j = Some (Waiting path r p) -> (p < length ps)%nat) ->
  forall j path r p, <[i := c]> cs !! j = Some (Waiting path r p) -> (p < length ps)%nat.
Proof.
  intros Hc Hcs j path r p Hj. apply list_lookup_insert_Some in Hj as [(-> & -> & _)|[_ Hj]]; eauto.
Qed.

Lemma coherent_set_call i c s :
  (forall path r p, c = Waiting path r p -> (p < length (promises s))%nat) ->
  coherent s -> coherent (set_call i c s).
Proof. intros Hc (H1 & H2 & H3). repeat split; simpl; auto. by apply waits_insert. Qed.

Lemma coherent_open s p : coherent s -> refreshRequest s = Some p -> (p < length (promises s))%nat.
Proof. intros (_ & H2 & _) Hp. destruct (H2 p Hp) as (x & Hx & _). by eapply lookup_lt_Some. Qed.

Lemma coherent_sent s t :
  coherent s -> refreshRequest s = None ->
  coherent (s <| promises := promises s ++ [InFlight t] |>
              <| refreshRequest := Some (length (promises s)) |>).
Proof.
  intros (H1 & H2 & H3) Hn. repeat split; simpl.
  - intros p x [Hp|[? Hp]]%lookup_app_Some Hx.
    + rewrite (H1 p x Hp Hx) in Hn. done.
    + apply list_lookup_singleton_Some in Hp as [Hp _]. f_equal. lia.
  - intros p [= <-]. exists (InFlight t). by rewrite lookup_app_r, Nat.sub_diag by lia.
  - intros i path r p Hi. rewrite length_app. specialize (H3 i path r p Hi). lia.
Qed.

Lemma coherent_answered i path o s : coherent s -> coherent (answered i path o s).
Proof.
  intros Hs. pose proof Hs as (H1 & H2 & H3). unfold answered.
  destruct o as [r|m]; [|by apply coherent_set_call].
  destruct ((r_status r =? 401) && shouldRefresh path); [|by apply coherent_set_call].
  destruct (refresh_token (store s)) as [t|]; [|by apply coherent_set_call].
  destruct (truthy t); [|by apply coherent_set_call].
  destruct (refreshRequest s) as [p|] eqn:Hp.
  - apply coherent_set_call; [|done]. intros ? ? ? [= <- <- <-]. by apply coherent_open.
  - apply coherent_set_call; [|by apply coherent_sent].
    intros ? ? ? [= <- <- <-]. simpl. rewrite length_app. simpl. lia.
Qed.

Lemma coherent_step e s s' : step e s = Some s' -> coherent s -> coherent s'.
Proof.
  intros He Hs. pose proof Hs as (H1 & H2 & H3). destruct e as [path|i o|p o|p|i|st]; simpl in He.
  - simplify_eq. repeat split; simpl; auto.
    intros i q r p [Hi|[_ Hi]]%lookup_app_Some; [eauto|].
    by apply list_lookup_singleton_Some in Hi as [_ ?].
  - destruct (calls s !! i) as [[path a| | |]|]; simplify_eq. by apply coherent_answered.
  - destruct (promises s !! p) as [[t| |]|] eqn:Hp; [|done..].
    destruct (on_refreshed o (store s)) as [st b]. simplify_eq.
    repeat split; simpl; [|intros q Hq|intros; rewrite length_insert; eauto].
    + intros q x Hq Hx. apply list_lookup_insert_Some in Hq as [(-> & _ & _)|[_ Hq]]; eauto.
    + destruct (decide (q = p)) as [->|Hne].
      * exists (Finishing b). by rewrite list_lookup_insert_eq by (by eapply lookup_lt_Some).
      * rewrite list_lookup_insert_ne by done. eauto.
  - destruct (promises s !! p) as [[|b|]|] eqn:Hp; [done| |done..].
    simplify_eq. repeat split; simpl; [|done|intros; rewrite length_insert; eauto].
    intros q x Hq Hx. apply list_lookup_insert_Some in Hq as [(-> & <- & _)|[Hne Hq]]; [done|].
    specialize (H1 q x Hq Hx). rewrite (H1) in *.
    destruct Hs as (H1' & _). specialize (H1' p _ Hp eq_refl). congruence.
  - destruct (calls s !! i) as [[|path r p|path r|]|]; try done;
      [destruct (promises s !! p) as [[| |[]]|]; try done|]; simplify_eq;
      unfold refused; apply coherent_set_call; done.
  - simplify_eq. done.
Qed.

Lemma balanced_set_call i c0 c s :
  calls s !! i = Some c0 -> unauthorized c0 = false -> unauthorized c = false ->
  balanced s -> balanced (set_call i c s).
Proof.
  intros Hi H0 Hc Hb. unfold balanced, set_call. simpl. rewrite (count_insert _ _ c0) by done.
  by rewrite Hc, Hb.
Qed.

Lemma balanced_answered i path a o s :
  calls s !! i = Some (Sent path a) -> balanced s -> balanced (answered i path o s).
Proof.
  intros Hi Hb. unfold answered.
  destruct o as [r|m]; [|by eapply balanced_set_call].
  destruct ((r_status r =? 401) && shouldRefresh path) eqn:E.
  - destruct (refresh_token (store s)) as [t|]; [|by eapply balanced_set_call].
    destruct (truthy t); [|by eapply balanced_set_call].
    destruct (refreshRequest s); by eapply balanced_set_call.
  - eapply balanced_set_call; try done. by rewrite settle_unauthorized.
Qed.

(** The waiting and refused calls hold the 401 that sent them there. *)
Definition owed (s : state) : Prop :=
  forall i path r, (exists p, calls s !! i = Some (Waiting path r p))
    \/ calls s !! i = Some (Refused path r) ->
  (r_status r =? 401) && shouldRefresh path = true.

Lemma owed_set_call i c s :
  (forall path r, (exists p, c = Waiting path r p) \/ c = Refused path r ->
     (r_status r =? 401) && shouldRefresh path = true) ->
  owed s -> owed (set_call i c s).
Proof.
  intros Hc Hs j path r [[p Hj]|Hj]; simpl in Hj;
    apply list_lookup_insert_Some in Hj as [(_ & Hj & _)|[_ Hj]];
    [apply Hc|eapply Hs|apply Hc|eapply Hs]; eauto.
Qed.

Lemma owed_step e s s' : step e s = Some s' -> owed s -> owed s'.
Proof.
  intros He Hs. destruct e as [path|i o|p o|p|i|st]; simpl in He.
  - simplify_eq. intros i q r [[p Hi]|Hi]; simpl in Hi;
      apply lookup_app_Some in Hi as [Hi|[_ Hi]];
      try (apply list_lookup_singleton_Some in Hi as [_ ?]; done); eapply Hs; eauto.
  - destruct (calls s !! i) as [[path a| | |]|]; simplify_eq. unfold answered.
    destruct o as [r|m]; [|apply owed_set_call; naive_solver].
    destruct ((r_status r =? 401) && shouldRefresh path) eqn:E;
      [|apply owed_set_call; naive_solver].
    repeat dmatch; apply owed_set_call; naive_solver.
  - destruct (promises s !! p) as [[t| |]|]; try done.
    destruct (on_refreshed o (store s)). simplify_eq. done.
  - destruct (promises s !! p) as [[|b|]|]; simplify_eq. done.
  - destruct (calls s !! i) as [[|path r p|path r|]|]; try done;
      [destruct (promises s !! p) as [[| |[]]|]; try done|]; simplify_eq;
      apply owed_set_call; naive_solver.
  - simplify_eq. done.
Qed.

Lemma balanced_refused i path r c s :
  calls s !! i = Some c -> unauthorized c = false ->
  (r_status r =? 401) && shouldRefresh path = true -> balanced s -> balanced (refused i path r s).
Proof.
  intros Hi Hc Hr Hb. unfold balanced, refused, set_call. simpl.
  rewrite (count_insert _ _ c) by done. by rewrite settle_unauthorized, Hr, Hb.
Qed.

Lemma balanced_step e s s' : step e s = Some s' -> owed s -> balanced s -> balanced s'.
Proof.
  intros He Ho Hb. destruct e as [path|i o|p o|p|i|st]; simpl in He.
  - simplify_eq. unfold balanced, count_unauthorized in *. simpl.
    rewrite filter_by_app. simpl. by rewrite app_nil_r.
  - destruct (calls s !! i) as [[path a| | |]|] eqn:Hi; simplify_eq. by eapply balanced_answered.
  - destruct (promises s !! p) as [[t| |]|]; try done.
    destruct (on_refreshed o (store s)). simplify_eq. done.
  - destruct (promises s !! p) as [[|b|]|]; simplify_eq. done.
  - destruct (calls s !! i) as [[|path r p|path r|]|] eqn:Hi; try done;
      [destruct (promises s !! p) as [[| |[]]|]; try done|]; simplify_eq.
    + by eapply balanced_set_call.
    + eapply balanced_refused; eauto.
    + eapply balanced_refused; eauto.
  - simplify_eq. done.
Qed.

Definition reachable (s : state) : Prop := exists st es, run es (initial st) = Some s.

Definition good (s : state) : Prop := coherent s /\ owed s /\ balanced s.

Lemma good_run es s s' : good s -> run es s = Some s' -> good s'.
Proof.
  revert s. induction es as [|e es IH]; intros s Hs Hr; simpl in Hr; [by simplify_eq|].
  destruct (step e s) as [s1|] eqn:He; [|done]. eapply IH; [|done].
  destruct Hs as (Hc & Ho & Hb). split; [by eapply coherent_step|].
  split; [by eapply owed_step|by eapply balanced_step].
Qed.

Lemma good_initial st : good (initial st).
Proof.
  split; [repeat split; try done; by intros p x Hp|]. split; [|done].
  by intros i path r [[p Hi]|Hi].
Qed.

Lemma reachable_good s : reachable s -> good s.
Proof. intros (st & es & Hr). eapply good_run; [apply good_initial|done]. Qed.

(** C1: however many calls are answered 401 at the same time, at most one
    refresh is under way, [refreshRequest] is it, and every waiting call waits on
    a refresh that exists. *)
Theorem single_refresh s :
  reachable s ->
  (forall p q x y, promises s !! p = Some x -> promises s !! q = Some y ->
     open_ x = true -> open_ y = true -> p = q /\ refreshRequest s = Some p)
  /\ (forall p, refreshRequest s = Some p -> exists x, promises s !! p = Some x /\ open_ x = true)
  /\ (forall i path r p, calls s !! i = Some (Waiting path r p) -> exists x, promises s !! p = Some x).
Proof.
  intros (Hc & _)%reachable_good. destruct Hc as (H1 & H2 & H3). repeat split.
  - pose proof (H1 p x) as Hp. pose proof (H1 q y) as Hq. naive_solver.
  - by eapply H1.
  - done.
  - intros i path r p Hi. by apply lookup_lt_is_Some_2, (H3 i path r).
Qed.

(** The stored credentials are cleared, the session told and the page sent
    to the login once for each call that ends in a 401 the client could have
    refreshed, and for no other reason. *)
Theorem logouts_are_unauthorized_calls s :
  reachable s -> e_logouts (env_ s) = count_unauthorized (calls s).
Proof. by intros (_ & _ & Hb)%reachable_good. Qed.

Definition sample_store : storage := Storage (Some "a1") (Some "r1") None.
Definition unauthorized_response : response := Response 401 "Unauthorized" None.

(** Two calls answered 401 together, one refresh, refused. *)
Definition sample_events : list event :=
  [ Call "/admin/api/v1/users"; Call "/admin/api/v1/roles";
    Answer 1 (inl unauthorized_response); Answer 0 (inl unauthorized_response);
    RefreshAnswer 0 (Ok unauthorized_response); Finally 0; Resume 0; Resume 1 ].

Definition sample_state : state := default (initial sample_store) (run sample_events (initial sample_store)).

Lemma sample_reachable : reachable sample_state.
Proof. exists sample_store, sample_events. reflexivity. Qed.

Lemma single_refresh_witness :
  reachable sample_state /\
  forall p, refreshRequest sample_state = Some p ->
    exists x, promises sample_state !! p = Some x /\ open_ x = true.
Proof. split; [apply sample_reachable|]. apply single_refresh, sample_reachable. Defined.

Lemma logouts_are_unauthorized_calls_witness :
  e_logouts (env_ sample_state) = 2%nat /\
  e_logouts (env_ sample_state) = count_unauthorized (calls sample_state).
Proof.
  split; [reflexivity|]. apply logouts_are_unauthorized_calls, sample_reachable.
Defined.

(** * Every call can be completed *)

(** The events that are not a choice of the pages: answers and resumptions. *)
Definition reply (e : event) : bool :=
  match e with Call _ | Store _ => false | _ => true end.

Definition settled (c : call) : bool := match c with Settled _ _ => true | _ => false end.

Definition pending_calls (s : state) : nat := length (filter_by (fun c => negb (settled c)) (calls s)).

Lemma run_app es es' s s1 : run es s = Some s1 -> run (es ++ es') s = run es' s1.
Proof.
  revert s. induction es as [|e es IH]; intros s Hr; simpl in *; [by simplify_eq|].
  destruct (step e s); [by apply IH|done].
Qed.

(** All the refreshes are over. *)
Definition quiet (s : state) : Prop :=
  refreshRequest s = None
  /\ forall i path r p, calls s !! i = Some (Waiting path r p) ->
       exists b, promises s !! p = Some (Resolved b).

Lemma quiet_reached s : coherent s ->
  exists es s', run es s = Some s' /\ forallb reply es = true /\ quiet s'
    /\ calls s' = calls s.
Proof.
  intros (H1 & H2 & H3).
  assert (Hq : forall q, refreshRequest s <> Some q -> (q < length (promises s))%nat ->
    exists b, promises s !! q = Some (Resolved b)).
  { intros q Hne [x Hx]%lookup_lt_is_Some_2. destruct x as [t|b|b]; [| |eauto];
      destruct Hne; by eapply H1. }
  destruct (refreshRequest s) as [p|] eqn:Hr.
  2:{ exists [], s. repeat split; auto. intros i path r p Hi. apply Hq; [done|eauto]. }
  destruct (H2 p eq_refl) as (x & Hx & Ho).
  assert (Hp : (p < length (promises s))%nat) by (by eapply lookup_lt_Some).
  destruct x as [t|b|b]; [| |done].
  - exists [RefreshAnswer p (Threw NotAnError); Finally p]. eexists. split; [|split; [done|]].
    + simpl. rewrite Hx. simpl. rewrite list_lookup_insert_eq by done. reflexivity.
    + split; [|done]. split; [done|]. simpl. intros i path r q Hi.
      destruct (decide (q = p)) as [->|Hne].
      * exists false. by rewrite list_lookup_insert_eq by (by rewrite length_insert).
      * rewrite !list_lookup_insert_ne by done. apply Hq; [congruence|eauto].
  - exists [Finally p]. eexists. split; [|split; [done|]].
    + simpl. rewrite Hx. reflexivity.
    + split; [|done]. split; [done|]. simpl. intros i path r q Hi.
      destruct (decide (q = p)) as [->|Hne].
      * exists b. by rewrite list_lookup_insert_eq.
      * rewrite !list_lookup_insert_ne by done. apply Hq; [congruence|eauto].
Qed.

Lemma pending_insert s i c path o :
  calls s !! i = Some c -> settled c = false ->
  S (length (filter_by (fun c => negb (settled c)) (<[i := Settled path o]> (calls s))))
  = pending_calls s.
Proof.
  intros Hi Hc. unfold pending_calls.
  rewrite <- (take_drop_middle (calls s) i c Hi) at 2.
  rewrite insert_take_drop by (by eapply lookup_lt_Some).
  rewrite !filter_by_app, !length_app. simpl. rewrite Hc. simpl. lia.
Qed.

(** One call settles, without a new refresh. *)
Lemma settle_one s i c : quiet s -> calls s !! i = Some c -> settled c = false ->
  exists es s', run es s = Some s' /\ forallb reply es = true /\ quiet s'
    /\ S (pending_calls s') = pending_calls s.
Proof.
  intros [Hr Hw] Hi Hc.
  assert (Hdone : forall s0 path o, promises s0 = promises s -> refreshRequest s0 = None ->
    calls s0 = <[i := Settled path o]> (calls s) ->
    quiet s0 /\ S (pending_calls s0) = pending_calls s).
  { intros s0 path o Hp0 Hr0 Hc0. split; [|unfold pending_calls at 1; rewrite Hc0; by eapply pending_insert].
    split; [done|]. rewrite Hp0, Hc0. intros j q r p Hj.
    apply list_lookup_insert_Some in Hj as [(_ & ? & _)|[_ Hj]]; [done|eauto]. }
  destruct c as [path a|path r p|path r|]; [| | |done].
  - eexists [Answer i (inr "Failed to fetch")], _. simpl. rewrite Hi. split; [reflexivity|].
    split; [done|]. by eapply Hdone.
  - destruct (Hw i path r p Hi) as [[] Hb].
    + eexists [Resume i; Answer i (inr "Failed to fetch")], _. simpl. rewrite Hi, Hb. simpl.
      rewrite list_lookup_insert_eq by (by eapply lookup_lt_Some).
      split; [reflexivity|]. split; [done|]. eapply Hdone; [done|done|]. simpl.
      by rewrite list_insert_insert_eq.
    + eexists [Resume i], _. simpl. rewrite Hi, Hb. split; [reflexivity|].
      split; [done|]. by eapply Hdone.
  - eexists [Resume i], _. simpl. rewrite Hi. split; [reflexivity|].
    split; [done|]. by eapply Hdone.
Qed.

Lemma all_settle n s : quiet s -> pending_calls s = n ->
  exists es s', run es s = Some s' /\ forallb reply es = true /\ pending_calls s' = 0%nat.
Proof.
  revert s. induction n as [|n IH]; intros s Hq Hn.
  - exists [], s. done.
  - destruct (filter_by (fun c => negb (settled c)) (calls s)) as [|c cs] eqn:Hf.
    + unfold pending_calls in Hn. rewrite Hf in Hn. done.
    + assert (Hc : c ∈ filter_by (fun c => negb (settled c)) (calls s)) by (rewrite Hf; left).
      apply elem_of_filter_by in Hc as [Hs%negb_true_iff Hc].
      apply list_elem_of_lookup in Hc as [i Hi].
      destruct (settle_one s i c Hq Hi Hs) as (es & s1 & Hr & He & Hq1 & Hp).
      destruct (IH s1 Hq1 ltac:(lia)) as (es' & s' & Hr' & He' & Hp').
      exists (es ++ es'), s'. rewrite (run_app _ _ _ _ Hr), forallb_app, He, He'. done.
Qed.

(** C35: no call is ever stuck behind the shared refresh: from every reachable
    state, answers of the network alone can bring all the calls to an end. *)
Theorem calls_can_settle s :
  reachable s ->
  exists es s', run es s = Some s' /\ forallb reply es = true
    /\ Forall (fun c => settled c = true) (calls s').
Proof.
  intros (Hc & _)%reachable_good.
  destruct (quiet_reached s Hc) as (es & s1 & Hr & He & Hq & _).
  destruct (all_settle _ s1 Hq eq_refl) as (es' & s' & Hr' & He' & Hp).
  exists (es ++ es'), s'. rewrite (run_app _ _ _ _ Hr), forallb_app, He, He'.
  repeat split; auto. apply Forall_forall. intros c Hin.
  destruct (settled c) eqn:Hs; [done|]. apply nil_length_inv in Hp.
  assert (Hx : c ∈ filter_by (fun c => negb (settled c)) (calls s'))
    by (apply elem_of_filter_by; by rewrite Hs).
  rewrite Hp in Hx. by apply not_elem_of_nil in Hx.
Qed.

(** Two calls waiting on one refresh. *)
Definition waiting_state : state :=
  default (initial sample_store) (run (take 4 sample_events) (initial sample_store)).

Lemma calls_can_settle_witness :
  pending_calls waiting_state = 2%nat /\
  exists es s', run es waiting_state = Some s' /\ forallb reply es = true
    /\ Forall (fun c => settled c = true) (calls s').
Proof.
  split; [reflexivity|]. apply calls_can_settle.
  exists sample_store, (take 4 sample_events). reflexivity.
Defined.

End Shared.
