(* ===== verification/Auth.v ===== *)
(** auth/AuthContext.tsx: permissions and the session; app/main.tsx: routes;
    layouts/AppLayout.tsx: navigation; pages/login/LoginPage.tsx. *)
From S2P Require Import Prelude Js React Query Client.

(** * Permissions *)

Record Principal := MkPrincipal {
  user_id : string; tenant_id : option string; email : string;
  is_platform_admin : bool; permissions : list string }.

Definition GRANULAR_TO_BROAD : obj string :=
  [ ("users.view", "users.manage"); ("users.create", "users.manage");
    ("users.update", "users.manage"); ("users.delete", "users.manage");
    ("users.reset_password", "users.manage"); ("users.assign_roles", "users.manage");
    ("users.assign_permissions", "users.manage");
    ("features.view", "features.manage"); ("features.update", "features.manage");
    ("channels.view", "channels.manage"); ("channels.update", "channels.manage");
    ("queue_controls.view", "channels.manage"); ("queue_controls.update", "channels.manage");
    ("providers.view", "providers.manage"); ("providers.create", "providers.manage");
    ("providers.update", "providers.manage"); ("providers.delete", "providers.manage");
    ("providers.test", "providers.manage");
    ("groups.view", "groups.manage"); ("groups.create", "groups.manage");
    ("groups.update", "groups.manage"); ("groups.delete", "groups.manage");
    ("groups.members.manage", "groups.manage");
    ("settings.view", "settings.manage"); ("settings.update", "settings.manage");
    ("api_keys.view", "api_keys.manage"); ("api_keys.create", "api_keys.manage");
    ("api_keys.revoke", "api_keys.manage");
    ("integration.view", "api_keys.view"); ("integration.test", "notifications.send");
    ("integration.view_api_docs", "integration.view");
    ("campaigns.view", "campaigns.manage"); ("campaigns.create", "campaigns.manage");
    ("campaigns.update", "campaigns.manage"); ("campaigns.approve", "campaigns.manage");
    ("campaigns.send", "campaigns.manage"); ("campaigns.schedule", "campaigns.manage");
    ("campaigns.cancel", "campaigns.manage");
    ("templates.view", "templates.manage"); ("templates.create", "templates.manage");
    ("templates.update", "templates.manage"); ("templates.delete", "templates.manage");
    ("contacts.view", "contacts.manage"); ("contacts.create", "contacts.manage");
    ("contacts.update", "contacts.manage"); ("contacts.delete", "contacts.manage");
    ("notifications.view", "notifications.manage");
    ("notifications.create", "notifications.manage");
    ("notifications.send", "notifications.manage");
    ("notifications.bulk_send", "notifications.manage");
    ("notifications.retry", "notifications.manage");
    ("notifications.cancel", "notifications.manage");
    ("tenants.view", "tenants.manage"); ("tenants.create", "tenants.manage");
    ("tenants.update", "tenants.manage"); ("tenants.delete", "tenants.manage");
    ("audit_logs.view", "audit_logs.manage") ].

(** [can], for the user of the session. *)
Definition hasPermission (user : option Principal) (permission : string) : bool :=
  match user with
  | None => false
  | Some u =>
      is_platform_admin u || includes (permissions u) permission ||
      match oget GRANULAR_TO_BROAD permission with
      | Some broad => truthy broad && includes (permissions u) broad
      | None => false
      end
  end.

(** * Navigation and routes *)

Record nav_item := NavItem { to_ : string; label_ : string; permission_ : string }.

Definition platformNav : list (string * list nav_item) :=
  [ ("Platform",
     [ NavItem "/" "Dashboard" "notifications.view"; NavItem "/tenants" "Tenants" "tenants.view";
       NavItem "/features" "Features" "features.view"; NavItem "/channels" "Channels" "channels.view";
       NavItem "/providers" "Providers" "providers.view" ]);
    ("Data",
     [ NavItem "/notifications" "Notification Logs" "notifications.view";
       NavItem "/notifications/send" "Send" "notifications.send";
       NavItem "/contacts" "Contacts" "contacts.view"; NavItem "/groups" "Groups" "groups.view";
       NavItem "/templates" "Templates" "templates.view";
       NavItem "/campaigns" "Campaigns" "campaigns.view" ]);
    ("Security",
     [ NavItem "/users" "Users" "users.view"; NavItem "/roles" "Roles" "roles.manage";
       NavItem "/permissions" "Permissions" "users.view";
       NavItem "/api-keys" "API Keys" "api_keys.view"; NavItem "/audit-logs" "Audit" "audit_logs.view" ]);
    ("System",
     [ NavItem "/queues" "Queues" "queue_controls.view"; NavItem "/settings" "Settings" "settings.view" ]) ].

Definition tenantNav : list (string * list nav_item) :=
  [ ("Overview", [ NavItem "/" "Dashboard" "notifications.view" ]);
    ("Notifications",
     [ NavItem "/notifications" "Logs" "notifications.view";
       NavItem "/notifications/send" "Send" "notifications.send" ]);
    ("Address Book",
     [ NavItem "/contacts" "Contacts" "contacts.view"; NavItem "/groups" "Groups" "groups.view" ]);
    ("Content",
     [ NavItem "/templates" "Templates" "templates.view";
       NavItem "/campaigns" "Campaigns" "campaigns.view" ]);
    ("Access",
     [ NavItem "/api-keys" "API Keys" "api_keys.view";
       NavItem "/integration" "Integration" "integration.view";
       NavItem "/audit-logs" "Audit" "audit_logs.view" ]);
    ("Configuration",
     [ NavItem "/providers" "Providers" "providers.view";
       NavItem "/queues" "Queues" "queue_controls.view";
       NavItem "/settings" "Settings" "settings.view" ]) ].

Definition is_admin (user : option Principal) : bool := from_option is_platform_admin false user.

Definition nav (user : option Principal) : list (string * list nav_item) :=
  if is_admin user then platformNav else tenantNav.

(** The links of the side bar: the items the user may open. *)
Definition visible (user : option Principal) : list nav_item :=
  concat (map (fun g => filter_by (fun i => hasPermission user (permission_ i)) g.2) (nav user)).

Inductive layout_action := LogoutClick.

Definition AppLayout (user : option Principal) : list (node layout_action) :=
  [ Txt (if is_admin user then "Platform workspace" else "Tenant workspace") ]
  ++ map (fun g => Grp g.1 (map (fun i => Link (label_ i) (to_ i))
            (filter_by (fun i => hasPermission user (permission_ i)) g.2))) (nav user)
  ++ [ Txt (from_option email "" user);
       Txt (match user with Some u => or_empty (tenant_id u) ||| "all tenants" | None => "all tenants" end);
       Btn "Logout" false LogoutClick ].

Inductive page :=
| Dashboard | Tenants | TenantDetail (id : string) | Notifications | SendNotification | Users
| Contacts | Templates | Campaigns | Roles | Permissions | ApiKeys | AuditLogs | Groups
| Features | Channels | Providers | Queues | Integration | Settings.

Inductive screen := Login | Redirect (path : string) | Page (p : page) | Nothing.

(** The private routes; [/tenants/:id] takes one non-empty segment. *)
Definition private_routes : list (string * page) :=
  [ ("/", Dashboard); ("/tenants", Tenants); ("/notifications", Notifications);
    ("/notifications/send", SendNotification); ("/users", Users); ("/contacts", Contacts);
    ("/templates", Templates); ("/campaigns", Campaigns); ("/roles", Roles);
    ("/permissions", Permissions); ("/api-keys", ApiKeys); ("/audit-logs", AuditLogs);
    ("/groups", Groups); ("/features", Features); ("/channels", Channels);
    ("/providers", Providers); ("/queues", Queues); ("/integration", Integration);
    ("/settings", Settings) ].

Definition slash : ascii := ascii_of_nat 47.

Definition match_route (path : string) : option page :=
  match oget private_routes path with
  | Some p => Some p
  | None =>
      match split slash path with
      | [a; b; id] =>
          if bool_decide (a = "" /\ b = "tenants") && truthy id then Some (TenantDetail id) else None
      | _ => None
      end
  end.

(** What is on screen at a path: [Routes], [PrivateRoute], and the redirection
    of the login page once there is a token. *)
Definition App (token : option string) (path : string) : screen :=
  let signed_in := truthy (or_empty token) in
  if decide (path = "/login") then if signed_in then Redirect "/" else Login
  else match match_route path with
       | Some p => if signed_in then Page p else Redirect "/login"
       | None => Nothing
       end.

(** Follows the redirections. *)
Fixpoint navigate (fuel : nat) (token : option string) (path : string) : option screen :=
  match fuel with
  | O => None
  | S fuel =>
      match App token path with
      | Redirect p => navigate fuel token p
      | sc => Some sc
      end
  end.

(** The side bar shows exactly the items the user may open, each of them
    leads to a page, and to that page rather than to the login once signed in;
    without a user it is empty. *)
Theorem navigation_is_permitted user token item :
  item ∈ visible user <->
  (exists g, g ∈ nav user /\ item ∈ g.2) /\ hasPermission user (permission_ item) = true
  /\ (truthy token = true ->
      exists p, oget private_routes (to_ item) = Some p
        /\ navigate 1 (Some token) (to_ item) = Some (Page p)).
Proof.
  assert (Hroute : forall g, g ∈ nav user -> item ∈ g.2 -> truthy token = true ->
    exists p, oget private_routes (to_ item) = Some p
      /\ navigate 1 (Some token) (to_ item) = Some (Page p)).
  { intros g Hg Hi Ht.
    assert (Hall : forallb (fun g => forallb (fun i =>
      match oget private_routes (to_ i) with Some _ => true | None => false end
      && negb (bool_decide (to_ i = "/login"))) g.2) (nav user) = true)
      by (unfold nav; destruct (is_admin user); reflexivity).
    rewrite forallb_forall in Hall. specialize (Hall g ltac:(by apply list_elem_of_In)).
    rewrite forallb_forall in Hall. specialize (Hall item ltac:(by apply list_elem_of_In)).
    apply andb_prop in Hall as [Hr Hl%negb_true_iff%bool_decide_eq_false].
    destruct (oget private_routes (to_ item)) as [p|] eqn:Hp; [|done].
    exists p. split; [done|]. simpl. unfold App. simpl. rewrite Ht, decide_False by done.
    unfold match_route. by rewrite Hp. }
  unfold visible. rewrite list_elem_of_In, in_concat. split.
  - intros (l & Hl & Hi). apply in_map_iff in Hl as (g & <- & Hg).
    apply list_elem_of_In, elem_of_filter_by in Hi as [Hp Hi].
    rewrite <- list_elem_of_In in Hg. eauto 10.
  - intros ((g & Hg & Hi) & Hp & _). eexists. split.
    + apply in_map_iff. exists g. split; [done|by apply list_elem_of_In].
    + apply list_elem_of_In, elem_of_filter_by. done.
Qed.

(** A private page is on screen only while there is a token, the login only
    while there is none, and the redirections between them end: at most two
    steps from any path. *)
Theorem private_pages_need_token token path :
  exists sc, navigate 2 token path = Some sc /\
  match sc with
  | Page _ => truthy (or_empty token) = true
  | Login => truthy (or_empty token) = false
  | Redirect _ => False
  | Nothing => True
  end.
Proof.
  cbn [navigate]. unfold App. destruct (decide (path = "/login")).
  - destruct (truthy (or_empty token)) eqn:E; [|by eexists; split].
    exists (Page Dashboard). by vm_compute.
  - destruct (match_route path); [|by eexists; split].
    destruct (truthy (or_empty token)) eqn:E; [by eexists; split|].
    exists Login. by vm_compute.
Qed.

(** * The session *)

(** [JSON.stringify(user)] and [JSON.parse], as the stored JSON value. *)
Definition principal_json (u : Principal) : json :=
  JObj ([("user_id", JStr (user_id u))]
    ++ match tenant_id u with Some t => [("tenant_id", JStr t)] | None => [] end
    ++ [("email", JStr (email u)); ("is_platform_admin", JBool (is_platform_admin u));
        ("permissions", jstrs (permissions u))]).

Definition json_text (v : option json) : string :=
  match v with Some (JStr s) => s | _ => "" end.

Definition json_texts (v : option json) : list string :=
  match v with Some (JArr xs) => map (fun x => json_text (Some x)) xs | _ => [] end.

Definition principal_of_json (v : json) : Principal :=
  MkPrincipal (json_text (jfield v "user_id"))
    (match jfield v "tenant_id" with Some (JStr t) => Some t | _ => None end)
    (json_text (jfield v "email"))
    (match jfield v "is_platform_admin" with Some (JBool b) => b | _ => false end)
    (json_texts (jfield v "permissions")).

Lemma principal_roundtrip u : principal_of_json (principal_json u) = u.
Proof.
  destruct u as [i t e a ps]. unfold principal_of_json, principal_json. simpl.
  destruct t; simpl; f_equal; unfold json_texts, jstrs; rewrite map_map; apply map_id.
Qed.

Module Session.

(** [AuthProvider]'s state and the stored credentials. *)
Record state := State { token : option string; user : option Principal; store : storage }.
#[export] Instance eta_state : Eta state := fun s => State (token s) (user s) (store s).

(** The first render, with the stored credentials: the user of the last session. *)
Definition boot (st : storage) : state :=
  State (access_token st) (option_map principal_of_json (stored_user st)) st.

(** The answer of the login request. *)
Definition login (access refresh : string) (u : Principal) (s : state) : state :=
  s <| store := Storage (Some access) (Some refresh) (Some (principal_json u)) |>
    <| token := Some access |> <| user := Some u |>.

Definition logout (s : state) : state := State None None (clear_storage (store s)).

(** The answer of [/auth/me]. *)
Definition me (u : Principal) (s : state) : state :=
  s <| user := Some u |>
    <| store := Storage (access_token (store s)) (refresh_token (store s))
                  (Some (principal_json u)) |>.

(** The client clears the credentials and dispatches its event. *)
Definition syncLogout (s : state) : state := State None None (clear_storage (store s)).

(** The client's refresh is answered. *)
Definition refreshed (o : result response) (s : state) : state :=
  s <| store := (on_refreshed o (store s)).1 |>.

Inductive event :=
| Login (access refresh : string) (u : Principal)
| Logout
| Me (u : Principal)          (* the effect of a new token is answered *)
| MeFailed                    (* or rejected: [catch(() => logout())] *)
| Expired                     (* the client's logout event *)
| Refreshed (o : result response).

Definition apply (e : event) (s : state) : state :=
  match e with
  | Login a r u => login a r u s
  | Logout | MeFailed => logout s
  | Me u => me u s
  | Expired => syncLogout s
  | Refreshed o => refreshed o s
  end.

Definition run (es : list event) (s : state) : state := fold_left (fun s e => apply e s) es s.

(** The effect on [token]: the request it sends. *)
Definition me_request (s : state) : list request :=
  if truthy (or_empty (token s)) then [GET "/admin/api/v1/auth/me"] else [].

Definition is_refresh (e : event) : bool := match e with Refreshed _ => true | _ => false end.

Definition synced (s : state) : Prop := boot (store s) = s.

Lemma synced_boot st : synced (boot st).
Proof. done. Qed.

Lemma synced_apply e s : is_refresh e = false -> synced s -> synced (apply e s).
Proof.
  unfold synced, boot. destruct e; simpl; intros He Hs; try done; unfold login, me; simpl.
  - by rewrite principal_roundtrip.
  - rewrite principal_roundtrip. destruct s as [t u' st]. simpl in *. by simplify_eq.
Qed.

(** C40: while no token is refreshed behind it, the session a user sees is the
    session a reload of the page restores: token, user and with them every
    permission, whatever the sequence of logins, logouts, expiries and answers. *)
Theorem reload_keeps_session st es :
  forallb (fun e => negb (is_refresh e)) es = true ->
  boot (store (run es (boot st))) = run es (boot st).
Proof.
  intros H. change (synced (run es (boot st))). unfold run.
  generalize (synced_boot st). generalize (boot st).
  induction es as [|e es IH]; intros s Hs; simpl in *; [done|].
  apply andb_prop in H as [He%negb_true_iff Hes]. apply IH; [done|]. by apply synced_apply.
Qed.

Definition admin : Principal := MkPrincipal "u1" None "admin@example.com" true [].
Definition no_storage : storage := Storage None None None.

Lemma reload_keeps_session_witness :
  boot (store (run [Login "a1" "r1" admin; Me admin; Logout] (boot no_storage)))
  = run [Login "a1" "r1" admin; Me admin; Logout] (boot no_storage).
Proof. apply reload_keeps_session. reflexivity. Defined.

(** A logout is not final: a refresh that is answered after it stores the new
    tokens, so a reload signs the user in again; and an answer of [/auth/me] that
    arrives after it brings the user back without a token. *)
Theorem logout_can_be_undone s a r u :
  truthy a = true -> truthy r = true ->
  let o := Ok (Response 200 "OK" (Some (JObj [("access_token", JStr a); ("refresh_token", JStr r)]))) in
  token (boot (store (run [Logout; Refreshed o] s))) = Some a
  /\ token (run [Logout; Me u] s) = None /\ user (run [Logout; Me u] s) = Some u.
Proof. intros Ha Hr. simpl. rewrite Ha, Hr. done. Qed.

Lemma logout_can_be_undone_witness :
  token (boot (store (run [Logout; Refreshed (Ok (Response 200 "OK" (Some pair_json)))]
    (run [Login "a1" "r1" admin] (boot no_storage))))) = Some "a2".
Proof.
  apply (logout_can_be_undone (run [Login "a1" "r1" admin] (boot no_storage)) "a2" "r2" admin);
    reflexivity.
Defined.

End Session.

(** * The login page *)

Module LoginPage.

Record state := State {
  email : string; password : string; error : string; loading : bool }.
#[export] Instance eta_state : Eta state :=
  fun s => State (email s) (password s) (error s) (loading s).
Definition initial : state := State "" "" "" false.

Inductive action := SetEmail (v : string) | SetPassword (v : string) | Submit.

(** [login(email, password)] of the session. *)
Inductive event : Type -> Type := LoginCall (email password : string) : event unit.

Definition http (X : Type) (e : event X) : list request :=
  match e with
  | LoginCall m p =>
      [POST "/admin/api/v1/auth/login" (JObj [("email", JStr m); ("password", JStr p)])]
  end.

Definition submit (s : state) : prog event state :=
  set! (fun s => s <| loading := true |>) ;;
  set! (fun s => s <| error := "" |>) ;;
  await! r <- LoginCall (email s) (password s) ;;
  match r with
  | Ok _ => set! (fun s => s <| loading := false |>) ;; Done
  | Threw x =>
      set! (fun s => s <| error := getErrorMessage x "Login failed" |>) ;;
      set! (fun s => s <| loading := false |>) ;; Done
  end.

Definition handle (a : action) (s : state) : prog event state :=
  match a with
  | SetEmail v => set! (fun s => s <| email := v |>) ;; Done
  | SetPassword v => set! (fun s => s <| password := v |>) ;; Done
  | Submit => submit s
  end.

Definition view (s : state) : list (node action) :=
  [ Inp "Email" (email s) false SetEmail; Inp "Password" (password s) false SetPassword ]
  ++ when (truthy (error s)) [Txt (error s)]
  ++ [ Btn (if loading s then "Signing in..." else "Sign in") (loading s) Submit ].

Definition effects (r : option state) (s : state) : list (prog event state) := [].

Definition awaiting (m p : string) : prog event state :=
  await! r <- LoginCall m p ;;
  match r with
  | Ok _ => set! (fun s : state => s <| loading := false |>) ;; Done
  | Threw x =>
      set! (fun s : state => s <| error := getErrorMessage x "Login failed" |>) ;;
      set! (fun s : state => s <| loading := false |>) ;; Done
  end.

Definition single (c : Ui.config) : Prop :=
  if loading (Ui.c_state c) then exists m p, Ui.c_pool c = [awaiting m p]
  else Ui.c_pool c = [].

Lemma login_awaiting m p X (e : event X) kk :
  awaiting m p = Call e kk ->
  forall r s, exists s', Ui.sync http (kk r) s = (s', [], []) /\ loading s' = false.
Proof.
  unfold awaiting. intros H.
  refine (match H in _ = q return
    match q with
    | Call e kk => forall r s, exists s', Ui.sync http (kk r) s = (s', [], []) /\ loading s' = false
    | _ => True end with eq_refl => _ end).
  intros [u|t] s; simpl; eauto.
Qed.

Lemma login_single_step c c' :
  Ui.step http effects handle view c c' -> single c -> single c'.
Proof.
  intros Hs. unfold single. destruct Hs as [c Hd|c a Hd Ha|c i X e k r Hi
    |c i bs k j b r f Hi Hj Hb|c i bs k j b r x Hi Hj Hb|c i k Hi]; intros Hc.
  - unfold Ui.commit. simpl. by rewrite app_nil_r.
  - unfold Ui.resume, view in *. destruct (loading (Ui.c_state c)) eqn:Hl.
    + offers_cases Ha; subst; try congruence; simpl; rewrite Hl, app_nil_r; done.
    + offers_cases Ha; subst; simpl; rewrite ?Hl, ?app_nil_r; try done.
      rewrite Hc. by eexists _, _.
  - destruct (loading (Ui.c_state c)); [|by rewrite Hc in Hi].
    destruct Hc as (m & p & Hc). rewrite Hc in Hi. destruct i as [|i]; [|done].
    apply (inj Some) in Hi. destruct (login_awaiting m p X e k Hi r (Ui.c_state c)) as (s' & Hy & Hl').
    unfold Ui.resume. rewrite Hy, Hc. simpl. by rewrite Hl'.
  - destruct (loading (Ui.c_state c)); [destruct Hc as (m & p & Hc)|]; rewrite Hc in Hi; by destruct i.
  - destruct (loading (Ui.c_state c)); [destruct Hc as (m & p & Hc)|]; rewrite Hc in Hi; by destruct i.
  - destruct (loading (Ui.c_state c)); [destruct Hc as (m & p & Hc)|]; rewrite Hc in Hi; by destruct i.
Qed.

(** At most one sign-in is in flight, exactly while the button reads
    "Signing in..."; once it is answered, with a success or an error, the form
    can be submitted again. *)
Theorem login_single_flight c :
  Ui.reachable http effects handle view initial c -> single c.
Proof. induction 1 as [|c c' _ IH Hs]; [done|]. by eapply login_single_step. Qed.

Lemma login_single_flight_witness :
  exists c, Ui.c_pool c = [awaiting "" ""] /\ single c.
Proof.
  set (c1 := Ui.commit http effects (Ui.initial initial)).
  exists (Ui.resume http c1 (Ui.c_pool c1) (handle Submit (Ui.c_state c1))).
  split; [reflexivity|]. apply login_single_flight.
  eapply Ui.reach_step; [|apply (Ui.step_event http effects handle view c1 Submit)].
  - eapply Ui.reach_step; [apply Ui.reach_init|by apply Ui.step_commit].
  - reflexivity.
  - do 2 right. left. by split.
Defined.

End LoginPage.
