(* ===== verification/Api.v ===== *)
(** The side of the admin API the pages depend on (notification-core-api):
    permissions of internal/auth/auth.go, the routes of internal/http/router.go,
    and the paging of internal/http/middleware/middleware.go. *)
From S2P Require Import Prelude Js React Query Client Components Auth.

(** * Permissions *)

(** The table of the API. *)
Definition granularToBroad : obj string :=
  [ ("users.view", "users.manage"); ("users.create", "users.manage");
    ("users.update", "users.manage"); ("users.delete", "users.manage");
    ("users.reset_password", "users.manage"); ("users.assign_roles", "users.manage");
    ("users.assign_permissions", "users.manage"); ("features.view", "features.manage");
    ("features.update", "features.manage"); ("channels.view", "channels.manage");
    ("channels.update", "channels.manage"); ("queue_controls.view", "channels.manage");
    ("queue_controls.update", "channels.manage"); ("providers.view", "providers.manage");
    ("providers.create", "providers.manage"); ("providers.update", "providers.manage");
    ("providers.delete", "providers.manage"); ("providers.test", "providers.manage");
    ("groups.view", "groups.manage"); ("groups.create", "groups.manage");
    ("groups.update", "groups.manage"); ("groups.delete", "groups.manage");
    ("groups.members.manage", "groups.manage"); ("settings.view", "settings.manage");
    ("settings.update", "settings.manage"); ("api_keys.view", "api_keys.manage");
    ("api_keys.create", "api_keys.manage"); ("api_keys.revoke", "api_keys.manage");
    ("integration.view", "api_keys.view"); ("integration.test", "notifications.send");
    ("integration.view_api_docs", "integration.view"); ("campaigns.view", "campaigns.manage");
    ("campaigns.create", "campaigns.manage"); ("campaigns.update", "campaigns.manage");
    ("campaigns.approve", "campaigns.manage"); ("campaigns.send", "campaigns.manage");
    ("campaigns.schedule", "campaigns.manage"); ("campaigns.cancel", "campaigns.manage");
    ("templates.view", "templates.manage"); ("templates.create", "templates.manage");
    ("templates.update", "templates.manage"); ("templates.delete", "templates.manage");
    ("contacts.view", "contacts.manage"); ("contacts.create", "contacts.manage");
    ("contacts.update", "contacts.manage"); ("contacts.delete", "contacts.manage");
    ("notifications.view", "notifications.manage");
    ("notifications.create", "notifications.manage");
    ("notifications.send", "notifications.manage");
    ("notifications.bulk_send", "notifications.manage");
    ("notifications.retry", "notifications.manage");
    ("notifications.cancel", "notifications.manage"); ("tenants.view", "tenants.manage");
    ("tenants.create", "tenants.manage"); ("tenants.update", "tenants.manage");
    ("tenants.delete", "tenants.manage") ].

Definition HasPermission (p : Principal) (permission : string) : bool :=
  if is_platform_admin p then true
  else if includes (permissions p) permission then true
  else match oget granularToBroad permission with
       | Some broad => includes (permissions p) broad
       | None => false
       end.

(** * Numbers of the API *)

(** [strconv.Atoi] on a text of digits with an optional sign: [None] on a syntax
    error or a value out of range. *)
Definition atoi (s : string) : option Z :=
  let '(neg, u) := read_sign s in
  let '(v, n, rest) := read_digits 0 0 u in
  let z := if neg then - v else v in
  if (0 <? n) && bool_decide (rest = "") && (- 2 ^ 63 <=? z) && (z <? 2 ^ 63) then Some z else None.

(** * Bodies *)

(** A Go type that [decode] reads a body into; [TPtr] is a pointer and [TRaw] a
    [json.RawMessage]. *)
Inductive gotype :=
| TString | TBool | TInt | TRaw | TMap
| TPtr (t : gotype)
| TSlice (t : gotype)
| TStruct (fields : list (string * gotype)).

(** Whether [json.Unmarshal] reads the value without an error: null is no value,
    members that are no field are skipped (the names compared exactly, those sent
    being in lower case), a number is an integer when its text is one. *)
Fixpoint decodes (t : gotype) (v : json) : bool :=
  match v, t with
  | JNull, _ | _, TRaw | JStr _, TString | JBool _, TBool | JObj _, TMap => true
  | JNum x, TInt =>
      match x with
      | Dec _ _ => match atoi (num_text x) with Some _ => true | None => false end
      | _ => true
      end
  | _, TPtr t => decodes t v
  | JArr xs, TSlice t => forallb (decodes t) xs
  | JObj kvs, TStruct fs =>
      forallb (fun f => match oget kvs f.1 with Some w => decodes f.2 w | None => true end) fs
  | _, _ => false
  end.

Lemma decodes_slice {A} t (f : A -> json) xs :
  (forall x, decodes t (f x) = true) -> decodes (TSlice t) (JArr (map f xs)) = true.
Proof. intros H. simpl. induction xs as [|x xs IH]; simpl; [done|]. by rewrite H, IH. Qed.

Lemma decodes_struct fs kvs :
  Forall (fun f => match oget kvs f.1 with Some w => decodes f.2 w = true | None => True end) fs ->
  decodes (TStruct fs) (JObj kvs) = true.
Proof.
  intros H. simpl. induction H as [|f fs Hf _ IH]; simpl; [done|]. rewrite IH.
  by destruct (oget kvs f.1); [rewrite Hf|].
Qed.

Definition strings (names : list string) : list (string * gotype) :=
  map (fun n => (n, TString)) names.

Definition Login_req : gotype := TStruct (strings ["email"; "password"]).
Definition Refresh_req : gotype := TStruct (strings ["refresh_token"]).
Definition SendAdminNotification_req : gotype :=
  TStruct [ ("tenant_id", TString); ("event", TString); ("channels", TSlice TString);
    ("template", TString);
    ("target", TStruct [("type", TString); ("recipient", TMap); ("id", TString)]);
    ("data", TMap); ("priority", TInt); ("schedule", TStruct (strings ["type"; "send_at"]));
    ("idempotency_key", TString) ].
Definition tenantProvisioningRequest : gotype :=
  TStruct [ ("name", TString); ("slug", TString); ("settings", TMap); ("features", TSlice TString);
    ("channels", TSlice (TStruct [("channel", TString); ("enabled", TBool); ("direction", TString);
                                  ("rate_limit_per_second", TInt); ("daily_quota", TInt)]));
    ("providers", TSlice (TStruct [("channel", TString); ("provider", TString); ("is_default", TBool)]));
    ("templates", TSlice (TStruct (strings ["template_key"; "channel"; "subject"; "body"]))) ].
Definition UpdateTenantStatus_req : gotype := TStruct (strings ["status"]).
Definition UpdateTenantSettings_req : gotype :=
  TStruct (map (fun n => (n, TPtr TString))
      ["timezone"; "country"; "default_sender"; "default_sms"; "branding_logo"]
    ++ [("metadata", TRaw)]).
(** The catalogs and the features of a tenant. *)
Definition enabled_req : gotype := TStruct [("enabled", TPtr TBool)].
Definition UpdateChannel_req : gotype :=
  TStruct [ ("enabled", TPtr TBool); ("direction", TString); ("rate_limit_per_second", TPtr TInt);
            ("daily_quota", TPtr TInt); ("priority", TPtr TInt) ].
Definition CreateAPIKey_req : gotype :=
  TStruct [("tenant_id", TString); ("name", TString); ("scopes", TSlice TString); ("expires_in", TString)].
Definition CreateUser_req : gotype :=
  TStruct (strings ["email"; "name"; "password"; "tenant_id"] ++ [("is_platform_admin", TBool)]).
Definition UpdateUser_req : gotype := TStruct (strings ["name"; "email"; "status"]).
Definition CreateRole_req : gotype := TStruct (strings ["tenant_id"; "name"; "key"; "scope"]).
Definition AssignRolePermission_req : gotype := TStruct (strings ["role_id"; "permission_id"]).
Definition UpdateRole_req : gotype := TStruct (strings ["name"; "status"; "scope"]).
Definition SetRolePermissions_req : gotype := TStruct [("permission_ids", TSlice TString)].
Definition AssignUserRole_req : gotype := TStruct (strings ["tenant_id"; "role_id"]).
Definition UpdateQueueControl_req : gotype :=
  TStruct [ ("status", TPtr TString); ("max_attempts", TPtr TInt); ("retry_delay_seconds", TPtr TInt);
            ("notes", TPtr TString) ].
Definition CreateProviderConfig_req : gotype :=
  TStruct [ ("tenant_id", TString); ("channel", TString); ("provider", TString); ("is_default", TBool);
            ("config_json", TString) ].
Definition UpdateProviderConfig_req : gotype :=
  TStruct [("provider", TString); ("is_default", TPtr TBool); ("status", TString); ("config_json", TString)].
Definition CreateContact_req : gotype :=
  TStruct (strings ["tenant_id"; "external_user_id"; "name"; "email"; "phone"]).
Definition UpdateContact_req : gotype := TStruct (strings ["name"; "email"; "phone"]).
Definition CreateGroup_req : gotype := TStruct (strings ["tenant_id"; "name"; "description"]).
Definition AddGroupMember_req : gotype := TStruct (strings ["contact_id"]).
Definition CreateTemplate_req : gotype :=
  TStruct (strings ["tenant_id"; "template_key"; "channel"; "subject"; "body"]).
Definition UpdateTemplate_req : gotype :=
  TStruct (strings ["template_key"; "channel"; "subject"; "body"]).
Definition CreateCampaign_req : gotype :=
  TStruct (strings ["tenant_id"; "name"; "description"; "channel"]).
Definition UpdateCampaign_req : gotype := TStruct (strings ["name"; "description"; "status"]).

(** * Routes *)

(** A segment of a pattern: a literal, or a wildcard for one non-empty segment. *)
Inductive segment := L (s : string) | V (name : string).
#[export] Instance segment_eq : EqDecision segment.
Proof. solve_decision. Defined.

Record route := Route { r_method : string; r_pattern : list segment; r_permission : string }.

(** The routes under [/admin/api/v1] behind [Chain], with their permissions. *)
Definition routes : list route :=
  [
    Route "POST" [L "auth"; L "logout"] "notifications.view";
    Route "POST" [L "ws"; L "token"] "notifications.view";
    Route "POST" [L "notifications"; L "send"] "notifications.send";
    Route "GET" [L "notifications"] "notifications.view";
    Route "GET" [L "notifications"; V "public_id"] "notifications.view";
    Route "GET" [L "tenants"] "tenants.view";
    Route "POST" [L "tenants"] "tenants.create";
    Route "GET" [L "tenants"; V "id"] "tenants.view";
    Route "PATCH" [L "tenants"; V "id"] "tenants.update";
    Route "PATCH" [L "tenants"; V "id"; L "status"] "tenants.update";
    Route "GET" [L "tenants"; V "id"; L "overview"] "tenants.view";
    Route "GET" [L "tenants"; V "id"; L "settings"] "settings.view";
    Route "PUT" [L "tenants"; V "id"; L "settings"] "settings.update";
    Route "GET" [L "dashboard"; L "stats"] "notifications.view";
    Route "GET" [L "integration"] "integration.view";
    Route "GET" [L "tenants"; V "id"; L "integration"] "integration.view";
    Route "GET" [L "feature-catalog"] "features.view";
    Route "PUT" [L "feature-catalog"; V "identifier"] "features.update";
    Route "GET" [L "channel-catalog"] "channels.view";
    Route "PUT" [L "channel-catalog"; V "channel"] "channels.update";
    Route "GET" [L "provider-types"] "providers.view";
    Route "PUT" [L "provider-types"; V "provider"] "providers.update";
    Route "GET" [L "audit-logs"] "audit_logs.view";
    Route "GET" [L "api-keys"] "api_keys.view";
    Route "POST" [L "api-keys"] "api_keys.create";
    Route "DELETE" [L "api-keys"; V "id"] "api_keys.revoke";
    Route "GET" [L "users"] "users.view";
    Route "POST" [L "users"] "users.create";
    Route "PUT" [L "users"; V "id"] "users.update";
    Route "GET" [L "roles"] "roles.manage";
    Route "GET" [L "roles"; V "id"] "roles.manage";
    Route "POST" [L "roles"] "roles.manage";
    Route "PUT" [L "roles"; V "id"] "roles.manage";
    Route "DELETE" [L "roles"; V "id"] "roles.manage";
    Route "GET" [L "roles"; V "id"; L "permissions"] "roles.manage";
    Route "PUT" [L "roles"; V "id"; L "permissions"] "roles.manage";
    Route "POST" [L "roles"; V "id"; L "permissions"] "roles.manage";
    Route "DELETE" [L "roles"; V "role_id"; L "permissions"; V "perm_id"] "roles.manage";
    Route "GET" [L "users"; V "user_id"; L "roles"] "roles.manage";
    Route "POST" [L "users"; V "user_id"; L "roles"] "roles.manage";
    Route "DELETE" [L "users"; V "user_id"; L "roles"; V "role_id"] "roles.manage";
    Route "GET" [L "permissions"] "permissions.manage";
    Route "GET" [L "features"] "features.view";
    Route "PUT" [L "features"; V "id"] "features.update";
    Route "GET" [L "channels"] "channels.view";
    Route "PUT" [L "channels"; V "id"] "channels.update";
    Route "GET" [L "queue-controls"] "queue_controls.view";
    Route "PATCH" [L "queue-controls"; V "id"] "queue_controls.update";
    Route "GET" [L "providers"] "providers.view";
    Route "POST" [L "providers"] "providers.create";
    Route "PUT" [L "providers"; V "id"] "providers.update";
    Route "DELETE" [L "providers"; V "id"] "providers.delete";
    Route "POST" [L "providers"; V "id"; L "test"] "providers.test";
    Route "GET" [L "contacts"] "contacts.view";
    Route "POST" [L "contacts"] "contacts.create";
    Route "PUT" [L "contacts"; V "id"] "contacts.update";
    Route "DELETE" [L "contacts"; V "id"] "contacts.delete";
    Route "GET" [L "groups"] "groups.view";
    Route "POST" [L "groups"] "groups.create";
    Route "DELETE" [L "groups"; V "id"] "groups.delete";
    Route "GET" [L "groups"; V "id"; L "members"] "groups.view";
    Route "POST" [L "groups"; V "id"; L "members"] "groups.members.manage";
    Route "DELETE" [L "groups"; V "id"; L "members"; V "contact_id"] "groups.members.manage";
    Route "GET" [L "templates"] "templates.view";
    Route "POST" [L "templates"] "templates.create";
    Route "PUT" [L "templates"; V "id"] "templates.update";
    Route "DELETE" [L "templates"; V "id"] "templates.delete";
    Route "GET" [L "campaigns"] "campaigns.view";
    Route "POST" [L "campaigns"] "campaigns.create";
    Route "PUT" [L "campaigns"; V "id"] "campaigns.update";
    Route "POST" [L "campaigns"; V "id"; L "approve"] "campaigns.approve";
    Route "POST" [L "campaigns"; V "id"; L "send"] "campaigns.send";
    Route "POST" [L "campaigns"; V "id"; L "cancel"] "campaigns.cancel";
    Route "GET" [L "in-app"; L "notifications"] "notifications.view";
    Route "POST" [L "in-app"; L "notifications"; V "id"; L "read"] "notifications.view";
    Route "POST" [L "in-app"; L "notifications"; L "mark-all-read"] "notifications.view";
    Route "POST" [L "in-app"; L "sync"] "notifications.view" ].

(** The handlers that decode a body; the others do not read it. *)
Definition body_types : list (string * list segment * gotype) :=
  [
    ("POST", [L "auth"; L "logout"], Refresh_req);
    ("POST", [L "auth"; L "login"], Login_req);
    ("POST", [L "auth"; L "refresh"], Refresh_req);
    ("POST", [L "notifications"; L "send"], SendAdminNotification_req);
    ("POST", [L "tenants"], tenantProvisioningRequest);
    ("PATCH", [L "tenants"; V "id"], tenantProvisioningRequest);
    ("PATCH", [L "tenants"; V "id"; L "status"], UpdateTenantStatus_req);
    ("PUT", [L "tenants"; V "id"; L "settings"], UpdateTenantSettings_req);
    ("PUT", [L "feature-catalog"; V "identifier"], enabled_req);
    ("PUT", [L "channel-catalog"; V "channel"], enabled_req);
    ("PUT", [L "provider-types"; V "provider"], enabled_req);
    ("POST", [L "api-keys"], CreateAPIKey_req);
    ("POST", [L "users"], CreateUser_req);
    ("PUT", [L "users"; V "id"], UpdateUser_req);
    ("POST", [L "roles"], CreateRole_req);
    ("PUT", [L "roles"; V "id"], UpdateRole_req);
    ("PUT", [L "roles"; V "id"; L "permissions"], SetRolePermissions_req);
    ("POST", [L "roles"; V "id"; L "permissions"], AssignRolePermission_req);
    ("POST", [L "users"; V "user_id"; L "roles"], AssignUserRole_req);
    ("PUT", [L "features"; V "id"], enabled_req);
    ("PUT", [L "channels"; V "id"], UpdateChannel_req);
    ("PATCH", [L "queue-controls"; V "id"], UpdateQueueControl_req);
    ("POST", [L "providers"], CreateProviderConfig_req);
    ("PUT", [L "providers"; V "id"], UpdateProviderConfig_req);
    ("POST", [L "contacts"], CreateContact_req);
    ("PUT", [L "contacts"; V "id"], UpdateContact_req);
    ("POST", [L "groups"], CreateGroup_req);
    ("POST", [L "groups"; V "id"; L "members"], AddGroupMember_req);
    ("POST", [L "templates"], CreateTemplate_req);
    ("PUT", [L "templates"; V "id"], UpdateTemplate_req);
    ("POST", [L "campaigns"], CreateCampaign_req);
    ("PUT", [L "campaigns"; V "id"], UpdateCampaign_req) ].

Definition body_type (rt : route) : option gotype :=
  match find (fun e => bool_decide (e.1 = (r_method rt, r_pattern rt))) body_types with
  | Some e => Some e.2
  | None => None
  end.

(** A route reads the body of a request, or is given none to read. *)
Definition body_fits (rt : route) (body : option json) : bool :=
  match body_type rt, body with
  | Some t, Some b => decodes t b
  | Some _, None => false
  | None, _ => true
  end.

(** [/auth/me] needs a session but no permission; [/auth/login] and
    [/auth/refresh] need neither. *)
Definition open_routes : list route :=
  [ Route "GET" [L "auth"; L "me"] ""; Route "POST" [L "auth"; L "login"] "";
    Route "POST" [L "auth"; L "refresh"] "" ].

(** The mux: the path before the query, segment by segment. *)
Fixpoint fits (pat : list segment) (segs : list string) : bool :=
  match pat, segs with
  | [], [] => true
  | L s :: pat, x :: segs => bool_decide (x = s) && fits pat segs
  | V _ :: pat, x :: segs => truthy x && fits pat segs
  | _, _ => false
  end.

(** The segments after [/admin/api/v1]. *)
Definition api_segments (path : string) : option (list string) :=
  match split slash (cut question path).1 with
  | a :: b :: c :: d :: segs =>
      if bool_decide (a = "" /\ b = "admin" /\ c = "api" /\ d = "v1") then Some segs else None
  | _ => None
  end.

Definition find_route (r : request) : option route :=
  match api_segments (req_path r) with
  | Some segs =>
      find (fun rt => bool_decide (r_method rt = req_method r) && fits (r_pattern rt) segs)
        (routes ++ open_routes)
  | None => None
  end.

(** The answer of the API before any handler runs: 404 or 405 for no route, 403
    without the permission. *)
Definition authorized (p : Principal) (r : request) : bool :=
  match find_route r with
  | Some rt => if decide (r_permission rt = "") then true else HasPermission p (r_permission rt)
  | None => false
  end.

(** No two routes answer the same request, so their order is immaterial. *)
Fixpoint overlap (a b : list segment) : bool :=
  match a, b with
  | [], [] => true
  | L x :: a, L y :: b => bool_decide (x = y) && overlap a b
  | V _ :: a, _ :: b | _ :: a, V _ :: b => overlap a b
  | _, _ => false
  end.

Fixpoint exclusive (rs : list route) : bool :=
  match rs with
  | [] => true
  | r :: rs =>
      forallb (fun r' => negb (bool_decide (r_method r = r_method r') && overlap (r_pattern r) (r_pattern r'))) rs
      && exclusive rs
  end.

Example routes_exclusive : exclusive (routes ++ open_routes) = true.
Proof. vm_compute. reflexivity. Qed.

(** A value that fills one segment: an identifier issued by the API. *)
Definition ident (s : string) : bool :=
  truthy s && negb (has_char slash s) && negb (has_char question s).

(** A path of literal and identifier segments. *)
Definition api_path (segs : list string) : string := "/admin/api/v1/" +:+ join "/" segs.

(** A request of the UI with the permission its route asks for: the path is
    that of a route, its wildcards filled, followed by nothing or by a query. *)
Definition fill (pat : list segment) (args : list string) : list string :=
  (fix go pat args :=
    match pat, args with
    | L s :: pat, _ => s :: go pat args
    | V _ :: pat, x :: args => x :: go pat args
    | V _ :: pat, [] => "" :: go pat []
    | [], _ => []
    end) pat args.

Definition served (perm : string) (r : request) : Prop :=
  exists rt args q,
    rt ∈ routes /\ r_method rt = req_method r /\ r_permission rt = perm
    /\ (req_path r = api_path (fill (r_pattern rt) args)
        \/ req_path r = api_path (fill (r_pattern rt) args) +:+ String question q).

(** The same, and the handler of the route decodes the body. *)
Definition understood (perm : string) (r : request) : Prop :=
  exists rt args q,
    rt ∈ routes /\ r_method rt = req_method r /\ r_permission rt = perm
    /\ (req_path r = api_path (fill (r_pattern rt) args)
        \/ req_path r = api_path (fill (r_pattern rt) args) +:+ String question q)
    /\ body_fits rt (req_body r) = true.

Lemma understood_served perm r : understood perm r -> served perm r.
Proof. intros (rt & args & q & ? & ? & ? & ? & _). exists rt, args, q. auto. Qed.

Lemma can_HasPermission u permission :
  permission <> "audit_logs.view" ->
  hasPermission (Some u) permission = HasPermission u permission.
Proof.
  intros Hp. unfold hasPermission, HasPermission.
  destruct (is_platform_admin u); [done|]. destruct (includes _ permission); [done|].
  assert (Ht : GRANULAR_TO_BROAD = granularToBroad ++ [("audit_logs.view", "audit_logs.manage")])
    by reflexivity.
  rewrite Ht, oget_app. cbn [orb oget]. rewrite decide_False by done.
  destruct (oget granularToBroad permission) as [b|] eqn:Hb; [|done].
  assert (Hall : Forall (fun kv => truthy kv.2 = true) granularToBroad)
    by (repeat (constructor; [reflexivity|]); constructor).
  apply oget_Some_elem in Hb. rewrite Forall_forall in Hall. specialize (Hall _ Hb).
  simpl in Hall. by rewrite Hall.
Qed.

(** C33: the permission check of the UI is the one of the API for every user and
    every permission but one. *)
Theorem can_agrees_with_api u permission :
  permission <> "audit_logs.view" ->
  hasPermission (Some u) permission = HasPermission u permission.
Proof. apply can_HasPermission. Qed.

Definition auditor : Principal := MkPrincipal "u2" (Some "t1") "a@example.com" false ["audit_logs.manage"].

Lemma can_agrees_with_api_witness :
  hasPermission (Some auditor) "templates.view" = HasPermission auditor "templates.view".
Proof. apply can_agrees_with_api. discriminate. Defined.

(** That one is [audit_logs.view]: whoever holds only the broad
    [audit_logs.manage] is shown the audit page and answered 403 by the API; and
    nobody else is treated differently by the two. *)
Theorem audit_permission_gap u :
  hasPermission (Some u) "audit_logs.view" <> HasPermission u "audit_logs.view"
  <-> is_platform_admin u = false /\ "audit_logs.view" ∉ permissions u
      /\ "audit_logs.manage" ∈ permissions u.
Proof.
  unfold hasPermission, HasPermission.
  destruct (is_platform_admin u); simpl; [naive_solver|].
  destruct (includes (permissions u) "audit_logs.view") eqn:E; simpl.
  - apply includes_true in E. naive_solver.
  - apply includes_false in E.
    change (oget GRANULAR_TO_BROAD "audit_logs.view") with (Some "audit_logs.manage").
    change (oget granularToBroad "audit_logs.view") with (@None string). simpl.
    destruct (includes (permissions u) "audit_logs.manage") eqn:F; simpl.
    + apply includes_true in F. naive_solver.
    + apply includes_false in F. naive_solver.
Qed.

(** * Paging *)

Module DataTable.

(** The wrap-around of a 64-bit integer. *)
Definition int64 (z : Z) : Z := (z + 2 ^ 63) mod 2 ^ 64 - 2 ^ 63.

Definition positiveInt (value : string) (fallback : Z) : Z :=
  match atoi value with
  | Some parsed => if parsed <? 1 then fallback else parsed
  | None => fallback
  end.

(** [filtered[start:end]]: [None] is the panic of a slice out of range. *)
Definition slice {A} (xs : list A) (start end_ : Z) : option (list A) :=
  if (0 <=? start) && (start <=? end_) && (end_ <=? Z.of_nat (length xs))
  then Some (firstn (Z.to_nat (end_ - start)) (skipn (Z.to_nat start) xs))
  else None.

(** [json.Marshal]: besides what the browser escapes, three characters of markup. *)
Definition go_char (c : ascii) : string :=
  let esc d := String backslash ("u00" +:+ d) in
  let b := byte c in
  if b =? 60 then esc "3c" else if b =? 62 then esc "3e" else if b =? 38 then esc "26" else json_char c.

Fixpoint go_chars (s : string) : string :=
  match s with EmptyString => "" | String c s => go_char c +:+ go_chars s end.

Definition go_string (s : string) : string := String quote "" +:+ go_chars s +:+ String quote "".

(** The members of an object are those of a map, in the order of their keys. *)
Fixpoint Marshal (v : json) : string :=
  match v with
  | JStr s => go_string s
  | JArr xs => "[" +:+ join "," (map Marshal xs) +:+ "]"
  | JObj kvs => "{" +:+ join "," (map (fun kv => go_string kv.1 +:+ ":" +:+ Marshal kv.2) kvs) +:+ "}"
  | v => stringify v
  end.

(** [fmt.Sprint] on a decoded value; an absent member is nil. *)
Fixpoint Sprint (v : json) : string :=
  match v with
  | JNull => "<nil>"
  | JBool b => if b then "true" else "false"
  | JNum x => num_text x
  | JStr s => s
  | JArr xs => "[" +:+ join " " (map Sprint xs) +:+ "]"
  | JObj kvs => "map[" +:+ join " " (map (fun kv => kv.1 +:+ ":" +:+ Sprint kv.2) kvs) +:+ "]"
  end.

Definition filter_field (key : string) : option string :=
  if starts_with "filter_" key then Some (drop 7 key) else None.

Definition matchesFilters (item : obj json) (q : params) : bool :=
  forallb (fun kv => match filter_field kv.1 with
    | Some field =>
        negb (truthy kv.2)
        || bool_decide (to_lower (Sprint (default JNull (oget item field))) = to_lower kv.2)
    | None => true
    end) q.

(** The search looks at the text of the whole row, the names of its members
    included. *)
Definition matchesSearch (item : obj json) (q : params) : bool :=
  let text := to_lower (trim (query_get q "q")) in
  negb (truthy text) || includes_str text (to_lower (Marshal (JObj item))).

Definition filtered (rows : list (obj json)) (q : params) : list (obj json) :=
  filter_by (fun item => matchesSearch item q && matchesFilters item q) rows.

(** The page of the filtered and sorted rows that the query asks for. *)
Definition DataTableQuery {A} (filtered : list A) (q : params)
    : option (list A * Pagination.PaginationMeta) :=
  let page := positiveInt (query_get q "page") 1 in
  let perPage0 := positiveInt (query_get q "per_page") 25 in
  let perPage := if 100 <? perPage0 then 100 else perPage0 in
  let total := Z.of_nat (length filtered) in
  let start0 := int64 (int64 (page - 1) * perPage) in
  let start := if total <? start0 then total else start0 in
  let end0 := int64 (start + perPage) in
  let end_ := if total <? end0 then total else end0 in
  match slice filtered start end_ with
  | Some data =>
      Some (data, {| Pagination.m_page := page; Pagination.m_per_page := perPage;
                     Pagination.m_total := total;
                     Pagination.m_total_pages := Z.max 1 (Z.quot (total + perPage - 1) perPage) |})
  | None => None
  end.

(** The query a list page sends for the page shown. *)
Definition page_query (s : Pagination.state) : params :=
  set_params [] [("page", Some (pretty (Pagination.page s)));
                 ("per_page", Some (pretty (Pagination.perPage s)))].

Lemma int64_id z : - 2 ^ 63 <= z < 2 ^ 63 -> int64 z = z.
Proof. intros H. unfold int64. rewrite Z.mod_small; lia. Qed.

(** The text of a positive number is read back. *)
Lemma atoi_pretty z : 0 < z < 2 ^ 63 -> atoi (pretty z) = Some z.
Proof.
  intros Hz. destruct z as [|p|p]; [lia| |lia].
  change (pretty (Z.pos p)) with (pretty (N.pos p)).
  unfold pretty, pretty_N. rewrite decide_False by done.
  assert (Hs : exists c' s', pretty_N_go (N.pos p) "" = String c' s' /\ is_digit c' = true).
  { rewrite pretty_N_go_step by lia. apply go_digit.
    apply digit_char, N.mod_lt. lia. }
  unfold atoi. rewrite read_sign_digits by (by destruct Hs as (c' & s' & -> & ?)).
  destruct (read_digits_go (N.pos p) "") as (d & _ & Hd & ->). simpl.
  specialize (Hd ltac:(done)).
  replace (0 <? d) with true by lia. simpl.
  replace (- 2 ^ 63 <=? Z.pos p) with true by lia.
  replace (Z.pos p <? 2 ^ 63) with true by lia. done.
Qed.

Lemma positiveInt_pretty z d : 0 < z < 2 ^ 63 -> positiveInt (pretty z) d = z.
Proof. intros Hz. unfold positiveInt. rewrite atoi_pretty by done. by replace (z <? 1) with false by lia. Qed.

Lemma pretty_truthy z : 0 < z < 2 ^ 63 -> truthy (pretty z) = true.
Proof. intros Hz. apply truthy_true. intros Hp. pose proof (atoi_pretty z Hz) as H. by rewrite Hp in H. Qed.

(** The meta of a page, and its rows. *)
Definition meta_of {A} (rows : list A) (p k : Z) : Pagination.PaginationMeta :=
  {| Pagination.m_page := p; Pagination.m_per_page := k; Pagination.m_total := Z.of_nat (length rows);
     Pagination.m_total_pages := Z.max 1 ((Z.of_nat (length rows) + k - 1) / k) |}.

Definition chunk {A} (rows : list A) (k i : nat) : list A := firstn k (skipn (i * k) rows).

Lemma DataTableQuery_at {A} (rows : list A) q p k :
  query_get q "page" = pretty p -> query_get q "per_page" = pretty k ->
  Z.of_nat (length rows) < 2 ^ 62 -> 0 < k <= 100 -> 1 <= p <= 2 ^ 55 ->
  DataTableQuery rows q = Some (chunk rows (Z.to_nat k) (Z.to_nat (p - 1)), meta_of rows p k).
Proof.
  intros Hpage Hper Hn Hk Hp. unfold DataTableQuery. rewrite Hpage, Hper.
  rewrite !positiveInt_pretty by lia. replace (100 <? k) with false by lia.
  rewrite (int64_id (p - 1)) by lia. rewrite (int64_id ((p - 1) * k)) by nia.
  set (n := Z.of_nat (length rows)) in *.
  rewrite int64_id by (destruct (n <? (p - 1) * k) eqn:E; nia).
  rewrite Z.quot_div_nonneg by lia.
  unfold slice. fold n.
  set (st := if n <? (p - 1) * k then n else (p - 1) * k).
  set (en := if n <? st + k then n else st + k).
  assert (Hst : 0 <= st <= n) by (subst st; destruct (n <? (p - 1) * k) eqn:E; nia).
  assert (Hen : st <= en <= n) by (subst en; destruct (n <? st + k) eqn:E; lia).
  replace (0 <=? st) with true by lia. replace (st <=? en) with true by lia.
  replace (en <=? n) with true by lia. cbn [andb]. f_equal. f_equal. unfold chunk.
  replace (Z.to_nat (p - 1) * Z.to_nat k)%nat with (Z.to_nat ((p - 1) * k)) by nia.
  destruct (n <? (p - 1) * k) eqn:E.
  - subst st. replace (en - n) with 0 by lia. simpl. symmetry.
    rewrite (skipn_all2 (n := Z.to_nat ((p - 1) * k))) by lia. by rewrite firstn_nil.
  - subst st en. destruct (n <? (p - 1) * k + k) eqn:F.
    + rewrite !firstn_all2; try done; rewrite length_skipn; lia.
    + by replace ((p - 1) * k + k - (p - 1) * k) with k by lia.
Qed.

Lemma page_query_gets p k : 0 < p < 2 ^ 63 -> 0 < k < 2 ^ 63 ->
  query_get (page_query (Pagination.State p k)) "page" = pretty p
  /\ query_get (page_query (Pagination.State p k)) "per_page" = pretty k.
Proof.
  intros Hp Hk. unfold page_query, query_get. simpl Pagination.page. simpl Pagination.perPage.
  assert (Hnd : NoDup (map fst [("page", Some (pretty p)); ("per_page", Some (pretty k))])).
  { simpl. apply NoDup_cons. split; [set_solver|apply NoDup_singleton]. }
  rewrite !oget_set_params by done. cbn [oget].
  destruct (decide ("page" = "page")) as [_|]; [|done].
  destruct (decide ("per_page" = "page")) as [|_]; [done|].
  destruct (decide ("per_page" = "per_page")) as [_|]; [|done].
  by rewrite !pretty_truthy by lia.
Qed.

Lemma DataTableQuery_page {A} (rows : list A) p k :
  Z.of_nat (length rows) < 2 ^ 62 -> 0 < k <= 100 -> 1 <= p <= 2 ^ 55 ->
  DataTableQuery rows (page_query (Pagination.State p k)) =
  Some (chunk rows (Z.to_nat k) (Z.to_nat (p - 1)), meta_of rows p k).
Proof. intros Hn Hk Hp. apply DataTableQuery_at; auto; apply page_query_gets; lia. Qed.

Lemma chunks_concat {A} (rows : list A) k n :
  concat (map (chunk rows k) (List.seq 0 n)) = firstn (n * k) rows.
Proof.
  induction n as [|n IH]; [done|].
  rewrite seq_S, map_app, concat_app, IH. simpl. rewrite app_nil_r. unfold chunk.
  rewrite Nat.add_comm. apply take_take_drop.
Qed.

(** C34: the pages a user can walk through show every row exactly once, in
    order: with the page sizes of the control, the API answers each page number
    from 1 to the number of pages on screen with its rows, never fails, and the
    pages one after the other are the rows. *)
Theorem pages_show_every_row {A} (rows : list A) k :
  Z.of_nat (length rows) <= 2 ^ 55 -> In k Pagination.sizes ->
  exists pages : list (list A),
    concat pages = rows
    /\ forall i, (i < length pages)%nat ->
       exists data meta,
         DataTableQuery rows (page_query (Pagination.State (Z.of_nat i + 1) k)) = Some (data, meta)
         /\ pages !! i = Some data
         /\ Pagination.totalPages (Some meta) = Z.of_nat (length pages).
Proof.
  intros Hn Hk. assert (0 < k <= 100) as Hk' by (simpl in Hk; lia). clear Hk.
  set (n := Z.of_nat (length rows)) in *.
  set (tp := Z.max 1 ((n + k - 1) / k)).
  assert (Htp : n <= tp * k /\ 1 <= tp <= 2 ^ 55 + 1).
  { pose proof (Z.div_mod (n + k - 1) k ltac:(lia)). pose proof (Z.mod_pos_bound (n + k - 1) k ltac:(lia)).
    assert ((n + k - 1) / k <= 2 ^ 55 + 1) by (apply Z.div_le_upper_bound; nia).
    subst tp. nia. }
  exists (map (chunk rows (Z.to_nat k)) (List.seq 0 (Z.to_nat tp))). split.
  - rewrite chunks_concat. apply firstn_all2. nia.
  - rewrite length_map, length_seq. intros i Hi. eexists _, _.
    split; [apply DataTableQuery_page; [lia|lia|]|].
    + assert (tp <= 2 ^ 55); [|lia].
      subst tp. apply Z.max_lub; [lia|]. apply Z.div_le_upper_bound; nia.
    + split.
      * rewrite list_lookup_fmap, lookup_seq_lt by done. simpl. f_equal. f_equal. lia.
      * unfold Pagination.totalPages, meta_of. simpl. fold n. subst tp. lia.
Qed.

Lemma pages_show_every_row_witness :
  exists pages : list (list nat),
    concat pages = List.seq 0 60
    /\ forall i, (i < length pages)%nat ->
       exists data meta,
         DataTableQuery (List.seq 0 60) (page_query (Pagination.State (Z.of_nat i + 1) 25)) = Some (data, meta)
         /\ pages !! i = Some data
         /\ Pagination.totalPages (Some meta) = Z.of_nat (length pages).
Proof. apply pages_show_every_row; [vm_compute; discriminate|]. simpl. lia. Defined.

(** A page number typed in the address of the API is not bounded: past the
    width of the integer its row offset wraps to a negative one, and the slice
    panics, whatever the rows. *)
Theorem huge_page_panics {A} (rows : list A) :
  DataTableQuery rows [("page", "400000000000000000")] = None.
Proof.
  unfold DataTableQuery.
  change (positiveInt (query_get [("page", "400000000000000000")] "page") 1) with 400000000000000000.
  change (positiveInt (query_get [("page", "400000000000000000")] "per_page") 25) with 25.
  change (100 <? 25) with false. cbv iota.
  change (int64 (int64 (400000000000000000 - 1) * 25)) with (-8446744073709551641).
  set (n := Z.of_nat (length rows)). cbv zeta.
  replace (n <? -8446744073709551641) with false by lia.
  unfold slice. done.
Qed.

End DataTable.
