(* ===== verification/Page.v ===== *)
(** What the pages share: controls of components embedded in a page's view, the
    confirmation dialog around a page's own programs, list loading, and the
    permission a request needs. *)
From S2P Require Import Prelude Js React Query Client Components Auth Api.

(** A check on a permission is opened only by the lemmas about it. *)
#[global] Arguments hasPermission : simpl never.

#[export] Instance eta_confirm {K} : Eta (Confirm.state K) := Confirm.eta_state.
#[export] Instance eta_pagination : Eta Pagination.state := Pagination.eta_state.

(** * Embedding the view of a component *)

Fixpoint nmap {A B} (f : A -> B) (n : node A) : node B :=
  match n with
  | Txt s => Txt s
  | Btn l d a => Btn l d (f a)
  | Inp l v d g => Inp l v d (fun x => f (g x))
  | Sel l v d os g => Sel l v d os (fun x => f (g x))
  | Chk l v d a => Chk l v d (f a)
  | Link l t => Link l t
  | Grp l ns => Grp l (map (nmap f) ns)
  end.

Definition embed {A B} (f : A -> B) (ns : list (node A)) : list (node B) := map (nmap f) ns.

Lemma offers_nmap {A B} (f : A -> B) n b :
  offers (nmap f n) b <-> exists a, b = f a /\ offers n a.
Proof.
  revert n. apply (node_ind' (fun n => offers (nmap f n) b <-> exists a, b = f a /\ offers n a));
    [intros n|intros l ns IH].
  - destruct n; simpl; try done; naive_solver.
  - change (nmap f (Grp l ns)) with (Grp l (map (nmap f) ns)). rewrite offers_grp.
    setoid_rewrite offers_grp. induction IH as [|n ns Hn _ IH]; simpl; [naive_solver|].
    rewrite Hn, IH. naive_solver.
Qed.

Lemma offered_embed {A B} (f : A -> B) ns b :
  offered (embed f ns) b <-> exists a, b = f a /\ offered ns a.
Proof.
  unfold embed. induction ns as [|n ns IH]; simpl; [naive_solver|].
  rewrite offers_nmap, IH. naive_solver.
Qed.

(** [offers_cases] through embedded components too. *)
Ltac page_cases H :=
  repeat (offers_cases H;
    lazymatch type of H with
    | offered (embed _ _) _ =>
        let a := fresh "act" in let Ha := fresh "Hact" in
        apply offered_embed in H; destruct H as (a & H & Ha)
    | _ => idtac
    end).

(** * The confirmation dialog of a page *)

Section Dialog.
Context {E : Type -> Type} {S K : Type}.
Variable dialog : S -> Confirm.state K.
Variable set_dialog : (Confirm.state K -> Confirm.state K) -> S -> S.
(** [onConfirm], for the confirmations of the page; it catches what it throws. *)
Variable onConfirm : K -> prog E S.

Definition set_pending (i : option (Confirm.intent K)) : S -> S :=
  set_dialog (fun d => d <| Confirm.pending := i |>).
Definition set_running (b : bool) : S -> S :=
  set_dialog (fun d => d <| Confirm.running := b |>).

(** [useConfirmDialog] in the page: [Confirm.handle] with the awaited promise
    replaced by the program of the page. *)
Definition dialog_handle (a : Confirm.action K) (s : S) : prog E S :=
  match a with
  | Confirm.Request i => set! set_pending (Some i) ;; Done
  | Confirm.Close =>
      if Confirm.running (dialog s) then Done else set! set_pending None ;; Done
  | Confirm.Cancel => set! set_pending None ;; Done
  | Confirm.Accept =>
      match Confirm.pending (dialog s) with
      | None => Done
      | Some i =>
          set! set_running true ;;
          seq (onConfirm (Confirm.payload i))
            (set! set_pending None ;; set! set_running false ;; Done)
      end
  end.
End Dialog.

(** The dialog itself requests nothing. *)
Lemma confirmDialog_offers {K} (d : Confirm.state K) a :
  offered (Confirm.confirmDialog d) a ->
  match a with Confirm.Request _ => False | Confirm.Close => True | _ => Confirm.running d = false end.
Proof. unfold Confirm.confirmDialog. intros Ha. offers_cases Ha; by subst. Qed.

Lemma dialog_safe {E S K} (http : forall X, E X -> list request) (I : S -> Prop) (Q : obs -> Prop)
    (dialog : S -> Confirm.state K) set_dialog (onConfirm : K -> prog E S) a s :
  match a with Confirm.Request _ => False | _ => True end ->
  (forall s, I s -> I (set_pending set_dialog None s)) ->
  (forall b s, I s -> I (set_running set_dialog b s)) ->
  (forall i, Confirm.pending (dialog s) = Some i -> Ui.safe http I Q (onConfirm (Confirm.payload i))) ->
  Ui.safe http I Q (dialog_handle dialog set_dialog onConfirm a s).
Proof.
  intros Ha Hp Hr Hc. destruct a; simpl; [done|destruct (Confirm.running _)|..].
  - apply Ui.safe_done.
  - apply Ui.safe_set; [auto|apply Ui.safe_done].
  - apply Ui.safe_set; [auto|apply Ui.safe_done].
  - destruct (Confirm.pending (dialog s)) as [i|]; [|apply Ui.safe_done].
    apply Ui.safe_set; [auto|]. apply Ui.seq_safe; [auto|].
    do 2 (apply Ui.safe_set; [auto|]). apply Ui.safe_done.
Qed.

(** The guards of a control, read off its [disabled] flag. *)
Ltac guards :=
  repeat match goal with
  | H : (_ || _)%bool = false |- _ => apply orb_false_iff in H; destruct H
  | H : (_ && _)%bool = true |- _ => apply andb_prop in H; destruct H
  | H : negb _ = false |- _ => apply negb_false_iff in H
  | H : negb _ = true |- _ => apply negb_true_iff in H
  end.

(** * Lists *)

Record ApiList (T : Type) := MkList { data : list T; meta : option Pagination.PaginationMeta }.
Arguments MkList {T} data meta.
Arguments data {T} a.
Arguments meta {T} a.

(** [{ page, per_page: perPage }] among the parameters of a list. *)
Definition page_params (s : Pagination.state) : list (string * option string) :=
  [ ("page", Some (pretty (Pagination.page s))); ("per_page", Some (pretty (Pagination.perPage s))) ].

(** [catch((err) => toast.error(title, err instanceof Error ? err.message : fallback))] *)
Definition toast_error (title fallback : string) (x : thrown) : obs :=
  failure_msg title (getErrorMessage x fallback).

(** [err.message] of a value typed [any]. *)
Definition message_of (x : thrown) : option string :=
  match x with
  | ApiError st c d => Some (ApiError_message st c d)
  | OtherError m => Some m
  | NotAnError => None
  end.

(** A name shown with its underscores as spaces. *)
Definition spaced (s : string) : string := replace_all_char (ascii_of_nat 95) (ascii_of_nat 32) s.

(** * Permissions of requests *)

(** A request the API lets user [u] make, and understands: it has a route, whose
    handler decodes its body and whose permission [u] holds, or, to read, is one
    of [given], those that opening the page takes. *)
Definition careful (given : list string) (u : Principal) (o : obs) : Prop :=
  match o with
  | OReq r =>
      exists perm, understood perm r
        /\ (HasPermission u perm = true \/ req_method r = "GET" /\ perm ∈ given)
  | _ => True
  end.

Lemma careful_read given u perm r :
  understood perm r -> perm ∈ given -> req_method r = "GET" -> careful given u (OReq r).
Proof. intros Hs Hg Hm. exists perm. auto. Qed.

(** A control shown under [can(perm)]. *)
Lemma careful_can given u perm r :
  understood perm r -> hasPermission (Some u) perm = true -> perm <> "audit_logs.view" ->
  careful given u (OReq r).
Proof. intros Hs Hc Hne. exists perm. rewrite can_HasPermission in Hc; auto. Qed.

Lemma careful_more given given' u o : (forall p, p ∈ given -> p ∈ given') -> careful given u o -> careful given' u o.
Proof. destruct o; try done. intros Hg (perm & Hs & H). exists perm. split; [done|]. destruct H as [H|[Hm H]]; auto. Qed.

Lemma platform_can u p : is_platform_admin u = true -> hasPermission (Some u) p = true.
Proof. intros H. unfold hasPermission. by rewrite H. Qed.

(** A route of the table serves a request on its filled path. *)
Lemma served_path rt args r :
  rt ∈ routes -> r_method rt = req_method r -> req_path r = api_path (fill (r_pattern rt) args) ->
  body_fits rt (req_body r) = true -> understood (r_permission rt) r.
Proof. intros H1 H2 H3 H4. exists rt, args, "". auto 10. Qed.

Lemma split_no_question base : has_char question base = false ->
  split question base = [base].
Proof. apply split_no_sep. Qed.

(** A page of a list is served like the list. *)
Lemma served_listPage rt args ps :
  rt ∈ routes -> r_method rt = "GET" -> body_fits rt None = true ->
  has_char question (api_path (fill (r_pattern rt) args)) = false ->
  understood (r_permission rt) (listPage (api_path (fill (r_pattern rt) args)) ps).
Proof.
  intros H1 H2 Hb Hq. unfold listPage, listPage_path. rewrite split_no_sep by done. simpl.
  destruct (truthy _); eexists rt, args, _; (do 3 (split; [done|])); (split; [|done]).
  - right. simpl. done.
  - left. simpl. apply app_str_nil.
  Unshelve. exact "".
Qed.

(** A route of the table, by evaluation. *)
Ltac in_table := apply list_elem_of_In; vm_compute; tauto.

(** The body of a request is of the type its handler decodes: by evaluation, the
    optional members present or not. *)
Ltac body_reads :=
  first [ reflexivity | vm_compute; reflexivity
        | solve [ repeat (match goal with |- context [if ?b then _ else _] => destruct b end); vm_compute; reflexivity ] ].

(** A request on a route: [served_by "METHOD" pattern perm args]. *)
Ltac served_by m pat perm args :=
  lazymatch goal with
  | |- understood _ (listPage _ _) =>
      apply (served_listPage (Route m pat perm) args); [in_table|reflexivity..]
  | |- understood _ _ =>
      apply (served_path (Route m pat perm) args); [in_table|reflexivity|reflexivity|body_reads]
  end.

(** One request: a read with [given], or one under a permission in the context. *)
Ltac reads m pat perm args :=
  apply (careful_read _ _ perm); [served_by m pat perm args|in_table|reflexivity].
Ltac writes m pat perm args :=
  apply (careful_can _ _ perm); [served_by m pat perm args|try done|discriminate].

(** With a proof that the handler decodes the body. *)
Ltac writes_body m pat perm args H :=
  apply (careful_can _ _ perm);
    [apply (served_path (Route m pat perm) args); [in_table|reflexivity|reflexivity|exact H]
    |try done|discriminate].

(** A state update keeps an invariant: by conversion, or by the propositions the
    invariant unfolds to. *)
Ltac keeps :=
  let s := fresh "s" in let Hs := fresh "Hs" in
  intros s Hs;
  first [ exact Hs | done | solve [hnf in Hs |- *; simpl in *; intuition (congruence || discriminate)] ].

(** The state updates a program starts with, and what follows them. *)
Ltac updates p :=
  lazymatch p with
  | SetS ?f ?k => let fs := updates k in constr:(f :: fs)
  | @SetS ?E ?S ?f ?k => let fs := updates k in constr:(f :: fs)
  | @Done ?E ?S => constr:(@nil (S -> S))
  | _ => let T := type of p in lazymatch T with prog ?E ?S => constr:(@nil (S -> S)) end
  end.
Ltac after p := lazymatch p with SetS _ ?k => after k | _ => p end.

(** The updates as one: the invariant need not hold between them. *)
Ltac safe_updates :=
  lazymatch goal with
  | |- Ui.safe ?h ?I ?Q ?p =>
      let fs := updates p in let k := after p in
      change (Ui.safe h I Q (fold_right SetS k fs)); apply Ui.safe_block; [cbn [fold_left]|]
  end.

(** Walks through a program: the goals left are the requests of its calls and the
    updates that do not keep the invariant by themselves. *)
Ltac safe_step :=
  match goal with
  | |- Ui.safe _ _ _ Done => apply Ui.safe_done
  | |- Ui.safe _ _ _ (SetS _ _) =>
      first [ safe_updates; [keeps|] | safe_updates; [intros ?s ?Hs|] ]
  | |- Ui.safe _ _ _ (Emit _ _) => apply Ui.safe_emit; [first [exact Logic.I|exact (or_introl Logic.I)]|]
  | |- Ui.safe _ _ _ (Call _ _) => apply Ui.safe_call; [|intros []]
  | |- Ui.safe _ _ _ (seq _ _) => apply Ui.seq_safe
  | |- Ui.safe _ _ _ (if ?b then _ else _) => destruct b eqn:?
  | |- Ui.safe _ _ _ (match ?x with _ => _ end) => destruct x eqn:?
  end.
Ltac safe_walk := repeat safe_step.

(** * Lists with filters *)

Section Listing.
Context {E : Type -> Type} {S : Type}.
Variable http : forall X, E X -> list request.

(** [setLoading(true); p.then(...).catch((err) => toast.error(title, ...)).finally(() => setLoading(false))] *)
Definition list_load {X} (set_loading : bool -> S -> S) (shown : X -> S -> S) (title : string)
    (e : E X) : prog E S :=
  set! set_loading true ;;
  await! r <- e ;;
  match r with
  | Ok res => set! shown res ;; set! set_loading false ;; Done
  | Threw x => emit! toast_error title "Load failed" x ;; set! set_loading false ;; Done
  end.

(** [p.then(...).catch(() => undefined)] *)
Definition quiet_load {X} (shown : X -> S -> S) (e : E X) : prog E S :=
  await! r <- e ;; match r with Ok x => set! shown x ;; Done | Threw _ => Done end.

(** The effects of a page with filters and [usePagination]: after the first render
    and when a filter changed, the page number is reset; then, also when the page
    changed, the list is loaded, with the page of the render that has changed. *)
Definition list_effects (filters paging : bool) (reset : S -> S) (load : prog E S) : list (prog E S) :=
  (if filters then [ set! reset ;; Done ] else []) ++ (if filters || paging then [ load ] else []).

Variable I : S -> Prop.
Variable Q : obs -> Prop.
Notation safe := (Ui.safe http I Q).
Hypothesis toasts : forall k t m, Q (OToast k t m).

Lemma list_load_safe {X} set_loading shown title (e : E X) :
  Forall (fun r => Q (OReq r)) (http X e) ->
  (forall b s, I s -> I (set_loading b s)) -> (forall x s, I s -> I (shown x s)) ->
  safe (list_load set_loading shown title e).
Proof.
  intros He Hl Hs. unfold list_load. apply Ui.safe_set; [auto|]. apply Ui.safe_call; [done|].
  intros [x|x].
  - apply Ui.safe_set; [auto|]. apply Ui.safe_set; [auto|]. apply Ui.safe_done.
  - apply Ui.safe_emit; [apply toasts|]. apply Ui.safe_set; [auto|]. apply Ui.safe_done.
Qed.

Lemma quiet_load_safe {X} shown (e : E X) :
  Forall (fun r => Q (OReq r)) (http X e) -> (forall x s, I s -> I (shown x s)) ->
  safe (quiet_load shown e).
Proof.
  intros He Hs. apply Ui.safe_call; [done|]. intros []; [|apply Ui.safe_done].
  apply Ui.safe_set; [auto|apply Ui.safe_done].
Qed.

Lemma list_effects_safe f p reset load :
  (forall s, I s -> I (reset s)) -> safe load -> Forall safe (list_effects f p reset load).
Proof.
  intros Hr Hl. unfold list_effects. apply Forall_app. split.
  - destruct f; [|constructor]. apply Forall_singleton, Ui.safe_set; [auto|apply Ui.safe_done].
  - destruct (f || p); [by apply Forall_singleton|constructor].
Qed.
End Listing.

(** The submit button of a form: the browser submits it only when each field
    marked [required] has a value. *)
Definition submit_button {A} (label : string) (disabled : bool) (required : list string)
    (on_submit : A) : node A :=
  Btn label (disabled || existsb (fun v => negb (truthy v)) required) on_submit.
