(* ===== verification/Handlers.v ===== *)
(** What the writes of the API change (internal/http/handlers): the checks of a
    handler and the row its statement leaves, for the rows the pages edit.

    [db] is the part of the database's answer the handler does not determine (a
    duplicate key, a lost connection); a column declared NOT NULL in migrations/
    refuses a null value whatever [db] is. *)
From S2P Require Import Prelude Js React Query Client Components Auth Api.

(** A member of a decoded body: absent and null leave the empty string. *)
Definition member (b : json) (k : string) : string :=
  match jfield b k with Some (JStr s) => s | _ => "" end.

Definition nullIfEmpty (value : string) : option string :=
  if decide (value = "") then None else Some value.

Lemma nullIfEmpty_Some v : v <> "" -> nullIfEmpty v = Some v.
Proof. unfold nullIfEmpty. by case_decide. Qed.

(** The tenant of a created row. *)
Definition tenant_for (p : Principal) (b : json) : string :=
  if is_platform_admin p then member b "tenant_id" else or_empty (tenant_id p).

(** [WHERE id = ... AND tenant_id = ...] *)
Definition touches (p : Principal) (tenant : string) : bool :=
  is_platform_admin p || bool_decide (tenant = or_empty (tenant_id p)).

(** [if req.X != "" { q += ", x = $n" }] *)
Definition kept (old new : string) : string := if decide (new = "") then old else new.
Definition kept_null (old : option string) (new : string) : option string :=
  if decide (new = "") then old else Some new.

(** [INSERT]: the row, unless a NOT NULL column is null or the database refuses. *)
Definition insert {R} (db : bool) (required : list (option string)) (row : R) : Z * option R :=
  if db && forallb (fun c => negb (bool_decide (c = None))) required then (201, Some row) else (500, None).

(** [UPDATE]: a status, and the row changed or not. *)
Definition update {R} (db found : bool) (row new : R) : Z * R :=
  if negb db then (500, row) else if negb found then (404, row) else (200, new).

Module TemplateRow.

Record row := Row {
  tenant : option string; template_key : option string; channel : option string;
  subject : option string; body : option string }.

Definition CreateTemplate (db : bool) (p : Principal) (b : json) : Z * option row :=
  if negb (decodes CreateTemplate_req b) then (400, None)
  else if decide (member b "template_key" = "") then (400, None)
  else
    let r := Row (nullIfEmpty (tenant_for p b)) (Some (member b "template_key"))
               (nullIfEmpty (member b "channel")) (nullIfEmpty (member b "subject"))
               (nullIfEmpty (member b "body")) in
    insert db [tenant r; channel r; body r] r.

Definition UpdateTemplate (db : bool) (p : Principal) (b : json) (r : row) : Z * row :=
  if negb (decodes UpdateTemplate_req b) then (400, r)
  else if decide (member b "template_key" = "" \/ member b "channel" = "" \/ member b "body" = "")
  then (400, r)
  else
    update db (touches p (or_empty (tenant r))) r
      (Row (tenant r) (Some (member b "template_key")) (Some (member b "channel"))
         (nullIfEmpty (member b "subject")) (Some (member b "body"))).

End TemplateRow.

Module ContactRow.

Record row := Row {
  tenant : option string; external_user_id : option string; name : option string;
  email : option string; phone : option string }.

Definition CreateContact (db : bool) (p : Principal) (b : json) : Z * option row :=
  if negb (decodes CreateContact_req b) then (400, None)
  else
    let r := Row (nullIfEmpty (tenant_for p b)) (nullIfEmpty (member b "external_user_id"))
               (nullIfEmpty (member b "name")) (nullIfEmpty (member b "email"))
               (nullIfEmpty (member b "phone")) in
    insert db [tenant r; name r] r.

Definition UpdateContact (db : bool) (p : Principal) (b : json) (r : row) : Z * row :=
  if negb (decodes UpdateContact_req b) then (400, r)
  else
    update db (touches p (or_empty (tenant r))) r
      (Row (tenant r) (external_user_id r) (kept_null (name r) (member b "name"))
         (kept_null (email r) (member b "email")) (kept_null (phone r) (member b "phone"))).

End ContactRow.

Module GroupRow.

Record row := Row { tenant : option string; name : string; description : option string }.

(** [description] is declared NOT NULL, with a default the statement overrides. *)
Definition CreateGroup (db : bool) (p : Principal) (b : json) : Z * option row :=
  if negb (decodes CreateGroup_req b) then (400, None)
  else if decide (member b "name" = "") then (400, None)
  else
    let r := Row (nullIfEmpty (tenant_for p b)) (member b "name") (nullIfEmpty (member b "description")) in
    insert db [tenant r; description r] r.

(** The contact a member is added for, and whether the statement inserts it: for a
    platform user, whatever the tenant of the contact. *)
Definition AddGroupMember (p : Principal) (group_tenant contact_tenant : string) : bool :=
  is_platform_admin p
  || bool_decide (group_tenant = or_empty (tenant_id p) /\ contact_tenant = or_empty (tenant_id p)).

End GroupRow.

Module CampaignRow.

Record row := Row {
  tenant : option string; name : string; description : option string; status : string }.

Definition CreateCampaign (db : bool) (p : Principal) (b : json) : Z * option row :=
  if negb (decodes CreateCampaign_req b) then (400, None)
  else if decide (member b "name" = "") then (400, None)
  else
    let r := Row (nullIfEmpty (tenant_for p b)) (member b "name") (nullIfEmpty (member b "description"))
               "draft" in
    insert db [tenant r] r.

(** [campaignStatusTransition]: the status it had is not looked at. *)
Definition campaignStatusTransition (db : bool) (p : Principal) (target : string) (r : row) : Z * row :=
  update db (touches p (or_empty (tenant r))) r (Row (tenant r) (name r) (description r) target).

(** [ApproveCampaign], [SendCampaign] and [CancelCampaign], by their path. *)
Definition target_status (action : string) : option string :=
  oget [("approve", "approved"); ("send", "sending"); ("cancel", "cancelled")] action.

End CampaignRow.

Module QueueRow.

Record row := Row {
  tenant : string; status : string; max_attempts : Z; retry_delay_seconds : Z; notes : string }.
#[global] Instance eta_row : Eta row := fun r =>
  Row (tenant r) (status r) (max_attempts r) (retry_delay_seconds r) (notes r).

(** A member decoded to a pointer: absent and null leave nil. *)
Definition pstring (b : json) (k : string) : option string :=
  match jfield b k with Some (JStr s) => Some s | _ => None end.
Definition pint (b : json) (k : string) : option Z :=
  match jfield b k with Some (JNum x) => atoi (num_text x) | _ => None end.

Definition statuses : list string := ["active"; "paused"; "stopped"].

(** The checks come in this order, before the one statement. *)
Definition UpdateQueueControl (db found : bool) (p : Principal) (b : json) (r : row) : Z * row :=
  if negb (decodes UpdateQueueControl_req b) then (400, r)
  else if negb found then (404, r)
  else if negb (touches p (tenant r)) then (403, r)
  else if match pstring b "status" with Some s => negb (includes statuses s) | None => false end then (400, r)
  else if match pint b "max_attempts" with Some n => (n <? 1) || (20 <? n) | None => false end then (400, r)
  else if match pint b "retry_delay_seconds" with Some n => (n <? 0) || (86400 <? n) | None => false end
  then (400, r)
  else
    update db true r
      (Row (tenant r) (default (status r) (pstring b "status"))
         (default (max_attempts r) (pint b "max_attempts"))
         (default (retry_delay_seconds r) (pint b "retry_delay_seconds"))
         (default (notes r) (pstring b "notes"))).

(** The constraints the table declares. *)
Definition wf (r : row) : Prop :=
  status r ∈ statuses /\ 1 <= max_attempts r <= 20 /\ 0 <= retry_delay_seconds r <= 86400.

(** Whatever the body of the request, the queue keeps a status of the three and
    numbers in range: the checks of the handler let nothing through that the
    constraints of the table would refuse. *)
Lemma UpdateQueueControl_wf db found p b r : wf r -> wf (UpdateQueueControl db found p b r).2.
Proof.
  intros (Hs & Hm & Hd). unfold UpdateQueueControl, update.
  destruct (negb (decodes _ _)); [done|]. destruct (negb found); [done|].
  destruct (negb (touches _ _)); [done|].
  destruct (match pstring b "status" with Some s => _ | None => false end) eqn:E1; [done|].
  destruct (match pint b "max_attempts" with Some n => _ | None => false end) eqn:E2; [done|].
  destruct (match pint b "retry_delay_seconds" with Some n => _ | None => false end) eqn:E3; [done|].
  destruct db; simpl; [|done]. split; [|split].
  - destruct (pstring b "status"); simpl; [|done]. by apply negb_false_iff, includes_true in E1.
  - destruct (pint b "max_attempts"); simpl; lia.
  - destruct (pint b "retry_delay_seconds"); simpl; lia.
Qed.

End QueueRow.

Module TenantConfig.

Definition settings : list string := ["timezone"; "country"; "default_sender"; "default_sms"; "branding_logo"].

(** The configuration of a tenant is an object; what the handler reads of it. *)
Definition GetTenantSettings (p : Principal) (tenant : string) (cfg : obj json) : Z * json :=
  if negb (is_platform_admin p) && negb (bool_decide (or_empty (tenant_id p) = tenant)) then (403, JNull)
  else (200, JObj (map (fun k => (k, default JNull (oget cfg k))) (settings ++ ["metadata"]))).

(** A setting that is sent replaces the one of the configuration; absent and null
    leave it. *)
Definition set_setting (b : json) (cfg : obj json) (k : string) : obj json :=
  match jfield b k with Some (JStr s) => oset cfg k (JStr s) | _ => cfg end.

(** Metadata that is no object is dropped without an error; null sets null. *)
Definition set_metadata (b : json) (cfg : obj json) : obj json :=
  match jfield b "metadata" with
  | Some (JObj m) => oset cfg "metadata" (JObj m)
  | Some JNull => oset cfg "metadata" JNull
  | _ => cfg
  end.

(** [read]: whether the query of the existing configuration succeeds; its error is
    not looked at. *)
Definition UpdateTenantSettings (read db : bool) (p : Principal) (tenant : string) (b : json)
    (cfg : obj json) : Z * obj json :=
  if negb (is_platform_admin p) && negb (bool_decide (or_empty (tenant_id p) = tenant)) then (403, cfg)
  else if negb (decodes UpdateTenantSettings_req b) then (400, cfg)
  else if decide (tenant = "") then (400, cfg)
  else
    let existing := if read then cfg else [] in
    if db then (200, set_metadata b (fold_left (set_setting b) settings existing)) else (500, cfg).

(** The settings are set one by one, each in its own member. *)
Lemma oget_set_setting b cfg k k' :
  oget (set_setting b cfg k) k'
  = match jfield b k with Some (JStr s) => if decide (k' = k) then Some (JStr s) else oget cfg k' | _ => oget cfg k' end.
Proof. unfold set_setting. destruct (jfield b k) as [[]|]; try done. by rewrite oget_oset. Qed.

Lemma oget_set_settings b ks cfg k : NoDup ks ->
  oget (fold_left (set_setting b) ks cfg) k
  = match jfield b k with
    | Some (JStr s) => if decide (k ∈ ks) then Some (JStr s) else oget cfg k
    | _ => oget cfg k
    end.
Proof.
  intros Hnd. revert cfg. induction Hnd as [|k0 ks Hk0 Hnd IH]; intros cfg; simpl.
  - by destruct (jfield b k) as [[]|].
  - rewrite IH, oget_set_setting.
    destruct (decide (k = k0)) as [->|Hne].
    + destruct (jfield b k0) as [[]|]; try done.
      rewrite (decide_False (P := k0 ∈ ks)), (decide_True (P := k0 ∈ k0 :: ks)) by (done || by left). done.
    + destruct (jfield b k) as [[]|], (jfield b k0) as [[]|]; try done;
        (destruct (decide (k ∈ ks));
          [rewrite (decide_True (P := k ∈ k0 :: ks)) by (by right)
          |rewrite (decide_False (P := k ∈ k0 :: ks)) by (rewrite not_elem_of_cons; tauto)]); done.
Qed.

Lemma oget_set_metadata b cfg k :
  oget (set_metadata b cfg) k
  = if decide (k = "metadata") then
      match jfield b "metadata" with
      | Some (JObj m) => Some (JObj m) | Some JNull => Some JNull | _ => oget cfg k
      end
    else oget cfg k.
Proof.
  unfold set_metadata. destruct (jfield b "metadata") as [[]|]; rewrite ?oget_oset; by case_decide.
Qed.

End TenantConfig.
