(* ===== verification/Accounts.v ===== *)
(** The accounts of the API: the rows of users, memberships, sessions, roles, API keys
    and permissions (migrations/), and the query of a user's permissions
    (internal/auth/auth.go). *)
From stdpp Require Import sorting gmap.
From S2P Require Import Prelude Js React Query Client Components Auth Api Handlers.

(** * Rows *)

Record user := MkUser {
  u_email : string; u_name : string; password_hash : string; u_platform : bool; u_status : string;
  failed_login_count : Z; locked_until : option Z }.
#[export] Instance eta_user : Eta user := fun u =>
  MkUser (u_email u) (u_name u) (password_hash u) (u_platform u) (u_status u) (failed_login_count u)
    (locked_until u).

Record session := MkSession {
  s_user : string; s_tenant : string; s_status : string; s_expires : Z; s_trace : string }.
#[export] Instance eta_session : Eta session := fun s =>
  MkSession (s_user s) (s_tenant s) (s_status s) (s_expires s) (s_trace s).

Record role := MkRole {
  r_tenant : option string; r_name : string; r_key : string; r_scope : string; r_status : string }.
#[export] Instance eta_role : Eta role := fun r =>
  MkRole (r_tenant r) (r_name r) (r_key r) (r_scope r) (r_status r).

(** [k_revoked]: [revoked_at IS NOT NULL]. *)
Record api_key := MkApiKey {
  k_tenant : string; k_name : string; k_hash : string; k_scopes : list string;
  k_created_by : option string; k_expires : option Z; k_status : string; k_revoked : bool }.
#[export] Instance eta_api_key : Eta api_key := fun k =>
  MkApiKey (k_tenant k) (k_name k) (k_hash k) (k_scopes k) (k_created_by k) (k_expires k) (k_status k)
    (k_revoked k).

(** A grant: to whom, of which role or permission, and the tenant it is limited to. *)
Record grant := Grant { g_user : string; g_what : string; g_tenant : option string }.
#[export] Instance grant_eq : EqDecision grant.
Proof. solve_decision. Defined.

(** Rows by their identifier; [permissions] gives their keys, [role_permissions] pairs
    a role with a permission, [allowed] and [denied] are [user_permissions] by their
    effect.  [tenant_users] are in the order of their creation; the sessions are by
    the hash of their refresh token, which is unique. *)
Record tables := Tables {
  tenants : gset string;
  users : gmap string user;
  tenant_users : list (string * string * string);
  sessions : gmap string session;
  roles : gmap string role;
  permission_rows : gmap string string;
  role_permissions : list (string * string);
  user_roles : list grant;
  allowed : list grant;
  denied : list grant;
  api_keys : gmap string api_key }.
#[export] Instance eta_tables : Eta tables := fun d =>
  Tables (tenants d) (users d) (tenant_users d) (sessions d) (roles d) (permission_rows d)
    (role_permissions d) (user_roles d) (allowed d) (denied d) (api_keys d).

(** [SELECT ... WHERE f LIMIT 1] *)
Definition row_where {V} (f : V -> bool) (rows : gmap string V) : option (string * V) :=
  find (fun iv => f iv.2) (map_to_list rows).

Lemma row_where_Some {V} (f : V -> bool) rows i v :
  row_where f rows = Some (i, v) -> rows !! i = Some v /\ f v = true.
Proof. intros [Hf Hin]%find_Some. by apply elem_of_map_to_list in Hin. Qed.

Lemma row_where_None {V} (f : V -> bool) rows :
  row_where f rows = None <-> forall i v, rows !! i = Some v -> f v = false.
Proof.
  unfold row_where. rewrite find_None. split.
  - intros H i v Hi. by apply (H (i, v)), elem_of_map_to_list.
  - intros H [i v] Hin. by apply elem_of_map_to_list, H in Hin.
Qed.

(** A condition on a unique column finds its row. *)
Lemma row_where_unique {V} (f : V -> bool) rows i v :
  (forall i j v w, rows !! i = Some v -> rows !! j = Some w -> f v = true -> f w = true -> i = j) ->
  rows !! i = Some v -> f v = true -> row_where f rows = Some (i, v).
Proof.
  intros Hu Hi Hf. destruct (row_where f rows) as [[j w]|] eqn:E.
  - apply row_where_Some in E as [Hj Hw]. assert (j = i) as -> by by eapply Hu. congruence.
  - rewrite (proj1 (row_where_None f rows) E i v Hi) in Hf. done.
Qed.

(** * Permissions *)

(** [tenant_id IS NULL OR tenant_id::text = $2] *)
Definition holds_in (userID tenantID : string) (g : grant) : bool :=
  bool_decide (g_user g = userID /\ (g_tenant g = None \/ g_tenant g = Some tenantID)).

(** The keys of the query: by a role, or allowed, and not denied.  The status of a role
    is not looked at. *)
Definition keys (d : tables) (ids : list string) : list string := omap (fun i => permission_rows d !! i) ids.
Definition held (userID tenantID : string) (gs : list grant) : list string :=
  map g_what (filter_by (holds_in userID tenantID) gs).
Definition permission_keys (d : tables) (userID tenantID : string) : list string :=
  let by_role :=
    map snd (filter_by (fun rp => includes (held userID tenantID (user_roles d)) rp.1) (role_permissions d)) in
  let given := keys d (by_role ++ held userID tenantID (allowed d)) in
  let taken := keys d (held userID tenantID (denied d)) in
  filter_by (fun k => negb (includes taken k)) given.

(** Each once, in order. *)
Definition EffectivePermissions (d : tables) (userID tenantID : string) : list string :=
  merge_sort String.le (unique (permission_keys d userID tenantID)).

Lemma elem_of_held userID tenantID gs x :
  x ∈ held userID tenantID gs <-> exists g, g ∈ gs /\ g_what g = x /\ holds_in userID tenantID g = true.
Proof. unfold held. rewrite list_elem_of_fmap. setoid_rewrite elem_of_filter_by. naive_solver. Qed.

Lemma elem_of_keys d ids k : k ∈ keys d ids <-> exists i, i ∈ ids /\ permission_rows d !! i = Some k.
Proof. unfold keys. by rewrite list_elem_of_omap. Qed.

Lemma EffectivePermissions_spec d userID tenantID k :
  k ∈ EffectivePermissions d userID tenantID <->
    (exists i, permission_rows d !! i = Some k
      /\ ((exists r, (r, i) ∈ role_permissions d /\ r ∈ held userID tenantID (user_roles d))
          \/ i ∈ held userID tenantID (allowed d)))
    /\ ~ exists i, permission_rows d !! i = Some k /\ i ∈ held userID tenantID (denied d).
Proof.
  unfold EffectivePermissions. rewrite merge_sort_Permutation, elem_of_unique. unfold permission_keys.
  rewrite elem_of_filter_by, negb_true_iff, <- not_true_iff_false, includes_true, !elem_of_keys.
  assert (Hr : forall i, i ∈ map snd (filter_by (fun rp => includes (held userID tenantID (user_roles d)) rp.1)
      (role_permissions d)) <-> exists r, (r, i) ∈ role_permissions d /\ r ∈ held userID tenantID (user_roles d)).
  { intros i. rewrite list_elem_of_fmap. setoid_rewrite elem_of_filter_by. setoid_rewrite includes_true. split.
    - intros ([r j] & -> & H & Hin). by exists r.
    - intros (r & Hin & H). by exists (r, i). }
  setoid_rewrite elem_of_app. setoid_rewrite Hr. naive_solver.
Qed.

(** The permissions depend on what the user holds alone. *)
Lemma EffectivePermissions_ext d d' userID tenantID :
  permission_rows d' = permission_rows d -> allowed d' = allowed d -> denied d' = denied d ->
  held userID tenantID (user_roles d') = held userID tenantID (user_roles d) ->
  filter_by (fun rp => includes (held userID tenantID (user_roles d)) rp.1) (role_permissions d')
  = filter_by (fun rp => includes (held userID tenantID (user_roles d)) rp.1) (role_permissions d) ->
  EffectivePermissions d' userID tenantID = EffectivePermissions d userID tenantID.
Proof.
  intros Hp Ha Hd Hu Hr. unfold EffectivePermissions, permission_keys, keys. by rewrite Hp, Ha, Hd, Hu, Hr.
Qed.

(** * A sample *)

Definition ada : user := MkUser "ada@x.org" "Ada" "pw" false "active" 0 None.
Definition operator : role := MkRole (Some "t1") "Operator" "operator" "tenant" "active".
Definition sample_tables : tables :=
  Tables {["t1"]} {["u1" := ada]} [("u1", "t1", "active")] ∅ {["r1" := operator]} {["p1" := "users.view"]}
    [("r1", "p1")] [Grant "u1" "r1" (Some "t1")] [] [] ∅.
