(* ===== verification/Sessions.v ===== *)
(** Sessions of the API (notification-core-api: internal/auth/auth.go with the checks
    of internal/http/middleware): login and its lockout, the rotation of refresh
    tokens, signed access tokens, and the permissions they carry.

    Times are nanoseconds.  The comparison of passwords, the hash of tokens and the
    signature of access tokens are code of libraries: parameters here. *)
From stdpp Require Import sorting gmap.
From S2P Require Import Prelude Js React Query Client Components Auth Api Handlers Accounts.

(** * The service *)

Section Service.
(** [bcrypt.CompareHashAndPassword] succeeds; [security.HashSecret]. *)
Variable matches : string -> string -> bool.
Variable HashSecret : string -> string.
(** The configuration. *)
Variable accessTokenTTL refreshTokenTTL loginLockout loginMaxFailures : Z.

(** What is signed into an access token; the times are seconds. *)
Record claims := Claims { c_principal : Principal; c_session : string; c_exp : Z; c_iat : Z }.

Definition second : Z := 10 ^ 9.
Definition sign_claims (now : Z) (p : Principal) (sessionID : string) : claims :=
  Claims p sessionID ((now + accessTokenTTL) / second) (now / second).

(** What the surroundings answer during a call: whether its statements succeed, and
    the random tokens. *)
Record answers := Answers { db : nat -> bool; new_session : string; new_refresh : string }.

(** [createSession]: the hash of a token is unique in the table. *)
Definition createSession (a : answers) (n : nat) (now : Z) (userID tenantID sessionID : string)
    (d : tables) : option tables :=
  let trace := sessionID ||| new_session a in
  let h := HashSecret (new_refresh a) in
  if db a n && bool_decide (sessions d !! h = None)
  then Some (d <| sessions := <[h := MkSession userID tenantID "active" (now + refreshTokenTTL) trace]> (sessions d) |>)
  else None.

(** The row of an email; emails are unique. *)
Definition user_by_email (d : tables) (email : string) : option (string * user) :=
  row_where (fun u => bool_decide (u_email u = email /\ u_status u = "active")) (users d).
Definition first_tenant (d : tables) (userID : string) : string :=
  or_empty ((fun m => m.1.2) <$>
    find (fun m => bool_decide (m.1.1 = userID /\ m.2 = "active")) (tenant_users d)).

Definition locked (now : Z) (u : user) : bool :=
  match locked_until u with Some t => now <? t | None => false end.

Definition recordFailedPassword (now : Z) (u : user) : user :=
  let n := failed_login_count u + 1 in
  u <| failed_login_count := n |>
    <| locked_until := if loginMaxFailures <=? n then Some (now + loginLockout) else locked_until u |>.

(** The tokens of a pair: the claims of the access token, and the refresh token. *)
Definition pair : Type := (claims * string)%type.

(** [Login] in its parts, between which other calls come: the query, whose failure is
    answered like no row; the lock and the comparison of what the query gave; the
    statement that counts a failure on the row as it is by then; and the session of a
    right password. *)
Definition login_select (a : answers) (email : string) (d : tables) : option (string * user * string) :=
  if db a 4 then '(id, u) ← user_by_email d email; Some (id, u, first_tenant d id) else None.

Inductive checked :=
| Refused (e : string)
| WrongPassword (id : string)
| RightPassword (id : string) (u : user) (tenantID : string).

Definition login_compare (now : Z) (password : string) (row : option (string * user * string)) : checked :=
  match row with
  | None => Refused "invalid credentials"
  | Some (id, u, tenantID) =>
      if locked now u then Refused "account temporarily locked"
      else if negb (matches (password_hash u) password) then WrongPassword id
      else RightPassword id u tenantID
  end.

Definition count_failure (a : answers) (now : Z) (id : string) (d : tables) : tables :=
  if db a 0 then d <| users := alter (recordFailedPassword now) id (users d) |> else d.
Definition forget_failures (id : string) (d : tables) : tables :=
  d <| users := alter (fun u => u <| failed_login_count := 0 |> <| locked_until := None |>) id (users d) |>.

Definition login_finish (a : answers) (now : Z) (id : string) (u : user) (tenantID : string) (d : tables)
    : (string + pair) * tables :=
  if negb (db a 1) then (inl "permissions", d)
  else
    let p := MkPrincipal id (nullIfEmpty tenantID) (u_email u) (u_platform u) (EffectivePermissions d id tenantID) in
    match createSession a 2 now id tenantID (new_session a) d with
    | None => (inl "session", d)
    | Some d =>
        (inr (sign_claims now p (new_session a), new_refresh a), if db a 3 then forget_failures id d else d)
    end.

(** A login that nothing interrupts: an error or a pair, whether a password was
    compared, and the tables. *)
Definition Login (a : answers) (now : Z) (email password : string) (d : tables)
    : (string + pair) * bool * tables :=
  match login_compare now password (login_select a email d) with
  | Refused e => (inl e, false, d)
  | WrongPassword id => (inl "invalid credentials", true, count_failure a now id d)
  | RightPassword id u tenantID => let '(r, d) := login_finish a now id u tenantID d in (r, true, d)
  end.

(** [Refresh] in its three parts, between which other calls come: the query of an
    active session of an active user, the rotation, and the new session. *)
Definition refresh_select (now : Z) (token : string) (d : tables) : option (string * session * user) :=
  let h := HashSecret token in
  s ← sessions d !! h; u ← users d !! s_user s;
  if bool_decide (s_status s = "active" /\ s_expires s > now /\ u_status u = "active") then Some (h, s, u) else None.
Definition set_status (h st : string) (d : tables) : tables :=
  d <| sessions := alter (fun s => s <| s_status := st |>) h (sessions d) |>.
Definition refresh_principal (s : session) (u : user) (d : tables) : Principal :=
  MkPrincipal (s_user s) (nullIfEmpty (s_tenant s)) (u_email u) (u_platform u)
    (EffectivePermissions d (s_user s) (s_tenant s)).
Definition refresh_finish (a : answers) (now : Z) (p : Principal) (h : string) (s : session) (d : tables)
    : (string + pair) * tables :=
  let d := set_status h "rotated" d in
  match createSession a 2 now (s_user s) (s_tenant s) (s_trace s) d with
  | None => (inl "session", d)
  | Some d => (inr (sign_claims now p (s_trace s), new_refresh a), d)
  end.

Definition Refresh (a : answers) (now : Z) (token : string) (d : tables) : (string + pair) * tables :=
  match (if db a 4 then refresh_select now token d else None) with
  | None => (inl "invalid refresh token", d)
  | Some (h, s, u) =>
      if negb (db a 0) then (inl "permissions", d)
      else if negb (db a 1) then (inl "rotation", d)
      else refresh_finish a now (refresh_principal s u d) h s d
  end.

Definition RevokeRefreshToken (a : answers) (token : string) (d : tables) : tables :=
  if db a 0 then set_status (HashSecret token) "revoked" d else d.

(** * Sessions *)

Definition spent (h : string) (d : tables) : Prop :=
  exists s, sessions d !! h = Some s /\ s_status s <> "active".

Lemma set_status_spent h st d h' : st <> "active" -> spent h d -> spent h (set_status h' st d).
Proof.
  intros Hst (s & Hs & Ha). unfold spent, set_status. simpl. destruct (decide (h = h')) as [->|Hne].
  - rewrite lookup_alter_eq, Hs. by eexists.
  - rewrite lookup_alter_ne by done. eauto.
Qed.

Lemma set_status_spends h st d : st <> "active" -> is_Some (sessions d !! h) -> spent h (set_status h st d).
Proof. intros Hst [s Hs]. unfold spent, set_status. simpl. rewrite lookup_alter_eq, Hs. by eexists. Qed.

Lemma createSession_spec a n now userID tenantID sessionID d d' :
  createSession a n now userID tenantID sessionID d = Some d' ->
  sessions d !! HashSecret (new_refresh a) = None
  /\ d' = d <| sessions := <[HashSecret (new_refresh a) :=
        MkSession userID tenantID "active" (now + refreshTokenTTL) (sessionID ||| new_session a)]> (sessions d) |>.
Proof.
  unfold createSession. destruct (db a n); [|done]. simpl. case_bool_decide; [|done]. by intros [= <-].
Qed.

Lemma createSession_spent a n now userID tenantID sessionID d d' h :
  createSession a n now userID tenantID sessionID d = Some d' -> spent h d -> spent h d'.
Proof.
  intros H (s & Hs & Ha). apply createSession_spec in H as [Hn ->]. exists s. simpl.
  rewrite lookup_insert_ne; [done|]. intros <-. congruence.
Qed.

(** A login that nothing interrupts, in one piece. *)
Lemma Login_whole a now email password d :
  Login a now email password d =
  match (if db a 4 then user_by_email d email else None) with
  | None => (inl "invalid credentials", false, d)
  | Some (id, u) =>
      if locked now u then (inl "account temporarily locked", false, d)
      else if negb (matches (password_hash u) password) then
        (inl "invalid credentials", true,
         if db a 0 then d <| users := <[id := recordFailedPassword now u]> (users d) |> else d)
      else
        let tenantID := first_tenant d id in
        if negb (db a 1) then (inl "permissions", true, d)
        else
          let p := MkPrincipal id (nullIfEmpty tenantID) (u_email u) (u_platform u)
                     (EffectivePermissions d id tenantID) in
          match createSession a 2 now id tenantID (new_session a) d with
          | None => (inl "session", true, d)
          | Some d =>
              (inr (sign_claims now p (new_session a), new_refresh a), true,
               if db a 3
               then d <| users := <[id := u <| failed_login_count := 0 |> <| locked_until := None |>]> (users d) |>
               else d)
          end
  end.
Proof.
  unfold Login, login_select. destruct (db a 4); [|done]. destruct (user_by_email d email) as [[id u]|] eqn:E; [|done].
  apply row_where_Some in E as [Hu _]. simpl. destruct (locked now u); [done|].
  assert (Hins : forall f d', users d' !! id = Some u -> alter f id (users d') = <[id := f u]> (users d')).
  { intros f d' Hd. apply map_eq. intros j. destruct (decide (id = j)) as [<-|Hne].
    - by rewrite lookup_alter_eq, lookup_insert_eq, Hd.
    - by rewrite lookup_alter_ne, lookup_insert_ne. }
  destruct (negb (matches _ _)); [unfold count_failure; by rewrite Hins|].
  unfold login_finish. destruct (negb (db a 1)); [done|].
  destruct (createSession _ _ _ _ _ _ _) as [d'|] eqn:Hc; [|done]. apply createSession_spec in Hc as [_ ->].
  unfold forget_failures. by rewrite Hins.
Qed.

(** The statements of the calls of a service that touch sessions, each on its own, so
    that other calls come in between: the new session of a login or of a refresh, of
    whatever was read before; the rotation of a refresh; a logout.  [OChange] is any
    change of the other tables. *)
Inductive op :=
| OCreate (a : answers) (n : nat) (now : Z) (userID tenantID sessionID : string)
| ORotate (h : string)
| ORevoke (a : answers) (token : string)
| OChange (d : tables).

Definition run (o : op) (d : tables) : tables :=
  match o with
  | OCreate a n now userID tenantID sessionID => default d (createSession a n now userID tenantID sessionID d)
  | ORotate h => set_status h "rotated" d
  | ORevoke a token => RevokeRefreshToken a token d
  | OChange d' => d' <| sessions := sessions d |>
  end.
Definition run_all (os : list op) (d : tables) : tables := fold_left (fun d o => run o d) os d.

(** Whole calls are such statements. *)
Lemma calls_are_statements a now email password p h s d :
  (exists os, (Login a now email password d).2 = run_all os d)
  /\ exists os, (refresh_finish a now p h s d).2 = run_all os d.
Proof.
  assert (Hsame : forall d' : tables, sessions d' = sessions d -> exists os, d' = run_all os d).
  { intros d' Hd. exists [OChange d']. simpl. rewrite <- Hd. by destruct d'. }
  split.
  - unfold Login. destruct (login_compare _ _ _) as [e|id|id u tn]; simpl.
    + by apply Hsame.
    + apply Hsame. unfold count_failure. by destruct (db a 0).
    + unfold login_finish. destruct (negb (db a 1)); [by apply Hsame|].
      destruct (createSession _ _ _ _ _ _ _) as [d1|] eqn:Hc; [|by apply Hsame]. simpl.
      exists [OCreate a 2 now id tn (new_session a); OChange (if db a 3 then forget_failures id d1 else d1)].
      cbn [run_all fold_left run]. rewrite Hc. simpl. destruct (db a 3); by destruct d1.
  - unfold refresh_finish. destruct (createSession _ _ _ _ _ _ _) as [d1|] eqn:Hc; simpl.
    + exists [ORotate h; OCreate a 2 now (s_user s) (s_tenant s) (s_trace s)]. cbn [run_all fold_left run]. by rewrite Hc.
    + by exists [ORotate h].
Qed.

Lemma run_spent o d h : spent h d -> spent h (run o d).
Proof.
  intros H. destruct o as [a n now userID tenantID sessionID|h'|a token|d']; simpl.
  - destruct (createSession _ _ _ _ _ _ _) as [d1|] eqn:Hc; [|done]. by eapply createSession_spent.
  - by apply set_status_spent.
  - unfold RevokeRefreshToken. destruct (db a 0); [|done]. by apply set_status_spent.
  - done.
Qed.

Lemma run_all_spent os d h : spent h d -> spent h (run_all os d).
Proof.
  revert d. induction os as [|o os IH]; intros d H; [done|]. simpl. by apply IH, run_spent.
Qed.

Lemma spent_refused now token d : spent (HashSecret token) d -> refresh_select now token d = None.
Proof.
  intros (s & Hs & Ha). unfold refresh_select. rewrite Hs. simpl. destruct (users d !! s_user s); [|done]. simpl.
  case_bool_decide as Hb; [|done]. by destruct Hb.
Qed.

(** * The chain of refreshes *)

Lemma Refresh_succeeds a now token d s u :
  sessions d !! HashSecret token = Some s -> users d !! s_user s = Some u ->
  s_status s = "active" -> now < s_expires s -> u_status u = "active" ->
  (forall n, db a n = true) -> sessions d !! HashSecret (new_refresh a) = None -> s_trace s <> "" ->
  Refresh a now token d
  = (inr (sign_claims now (refresh_principal s u d) (s_trace s), new_refresh a),
     (set_status (HashSecret token) "rotated" d)
       <| sessions := <[HashSecret (new_refresh a) :=
            MkSession (s_user s) (s_tenant s) "active" (now + refreshTokenTTL) (s_trace s)]>
            (sessions (set_status (HashSecret token) "rotated" d)) |>).
Proof.
  intros Hs Hu Ha He Hua Hdb Hnew Ht. unfold Refresh, refresh_select. rewrite Hdb, Hs. simpl. rewrite Hu. simpl.
  rewrite bool_decide_eq_true_2 by (split; [done|split; [lia|done]]). rewrite !Hdb. cbn [negb].
  unfold refresh_finish, createSession. rewrite Hdb. simpl.
  rewrite bool_decide_eq_true_2.
  2: { destruct (decide (HashSecret (new_refresh a) = HashSecret token)) as [E|E]; [congruence|].
       by rewrite lookup_alter_ne. }
  unfold jsor. by rewrite decide_False.
Qed.

(** A client that refreshes with the token of the previous refresh. *)
Fixpoint chain (cs : list (answers * Z)) (token : string) (d : tables) : option (list claims * string * tables) :=
  match cs with
  | [] => Some ([], token, d)
  | (a, now) :: cs =>
      match Refresh a now token d with
      | (inr (c, token), d) => '(l, token, d) ← chain cs token d; Some (c :: l, token, d)
      | (inl _, _) => None
      end
  end.

(** Who a session belongs to. *)
Definition belongs (s : session) (c : claims) : Prop :=
  user_id (c_principal c) = s_user s /\ tenant_id (c_principal c) = nullIfEmpty (s_tenant s)
  /\ c_session c = s_trace s.

(** The times of the refreshes, each before the session of the last one expires. *)
Fixpoint in_time (expires : Z) (cs : list (answers * Z)) : Prop :=
  match cs with
  | [] => True
  | (_, now) :: cs => now < expires /\ in_time (now + refreshTokenTTL) cs
  end.

(** The new tokens are new. *)
Fixpoint fresh (cs : list (answers * Z)) (d : tables) : Prop :=
  match cs with
  | [] => True
  | (a, _) :: cs =>
      sessions d !! HashSecret (new_refresh a) = None
      /\ Forall (fun c => HashSecret (new_refresh c.1) <> HashSecret (new_refresh a)) cs /\ fresh cs d
  end.

Lemma fresh_kept cs d d' h :
  fresh cs d -> Forall (fun c => HashSecret (new_refresh c.1) <> h) cs ->
  (forall h', h' <> h -> sessions d !! h' = None -> sessions d' !! h' = None) -> fresh cs d'.
Proof.
  intros H Hh Hd. induction cs as [|[a now] cs IH]; [done|]. destruct H as (Hn & Hall & H).
  apply List.Forall_cons_iff in Hh as [Hne Hh]. split; [by apply Hd|]. split; [done|by apply IH].
Qed.

Lemma chain_succeeds cs token d s u :
  sessions d !! HashSecret token = Some s -> users d !! s_user s = Some u ->
  s_status s = "active" -> u_status u = "active" -> s_trace s <> "" ->
  Forall (fun c => forall n, db c.1 n = true) cs -> in_time (s_expires s) cs -> fresh cs d ->
  exists l token' d', chain cs token d = Some (l, token', d') /\ length l = length cs /\ Forall (belongs s) l
    /\ users d' = users d.
Proof.
  revert token d s. induction cs as [|[a now] cs IH]; intros token d s Hs Hu Ha Hua Ht Hdb Htime Hfresh.
  { exists [], token, d. by repeat constructor. }
  apply List.Forall_cons_iff in Hdb as [Hdb1 Hdb]. destruct Htime as [Hnow Htime]. destruct Hfresh as (Hn & Hne & Hfresh).
  simpl. rewrite (Refresh_succeeds a now token d s u) by done.
  match goal with |- context [chain cs _ ?d'] => set (d1 := d') end.
  set (s1 := MkSession (s_user s) (s_tenant s) "active" (now + refreshTokenTTL) (s_trace s)).
  destruct (IH (new_refresh a) d1 s1) as (l & token' & d2 & Hc & Hl & Hb & Hus); [..|].
  - simpl. by rewrite lookup_insert_eq.
  - done.
  - done.
  - done.
  - done.
  - done.
  - done.
  - eapply (fresh_kept cs d d1 (HashSecret (new_refresh a))); [done|done|]. intros h' Hh Hd. simpl.
    rewrite lookup_insert_ne by done. destruct (decide (h' = HashSecret token)) as [->|?]; [congruence|].
    by rewrite lookup_alter_ne.
  - rewrite Hc. simpl. eexists _, _, _. split; [done|]. split; [simpl; lia|]. split; [|by rewrite Hus].
    by constructor.
Qed.

(** * The lockout *)

Definition unique_emails (d : tables) : Prop :=
  forall i j v w, users d !! i = Some v -> users d !! j = Some w -> u_email v = u_email w -> i = j.

Lemma user_by_email_spec d email id u :
  unique_emails d ->
  user_by_email d email = Some (id, u) <-> users d !! id = Some u /\ u_email u = email /\ u_status u = "active".
Proof.
  intros Huniq. unfold user_by_email. split.
  - intros [Hu Hb]%row_where_Some. rewrite bool_decide_eq_true in Hb. naive_solver.
  - intros (Hu & He & Ha). apply row_where_unique; [|done|by apply bool_decide_eq_true].
    intros i j v w Hi Hj Hv Hw. rewrite bool_decide_eq_true in Hv, Hw. apply (Huniq i j v w); naive_solver congruence.
Qed.

(** Attempts to log in to an account, cut where others come in between: the query with
    the comparison, and the statement that counts a failed one.  [waiting] are the
    users of the failures not yet counted; the first of them is counted next, which of
    them makes no difference on one account. *)
Inductive attempt := Try (a : answers) (now : Z) (password : string) | Count (a : answers) (now : Z).
Definition attempt_time (g : attempt) : Z := match g with Try _ now _ | Count _ now => now end.
Record guessing := Guessing { g_tables : tables; waiting : list string }.

(** Whether a password is compared, and what is left. *)
Definition attempt_step (email : string) (g : attempt) (s : guessing) : bool * guessing :=
  match g with
  | Try a now password =>
      match login_compare now password (login_select a email (g_tables s)) with
      | Refused _ => (false, s)
      | WrongPassword id => (true, Guessing (g_tables s) (waiting s ++ [id]))
      | RightPassword _ _ _ => (true, s)
      end
  | Count a now =>
      match waiting s with
      | id :: ids => (false, Guessing (count_failure a now id (g_tables s)) ids)
      | [] => (false, s)
      end
  end.
Fixpoint guesses (email : string) (gs : list attempt) (s : guessing) : Z :=
  match gs with
  | [] => 0
  | g :: gs => let '(b, s) := attempt_step email g s in (if b then 1 else 0) + guesses email gs s
  end.
(** No more than [K] attempts are ever between their comparison and their count. *)
Fixpoint in_flight (K : Z) (email : string) (gs : list attempt) (s : guessing) : Prop :=
  match gs with
  | [] => True
  | g :: gs =>
      let s := (attempt_step email g s).2 in Z.of_nat (length (waiting s)) <= K /\ in_flight K email gs s
  end.
Fixpoint between (t T : Z) (gs : list attempt) : Prop :=
  match gs with [] => True | g :: gs => t <= attempt_time g <= T /\ between (attempt_time g) T gs end.

Lemma unique_emails_insert d id u u' :
  unique_emails d -> users d !! id = Some u -> u_email u' = u_email u ->
  unique_emails (d <| users := <[id := u']> (users d) |>).
Proof.
  intros Hd Hu He i j v w. simpl.
  destruct (decide (i = id)) as [->|Hi], (decide (j = id)) as [->|Hj];
    rewrite ?lookup_insert_eq, ?lookup_insert_ne by done; try done.
  - intros [= <-] Hw E. symmetry. apply (Hd _ _ w u); naive_solver congruence.
  - intros Hv [= <-] E. apply (Hd _ _ v u); naive_solver congruence.
  - intros. by eapply Hd.
Qed.

Section Lockout.
Hypothesis Hlock : 0 < loginLockout.
Variable K : Z.

(** The lockouts that fit between a time and [T], and one. *)
Definition slots (start T : Z) : Z := if T <? start then 0 else (T - start) / loginLockout + 1.
Definition unlocked_from (u : user) (t : Z) : Z :=
  match locked_until u with Some l => Z.max l t | None => t end.

(** The comparisons a user's row still allows until [T], when [p] failures wait to be
    counted. *)
Definition allowance (u : user) (p t T : Z) : Z :=
  Z.max (loginMaxFailures - failed_login_count u - 1) 0 + K * slots (unlocked_from u t) T
  - (if locked t u then 0 else p).

Lemma slots_nonneg x T : 0 <= slots x T.
Proof.
  unfold slots. destruct (T <? x) eqn:E; [lia|]. pose proof (Z.div_pos (T - x) loginLockout ltac:(lia) Hlock). lia.
Qed.
Lemma slots_le x y T : x <= y -> slots y T <= slots x T.
Proof.
  intros H. unfold slots. destruct (T <? x) eqn:Ex, (T <? y) eqn:Ey; try lia.
  - pose proof (Z.div_pos (T - x) loginLockout ltac:(lia) Hlock). lia.
  - pose proof (Z.div_le_mono (T - y) (T - x) loginLockout Hlock ltac:(lia)). lia.
Qed.
Lemma slots_pos t T : t <= T -> 1 <= slots t T.
Proof.
  intros H. unfold slots. replace (T <? t) with false by lia.
  pose proof (Z.div_pos (T - t) loginLockout ltac:(lia) Hlock). lia.
Qed.
Lemma slots_next t T : t <= T -> slots (t + loginLockout) T <= slots t T - 1.
Proof.
  intros H. pose proof (slots_pos t T H). unfold slots in *. replace (T <? t) with false in * by lia.
  destruct (T <? t + loginLockout) eqn:E; [lia|].
  replace (T - t) with ((T - (t + loginLockout)) + 1 * loginLockout) by lia. rewrite Z.div_add by lia. lia.
Qed.

Lemma unlocked_now u t : locked t u = false -> unlocked_from u t = t.
Proof. unfold locked, unlocked_from. destruct (locked_until u); lia. Qed.

Lemma allowance_later u p t t' T : 0 <= K -> 0 <= p -> t <= t' -> allowance u p t' T <= allowance u p t T.
Proof.
  intros HK Hp H. unfold allowance.
  assert (slots (unlocked_from u t') T <= slots (unlocked_from u t) T).
  { apply slots_le. unfold unlocked_from. destruct (locked_until u); lia. }
  assert (locked t u = false -> locked t' u = false) by (unfold locked; destruct (locked_until u); lia).
  destruct (locked t u), (locked t' u); naive_solver nia.
Qed.

Lemma allowance_nonneg u p t T : 0 <= p <= K -> t <= T -> 0 <= allowance u p t T.
Proof.
  intros Hp HT. unfold allowance. pose proof (slots_nonneg (unlocked_from u t) T).
  destruct (locked t u) eqn:El; [nia|]. rewrite unlocked_now in * by done. pose proof (slots_pos t T HT). nia.
Qed.

(** A comparison uses one up, and a counted failure uses nothing. *)
Lemma allowance_tried u p t T : locked t u = false -> 1 + allowance u (p + 1) t T <= allowance u p t T.
Proof. intros Hl. unfold allowance. rewrite Hl. lia. Qed.

Lemma allowance_counted u p t T :
  1 <= p <= K -> t <= T -> (forall l, locked_until u = Some l -> l <= t + loginLockout) ->
  allowance (recordFailedPassword t u) (p - 1) t T <= allowance u p t T.
Proof.
  intros Hp HT Hl. unfold allowance.
  destruct (loginMaxFailures <=? failed_login_count u + 1) eqn:E.
  - assert (Hlk : locked_until (recordFailedPassword t u) = Some (t + loginLockout))
      by (unfold recordFailedPassword; simpl; by rewrite E).
    assert (Hnow : locked t (recordFailedPassword t u) = true) by (unfold locked; rewrite Hlk; lia).
    assert (Hfrom : unlocked_from (recordFailedPassword t u) t = t + loginLockout)
      by (unfold unlocked_from; rewrite Hlk; lia).
    rewrite Hnow, Hfrom. simpl failed_login_count. pose proof (slots_next t T HT).
    destruct (locked t u) eqn:El.
    + assert (slots (t + loginLockout) T <= slots (unlocked_from u t) T); [|nia].
      apply slots_le. unfold unlocked_from. destruct (locked_until u) as [l|] eqn:Eu; [|lia].
      specialize (Hl l eq_refl). lia.
    + rewrite unlocked_now by done. nia.
  - assert (Hlk : locked_until (recordFailedPassword t u) = locked_until u)
      by (unfold recordFailedPassword; simpl; by rewrite E).
    unfold locked, unlocked_from. rewrite Hlk. simpl failed_login_count.
    destruct (match locked_until u with Some t0 => t <? t0 | None => false end); lia.
Qed.

(** The account while it is attacked. *)
Record attacked (email hash id : string) (u : user) (t : Z) (s : guessing) : Prop := Attacked {
  at_emails : unique_emails (g_tables s);
  at_row : users (g_tables s) !! id = Some u;
  at_user : u_email u = email /\ u_status u = "active" /\ password_hash u = hash;
  at_waiting : waiting s = replicate (length (waiting s)) id;
  at_room : Z.of_nat (length (waiting s)) <= K;
  at_lock : forall l, locked_until u = Some l -> l <= t + loginLockout }.

Lemma attacked_later email hash id u t t' s : t <= t' -> attacked email hash id u t s -> attacked email hash id u t' s.
Proof. intros H []. split; try done. intros l Hl. specialize (at_lock0 l Hl). lia. Qed.

Definition harmless (hash : string) (g : attempt) : Prop :=
  match g with Try _ _ password => matches hash password = false | Count a _ => db a 0 = true end.

(** One part of an attempt, whatever it is. *)
Lemma attempt_allowed email hash id u t T g s :
  attacked email hash id u t s -> harmless hash g -> attempt_time g = t -> t <= T ->
  let '(b, s') := attempt_step email g s in
  Z.of_nat (length (waiting s')) <= K ->
  exists u', attacked email hash id u' t s'
    /\ (if b then 1 else 0) + allowance u' (Z.of_nat (length (waiting s'))) t T
       <= allowance u (Z.of_nat (length (waiting s))) t T.
Proof.
  intros Hat Hg Htime HT. pose proof Hat as [Hd Hu (He & Hst & Hh) Hw Hroom Hl].
  destruct g as [a now password|a now]; simpl in Htime; subst now; cbn [attempt_step harmless] in *.
  - unfold login_select. destruct (db a 4); simpl; [|intros _; exists u; split; [done|lia]].
    rewrite (proj2 (user_by_email_spec (g_tables s) email id u Hd)) by done. simpl.
    destruct (locked t u) eqn:El; [intros _; exists u; split; [done|lia]|]. rewrite Hh, Hg. cbn [negb].
    intros Hroom'. exists u. split.
    + split; try done. simpl. rewrite length_app, replicate_add. simpl. by rewrite <- Hw.
    + simpl. rewrite length_app. simpl. pose proof (allowance_tried u (Z.of_nat (length (waiting s))) t T El).
      replace (Z.of_nat (length (waiting s) + 1)) with (Z.of_nat (length (waiting s)) + 1) by lia. lia.
  - destruct (waiting s) as [|i ids] eqn:Ew; [intros _; exists u; rewrite Ew; split; [done|simpl; lia]|].
    simpl in Hw. injection Hw as -> Hids. intros Hroom'. simpl in Hroom, Hroom'. exists (recordFailedPassword t u).
    unfold count_failure. rewrite Hg. simpl.
    assert (Hrow : alter (recordFailedPassword t) id (users (g_tables s)) !! id = Some (recordFailedPassword t u))
      by (by rewrite lookup_alter_eq, Hu).
    split.
    + split; simpl; try done.
      * intros i j v w Hi Hj Heq.
        assert (Hk : forall k x, alter (recordFailedPassword t) id (users (g_tables s)) !! k = Some x ->
          exists y, users (g_tables s) !! k = Some y /\ u_email x = u_email y).
        { intros k x Hx. destruct (decide (id = k)) as [<-|Hne].
          - rewrite Hrow in Hx. injection Hx as <-. by exists u.
          - rewrite lookup_alter_ne in Hx by done. by exists x. }
        destruct (Hk i v Hi) as (v' & Hv & E1), (Hk j w Hj) as (w' & Hw' & E2). apply (Hd i j v' w'); congruence.
      * intros l. case_match; [intros [= <-]; lia|apply Hl].
    + pose proof (allowance_counted u (Z.of_nat (S (length ids))) t T ltac:(lia) HT Hl) as H.
      replace (Z.of_nat (S (length ids)) - 1) with (Z.of_nat (length ids)) in H by lia. lia.
Qed.

Lemma guesses_allowed email hash gs id u t T s :
  attacked email hash id u t s -> Forall (harmless hash) gs -> in_flight K email gs s -> between t T gs -> t <= T ->
  guesses email gs s <= allowance u (Z.of_nat (length (waiting s))) t T.
Proof.
  revert u t s. induction gs as [|g gs IH]; intros u t s Hat Hall Hfl Hb HT; simpl.
  { apply allowance_nonneg; [|done]. split; [lia|apply Hat]. }
  destruct Hb as [Hnow Hb]. apply List.Forall_cons_iff in Hall as [Hg Hall]. destruct Hfl as [Hroom Hfl].
  assert (HK : 0 <= K) by (destruct Hat; lia).
  pose proof (allowance_later u (Z.of_nat (length (waiting s))) t (attempt_time g) T HK ltac:(lia) ltac:(lia)) as Hlater.
  pose proof (attempt_allowed email hash id u (attempt_time g) T g s (attacked_later _ _ _ _ _ _ _ (proj1 Hnow) Hat)
    Hg eq_refl (proj2 Hnow)) as Hstep.
  destruct (attempt_step email g s) as [b s']. simpl in Hroom. destruct (Hstep Hroom) as (u' & Hat' & Hle).
  specialize (IH u' (attempt_time g) s' Hat' Hall Hfl Hb (proj2 Hnow)). lia.
Qed.
End Lockout.

(** C13: passwords cannot be guessed quickly.  The attempts on an account are cut where
    others come in between: a password is compared with the row read before, and its
    failure is counted by a later statement.  On an account without failures, of wrong
    passwords only, however many and however fast and in whatever order their parts
    come, at most [loginMaxFailures - 1] are compared, and as many as are in flight at
    once for the first lockout and for each that passes: with one at a time,
    [loginMaxFailures] and one for each lockout.  How many are in flight the service
    does not bound: see [guesses_at_once_are_all_compared]. *)
Theorem wrong_passwords_are_bounded K email gs d id u t T :
  0 < loginLockout -> 1 <= loginMaxFailures -> 1 <= K ->
  unique_emails d -> users d !! id = Some u -> u_email u = email -> u_status u = "active" ->
  failed_login_count u = 0 -> locked_until u = None ->
  Forall (harmless (password_hash u)) gs -> in_flight K email gs (Guessing d []) -> between t T gs -> t <= T ->
  guesses email gs (Guessing d []) <= loginMaxFailures - 1 + K * (1 + (T - t) / loginLockout).
Proof.
  intros Hlock Hmax HK Hd Hu He Hst Hn Hl Hall Hfl Hb HT.
  assert (Hat : attacked K email (password_hash u) id u t (Guessing d [])).
  { split; simpl; try done; [lia|]. intros l. by rewrite Hl. }
  pose proof (guesses_allowed Hlock K email _ gs id u t T _ Hat Hall Hfl Hb HT) as H.
  unfold allowance, locked, unlocked_from, slots in H. rewrite Hn, Hl in H. replace (T <? t) with false in H by lia.
  simpl in H. lia.
Qed.

(** Guesses made at once are all compared, whatever the lockout: those whose queries
    come before the first failure is counted. *)
Theorem guesses_at_once_are_all_compared email a now password d id u n :
  unique_emails d -> users d !! id = Some u -> u_email u = email -> u_status u = "active" -> locked now u = false ->
  db a 4 = true -> matches (password_hash u) password = false ->
  guesses email (repeat (Try a now password) n) (Guessing d []) = Z.of_nat n.
Proof.
  intros Hd Hu He Hst Hl Hdb Hm. generalize (@nil string) as ws. induction n as [|n IH]; intros ws; [done|].
  cbn [repeat guesses attempt_step g_tables]. unfold login_select. rewrite Hdb.
  rewrite (proj2 (user_by_email_spec d email id u Hd)) by done. simpl. rewrite Hl, Hm. cbn [negb].
  simpl. rewrite IH. lia.
Qed.

(** C32: a session lasts while it is refreshed.  After a login, refreshing with the
    latest token succeeds any number of times, as long as each refresh comes before
    the token expires, with the user, the tenant and the session of the login. *)
Theorem session_outlives_refreshes a t0 email password d c token d1 cs :
  Login a t0 email password d = (inr (c, token), true, d1) -> new_session a <> "" ->
  Forall (fun x => forall n, db x.1 n = true) cs -> in_time (t0 + refreshTokenTTL) cs -> fresh cs d1 ->
  exists l token' d', chain cs token d1 = Some (l, token', d') /\ length l = length cs
    /\ Forall (fun c' => user_id (c_principal c') = user_id (c_principal c)
         /\ tenant_id (c_principal c') = tenant_id (c_principal c) /\ c_session c' = c_session c) l.
Proof.
  rewrite Login_whole. cbv zeta. intros Hlogin Hsess Hdb Htime Hfresh.
  destruct (if db a 4 then user_by_email d email else None) as [[id u]|] eqn:Hu; [|done]. destruct (locked t0 u); [done|].
  destruct (negb (matches _ _)); [done|]. destruct (negb (db a 1)); [done|].
  destruct (createSession _ _ _ _ _ _ _) as [d2|] eqn:Hc; [|done].
  apply createSession_spec in Hc as [_ ->].
  destruct (db a 4); [|done]. apply row_where_Some in Hu as [Hin Hb]. rewrite bool_decide_eq_true in Hb.
  set (s1 := MkSession id (first_tenant d id) "active" (t0 + refreshTokenTTL) (new_session a ||| new_session a)) in *.
  assert (Hs1 : s_trace s1 = new_session a) by (simpl; unfold jsor; by case_decide).
  set (u1 := if db a 3 then u <| failed_login_count := 0 |> <| locked_until := None |> else u).
  simplify_eq.
  match goal with |- context [chain cs _ ?d'] => set (d3 := d') in * end.
  destruct (chain_succeeds cs (new_refresh a) d3 s1 u1) as (l & token' & d' & Hch & Hlen & Hall & _); try done.
  - unfold d3. destruct (db a 3); simpl; by rewrite lookup_insert_eq.
  - unfold d3, u1. destruct (db a 3); simpl; [by rewrite lookup_insert_eq|done].
  - unfold u1. destruct (db a 3); simpl; tauto.
  - by rewrite Hs1.
  - exists l, token', d'. split; [done|]. split; [done|]. eapply List.Forall_impl; [|exact Hall].
    intros c' (H1 & H2 & H3). simpl. rewrite H1, H2, H3, Hs1. done.
Qed.

(** C8: a refresh token is good for one refresh.  Once a refresh has rotated it or a
    logout has revoked it, every later refresh with it is refused, whatever calls
    and changes of the tables come in between. *)
Theorem used_tokens_are_refused a now token d d1 os a' now' :
  (exists p, Refresh a now token d = (inr p, d1))
  \/ (db a 0 = true /\ is_Some (sessions d !! HashSecret token) /\ d1 = RevokeRefreshToken a token d) ->
  (Refresh a' now' token (run_all os d1)).1 = inl "invalid refresh token".
Proof.
  intros H. enough (Hs : spent (HashSecret token) d1)
    by (unfold Refresh; rewrite (spent_refused now' token _ (run_all_spent os d1 _ Hs)); by destruct (db a' 4)).
  destruct H as [[p Hr]|(Hdb & Hs & ->)].
  - unfold Refresh in Hr. destruct (if db a 4 then refresh_select now token d else None) as [[[h s] u]|] eqn:Hsel; [|done].
    destruct (negb (db a 0)); [done|]. destruct (negb (db a 1)); [done|]. unfold refresh_finish in Hr.
    destruct (createSession _ _ _ _ _ _ _) as [d2|] eqn:Hc; [|done]. simplify_eq.
    eapply createSession_spent; [exact Hc|].
    destruct (db a 4); [|done]. unfold refresh_select in Hsel. destruct (sessions d !! HashSecret token) as [s0|] eqn:Hs0; [|done]. simpl in Hsel.
    destruct (users d !! s_user s0); [|done]. simpl in Hsel. case_bool_decide; [|done]. simplify_eq.
    by apply set_status_spends.
  - unfold RevokeRefreshToken. rewrite Hdb. by apply set_status_spends.
Qed.

(** * Access *)

(** The tables over time, with the access tokens issued, each with the tables and the
    time it was issued at.  A login and a refresh that issue one are a step each here:
    the row of the user and the permissions are taken to be of one moment. *)
Record server := Server { sv_tables : tables; sv_issued : list (claims * tables * Z) }.

Inductive serves : Z -> server -> Prop :=
| serves_start t d : serves t (Server d [])
| serves_change t t' sv d : serves t sv -> t <= t' -> serves t' (Server d (sv_issued sv))
| serves_login t t' sv a email password c token g d :
    serves t sv -> t <= t' -> Login a t' email password (sv_tables sv) = (inr (c, token), g, d) ->
    serves t' (Server d ((c, sv_tables sv, t') :: sv_issued sv))
| serves_refresh t t' sv a token c token' d :
    serves t sv -> t <= t' -> Refresh a t' token (sv_tables sv) = (inr (c, token'), d) ->
    serves t' (Server d ((c, sv_tables sv, t') :: sv_issued sv)).

(** What the tables grant a user. *)
Definition granted (d : tables) (userID permission : string) : Prop :=
  exists u tenantID, users d !! userID = Some u /\ u_status u = "active"
    /\ HasPermission (MkPrincipal userID (nullIfEmpty tenantID) (u_email u) (u_platform u)
         (EffectivePermissions d userID tenantID)) permission = true.

Definition sound_claims (c : claims) (d : tables) (now : Z) : Prop :=
  c_exp c * second <= now + accessTokenTTL
  /\ forall permission, HasPermission (c_principal c) permission = true ->
       granted d (user_id (c_principal c)) permission.

Lemma sign_sound now p sessionID d :
  (forall permission, HasPermission p permission = true -> granted d (user_id p) permission) ->
  sound_claims (sign_claims now p sessionID) d now.
Proof.
  intros H. split; [|done]. simpl. unfold second.
  pose proof (Z.mul_div_le (now + accessTokenTTL) (10 ^ 9) ltac:(lia)). lia.
Qed.

Lemma Login_sound a now email password d c token g d' :
  Login a now email password d = (inr (c, token), g, d') -> sound_claims c d now.
Proof.
  rewrite Login_whole. cbv zeta. destruct (if db a 4 then user_by_email d email else None) as [[id u]|] eqn:Hu; [|done]. destruct (locked now u); [done|].
  destruct (negb (matches _ _)); [done|]. destruct (negb (db a 1)); [done|].
  destruct (createSession _ _ _ _ _ _ _); [|done]. intros [= <- _ _ _]. apply sign_sound. simpl. intros permission Hp.
  destruct (db a 4); [|done]. apply row_where_Some in Hu as [Hin Hb]. rewrite bool_decide_eq_true in Hb.
  exists u, (first_tenant d id). simpl in *. tauto.
Qed.

Lemma Refresh_sound a now token d c token' d' :
  Refresh a now token d = (inr (c, token'), d') -> sound_claims c d now.
Proof.
  unfold Refresh. destruct (if db a 4 then refresh_select now token d else None) as [[[h s] u]|] eqn:Hsel; [|done].
  destruct (negb (db a 0)); [done|]. destruct (negb (db a 1)); [done|]. unfold refresh_finish.
  destruct (createSession _ _ _ _ _ _ _); [|done]. intros [= <- _ _]. apply sign_sound. simpl. intros permission Hp.
  destruct (db a 4); [|done]. unfold refresh_select in Hsel. destruct (sessions d !! HashSecret token) as [s0|]; [|done]. simpl in Hsel.
  destruct (users d !! s_user s0) as [u0|] eqn:Hu; [|done]. simpl in Hsel. case_bool_decide as Hb; [|done]. simplify_eq.
  exists u, (s_tenant s). tauto.
Qed.

Lemma serves_issued t sv c d0 t0 :
  serves t sv -> (c, d0, t0) ∈ sv_issued sv -> t0 <= t /\ sound_claims c d0 t0.
Proof.
  intros Hsv. induction Hsv as [|t t' sv d _ IH Ht|t t' sv a email password c1 token g d _ IH Ht Hl
    |t t' sv a token c1 token' d _ IH Ht Hr]; simpl; intros Hin.
  - by apply not_elem_of_nil in Hin.
  - destruct (IH Hin). split; [lia|done].
  - apply elem_of_cons in Hin as [[= -> -> ->]|Hin]; [|destruct (IH Hin); split; [lia|done]].
    split; [lia|by eapply Login_sound].
  - apply elem_of_cons in Hin as [[= -> -> ->]|Hin]; [|destruct (IH Hin); split; [lia|done]].
    split; [lia|by eapply Refresh_sound].
Qed.

Section Gate.
(** The library of the tokens reads claims only from a token it has checked; an
    expired one is refused. *)
Variable verify : Z -> string -> option claims.
Hypothesis verify_unexpired : forall now token c, verify now token = Some c -> now < c_exp c * second.

(** [JWT] and [RequirePermission]: the status of a request that they answer, or
    none. *)
Definition gate (now : Z) (token permission : string) : option Z :=
  match verify now token with
  | None => Some 401
  | Some c => if HasPermission (c_principal c) permission then None else Some 403
  end.

(** C7: access follows the tables within the life of an access token.  When a request
    passes with a token the service has issued, then less than [accessTokenTTL] ago
    the tables had its user active, and granted it the permission: a user who is
    deactivated or loses a permission loses the access within that time. *)
Theorem access_follows_tables now sv token permission :
  serves now sv ->
  (forall c, verify now token = Some c -> exists d0 t0, (c, d0, t0) ∈ sv_issued sv) ->
  gate now token permission = None ->
  exists d0 t0 c, (c, d0, t0) ∈ sv_issued sv /\ verify now token = Some c
    /\ now - accessTokenTTL < t0 <= now /\ granted d0 (user_id (c_principal c)) permission.
Proof.
  intros Hsv Hissued Hg. unfold gate in Hg. destruct (verify now token) as [c|] eqn:Hv; [|done].
  destruct (Hissued c eq_refl) as (d0 & t0 & Hin). exists d0, t0, c.
  destruct (serves_issued now sv c d0 t0 Hsv Hin) as [Ht [Hexp Hgr]]. apply verify_unexpired in Hv as Hn.
  destruct (HasPermission _ permission) eqn:Hp; [|done].
  split; [done|]. split; [done|]. split; [lia|by apply Hgr].
Qed.
End Gate.
End Service.

(** * Samples *)

Section Samples.
Definition same (h p : string) : bool := bool_decide (h = p).
Definition hash (t : string) : string := "h:" +:+ t.
Definition ok (sess rft : string) : answers := Answers (fun _ => true) sess rft.
Definition minutes (n : Z) : Z := n * 60 * second.
(** Fifteen minutes, fourteen days, fifteen minutes, five failures. *)
Definition sample_login := Login same hash (minutes 15) (minutes 20160) (minutes 15) 5 (ok "s1" "r1") 0 "ada@x.org" "pw" sample_tables.
Definition logged_in : tables := sample_login.2.

(** The parts of a refresh of the sample. *)
Definition sample_select := refresh_select hash (minutes 10) "r1" logged_in.
Definition sample_finish (rft : string) (d : tables) :=
  match sample_select with
  | Some (h, s, u) => refresh_finish hash (minutes 15) (minutes 20160) (ok "" rft) (minutes 10) (refresh_principal s u d) h s d
  | None => (inl "", d)
  end.
End Samples.

(** The query of a refresh and its rotation are two statements: two refreshes that
    both made the query with one token both get new tokens, with active sessions. *)
Theorem one_token_two_refreshes :
  let '(r1, d1) := sample_finish "r2" logged_in in
  let '(r2, d2) := sample_finish "r3" d1 in
  snd <$> (match r1 with inr p => Some p | _ => None end) = Some "r2"
  /\ snd <$> (match r2 with inr p => Some p | _ => None end) = Some "r3"
  /\ (s_status <$> sessions d2 !! hash "r2") = Some "active"
  /\ (s_status <$> sessions d2 !! hash "r3") = Some "active".
Proof. vm_compute. done. Qed.

(** A logout between them is lost: the refresh ends with a new active session. *)
Theorem logout_loses_to_refresh :
  let d1 := RevokeRefreshToken hash (ok "" "") "r1" logged_in in
  let '(r, d2) := sample_finish "r2" d1 in
  (s_status <$> sessions d1 !! hash "r1") = Some "revoked"
  /\ snd <$> (match r with inr p => Some p | _ => None end) = Some "r2"
  /\ (s_status <$> sessions d2 !! hash "r2") = Some "active".
Proof. vm_compute. done. Qed.

(** A refresh does not look at the memberships: who is removed from a tenant keeps
    the session of the tenant. *)
Theorem removed_member_keeps_session :
  let d := logged_in <| tenant_users := [] |> in
  match (Refresh hash (minutes 15) (minutes 20160) (ok "" "r2") (minutes 10) "r1" d).1 with
  | inr (c, _) => tenant_id (c_principal c) = Some "t1" /\ permissions (c_principal c) = ["users.view"]
  | inl _ => False
  end.
Proof. vm_compute. done. Qed.

(** Three guesses at once, counted afterwards, three times over. *)
Definition three_at_once : list attempt :=
  concat (repeat (repeat (Try (ok "" "") (minutes 1) "guess") 3 ++ repeat (Count (ok "" "") (minutes 1)) 3) 3).

Lemma wrong_passwords_are_bounded_witness :
  guesses same (minutes 15) 5 "ada@x.org" three_at_once (Guessing sample_tables []) = 6
  /\ guesses same (minutes 15) 5 "ada@x.org" three_at_once (Guessing sample_tables [])
     <= 5 - 1 + 3 * (1 + (minutes 20 - 0) / minutes 15).
Proof.
  split; [vm_compute; reflexivity|].
  apply (wrong_passwords_are_bounded same hash (minutes 15) 5 3 "ada@x.org" three_at_once sample_tables "u1" ada 0 (minutes 20));
    try reflexivity; try (vm_compute; congruence); try lia; try (by vm_compute).
  - intros i j v w Hi Hj _. simpl in Hi, Hj. apply lookup_singleton_Some in Hi as [<- _].
    by apply lookup_singleton_Some in Hj as [<- _].
  - repeat constructor.
Defined.

Lemma session_outlives_refreshes_witness :
  exists l token' d',
    chain hash (minutes 15) (minutes 20160) [(ok "" "r2", minutes 14); (ok "" "r3", minutes 20000)] "r1" logged_in
      = Some (l, token', d')
    /\ length l = 2%nat.
Proof.
  destruct (session_outlives_refreshes same hash (minutes 15) (minutes 20160) (minutes 15) 5 (ok "s1" "r1") 0
    "ada@x.org" "pw" sample_tables
    (Claims (MkPrincipal "u1" (Some "t1") "ada@x.org" false ["users.view"]) "s1" 900 0) "r1" logged_in
    [(ok "" "r2", minutes 14); (ok "" "r3", minutes 20000)]) as (l & token' & d' & Hc & Hl & _).
  - vm_compute. reflexivity.
  - done.
  - repeat constructor.
  - vm_compute. done.
  - split; [by vm_compute|]. split; [by repeat constructor|]. split; [by vm_compute|]. split; [constructor|exact Logic.I].
  - by exists l, token', d'.
Defined.

(** A library that knows one token. *)
Definition one_token (c : claims) (now : Z) (token : string) : option claims :=
  if decide (token = "jwt") then (if now <? c_exp c * second then Some c else None) else None.

Lemma access_follows_tables_witness :
  exists d0 t0, minutes 10 - minutes 15 < t0 <= minutes 10 /\ granted d0 "u1" "users.view".
Proof.
  set (c := Claims (MkPrincipal "u1" (Some "t1") "ada@x.org" false ["users.view"]) "s1" 900 0).
  destruct (access_follows_tables same hash (minutes 15) (minutes 20160) (minutes 15) 5 (one_token c)
    ltac:(unfold one_token; intros now token c' H; repeat case_match; simplify_eq; lia)
    (minutes 10) (Server logged_in [(c, sample_tables, 0)]) "jwt" "users.view")
    as (d0 & t0 & c' & Hin & Hv & Ht & Hg).
  - eapply (serves_change same hash _ _ _ _ 0 (minutes 10) (Server logged_in [(c, sample_tables, 0)]));
      [|vm_compute; congruence].
    eapply (serves_login same hash _ _ _ _ 0 0 (Server sample_tables []) (ok "s1" "r1") "ada@x.org" "pw" c "r1" true);
      [constructor|lia|vm_compute; reflexivity].
  - intros c' Hv. exists sample_tables, 0. unfold one_token in Hv. repeat case_match; simplify_eq. by left.
  - vm_compute. reflexivity.
  - exists d0, t0. split; [done|]. apply list_elem_of_singleton in Hin. by simplify_eq.
Defined.

Lemma used_tokens_are_refused_witness :
  (Refresh hash (minutes 15) (minutes 20160) (ok "" "r4") (minutes 12) "r1"
     (run_all hash (minutes 20160) [ORevoke (ok "" "") "r2"]
        (Refresh hash (minutes 15) (minutes 20160) (ok "" "r2") (minutes 10) "r1" logged_in).2)).1
  = inl "invalid refresh token".
Proof.
  apply (used_tokens_are_refused hash (minutes 15) (minutes 20160) (ok "" "r2") (minutes 10) "r1" logged_in).
  left. eexists. vm_compute. reflexivity.
Defined.
