(* ===== verification/Rbac.v ===== *)
(** The writes of accounts (internal/http/handlers/rbac.go, and of handlers.go the
    users and the API keys) behind their routes, and the check of a public call by
    its key (internal/auth/auth.go, internal/http/middleware).

    Constraints of migrations/ are checked: foreign keys, unique columns; [stmt w n]
    is whether the nth statement of a handler otherwise succeeds. *)
From stdpp Require Import gmap.
From S2P Require Import Prelude Js React Query Client Components Auth Api Handlers Accounts.

(** What the surroundings answer during a call: whether its statements succeed, the
    identifier of a new row, and a new key. *)
Record world := World { stmt : nat -> bool; new_id : string; new_key : string }.

(** [decode]: a body that is absent or does not decode is refused. *)
Definition decoded (t : gotype) (body : option json) : option json :=
  match body with Some b => if decodes t b then Some b else None | None => None end.

(** The members of a decoded body that are no strings. *)
Definition flag (b : json) (k : string) : bool :=
  match jfield b k with Some (JBool x) => x | _ => false end.
Definition texts (b : json) (k : string) : list string :=
  match jfield b k with Some (JArr xs) => map (fun x => match x with JStr s => s | _ => "" end) xs | _ => [] end.

Definition exists_tenant (d : tables) (tenantID : option string) : bool :=
  match tenantID with Some t => bool_decide (t ∈ tenants d) | None => true end.
Definition row_exists {V} (rows : gmap string V) (i : string) : bool := negb (bool_decide (rows !! i = None)).
Definition taken {V} (f : V -> bool) (rows : gmap string V) : bool :=
  match row_where f rows with Some _ => true | None => false end.

(** * Routes *)

(** The handlers of the routes, given what fills the wildcards of the pattern. *)
Definition handler (D : Type) : Type := list string -> option json -> D -> Z * D.
Abbreviation handled_routes D := (list (string * list segment * handler D)).

Definition arg (args : list string) (n : nat) : string := default "" (args !! n).

Fixpoint wildcards (pat : list segment) (segs : list string) : list string :=
  match pat, segs with
  | L _ :: pat, _ :: segs => wildcards pat segs
  | V _ :: pat, x :: segs => x :: wildcards pat segs
  | _, _ => []
  end.

(** A request of a user: none for the routes whose handlers are not given. *)
Definition route_to {D} (hs : handled_routes D) (p : Principal) (r : request) (d : D) : option (Z * D) :=
  match find_route r, api_segments (req_path r) with
  | Some rt, Some segs =>
      if negb (authorized p r) then Some (403, d)
      else
        h ← find (fun h => bool_decide (h.1 = (r_method rt, r_pattern rt))) hs;
        Some (h.2 (wildcards (r_pattern rt) segs) (req_body r) d)
  | _, _ => Some (404, d)
  end.

(** * Permissions of a role *)

(** [INSERT INTO role_permissions ... ON CONFLICT DO NOTHING] *)
Definition add_permission (d : tables) (id pid : string) : option tables :=
  if row_exists (roles d) id && row_exists (permission_rows d) pid then
    Some (if decide ((id, pid) ∈ role_permissions d) then d
          else d <| role_permissions := role_permissions d ++ [(id, pid)] |>)
  else None.

(** The insertions of the transaction, from its nth statement on. *)
Fixpoint add_permissions (w : world) (n : nat) (id : string) (pids : list string) (d : tables) : option tables :=
  match pids with
  | [] => if stmt w n then Some d else None
  | pid :: pids =>
      if stmt w n then match add_permission d id pid with
                       | Some d => add_permissions w (S n) id pids d
                       | None => None
                       end
      else None
  end.

(** What a transaction of permissions leaves. *)
Lemma add_permission_spec d id pid d' : add_permission d id pid = Some d' ->
  d' = d <| role_permissions := role_permissions d' |>
  /\ (forall x, x ∈ role_permissions d' <-> x ∈ role_permissions d \/ x = (id, pid)).
Proof.
  unfold add_permission. destruct (_ && _); [|done]. intros [= <-]. case_decide; simpl.
  - split; [by destruct d|]. naive_solver.
  - split; [done|]. intros x. by rewrite elem_of_app, list_elem_of_singleton.
Qed.

Lemma add_permissions_spec w n id pids d d' : add_permissions w n id pids d = Some d' ->
  d' = d <| role_permissions := role_permissions d' |>
  /\ (forall x, x ∈ role_permissions d' <-> x ∈ role_permissions d \/ (x.1 = id /\ x.2 ∈ pids)).
Proof.
  revert n d. induction pids as [|pid pids IH]; intros n d; simpl; destruct (stmt w n); try done.
  - intros [= <-]. split; [by destruct d|]. intros x. rewrite elem_of_nil. tauto.
  - destruct (add_permission d id pid) as [d1|] eqn:E; [|done]. intros H.
    apply add_permission_spec in E as [E1 E2]. apply IH in H as [H1 H2]. split.
    + rewrite H1, E1. done.
    + intros [r i]. rewrite H2, E2, elem_of_cons. simpl. naive_solver.
Qed.

(** * Routing *)

Lemma overlap_false a b segs : overlap a b = false -> fits a segs = true -> fits b segs = true -> False.
Proof.
  revert b segs. induction a as [|x a IH]; intros [|y b] [|z segs]; simpl; try done.
  all: try (destruct x; done). all: try (destruct y; done).
  destruct x as [x|x], y as [y|y]; simpl; rewrite ?andb_true_iff, ?bool_decide_eq_true;
    intros Ho H1 H2; try (by eapply IH; [exact Ho|apply H1|apply H2]).
  apply andb_false_iff in Ho as [Ho|Ho]; [|by eapply IH; [exact Ho|apply H1|apply H2]].
  rewrite bool_decide_eq_false in Ho. naive_solver.
Qed.

Lemma find_exclusive rs m segs rt :
  exclusive rs = true -> rt ∈ rs -> r_method rt = m -> fits (r_pattern rt) segs = true ->
  find (fun r => bool_decide (r_method r = m) && fits (r_pattern r) segs) rs = Some rt.
Proof.
  intros He Hin Hm Hf. induction Hin as [rt rs|rt rt' rs Hin IH]; simpl in *; apply andb_prop in He as [He Hrs].
  - by rewrite Hf, bool_decide_true.
  - destruct (bool_decide (r_method rt' = m) && fits (r_pattern rt') segs) eqn:E; [|by apply IH].
    apply andb_prop in E as [E1%bool_decide_eq_true E2]. rewrite forallb_forall in He.
    specialize (He rt ltac:(by apply list_elem_of_In)). rewrite bool_decide_true in He by congruence.
    apply negb_true_iff in He. by destruct (overlap_false _ _ _ He E2 Hf).
Qed.

Lemma ident_plain x : ident x = true ->
  truthy x = true /\ has_char slash x = false /\ has_char question x = false.
Proof. unfold ident. rewrite !andb_true_iff, !negb_true_iff. tauto. Qed.

Lemma no_question segs : Forall (fun x => ident x = true) segs -> has_char question (join "/" segs) = false.
Proof.
  induction 1 as [|x segs Hx Hs IH]; [done|]. apply ident_plain in Hx as (_ & _ & Hx). destruct segs as [|y segs]; [done|].
  change (join "/" (x :: y :: segs)) with (x +:+ "/" +:+ join "/" (y :: segs)).
  by rewrite !has_char_app, Hx, IH.
Qed.

Lemma api_segments_path segs :
  segs <> [] -> Forall (fun x => ident x = true) segs -> api_segments (api_path segs) = Some segs.
Proof.
  intros Hne Hs. unfold api_segments, api_path. rewrite cut_nothing.
  2: { rewrite has_char_app. by rewrite (no_question _ Hs). }
  simpl fst. change ("/admin/api/v1/" +:+ join "/" segs)
    with ("" +:+ String slash ("admin" +:+ String slash ("api" +:+ String slash ("v1" +:+ String slash (join (String slash "") segs))))).
  rewrite !split_app_sep by done. rewrite split_join; [done|done|].
  eapply List.Forall_impl; [|exact Hs]. by intros x (_ & Hx & _)%ident_plain.
Qed.

Lemma find_key {A B} `{EqDecision A} (l : list (A * B)) e :
  NoDup (map fst l) -> e ∈ l -> find (fun x => bool_decide (x.1 = e.1)) l = Some e.
Proof.
  induction l as [|x l IH]; [by intros _ ?%elem_of_nil|]. simpl. intros [Hx Hnd]%NoDup_cons [->|Hin]%elem_of_cons.
  - by rewrite bool_decide_true.
  - rewrite bool_decide_false; [by apply IH|]. intros E. apply Hx. rewrite E. by apply list_elem_of_fmap_2.
Qed.

(** The request of the nth of distinct routes, its wildcards filled with identifiers. *)
Lemma route_at {D} (hs : handled_routes D) p n m pat (h : handler D) perm segs r d :
  NoDup (map fst hs) ->
  hs !! n = Some (m, pat, h) -> Route m pat perm ∈ routes -> req_method r = m ->
  req_path r = api_path segs -> segs <> [] -> Forall (fun x => ident x = true) segs -> fits pat segs = true ->
  perm <> "" ->
  route_to hs p r d =
    Some (if HasPermission p perm then h (wildcards pat segs) (req_body r) d else (403, d)).
Proof.
  intros Hnd Hh Hin Hm Hp Hne Hs Hf Hperm.
  assert (Hr : find_route r = Some (Route m pat perm)).
  { unfold find_route. rewrite Hp, api_segments_path by done.
    rewrite Hm. apply (find_exclusive (routes ++ open_routes)); [exact routes_exclusive|apply elem_of_app; by left|done|done]. }
  unfold route_to, authorized. rewrite Hr, Hp, api_segments_path by done. simpl r_permission. rewrite decide_False by done.
  destruct (HasPermission p perm); [|done]. cbn [negb r_method r_pattern].
  pose proof (find_key _ (m, pat, h) Hnd (list_elem_of_lookup_2 _ _ _ Hh)) as Hk.
  cbn [fst] in Hk. by rewrite Hk.
Qed.

(** A request that reaches a handler, and what the handler is given. *)
Definition handles {D} (hs : handled_routes D) (h : handler D) (v : list string) (r : request) : Prop :=
  exists m pat segs, (m, pat, h) ∈ hs /\ req_method r = m /\ api_segments (req_path r) = Some segs
    /\ fits pat segs = true /\ v = wildcards pat segs.

Lemma route_handles {D} (hs : handled_routes D) p r d st d' :
  route_to hs p r d = Some (st, d') ->
  (d' = d /\ st <> 200 /\ st <> 201) \/ exists h v, handles hs h v r /\ h v (req_body r) d = (st, d').
Proof.
  unfold route_to. destruct (find_route r) as [rt|] eqn:Hrt; [|intros [= <- <-]; by left].
  destruct (api_segments (req_path r)) as [segs|] eqn:Hsegs; [|intros [= <- <-]; by left].
  destruct (negb (authorized p r)); [intros [= <- <-]; by left|].
  destruct (find _ _) as [[[m pat] h]|] eqn:E; [|done]. simpl. intros [= H]. right.
  apply find_Some in E as [E Hin]. apply bool_decide_eq_true in E. simpl in E. simplify_eq.
  exists h, (wildcards (r_pattern rt) segs). split; [|done]. exists (r_method rt), (r_pattern rt), segs.
  unfold find_route in Hrt. rewrite Hsegs in Hrt. apply find_Some in Hrt as [Hf _].
  apply andb_prop in Hf as [Hf1%bool_decide_eq_true Hf2]. done.
Qed.

(** A row that may be written over: one of the tenant by another. *)
Lemma insert_elsewhere {V} (mine : V -> Prop) (rows : gmap string V) i v :
  mine v -> (forall w, rows !! i = Some w -> mine w) ->
  forall j w, ~ mine w -> <[i := v]> rows !! j = Some w <-> rows !! j = Some w.
Proof.
  intros Hv Hi j w Hw. destruct (decide (i = j)) as [<-|Hne]; [|by rewrite lookup_insert_ne].
  rewrite lookup_insert_eq. naive_solver.
Qed.
Lemma delete_elsewhere {V} (mine : V -> Prop) (rows : gmap string V) i :
  (forall w, rows !! i = Some w -> mine w) ->
  forall j w, ~ mine w -> delete i rows !! j = Some w <-> rows !! j = Some w.
Proof.
  intros Hi j w Hw. destruct (decide (i = j)) as [<-|Hne]; [|by rewrite lookup_delete_ne].
  rewrite lookup_delete_eq. naive_solver.
Qed.

Section Writes.
(** [security.HashSecret]; [bcryptHash], which refuses long passwords; [time.ParseDuration]. *)
Variable HashSecret : string -> string.
Variable bcryptHash : string -> option string.
Variable ParseDuration : string -> option Z.

(** * Roles *)

Definition CreateRole (w : world) (p : Principal) (body : option json) (d : tables) : Z * tables :=
  match decoded CreateRole_req body with
  | None => (400, d)
  | Some b =>
      if decide (member b "name" = "" \/ member b "key" = "") then (400, d)
      else
        let scope := member b "scope" ||| "tenant" in
        let tenantID := tenant_for p b in
        if negb (is_platform_admin p) && bool_decide (scope = "platform") then (403, d)
        else if decide (scope <> "tenant" /\ scope <> "platform") then (400, d)
        else if bool_decide (scope = "tenant" /\ tenantID = "") && negb (is_platform_admin p) then (400, d)
        else
          let tenantID := if decide (scope = "platform") then "" else tenantID in
          let r := MkRole (nullIfEmpty tenantID) (member b "name") (member b "key") scope "active" in
          if stmt w 0 && exists_tenant d (r_tenant r)
             && negb (taken (fun r' => bool_decide (r_tenant r' = r_tenant r /\ r_key r' = r_key r)) (roles d))
             && negb (row_exists (roles d) (new_id w))
          then (201, d <| roles := <[new_id w := r]> (roles d) |>) else (500, d)
  end.

(** The scope and the tenant of a role, as the handlers read them: an error of the
    query is not looked at, and leaves both empty. *)
Definition existing (w : world) (d : tables) (id : string) : string * string :=
  match (if stmt w 0 then roles d !! id else None) with
  | Some r => (r_scope r, or_empty (r_tenant r))
  | None => ("", "")
  end.
(** [!p.IsPlatform && (existingScope == "platform" || existingTenantID == "")] *)
Definition closed_role (p : Principal) (e : string * string) : bool :=
  negb (is_platform_admin p) && bool_decide (e.1 = "platform" \/ e.2 = "").

Definition UpdateRole (w : world) (p : Principal) (id : string) (body : option json) (d : tables) : Z * tables :=
  match decoded UpdateRole_req body with
  | None => (400, d)
  | Some b =>
      if closed_role p (existing w d id) then (403, d)
      else if negb (stmt w 1) then (500, d)
      else
        match roles d !! id with
        | Some r =>
            if touches p (or_empty (r_tenant r)) then
              (200, d <| roles := <[id := r <| r_name := kept (r_name r) (member b "name") |>
                  <| r_status := kept (r_status r) (member b "status") |>
                  <| r_scope := if is_platform_admin p then kept (r_scope r) (member b "scope") else r_scope r |>]>
                  (roles d) |>)
            else (404, d)
        | None => (404, d)
        end
  end.

(** What a role is referred to by goes with it. *)
Definition DeleteRole (w : world) (p : Principal) (id : string) (d : tables) : Z * tables :=
  if closed_role p (existing w d id) then (403, d)
  else if negb (stmt w 1) then (500, d)
  else
    match roles d !! id with
    | Some r =>
        if touches p (or_empty (r_tenant r)) then
          (200, d <| roles := delete id (roles d) |>
            <| role_permissions := filter_by (fun rp => negb (bool_decide (rp.1 = id))) (role_permissions d) |>
            <| user_roles := filter_by (fun g => negb (bool_decide (g_what g = id))) (user_roles d) |>)
        else (404, d)
    | None => (404, d)
    end.

(** The transaction leaves all of its changes or none.  The tenant of the role is not
    compared with that of the user. *)
Definition SetRolePermissions (w : world) (p : Principal) (id : string) (body : option json) (d : tables)
    : Z * tables :=
  match decoded SetRolePermissions_req body with
  | None => (400, d)
  | Some b =>
      if closed_role p (existing w d id) then (403, d)
      else if negb (stmt w 1) then (500, d)
      else if negb (stmt w 2) then (500, d)
      else
        let cleared :=
          d <| role_permissions := filter_by (fun rp => negb (bool_decide (rp.1 = id))) (role_permissions d) |> in
        match add_permissions w 3 id (texts b "permission_ids") cleared with
        | Some d' => (200, d')
        | None => (500, d)
        end
  end.

(** The role is the one of the body, whatever the path says, and nothing of the user is
    looked at. *)
Definition AssignRolePermission (w : world) (body : option json) (d : tables) : Z * tables :=
  match decoded AssignRolePermission_req body with
  | None => (400, d)
  | Some b =>
      match (if stmt w 0 then add_permission d (member b "role_id") (member b "permission_id") else None) with
      | Some d' => (201, d')
      | None => (500, d)
      end
  end.

Definition RemoveRolePermission (w : world) (id pid : string) (d : tables) : Z * tables :=
  if stmt w 0 then
    (200, d <| role_permissions := filter_by (fun rp => negb (bool_decide (rp = (id, pid)))) (role_permissions d) |>)
  else (500, d).

Definition AssignUserRole (w : world) (p : Principal) (userID : string) (body : option json) (d : tables)
    : Z * tables :=
  match decoded AssignUserRole_req body with
  | None => (400, d)
  | Some b =>
      let tenantID := tenant_for p b in
      let roleID := member b "role_id" in
      let scope := (existing w d roleID).1 in
      if negb (is_platform_admin p) && bool_decide (scope = "platform") then (403, d)
      else if decide (scope = "tenant" /\ tenantID = "") then (400, d)
      else
        let g := Grant userID roleID (nullIfEmpty tenantID) in
        if stmt w 1 && exists_tenant d (g_tenant g) && row_exists (users d) userID && row_exists (roles d) roleID
           && negb (bool_decide (g ∈ user_roles d))
        then (201, d <| user_roles := user_roles d ++ [g] |>) else (500, d)
  end.

Definition RemoveUserRole (w : world) (p : Principal) (userID roleID : string) (d : tables) : Z * tables :=
  if negb (is_platform_admin p) && bool_decide ((existing w d roleID).1 = "platform") then (403, d)
  else if negb (stmt w 1) then (500, d)
  else
    let gone g := bool_decide (g_user g = userID /\ g_what g = roleID) in
    if existsb gone (user_roles d)
    then (200, d <| user_roles := filter_by (fun g => negb (gone g)) (user_roles d) |>)
    else (404, d).

(** * Users *)

(** The error of the second insertion is not looked at. *)
Definition CreateUser (w : world) (p : Principal) (body : option json) (d : tables) : Z * tables :=
  match decoded CreateUser_req body with
  | None => (400, d)
  | Some b =>
      if decide (member b "email" = "" \/ member b "name" = "" \/ member b "password" = "") then (400, d)
      else
        match bcryptHash (member b "password") with
        | None => (500, d)
        | Some hash =>
            let tenantID := tenant_for p b in
            let platform := is_platform_admin p && flag b "is_platform_admin" in
            if negb platform && bool_decide (tenantID = "") then (400, d)
            else if stmt w 0 && negb (taken (fun u => bool_decide (u_email u = member b "email")) (users d))
                 && negb (row_exists (users d) (new_id w))
            then
              (201, d <| users := <[new_id w := MkUser (member b "email") (member b "name") hash platform "active" 0 None]>
                          (users d) |>
                 <| tenant_users :=
                      if bool_decide (tenantID <> "") && stmt w 1 && exists_tenant d (Some tenantID)
                         && negb (existsb (fun m => bool_decide (m.1 = (new_id w, tenantID))) (tenant_users d))
                      then tenant_users d ++ [(new_id w, tenantID, "active")] else tenant_users d |>)
            else (500, d)
        end
  end.

(** A user of a tenant changes its members, of whatever status. *)
Definition UpdateUser (w : world) (p : Principal) (id : string) (body : option json) (d : tables) : Z * tables :=
  match decoded UpdateUser_req body with
  | None => (400, d)
  | Some b =>
      if negb (stmt w 0) then (500, d)
      else
        match users d !! id with
        | Some u =>
            if is_platform_admin p
               || existsb (fun m => bool_decide (m.1 = (id, or_empty (tenant_id p)))) (tenant_users d)
            then
              let email := kept (u_email u) (member b "email") in
              if taken (fun u' => bool_decide (u_email u' = email)) (delete id (users d)) then (500, d)
              else
                (200, d <| users := <[id := u <| u_name := kept (u_name u) (member b "name") |>
                    <| u_email := email |> <| u_status := kept (u_status u) (member b "status") |>]> (users d) |>)
            else (404, d)
        | None => (404, d)
        end
  end.

(** * API keys *)

(** [GenerateAPIKey] *)
Definition GenerateAPIKey (w : world) (tenantID name createdBy : string) (scopes : list string)
    (expiresAt : option Z) (d : tables) : option tables :=
  let k := MkApiKey tenantID name (HashSecret (new_key w)) scopes (nullIfEmpty createdBy) expiresAt "active" false in
  if stmt w 0 && exists_tenant d (Some tenantID)
     && match k_created_by k with Some u => row_exists (users d) u | None => true end
     && negb (taken (fun k' => bool_decide (k_hash k' = k_hash k)) (api_keys d))
     && negb (row_exists (api_keys d) (new_id w))
  then Some (d <| api_keys := <[new_id w := k]> (api_keys d) |>) else None.

(** A time to expire that does not parse is no time. *)
Definition CreateAPIKey (w : world) (now : Z) (p : Principal) (body : option json) (d : tables) : Z * tables :=
  match decoded CreateAPIKey_req body with
  | None => (400, d)
  | Some b =>
      let tenantID := tenant_for p b in
      if decide (member b "name" = "") then (400, d)
      else if decide (tenantID = "") then (400, d)
      else
        let expiresAt :=
          if decide (member b "expires_in" = "") then None
          else (fun t => now + t) <$> ParseDuration (member b "expires_in") in
        match GenerateAPIKey w tenantID (member b "name") (user_id p) (texts b "scopes") expiresAt d with
        | Some d' => (201, d')
        | None => (500, d)
        end
  end.

Definition RevokeAPIKey (w : world) (p : Principal) (id : string) (d : tables) : Z * tables :=
  if negb (stmt w 0) then (500, d)
  else
    match api_keys d !! id with
    | Some k =>
        if touches p (k_tenant k) then
          if row_exists (users d) (user_id p)
          then (200, d <| api_keys := <[id := k <| k_status := "revoked" |> <| k_revoked := true |>]> (api_keys d) |>)
          else (500, d)
        else (404, d)
    | None => (404, d)
    end.

(** The key of a public call. *)
Definition usable (now : Z) (k : api_key) : bool :=
  bool_decide (k_status k = "active") && negb (k_revoked k)
  && match k_expires k with Some t => now <? t | None => true end.
Definition VerifyAPIKey (w : world) (now : Z) (rawKey : string) (d : tables) : option (string * api_key) :=
  if stmt w 0 then row_where (fun k => bool_decide (k_hash k = HashSecret rawKey) && usable now k) (api_keys d)
  else None.

(** [APIKeyScope]: the status it answers, or none. *)
Definition APIKeyScope (w : world) (now : Z) (rawKey scope : string) (d : tables) : option Z :=
  match VerifyAPIKey w now rawKey d with
  | None => Some 401
  | Some (_, k) => if negb (includes (k_scopes k) "*") && negb (includes (k_scopes k) scope) then Some 403 else None
  end.

(** * Routes *)

Definition handlers (w : world) (now : Z) (p : Principal) : handled_routes tables :=
  [ ("POST", [L "api-keys"], fun _ b => CreateAPIKey w now p b);
    ("DELETE", [L "api-keys"; V "id"], fun v _ => RevokeAPIKey w p (arg v 0));
    ("POST", [L "users"], fun _ b => CreateUser w p b);
    ("PUT", [L "users"; V "id"], fun v b => UpdateUser w p (arg v 0) b);
    ("POST", [L "roles"], fun _ b => CreateRole w p b);
    ("PUT", [L "roles"; V "id"], fun v b => UpdateRole w p (arg v 0) b);
    ("DELETE", [L "roles"; V "id"], fun v _ => DeleteRole w p (arg v 0));
    ("PUT", [L "roles"; V "id"; L "permissions"], fun v b => SetRolePermissions w p (arg v 0) b);
    ("POST", [L "roles"; V "id"; L "permissions"], fun _ b => AssignRolePermission w b);
    ("DELETE", [L "roles"; V "role_id"; L "permissions"; V "perm_id"],
       fun v _ => RemoveRolePermission w (arg v 0) (arg v 1));
    ("POST", [L "users"; V "user_id"; L "roles"], fun v b => AssignUserRole w p (arg v 0) b);
    ("DELETE", [L "users"; V "user_id"; L "roles"; V "role_id"], fun v _ => RemoveUserRole w p (arg v 0) (arg v 1)) ].

(** A request of a user: none for the routes whose handlers are not here. *)
Definition serve (w : world) (now : Z) (p : Principal) (r : request) (d : tables) : option (Z * tables) :=
  route_to (handlers w now p) p r d.

(** Requests of users, in their order: the statuses, and the tables. *)
Record call := Call { c_by : Principal; c_at : Z; c_world : world; c_request : request }.
Fixpoint serve_all (cs : list call) (d : tables) : option (list Z * tables) :=
  match cs with
  | [] => Some ([], d)
  | c :: cs =>
      '(status, d) ← serve (c_world c) (c_at c) (c_by c) (c_request c) d;
      '(statuses, d) ← serve_all cs d; Some (status :: statuses, d)
  end.

(** * Serving *)

(** The routes of the handlers are distinct. *)
Definition handled : list (string * list segment) := map fst (handlers (World (fun _ => true) "" "") 0 (MkPrincipal "" None "" false [])).
Lemma handled_once w now p : NoDup (map fst (handlers w now p)).
Proof. change (NoDup handled). apply (bool_decide_unpack _). vm_compute. done. Qed.

(** The request of the nth route, its wildcards filled with identifiers. *)
Lemma serve_at w now p n m pat (h : handler tables) perm segs r d :
  handlers w now p !! n = Some (m, pat, h) -> Route m pat perm ∈ routes -> req_method r = m ->
  req_path r = api_path segs -> segs <> [] -> Forall (fun x => ident x = true) segs -> fits pat segs = true ->
  perm <> "" ->
  serve w now p r d =
    Some (if HasPermission p perm then h (wildcards pat segs) (req_body r) d else (403, d)).
Proof. apply route_at, handled_once. Qed.

Lemma serve_handles w now p r d st d' :
  serve w now p r d = Some (st, d') ->
  (d' = d /\ st <> 200) \/ exists h v, handles (handlers w now p) h v r /\ h v (req_body r) d = (st, d').
Proof. intros [(? & ? & _)|H]%route_handles; [by left|by right]. Qed.

(** A property of the tables that every handler keeps is kept by requests. *)
Lemma serve_all_keeps (R : tables -> tables -> Prop) (who : call -> Prop) :
  (forall d, R d d) -> (forall d1 d2 d3, R d1 d2 -> R d2 d3 -> R d1 d3) ->
  (forall c h v d, who c -> handles (handlers (c_world c) (c_at c) (c_by c)) h v (c_request c) ->
     R d (h v (req_body (c_request c)) d).2) ->
  forall cs d sts d', Forall who cs -> serve_all cs d = Some (sts, d') -> R d d'.
Proof.
  intros Hrefl Htrans Hstep cs. induction cs as [|c cs IH]; intros d sts d' Hw; simpl; [by intros [= _ <-]|].
  apply List.Forall_cons_iff in Hw as [Hc Hw].
  destruct (serve _ _ _ _ d) as [[st d1]|] eqn:Hs; [|done]. simpl.
  destruct (serve_all cs d1) as [[sts1 d2]|] eqn:Hr; [|done]. simpl. intros [= _ <-].
  apply (Htrans d d1); [|by eapply IH]. apply serve_handles in Hs as [[-> _]|(h & v & Hh & Hhv)]; [done|].
  pose proof (Hstep c h v d Hc Hh) as H. by rewrite Hhv in H.
Qed.

(** * Tenants *)

Definition member_of (d : tables) (tenantID i : string) : Prop := exists st, (i, tenantID, st) ∈ tenant_users d.

(** What the users of a tenant leave as it is. *)
Record elsewhere (t : string) (d d' : tables) : Prop := Elsewhere {
  same_tenants : tenants d' = tenants d;
  same_sessions : sessions d' = sessions d;
  same_permissions : permission_rows d' = permission_rows d /\ allowed d' = allowed d /\ denied d' = denied d;
  others_roles : forall i r, r_tenant r <> Some t -> roles d' !! i = Some r <-> roles d !! i = Some r;
  others_keys : forall i k, k_tenant k <> t -> api_keys d' !! i = Some k <-> api_keys d !! i = Some k;
  others_members : forall t' i, t' <> t -> member_of d' t' i <-> member_of d t' i;
  kept_members : forall i, member_of d t i -> member_of d' t i;
  others_users : forall i u, users d !! i = Some u -> ~ member_of d' t i -> users d' !! i = Some u;
  no_new_admin : forall i u, users d' !! i = Some u -> u_platform u = true ->
    exists u0, users d !! i = Some u0 /\ u_platform u0 = true;
  new_grants : forall g, g ∈ user_roles d' -> g ∈ user_roles d \/ g_tenant g = Some t }.

Lemma elsewhere_refl t d : elsewhere t d d.
Proof. constructor; eauto. Qed.
Lemma elsewhere_trans t d1 d2 d3 : elsewhere t d1 d2 -> elsewhere t d2 d3 -> elsewhere t d1 d3.
Proof.
  intros [] []. constructor; try (intuition congruence); intros.
  - rewrite others_roles1 by done. auto.
  - rewrite others_keys1 by done. auto.
  - rewrite others_members1 by done. auto.
  - auto.
  - apply others_users1; [|done]. apply others_users0; [done|]. intros H'. auto.
  - destruct (no_new_admin1 i u) as (u0 & Hu0 & Hp); eauto.
  - destruct (new_grants1 g); eauto.
Qed.

Lemma elsewhere_roles t d rs rps us :
  (forall i r, r_tenant r <> Some t -> rs !! i = Some r <-> roles d !! i = Some r) ->
  (forall g, g ∈ us -> g ∈ user_roles d) ->
  elsewhere t d (d <| roles := rs |> <| role_permissions := rps |> <| user_roles := us |>).
Proof. intros H Hus. constructor; simpl; eauto. Qed.

Lemma elsewhere_keys t d ks :
  (forall i k, k_tenant k <> t -> ks !! i = Some k <-> api_keys d !! i = Some k) ->
  elsewhere t d (d <| api_keys := ks |>).
Proof. intros H. constructor; simpl; eauto. Qed.

Lemma elsewhere_permissions t d rps : elsewhere t d (d <| role_permissions := rps |>).
Proof. constructor; simpl; eauto. Qed.
Lemma elsewhere_grants t d us :
  (forall g, g ∈ us -> g ∈ user_roles d \/ g_tenant g = Some t) -> elsewhere t d (d <| user_roles := us |>).
Proof. constructor; simpl; eauto. Qed.

Section Home.
Variable w : world.
Variable now : Z.
Variable p : Principal.
Variable t : string.
Hypothesis Hplain : is_platform_admin p = false.
Hypothesis Hhome : tenant_id p = Some t.
Hypothesis Ht : t <> "".

Lemma tenant_for_home b : tenant_for p b = t.
Proof. unfold tenant_for. by rewrite Hplain, Hhome. Qed.
Lemma touches_home x : touches p x = bool_decide (x = t).
Proof. unfold touches. by rewrite Hplain, Hhome. Qed.
Lemma role_touched r : touches p (or_empty (r_tenant r)) = true -> r_tenant r = Some t.
Proof.
  rewrite touches_home, bool_decide_eq_true. destruct (r_tenant r); simpl; [by intros ->|]. by intros <-.
Qed.

Lemma row_exists_false {V} (rows : gmap string V) i : row_exists rows i = false -> rows !! i = None.
Proof. unfold row_exists. by rewrite negb_false_iff, bool_decide_eq_true. Qed.

Lemma CreateRole_home b d : elsewhere t d (CreateRole w p b d).2.
Proof.
  unfold CreateRole. destruct (decoded _ _) as [b'|]; [|apply elsewhere_refl].
  case_decide; [apply elsewhere_refl|]. rewrite Hplain, tenant_for_home.
  destruct (bool_decide _) eqn:E1; [apply elsewhere_refl|]. simpl.
  rewrite bool_decide_eq_false in E1.
  case_decide; [apply elsewhere_refl|]. destruct (bool_decide _ && true); [apply elsewhere_refl|].
  rewrite (decide_False _ _ E1). simpl r_tenant.
  destruct (stmt w 0 && _ && _ && _) eqn:E; [|apply elsewhere_refl]. apply andb_prop in E as [_ E%negb_true_iff].
  apply (elsewhere_roles t d _ (role_permissions d) (user_roles d)); [|done].
  apply (insert_elsewhere (fun r => r_tenant r = Some t)); [by apply nullIfEmpty_Some|].
  intros r. by rewrite row_exists_false.
Qed.

Lemma UpdateRole_home id b d : elsewhere t d (UpdateRole w p id b d).2.
Proof.
  unfold UpdateRole. destruct (decoded _ _); [|apply elsewhere_refl].
  destruct (closed_role _ _); [apply elsewhere_refl|]. destruct (negb _); [apply elsewhere_refl|].
  destruct (roles d !! id) as [r|] eqn:Hr; [|apply elsewhere_refl].
  destruct (touches _ _) eqn:E; [|apply elsewhere_refl]. apply role_touched in E.
  apply (elsewhere_roles t d _ (role_permissions d) (user_roles d)); [|done].
  apply (insert_elsewhere (fun r => r_tenant r = Some t)); [done|naive_solver].
Qed.

Lemma DeleteRole_home id d : elsewhere t d (DeleteRole w p id d).2.
Proof.
  unfold DeleteRole.
  destruct (closed_role _ _); [apply elsewhere_refl|]. destruct (negb _); [apply elsewhere_refl|].
  destruct (roles d !! id) as [r|] eqn:Hr; [|apply elsewhere_refl].
  destruct (touches _ _) eqn:E; [|apply elsewhere_refl]. apply role_touched in E.
  apply elsewhere_roles; [apply (delete_elsewhere (fun r => r_tenant r = Some t)); naive_solver|].
  intros g [_ Hg]%elem_of_filter_by. done.
Qed.

Lemma SetRolePermissions_home id b d : elsewhere t d (SetRolePermissions w p id b d).2.
Proof.
  unfold SetRolePermissions. destruct (decoded _ _); [|apply elsewhere_refl].
  destruct (closed_role _ _); [apply elsewhere_refl|]. do 2 (destruct (negb _); [apply elsewhere_refl|]).
  destruct (add_permissions _ _ _ _ _) eqn:E; [|apply elsewhere_refl].
  apply add_permissions_spec in E as [-> _]. apply (elsewhere_permissions t d).
Qed.

Lemma AssignRolePermission_home b d : elsewhere t d (AssignRolePermission w b d).2.
Proof.
  unfold AssignRolePermission. destruct (decoded _ _); [|apply elsewhere_refl].
  destruct (if stmt w 0 then _ else _) as [d'|] eqn:E; [|apply elsewhere_refl].
  destruct (stmt w 0); [|done]. apply add_permission_spec in E as [-> _]. apply (elsewhere_permissions t d).
Qed.

Lemma RemoveRolePermission_home id pid d : elsewhere t d (RemoveRolePermission w id pid d).2.
Proof. unfold RemoveRolePermission. destruct (stmt w 0); [apply elsewhere_permissions|apply elsewhere_refl]. Qed.

Lemma AssignUserRole_home u b d : elsewhere t d (AssignUserRole w p u b d).2.
Proof.
  unfold AssignUserRole. destruct (decoded _ _); [|apply elsewhere_refl].
  destruct (negb _ && _); [apply elsewhere_refl|]. case_decide; [apply elsewhere_refl|].
  destruct (_ && _); [|apply elsewhere_refl]. apply elsewhere_grants. intros g.
  rewrite elem_of_app, list_elem_of_singleton. intros [Hg| ->]; [by left|right]. simpl.
  rewrite tenant_for_home. by apply nullIfEmpty_Some.
Qed.

Lemma RemoveUserRole_home u r d : elsewhere t d (RemoveUserRole w p u r d).2.
Proof.
  unfold RemoveUserRole. destruct (negb _ && _); [apply elsewhere_refl|].
  destruct (negb _); [apply elsewhere_refl|]. destruct (existsb _ _); [|apply elsewhere_refl].
  apply elsewhere_grants. intros g [_ Hg]%elem_of_filter_by. by left.
Qed.

Lemma member_of_app t' i j x l d :
  member_of (d <| tenant_users := tenant_users d ++ [(j, x, l)] |>) t' i
  <-> member_of d t' i \/ (i = j /\ t' = x).
Proof. unfold member_of. simpl. setoid_rewrite elem_of_app. setoid_rewrite list_elem_of_singleton. naive_solver. Qed.

Lemma CreateUser_home b d : elsewhere t d (CreateUser w p b d).2.
Proof.
  unfold CreateUser. destruct (decoded _ _) as [b'|]; [|apply elsewhere_refl].
  case_decide; [apply elsewhere_refl|]. destruct (bcryptHash _) as [hash|]; [|apply elsewhere_refl].
  rewrite Hplain, tenant_for_home. simpl. destruct (bool_decide (t = "")); [apply elsewhere_refl|].
  destruct (stmt w 0 && _ && _) eqn:E; [|apply elsewhere_refl]. apply andb_prop in E as [_ E%negb_true_iff].
  apply row_exists_false in E. simpl.
  set (u := MkUser _ _ _ _ _ _ _).
  assert (Hk : forall ms, (forall t' i, t' <> t -> member_of (d <| tenant_users := ms |>) t' i <-> member_of d t' i) ->
    (forall i, member_of d t i -> member_of (d <| tenant_users := ms |>) t i) ->
    elsewhere t d (d <| users := <[new_id w := u]> (users d) |> <| tenant_users := ms |>)).
  { intros ms Hms Hmt. constructor; simpl; eauto.
    - intros i v Hi _. destruct (decide (new_id w = i)) as [<-|Hne]; [congruence|by rewrite lookup_insert_ne].
    - intros i v. destruct (decide (new_id w = i)) as [<-|Hne].
      + rewrite lookup_insert_eq. intros [= <-]. done.
      + rewrite lookup_insert_ne by done. eauto. }
  apply Hk; destruct (_ && _); intros; rewrite ?member_of_app; naive_solver.
Qed.

Lemma UpdateUser_home id b d : elsewhere t d (UpdateUser w p id b d).2.
Proof.
  unfold UpdateUser. destruct (decoded _ _) as [b'|]; [|apply elsewhere_refl].
  destruct (negb _); [apply elsewhere_refl|]. destruct (users d !! id) as [u|] eqn:Hu; [|apply elsewhere_refl].
  rewrite Hplain, Hhome. simpl. destruct (existsb _ _) eqn:E; [|apply elsewhere_refl].
  destruct (taken _ _); [apply elsewhere_refl|].
  assert (Hm : member_of d t id).
  { apply existsb_exists in E as ([m st] & Hin & Hm%bool_decide_eq_true). simpl in Hm. subst m.
    exists st. by apply list_elem_of_In. }
  constructor; simpl; eauto.
  - intros i v Hi Hn. rewrite lookup_insert_ne; [done|]. by intros <-.
  - intros i v. destruct (decide (id = i)) as [<-|Hne].
    + rewrite lookup_insert_eq. intros [= <-] Hp. by exists u.
    + rewrite lookup_insert_ne by done. eauto.
Qed.

Lemma CreateAPIKey_home b d : elsewhere t d (CreateAPIKey w now p b d).2.
Proof.
  unfold CreateAPIKey. destruct (decoded _ _) as [b'|]; [|apply elsewhere_refl].
  rewrite tenant_for_home. do 2 (case_decide; [apply elsewhere_refl|]). unfold GenerateAPIKey.
  destruct (_ && _) eqn:E; [|apply elsewhere_refl]. apply andb_prop in E as [_ E%negb_true_iff].
  apply elsewhere_keys, (insert_elsewhere (fun k => k_tenant k = t)); [done|].
  intros k. by rewrite row_exists_false.
Qed.

Lemma RevokeAPIKey_home id d : elsewhere t d (RevokeAPIKey w p id d).2.
Proof.
  unfold RevokeAPIKey. destruct (negb _); [apply elsewhere_refl|].
  destruct (api_keys d !! id) as [k|] eqn:Hk; [|apply elsewhere_refl].
  rewrite touches_home. destruct (bool_decide _) eqn:E; [|apply elsewhere_refl]. apply bool_decide_eq_true in E.
  destruct (row_exists _ _); [|apply elsewhere_refl].
  apply elsewhere_keys, (insert_elsewhere (fun k => k_tenant k = t)); [done|naive_solver].
Qed.

Lemma handler_home h v r d : handles (handlers w now p) h v r -> elsewhere t d (h v (req_body r) d).2.
Proof.
  intros (m & pat & segs & Hin & _). unfold handlers in Hin.
  repeat (apply elem_of_cons in Hin as [[= -> -> ->]|Hin]); [..|by apply elem_of_nil in Hin];
    eauto using CreateRole_home, UpdateRole_home, DeleteRole_home, SetRolePermissions_home,
      AssignRolePermission_home, RemoveRolePermission_home, AssignUserRole_home, RemoveUserRole_home,
      CreateUser_home, UpdateUser_home, CreateAPIKey_home, RevokeAPIKey_home.
Qed.

End Home.

(** A request for the permissions of a role: by its path, or by its body for the
    handler that reads it there. *)
Definition names_role (c : call) (role : string) : Prop :=
  exists x rest, api_segments (req_path (c_request c)) = Some ("roles" :: x :: "permissions" :: rest)
    /\ (x = role
        \/ exists b, decoded AssignRolePermission_req (req_body (c_request c)) = Some b /\ member b "role_id" = role).
(** The grant that a request takes away. *)
Definition names_grant (c : call) (userID role : string) : Prop :=
  req_method (c_request c) = "DELETE"
  /\ api_segments (req_path (c_request c)) = Some ["users"; userID; "roles"; role].

(** A role of others, as the requests that do not name it leave it. *)
Record untouched (role : string) (d d' : tables) : Prop := Untouched {
  same_row : roles d' !! role = roles d !! role;
  same_given : forall i, (role, i) ∈ role_permissions d' <-> (role, i) ∈ role_permissions d }.

Lemma untouched_refl role d : untouched role d d.
Proof. by split. Qed.
Lemma untouched_trans role d1 d2 d3 : untouched role d1 d2 -> untouched role d2 d3 -> untouched role d1 d3.
Proof. intros [H1 H2] [H3 H4]. split; [congruence|]. intros i. by rewrite H4. Qed.

Section Named.
Ltac stays := exact (untouched_refl _ _).
Variable w : world.
Variable p : Principal.
Variable t : string.
Hypothesis Hplain : is_platform_admin p = false.
Hypothesis Hhome : tenant_id p = Some t.
Hypothesis Ht : t <> "".

Lemma SetRolePermissions_other id b d role : id <> role -> untouched role d (SetRolePermissions w p id b d).2.
Proof.
  intros Hne. unfold SetRolePermissions. destruct (decoded _ _); [|stays]. destruct (closed_role _ _); [stays|]. do 2 (destruct (negb _); [stays|]).
  destruct (add_permissions _ _ _ _ _) as [d'|] eqn:E; [|stays].
  apply add_permissions_spec in E as [-> Hin]. split; [done|]. intros i. simpl. rewrite Hin. simpl.
  rewrite elem_of_filter_by, negb_true_iff, bool_decide_eq_false. naive_solver.
Qed.

Lemma AssignRolePermission_other b d role :
  (forall b', decoded AssignRolePermission_req b = Some b' -> member b' "role_id" <> role) ->
  untouched role d (AssignRolePermission w b d).2.
Proof.
  intros Hne. unfold AssignRolePermission. destruct (decoded _ _) as [b'|]; [|stays].
  destruct (if stmt w 0 then _ else _) as [d'|] eqn:E; [|stays]. destruct (stmt w 0); [|done].
  apply add_permission_spec in E as [-> Hin]. split; [done|]. intros i. simpl. rewrite Hin.
  specialize (Hne b' eq_refl). naive_solver.
Qed.

Lemma RemoveRolePermission_other id pid d role : id <> role -> untouched role d (RemoveRolePermission w id pid d).2.
Proof.
  intros Hne. unfold RemoveRolePermission. destruct (stmt w 0); [|stays]. split; [done|]. intros i. simpl.
  rewrite elem_of_filter_by, negb_true_iff, bool_decide_eq_false. naive_solver.
Qed.

(** A role of others stays through the other handlers, named or not. *)
Lemma CreateRole_untouched b d role : is_Some (roles d !! role) -> untouched role d (CreateRole w p b d).2.
Proof.
  intros [r Hr]. unfold CreateRole. destruct (decoded _ _) as [b'|]; [|stays]. case_decide; [stays|].
  rewrite Hplain, (tenant_for_home p t Hplain Hhome). destruct (bool_decide _) eqn:E1; [stays|]. simpl.
  rewrite bool_decide_eq_false in E1. case_decide; [stays|]. destruct (bool_decide _ && true); [stays|].
  rewrite (decide_False _ _ E1). destruct (stmt w 0 && _ && _ && _) eqn:E; [|stays].
  apply andb_prop in E as [_ E%negb_true_iff]. apply row_exists_false in E.
  split; [|done]. simpl. rewrite lookup_insert_ne; congruence.
Qed.

Lemma UpdateRole_untouched id b d role r :
  roles d !! role = Some r -> r_tenant r <> Some t -> untouched role d (UpdateRole w p id b d).2.
Proof.
  intros Hr Hn. unfold UpdateRole. destruct (decoded _ _); [|stays]. destruct (closed_role _ _); [stays|]. destruct (negb _); [stays|].
  destruct (roles d !! id) as [r'|] eqn:Hr'; [|stays]. destruct (touches _ _) eqn:E; [|stays].
  apply (role_touched p t Hplain Hhome Ht) in E. split; [|done]. simpl. rewrite lookup_insert_ne; congruence.
Qed.

Lemma DeleteRole_untouched id d role r :
  roles d !! role = Some r -> r_tenant r <> Some t ->
  untouched role d (DeleteRole w p id d).2
  /\ forall g, g ∈ user_roles d -> g_what g = role -> g ∈ user_roles (DeleteRole w p id d).2.
Proof.
  intros Hr Hn. unfold DeleteRole. destruct (closed_role _ _); [split; [stays|done]|].
  destruct (negb _); [split; [stays|done]|].
  destruct (roles d !! id) as [r'|] eqn:Hr'; [|split; [stays|done]]. destruct (touches _ _) eqn:E; [|split; [stays|done]].
  apply (role_touched p t Hplain Hhome Ht) in E. assert (Hne : id <> role) by congruence.
  split; [split|]; simpl.
  - by rewrite lookup_delete_ne.
  - intros i. rewrite elem_of_filter_by, negb_true_iff, bool_decide_eq_false. naive_solver.
  - intros g Hg Hw. apply elem_of_filter_by. split; [|done].
    rewrite negb_true_iff, bool_decide_eq_false. congruence.
Qed.

Lemma RemoveUserRole_other u id d g :
  g ∈ user_roles d -> (u, id) <> (g_user g, g_what g) -> g ∈ user_roles (RemoveUserRole w p u id d).2.
Proof.
  intros Hg Hne. unfold RemoveUserRole. destruct (_ && bool_decide _); [done|]. destruct (negb _); [done|].
  destruct (existsb _ _); [|done]. simpl. apply elem_of_filter_by. split; [|done].
  rewrite negb_true_iff, bool_decide_eq_false. naive_solver.
Qed.

(** What the handlers of users and keys leave, and those of roles of the grants. *)
Definition same_roles (d d' : tables) : Prop :=
  roles d' = roles d /\ role_permissions d' = role_permissions d /\ user_roles d' = user_roles d.
Ltac leaves := repeat (case_match; try done).

Lemma users_leave_roles now id b d :
  same_roles d (CreateAPIKey w now p b d).2 /\ same_roles d (RevokeAPIKey w p id d).2
  /\ same_roles d (CreateUser w p b d).2 /\ same_roles d (UpdateUser w p id b d).2.
Proof.
  split_and!.
  - unfold CreateAPIKey, GenerateAPIKey. leaves; by simplify_eq.
  - unfold RevokeAPIKey. leaves.
  - unfold CreateUser. leaves.
  - unfold UpdateUser. leaves.
Qed.

Lemma roles_leave_grants id pid b d :
  user_roles (CreateRole w p b d).2 = user_roles d /\ user_roles (UpdateRole w p id b d).2 = user_roles d
  /\ user_roles (SetRolePermissions w p id b d).2 = user_roles d
  /\ user_roles (AssignRolePermission w b d).2 = user_roles d
  /\ user_roles (RemoveRolePermission w id pid d).2 = user_roles d.
Proof.
  split_and!.
  - unfold CreateRole. leaves.
  - unfold UpdateRole. leaves.
  - unfold SetRolePermissions. leaves.
    match goal with H : add_permissions _ _ _ _ _ = Some _ |- _ => by apply add_permissions_spec in H as [-> _] end.
  - unfold AssignRolePermission. leaves.
    match goal with H : add_permission _ _ _ = Some _ |- _ => by apply add_permission_spec in H as [-> _] end.
  - unfold RemoveRolePermission. leaves.
Qed.

Lemma user_roles_leave_roles u id b d role :
  untouched role d (AssignUserRole w p u b d).2 /\ untouched role d (RemoveUserRole w p u id d).2
  /\ forall g, g ∈ user_roles d -> g ∈ user_roles (AssignUserRole w p u b d).2.
Proof.
  split_and!.
  - unfold AssignUserRole. leaves; stays.
  - unfold RemoveUserRole. leaves; stays.
  - intros g Hg. unfold AssignUserRole. leaves. simpl. apply elem_of_app. by left.
Qed.

Lemma same_roles_untouched role d d' : same_roles d d' ->
  untouched role d d' /\ forall g, g ∈ user_roles d -> g ∈ user_roles d'.
Proof. intros (H1 & H2 & H3). split; [split; [by rewrite H1|by rewrite H2]|by rewrite H3]. Qed.

(** What a handler leaves of a role of others. *)
Definition leaves_role (c : call) (role : string) (d d' : tables) : Prop :=
  (~ names_role c role -> untouched role d d')
  /\ forall g, g ∈ user_roles d -> g_what g = role -> ~ names_grant c (g_user g) role -> g ∈ user_roles d'.

Lemma same_roles_leave c role d d' : same_roles d d' -> leaves_role c role d d'.
Proof. intros [H1 H2]%(same_roles_untouched role). split; auto. Qed.

(** The segments of a pattern of at most four. *)
Ltac segments Hf segs :=
  destruct segs as [|? [|? [|? [|? [|? ?]]]]]; simpl in Hf;
  rewrite ?andb_false_r, ?andb_true_iff, ?bool_decide_eq_true in Hf; try done; destruct_and? Hf; subst.

Lemma handler_leaves c h v d role r :
  handles (handlers w (c_at c) p) h v (c_request c) ->
  roles d !! role = Some r -> r_tenant r <> Some t -> leaves_role c role d (h v (req_body (c_request c)) d).2.
Proof.
  intros (m & pat & segs & Hin & Hm & Hsegs & Hf & ->) Hr Hn.
  set (b := req_body (c_request c)).
  destruct (users_leave_roles (c_at c) (arg (wildcards pat segs) 0) b d) as (HK & HV & HU & HX).
  destruct (roles_leave_grants (arg (wildcards pat segs) 0) (arg (wildcards pat segs) 1) b d) as (G1 & G2 & G3 & G4 & G5).
  destruct (user_roles_leave_roles (arg (wildcards pat segs) 0) (arg (wildcards pat segs) 1) b d role) as (A1 & A2 & A3).
  unfold handlers in Hin.
  repeat (apply elem_of_cons in Hin as [[= -> -> ->]|Hin]); [..|by apply elem_of_nil in Hin];
    try (by apply same_roles_leave).
  - split; [intros _; apply CreateRole_untouched; by eexists|]. intros g Hg _ _. by rewrite G1.
  - split; [intros _; by eapply UpdateRole_untouched|]. intros g Hg _ _. by rewrite G2.
  - destruct (DeleteRole_untouched (arg (wildcards [L "roles"; V "id"] segs) 0) d role r Hr Hn) as [H1 H2].
    split; [done|]. intros g Hg Hg' _. by apply H2.
  - split; [|intros g Hg _ _; by rewrite G3]. segments Hf segs. intros Hne. apply SetRolePermissions_other.
    intros E. apply Hne. eexists _, _. split; [exact Hsegs|]. by left.
  - split; [|intros g Hg _ _; by rewrite G4]. segments Hf segs. intros Hne. apply AssignRolePermission_other.
    intros b' Hb E. apply Hne. eexists _, _. split; [exact Hsegs|]. right. by exists b'.
  - split; [|intros g Hg _ _; by rewrite G5]. segments Hf segs. intros Hne. apply RemoveRolePermission_other.
    intros E. apply Hne. eexists _, _. split; [exact Hsegs|]. by left.
  - split; [done|]. intros g Hg _ _. by apply A3.
  - split; [done|]. segments Hf segs. intros g Hg Hr' Hne. apply RemoveUserRole_other; [done|].
    intros E. apply Hne. unfold names_grant. split; [by rewrite <- Hm|].
    rewrite Hsegs. unfold arg in E. simpl in E. congruence.
Qed.
End Named.

(** The calls of users of a tenant leave the roles of others, but for those named. *)
Lemma calls_leave t cs d sts d' role r (who : call -> Prop) (R : tables -> tables -> Prop) :
  t <> "" -> Forall (fun c => is_platform_admin (c_by c) = false /\ tenant_id (c_by c) = Some t) cs ->
  Forall who cs -> (forall d, R d d) -> (forall d1 d2 d3, R d1 d2 -> R d2 d3 -> R d1 d3) ->
  (forall c d d', who c -> leaves_role c role d d' -> R d d') ->
  serve_all cs d = Some (sts, d') -> roles d !! role = Some r -> r_tenant r <> Some t -> R d d'.
Proof.
  intros Ht Hc Hw Hrefl Htrans HR Hs Hr Hn.
  enough (H : roles d !! role = Some r -> roles d' !! role = Some r /\ R d d') by by apply H.
  clear Hr. revert Hs. apply (serve_all_keeps (fun d d' => roles d !! role = Some r -> roles d' !! role = Some r /\ R d d')
    (fun c => (is_platform_admin (c_by c) = false /\ tenant_id (c_by c) = Some t) /\ who c)).
  - intros d0 H. by split.
  - intros d1 d2 d3 H1 H2 H. destruct (H1 H) as [H3 ?]. destruct (H2 H3). split; [done|by eapply Htrans].
  - intros c h v d0 [[Hp Hh] Hwho] Hhand Hr. split.
    + apply (others_roles t d0); [by eapply handler_home|done|done].
    + apply (HR c); [done|]. by eapply (handler_leaves (c_world c) (c_by c) t).
  - rewrite Forall_forall in Hc, Hw. apply Forall_forall. auto.
Qed.

(** C4: what the users of a tenant write stays in their tenant, but for two holes.
    Whatever requests they send, of any order and bodies and with any failures, the
    rows of roles and the API keys of other tenants and of the platform, the members
    of other tenants and the users who are no members of theirs are as before, none of
    their users becomes or is made a platform user, and every role that they give is
    limited to their tenant.  The permissions of a role of others stay too, unless a
    request names the role; and so does its being given to a user, unless a
    request takes it from that user.  That such requests go through is shown by
    [role_is_emptied_from_elsewhere] and [foreign_role_is_taken_away]. *)
Theorem tenant_writes_stay_home t cs d sts d' :
  t <> "" -> Forall (fun c => is_platform_admin (c_by c) = false /\ tenant_id (c_by c) = Some t) cs ->
  serve_all cs d = Some (sts, d') ->
  elsewhere t d d'
  /\ forall role r, roles d !! role = Some r -> r_tenant r <> Some t ->
       (Forall (fun c => ~ names_role c role) cs ->
          forall i, (role, i) ∈ role_permissions d' <-> (role, i) ∈ role_permissions d)
       /\ forall g, g ∈ user_roles d -> g_what g = role -> Forall (fun c => ~ names_grant c (g_user g) role) cs ->
            g ∈ user_roles d'.
Proof.
  intros Ht Hc Hs. split.
  - revert Hc Hs. apply serve_all_keeps; [apply elsewhere_refl|apply elsewhere_trans|].
    intros c h v d0 [Hp Hh]. by apply handler_home.
  - intros role r Hr Hn. split.
    + intros Hno. apply (calls_leave t cs d sts d' role r (fun c => ~ names_role c role) (untouched role));
        [done|done|done|apply untouched_refl|apply untouched_trans| |done|done|done].
      intros c d1 d2 H [H1 _]. by apply H1.
    + intros g Hg Hw Hno.
      apply (calls_leave t cs d sts d' role r (fun c => ~ names_grant c (g_user g) role)
        (fun d d' => g ∈ user_roles d -> g ∈ user_roles d')); [done|done|done|done|eauto| |done..].
      intros c d1 d2 H [_ H2] Hg1. by apply H2.
Qed.

(** * What a role permits *)

Definition role_holds (d : tables) (userID tenantID r : string) : Prop := r ∈ held userID tenantID (user_roles d).

(** A user of a tenant who may manage roles gives the role that they hold any
    permission there is, and has it from the next token on. *)
Theorem managers_grant_themselves_anything w now p t role i k any d :
  is_platform_admin p = false -> HasPermission p "roles.manage" = true ->
  ident any = true -> stmt w 0 = true ->
  role_holds d (user_id p) t role -> row_exists (roles d) role = true -> permission_rows d !! i = Some k ->
  (forall j, permission_rows d !! j = Some k -> j ∉ held (user_id p) t (denied d)) ->
  exists d', serve w now p (POST (api_path ["roles"; any; "permissions"])
      (JObj [("role_id", JStr role); ("permission_id", JStr i)])) d = Some (201, d')
    /\ k ∈ EffectivePermissions d' (user_id p) t.
Proof.
  intros Hp Hperm Hany Hs Hhold Hrole Hi Hden.
  destruct (add_permission d role i) as [d'|] eqn:E.
  2: { unfold add_permission in E. rewrite Hrole in E. unfold row_exists in E. rewrite Hi in E. done. }
  exists d'. apply add_permission_spec in E as Hd'. destruct Hd' as [Hd' Hin]. split.
  - rewrite (serve_at w now p 8 _ _ _ "roles.manage" ["roles"; any; "permissions"] _ d eq_refl); try done.
    + rewrite Hperm. set (b := JObj _). transitivity (Some (AssignRolePermission w (Some b) d)); [done|].
      unfold AssignRolePermission. change (decoded AssignRolePermission_req (Some b)) with (Some b). cbv beta iota.
      change (member b "role_id") with role. change (member b "permission_id") with i. by rewrite Hs, E.
    + apply list_elem_of_In. vm_compute. tauto.
    + repeat constructor; done.
    + simpl. by rewrite (proj1 (ident_plain _ Hany)).
  - apply EffectivePermissions_spec. rewrite Hd'. simpl. split.
    + exists i. split; [done|]. left. exists role. split; [apply Hin; by right|done].
    + intros (j & Hj & Hjd). by apply (Hden j).
Qed.
(** A user of a tenant who may manage roles takes all permissions from any role of any
    tenant but the platform: the handler asks only that the role has a tenant. *)
Theorem role_is_emptied_from_elsewhere w now p role r d :
  is_platform_admin p = false -> HasPermission p "roles.manage" = true -> ident role = true ->
  (forall n, stmt w n = true) -> roles d !! role = Some r -> r_scope r = "tenant" -> is_Some (r_tenant r) ->
  r_tenant r <> Some "" ->
  exists d', serve w now p (PUT (api_path ["roles"; role; "permissions"]) (JObj [("permission_ids", JArr [])])) d
      = Some (200, d')
    /\ forall i, (role, i) ∉ role_permissions d'.
Proof.
  intros Hp Hperm Hrole Hs Hr Hscope [t' Ht] Hne. eexists. split.
  - rewrite (serve_at w now p 7 _ _ _ "roles.manage" ["roles"; role; "permissions"] _ d eq_refl); try done.
    + rewrite Hperm. set (b := JObj _).
      transitivity (Some (SetRolePermissions w p role (Some b) d)); [done|].
      unfold SetRolePermissions. change (decoded SetRolePermissions_req (Some b)) with (Some b). cbv beta iota.
      change (texts b "permission_ids") with (@nil string).
      unfold closed_role, existing. rewrite !Hs, Hr, Ht, Hscope, Hp. simpl.
      rewrite bool_decide_false by naive_solver. simpl. rewrite Hs. done.
    + apply list_elem_of_In. vm_compute. tauto.
    + repeat constructor; done.
    + simpl. by rewrite (proj1 (ident_plain _ Hrole)).
  - intros i. simpl. rewrite elem_of_filter_by, negb_true_iff, bool_decide_eq_false. naive_solver.
Qed.

(** A user of a tenant who may do so takes a role of others from a user of theirs. *)
Theorem foreign_role_is_taken_away w now p userID role r g d :
  is_platform_admin p = false -> HasPermission p "roles.manage" = true -> ident userID = true -> ident role = true ->
  (forall n, stmt w n = true) -> roles d !! role = Some r -> r_scope r = "tenant" ->
  g ∈ user_roles d -> g_user g = userID -> g_what g = role ->
  exists d', serve w now p (DELETE (api_path ["users"; userID; "roles"; role])) d = Some (200, d')
    /\ ~ exists g', g' ∈ user_roles d' /\ g_user g' = userID /\ g_what g' = role.
Proof.
  intros Hp Hperm Hu Hrole Hs Hr Hscope Hg <- <-.
  assert (He : existsb (fun g' => bool_decide (g_user g' = g_user g /\ g_what g' = g_what g)) (user_roles d) = true).
  { apply existsb_exists. exists g. split; [by apply list_elem_of_In|by apply bool_decide_eq_true]. }
  eexists. split.
  - rewrite (serve_at w now p 11 _ _ _ "roles.manage" ["users"; g_user g; "roles"; g_what g] _ d eq_refl); try done.
    + rewrite Hperm. transitivity (Some (RemoveUserRole w p (g_user g) (g_what g) d)); [done|].
      unfold RemoveUserRole, existing. rewrite !Hs, Hr, Hscope, Hp. simpl. rewrite He. done.
    + apply list_elem_of_In. vm_compute. tauto.
    + repeat constructor; done.
    + simpl. by rewrite (proj1 (ident_plain _ Hu)), (proj1 (ident_plain _ Hrole)).
  - intros (g' & [Hn Hin]%elem_of_filter_by & Hgu & Hgw). rewrite negb_true_iff, bool_decide_eq_false in Hn. by apply Hn.
Qed.

(** * The life of a key *)

Definition unique_hashes (d : tables) : Prop :=
  forall i j k l, api_keys d !! i = Some k -> api_keys d !! j = Some l -> k_hash k = k_hash l -> i = j.

(** What an answered request does to the key [id]. *)
Definition revokes (id : string) (c : call * Z) : bool :=
  bool_decide (req_method (c_request c.1) = "DELETE" /\ api_segments (req_path (c_request c.1)) = Some ["api-keys"; id]
    /\ c.2 = 200).
Definition key_after (revoked : bool) (k : api_key) : api_key :=
  if revoked then k <| k_status := "revoked" |> <| k_revoked := true |> else k.

Lemma key_after_twice r r' k : key_after r' (key_after r k) = key_after (r || r') k.
Proof. by destruct r, r'. Qed.

(** The other handlers leave the keys. *)
Ltac leaves_keys := repeat (case_match; try done).

Lemma roles_leave_keys w p v b d :
  api_keys (CreateUser w p b d).2 = api_keys d /\ api_keys (UpdateUser w p (arg v 0) b d).2 = api_keys d
  /\ api_keys (CreateRole w p b d).2 = api_keys d /\ api_keys (UpdateRole w p (arg v 0) b d).2 = api_keys d
  /\ api_keys (DeleteRole w p (arg v 0) d).2 = api_keys d
  /\ api_keys (SetRolePermissions w p (arg v 0) b d).2 = api_keys d
  /\ api_keys (AssignRolePermission w b d).2 = api_keys d
  /\ api_keys (RemoveRolePermission w (arg v 0) (arg v 1) d).2 = api_keys d
  /\ api_keys (AssignUserRole w p (arg v 0) b d).2 = api_keys d
  /\ api_keys (RemoveUserRole w p (arg v 0) (arg v 1) d).2 = api_keys d.
Proof.
  split_and!.
  - unfold CreateUser. leaves_keys.
  - unfold UpdateUser. leaves_keys.
  - unfold CreateRole. leaves_keys.
  - unfold UpdateRole. leaves_keys.
  - unfold DeleteRole. leaves_keys.
  - unfold SetRolePermissions. destruct (decoded _ _); [|done]. repeat (destruct (_ : bool); [done|]).
    destruct (add_permissions _ _ _ _ _) eqn:E; [|done]. by apply add_permissions_spec in E as [-> _].
  - unfold AssignRolePermission. destruct (decoded _ _); [|done]. destruct (if stmt w 0 then _ else _) eqn:E; [|done].
    destruct (stmt w 0); [|done]. by apply add_permission_spec in E as [-> _].
  - unfold RemoveRolePermission. leaves_keys.
  - unfold AssignUserRole. leaves_keys.
  - unfold RemoveUserRole. leaves_keys.
Qed.

Lemma taken_false {V} (f : V -> bool) rows : taken f rows = false -> forall i v, rows !! i = Some v -> f v = false.
Proof. unfold taken. destruct (row_where f rows) eqn:E; [done|]. intros _. by apply row_where_None. Qed.

Lemma create_key w now p b d st d' :
  CreateAPIKey w now p b d = (st, d') -> unique_hashes d ->
  unique_hashes d'
  /\ (st <> 201 /\ d' = d
      \/ exists b' k, decoded CreateAPIKey_req b = Some b' /\ api_keys d !! new_id w = None
        /\ api_keys d' = <[new_id w := k]> (api_keys d) /\ k_tenant k = tenant_for p b'
        /\ k_scopes k = texts b' "scopes" /\ k_hash k = HashSecret (new_key w) /\ k_status k = "active"
        /\ k_revoked k = false /\ (member b' "expires_in" = "" -> k_expires k = None)).
Proof.
  unfold CreateAPIKey. intros H Hu. destruct (decoded _ _) as [b'|]; [|by simplify_eq; split; [|left]].
  do 2 (case_decide; [by simplify_eq; split; [|left]|]). unfold GenerateAPIKey in H.
  destruct (_ && _) eqn:E; [|by simplify_eq; split; [|left]].
  rewrite !andb_true_iff, !negb_true_iff in E. destruct E as [[_ Ht] Hn]. apply row_exists_false in Hn.
  pose proof (taken_false _ _ Ht) as Hf. simpl in *. set (k := MkApiKey _ _ _ _ _ _ _ _) in *. simplify_eq. split.
  - intros i j x y. simpl. destruct (decide (new_id w = i)) as [<-|Hi], (decide (new_id w = j)) as [<-|Hj];
      rewrite ?lookup_insert_eq, ?lookup_insert_ne by done; [done|..|by apply Hu].
    + intros [= <-] Hy Hh. apply Hf in Hy. by rewrite bool_decide_eq_false in Hy.
    + intros Hx [= <-] Hh. apply Hf in Hx. by rewrite bool_decide_eq_false in Hx.
  - right. exists b', k. split_and!; try done. intros He. simpl. by rewrite decide_True.
Qed.

Lemma revoke_key_step w p x d st d' id k :
  RevokeAPIKey w p x d = (st, d') -> unique_hashes d -> api_keys d !! id = Some k ->
  unique_hashes d' /\ api_keys d' !! id = Some (key_after (bool_decide (x = id /\ st = 200)) k).
Proof.
  unfold RevokeAPIKey. intros H Hu Hk. destruct (negb _); [simplify_eq; by rewrite bool_decide_false by naive_solver|].
  destruct (api_keys d !! x) as [k'|] eqn:Hx; [|simplify_eq; by rewrite bool_decide_false by naive_solver].
  destruct (touches _ _); [|simplify_eq; by rewrite bool_decide_false by naive_solver].
  destruct (row_exists _ _); [|simplify_eq; by rewrite bool_decide_false by naive_solver].
  simplify_eq. simpl. split.
  - intros i j y z. simpl. destruct (decide (x = i)) as [<-|Hi], (decide (x = j)) as [<-|Hj];
      rewrite ?lookup_insert_eq, ?lookup_insert_ne by done; [done|..|by apply Hu].
    + intros [= <-] Hy Hh. by apply (Hu x j k' z).
    + intros Hy [= <-] Hh. by apply (Hu i x y k').
  - destruct (decide (x = id)) as [->|Hne].
    + rewrite lookup_insert_eq, bool_decide_true by done. simpl. congruence.
    + by rewrite lookup_insert_ne, bool_decide_false by naive_solver.
Qed.

Lemma fits_item a n segs : fits [L a; V n] segs = true -> exists x, segs = [a; x].
Proof.
  destruct segs as [|s [|x [|y segs]]]; simpl; rewrite ?andb_false_r, ?andb_true_iff, ?bool_decide_eq_true; try done.
  all: naive_solver.
Qed.

Lemma key_step c st d d' id k :
  serve (c_world c) (c_at c) (c_by c) (c_request c) d = Some (st, d') ->
  unique_hashes d -> api_keys d !! id = Some k ->
  unique_hashes d' /\ api_keys d' !! id = Some (key_after (revokes id (c, st)) k).
Proof.
  intros Hs Hu Hk. apply serve_handles in Hs as [[-> Hst]|(h & v & (m & pat & segs & Hin & Hm & Hsegs & Hf & ->) & Hh)].
  { split; [done|]. unfold revokes. by rewrite bool_decide_false by naive_solver. }
  set (w := c_world c) in *. set (p := c_by c) in *. set (b := req_body (c_request c)) in *.
  assert (Hkeep : api_keys d' = api_keys d -> (m <> "DELETE" \/ segs <> ["api-keys"; id]) ->
    unique_hashes d' /\ api_keys d' !! id = Some (key_after (revokes id (c, st)) k)).
  { intros E Hne. unfold unique_hashes. rewrite E. split; [done|]. unfold revokes.
    rewrite bool_decide_false; [done|]. simpl. rewrite Hm, Hsegs. naive_solver. }
  destruct (roles_leave_keys w p (wildcards pat segs) b d) as (? & ? & ? & ? & ? & ? & ? & ? & ? & ?).
  assert (Hst : d' = (h (wildcards pat segs) b d).2) by (by rewrite Hh).
  unfold handlers in Hin. apply elem_of_cons in Hin as [[= -> -> ->]|Hin].
  { apply create_key in Hh as [Hu' Hk']; [|done]. split; [done|].
    unfold revokes. rewrite bool_decide_false by (simpl; rewrite Hm; naive_solver).
    destruct Hk' as [[_ ->]|(b' & k' & _ & Hn & -> & _)]; [done|]. by rewrite lookup_insert_ne by congruence. }
  apply elem_of_cons in Hin as [[= -> -> ->]|Hin].
  { apply fits_item in Hf as [x ->].
    apply revoke_key_step with (id := id) (k := k) in Hh as [Hu' Hk']; [|done|done]. split; [done|]. rewrite Hk'.
    unfold revokes. simpl. rewrite Hm, Hsegs. repeat f_equal. apply bool_decide_ext. unfold arg. simpl. naive_solver. }
  repeat (apply elem_of_cons in Hin as [[= -> -> ->]|Hin]); [..|by apply elem_of_nil in Hin];
    (apply Hkeep; [congruence|]); (by left) || (right; intros ->; done).
Qed.

Lemma keys_kept cs d sts d' id k :
  serve_all cs d = Some (sts, d') -> unique_hashes d -> api_keys d !! id = Some k ->
  unique_hashes d' /\ api_keys d' !! id = Some (key_after (existsb (revokes id) (zip cs sts)) k).
Proof.
  revert k d sts. induction cs as [|c cs IH]; intros k d sts Hs Hu Hk; simpl in Hs; [by simplify_eq|].
  destruct (serve _ _ _ _ d) as [[st d1]|] eqn:E1; [|done]. simpl in Hs.
  destruct (serve_all cs d1) as [[sts1 d2]|] eqn:E2; [|done]. simplify_eq/=.
  destruct (key_step c st d d1 id k E1 Hu Hk) as [Hu1 Hk1].
  destruct (IH _ _ _ E2 Hu1 Hk1) as [Hu2 Hk2]. split; [done|]. rewrite Hk2. by rewrite key_after_twice.
Qed.

Lemma verify_key w now raw d id k rev :
  unique_hashes d -> api_keys d !! id = Some (key_after rev k) -> k_hash k = HashSecret raw ->
  k_status k = "active" -> k_revoked k = false -> stmt w 0 = true ->
  VerifyAPIKey w now raw d
  = if rev || from_option (fun t => t <=? now) false (k_expires k) then None else Some (id, k).
Proof.
  intros Hu Hk Hh Ha Hr Hw. unfold VerifyAPIKey. rewrite Hw. destruct (rev || from_option _ _ _) eqn:E.
  - apply row_where_None. intros i x Hx. destruct (bool_decide _) eqn:Eh; [|done]. apply bool_decide_eq_true in Eh.
    assert (i = id) as -> by (apply (Hu i id x _ Hx Hk); rewrite Eh; by destruct rev). simplify_eq.
    unfold usable. destruct rev; [done|]. simpl in *. rewrite Ha, Hr. simpl.
    destruct (k_expires k); [simpl in *; lia|done].
  - apply orb_false_iff in E as [-> E]. simpl in Hk. apply row_where_unique; [|done|].
    + intros i j x y Hx Hy [Ex%bool_decide_eq_true _]%andb_prop [Ey%bool_decide_eq_true _]%andb_prop.
      apply (Hu i j x y); congruence.
    + unfold usable. rewrite Hh, Ha, Hr, !bool_decide_true by done. simpl.
      destruct (k_expires k); [simpl in *; lia|done].
Qed.


End Writes.

(** * Samples *)

(** Two tenants, each with a role; the user is one of the first. *)
Definition hash_of (t : string) : string := "h:" +:+ t.
Definition two_tenants : tables :=
  sample_tables <| tenants := {["t1"; "t2"]} |>
    <| roles := <["r2" := MkRole (Some "t2") "Viewer" "viewer" "tenant" "active"]> (roles sample_tables) |>.
Definition lead : Principal := MkPrincipal "u1" (Some "t1") "ada@x.org" false ["roles.manage"; "api_keys.manage"].
Definition calm (i k : string) : world := World (fun _ => true) i k.
Definition rename_foreign : request := PUT "/admin/api/v1/roles/r2" (JObj [("name", JStr "Mine")]).
Definition create_own : request :=
  POST "/admin/api/v1/roles" (JObj [("name", JStr "Clerk"); ("key", JStr "clerk"); ("tenant_id", JStr "t2")]).
Notation sample_calls := [Call lead 0 (calm "" "") rename_foreign; Call lead 0 (calm "r3" "") create_own].

Lemma tenant_writes_stay_home_witness :
  exists d', serve_all hash_of (fun x => Some x) (fun _ => None) sample_calls two_tenants = Some ([404; 201], d')
    /\ roles d' !! "r2" = Some (MkRole (Some "t2") "Viewer" "viewer" "tenant" "active").
Proof.
  destruct (serve_all hash_of (fun x => Some x) (fun _ => None) sample_calls two_tenants) as [[sts d']|] eqn:E;
    [|vm_compute in E; discriminate].
  exists d'. split.
  - apply (f_equal (fmap fst)) in E as Ef. vm_compute in Ef. congruence.
  - destruct (tenant_writes_stay_home _ _ _ "t1" sample_calls two_tenants sts d' ltac:(done)
      ltac:(repeat constructor; done) E) as [[_ _ _ Hr _ _ _ _ _ _] _].
    apply Hr; [done|]. vm_compute. reflexivity.
Defined.

Definition key_body (name : string) : json := JObj [("name", JStr name); ("scopes", JArr [JStr "notifications:create"])].
Definition delete_key : request := DELETE "/admin/api/v1/api-keys/k1".

