(* ===== verification/Reset.v ===== *)
(** The reset of a password and the verification of an email
    (internal/http/handlers/handlers.go): the tokens that are issued and what a token
    changes, down to the logins of Sessions.v.

    Times are nanoseconds.  The token of a reset is written to the log of the service;
    nothing sends either. *)
From stdpp Require Import gmap.
From S2P Require Import Prelude Js React Query Client Components Auth Api Handlers Accounts Sessions Rbac.

(** * Tokens *)

(** A row of [password_reset_tokens]; the rows are by the hash of their token, which is
    unique. *)
Record reset_row := ResetRow { t_user : string; t_status : string; t_expires : Z }.
#[export] Instance eta_reset_row : Eta reset_row := fun r => ResetRow (t_user r) (t_status r) (t_expires r).
Abbreviation reset_table := (gmap string reset_row).

Definition ForgotPassword_req : gotype := TStruct (strings ["email"]).
Definition ResetPassword_req : gotype := TStruct (strings ["token"; "new_password"]).

Definition hour : Z := 3600 * second.

(** What the surroundings answer: whether the statements succeed, and a random token. *)
Record draw := Draw { d_stmt : nat -> bool; d_token : string }.

Section Reset.
Variable matches : string -> string -> bool.
Variable HashSecret : string -> string.
Variable bcryptHash : string -> option string.
Variable accessTokenTTL refreshTokenTTL loginLockout loginMaxFailures : Z.
(** A password matches its own hash. *)
Hypothesis bcrypt_matches : forall pw h, bcryptHash pw = Some h -> matches h pw = true.

(** An email without an active user, or a query that fails, is answered alike.  The
    query reads the users and the insertion writes the tokens: what comes in between
    changes neither's answer. *)
Definition ForgotPassword (w : draw) (now : Z) (body : option json) (d : tables) (ts : reset_table)
    : Z * reset_table :=
  match decoded ForgotPassword_req body with
  | None => (400, ts)
  | Some b =>
      if decide (member b "email" = "") then (400, ts)
      else
        match (if d_stmt w 0 then user_by_email d (member b "email") else None) with
        | None => (200, ts)
        | Some (userID, _) =>
            let h := HashSecret (d_token w) in
            if d_stmt w 1 && bool_decide (ts !! h = None)
            then (200, <[h := ResetRow userID "active" (now + hour)]> ts) else (500, ts)
        end
  end.

(** The query of an active token, and the two statements after it. *)
Definition reset_select (now : Z) (token : string) (ts : reset_table) : option string :=
  r ← ts !! HashSecret token;
  if bool_decide (t_status r = "active" /\ now < t_expires r) then Some (t_user r) else None.
Definition consume (token : string) (ts : reset_table) : reset_table :=
  alter (fun r => r <| t_status := "consumed" |>) (HashSecret token) ts.
Definition set_password (id hash : string) (d : tables) : tables :=
  d <| users := alter (fun u => u <| password_hash := hash |>) id (users d) |>.

(** What other calls do meanwhile: a token is issued, one is consumed, a password is
    set; and any change of the accounts. *)
Definition reset_state : Type := (tables * reset_table)%type.
Inductive reset_op :=
| RForgot (w : draw) (now : Z) (body : option json)
| RConsume (token : string)
| RPassword (id hash : string)
| RChange (d : tables).
Definition run_reset (st : reset_state) (o : reset_op) : reset_state :=
  match o with
  | RForgot w now body => (st.1, (ForgotPassword w now body st.1 st.2).2)
  | RConsume token => (st.1, consume token st.2)
  | RPassword id hash => (set_password id hash st.1, st.2)
  | RChange d => (d, st.2)
  end.
Definition run_resets (os : list reset_op) (st : reset_state) : reset_state := fold_left run_reset os st.

(** The handler up to its query: a status, or the token, the user and the hash. *)
Definition reset_query (w : draw) (now : Z) (body : option json) (ts : reset_table) : Z + (string * string * string) :=
  match decoded ResetPassword_req body with
  | None => inl 400
  | Some b =>
      if decide (member b "token" = "" \/ member b "new_password" = "") then inl 400
      else if bool_decide (String.length (member b "new_password") < 8)%nat then inl 400
      else
        match (if d_stmt w 0 then reset_select now (member b "token") ts else None) with
        | None => inl 400
        | Some userID =>
            match bcryptHash (member b "new_password") with
            | None => inl 500
            | Some hash => inr (member b "token", userID, hash)
            end
        end
  end.

(** The handler with what comes in between: [os1] after its query, [os2] after the
    token is consumed. *)
Definition ResetPassword (w : draw) (now : Z) (body : option json) (os1 os2 : list reset_op) (st : reset_state)
    : Z * reset_state :=
  match reset_query w now body st.2 with
  | inl status => (status, st)
  | inr (token, userID, hash) =>
      let st := run_resets os1 st in
      if negb (d_stmt w 1) then (500, st)
      else
        let st := run_resets os2 (st.1, consume token st.2) in
        if negb (d_stmt w 2) then (500, st) else (200, (set_password userID hash st.1, st.2))
  end.

Definition forgot_body (email : string) : json := JObj [("email", JStr email)].
Definition reset_body (token pw : string) : json := JObj [("token", JStr token); ("new_password", JStr pw)].

(** * What a reset does *)

Lemma ForgotPassword_issues w now email d ts ts' id u :
  d_stmt w 0 = true -> user_by_email d email = Some (id, u) -> email <> "" ->
  ForgotPassword w now (Some (forgot_body email)) d ts = (200, ts') ->
  ts' = <[HashSecret (d_token w) := ResetRow id "active" (now + hour)]> ts.
Proof.
  intros Hw Hu He. unfold ForgotPassword. change (decoded _ _) with (Some (forgot_body email)). cbv beta iota zeta.
  change (member (forgot_body email) "email") with email. rewrite decide_False by done. rewrite Hw, Hu.
  destruct (_ && _); congruence.
Qed.

Lemma ResetPassword_spec w now token pw os1 os2 st st' :
  ResetPassword w now (Some (reset_body token pw)) os1 os2 st = (200, st') ->
  exists r hash, st.2 !! HashSecret token = Some r /\ t_status r = "active" /\ now < t_expires r
    /\ bcryptHash pw = Some hash /\ (8 <= String.length pw)%nat
    /\ let st1 := run_resets os1 st in let st2 := run_resets os2 (st1.1, consume token st1.2) in
       st' = (set_password (t_user r) hash st2.1, st2.2).
Proof.
  unfold ResetPassword, reset_query. change (decoded _ _) with (Some (reset_body token pw)). cbv beta iota zeta.
  change (member (reset_body token pw) "token") with token. change (member (reset_body token pw) "new_password") with pw.
  case_decide; [done|]. case_bool_decide as Hl; [done|].
  destruct (if d_stmt w 0 then _ else _) as [userID|] eqn:E; [|done].
  destruct (d_stmt w 0); [|done]. unfold reset_select in E. destruct (st.2 !! HashSecret token) as [r|] eqn:Hr; [|done].
  cbn [mbind option_bind] in E. case_bool_decide as Ha; [|done]. injection E as <-.
  destruct (bcryptHash pw) as [hash|]; [|done].
  destruct (negb (d_stmt w 1)); [done|]. destruct (negb (d_stmt w 2)); [done|]. intros [= <-].
  exists r, hash. destruct Ha. repeat split; try done. lia.
Qed.

(** A token keeps its user and its end whatever calls come, and once consumed it stays
    so. *)
Definition token_row (h id : string) (expires : Z) (P : string -> Prop) (ts : reset_table) : Prop :=
  exists st, ts !! h = Some (ResetRow id st expires) /\ P st.

Lemma run_resets_row h id expires (P : string -> Prop) os st :
  P "consumed" -> token_row h id expires P st.2 -> token_row h id expires P (run_resets os st).2.
Proof.
  intros HP. revert st. induction os as [|o os IH]; intros st (t & Hr & Ht); [by exists t|]. apply IH.
  destruct o as [w now body|token|i hash|d]; simpl; try by exists t.
  - exists t. split; [|done]. unfold ForgotPassword. repeat case_match; simpl; try done.
    rewrite lookup_insert_ne; [done|]. intros <-.
    match goal with H : _ && _ = true |- _ => apply andb_true_iff in H as [_ H]; apply bool_decide_eq_true in H end.
    congruence.
  - unfold consume. destruct (decide (HashSecret token = h)) as [<-|Hne].
    + exists "consumed". by rewrite lookup_alter_eq, Hr.
    + exists t. by rewrite lookup_alter_ne.
Qed.

Lemma consumed_token_refused token id expires os w now pw os1 os2 st :
  token_row (HashSecret token) id expires (fun _ => True) st.2 ->
  (ResetPassword w now (Some (reset_body token pw)) os1 os2 (run_resets os (st.1, consume token st.2))).1 <> 200.
Proof.
  intros (t & Hr & _) H.
  destruct (run_resets_row (HashSecret token) id expires (eq "consumed") os (st.1, consume token st.2) eq_refl)
    as (t' & Hr' & <-).
  { exists "consumed". simpl. unfold consume. by rewrite lookup_alter_eq, Hr. }
  destruct (ResetPassword _ _ _ _ _ _) as [x st'] eqn:E. simpl in H. subst x.
  apply ResetPassword_spec in E as (r & hash & Hr2 & Ha & _). rewrite Hr' in Hr2. injection Hr2 as <-. done.
Qed.

Lemma set_password_emails id hash d : unique_emails d -> unique_emails (set_password id hash d).
Proof.
  intros Hd. unfold set_password. destruct (users d !! id) as [u|] eqn:Hu.
  - replace (alter _ id (users d)) with (<[id := u <| password_hash := hash |>]> (users d)).
    + by apply (unique_emails_insert matches HashSecret d id u).
    + apply map_eq. intros i. destruct (decide (id = i)) as [<-|Hne].
      * by rewrite lookup_insert_eq, lookup_alter_eq, Hu.
      * by rewrite lookup_insert_ne, lookup_alter_ne.
  - intros i j v w Hi Hj. assert (Hs : forall k, alter (fun u => u <| password_hash := hash |>) id (users d) !! k = users d !! k).
    { intros k. destruct (decide (id = k)) as [<-|Hne]; [by rewrite lookup_alter_eq, Hu|by rewrite lookup_alter_ne]. }
    simpl in Hi, Hj. rewrite Hs in Hi, Hj. by apply (Hd i j).
Qed.

Notation Login := (Login matches HashSecret accessTokenTTL refreshTokenTTL loginLockout loginMaxFailures).

Lemma set_password_signs_in email pw id hash u d :
  unique_emails d -> user_by_email d email = Some (id, u) -> bcryptHash pw = Some hash ->
  (forall a now pw', matches hash pw' = false -> exists e, (Login a now email pw' (set_password id hash d)).1.1 = inl e)
  /\ (forall a now, locked now u = false -> (forall n, db a n = true) -> sessions d !! HashSecret (new_refresh a) = None ->
       exists c, (Login a now email pw (set_password id hash d)).1.1 = inr (c, new_refresh a)
         /\ user_id (c_principal c) = id).
Proof.
  intros Huniq Hu Hh. apply (user_by_email_spec matches HashSecret _ _ _ _ Huniq) in Hu as (Hin & Hem & Hact).
  assert (Hfind : user_by_email (set_password id hash d) email = Some (id, u <| password_hash := hash |>)).
  { apply user_by_email_spec; [done..|by apply set_password_emails|]. simpl. by rewrite lookup_alter_eq, Hin. }
  split.
  - intros a now pw' Hm. rewrite Login_whole, Hfind.
    destruct (db a 4); [|by eexists]. destruct (locked _ _); [by eexists|]. simpl. rewrite Hm. by eexists.
  - intros a now Hl Hdb Hnew. rewrite Login_whole, Hdb, Hfind.
    change (locked now (u <| password_hash := hash |>)) with (locked now u). rewrite Hl. simpl.
    rewrite (bcrypt_matches pw hash Hh). simpl. rewrite !Hdb. simpl. unfold createSession. rewrite Hdb.
    rewrite bool_decide_eq_true_2 by done. simpl. by eexists.
Qed.

(** A reset that passes its query. *)
Lemma ResetPassword_begins w now token pw hash r os1 os2 st :
  d_stmt w 0 = true -> token <> "" -> pw <> "" -> (8 <= String.length pw)%nat -> bcryptHash pw = Some hash ->
  st.2 !! HashSecret token = Some r -> t_status r = "active" -> now < t_expires r ->
  ResetPassword w now (Some (reset_body token pw)) os1 os2 st
  = let st := run_resets os1 st in
    if negb (d_stmt w 1) then (500, st)
    else
      let st := run_resets os2 (st.1, consume token st.2) in
      if negb (d_stmt w 2) then (500, st) else (200, (set_password (t_user r) hash st.1, st.2)).
Proof.
  intros Hw Ht Hp Hl Hh Hr Ha He. unfold ResetPassword, reset_query.
  change (decoded _ _) with (Some (reset_body token pw)). cbv beta iota zeta.
  change (member (reset_body token pw) "token") with token. change (member (reset_body token pw) "new_password") with pw.
  rewrite decide_False by tauto. rewrite bool_decide_eq_false_2 by lia. rewrite Hw.
  unfold reset_select. rewrite Hr. cbn [mbind option_bind]. rewrite bool_decide_eq_true_2 by done. by rewrite Hh.
Qed.

(** C16: a reset changes the password of the account it was asked for, and no other.
    The statements of a reset are cut where other calls come in between, resets with
    the same token among them.  When one with the token that was issued for an email is
    answered 200, it came within an hour, and its last statement writes the password of
    that account and nothing else: an account that still has the email then, and
    anything else, signs in with the new password, unless it is locked, and with no
    password that does not match it.  Once the token is consumed it is refused: no
    reset that begins after that is answered 200, whatever comes in between.  Resets
    that begin before are not refused: see [one_token_two_resets]. *)
Theorem reset_password_signs_in w0 w1 now0 now1 email pw id u0 d0 ts0 ts1 os0 os1 os2 st :
  d_stmt w0 0 = true -> email <> "" -> user_by_email d0 email = Some (id, u0) ->
  ForgotPassword w0 now0 (Some (forgot_body email)) d0 ts0 = (200, ts1) ->
  ResetPassword w1 now1 (Some (reset_body (d_token w0) pw)) os1 os2 (run_resets os0 (d0, ts1)) = (200, st) ->
  let used := run_resets os1 (run_resets os0 (d0, ts1)) in
  let used := (used.1, consume (d_token w0) used.2) in
  let d := (run_resets os2 used).1 in
  now1 < now0 + hour
  /\ (exists hash, bcryptHash pw = Some hash /\ st.1 = set_password id hash d
       /\ forall u, unique_emails d -> user_by_email d email = Some (id, u) ->
            (forall a now pw', matches hash pw' = false -> exists e, (Login a now email pw' st.1).1.1 = inl e)
            /\ (forall a now, locked now u = false -> (forall n, db a n = true) ->
                 sessions d !! HashSecret (new_refresh a) = None ->
                 exists c, (Login a now email pw st.1).1.1 = inr (c, new_refresh a) /\ user_id (c_principal c) = id))
  /\ (forall i, i <> id -> users st.1 !! i = users d !! i) /\ sessions st.1 = sessions d
  /\ (forall w now pw' os os1' os2',
        (ResetPassword w now (Some (reset_body (d_token w0) pw')) os1' os2' (run_resets os used)).1 <> 200).
Proof.
  intros Hw0 He Hu0 Hf Hr used0 used d. apply (ForgotPassword_issues _ _ _ _ _ _ _ _ Hw0 Hu0 He) in Hf as ->.
  set (any := fun _ : string => True).
  assert (Hrow0 : token_row (HashSecret (d_token w0)) id (now0 + hour) any
    (run_resets os0 (d0, <[HashSecret (d_token w0) := ResetRow id "active" (now0 + hour)]> ts0)).2).
  { apply run_resets_row; [done|]. exists "active". simpl. by rewrite lookup_insert_eq. }
  assert (Hrow1 : token_row (HashSecret (d_token w0)) id (now0 + hour) any used0.2) by (by apply run_resets_row).
  apply ResetPassword_spec in Hr as (r & hash & Hrow & _ & Hexp & Hh & _ & ->).
  destruct Hrow0 as (t & Hr0 & _). rewrite Hr0 in Hrow. injection Hrow as <-. cbn [t_user t_expires] in *.
  split; [done|]. split; [|split; [|split]].
  - exists hash. split; [done|]. split; [done|]. intros u Huniq Hu.
    by apply (set_password_signs_in email pw id hash u d).
  - intros i Hi. simpl. by rewrite lookup_alter_ne.
  - done.
  - intros. by eapply consumed_token_refused.
Qed.

(** Two resets whose queries are answered before either consumes the token both succeed
    with it: here the other is done while this one computes the hash of its password,
    which is then the one that stays. *)
Lemma one_token_two_resets w now token pw hash h1 id r d ts :
  (forall n, d_stmt w n = true) -> token <> "" -> pw <> "" -> (8 <= String.length pw)%nat -> bcryptHash pw = Some hash ->
  ts !! HashSecret token = Some r -> t_status r = "active" -> now < t_expires r -> t_user r = id ->
  (ResetPassword w now (Some (reset_body token pw)) [RConsume token; RPassword id h1] [] (d, ts)).1 = 200
  /\ forall u, users d !! id = Some u ->
       users (ResetPassword w now (Some (reset_body token pw)) [RConsume token; RPassword id h1] [] (d, ts)).2.1 !! id
       = Some (u <| password_hash := hash |>).
Proof.
  intros Hw Ht Hp Hl Hh Hr Ha He Hid. rewrite (ResetPassword_begins w now token pw hash r) by done.
  rewrite !Hw. cbn [negb]. split; [done|]. intros u Hu. simpl. subst id. by rewrite !lookup_alter_eq, Hu.
Qed.

(** When the last statement fails the token is spent and the password is the old one. *)
Lemma failed_reset_spends_token w now token pw d ts r hash :
  (forall n, d_stmt w n = negb (Nat.eqb n 2)) -> ts !! HashSecret token = Some r -> t_status r = "active" ->
  now < t_expires r -> bcryptHash pw = Some hash -> token <> "" -> pw <> "" -> (8 <= String.length pw)%nat ->
  ResetPassword w now (Some (reset_body token pw)) [] [] (d, ts) = (500, (d, consume token ts)).
Proof.
  intros Hw Hr Ha He Hh Ht Hp Hl. rewrite (ResetPassword_begins w now token pw hash r) by (done || by rewrite Hw).
  by rewrite (Hw 1%nat), (Hw 2%nat).
Qed.

(** A lockout is not ended by a reset. *)
Lemma lockout_outlives_reset id hash d u :
  users d !! id = Some u ->
  exists u', users (set_password id hash d) !! id = Some u' /\ locked_until u' = locked_until u
    /\ failed_login_count u' = failed_login_count u.
Proof. intros Hu. simpl. rewrite lookup_alter_eq, Hu. by eexists. Qed.

(** * The verification of an email *)

(** The rows of [email_verification_tokens] are like those of resets; [verified] is the
    column [email_verified_at] of the users that have it. *)
Definition VerifyEmail_req : gotype := TStruct (strings ["token"]).
Definition day : Z := 24 * hour.

(** The error of the second query is dropped; the token is neither sent nor logged. *)
Definition RequestEmailVerification (w : draw) (now : Z) (p : Principal) (d : tables) (verified : gmap string Z)
    (ts : reset_table) : Z * reset_table :=
  if negb (d_stmt w 0 && row_exists (users d) (user_id p)) then (500, ts)
  else if d_stmt w 1 && row_exists verified (user_id p) then (200, ts)
  else
    let h := HashSecret (d_token w) in
    if d_stmt w 2 && d_stmt w 3 && bool_decide (ts !! h = None)
    then (200, <[h := ResetRow (user_id p) "active" (now + day)]> ts) else (500, ts).

(** What the account's email is, now or when the token was issued, is not looked at.
    The statements are taken as one step here. *)
Definition VerifyEmail (w : draw) (now : Z) (body : option json) (verified : gmap string Z) (ts : reset_table)
    : Z * gmap string Z * reset_table :=
  match decoded VerifyEmail_req body with
  | None => (400, verified, ts)
  | Some b =>
      if decide (member b "token" = "") then (400, verified, ts)
      else
        match (if d_stmt w 0 then reset_select now (member b "token") ts else None) with
        | None => (400, verified, ts)
        | Some userID =>
            if negb (d_stmt w 1) then (500, verified, ts)
            else
              let ts := consume (member b "token") ts in
              if negb (d_stmt w 2) then (500, verified, ts) else (200, <[userID := now]> verified, ts)
        end
  end.

Definition token_body (token : string) : json := JObj [("token", JStr token)].

Lemma VerifyEmail_spec w now token verified ts verified' ts' :
  VerifyEmail w now (Some (token_body token)) verified ts = (200, verified', ts') ->
  exists r, ts !! HashSecret token = Some r /\ t_status r = "active" /\ now < t_expires r
    /\ verified' = <[t_user r := now]> verified /\ ts' = consume token ts.
Proof.
  unfold VerifyEmail. change (decoded _ _) with (Some (token_body token)). cbv beta iota zeta.
  change (member (token_body token) "token") with token. case_decide; [done|].
  destruct (if d_stmt w 0 then _ else _) as [id|] eqn:E; [|done]. destruct (d_stmt w 0); [|done].
  unfold reset_select in E. destruct (ts !! HashSecret token) as [r|]; [|done]. cbn [mbind option_bind] in E.
  case_bool_decide as Ha; [|done]. injection E as <-. destruct (negb (d_stmt w 1)); [done|].
  destruct (negb (d_stmt w 2)); [done|]. intros [= <- <-]. exists r. destruct Ha. done.
Qed.

(** A verification is of the account that asked for it, within a day, once, and of no
    other; and it is of the account whatever its email has become. *)
Theorem verification_is_of_the_account w0 w1 now0 now1 p d verified0 verified1 verified2 ts0 ts1 ts2 :
  ts0 !! HashSecret (d_token w0) = None ->
  RequestEmailVerification w0 now0 p d verified0 ts0 = (200, ts1) ->
  VerifyEmail w1 now1 (Some (token_body (d_token w0))) verified1 ts1 = (200, verified2, ts2) ->
  now1 < now0 + day /\ verified2 = <[user_id p := now1]> verified1
  /\ forall w now verified, (VerifyEmail w now (Some (token_body (d_token w0))) verified ts2).1.1 <> 200.
Proof.
  intros Hf Hr Hv. apply VerifyEmail_spec in Hv as (r & Hrow & _ & Hexp & -> & ->).
  assert (r = ResetRow (user_id p) "active" (now0 + day)) as ->.
  { unfold RequestEmailVerification in Hr. destruct (negb _); [done|].
    destruct (d_stmt w0 1 && _); [injection Hr as <-; congruence|].
    destruct (_ && _); [|done]. injection Hr as <-. rewrite lookup_insert_eq in Hrow. congruence. }
  split; [done|]. split; [done|]. intros w now verified Hst.
  destruct (VerifyEmail w now (Some (token_body (d_token w0))) verified (consume (d_token w0) ts1)) as [[st v] ts] eqn:E.
  simpl in Hst. subst st. apply VerifyEmail_spec in E as (r & Hr' & Ha & _). unfold consume in Hr'.
  rewrite lookup_alter_eq, Hrow in Hr'. simpl in Hr'. by injection Hr' as <-.
Qed.
End Reset.

(** * Samples *)

Definition hashed (pw : string) : option string := Some ("h:" +:+ pw).
Definition same_password (h pw : string) : bool := bool_decide (h = "h:" +:+ pw).
Definition plain_token (t : string) : string := t.
Definition one_user : tables :=
  Tables {["t1"]} {["u1" := MkUser "ann@example.com" "Ann" "h:old-password" false "active" 0 None]}
    [("u1", "t1", "active")] ∅ ∅ ∅ [] [] [] [] ∅.
Definition calm : draw := Draw (fun _ => true) "prt_1".

Definition ann : user := MkUser "ann@example.com" "Ann" "h:old-password" false "active" 0 None.

(** Another reset with the token is done while this one computes its hash. *)
Definition other_reset : list reset_op := [RConsume "prt_1"; RPassword "u1" "h:their-password"].
Definition reset_in_between : Z * reset_state :=
  ResetPassword plain_token hashed calm (2 * second) (Some (reset_body "prt_1" "new-password")) other_reset []
    (one_user, {["prt_1" := ResetRow "u1" "active" hour]}).

Lemma reset_password_signs_in_witness :
  reset_in_between.1 = 200
  /\ (exists c, (Login same_password plain_token 1 1 1 1 (Answers (fun _ => true) "s" "r") (3 * second) "ann@example.com"
                  "new-password" reset_in_between.2.1).1.1 = inr (c, "r"))
  /\ (ResetPassword plain_token hashed calm (3 * second) (Some (reset_body "prt_1" "third-password")) [] []
        reset_in_between.2).1 <> 200.
Proof.
  assert (E : reset_in_between.1 = 200) by (vm_compute; reflexivity).
  destruct reset_in_between as [x st] eqn:Er. simpl in E. subst x.
  destruct (reset_password_signs_in same_password plain_token hashed 1 1 1 1) with
    (w0 := calm) (w1 := calm) (now0 := 0) (now1 := 2 * second) (email := "ann@example.com") (pw := "new-password")
    (id := "u1") (u0 := ann) (d0 := one_user) (ts0 := ∅ : reset_table)
    (ts1 := {["prt_1" := ResetRow "u1" "active" hour]} : reset_table) (os0 := @nil reset_op) (os1 := other_reset)
    (os2 := @nil reset_op) (st := st) as (_ & (hash & Hh & Hst & Hl) & _ & _ & Hrefused); try done.
  - intros pw h [= <-]. by apply bool_decide_eq_true.
  - split; [done|]. split.
    + destruct (Hl (ann <| password_hash := "h:their-password" |>)) as [_ Hin].
      * intros i j v w Hi Hj _. unfold one_user in Hi, Hj. simpl in Hi, Hj.
        destruct (decide ("u1" = i)) as [<-|Hi']; [|by rewrite lookup_alter_ne, lookup_singleton_ne in Hi].
        by destruct (decide ("u1" = j)) as [<-|Hj']; [|rewrite lookup_alter_ne, lookup_singleton_ne in Hj].
      * vm_compute. reflexivity.
      * destruct (Hin (Answers (fun _ => true) "s" "r") (3 * second)) as (c & Hc & _); [done|done|done|]. by exists c.
    + pose proof (Hrefused calm (3 * second) "third-password" [RPassword "u1" "h:new-password"] [] []) as H.
      apply (f_equal snd) in Er. cbn [snd] in Er. rewrite <- Er. exact H.
Defined.
