(* ===== verification/GoTime.v ===== *)
(** [time.Parse(time.RFC3339, s)] of Go, as internal/notifications uses it on the time
    a notification is scheduled for, and the texts it refuses. *)
From S2P Require Import Prelude Js.

(** * [time.Parse(time.RFC3339, s)] *)

Definition lit (c : ascii) (s : string) : option string :=
  match s with String d s' => if decide (c = d) then Some s' else None | _ => None end.
Definition digit (s : string) : option (Z * string) :=
  match s with String d s' => if is_digit d then Some (byte d - 48, s') else None | _ => None end.
Definition two (s : string) : option (Z * string) :=
  '(a, s) ← digit s; '(b, s) ← digit s; Some (10 * a + b, s).
(** The hour of the layout may have one digit. *)
Definition hour (s : string) : option (Z * string) := match two s with Some r => Some r | None => digit s end.
Definition four (s : string) : option (Z * string) :=
  '(a, s) ← two s; '(b, s) ← two s; Some (100 * a + b, s).

(** A fraction of the second, which the layout does not mention: nanoseconds. *)
Definition fraction (s : string) : Z * string :=
  match s with
  | String p s' =>
      if (byte p =? 46) || (byte p =? 44) then
        let '(v, n, rest) := read_digits 0 0 s' in
        if 0 <? n then (if n <=? 9 then v * 10 ^ (9 - n) else v / 10 ^ (n - 9), rest) else (0, s)
      else (0, s)
  | _ => (0, s)
  end.

(** The offset of the zone, in minutes. *)
Definition zone (s : string) : option (Z * string) :=
  match s with
  | String c s =>
      if byte c =? 90 then Some (0, s)
      else
        sign ← (if byte c =? 43 then Some 1 else if byte c =? 45 then Some (-1) else None);
        '(h, s) ← two s; s ← lit ":"%char s; '(m, s) ← two s;
        if (h <=? 24) && (m <=? 60) then Some (sign * (60 * h + m), s) else None
  | _ => None
  end.

Definition leap (y : Z) : bool := (y mod 4 =? 0) && (negb (y mod 100 =? 0) || (y mod 400 =? 0)).
Definition daysIn (m y : Z) : Z :=
  if m =? 2 then (if leap y then 29 else 28)
  else if (m =? 4) || (m =? 6) || (m =? 9) || (m =? 11) then 30 else 31.
(** The days before a date, from the year 0. *)
Definition days_before (y m d : Z) : Z :=
  let y' := y - 1 in
  365 * y + (y' / 4 - y' / 100 + y' / 400)
  + fold_right (fun i n => daysIn i y + n) 0 (seqZ 1 (m - 1)) + (d - 1).

(** The instant, in nanoseconds. *)
Definition RFC3339 (s : string) : option Z :=
  '(y, s) ← four s; s ← lit "-"%char s; '(mo, s) ← two s; s ← lit "-"%char s; '(d, s) ← two s;
  s ← lit "T"%char s; '(h, s) ← hour s; s ← lit ":"%char s; '(mi, s) ← two s; s ← lit ":"%char s;
  '(se, s) ← two s; let '(ns, s) := fraction s in '(off, s) ← zone s;
  if (1 <=? mo) && (mo <=? 12) && (1 <=? d) && (d <=? daysIn mo y) && (h <? 24) && (mi <? 60) && (se <? 60)
     && bool_decide (s = "")
  then Some (((days_before y mo d * 24 + h) * 60 + mi - off) * 60 * 10 ^ 9 + se * 10 ^ 9 + ns)
  else None.


Example rfc3339_samples :
  RFC3339 "1970-01-01T00:00:00Z" = Some (days_before 1970 1 1 * 86400 * 10 ^ 9)
  /\ RFC3339 "2026-05-01T12:00:00.25+02:00"
     = Some ((days_before 1970 1 1 * 86400 + 1777629600) * 10 ^ 9 + 250000000)
  /\ RFC3339 "2026-02-29T10:00:00Z" = None.
Proof. vm_compute. auto. Qed.

(** * A time without a zone *)

(** The text of a [datetime-local] control: a date of ten characters, "T", and a time
    of digits, colons and a point, with no zone. *)
Definition local_char (c : ascii) : bool := is_digit c || (byte c =? 58) || (byte c =? 46).
Fixpoint all_chars (p : ascii -> bool) (s : string) : bool :=
  match s with EmptyString => true | String c s => p c && all_chars p s end.
Definition datetime_local (v : string) : Prop :=
  exists d t, v = d +:+ "T" +:+ t /\ String.length d = 10%nat /\ all_chars local_char t = true.

Section Rest.
Variable p : ascii -> bool.
Notation all := (all_chars p).

Lemma all_digit s x s' : digit s = Some (x, s') -> all s = true -> all s' = true.
Proof. destruct s as [|c s]; simpl; [done|]. destruct (is_digit c); [|done]. intros [= _ <-] [_ ?]%andb_prop. done. Qed.
Lemma all_two s x s' : two s = Some (x, s') -> all s = true -> all s' = true.
Proof.
  unfold two. intros H Hs. destruct (digit s) as [[a s1]|] eqn:H1; [|done]. simpl in H.
  destruct (digit s1) as [[b s2]|] eqn:H2; [|done]. simplify_eq/=.
  eapply all_digit; [done|]. by eapply all_digit.
Qed.
Lemma all_lit c s s' : lit c s = Some s' -> all s = true -> all s' = true.
Proof. destruct s as [|d s]; simpl; [done|]. case_decide; [|done]. intros [= <-] [_ ?]%andb_prop. done. Qed.
Lemma all_hour s x s' : hour s = Some (x, s') -> all s = true -> all s' = true.
Proof.
  unfold hour. destruct (two s) as [[]|] eqn:H; [intros [= <- <-]; by eapply all_two|]. apply all_digit.
Qed.
Lemma all_read_digits acc n s : all s = true -> all (read_digits acc n s).2 = true.
Proof.
  revert acc n. induction s as [|c s IH]; intros acc n; simpl; [done|]. intros [Hc Hs]%andb_prop.
  destruct (is_digit c); [by apply IH|]. simpl. by rewrite Hc, Hs.
Qed.
Lemma all_fraction s : all s = true -> all (fraction s).2 = true.
Proof.
  destruct s as [|c s]; [done|]. intros Hall. pose proof Hall as [_ Hs]%andb_prop. unfold fraction.
  destruct (_ || _); [|done].
  pose proof (all_read_digits 0 0 s Hs) as H. destruct (read_digits 0 0 s) as [[v n] rest].
  by destruct (0 <? n).
Qed.
End Rest.

(** The parser of the date takes ten characters. *)
Fixpoint skip (n : nat) (s : string) : string :=
  match n, s with S n, String _ s => skip n s | _, _ => s end.
Lemma digit_skip s x s' : digit s = Some (x, s') -> s' = skip 1 s.
Proof. destruct s as [|c s]; simpl; [done|]. destruct (is_digit c); [|done]. by intros [= _ <-]. Qed.
Lemma two_skip s x s' : two s = Some (x, s') -> s' = skip 1 (skip 1 s).
Proof.
  unfold two. intros H. destruct (digit s) as [[a s1]|] eqn:H1; [|done]. simpl in H.
  destruct (digit s1) as [[b s2]|] eqn:H2; [|done]. simplify_eq/=.
  apply digit_skip in H1 as ->. by apply digit_skip in H2.
Qed.
Lemma four_skip s x s' : four s = Some (x, s') -> s' = skip 1 (skip 1 (skip 1 (skip 1 s))).
Proof.
  unfold four. intros H. destruct (two s) as [[a s1]|] eqn:H1; [|done]. simpl in H.
  destruct (two s1) as [[b s2]|] eqn:H2; [|done]. simplify_eq/=.
  apply two_skip in H1 as ->. by apply two_skip in H2.
Qed.
Lemma lit_skip c s s' : lit c s = Some s' -> s' = skip 1 s.
Proof. destruct s as [|d s]; simpl; [done|]. case_decide; [|done]. by intros [= <-]. Qed.

(** The layout wants a zone. *)
Lemma no_zone s : all_chars local_char s = true -> zone s = None.
Proof.
  destruct s as [|c s]; [done|]. simpl. intros [Hc _]%andb_prop. unfold local_char, is_digit in Hc.
  repeat match goal with |- context [byte c =? ?k] => replace (byte c =? k) with false by lia end. done.
Qed.

Lemma RFC3339_local v : datetime_local v -> RFC3339 v = None.
Proof.
  intros (d & t & -> & Hd & Ht). unfold RFC3339.
  destruct (four _) as [[y s1]|] eqn:H1; [|done]. simpl. destruct (lit _ s1) as [s2|] eqn:H2; [|done]. simpl.
  destruct (two s2) as [[mo s3]|] eqn:H3; [|done]. simpl. destruct (lit _ s3) as [s4|] eqn:H4; [|done]. simpl.
  destruct (two s4) as [[dd s5]|] eqn:H5; [|done]. simpl. destruct (lit _ s5) as [s6|] eqn:H6; [|done]. simpl.
  assert (Hs6 : s6 = t).
  { apply lit_skip in H6 as ->. apply two_skip in H5 as ->. apply lit_skip in H4 as ->.
    apply two_skip in H3 as ->. apply lit_skip in H2 as ->. apply four_skip in H1 as ->.
    do 10 (destruct d as [|? d]; [done|]). destruct d; done. }
  subst s6. destruct (hour t) as [[h s7]|] eqn:H7; [|done]. simpl. destruct (lit _ s7) as [s8|] eqn:H8; [|done]. simpl.
  destruct (two s8) as [[mi s9]|] eqn:H9; [|done]. simpl. destruct (lit _ s9) as [s10|] eqn:H10; [|done]. simpl.
  destruct (two s10) as [[se s11]|] eqn:H11; [|done]. simpl.
  pose proof (all_hour _ _ _ _ H7 Ht) as T7. pose proof (all_lit _ _ _ _ H8 T7) as T8.
  pose proof (all_two _ _ _ _ H9 T8) as T9. pose proof (all_lit _ _ _ _ H10 T9) as T10.
  pose proof (all_fraction _ _ (all_two _ _ _ _ H11 T10)) as T11.
  destruct (fraction s11) as [ns s12]. by rewrite (no_zone s12).
Qed.
