(* ===== verification/Delivery.v ===== *)
(** The delivery of notifications (notification-core-api: internal/queue,
    internal/delivery, internal/retry): the workers of the channel queues, of the
    retry queue and of the dead-letter queue, as turns on the broker's messages and
    the rows of [notification_deliveries].

    A turn takes one message, in any order, and is the list of its effects; [env]
    is what the database, the broker and the provider answer during it.  A process
    can also die after any effect of its turn, and the broker then delivers the
    message again. *)
From S2P Require Import Prelude Js Api.

(** * Jobs and queues *)

(** A Go map of decoded JSON values. *)
Abbreviation gomap := (gmap string json).

Record Job := MkJob {
  NotificationID : string; DeliveryID : string; TenantID : string; Channel : string;
  QueueName : string; Payload : gomap; Attempt : Z }.
#[export] Instance eta_job : Eta Job := fun j =>
  MkJob (NotificationID j) (DeliveryID j) (TenantID j) (Channel j) (QueueName j) (Payload j) (Attempt j).

Inductive queue :=
| RouterQueue | SchedulerQueue | EmailQueue | SMSQueue | FCMQueue | WebSocketQueue
| RetryQueue | DeadQueue.
#[export] Instance queue_eq_dec : EqDecision queue.
Proof. solve_decision. Defined.

Definition AllQueues : list queue :=
  [RouterQueue; SchedulerQueue; EmailQueue; SMSQueue; FCMQueue; WebSocketQueue; RetryQueue; DeadQueue].

Definition channelQueue (channel : string) : queue :=
  default RouterQueue
    (oget [("email", EmailQueue); ("sms", SMSQueue); ("fcm", FCMQueue); ("websocket", WebSocketQueue)] channel).

(** A message of a queue: the job its body was marshalled from, or a body that
    [json.Unmarshal] refuses. *)
Definition message : Type := queue * option Job.

(** [job.Attempt++] on an [int] of 64 bits. *)
Definition next_attempt (j : Job) : Job := j <| Attempt := DataTable.int64 (Attempt j + 1) |>.

(** * The database *)

Record delivery := MkDelivery {
  tenant : string; notification : string; channel : string; recipient_json : json; status : string;
  provider_message_id : option string; response_json : json }.
#[export] Instance eta_delivery : Eta delivery := fun r =>
  MkDelivery (tenant r) (notification r) (channel r) (recipient_json r) (status r) (provider_message_id r) (response_json r).

Record attempt_row := MkAttempt {
  a_tenant : string; a_delivery : string; attempt_no : Z; a_status : string; a_response : json }.

(** What a provider is handed, and what it answers. *)
Record Message := MkMessage {
  m_tenant : string; m_notification : string; m_delivery : string; m_channel : string;
  To : string; Data : gomap }.
Record Result := MkResult { ProviderMessageID : string; Raw : json }.

Record state := State {
  deliveries : gmap string delivery;
  attempts : list attempt_row;
  bag : list message;
  handed : list (Message * bool);
  waits : list (string * option Z) }.
#[export] Instance eta_state : Eta state := fun s =>
  State (deliveries s) (attempts s) (bag s) (handed s) (waits s).

(** [jsonb_set(response_json, '{key}', v)]: an error on a value that is no object. *)
Definition jsonb_set (key : string) (v : json) (r : delivery) : option delivery :=
  match response_json r with
  | JObj o => Some (r <| response_json := JObj (oset o key v) |>)
  | _ => None
  end.

(** * Turns *)

(** What the surroundings answer during a turn: the status of the tenant's queue
    control or an error, whether the n-th statement succeeds, the provider's
    result or its refusal, and whether a publication succeeds. *)
Record env := Env {
  control : option string; db : nat -> bool; answer : option Result; published : bool }.

Inductive effect :=
| UpdateRow (id : string) (f : delivery -> delivery)
| InsertAttempt (a : attempt_row)
| Hand (m : Message) (accepted : bool)
| Publish (q : queue) (j : Job)
| Sleep (id : string) (d : option Z).

(** What becomes of the message: [Ack], or [Nack] with or without requeueing. *)
Inductive fate := Ack | Requeue | Drop.

Definition perform (e : effect) (s : state) : state :=
  match e with
  | UpdateRow id f => s <| deliveries := alter f id (deliveries s) |>
  | InsertAttempt a => s <| attempts := attempts s ++ [a] |>
  | Hand m ok => s <| handed := handed s ++ [(m, ok)] |>
  | Publish q j => s <| bag := bag s ++ [(q, Some j)] |>
  | Sleep id d => s <| waits := waits s ++ [(id, d)] |>
  end.

Definition perform_all (es : list effect) (s : state) : state := fold_left (fun s e => perform e s) es s.

(** [UPDATE notification_deliveries SET ... WHERE id = $1] with a [jsonb_set]: its
    effects when it succeeds, which it also does when no row has the id. *)
Definition update_with (ok : bool) (row : option delivery) (id : string)
    (f : delivery -> option delivery) : option (list effect) :=
  if negb ok then None
  else
    match row with
    | None => Some []
    | Some r => match f r with Some _ => Some [UpdateRow id (fun r => default r (f r))] | None => None end
    end.

(** * The worker of a channel (internal/delivery/worker.go) *)

Definition recipientFor (channel : string) (payload : gomap) : string :=
  let key := oget [("email", "email"); ("sms", "phone"); ("fcm", "fcm_token")] channel in
  match key ≫= (payload !!.) with Some (JStr v) => v | _ => "mock-recipient" end.

Inductive control_action := Proceed | Paused | Stopped | Failed.

Definition applyQueueControl (e : env) (row : option delivery) (job : Job) : list effect * control_action :=
  let set_queue_status v st :=
    update_with (db e 0) row (DeliveryID job)
      (fun r => jsonb_set "queue_status" (JStr v) (r <| status := st |>)) in
  match control e with
  | None => ([], Failed)
  | Some c =>
      if decide (c = "paused") then (default [] (set_queue_status "paused" "queued"), Paused)
      else if decide (c = "stopped") then
        match set_queue_status "stopped" "blocked" with
        | Some es => (es, Stopped)
        | None => ([], Failed)
        end
      else ([], Proceed)
  end.

(** The effects, and whether it returns no error.  [delivery_attempts] refers to the
    delivery: without its row the insertion fails. *)
Definition handle (e : env) (row : option delivery) (job : Job) : list effect * bool :=
  let id := DeliveryID job in
  let sending := if db e 1 then [UpdateRow id (fun r => r <| status := "sending" |>)] else [] in
  let msg := MkMessage (TenantID job) (NotificationID job) id (Channel job)
               (recipientFor (Channel job) (Payload job)) (Payload job) in
  let ok := bool_decide (is_Some (answer e)) in
  let st := if ok then "sent" else "failed" in
  let response := from_option Raw (JObj []) (answer e) in
  let result := UpdateRow id (fun r => r <| status := st |>
                  <| provider_message_id := ProviderMessageID <$> answer e |>
                  <| response_json := response |>) in
  let attempt := InsertAttempt (MkAttempt (TenantID job) id 1 st response) in
  if negb (db e 2) then (sending ++ [Hand msg ok], false)
  else if negb (db e 3) || bool_decide (row = None) then (sending ++ [Hand msg ok; result], false)
  else (sending ++ [Hand msg ok; result; attempt], ok).

Definition worker (e : env) (row : option delivery) (job : Job) : list effect * fate :=
  let '(es, action) := applyQueueControl e row job in
  match action with
  | Failed | Paused => (es, Requeue)
  | Stopped => (es, Ack)
  | Proceed =>
      let '(es, ok) := handle e row job in
      if ok then (es, Ack)
      else (es ++ (if published e then [Publish RetryQueue (next_attempt job)] else []), Ack)
  end.

(** * The retry and dead-letter workers (internal/retry/service.go) *)

(** [time.Duration(math.Pow(2, float64(attempt-1))) * time.Minute]: nanoseconds in 64
    bits.  From 2^63 on the conversion of the float is left to the machine. *)
Definition minute : Z := 60 * 10 ^ 9.
Definition backoffDuration (attempt : Z) : option Z :=
  if attempt <? 1 then Some 0
  else if attempt <=? 63 then Some (DataTable.int64 (2 ^ (attempt - 1) * minute))
  else None.

Section Config.
(** [cfg.MaxDeliveryTries], from MAX_DELIVERY_ATTEMPTS. *)
Variable MaxDeliveryTries : Z.

Definition retry (e : env) (row : option delivery) (job : Job) : list effect * fate :=
  if MaxDeliveryTries <=? Attempt job then
    if published e then ([Publish DeadQueue job], Ack) else ([], Drop)
  else
    let wait := Sleep (DeliveryID job) (backoffDuration (Attempt job)) in
    let job' := next_attempt job in
    if negb (published e) then ([wait], Drop)
    else
      ([wait; Publish (channelQueue (Channel job)) job']
       ++ default [] (update_with (db e 0) row (DeliveryID job)
            (jsonb_set "retry_count" (JNum (int (Attempt job'))))), Ack).

Definition dead_letter (e : env) (row : option delivery) (job : Job) : list effect * fate :=
  (default [] (update_with (db e 0) row (DeliveryID job)
     (fun r => jsonb_set "dead_letter" (JStr "max_retries_exceeded") (r <| status := "dead" |>))), Ack).

(** Who consumes a queue; nobody consumes the scheduler's. *)
Definition turn (q : queue) (e : env) (row : option delivery) (job : Job) : option (list effect * fate) :=
  match q with
  | RouterQueue | EmailQueue | SMSQueue | FCMQueue | WebSocketQueue => Some (worker e row job)
  | RetryQueue => Some (retry e row job)
  | DeadQueue => Some (dead_letter e row job)
  | SchedulerQueue => None
  end.

Definition turn_at (s : state) (q : queue) (e : env) (job : Job) : option (list effect * fate) :=
  turn q e (deliveries s !! DeliveryID job) job.

(** A message that is decoded is handled; one that is not is dropped. *)
Definition consume (s : state) (m : message) (e : env) : option (list effect * fate) :=
  match m.2 with
  | Some job => turn_at s m.1 e job
  | None => if decide (m.1 = SchedulerQueue) then None else Some ([], Drop)
  end.

Definition requeued (f : fate) (m : message) : list message :=
  match f with Requeue => [m] | _ => [] end.

(** The state a turn leaves: the other messages stay, and this one if requeued. *)
Definition after_turn (s : state) (pre post : list message) (m : message) (es : list effect) (f : fate) : state :=
  perform_all es (s <| bag := pre ++ requeued f m ++ post |>).

(** A delivery the API has accepted: its row, and its job in the channel's queue. *)
Definition accept (s : state) (r : delivery) (job : Job) : state :=
  s <| deliveries := <[DeliveryID job := r]> (deliveries s) |>
    <| bag := bag s ++ [(channelQueue (Channel job), Some job)] |>.
Definition new_delivery (job : Job) (recipient : json) : delivery :=
  MkDelivery (TenantID job) (NotificationID job) (Channel job) recipient "queued" None (JObj []).

Definition empty : state := State ∅ [] [] [] [].

Inductive event :=
| Accepted (job : Job) (recipient : json)
| Arrived (q : queue)
| Turn (m : message) (e : env)
| Died (m : message) (e : env) (n : nat).

Inductive step : state -> event -> state -> Prop :=
| step_accepted s job to :
    deliveries s !! DeliveryID job = None -> Attempt job = 0 ->
    step s (Accepted job to) (accept s (new_delivery job to) job)
| step_arrived s q : step s (Arrived q) (s <| bag := bag s ++ [(q, None)] |>)
| step_turn s pre m post e es f :
    bag s = pre ++ m :: post -> consume s m e = Some (es, f) ->
    step s (Turn m e) (after_turn s pre post m es f)
| step_died s m e es f n :
    m ∈ bag s -> consume s m e = Some (es, f) ->
    step s (Died m e n) (perform_all (take n es) s).

(** [Arrived] is a body that is no job. The states reached from an empty platform by events that all satisfy [allowed]. *)
Inductive reached (allowed : event -> Prop) : state -> Prop :=
| reached_empty : reached allowed empty
| reached_step s ev s' : reached allowed s -> allowed ev -> step s ev s' -> reached allowed s'.

End Config.

(** * One delivery at a time *)

(** What the state says of one delivery: its row, how its tries ended, the waits
    before its retries, and its messages. *)
Record view := View {
  v_row : option delivery; v_tries : list bool; v_waits : list (option Z); v_msgs : list message }.
#[export] Instance eta_view : Eta view := fun v => View (v_row v) (v_tries v) (v_waits v) (v_msgs v).

Definition about (d : string) (m : message) : bool := bool_decide (DeliveryID <$> m.2 = Some d).
Definition tries (d : string) (s : state) : list bool :=
  map snd (filter_by (fun h => bool_decide (m_delivery h.1 = d)) (handed s)).
Definition waited (d : string) (s : state) : list (option Z) :=
  map snd (filter_by (fun w => bool_decide (w.1 = d)) (waits s)).
Definition look (d : string) (s : state) : view :=
  View (deliveries s !! d) (tries d s) (waited d s) (filter_by (about d) (bag s)).

Definition target (e : effect) : string :=
  match e with
  | UpdateRow id _ | Sleep id _ => id
  | InsertAttempt a => a_delivery a
  | Hand m _ => m_delivery m
  | Publish _ j => DeliveryID j
  end.

Definition act (e : effect) (v : view) : view :=
  match e with
  | UpdateRow _ f => v <| v_row := f <$> v_row v |>
  | Hand _ ok => v <| v_tries := v_tries v ++ [ok] |>
  | Publish q j => v <| v_msgs := v_msgs v ++ [(q, Some j)] |>
  | Sleep _ w => v <| v_waits := v_waits v ++ [w] |>
  | InsertAttempt _ => v
  end.
Definition act_all (es : list effect) (v : view) : view := fold_left (fun v e => act e v) es v.

(** What happened to a delivery, when something more has. *)
Lemma history_snoc {X Y} (key : X -> string) (val : X -> Y) d xs x :
  map val (filter_by (fun x => bool_decide (key x = d)) (xs ++ [x]))
  = map val (filter_by (fun x => bool_decide (key x = d)) xs)
    ++ (if decide (key x = d) then [val x] else []).
Proof. rewrite filter_by_app, map_app. simpl. case_bool_decide; by case_decide. Qed.

Lemma view_eq v v' : v_row v = v_row v' -> v_tries v = v_tries v' -> v_waits v = v_waits v' ->
  v_msgs v = v_msgs v' -> v = v'.
Proof. destruct v, v'. simpl. congruence. Qed.

Lemma look_perform d e s : look d (perform e s) = if decide (target e = d) then act e (look d s) else look d s.
Proof.
  case_decide as Hd; destruct e; simpl in Hd; apply view_eq; simpl; try done; subst;
    try (unfold tries, waited; simpl;
         first [rewrite (history_snoc (fun h : Message * bool => m_delivery h.1) snd)
               |rewrite (history_snoc (fun h : string * option Z => h.1) snd)]; simpl;
         first [by rewrite decide_True|rewrite decide_False by done; apply app_nil_r]).
  - apply lookup_alter_eq.
  - rewrite filter_by_app. simpl. unfold about at 2. simpl. by rewrite bool_decide_eq_true_2.
  - by apply lookup_alter_ne.
  - rewrite filter_by_app. simpl. unfold about at 2. simpl.
    rewrite bool_decide_eq_false_2 by congruence. apply app_nil_r.
Qed.

Lemma look_perform_all d es s : Forall (fun e => target e = d) es ->
  look d (perform_all es s) = act_all es (look d s).
Proof.
  intros H. revert s. induction H as [|e es He _ IH]; intros s; [done|]. simpl.
  rewrite IH, look_perform. by rewrite decide_True.
Qed.

Lemma look_frame d d' es s : Forall (fun e => target e = d) es -> d' <> d ->
  look d' (perform_all es s) = look d' s.
Proof.
  intros H Hd. revert s. induction H as [|e es He _ IH]; intros s; [done|]. simpl.
  rewrite IH, look_perform. rewrite decide_False; [done|congruence].
Qed.

(** A turn only touches the delivery of its job. *)
Lemma update_targets ok row id f es : update_with ok row id f = Some es -> Forall (fun e => target e = id) es.
Proof.
  unfold update_with. intros H. repeat case_match; simplify_eq; repeat constructor.
Qed.
Lemma update_default_targets ok row id f : Forall (fun e => target e = id) (default [] (update_with ok row id f)).
Proof. destruct (update_with ok row id f) eqn:H; [by eapply update_targets|constructor]. Qed.

Lemma turn_targets M q e row job es f : turn M q e row job = Some (es, f) ->
  Forall (fun e => target e = DeliveryID job) es.
Proof.
  assert (Hw : forall es f, worker e row job = (es, f) -> Forall (fun e => target e = DeliveryID job) es).
  { clear es f. intros es f. unfold worker, applyQueueControl, handle. intros H.
    repeat case_match; simplify_eq;
      repeat (apply update_default_targets || (eapply update_targets; eassumption) || constructor). }
  intros H. destruct q; simpl in H; simplify_eq; try (by eapply Hw).
  - unfold retry in H. repeat case_match; simplify_eq; repeat constructor. apply update_default_targets.
  - unfold dead_letter in H. simplify_eq. apply update_default_targets.
Qed.

(** * Deliveries on a calm day

    No process dies, and the database, the broker and the reading of the queue
    controls answer; the providers refuse and the queues are paused and stopped at
    will. *)

Definition calm_env (e : env) : Prop :=
  is_Some (control e) /\ (forall n, db e n = true) /\ published e = true.
Definition calm (ev : event) : Prop :=
  match ev with Accepted _ _ | Arrived _ => True | Turn _ e => calm_env e | Died _ _ _ => False end.

(** The life of a delivery as a specification: tried until a provider accepts it or
    its queue is stopped, and given up when its tries are used up. *)
Inductive phase := Unknown | Open (refused : nat) | Delivered | Blocked | GivenUp.

Inductive life (budget : Z) : phase -> phase -> Prop :=
| life_accepted : life budget Unknown (Open 0)
| life_refused n : Z.of_nat n < budget -> life budget (Open n) (Open (S n))
| life_delivered n : Z.of_nat n < budget -> life budget (Open n) Delivered
| life_blocked n : Z.of_nat n < budget -> life budget (Open n) Blocked
| life_given_up n : Z.of_nat n = budget -> life budget (Open n) GivenUp.

Definition phase_of (v : view) : phase :=
  match v_row v with
  | None => Unknown
  | Some r =>
      if decide (status r = "sent") then Delivered
      else if decide (status r = "blocked") then Blocked
      else if decide (status r = "dead") then GivenUp
      else Open (length (v_tries v))
  end.

(** The tries [MaxDeliveryTries] allows: a failed try raises the attempt by two, once
    in the worker of the channel and once in that of the retries. *)
Definition budget (M : Z) : Z := Z.max M 0 / 2 + 1.

Section Calm.
Variable M : Z.
Hypothesis HM : - 2 ^ 63 <= M < 2 ^ 63.

(** Where the message of an open delivery may be after [n] refused tries. *)
Definition due (n : nat) (q : queue) (a : Z) : Prop :=
  match q with
  | RetryQueue => n <> 0%nat /\ a = 2 * Z.of_nat n - 1 /\ a <= Z.max M 0 + 1
  | DeadQueue => Z.of_nat n = budget M
  | SchedulerQueue => False
  | _ => a = 2 * Z.of_nat n /\ (n = 0%nat \/ a <= M)
  end.

(** The waits before the first [k] retries. *)
Definition backoffs (k : nat) : list (option Z) :=
  map (fun i => backoffDuration (2 * Z.of_nat i + 1)) (seq 0 k).
Definition retried (n : nat) (q : queue) : nat :=
  match q with RetryQueue | DeadQueue => pred n | _ => n end.

Inductive placed : view -> phase -> Prop :=
| placed_unknown : placed (View None [] [] []) Unknown
| placed_open n r q j o :
    status r ∈ ["queued"; "failed"] -> response_json r = JObj o -> due n q (Attempt j) ->
    placed (View (Some r) (replicate n false) (backoffs (retried n q)) [(q, Some j)]) (Open n)
| placed_delivered n r : status r = "sent" -> Z.of_nat n < budget M ->
    placed (View (Some r) (replicate n false ++ [true]) (backoffs n) []) Delivered
| placed_blocked n r : status r = "blocked" -> Z.of_nat n < budget M ->
    placed (View (Some r) (replicate n false) (backoffs n) []) Blocked
| placed_given_up n r : status r = "dead" -> Z.of_nat n = budget M ->
    placed (View (Some r) (replicate n false) (backoffs (pred n)) []) GivenUp.

Lemma placed_open_at n k r q j o :
  retried n q = k -> status r ∈ ["queued"; "failed"] -> response_json r = JObj o -> due n q (Attempt j) ->
  placed (View (Some r) (replicate n false) (backoffs k) [(q, Some j)]) (Open n).
Proof. intros <-. apply placed_open. Qed.

Lemma placed_phase v p : placed v p -> phase_of v = p.
Proof.
  destruct 1 as [|n r q j o Hs Ho Hd|n r Hs Hn|n r Hs Hn|n r Hs Hn]; unfold phase_of; simpl; [done|..];
    try (rewrite Hs; by repeat (case_decide; try done)).
  rewrite length_replicate.
  assert (status r = "queued" \/ status r = "failed") as [-> | ->] by set_solver; done.
Qed.

(** In a channel's queue there is a try left. *)
Lemma due_left n a : a = 2 * Z.of_nat n /\ (n = 0%nat \/ a <= M) -> Z.of_nat n < budget M /\ a + 1 <= Z.max M 0 + 1.
Proof. unfold budget. intros [-> H]. pose proof (Z.div_mod (Z.max M 0) 2 ltac:(lia)). pose proof (Z.mod_pos_bound (Z.max M 0) 2 ltac:(lia)). lia. Qed.

Lemma replicate_snoc {A} n (x : A) : replicate n x ++ [x] = replicate (S n) x.
Proof. by rewrite <- replicate_cons_app. Qed.

(** What a turn of a channel's worker leaves of the delivery. *)
Lemma calm_worker e r n q j o es f :
  calm_env e -> status r ∈ ["queued"; "failed"] -> response_json r = JObj o ->
  Attempt j = 2 * Z.of_nat n /\ (n = 0%nat \/ Attempt j <= M) -> due n q (Attempt j) -> retried n q = n ->
  worker e (Some r) j = (es, f) ->
  exists p,
    placed (act_all es (View (Some r) (replicate n false) (backoffs n)
      (requeued f (q, Some j)))) p
    /\ (p = Open n \/ life (budget M) (Open n) p).
Proof.
  intros ([c Hc] & Hdb & Hp) Hs Ho Ha Hd Hq. destruct (due_left n (Attempt j) Ha) as [Hb Ha1].
  unfold worker, applyQueueControl, update_with, jsonb_set, handle.
  rewrite Hc, !Hdb, Hp. simpl. rewrite !Ho. simpl.
  case_decide; [|case_decide]; simpl.
  - intros [= <- <-]. exists (Open n). split; [|by left]. unfold act_all. simpl. rewrite Ho. simpl.
    eapply placed_open_at; [done|set_solver|done|done].
  - intros [= <- <-]. exists Blocked. split; [|right; by constructor]. unfold act_all. simpl. rewrite Ho. simpl.
    by apply placed_blocked.
  - destruct (answer e) as [res|]; simpl; intros [= <- <-]; unfold act_all; simpl.
    + exists Delivered. split; [|right; by constructor]. by apply placed_delivered.
    + exists (Open (S n)). split; [|right; by constructor]. rewrite replicate_snoc.
      apply (placed_open (S n) _ RetryQueue _ []); [set_solver|done|]. simpl. rewrite DataTable.int64_id by lia. lia.
Qed.

Lemma backoffs_snoc n : n <> 0%nat ->
  backoffs (pred n) ++ [backoffDuration (2 * Z.of_nat n - 1)] = backoffs n.
Proof.
  destruct n as [|n]; [done|]. intros _. unfold backoffs. simpl pred. rewrite seq_S, map_app. simpl.
  repeat f_equal. lia.
Qed.

Lemma calm_retry e r n j o es f :
  calm_env e -> status r ∈ ["queued"; "failed"] -> response_json r = JObj o ->
  due n RetryQueue (Attempt j) -> retry M e (Some r) j = (es, f) ->
  f = Ack /\ placed (act_all es (View (Some r) (replicate n false) (backoffs (pred n)) [])) (Open n).
Proof.
  intros (_ & Hdb & Hp) Hs Ho (Hn & Ha & Hle). unfold retry, update_with, jsonb_set. rewrite !Hdb, Hp, Ho. simpl.
  destruct (M <=? Attempt j) eqn:E; intros [= <- <-]; (split; [done|]); unfold act_all; simpl.
  - apply (placed_open n _ DeadQueue _ o); [done|done|]. simpl. unfold budget.
    pose proof (Z.div_mod (Z.max M 0) 2 ltac:(lia)). pose proof (Z.mod_pos_bound (Z.max M 0) 2 ltac:(lia)). lia.
  - rewrite Ho. simpl.
    assert (Ha' : DataTable.int64 (Attempt j + 1) = 2 * Z.of_nat n) by (rewrite DataTable.int64_id by lia; lia).
    rewrite Ha', Ha, backoffs_snoc by done.
    assert (Hq : retried n (channelQueue (Channel j)) = n /\ due n (channelQueue (Channel j)) (2 * Z.of_nat n))
      by (unfold channelQueue; simpl; repeat (case_decide; simpl; try (split; [done|split; [done|lia]]))).
    destruct Hq as [Hq Hd]. eapply placed_open_at; [done|done|done|]. simpl. by rewrite Ha'.
Qed.

Lemma calm_dead e r n j o es f :
  calm_env e -> response_json r = JObj o -> Z.of_nat n = budget M ->
  dead_letter e (Some r) j = (es, f) ->
  f = Ack /\ placed (act_all es (View (Some r) (replicate n false) (backoffs (pred n)) [])) GivenUp.
Proof.
  intros (_ & Hdb & _) Ho Hn. unfold dead_letter, update_with, jsonb_set. rewrite Hdb. simpl. rewrite Ho.
  intros [= <- <-]. split; [done|]. unfold act_all. simpl. rewrite Ho. by apply placed_given_up.
Qed.

(** A calm turn is a step of the delivery's life, or none. *)
Lemma calm_turn v p q j e es f :
  placed v p -> v_msgs v = [(q, Some j)] -> calm_env e -> turn M q e (v_row v) j = Some (es, f) ->
  exists p', placed (act_all es (v <| v_msgs := requeued f (q, Some j) |>)) p'
    /\ (p' = p \/ life (budget M) p p').
Proof.
  intros Hv Hm He Ht. destruct Hv as [|n r q0 j0 o Hs Ho Hd| | | ]; simplify_eq/=.
  assert (Hw : Attempt j = 2 * Z.of_nat n /\ (n = 0%nat \/ Attempt j <= M) -> retried n q = n ->
    worker e (Some r) j = (es, f) ->
    exists p', placed (act_all es (View (Some r) (replicate n false) (backoffs n)
      (requeued f (q, Some j)))) p' /\ (p' = Open n \/ life (budget M) (Open n) p')).
  { intros Ha Hq Hf. by eapply calm_worker. }
  destruct q; simpl in Ht; simplify_eq; try by apply Hw.
  - eapply calm_retry in Ht as [-> Hpl]; [|done..]. exists (Open n). split; [done|by left].
  - eapply calm_dead in Ht as [-> Hpl]; [|done..]. exists GivenUp. split; [done|right; by constructor].
Qed.

Definition all_placed (s : state) : Prop := forall d, exists p, placed (look d s) p.

(** A turn seen from one delivery. *)
Lemma look_after s pre q j post es f d :
  bag s = pre ++ (q, Some j) :: post -> Forall (fun e => target e = DeliveryID j) es ->
  (d <> DeliveryID j -> look d (after_turn s pre post (q, Some j) es f) = look d s)
  /\ (v_msgs (look (DeliveryID j) s) = [(q, Some j)] ->
     look (DeliveryID j) (after_turn s pre post (q, Some j) es f)
     = act_all es ((look (DeliveryID j) s) <| v_msgs := requeued f (q, Some j) |>)).
Proof.
  intros Hb Hes. split; intros H; unfold after_turn.
  - rewrite (look_frame (DeliveryID j)) by done. apply view_eq; simpl; try done. rewrite Hb.
    assert (Ha : about d (q, Some j) = false) by (unfold about; simpl; apply bool_decide_eq_false_2; congruence).
    rewrite !filter_by_app. destruct f; simpl; rewrite ?Ha; done.
  - rewrite (look_perform_all (DeliveryID j)) by done. f_equal. apply view_eq; simpl; try done.
    simpl in H. rewrite Hb, filter_by_app in H. simpl in H.
    assert (Ha : about (DeliveryID j) (q, Some j) = true) by (unfold about; by rewrite bool_decide_eq_true_2).
    rewrite Ha in H. rewrite !filter_by_app.
    destruct (filter_by (about (DeliveryID j)) pre) as [|m pre'] eqn:Hpre; simplify_eq/=;
      [|by destruct pre'; simplify_eq/=].
    rewrite H. destruct f; simpl; rewrite ?Ha; done.
Qed.

Lemma look_taken s pre q j post :
  all_placed s -> bag s = pre ++ (q, Some j) :: post ->
  v_msgs (look (DeliveryID j) s) = [(q, Some j)].
Proof.
  intros Hs Hb.
  assert (Hin : (q, Some j) ∈ v_msgs (look (DeliveryID j) s)).
  { simpl. apply elem_of_filter_by. split; [unfold about; by rewrite bool_decide_eq_true_2|].
    rewrite Hb. set_solver. }
  destruct (Hs (DeliveryID j)) as [p Hp]. destruct Hp; simpl in *; set_solver.
Qed.

(** A calm event is for every delivery a step of its life, or none. *)
Lemma calm_step s ev s' : all_placed s -> calm ev -> step M s ev s' ->
  forall d, exists p p', placed (look d s) p /\ placed (look d s') p' /\ (p' = p \/ life (budget M) p p').
Proof.
  intros Hs Hc Hstep d. destruct (Hs d) as [p Hp]. exists p.
  destruct Hstep as [s job to Hnew Ha|s q|s pre [q [j|]] post e es f Hb Ht|s m e es f n Hin Ht]; [..|done].
  - destruct (decide (d = DeliveryID job)) as [->|Hd].
    + assert (Hl : look (DeliveryID job) s = View None [] [] [] /\ p = Unknown).
      { assert (Hrow : v_row (look (DeliveryID job) s) = None) by done. by destruct Hp. }
      destruct Hl as [Hl ->]. exists (Open 0). split; [done|]. split; [|right; constructor].
      assert (Heq : look (DeliveryID job) (accept s (new_delivery job to) job)
        = View (Some (new_delivery job to)) (replicate 0 false) (backoffs 0) [(channelQueue (Channel job), Some job)]).
      { injection Hl. intros Hm Hw Htr _. apply view_eq; simpl; [apply lookup_insert_eq|done|done|].
        rewrite filter_by_app, Hm. simpl. unfold about. simpl. by rewrite bool_decide_eq_true_2. }
      rewrite Heq. eapply placed_open_at; [|set_solver|done|];
        unfold channelQueue; simpl; repeat (case_decide; simpl; try done; try (split; [lia|by left])).
    + exists p. split; [done|]. split; [|by left].
      assert (Heq : look d (accept s (new_delivery job to) job) = look d s).
      { apply view_eq; simpl; [by apply lookup_insert_ne|done|done|].
        rewrite filter_by_app. simpl. unfold about at 2. simpl.
        rewrite bool_decide_eq_false_2 by congruence. apply app_nil_r. }
      by rewrite Heq.
  - exists p. split; [done|]. split; [|by left].
    assert (Heq : look d (s <| bag := bag s ++ [(q, None)] |>) = look d s)
      by (apply view_eq; simpl; try done; rewrite filter_by_app; apply app_nil_r).
    by rewrite Heq.
  - assert (Hes : Forall (fun e => target e = DeliveryID j) es) by exact (turn_targets _ _ _ _ _ _ _ Ht).
    destruct (look_after s pre q j post es f d Hb Hes) as [Hother Hself].
    destruct (decide (d = DeliveryID j)) as [->|Hd].
    + pose proof (look_taken s pre q j post Hs Hb) as Hm. rewrite Hself by done.
      destruct (calm_turn _ p q j e es f Hp Hm Hc Ht) as (p' & ? & ?). eauto.
    + exists p. rewrite Hother by done. eauto.
  - exists p. split; [done|]. split; [|by left].
    assert (Heq : look d (after_turn s pre post (q, None) es f) = look d s).
    { unfold after_turn. replace es with (@nil effect) by (unfold consume in Ht; simpl in Ht; by case_decide; simplify_eq).
      apply view_eq; simpl; try done. rewrite Hb, !filter_by_app. by destruct f. }
    by rewrite Heq.
Qed.

Lemma calm_placed s : reached M calm s -> all_placed s.
Proof.
  induction 1 as [|s ev s' _ IH Hc Hstep]; intros d.
  - exists Unknown. constructor.
  - destruct (calm_step s ev s' IH Hc Hstep d) as (p & p' & _ & ? & _). eauto.
Qed.
End Calm.

(** * Turns use the messages up *)

Definition publications (es : list effect) : list message :=
  omap (fun e => match e with Publish q j => Some (q, Some j) | _ => None end) es.

Lemma bag_perform_all es s : bag (perform_all es s) = bag s ++ publications es.
Proof.
  revert s. induction es as [|e es IH]; intros s; simpl; [by rewrite app_nil_r|].
  rewrite IH. destruct e; simpl; try done. by rewrite <- app_assoc.
Qed.

(** The turns a message may still cause. *)
Definition weight (M : Z) (m : message) : Z :=
  match m with
  | (SchedulerQueue, _) => 0
  | (_, None) | (DeadQueue, _) => 1
  | (RetryQueue, Some j) => 2 * Z.max (M - Attempt j) 0 + 2
  | (_, Some j) => 2 * Z.max (M - Attempt j) 0 + 3
  end.
Definition load (M : Z) (ms : list message) : Z := fold_right (fun m z => weight M m + z) 0 ms.

Lemma load_cons M m ms : load M (m :: ms) = weight M m + load M ms.
Proof. done. Qed.
Lemma load_app M ms ms' : load M (ms ++ ms') = load M ms + load M ms'.
Proof. induction ms as [|m ms IH]; simpl; [done|]. rewrite IH. lia. Qed.
Lemma load_nonneg M ms : 0 <= load M ms.
Proof.
  induction ms as [|[q o] ms IH]; simpl; [done|].
  assert (0 <= weight M (q, o)) by (destruct q, o; simpl; lia). unfold weight in *. lia.
Qed.

(** Calm, and no queue control says paused. *)
Definition brisk (e : env) : Prop := calm_env e /\ control e <> Some "paused".

Inductive turns (M : Z) (allowed : env -> Prop) : state -> nat -> state -> Prop :=
| turns_none s : turns M allowed s 0 s
| turns_more s m e s1 n s2 :
    allowed e -> step M s (Turn m e) s1 -> turns M allowed s1 n s2 -> turns M allowed s (S n) s2.

Section Finish.
Variable M : Z.
Hypothesis HM : - 2 ^ 63 <= M < 2 ^ 63.

Lemma weight_channel channel j : weight M (channelQueue channel, Some j) = 2 * Z.max (M - Attempt j) 0 + 3.
Proof. unfold channelQueue. simpl. by repeat (case_decide; simpl; [done|]). Qed.

(** A turn leaves less than it took. *)
Lemma turn_lightens v p q j e es f :
  placed M v p -> v_msgs v = [(q, Some j)] -> brisk e -> turn M q e (v_row v) j = Some (es, f) ->
  load M (requeued f (q, Some j)) + load M (publications es)
  < weight M (q, Some j).
Proof.
  intros Hv Hm [([c Hc] & Hdb & Hp) Hpause] Ht. destruct Hv as [|n r q0 j0 o Hs Ho Hd| | | ]; simplify_eq/=.
  assert (Hw : forall q, weight M (q, Some j) = 2 * Z.max (M - Attempt j) 0 + 3 ->
    Attempt j + 1 < 2 ^ 63 -> -2 ^ 63 <= Attempt j -> worker e (Some r) j = (es, f) ->
    load M (requeued f (q, Some j)) + load M (publications es)
    < weight M (q, Some j)).
  { intros q' Hq Ha1 Ha2. rewrite Hq. unfold worker, applyQueueControl, update_with, jsonb_set, handle.
    rewrite Hc, !Hdb, Hp. simpl. rewrite !Ho. simpl. rewrite decide_False by congruence.
    case_decide; simpl; [intros [= <- <-]; simpl; lia|].
    destruct (answer e); simpl; intros [= <- <-]; simpl; [lia|].
    rewrite DataTable.int64_id by lia. lia. }
  destruct q; simpl in Ht; simplify_eq; try (destruct Hd as [Ha ?]; apply Hw; [done|lia|lia|done]).
  - destruct Hd as (Hn & Ha & Hle). unfold retry, update_with, jsonb_set in Ht. rewrite !Hdb, Hp, Ho in Ht. simpl in Ht.
    destruct (M <=? Attempt j) eqn:E; simplify_eq/=; [lia|].
    pose proof (weight_channel (Channel j) (next_attempt j)) as Hw'. simpl in Hw'.
    rewrite Hw', DataTable.int64_id by lia. lia.
  - unfold dead_letter, update_with, jsonb_set in Ht. rewrite Hdb in Ht. simpl in Ht. rewrite Ho in Ht.
    simplify_eq/=. lia.
Qed.

Lemma brisk_turn_lightens s m e s' :
  all_placed M s -> brisk e -> step M s (Turn m e) s' -> load M (bag s') < load M (bag s).
Proof.
  intros Hs He Hstep. inversion Hstep as [| |? pre ? post ? es f Hb Ht|]; subst.
  unfold after_turn. rewrite bag_perform_all, Hb. cbn [bag setter]. simpl bag.
  rewrite !load_app, load_cons.
  destruct m as [q [j|]].
  - destruct (Hs (DeliveryID j)) as [p Hp].
    pose proof (look_taken M HM s pre q j post Hs Hb) as Hm.
    pose proof (turn_lightens _ p q j e es f Hp Hm He Ht). lia.
  - unfold consume in Ht. simpl in Ht. case_decide; simplify_eq/=. destruct q; simpl in *; done || lia.
Qed.

(** An open delivery's message is taken whatever the surroundings answer. *)
Lemma open_goes_on s d r e :
  all_placed M s -> deliveries s !! d = Some r -> status r ∉ ["sent"; "blocked"; "dead"] ->
  exists m s', step M s (Turn m e) s'.
Proof.
  intros Hs Hr Hst. destruct (Hs d) as [p Hp].
  assert (Hrow : v_row (look d s) = Some r) by done.
  assert (Hm : exists q j, q <> SchedulerQueue /\ (q, Some j) ∈ v_msgs (look d s)).
  { destruct Hp as [|n r0 q j o Hs0 Ho Hd|n r0 Hs0|n r0 Hs0|n r0 Hs0]; simplify_eq/=; set_solver. }
  destruct Hm as (q & j & Hq & Hin). simpl in Hin. apply elem_of_filter_by in Hin as [_ Hin].
  apply list_elem_of_split in Hin as (pre & post & Hb).
  assert (Ht : exists es f, consume M s (q, Some j) e = Some (es, f)).
  { unfold consume, turn_at. simpl. destruct q; try done; simpl;
      match goal with |- exists es f, Some ?x = _ => exists x.1, x.2; by destruct x end. }
  destruct Ht as (es & f & Ht). eexists _, _. by eapply step_turn.
Qed.

Lemma turns_calm s n s' : reached M calm s -> turns M brisk s n s' ->
  reached M calm s' /\ Z.of_nat n + load M (bag s') <= load M (bag s).
Proof.
  intros Hs Ht. induction Ht as [s|s m e s1 n s2 He Hstep _ IH]; [split; [done|lia]|].
  assert (Hs1 : reached M calm s1) by (eapply reached_step; [done| |done]; apply He).
  destruct (IH Hs1) as [? ?]. split; [done|].
  pose proof (brisk_turn_lightens s m e s1 (calm_placed M HM s Hs) He Hstep). lia.
Qed.
End Finish.

(** * No delivery is lost

    Processes die and statements fail, but publications succeed, so do the statements
    that record a dead letter, and a provider's raw answer is an object. *)

Definition raw_object (e : env) : Prop := forall res, answer e = Some res -> exists o, Raw res = JObj o.
Definition kept (ev : event) : Prop :=
  match ev with
  | Accepted _ _ | Arrived _ => True
  | Turn (q, _) e => published e = true /\ raw_object e /\ (q = DeadQueue -> db e 0 = true)
  | Died _ e _ => raw_object e
  end.

Definition is_object (r : delivery) : Prop := exists o, response_json r = JObj o.
Definition finished (r : delivery) : Prop := status r ∈ ["sent"; "blocked"; "dead"].
Definition waiting (d : string) (ms : list message) : Prop :=
  exists q j, (q, Some j) ∈ ms /\ DeliveryID j = d /\ q <> SchedulerQueue.

Definition guarded (s : state) : Prop :=
  forall d r, deliveries s !! d = Some r -> is_object r /\ (finished r \/ waiting d (bag s)).

(** The row of a delivery after the effects of a turn. *)
Definition row_after (es : list effect) (row : option delivery) : option delivery :=
  fold_left (fun row e => match e with UpdateRow _ f => f <$> row | _ => row end) es row.

Lemma deliveries_after es d s : Forall (fun e => target e = d) es ->
  deliveries (perform_all es s) !! d = row_after es (deliveries s !! d).
Proof.
  intros H. change (v_row (look d (perform_all es s)) = row_after es (v_row (look d s))).
  rewrite look_perform_all by done. generalize (look d s). clear H.
  induction es as [|e es IH]; intros v; [done|]. simpl. rewrite IH. by destruct e.
Qed.

(** The updates keep the response an object. *)
Definition sound (e : effect) : Prop :=
  match e with UpdateRow _ f => forall r, is_object r -> is_object (f r) | _ => True end.

Lemma sound_update ok row id f key v :
  (forall r, response_json (f r) = response_json r) ->
  Forall sound (default [] (update_with ok row id (fun r => jsonb_set key v (f r)))).
Proof.
  intros Hf. unfold update_with. repeat case_match; simplify_eq/=; repeat constructor.
  simpl. intros r [o Ho]. unfold jsonb_set. rewrite Hf, Ho. by eexists.
Qed.

Lemma turn_sound M q e row j es f : raw_object e -> turn M q e row j = Some (es, f) -> Forall sound es.
Proof.
  intros Hraw.
  assert (Hw : worker e row j = (es, f) -> Forall sound es).
  { unfold worker, applyQueueControl.
    assert (H0 : forall v st, Forall sound (default [] (update_with (db e 0) row (DeliveryID j)
                  (fun r => jsonb_set "queue_status" (JStr v) (r <| status := st |>))))).
    { intros v st. by apply sound_update. }
    pose proof (H0 "stopped" "blocked") as H2.
    assert (H3 : forall r, is_object r -> is_object (r <| status := "sending" |>)) by (by intros r [o ?]; exists o).
    assert (H4 : forall r st pid, is_object (r <| status := st |> <| provider_message_id := pid |>
                   <| response_json := from_option Raw (JObj []) (answer e) |>)).
    { intros. destruct (answer e) as [res|] eqn:Ha; [|by exists []]. by destruct (Hraw res) as [o ?]; [|exists o]. }
    unfold handle. intros H. repeat case_match; simplify_eq/=; auto;
      repeat (apply List.Forall_cons; [simpl; auto|]); auto. }
  intros H. destruct q; simpl in H; simplify_eq; auto.
  - unfold retry in H. repeat case_match; simplify_eq/=; repeat (apply List.Forall_cons; [done|]); auto.
    by apply (sound_update _ _ _ (fun r => r)).
  - unfold dead_letter in H. simplify_eq. by apply sound_update.
Qed.

Lemma row_after_none es : row_after es None = None.
Proof. induction es as [|e es IH]; [done|]. by destruct e. Qed.

Lemma row_after_object es r r' : Forall sound es -> is_object r -> row_after es (Some r) = Some r' -> is_object r'.
Proof.
  intros H. revert r. induction H as [|e es He _ IH]; intros r Hr Hr'; [by simplify_eq/=|].
  destruct e; simpl in *; try by eapply IH. eapply IH; [|done]. by apply He.
Qed.

(** A turn that takes its message away publishes another, or finishes the delivery. *)
Lemma turn_keeps M q e row j es f r :
  row = Some r -> is_object r -> published e = true -> (q = DeadQueue -> db e 0 = true) ->
  turn M q e row j = Some (es, f) ->
  (f = Requeue /\ q <> SchedulerQueue)
  \/ waiting (DeliveryID j) (publications es)
  \/ exists r', row_after es row = Some r' /\ finished r'.
Proof.
  intros -> [o Ho] Hp Hdead.
  assert (Hpub : forall q' es0 j', DeliveryID j' = DeliveryID j -> q' <> SchedulerQueue ->
    waiting (DeliveryID j) (publications (es0 ++ [Publish q' j']))).
  { intros q' es0 j' Hj Hq'. exists q', j'. split; [|done]. unfold publications.
    rewrite omap_app. simpl. set_solver. }
  assert (Hw : worker e (Some r) j = (es, f) -> q <> SchedulerQueue ->
    (f = Requeue /\ q <> SchedulerQueue) \/ waiting (DeliveryID j) (publications es)
    \/ exists r', row_after es (Some r) = Some r' /\ finished r').
  { unfold worker, applyQueueControl, update_with, jsonb_set. simpl. rewrite Ho, Hp.
    destruct (control e) as [c|]; [|intros [= <- <-] ?; by left].
    case_decide; [intros [= <- <-] ?; by left|]. case_decide.
    - destruct (db e 0); simpl; intros [= <- <-] ?; [|by left].
      right. right. simpl. rewrite Ho. eexists. split; [done|]. unfold finished. simpl. set_solver.
    - destruct (handle e (Some r) j) as [es0 ok] eqn:Hh. destruct ok; intros [= <- <-] ?.
      + right. right. unfold handle in Hh. destruct (db e 1), (db e 2), (db e 3), (answer e); simplify_eq/=;
          (eexists; split; [done|]; unfold finished; simpl; set_solver).
      + right. left. by apply Hpub. }
  intros Ht. destruct q; simpl in Ht; simplify_eq; try (by apply Hw).
  - right. left. unfold retry in Ht. rewrite Hp in Ht. destruct (M <=? Attempt j); simplify_eq/=.
    + by apply (Hpub DeadQueue []).
    + exists (channelQueue (Channel j)), (next_attempt j). split; [by left|]. split; [done|].
      unfold channelQueue. simpl. repeat (case_decide; simpl; try done).
  - right. right. unfold dead_letter, update_with, jsonb_set in Ht. rewrite (Hdead eq_refl) in Ht. simpl in Ht.
    rewrite Ho in Ht. simplify_eq/=. rewrite Ho. eexists. split; [done|]. unfold finished. simpl. set_solver.
Qed.

Lemma waiting_app d ms ms' : waiting d ms \/ waiting d ms' -> waiting d (ms ++ ms').
Proof. intros [(q & j & H & ? & ?)|(q & j & H & ? & ?)]; exists q, j; set_solver. Qed.

Lemma consume_row M s q j e : consume M s (q, Some j) e = turn M q e (deliveries s !! DeliveryID j) j.
Proof. done. Qed.

Lemma perform_frame d id es s : Forall (fun e => target e = id) es -> d <> id ->
  deliveries (perform_all es s) !! d = deliveries s !! d.
Proof. intros H Hd. pose proof (look_frame id d es s H Hd) as Hl. by apply (f_equal v_row) in Hl. Qed.

Lemma guarded_died M s m e es f n :
  guarded s -> raw_object e -> m ∈ bag s -> consume M s m e = Some (es, f) ->
  guarded (perform_all (take n es) s).
Proof.
  intros Hs Hraw Hin Ht. destruct m as [q [j|]].
  2: { unfold consume in Ht. simpl in Ht. case_decide; simplify_eq. by destruct n. }
  rewrite consume_row in Ht.
  assert (Hes : Forall (fun e => target e = DeliveryID j) (take n es)) by (eapply Forall_take, turn_targets, Ht).
  assert (Hsd : Forall sound (take n es)) by (eapply Forall_take, turn_sound, Ht; done).
  intros d r Hr. destruct (decide (d = DeliveryID j)) as [->|Hd].
  - rewrite deliveries_after in Hr by done. destruct (deliveries s !! DeliveryID j) as [r0|] eqn:Hr0.
    + destruct (Hs _ _ Hr0) as [Ho _]. split; [by eapply row_after_object|]. right.
      rewrite bag_perform_all. apply waiting_app. left. exists q, j. split; [done|]. split; [done|].
      by intros ->.
    + by rewrite row_after_none in Hr.
  - rewrite (perform_frame d _ _ _ Hes Hd) in Hr. destruct (Hs _ _ Hr) as [Ho Hf]. split; [done|].
    destruct Hf as [|Hf]; [by left|right]. rewrite bag_perform_all. apply waiting_app. by left.
Qed.

Lemma guarded_turn M s pre q j post e es f :
  guarded s -> bag s = pre ++ (q, Some j) :: post -> kept (Turn (q, Some j) e) ->
  consume M s (q, Some j) e = Some (es, f) -> guarded (after_turn s pre post (q, Some j) es f).
Proof.
  intros Hs Hb (Hp & Hraw & Hdead) Ht. rewrite consume_row in Ht.
  assert (Hes : Forall (fun e => target e = DeliveryID j) es) by (eapply turn_targets, Ht).
  assert (Hsd : Forall sound es) by (eapply turn_sound, Ht; done).
  intros d r Hr. unfold after_turn in *. rewrite bag_perform_all.
  destruct (decide (d = DeliveryID j)) as [->|Hd].
  - rewrite deliveries_after in Hr by done. simpl in Hr.
    destruct (deliveries s !! DeliveryID j) as [r0|] eqn:Hr0.
    + destruct (Hs _ _ Hr0) as [Ho _]. split; [by eapply row_after_object|].
      destruct (turn_keeps M q e _ j es f r0 eq_refl Ho Hp Hdead Ht) as [[-> Hq]|[Hw|(r' & Hr' & Hf)]].
      * right. exists q, j. split; [simpl; set_solver|done].
      * right. apply waiting_app. by right.
      * left. by simplify_eq.
    + by rewrite row_after_none in Hr.
  - rewrite (perform_frame d _ _ _ Hes Hd) in Hr. destruct (Hs _ _ Hr) as [Ho Hf]. split; [done|].
    destruct Hf as [|(q' & j' & Hin & Hj & Hq)]; [by left|right]. apply waiting_app. left.
    exists q', j'. split; [|done]. rewrite Hb in Hin. simpl. clear -Hin Hj Hd. set_solver.
Qed.

Lemma kept_guarded M s : reached M kept s -> guarded s.
Proof.
  induction 1 as [|s ev s' _ IH Hk Hstep]; [intros d r Hr; simpl in Hr; by rewrite lookup_empty in Hr|].
  destruct Hstep as [s job to Hnew Ha|s q|s pre [q [j|]] post e es f Hb Ht|s m e es f n Hin Ht].
  - intros d r Hr. simpl in *. destruct (decide (d = DeliveryID job)) as [->|Hd].
    + rewrite lookup_insert_eq in Hr. simplify_eq. split; [by exists []|right].
      exists (channelQueue (Channel job)), job. split; [set_solver|]. split; [done|].
      unfold channelQueue. simpl. repeat (case_decide; simpl; try done).
    + rewrite lookup_insert_ne in Hr by done. destruct (IH _ _ Hr) as [? [?|?]]; [by auto|].
      split; [done|right]. apply waiting_app. by left.
  - intros d r Hr. destruct (IH _ _ Hr) as [? [?|?]]; [by auto|]. split; [done|right].
    apply waiting_app. by left.
  - by eapply guarded_turn.
  - unfold consume in Ht. simpl in Ht. case_decide; simplify_eq. intros d r Hr.
    destruct (IH d r Hr) as [? [?|(q' & j' & Hj & ?)]]; [by auto|]. split; [done|right].
    exists q', j'. split; [|done]. rewrite Hb in Hj. unfold after_turn. simpl. set_solver.
  - by eapply guarded_died.
Qed.

(** * What is promised of deliveries *)

(** C2: whatever happens on a calm day, every event is for each delivery a step of its
    specified life or none: it is tried while its tries last, at most
    [MaxDeliveryTries] div 2 + 1 of them, until a provider accepts it, its queue is
    stopped, or it is given up; and what is delivered, blocked or given up stays so. *)
Theorem deliveries_refine_life M s ev s' d :
  - 2 ^ 63 <= M < 2 ^ 63 -> reached M calm s -> calm ev -> step M s ev s' ->
  phase_of (look d s') = phase_of (look d s)
  \/ life (budget M) (phase_of (look d s)) (phase_of (look d s')).
Proof.
  intros HM Hs Hc Hstep.
  destruct (calm_step M HM s ev s' (calm_placed M HM s Hs) Hc Hstep d) as (p & p' & Hp & Hp' & H).
  by rewrite (placed_phase M HM _ _ Hp), (placed_phase M HM _ _ Hp').
Qed.

(** The value of a wait: the retries wait a power of four minutes. *)
Lemma backoffs_value k M : 2 * Z.of_nat k <= Z.max M 0 -> M <= 29 ->
  backoffs k = map (fun i => Some (4 ^ Z.of_nat i * minute)) (seq 0 k).
Proof.
  intros Hk HM. unfold backoffs. apply map_ext_in. intros i Hi. apply in_seq in Hi.
  unfold backoffDuration. replace (2 * Z.of_nat i + 1 <? 1) with false by lia.
  replace (2 * Z.of_nat i + 1 <=? 63) with true by lia.
  replace (2 * Z.of_nat i + 1 - 1) with (2 * Z.of_nat i) by lia.
  rewrite Z.pow_mul_r by lia. change (2 ^ 2) with 4. rewrite DataTable.int64_id; [done|].
  assert (4 ^ Z.of_nat i <= 4 ^ 13) by (apply Z.pow_le_mono_r; lia).
  assert (0 < 4 ^ Z.of_nat i) by (apply Z.pow_pos_nonneg; lia).
  unfold minute. change (4 ^ 13) with 67108864 in *. lia.
Qed.

(** The retry worker sleeps before it publishes for another try. *)
Lemma sleeps_first M s j e es f q j' :
  consume M s (RetryQueue, Some j) e = Some (es, f) -> Publish q j' ∈ es -> q <> DeadQueue ->
  exists es', es = Sleep (DeliveryID j) (backoffDuration (Attempt j)) :: es'.
Proof.
  unfold consume, turn_at. simpl. intros [= H] Hin Hq. unfold retry in H.
  destruct (M <=? Attempt j); [|destruct (negb (published e)); simplify_eq; by eexists].
  destruct (published e); simplify_eq; set_solver.
Qed.

(** The tries and the waits of one delivery: [n] refusals, [k] waits. *)
Definition history (M : Z) (r : delivery) (tried : list bool) (slept : list (option Z)) (n k : nat) : Prop :=
  tried = replicate n false ++ (if decide (status r = "sent") then [true] else [])
  /\ slept = backoffs k
  /\ Z.of_nat (length tried) <= budget M
  /\ (length tried <= S k)%nat /\ (k <= n)%nat
  /\ (status r = "sent" -> k = n)
  /\ (status r = "dead" -> Z.of_nat n = budget M /\ k = pred n).

Lemma placed_history M v p r : placed M v p -> v_row v = Some r ->
  exists n k, history M r (v_tries v) (v_waits v) n k /\ 2 * Z.of_nat k <= Z.max M 0.
Proof.
  intros Hv Hr. pose proof (Z.div_mod (Z.max M 0) 2 ltac:(lia)) as Hdiv.
  pose proof (Z.mod_pos_bound (Z.max M 0) 2 ltac:(lia)) as Hmod. unfold budget, history in *.
  destruct Hv as [|n r0 q j o Hs Ho Hd|n r0 Hs Hn|n r0 Hs Hn|n r0 Hs Hn]; simplify_eq/=;
    rewrite ?length_app, ?length_replicate; unfold budget in *.
  - exists n, (retried n q).
    assert (status r <> "sent" /\ status r <> "dead") as [H1 H2] by (split; intros E; rewrite E in Hs; set_solver).
    rewrite decide_False, app_nil_r by done.
    destruct q; simpl in Hd |- *; unfold budget in *; (repeat split; first [done|lia]).
  - exists n, n. rewrite decide_True by done. simpl. rewrite Hs. repeat split; first [done|lia].
  - exists n, n. rewrite Hs. rewrite decide_False, app_nil_r by done. repeat split; first [done|lia].
  - exists n, (pred n). rewrite Hs. rewrite decide_False, app_nil_r by done. repeat split; first [done|lia].
Qed.

(** C31: a delivery is handed to its provider a bounded number of times, with waits
    between.  On a calm day (no process dies, publications and statements succeed) its
    tries are refusals and, when it is sent, one acceptance after them; there are never
    more than [MaxDeliveryTries] div 2 + 1, and exactly so many refusals when it is
    given up.  In every state the tries outnumber the waits by at most one, so that
    between two tries the retry worker has slept; a delivery that is sent has waited
    once for each refusal, one that is given up once less.  The retry worker sleeps
    before it publishes a job for another try.  The waits are those of
    [backoffDuration], and with at most 29 tries configured 1, 4, 16, ... minutes:
    the product of 64 bits does not overflow. *)
Theorem tries_are_bounded M s d r :
  - 2 ^ 63 <= M < 2 ^ 63 -> reached M calm s -> deliveries s !! d = Some r ->
  (exists n k,
    history M r (tries d s) (waited d s) n k
    /\ (M <= 29 -> waited d s = map (fun i => Some (4 ^ Z.of_nat i * minute)) (seq 0 k)))
  /\ (forall j e es f q j', consume M s (RetryQueue, Some j) e = Some (es, f) ->
      Publish q j' ∈ es -> q <> DeadQueue ->
      exists es', es = Sleep (DeliveryID j) (backoffDuration (Attempt j)) :: es').
Proof.
  intros HM Hs Hr. destruct (calm_placed M HM s Hs d) as [p Hp]. split.
  - destruct (placed_history M _ _ r Hp Hr) as (n & k & Hh & Hmax).
    exists n, k. split; [done|]. intros HM'. rewrite <- (backoffs_value k M) by done. apply Hh.
  - intros j e es f q j'. apply sleeps_first.
Qed.

(** C30: deliveries come to an end.  While no queue is paused, a calm platform makes at
    most [load] turns before it needs new work, and until every delivery is sent,
    blocked or given up there is a message to take, whatever the surroundings
    answer. *)
Theorem deliveries_finish M s n s' e :
  - 2 ^ 63 <= M < 2 ^ 63 -> reached M calm s -> turns M brisk s n s' ->
  Z.of_nat n <= load M (bag s)
  /\ ((forall d r, deliveries s' !! d = Some r -> finished r) \/ exists m s'', step M s' (Turn m e) s'').
Proof.
  intros HM Hs Ht. destruct (turns_calm M HM s n s' Hs Ht) as [Hs' Hload].
  pose proof (load_nonneg M (bag s')). split; [lia|].
  destruct (decide (map_Forall (fun _ r => finished r) (deliveries s'))) as [Hf|Hf]; [by left|right].
  apply map_not_Forall in Hf as (d & r & Hr & Hf); [|apply _].
  by eapply (open_goes_on M); [|by apply calm_placed|..].
Qed.

(** C3: no delivery is lost.  Processes may die after any effect, statements and
    queue controls may fail: as long as publications and the record of dead letters
    succeed, and the raw answers of providers are objects, every delivery that is not
    sent, blocked or dead has a message that a worker will take. *)
Theorem no_delivery_is_lost M s d r :
  reached M kept s -> deliveries s !! d = Some r -> ~ finished r -> waiting d (bag s).
Proof. intros Hs Hr Hf. by destruct (kept_guarded M s Hs d r Hr) as [_ [?|?]]. Qed.

(** * Runs *)

(** A run by the positions of the messages that are taken. *)
Inductive move :=
| Accepts (job : Job) (recipient : json)
| Takes (i : nat) (e : env)
| Dies (i : nat) (e : env) (n : nat).

Definition make (M : Z) (s : state) (c : move) : option (event * state) :=
  match c with
  | Accepts job to =>
      if decide (deliveries s !! DeliveryID job = None /\ Attempt job = 0)
      then Some (Accepted job to, accept s (new_delivery job to) job) else None
  | Takes i e =>
      m ← bag s !! i; '(es, f) ← consume M s m e;
      Some (Turn m e, after_turn s (take i (bag s)) (List.skipn (S i) (bag s)) m es f)
  | Dies i e n =>
      m ← bag s !! i; '(es, f) ← consume M s m e;
      Some (Died m e n, perform_all (take n es) s)
  end.

Fixpoint play (M : Z) (cs : list move) (s : state) : option (list event * state) :=
  match cs with
  | [] => Some ([], s)
  | c :: cs => '(ev, s1) ← make M s c; '(evs, s2) ← play M cs s1; Some (ev :: evs, s2)
  end.

Lemma make_step M s c ev s' : make M s c = Some (ev, s') -> step M s ev s'.
Proof.
  destruct c as [job to|i e|i e n]; simpl.
  - case_decide as H; [|done]. intros [= <- <-]. apply step_accepted; tauto.
  - destruct (bag s !! i) as [m|] eqn:Hm; [|done]. simpl.
    destruct (consume M s m e) as [[es f]|] eqn:Ht; [|done]. intros [= <- <-].
    eapply step_turn; [|done]. symmetry. by apply take_drop_middle.
  - destruct (bag s !! i) as [m|] eqn:Hm; [|done]. simpl.
    destruct (consume M s m e) as [[es f]|] eqn:Ht; [|done]. intros [= <- <-].
    eapply step_died; [|done]. by eapply list_elem_of_lookup_2.
Qed.

(** What a move asks of its surroundings is what its event does. *)
Definition asks (allowed : event -> Prop) (c : move) : Prop :=
  match c with
  | Accepts job to => allowed (Accepted job to)
  | Takes _ e => forall m, allowed (Turn m e)
  | Dies _ e n => forall m, allowed (Died m e n)
  end.

Lemma play_reached M allowed cs s evs s' :
  reached M allowed s -> Forall (asks allowed) cs -> play M cs s = Some (evs, s') -> reached M allowed s'.
Proof.
  intros Hs Hall. revert s evs Hs. induction Hall as [|c cs Hc _ IH]; intros s evs Hs; simpl; [by intros [= <- <-]|].
  destruct (make M s c) as [[ev s1]|] eqn:Hm; [|done]. simpl.
  destruct (play M cs s1) as [[evs2 s2]|] eqn:Hp; [|done]. intros [= <- <-].
  eapply IH; [|done]. eapply reached_step; [done| |by eapply make_step].
  destruct c; simpl in *; [by case_decide; simplify_eq|..];
    (destruct (bag s !! i) as [m|]; [|done]; simpl in Hm; by destruct (consume M s m e) as [[]|]; simplify_eq/=).
Qed.

Section Samples.
Definition sample_job : Job :=
  MkJob "n1" "d1" "t1" "email" "tenant.acme.email" (<["email" := JStr "ada@x.org"]> ∅) 0.
(** The provider accepts or refuses, and everything else works. *)
Definition all_well (accepts : bool) : env :=
  Env (Some "active") (fun _ => true)
    (if accepts then Some (MkResult "mock_email_1" (JObj [("provider", JStr "mock")])) else None) true.

(** Refused, retried after a minute, refused again, and given up: with three tries
    configured, two are made. *)
Definition refused_run : list move :=
  [Accepts sample_job JNull; Takes 0 (all_well false); Takes 0 (all_well true); Takes 0 (all_well false);
   Takes 0 (all_well true); Takes 0 (all_well true)].
Definition final (M : Z) (cs : list move) : state := from_option snd empty (play M cs empty).

Example refused_twice :
  let s := final 3 refused_run in
  (status <$> deliveries s !! "d1") = Some "dead" /\ tries "d1" s = [false; false]
  /\ waited "d1" s = [Some (60 * 10 ^ 9)] /\ bag s = [].
Proof. vm_compute. auto. Qed.

Lemma final_reached M allowed cs : Forall (asks allowed) cs -> reached M allowed (final M cs).
Proof.
  intros Hall. unfold final. destruct (play M cs empty) as [[evs s]|] eqn:Hp; [|constructor].
  eapply play_reached; [constructor|done..].
Qed.

Lemma all_well_calm b : calm_env (all_well b).
Proof. split; [by eexists|done]. Qed.
End Samples.

(** The worker acknowledges a message whatever becomes of its publication to the
    retry queue: when that fails, the refused delivery stays failed, and nobody
    will ever take it up. *)
Theorem unpublished_retry_is_lost :
  exists s, reached 3 (fun _ => True) s
    /\ (status <$> deliveries s !! "d1") = Some "failed" /\ bag s = [].
Proof.
  exists (final 3 [Accepts sample_job JNull; Takes 0 (Env (Some "active") (fun _ => true) None false)]).
  split; [|by vm_compute]. apply final_reached. by repeat constructor.
Qed.

(** A message is sent twice when its provider accepts it and the insertion into
    [delivery_attempts] fails: the worker takes that for a failed delivery. *)
Theorem accepted_message_is_sent_again :
  exists s, reached 3 (fun ev => forall m e n, ev <> Died m e n) s
    /\ (status <$> deliveries s !! "d1") = Some "sent" /\ tries "d1" s = [true; true].
Proof.
  set (no_insert := Env (Some "active") (fun n => negb (Nat.eqb n 3)) (answer (all_well true)) true).
  exists (final 3 [Accepts sample_job JNull; Takes 0 no_insert; Takes 0 (all_well true); Takes 0 (all_well true)]).
  split; [|by vm_compute]. apply final_reached. by repeat constructor.
Qed.

(** * The promises at these runs *)

Lemma refused_run_calm n : reached 3 calm (final 3 (take n refused_run)).
Proof. apply final_reached, Forall_take. repeat constructor; apply all_well_calm. Qed.

Lemma deliveries_refine_life_witness :
  let s := final 3 (take 1 refused_run) in let s' := final 3 (take 2 refused_run) in
  phase_of (look "d1" s') = phase_of (look "d1" s)
  \/ life (budget 3) (phase_of (look "d1" s)) (phase_of (look "d1" s')).
Proof.
  apply (deliveries_refine_life 3 _ (Turn (EmailQueue, Some sample_job) (all_well false))); [lia| | |].
  - apply refused_run_calm.
  - apply all_well_calm.
  - apply (make_step 3 _ (Takes 0 (all_well false))). vm_compute. reflexivity.
Defined.

Lemma tries_are_bounded_witness :
  exists n k, history 3 (default (new_delivery sample_job JNull) (deliveries (final 3 refused_run) !! "d1"))
    (tries "d1" (final 3 refused_run)) (waited "d1" (final 3 refused_run)) n k
  /\ waited "d1" (final 3 refused_run) = map (fun i => Some (4 ^ Z.of_nat i * minute)) (seq 0 k).
Proof.
  destruct (tries_are_bounded 3 (final 3 refused_run) "d1"
    (default (new_delivery sample_job JNull) (deliveries (final 3 refused_run) !! "d1")))
    as [(n & k & Hh & Hw) _]; [lia|apply (refused_run_calm 6)|by vm_compute|].
  exists n, k. split; [exact Hh|apply Hw; lia].
Defined.

Lemma deliveries_finish_witness :
  let s := final 3 (take 1 refused_run) in let s' := final 3 (take 2 refused_run) in
  Z.of_nat 1 <= load 3 (bag s)
  /\ ((forall d r, deliveries s' !! d = Some r -> finished r)
      \/ exists m s'', step 3 s' (Turn m (all_well true)) s'').
Proof.
  apply deliveries_finish; [lia|apply refused_run_calm|].
  eapply (turns_more _ _ _ (EmailQueue, Some sample_job) (all_well false)); [|..|constructor].
  - split; [apply all_well_calm|done].
  - apply (make_step 3 _ (Takes 0 (all_well false))). vm_compute. reflexivity.
Defined.

Lemma no_delivery_is_lost_witness : waiting "d1" (bag (final 3 (take 2 refused_run))).
Proof.
  apply (no_delivery_is_lost 3 _ _
    (default (new_delivery sample_job JNull) (deliveries (final 3 (take 2 refused_run)) !! "d1"))).
  - apply final_reached. repeat (apply List.Forall_cons; [|]); [done| |by constructor].
    intros [q o]. split; [done|]. by split; [intros ?|].
  - by vm_compute.
  - vm_compute. set_solver.
Defined.
