(* ===== verification/Template.v ===== *)
(** The template preview of pages/notifications/SendNotificationPage.tsx:
    placeholders, rendering, the Markdown preview and the length of an SMS. *)
From S2P Require Import Prelude Js Query.

Definition lbrace : ascii := ascii_of_nat 123.
Definition rbrace : ascii := ascii_of_nat 125.

(** [[a-zA-Z0-9_.-]] *)
Definition name_char (c : ascii) : bool :=
  is_alnum c || (byte c =? 95) || (byte c =? 46) || (byte c =? 45).

(** The longest prefix of characters in the class, and the rest. *)
Fixpoint span (p : ascii -> bool) (s : string) : string * string :=
  match s with
  | EmptyString => ("", "")
  | String c s' =>
      if p c then let '(a, b) := span p s' in (String c a, b) else ("", s)
  end.

(** One match of [/\{\{\s*([a-zA-Z0-9_.-]+)\s*\}\}/] at the start of the text:
    the name, and what follows. *)
Definition match_var (s : string) : option (string * string) :=
  match s with
  | String a (String b s1) =>
      if bool_decide (a = lbrace /\ b = lbrace) then
        let s2 := (span is_space s1).2 in
        let '(name, s3) := span name_char s2 in
        match name, (span is_space s3).2 with
        | String _ _, String x (String y rest) =>
            if bool_decide (x = rbrace /\ y = rbrace) then Some (name, rest) else None
        | _, _ => None
        end
      else None
  | _ => None
  end.

Inductive token := Lit (c : ascii) | Var (name : string).

(** The matches of the regular expression with its [g] flag, from the left, and
    the characters between them.  Every step takes a character, so the length of
    the text is enough fuel ([tokens_fuel]). *)
Fixpoint tokens_fuel (fuel : nat) (s : string) : list token :=
  match fuel with
  | O => []
  | S fuel =>
      match match_var s with
      | Some (name, rest) => Var name :: tokens_fuel fuel rest
      | None =>
          match s with
          | EmptyString => []
          | String c s => Lit c :: tokens_fuel fuel s
          end
      end
  end.

Definition tokens (s : string) : list token := tokens_fuel (String.length s) s.

Definition placeholder (name : string) : string := "{{" +:+ name +:+ "}}".

Definition render_token (values : obj string) (t : token) : string :=
  match t with
  | Lit c => String c ""
  | Var k => oget_str values k ||| placeholder k
  end.

Fixpoint concat_str (xs : list string) : string :=
  match xs with [] => "" | x :: xs => x +:+ concat_str xs end.

Definition renderTemplate (template : string) (values : obj string) : string :=
  concat_str (map (render_token values) (tokens template)).

Definition names (s : string) : list string :=
  omap (fun t => match t with Var k => Some k | Lit _ => None end) (tokens s).

(** The variables of the selected template, from its subject and its body. *)
Definition templateVariables (subject body : string) : list string :=
  unique (names (subject +:+ String newline body)).

(** * The Markdown preview *)

Fixpoint find_close (d : string) (s : string) : option (string * string) :=
  match s with
  | EmptyString => None
  | String c s' =>
      if starts_with d s then Some ("", drop (String.length d) s)
      else if decide (c = newline \/ byte c = 13) then None
      else match find_close d s' with Some (a, b) => Some (String c a, b) | None => None end
  end.

(** [s.replace(/d(.*?)d/g, '$1')]: the shortest text between two marks on a line. *)
Fixpoint strip_marks (fuel : nat) (d : string) (s : string) : string :=
  match fuel with
  | O => s
  | S fuel =>
      match s with
      | EmptyString => ""
      | String c s' =>
          if starts_with d s then
            match find_close d (drop (String.length d) s) with
            | Some (inner, rest) => inner +:+ strip_marks fuel d rest
            | None => String c (strip_marks fuel d s')
            end
          else String c (strip_marks fuel d s')
      end
  end.

Definition backtick : ascii := ascii_of_nat 96.

(** [s.replace(/`([^`]+)`/g, '$1')] *)
Fixpoint strip_code (fuel : nat) (s : string) : string :=
  match fuel with
  | O => s
  | S fuel =>
      match s with
      | EmptyString => ""
      | String c s' =>
          if decide (c = backtick) then
            match span (fun x => negb (bool_decide (x = backtick))) s' with
            | (String _ _ as inner, String _ rest) => inner +:+ strip_code fuel rest
            | _ => String c (strip_code fuel s')
            end
          else String c (strip_code fuel s')
      end
  end.

Definition renderMarkdownLite (value : string) : string :=
  let strip f s := f (String.length s) s in
  strip strip_code
    (strip (fun n => strip_marks n "__") (strip (fun n => strip_marks n "**") value)).

Example markdown_sample :
  renderMarkdownLite "Hi **Ada**, `code` and __more__ **open" = "Hi Ada, code and more **open".
Proof. reflexivity. Qed.

(** * The length of an SMS *)

Record stats := Stats { length_ : Z; segments : Z; limit : Z }.

Definition smsStats (value : string) (unicode : bool) : stats :=
  let single := if unicode then 70 else 160 in
  let multipart := if unicode then 67 else 153 in
  let len := length_js value in
  Stats len (if len <=? single then 1 else (len + multipart - 1) / multipart)
    (if len <=? single then single else multipart).

(** * Lemmas on matches *)

Lemma span_app p s : (span p s).1 +:+ (span p s).2 = s.
Proof.
  induction s as [|c s IH]; simpl; [done|]. destruct (p c); [|done].
  destruct (span p s) as [a b]. simpl in *. rewrite app_cons_str. by rewrite IH.
Qed.

Lemma span_length p s : (String.length (span p s).2 <= String.length s)%nat.
Proof.
  induction s as [|c s IH]; simpl; [lia|]. destruct (p c); simpl; [|lia].
  destruct (span p s). simpl in *. lia.
Qed.

Lemma match_var_length s name rest :
  match_var s = Some (name, rest) -> (String.length rest < String.length s)%nat.
Proof.
  unfold match_var. destruct s as [|a [|b s1]]; [done..|]. case_bool_decide; [|done].
  pose proof (span_length is_space s1) as H1.
  pose proof (span_length name_char (span is_space s1).2) as H2.
  destruct (span name_char (span is_space s1).2) as [nm s3]. simpl in H2.
  pose proof (span_length is_space s3) as H3.
  destruct nm as [|n nm]; [done|].
  destruct (span is_space s3).2 as [|x [|y r]]; [done..|].
  case_bool_decide; [|done]. intros [= <- <-]. simpl in *. lia.
Qed.

(** More fuel than characters gives the same tokens. *)
Lemma tokens_enough n m s :
  (String.length s <= n)%nat -> (String.length s <= m)%nat -> tokens_fuel n s = tokens_fuel m s.
Proof.
  revert m s. induction n as [|n IH]; intros m s Hn Hm.
  - destruct s; [|simpl in Hn; lia]. destruct m; done.
  - destruct m as [|m]; [destruct s; [done|simpl in Hm; lia]|]. simpl.
    destruct (match_var s) as [[k r]|] eqn:E.
    + apply match_var_length in E. f_equal. apply IH; lia.
    + destruct s as [|c s]; [done|]. simpl in *. f_equal. apply IH; lia.
Qed.

(** The equation of [tokens]. *)
Lemma tokens_eq s :
  tokens s =
  match match_var s with
  | Some (name, rest) => Var name :: tokens rest
  | None => match s with EmptyString => [] | String c s => Lit c :: tokens s end
  end.
Proof.
  assert (Hs : tokens s = tokens_fuel (S (String.length s)) s) by (apply tokens_enough; lia).
  rewrite Hs. cbn [tokens_fuel]. destruct (match_var s) as [[k r]|] eqn:E.
  - apply match_var_length in E. f_equal. apply tokens_enough; lia.
  - destruct s as [|c s]; [done|]. f_equal. apply tokens_enough; simpl; lia.
Qed.

(** Induction along the tokens of a text. *)
Lemma tokens_ind (P : string -> Prop) :
  P "" ->
  (forall s name rest, match_var s = Some (name, rest) -> P rest -> P s) ->
  (forall c s, match_var (String c s) = None -> P s -> P (String c s)) ->
  forall s, P s.
Proof.
  intros H0 Hv Hc s. remember (String.length s) as n eqn:Hn.
  revert s Hn. induction n as [n IH] using lt_wf_ind. intros s ->.
  destruct (match_var s) as [[k r]|] eqn:E.
  - eapply Hv; [done|]. eapply IH; [|done]. by eapply match_var_length.
  - destruct s as [|c s]; [done|]. apply Hc; [done|]. eapply IH; [|done]. simpl. lia.
Qed.

Lemma span_app_r p a b x y :
  span p a = (x, y) -> y <> "" -> span p (a +:+ b) = (x, y +:+ b).
Proof.
  revert x y. induction a as [|c a IH]; intros x y; [intros [= <- <-]; done|].
  rewrite app_cons_str. cbn [span]. destruct (p c).
  - destruct (span p a) as [x' y']. intros [= <- <-] Hy. by rewrite (IH x' y').
  - by intros [= <- <-] _.
Qed.

(** A match does not depend on what follows it. *)
Lemma match_var_app s b name rest :
  match_var s = Some (name, rest) -> match_var (s +:+ b) = Some (name, rest +:+ b).
Proof.
  destruct s as [|c1 [|c2 s1]]; [done..|]. rewrite !app_cons_str. unfold match_var.
  case_bool_decide as Hc; [|done]. rename Hc into H12.
  destruct (span is_space s1) as [w1 s2] eqn:E1. simpl.
  destruct (span name_char s2) as [nm s3] eqn:E2.
  destruct nm as [|n nm]; [done|].
  destruct (span is_space s3) as [w2 s4] eqn:E3. simpl.
  destruct s4 as [|x [|y r]]; [done..|]. case_bool_decide as Hxy; [|done]. intros [= <- <-].
  assert (s3 <> "") by (intros ->; simpl in E3; simplify_eq).
  assert (s2 <> "") by (intros ->; simpl in E2; simplify_eq).
  rewrite (span_app_r _ _ b _ _ E1) by done. simpl.
  rewrite (span_app_r _ _ b _ _ E2) by done.
  rewrite (span_app_r _ _ b _ _ E3) by done. simpl.
  by rewrite bool_decide_eq_true_2.
Qed.

Lemma span_no_char p c s : p c = false -> has_char c (span p s).1 = false.
Proof.
  intros Hc. induction s as [|x s IH]; simpl; [done|]. destruct (p x) eqn:Hx; [|done].
  destruct (span p s). simpl in *. rewrite IH, orb_false_r.
  apply bool_decide_eq_false. congruence.
Qed.

(** The text of a match: two opening braces, then none. *)
Lemma match_var_shape s k r : match_var s = Some (k, r) ->
  exists body, s = String lbrace (String lbrace (body +:+ r))
    /\ has_char lbrace body = false /\ body <> "".
Proof.
  destruct s as [|c1 [|c2 s1]]; [done..|]. unfold match_var.
  case_bool_decide as Hc; [|done]. destruct Hc as [-> ->].
  pose proof (span_app is_space s1) as A1. pose proof (span_no_char is_space lbrace s1 eq_refl) as N1.
  destruct (span is_space s1) as [w1 s2]. simpl in *.
  pose proof (span_app name_char s2) as A2. pose proof (span_no_char name_char lbrace s2 eq_refl) as N2.
  destruct (span name_char s2) as [nm s3]. simpl in *.
  destruct nm as [|n nm]; [done|].
  pose proof (span_app is_space s3) as A3. pose proof (span_no_char is_space lbrace s3 eq_refl) as N3.
  destruct (span is_space s3) as [w2 s4]. simpl in *.
  destruct s4 as [|x [|y r']]; [done..|].
  destruct (bool_decide (x = rbrace /\ y = rbrace)) eqn:Hxy; [|done].
  apply bool_decide_eq_true in Hxy as [-> ->].
  intros [= <- <-]. exists (w1 +:+ (String n nm +:+ (w2 +:+ "}}"))). split; [|split].
  - rewrite <- A1, <- A2, <- A3, !app_str_assoc. done.
  - rewrite !has_char_app, N1, N3. cbn [has_char] in *. by rewrite N2.
  - by destruct w1.
Qed.

(** Text without an opening brace lies before whatever starts with one. *)
Lemma no_brace_prefix a b p t' :
  has_char lbrace a = false -> a +:+ b = p +:+ String lbrace t' ->
  exists p', p = a +:+ p' /\ b = p' +:+ String lbrace t'.
Proof.
  revert p. induction a as [|x a IH]; intros p Ha Heq; [by exists p|].
  cbn [has_char] in Ha. apply orb_false_iff in Ha as [Hx Ha].
  apply bool_decide_eq_false in Hx. destruct p as [|y p].
  - rewrite app_cons_str in Heq. change ("" +:+ String lbrace t') with (String lbrace t') in Heq.
    congruence.
  - rewrite !app_cons_str in Heq. injection Heq as <- Heq.
    destruct (IH p Ha Heq) as (p' & -> & ->). exists p'. by rewrite app_cons_str.
Qed.

(** Matches do not overlap: the names of a text are those of the matches at all
    its positions, not only at the ones the scan visits. *)
Lemma elem_of_names s k :
  k ∈ names s <-> exists p t r, s = p +:+ t /\ match_var t = Some (k, r).
Proof.
  unfold names. induction s as [|s name rest Hm IH|c s Hm IH] using tokens_ind.
  - split; [by intros ?%not_elem_of_nil|]. intros (p & t & r & Hs & Ht).
    destruct p, t; done.
  - rewrite tokens_eq, Hm. simpl. rewrite elem_of_cons, IH. split.
    + intros [->|(p & t & r & Hr & Ht)]; [by exists "", s, rest|].
      destruct (match_var_shape _ _ _ Hm) as (body & -> & _ & _).
      exists (String lbrace (String lbrace (body +:+ p))), t, r. split; [|done].
      subst rest. by rewrite !app_cons_str, app_str_assoc.
    + intros (p & t & r & Hs & Ht). destruct (match_var_shape _ _ _ Ht) as (b' & Ht' & _ & _).
      destruct (match_var_shape _ _ _ Hm) as (body & Hb & Hn & Hne).
      rewrite Hs in Hm. rewrite Hb in Hs.
      destruct p as [|c1 [|c2 p]].
      * left. change ("" +:+ t) with t in Hm. rewrite Hm in Ht. by injection Ht as <- _.
      * exfalso. rewrite app_cons_str in Hs. change ("" +:+ t) with t in Hs.
        injection Hs as _ Hs. rewrite Ht' in Hs. injection Hs as Hs.
        destruct body as [|x body]; [done|]. rewrite app_cons_str in Hs.
        injection Hs as -> _. simpl in Hn. done.
      * right. rewrite !app_cons_str in Hs. injection Hs as _ _ Hs. rewrite Ht' in Hs.
        destruct (no_brace_prefix body rest p _ Hn Hs) as (p' & _ & Hrest).
        exists p', t, r. split; [by rewrite Ht'|done].
  - rewrite tokens_eq, Hm. simpl. rewrite IH. split.
    + intros (p & t & r & -> & Ht). exists (String c p), t, r. by rewrite app_cons_str.
    + intros (p & t & r & Hs & Ht). destruct p as [|c' p].
      * change ("" +:+ t) with t in Hs. subst t. congruence.
      * rewrite app_cons_str in Hs. injection Hs as <- Hs. by exists p, t, r.
Qed.

Lemma names_app a b k : k ∈ names a \/ k ∈ names b -> k ∈ names (a +:+ b).
Proof.
  rewrite !elem_of_names. intros [(p & t & r & -> & Ht)|(p & t & r & -> & Ht)].
  - exists p, (t +:+ b), (r +:+ b). rewrite app_str_assoc. split; [done|]. by apply match_var_app.
  - exists (a +:+ p), t, r. by rewrite app_str_assoc.
Qed.

Lemma names_in_form subject body k :
  k ∈ names subject \/ k ∈ names body -> k ∈ templateVariables subject body.
Proof.
  intros Hk. apply elem_of_unique, names_app. destruct Hk as [Hk|Hk]; [by left|]. right.
  change (String newline body) with (String newline "" +:+ body). apply names_app. by right.
Qed.

(** No placeholder of a template escapes the form: every variable that
    rendering the subject or the body looks up is among those the form asks for,
    each asked for once. *)
Theorem template_variables_complete subject body :
  NoDup (templateVariables subject body) /\
  forall k, k ∈ names subject \/ k ∈ names body -> k ∈ templateVariables subject body.
Proof. split; [apply NoDup_unique|apply names_in_form]. Qed.

Lemma elem_of_names_tokens s k : Var k ∈ tokens s <-> k ∈ names s.
Proof.
  unfold names. rewrite list_elem_of_omap. split.
  - intros H. by exists (Var k).
  - intros ([c|k'] & Ht & Hk); [done|]. by simplify_eq.
Qed.

Lemma render_ext s v1 v2 :
  (forall k, k ∈ names s -> oget_str v1 k = oget_str v2 k) ->
  renderTemplate s v1 = renderTemplate s v2.
Proof.
  intros H. unfold renderTemplate. f_equal. apply map_ext_in. intros [c|k] Hin; [done|].
  simpl. rewrite H; [done|]. by apply elem_of_names_tokens, list_elem_of_In.
Qed.

Lemma tokens_plain s : names s = [] -> concat_str (map (render_token []) (tokens s)) = s.
Proof.
  unfold names. induction s as [|s name rest Hm IH|c s Hm IH] using tokens_ind.
  - done.
  - rewrite tokens_eq, Hm. done.
  - rewrite tokens_eq, Hm. simpl. intros Hn. rewrite app_cons_str. by rewrite IH.
Qed.

(** The preview depends on nothing but the values the form asks for; a
    template without placeholders is previewed as it is; and once every variable
    of the form has a value, each placeholder of the template is replaced by its
    value and no fallback is left. *)
Theorem preview_is_determined_by_form subject body v1 v2 :
  (forall k, k ∈ templateVariables subject body -> oget_str v1 k = oget_str v2 k) ->
  renderTemplate subject v1 = renderTemplate subject v2
  /\ renderTemplate body v1 = renderTemplate body v2
  /\ (names body = [] -> renderTemplate body v1 = body)
  /\ ((forall k, k ∈ templateVariables subject body -> oget_str v1 k <> "") ->
      renderTemplate body v1 =
      concat_str (map (fun t => match t with Lit c => String c "" | Var k => oget_str v2 k end)
                    (tokens body))).
Proof.
  intros H. pose proof (names_in_form subject body) as Hc.
  assert (Hb : forall k, k ∈ names body -> oget_str v1 k = oget_str v2 k) by auto.
  split; [|split; [|split]].
  - apply render_ext. auto.
  - by apply render_ext.
  - intros Hn. rewrite <- (tokens_plain body Hn) at 2. apply render_ext. intros k Hk.
    rewrite Hn in Hk. by apply not_elem_of_nil in Hk.
  - intros Hne. unfold renderTemplate. f_equal. apply map_ext_in. intros [c|k] Hin; [done|].
    simpl. assert (Hk : k ∈ names body) by (by apply elem_of_names_tokens, list_elem_of_In).
    unfold jsor. rewrite decide_False by auto. auto.
Qed.

Lemma preview_is_determined_by_form_witness :
  renderTemplate "Hi {{ name }}" [("name", "Ada"); ("x", "1")] = renderTemplate "Hi {{ name }}" [("name", "Ada")].
Proof.
  apply (preview_is_determined_by_form "Hi {{ name }}" "Dear {{name}}"
    [("name", "Ada"); ("x", "1")] [("name", "Ada")]).
  change (templateVariables "Hi {{ name }}" "Dear {{name}}") with ["name"].
  intros k ->%list_elem_of_singleton. reflexivity.
Defined.

(** A value is not escaped: one that is itself a placeholder stays in the
    preview, and rendering the preview again replaces it. *)
Theorem render_not_idempotent :
  exists template values,
    renderTemplate (renderTemplate template values) values <> renderTemplate template values.
Proof. exists "{{a}}", [("a", "{{b}}"); ("b", "x")]. vm_compute. discriminate. Qed.

Lemma smsStats_nonneg s : 0 <= length_js s.
Proof. induction s as [|c s IH]; simpl; [lia|]. repeat dmatch; lia. Qed.

(** The segments announced for an SMS are the fewest that hold it: they have
    room for its length, one fewer would not, and a message that fits in a single
    one is never split. *)
Theorem sms_segments_minimal value unicode :
  let st := smsStats value unicode in
  length_ st <= segments st * limit st
  /\ 1 <= segments st
  /\ (1 < segments st -> (segments st - 1) * limit st < length_ st)
  /\ (segments st = 1 <-> length_ st <= (if unicode then 70 else 160)).
Proof.
  unfold smsStats. simpl. pose proof (smsStats_nonneg value) as H0.
  set (n := length_js value) in *.
  destruct unicode; [destruct (n <=? 70) eqn:E|destruct (n <=? 160) eqn:E]; simpl; try lia.
  - pose proof (Z.div_mod (n + 67 - 1) 67 ltac:(lia)). pose proof (Z.mod_pos_bound (n + 67 - 1) 67 ltac:(lia)). lia.
  - pose proof (Z.div_mod (n + 153 - 1) 153 ltac:(lia)). pose proof (Z.mod_pos_bound (n + 153 - 1) 153 ltac:(lia)). lia.
Qed.
