(* ===== verification/SendPage.v ===== *)
(** pages/notifications/SendNotificationPage.tsx: the form that queues a
    notification, its effects, its validation and its payload. *)
From S2P Require Import Prelude Js React Query Client Auth Api Template.

Record TenantOption := Tenant { t_id : string; t_name : string; t_slug : string }.
Record ContactOption := Contact {
  c_id : string; c_name : string; c_email : string; c_phone : string }.
Record GroupOption := Group { g_id : string; g_name : string }.
Record TemplateOption := Template_ {
  template_key : string; channel : string; subject : option string; body : option string }.
Record ChannelOption := Channel { ch_channel : string; ch_enabled : bool }.

#[export] Instance TemplateOption_dec : EqDecision TemplateOption.
Proof. solve_decision. Defined.

Inductive PreviewMode := Text | Markdown | Html.

Record EmailOptions := EmailOpts {
  from_name : string; from_email : string; reply_to : string; preheader : string }.
Record SmsOptions := SmsOpts { sender_id : string; unicode : bool; callback_url : string }.
Record FcmOptions := FcmOpts {
  fcm_title : string; image_url : string; click_action : string; collapse_key : string }.
Record WebsocketOptions := WebsocketOpts { event_name : string; room : string }.
Record InAppOptions := InAppOpts {
  in_app_title : string; category : string; expires_at : string }.

Record ChannelOptions := ChanOpts {
  o_email : EmailOptions; o_sms : SmsOptions; o_fcm : FcmOptions;
  o_websocket : WebsocketOptions; o_in_app : InAppOptions }.
#[export] Instance eta_options : Eta ChannelOptions :=
  fun o => ChanOpts (o_email o) (o_sms o) (o_fcm o) (o_websocket o) (o_in_app o).
#[export] Instance eta_email : Eta EmailOptions :=
  fun o => EmailOpts (from_name o) (from_email o) (reply_to o) (preheader o).
#[export] Instance eta_sms : Eta SmsOptions :=
  fun o => SmsOpts (sender_id o) (unicode o) (callback_url o).
#[export] Instance eta_fcm : Eta FcmOptions :=
  fun o => FcmOpts (fcm_title o) (image_url o) (click_action o) (collapse_key o).
#[export] Instance eta_websocket : Eta WebsocketOptions :=
  fun o => WebsocketOpts (event_name o) (room o).
#[export] Instance eta_in_app : Eta InAppOptions :=
  fun o => InAppOpts (in_app_title o) (category o) (expires_at o).

Definition emptyChannelOptions : ChannelOptions :=
  ChanOpts (EmailOpts "" "" "" "") (SmsOpts "" false "") (FcmOpts "" "" "" "")
    (WebsocketOpts "" "") (InAppOpts "" "" "").

Definition email_json (o : EmailOptions) : json :=
  JObj [("from_name", JStr (from_name o)); ("from_email", JStr (from_email o));
        ("reply_to", JStr (reply_to o)); ("preheader", JStr (preheader o))].
Definition sms_json (o : SmsOptions) : json :=
  JObj [("sender_id", JStr (sender_id o)); ("unicode", JBool (unicode o));
        ("callback_url", JStr (callback_url o))].
Definition fcm_json (o : FcmOptions) : json :=
  JObj [("title", JStr (fcm_title o)); ("image_url", JStr (image_url o));
        ("click_action", JStr (click_action o)); ("collapse_key", JStr (collapse_key o))].
Definition websocket_json (o : WebsocketOptions) : json :=
  JObj [("event_name", JStr (event_name o)); ("room", JStr (room o))].
Definition in_app_json (o : InAppOptions) : json :=
  JObj [("title", JStr (in_app_title o)); ("category", JStr (category o));
        ("expires_at", JStr (expires_at o))].

Inductive RecipientMode :=
| contact | group | direct_email | direct_phone | fcm_token | fcm_topic
| websocket_user | in_app_user.
#[export] Instance RecipientMode_dec : EqDecision RecipientMode.
Proof. solve_decision. Defined.

Definition mode_value (m : RecipientMode) : string :=
  match m with
  | contact => "contact" | group => "group" | direct_email => "direct_email"
  | direct_phone => "direct_phone" | fcm_token => "fcm_token" | fcm_topic => "fcm_topic"
  | websocket_user => "websocket_user" | in_app_user => "in_app_user"
  end.

Definition RECIPIENT_MODES : list (RecipientMode * string) :=
  [ (contact, "Contact"); (group, "Contact Group"); (direct_email, "Direct Email");
    (direct_phone, "Direct Phone/SMS"); (fcm_token, "FCM Token"); (fcm_topic, "FCM Topic");
    (websocket_user, "WebSocket User"); (in_app_user, "In-App User") ].

(** [value as RecipientMode], for the value of an option. *)
Definition mode_of (v : string) : RecipientMode :=
  from_option fst contact (find (fun m => bool_decide (mode_value m.1 = v)) RECIPIENT_MODES).

(** [templatesRef] and [availableRef] identify the array objects the effects
    compare: each assignment stores a new one. *)
Record state := State {
  templatesRef : nat; availableRef : nat;
  tenants : list TenantOption; tenantId : string; contacts : list ContactOption;
  groups : list GroupOption; templates : list TemplateOption;
  availableChannels : list string; mode : RecipientMode; recipientValue : string;
  contactId : string; groupId : string; event_ : string; selectedChannels : list string;
  templateKey : string; templateValues : obj string; previewMode : PreviewMode;
  priority : num; sendAt : string; error : string; fieldErrors : obj string;
  channelOptions : ChannelOptions; sending : bool; loadingTenant : bool }.
#[export] Instance eta_state : Eta state := fun s =>
  State (templatesRef s) (availableRef s) (tenants s) (tenantId s) (contacts s) (groups s) (templates s) (availableChannels s)
    (mode s) (recipientValue s) (contactId s) (groupId s) (event_ s) (selectedChannels s)
    (templateKey s) (templateValues s) (previewMode s) (priority s) (sendAt s) (error s)
    (fieldErrors s) (channelOptions s) (sending s) (loadingTenant s).

Inductive action :=
| ChooseTenant (v : string) | ChooseMode (m : RecipientMode) | SetRecipient (v : string)
| ChooseContact (v : string) | ChooseGroup (v : string) | ChooseTemplate (v : string)
| EditTemplate | ShowPreview | ToggleAll | ToggleChannel (ch : string)
| SetEvent (v : string) | SetVariable (key v : string) | SetPreviewMode (m : PreviewMode)
| SetPriority (v : string) | SetSendAt (v : string) | SetOptions (o : ChannelOptions) | Submit.

Inductive event : Type -> Type :=
| ListTenants : event (list TenantOption)
| ListContacts (tenant : string) : event (list ContactOption)
| ListGroups (tenant : string) : event (list GroupOption)
| ListTemplates (tenant : string) : event (list TemplateOption)
| ListChannels (tenant : string) : event (list ChannelOption)
| SendNotification (b : json) : event string.

Definition http (X : Type) (e : event X) : list request :=
  match e with
  | ListTenants => [list_ "/admin/api/v1/tenants"]
  | ListContacts t => [list_ ("/admin/api/v1/contacts?tenant_id=" +:+ t)]
  | ListGroups t => [list_ ("/admin/api/v1/groups?tenant_id=" +:+ t)]
  | ListTemplates t => [list_ ("/admin/api/v1/templates?tenant_id=" +:+ t)]
  | ListChannels t => [list_ ("/admin/api/v1/channels?tenant_id=" +:+ t)]
  | SendNotification b => [POST "/admin/api/v1/notifications/send" b]
  end.

Definition setTemplates (ts : list TemplateOption) (s : state) : state :=
  s <| templates := ts |> <| templatesRef := S (templatesRef s) |>.
Definition setAvailableChannels (chs : list string) (s : state) : state :=
  s <| availableChannels := chs |> <| availableRef := S (availableRef s) |>.

(** * Derived values *)

Definition selectedTemplate (s : state) : option TemplateOption :=
  find (fun t => bool_decide (template_key t = templateKey s)) (templates s).

Definition subject_of (t : option TemplateOption) : string := or_empty (t ≫= subject).
Definition body_of (t : option TemplateOption) : string := or_empty (t ≫= body).

(** Which template object is selected. *)
Definition template_ref (s : state) : option (nat * string) :=
  match selectedTemplate s with
  | Some t => Some (templatesRef s, template_key t)
  | None => None
  end.

Definition variables (s : state) : list string :=
  templateVariables (subject_of (selectedTemplate s)) (body_of (selectedTemplate s)).

Definition renderedSubject (s : state) : string :=
  renderTemplate (subject_of (selectedTemplate s)) (templateValues s).
Definition renderedBody (s : state) : string :=
  renderTemplate (body_of (selectedTemplate s)) (templateValues s).

Definition activeChannelOptions (s : state) : list (string * json) :=
  let on ch v := if includes (selectedChannels s) ch then [(ch, v)] else [] in
  let o := channelOptions s in
  on "email" (email_json (o_email o)) ++ on "sms" (sms_json (o_sms o))
  ++ on "fcm" (fcm_json (o_fcm o)) ++ on "websocket" (websocket_json (o_websocket o))
  ++ on "in_app" (in_app_json (o_in_app o)).

Definition smsSummary (s : state) : stats :=
  smsStats (renderedBody s) (unicode (o_sms (channelOptions s))).

(** * Validation *)

Definition at_sign : ascii := ascii_of_nat 64.
Definition dot : ascii := ascii_of_nat 46.

Definition no_space (s : string) : bool := bool_decide ((span (fun c => negb (is_space c)) s).2 = "").

(** The text without its last character. *)
Fixpoint but_last (s : string) : string :=
  match s with
  | String c (String _ _ as s') => String c (but_last s')
  | _ => ""
  end.

(** [/^[^\s@]+@[^\s@]+\.[^\s@]+$/]: one "@", no space, text around it, and a dot
    with text around it after it. *)
Definition valid_email (s : string) : bool :=
  match split at_sign s with
  | [local; domain] =>
      truthy local && no_space local && no_space domain
      && has_char dot (but_last (drop 1 domain))
  | _ => false
  end.

Section Form.
Variable isPlatform : bool.
Variable myTenantId : string.
(** [can('notifications.send')] *)
Variable canSend : bool.

Definition effectiveTenant (s : state) : string := tenantId s ||| myTenantId.

Definition direct (m : RecipientMode) : bool := negb (bool_decide (m = contact \/ m = group)).

(** [if (c) next[k] = m] *)
Definition check_ (c : bool) (k m : string) (next : obj string) : obj string :=
  if c then oset next k m else next.

Definition validateForm (s : state) : obj string :=
  let email_on := includes (selectedChannels s) "email" in
  let sms_on := includes (selectedChannels s) "sms" in
  let em := o_email (channelOptions s) in
  let next := check_ (isPlatform && negb (truthy (tenantId s))) "tenant" "Select a tenant before sending." [] in
  let next := check_ (negb (truthy (trim (event_ s)))) "event" "Event is required." next in
  let next := check_ (bool_decide (selectedChannels s = [])) "channels" "Select at least one delivery channel." next in
  let next := check_ (bool_decide (mode s = contact) && negb (truthy (contactId s))) "recipient" "Select a contact." next in
  let next := check_ (bool_decide (mode s = group) && negb (truthy (groupId s))) "recipient" "Select a group." next in
  let next := check_ (direct (mode s) && negb (truthy (trim (recipientValue s)))) "recipient" "Enter a recipient value." next in
  let next := check_ (bool_decide (selectedTemplate s = None)) "template" "Select a template to preview and send client-ready content." next in
  let next := fold_left (fun next key =>
      check_ (negb (truthy (trim (oget_str (templateValues s) key))))
        ("var." +:+ key) (key +:+ " is required.") next) (variables s) next in
  let next := check_ (email_on && truthy (from_email em) && negb (valid_email (from_email em))) "email_from" "Enter a valid sender email." next in
  let next := check_ (email_on && truthy (reply_to em) && negb (valid_email (reply_to em))) "email_reply" "Enter a valid reply-to email." next in
  check_ (sms_on && (11 <? length_js (sender_id (o_sms (channelOptions s))))) "sms_sender" "Sender ID should be 11 characters or fewer." next.

(** * The payload *)

Definition buildTarget (s : state) : json :=
  let typed t fields := JObj (("type", JStr t) :: fields) in
  let direct_to t k := typed t [("recipient", JObj [(k, JStr (recipientValue s))])] in
  match mode s with
  | contact =>
      let c := find (fun x => bool_decide (c_id x = contactId s)) (contacts s) in
      typed "contact" [("id", JStr (contactId s));
        ("recipient", JObj [("email", JStr (from_option c_email "" c));
                            ("phone", JStr (from_option c_phone "" c))])]
  | group => typed "group" [("id", JStr (groupId s)); ("recipient", JObj [])]
  | direct_email => direct_to "direct_email" "email"
  | direct_phone => direct_to "direct_phone" "phone"
  | fcm_token => direct_to "fcm_token" "fcm_token"
  | fcm_topic => direct_to "fcm_topic" "fcm_topic"
  | websocket_user => direct_to "websocket_user" "external_user_id"
  | in_app_user => direct_to "in_app_user" "external_user_id"
  end.

(** [{ ...templateValues, channel_options: activeChannelOptions }] *)
Definition data_of (s : state) : list (string * json) :=
  oset (map (fun kv => (kv.1, JStr kv.2)) (templateValues s)) "channel_options"
    (JObj (activeChannelOptions s)).

Definition payload (s : state) : json :=
  JObj ([("event", JStr (event_ s)); ("channels", jstrs (selectedChannels s));
         ("template", JStr (templateKey s)); ("target", buildTarget s);
         ("data", JObj (data_of s)); ("priority", JNum (priority s))]
    ++ (if truthy (trim (sendAt s))
        then [("schedule", JObj [("type", JStr "scheduled"); ("send_at", JStr (sendAt s))])] else [])
    ++ (if isPlatform then [("tenant_id", JStr (tenantId s))] else [])).

(** * Handlers *)

Definition clearFieldError (name : string) (s : state) : state :=
  if truthy (oget_str (fieldErrors s) name)
  then s <| fieldErrors := odelete (fieldErrors s) name |> else s.

Definition submit (s : state) : prog event state :=
  let next := validateForm s in
  set! (fun s => s <| error := "" |>) ;;
  set! (fun s => s <| fieldErrors := next |>) ;;
  if bool_decide (next = []) then
    set! (fun s => s <| sending := true |>) ;;
    await! r <- SendNotification (payload s) ;;
    match r with
    | Ok notification_id =>
        emit! success_msg "Notification queued" notification_id ;;
        set! (fun s => s <| sending := false |>) ;; Done
    | Threw x =>
        let finally := set! (fun s => s <| sending := false |>) ;; Done in
        match x with
        | ApiError status _ detail =>
            if (status =? 400) || (status =? 422)
            then set! (fun s => s <| error := detail |>) ;; finally
            else emit! failure_msg "Unable to queue notification" (getErrorMessage x "Send failed") ;; finally
        | _ => emit! failure_msg "Unable to queue notification" (getErrorMessage x "Send failed") ;; finally
        end
    end
  else Done.

Definition set_field (name : string) (f : state -> state) : prog event state :=
  set! f ;; set! clearFieldError name ;; Done.

Definition handle (a : action) (s : state) : prog event state :=
  match a with
  | ChooseTenant v => set_field "tenant" (fun s => s <| tenantId := v |>)
  | ChooseMode m => set_field "recipient" (fun s => s <| mode := m |>)
  | SetRecipient v => set_field "recipient" (fun s => s <| recipientValue := v |>)
  | ChooseContact v => set_field "recipient" (fun s => s <| contactId := v |>)
  | ChooseGroup v => set_field "recipient" (fun s => s <| groupId := v |>)
  | ChooseTemplate v => set_field "template" (fun s => s <| templateKey := v |>)
  | EditTemplate => emit! ONav "/templates" ;; Done
  | ShowPreview => emit! OScroll "template-preview-panel" ;; Done
  | ToggleAll =>
      let all := bool_decide (length (selectedChannels s) = length (availableChannels s)) in
      let next := if all then [] else availableChannels s in
      set! (fun s => s <| selectedChannels := next |>) ;; Done
  | ToggleChannel ch =>
      set_field "channels" (fun s => s <| selectedChannels := toggle_elem ch (selectedChannels s) |>)
  | SetEvent v => set_field "event" (fun s => s <| event_ := v |>)
  | SetVariable key v =>
      set_field ("var." +:+ key) (fun s => s <| templateValues := oset (templateValues s) key v |>)
  | SetPreviewMode m => set! (fun s => s <| previewMode := m |>) ;; Done
  | SetPriority v => set! (fun s => s <| priority := Number v |>) ;; Done
  | SetSendAt v => set! (fun s => s <| sendAt := v |>) ;; Done
  | SetOptions o => set! (fun s => s <| channelOptions := o |>) ;; Done
  | Submit => submit s
  end.

(** * Effects *)

Definition load_tenants (s : state) : list (prog event state) :=
  if isPlatform then
    [ await! r <- ListTenants ;;
      match r with
      | Ok data =>
          set! (fun s => s <| tenants := data |>) ;;
          match data with
          | t :: _ => if truthy (tenantId s) then Done
                      else set! (fun s => s <| tenantId := t_id t |>) ;; Done
          | [] => Done
          end
      | Threw _ => Done
      end ]
  else [].

Definition load_tenant (s : state) : list (prog event state) :=
  let t := effectiveTenant s in
  let keep {X} (f : X -> state -> state) (r : result X) : (state -> state) + thrown :=
    match r with Ok x => inl (f x) | Threw _ => inl (fun s => s) end in
  if truthy t then
    [ set! (fun s => s <| loadingTenant := true |>) ;;
      Join
        [ Branch (ListContacts t) (keep (fun x s => s <| contacts := x |>));
          Branch (ListGroups t) (keep (fun x s => s <| groups := x |>));
          Branch (ListTemplates t) (keep setTemplates);
          Branch (ListChannels t) (fun r =>
            match r with
            | Ok x => inl (setAvailableChannels (unique (map ch_channel (filter_by ch_enabled x))))
            | Threw _ => inl (setAvailableChannels [])
            end) ]
        (fun _ => set! (fun s => s <| loadingTenant := false |>) ;; Done) ]
  else [].

Definition keep_available (s : state) : list (prog event state) :=
  let av := availableChannels s in
  [ set! (fun s => s <| selectedChannels := filter_by (includes av) (selectedChannels s) |>) ;; Done ].

Definition keep_values (s : state) : list (prog event state) :=
  let vs := variables s in
  [ set! (fun s => s <| templateValues := map (fun k => (k, oget_str (templateValues s) k)) vs |>) ;; Done ].

(** The template's channel is selected, and its key is the default event. *)
Definition follow_template (s : state) : list (prog event state) :=
  match selectedTemplate s with
  | None => []
  | Some t =>
      (if truthy (channel t) && includes (availableChannels s) (channel t)
       then [ set! (fun s => if includes (selectedChannels s) (channel t) then s
                else s <| selectedChannels := selectedChannels s ++ [channel t] |>) ;; Done ]
       else [])
      ++ (if truthy (event_ s) then []
          else [ set! (fun s => s <| event_ := template_key t |>) ;; Done ])
  end.

(** The effects, in order, with their dependencies. *)
Definition effects (r : option state) (s : state) : list (prog event state) :=
  (if changed tenantId r s then load_tenants s else [])
  ++ (if changed effectiveTenant r s then load_tenant s else [])
  ++ (if changed availableRef r s then keep_available s else [])
  ++ (if changed template_ref r s then keep_values s else [])
  ++ (if changed template_ref r s || changed availableRef r s || changed event_ r s
      then follow_template s else []).

Definition initial : state :=
  State 0 0 [] (if isPlatform then "" else myTenantId) [] [] [] [] direct_email "" "" "" ""
    ["email"] "" [] Text (int 5) "" "" [] emptyChannelOptions false false.

(** * The view *)

Definition show_error (name : string) (s : state) : list (node action) :=
  when (truthy (oget_str (fieldErrors s) name)) [Txt (oget_str (fieldErrors s) name)].

Definition recipient_label (m : RecipientMode) : string :=
  match m with
  | direct_email => "Email Address" | direct_phone => "Phone Number" | fcm_token => "FCM Token"
  | fcm_topic => "FCM Topic" | websocket_user => "WebSocket User ID" | _ => "In-App User ID"
  end.

Definition template_label (t : TemplateOption) : string :=
  (trim (or_empty (subject t)) ||| template_key t) +:+ " (" +:+ (channel t ||| "template")
  +:+ ": " +:+ template_key t +:+ ")".

(** [update(channel, patch)] of [ChannelConfiguration], one field at a time. *)
Definition ChannelConfiguration (s : state) : list (node action) :=
  let o := channelOptions s in
  let on ch := includes (selectedChannels s) ch in
  let em := o_email o in let sm := o_sms o in let fc := o_fcm o in
  let ws := o_websocket o in let ia := o_in_app o in
  let email e := SetOptions (o <| o_email := e |>) in
  let sms e := SetOptions (o <| o_sms := e |>) in
  let fcm e := SetOptions (o <| o_fcm := e |>) in
  let websocket e := SetOptions (o <| o_websocket := e |>) in
  let in_app e := SetOptions (o <| o_in_app := e |>) in
  when (negb (bool_decide (selectedChannels s = [])))
    (when (on "email")
       ([ Inp "From name" (from_name em) false (fun v => email (em <| from_name := v |>));
          Inp "From email" (from_email em) false (fun v => email (em <| from_email := v |>)) ]
        ++ show_error "email_from" s
        ++ [ Inp "Reply-to" (reply_to em) false (fun v => email (em <| reply_to := v |>)) ]
        ++ show_error "email_reply" s
        ++ [ Inp "Preheader" (preheader em) false (fun v => email (em <| preheader := v |>)) ])
     ++ when (on "sms")
       ([ Txt (pretty (length_ (smsSummary s)) +:+ " chars, " +:+ pretty (segments (smsSummary s))
               +:+ (if segments (smsSummary s) =? 1 then " segment" else " segments"));
          Inp "Sender ID" (sender_id sm) false (fun v => sms (sm <| sender_id := to_upper v |>)) ]
        ++ show_error "sms_sender" s
        ++ [ Inp "Callback URL" (callback_url sm) false (fun v => sms (sm <| callback_url := v |>));
             Chk "Unicode content" (unicode sm) false (sms (sm <| unicode := negb (unicode sm) |>)) ])
     ++ when (on "fcm")
       [ Inp "Push title override" (fcm_title fc) false (fun v => fcm (fc <| fcm_title := v |>));
         Inp "Image URL" (image_url fc) false (fun v => fcm (fc <| image_url := v |>));
         Inp "Click action" (click_action fc) false (fun v => fcm (fc <| click_action := v |>));
         Inp "Collapse key" (collapse_key fc) false (fun v => fcm (fc <| collapse_key := v |>)) ]
     ++ when (on "websocket")
       [ Inp "Socket event" (event_name ws) false (fun v => websocket (ws <| event_name := v |>));
         Inp "Room/channel" (room ws) false (fun v => websocket (ws <| room := v |>)) ]
     ++ when (on "in_app")
       [ Inp "Inbox title" (in_app_title ia) false (fun v => in_app (ia <| in_app_title := v |>));
         Inp "Expires at" (expires_at ia) false (fun v => in_app (ia <| expires_at := v |>)) ]).

Definition audience (s : state) : list (node action) :=
  let all := bool_decide (length (selectedChannels s) = length (availableChannels s)) in
  let none := bool_decide (availableChannels s = []) in
  [ Sel "Recipient Mode" (mode_value (mode s)) false
      (map (fun m => (mode_value m.1, m.2)) RECIPIENT_MODES) (fun v => ChooseMode (mode_of v)) ]
  ++ when (bool_decide (mode s = contact))
       (Sel "Contact" (contactId s) false
          (map (fun c => (c_id c, c_name c +:+ " (" +:+ (c_email c ||| c_phone c) +:+ ")")) (contacts s))
          ChooseContact :: show_error "recipient" s)
  ++ when (bool_decide (mode s = group))
       (Sel "Group" (groupId s) false (map (fun g => (g_id g, g_name g)) (groups s)) ChooseGroup
        :: show_error "recipient" s)
  ++ when (direct (mode s))
       (Inp (recipient_label (mode s)) (recipientValue s) false SetRecipient :: show_error "recipient" s)
  ++ Sel "Template" (templateKey s) false
       (("", "No template (event only)") :: map (fun t => (template_key t, template_label t)) (templates s))
       ChooseTemplate
  :: show_error "template" s
  ++ when (negb (bool_decide (selectedTemplate s = None)))
       [ Btn "Edit template" false EditTemplate; Btn "Preview" false ShowPreview ]
  ++ Btn (if all then "Clear all" else "Select all") none ToggleAll
  :: map (fun ch => Chk (replace_first_char (ascii_of_nat 95) space ch)
            (includes (selectedChannels s) ch) false (ToggleChannel ch)) (availableChannels s)
  ++ when none [Txt "No globally active channels are enabled for this tenant."]
  ++ show_error "channels" s
  ++ ChannelConfiguration s.

Definition preview (s : state) (t : TemplateOption) : list (node action) :=
  (if bool_decide (variables s = []) then [Txt "This template has no variables."]
   else concat (map (fun key =>
          Inp key (oget_str (templateValues s) key) false (SetVariable key)
          :: show_error ("var." +:+ key) s) (variables s)))
  ++ [ Txt (template_key t); Btn "text" false (SetPreviewMode Text);
       Btn "markdown" false (SetPreviewMode Markdown); Btn "html" false (SetPreviewMode Html) ]
  ++ when (truthy (renderedSubject s)) [Txt (renderedSubject s)]
  ++ [ Txt (match previewMode s with
            | Html => renderedBody s ||| "<p></p>"
            | Markdown => renderMarkdownLite (renderedBody s) ||| "No body content"
            | Text => renderedBody s ||| "No body content"
            end) ].

Definition view (s : state) : list (node action) :=
  [ Txt (pretty (Z.of_nat (length (selectedChannels s))) +:+ " Channels");
    Txt (pretty (Z.of_nat (length (variables s))) +:+ " Variables");
    Txt (num_text (priority s) +:+ " Priority") ]
  ++ (if isPlatform then
        Sel "Tenant" (tenantId s) false
          (map (fun t => (t_id t, t_name t +:+ " (" +:+ t_slug t +:+ ")")) (tenants s)) ChooseTenant
        :: show_error "tenant" s
      else [Txt ("Sending as tenant: " +:+ myTenantId)])
  ++ when (loadingTenant s) [Txt "Loading tenant data..."]
  ++ when (truthy (effectiveTenant s) && negb (loadingTenant s)) (audience s)
  ++ [ Inp "Event" (event_ s) false SetEvent ] ++ show_error "event" s
  ++ (match selectedTemplate s with
      | Some t => preview s t
      | None => [Txt "Select a template to enter variables and preview the message."]
      end)
  ++ [ Inp "Priority (1-10)" (num_text (priority s)) false SetPriority;
       Inp "Schedule (optional)" (sendAt s) false SetSendAt ]
  ++ when (truthy (error s)) [Txt (error s)]
  ++ when canSend
       [ Btn (if sending s then "Sending..." else "Queue Notification") (sending s) Submit ].

End Form.

(** * What the form accepts *)

Definition form_valid (isPlatform : bool) (s : state) : Prop :=
  (isPlatform = true -> tenantId s <> "")
  /\ blank (event_ s) = false
  /\ selectedChannels s <> []
  /\ match mode s with
     | contact => contactId s <> ""
     | group => groupId s <> ""
     | _ => blank (recipientValue s) = false
     end
  /\ is_Some (selectedTemplate s)
  /\ (forall k, k ∈ variables s -> blank (oget_str (templateValues s) k) = false)
  /\ ("email" ∈ selectedChannels s ->
      (from_email (o_email (channelOptions s)) = "" \/ valid_email (from_email (o_email (channelOptions s))) = true)
      /\ (reply_to (o_email (channelOptions s)) = "" \/ valid_email (reply_to (o_email (channelOptions s))) = true))
  /\ ("sms" ∈ selectedChannels s -> length_js (sender_id (o_sms (channelOptions s))) <= 11).

Lemma check_nil c k m next : check_ c k m next = [] <-> next = [] /\ c = false.
Proof.
  unfold check_. destruct c; [|tauto]. split; [|by intros [_ ?]].
  destruct next as [|[k' v] next]; simpl; [done|]. by case_decide.
Qed.

Lemma fold_check_nil (f : string -> bool) g h ks next :
  fold_left (fun next key => check_ (f key) (g key) (h key) next) ks next = []
  <-> next = [] /\ forall k, k ∈ ks -> f k = false.
Proof.
  revert next. induction ks as [|k ks IH]; intros next; simpl.
  - split; [|tauto]. intros ->. split; [done|]. by intros k ?%not_elem_of_nil.
  - rewrite IH, check_nil. setoid_rewrite elem_of_cons. naive_solver.
Qed.

Lemma not_blank s : negb (truthy (trim s)) = false <-> blank s = false.
Proof.
  rewrite negb_false_iff, truthy_true. destruct (blank s) eqn:Hb.
  - apply trim_empty in Hb. naive_solver.
  - split; [done|]. intros _ Ht. apply trim_empty in Ht. congruence.
Qed.

Lemma not_empty s : negb (truthy s) = false <-> s <> "".
Proof. by rewrite negb_false_iff, truthy_true. Qed.

Lemma bad_email b v :
  b && truthy v && negb (valid_email v) = false <-> (b = true -> v = "" \/ valid_email v = true).
Proof.
  destruct b; simpl; [|naive_solver]. destruct (truthy v) eqn:Ht; simpl.
  - apply truthy_true in Ht. rewrite negb_false_iff. naive_solver.
  - apply truthy_false in Ht. naive_solver.
Qed.

Lemma validateForm_nil isPlatform s : validateForm isPlatform s = [] <-> form_valid isPlatform s.
Proof.
  unfold validateForm, form_valid. cbv zeta.
  rewrite !check_nil, fold_check_nil, !check_nil, !bad_email.
  setoid_rewrite not_blank. rewrite <- !includes_true.
  assert (Htpl : bool_decide (selectedTemplate s = None) = false <-> is_Some (selectedTemplate s)).
  { rewrite bool_decide_eq_false. apply not_eq_None_Some. }
  rewrite Htpl.
  assert (Hten : isPlatform && negb (truthy (tenantId s)) = false <-> (isPlatform = true -> tenantId s <> "")).
  { destruct isPlatform; simpl; [rewrite not_empty; naive_solver|naive_solver]. }
  rewrite Hten.
  assert (Hch : bool_decide (selectedChannels s = []) = false <-> selectedChannels s <> [])
    by apply bool_decide_eq_false. rewrite Hch.
  assert (Hsms : includes (selectedChannels s) "sms" && (11 <? length_js (sender_id (o_sms (channelOptions s)))) = false
    <-> (includes (selectedChannels s) "sms" = true -> length_js (sender_id (o_sms (channelOptions s))) <= 11)).
  { destruct (includes (selectedChannels s) "sms"); simpl; [rewrite Z.ltb_ge|]; naive_solver. }
  rewrite Hsms.
  assert (Hrec : (bool_decide (mode s = contact) && negb (truthy (contactId s)) = false
      /\ bool_decide (mode s = group) && negb (truthy (groupId s)) = false
      /\ direct (mode s) && negb (truthy (trim (recipientValue s))) = false)
    <-> match mode s with
        | contact => contactId s <> "" | group => groupId s <> ""
        | _ => blank (recipientValue s) = false end).
  { destruct (mode s); unfold direct; simpl; rewrite ?not_blank, ?not_empty; clear; intuition. }
  rewrite <- Hrec. tauto.
Qed.

(** C20: the form posts exactly when it is valid, and then exactly its payload; an
    invalid form posts nothing and sets at least one field error in the state of
    the page. *)
Theorem submit_posts_iff_valid isPlatform s :
  let '(s', outs, suspended) := Ui.sync http (submit isPlatform s) s in
  error s' = ""
  /\ (form_valid isPlatform s ->
      outs = [OReq (POST "/admin/api/v1/notifications/send" (payload isPlatform s))]
      /\ sending s' = true /\ fieldErrors s' = [] /\ length suspended = 1%nat)
  /\ (~ form_valid isPlatform s ->
      outs = [] /\ suspended = [] /\ sending s' = sending s /\ fieldErrors s' <> []).
Proof.
  unfold submit. cbn [Ui.sync].
  destruct (bool_decide (validateForm isPlatform s = [])) eqn:Hv; simpl.
  - apply bool_decide_eq_true in Hv. pose proof (proj1 (validateForm_nil _ _) Hv).
    rewrite Hv. repeat split; try done.
  - apply bool_decide_eq_false in Hv. split; [done|]. split; [|done].
    intros Hf%validateForm_nil. done.
Qed.

(** * The invariant of the page *)

Section Invariant.
Variable isPlatform : bool.
Variable myTenantId : string.
Variable canSend : bool.

Definition routes_used : list string :=
  ["tenants.view"; "contacts.view"; "groups.view"; "templates.view"; "channels.view"; "notifications.send"].

(** Requests are served by the API under the permissions of the page: a notification is
    sent by who may send, tenants are read by platform users, and the others are reads
    that everybody on the page makes. *)
Definition permitted (o : obs) : Prop :=
  match o with
  | OReq r => exists p, p ∈ routes_used /\ served p r
      /\ (p = "notifications.send" -> canSend = true) /\ (p = "tenants.view" -> isPlatform = true)
      /\ (p <> "notifications.send" -> req_method r = "GET")
  | _ => True
  end.

(** Against the render on screen: the channels selected are available in it, and
    the values are those of its variables. *)
Definition fits_render (r : option state) (s : state) : Prop :=
  NoDup (availableChannels s) /\ NoDup (selectedChannels s)
  /\ match r with
     | None => True
     | Some r =>
         NoDup (availableChannels r)
         /\ ((availableRef r < availableRef s)%nat
             \/ (availableRef r = availableRef s /\ availableChannels r = availableChannels s))
         /\ ((templatesRef r < templatesRef s)%nat
             \/ (templatesRef r = templatesRef s /\ templates r = templates s))
         /\ (forall ch, ch ∈ selectedChannels s -> ch ∈ availableChannels r)
         /\ okeys (templateValues s) = variables r
     end.

(** A state update that leaves what [fits_render] mentions. *)
Definition neutral (f : state -> state) : Prop :=
  forall s, availableChannels (f s) = availableChannels s /\ selectedChannels (f s) = selectedChannels s
    /\ availableRef (f s) = availableRef s /\ templatesRef (f s) = templatesRef s
    /\ templates (f s) = templates s /\ okeys (templateValues (f s)) = okeys (templateValues s).

Lemma neutral_fits f r s : neutral f -> fits_render r s -> fits_render r (f s).
Proof.
  intros Hf. destruct (Hf s) as (H1 & H2 & H3 & H4 & H5 & H6). unfold fits_render.
  by rewrite H1, H2, H3, H4, H5, H6.
Qed.

Lemma neutral_clear name : neutral (clearFieldError name).
Proof. intros s. unfold clearFieldError. by destruct (truthy _). Qed.

Lemma safe_neutral r f k : neutral f ->
  Ui.safe_at http fits_render permitted r k -> Ui.safe_at http fits_render permitted r (SetS f k).
Proof. intros Hf Hk. constructor; [|done]. intros s. by apply neutral_fits. Qed.

Ltac neutral_done := by intros ?.
Ltac safe_sets :=
  repeat first
    [ apply Ui.at_done
    | apply safe_neutral; [first [apply neutral_clear | neutral_done]|]
    | apply Ui.at_emit; [exact I|] ].

Lemma served_query seg q perm :
  Route "GET" [L seg] perm ∈ routes ->
  served perm (list_ ("/admin/api/v1/" +:+ seg +:+ String question q)).
Proof.
  intros H. exists (Route "GET" [L seg] perm), [], q. repeat split; [done|].
  right. unfold list_, GET, api_path. simpl. by rewrite app_str_assoc.
Qed.

Lemma submit_safe r s : canSend = true -> Ui.safe_at http fits_render permitted r (submit isPlatform s).
Proof.
  intros Hsend. unfold submit. safe_sets. destruct (bool_decide _); safe_sets.
  constructor.
  - constructor; [|constructor]. exists "notifications.send". split; [by do 5 right; left|]. split; [|done].
    exists (Route "POST" [L "notifications"; L "send"] "notifications.send"), [], "".
    repeat split; [|by left]. apply list_elem_of_In. vm_compute. tauto.
  - intros r' [id|x]; safe_sets. destruct x as [st c d| |]; safe_sets. destruct (_ || _); safe_sets.
Qed.

Lemma toggle_channel_safe s ch r :
  r = Some s -> ch ∈ availableChannels s ->
  Ui.safe_at http fits_render permitted r (handle isPlatform (ToggleChannel ch) s).
Proof.
  intros -> Hch. constructor; [|safe_sets]. intros s' (H1 & H2 & H3 & H4 & H5 & H6 & H7).
  repeat split; simpl; auto; [by apply NoDup_toggle|].
  intros c Hc%elem_of_toggle. case_decide; subst; auto.
Qed.

Lemma toggle_all_safe s r :
  r = Some s -> NoDup (availableChannels s) ->
  Ui.safe_at http fits_render permitted r (handle isPlatform ToggleAll s).
Proof.
  intros -> Hnd. constructor; [|safe_sets]. intros s' (H1 & H2 & H3 & H4 & H5 & H6 & H7).
  set (all := bool_decide _). repeat split; simpl; auto; destruct all; auto; [constructor|].
  by intros c ?%not_elem_of_nil.
Qed.

Lemma variable_safe s k v r :
  r = Some s -> k ∈ variables s ->
  Ui.safe_at http fits_render permitted r (handle isPlatform (SetVariable k v) s).
Proof.
  intros -> Hk. constructor; [|safe_sets]. intros s' (H1 & H2 & H3 & H4 & H5 & H6 & H7).
  repeat split; simpl; auto. rewrite oset_keys_present; [done|]. by rewrite H7.
Qed.

Lemma page_handle_safe a s :
  fits_render (Some s) s -> offered (view isPlatform myTenantId canSend s) a ->
  Ui.safe_at http fits_render permitted (Some s) (handle isPlatform a s).
Proof.
  intros Hs Ha. destruct a; try (simpl; unfold set_field; safe_sets; fail).
  - apply toggle_all_safe; [done|]. apply Hs.
  - apply toggle_channel_safe; [done|]. unfold view, audience, preview, ChannelConfiguration, show_error in Ha.
    offers_cases Ha; try discriminate. by injection Ha as ->.
  - apply variable_safe; [done|]. unfold view, audience, preview, ChannelConfiguration, show_error in Ha.
    offers_cases Ha; try discriminate. by injection Ha as -> _.
  - apply submit_safe. unfold view, audience, preview, ChannelConfiguration, show_error in Ha.
    offers_cases Ha; try discriminate; done.
Qed.

Lemma template_ref_variables r s :
  template_ref r = template_ref s ->
  (templatesRef r < templatesRef s)%nat \/ (templatesRef r = templatesRef s /\ templates r = templates s) ->
  variables r = variables s.
Proof.
  unfold template_ref, variables. intros He Hr.
  destruct (selectedTemplate r) as [t|] eqn:E1, (selectedTemplate s) as [t'|] eqn:E2; try done.
  injection He as H1 H2. destruct Hr as [?|[_ Hr]]; [lia|].
  unfold selectedTemplate in *. assert (templateKey r = templateKey s) as Hk.
  { apply find_Some in E1 as [E1%bool_decide_eq_true _], E2 as [E2%bool_decide_eq_true _]. congruence. }
  rewrite Hr, Hk in E1. rewrite E1 in E2. by simplify_eq.
Qed.

(** The state while the effects of a render of [s] run: [ks] are the keys of the
    values, and [chs] bounds the selected channels. *)
Definition committing (s : state) (chs ks : list string) (s' : state) : Prop :=
  availableChannels s' = availableChannels s /\ availableRef s' = availableRef s
  /\ templatesRef s' = templatesRef s /\ templates s' = templates s
  /\ NoDup (selectedChannels s') /\ okeys (templateValues s') = ks
  /\ (forall ch, ch ∈ selectedChannels s' -> ch ∈ chs).

Notation runs := (Ui.runs http fits_render permitted).

Lemma neutral_committing f s chs ks s' : neutral f -> committing s chs ks s' -> committing s chs ks (f s').
Proof.
  intros Hf. destruct (Hf s') as (H1 & H2 & H3 & H4 & H5 & H6). unfold committing.
  by rewrite H1, H2, H3, H4, H5, H6.
Qed.

Lemma get_served seg q perm :
  perm ∈ ["contacts.view"; "groups.view"; "templates.view"; "channels.view"] -> Route "GET" [L seg] perm ∈ routes ->
  Forall (fun r => permitted (OReq r)) [list_ ("/admin/api/v1/" +:+ seg +:+ String question q)].
Proof.
  intros Hp Hr. constructor; [|constructor]. exists perm. split; [unfold routes_used; rewrite !elem_of_cons in *; tauto|].
  split; [by apply served_query|]. rewrite !elem_of_cons in Hp.
  by destruct Hp as [->|[->|[->|[->|?%elem_of_nil]]]].
Qed.

Ltac in_table := apply list_elem_of_In; vm_compute; tauto.

Lemma load_tenants_runs s P : runs P P (load_tenants isPlatform s).
Proof.
  unfold load_tenants. destruct isPlatform eqn:Hplat; [|by apply Ui.runs_nil].
  apply Ui.runs_call.
  - constructor; [|constructor]. exists "tenants.view". split; [in_table|].
    split; [|by rewrite Hplat]. exists (Route "GET" [L "tenants"] "tenants.view"), [], "". repeat split; [in_table|by left].
  - intros r [ts|x]; safe_sets. destruct ts as [|t ts]; safe_sets. destruct (truthy _); safe_sets.
Qed.

Lemma fits_available r s chs :
  NoDup chs -> fits_render r s -> fits_render r (setAvailableChannels chs s).
Proof.
  intros Hn (H1 & H2 & H3). split; [done|]. split; [done|]. destruct r as [r|]; [|done].
  destruct H3 as (H4 & H5 & H6). split; [done|]. split; [left; simpl; lia|done].
Qed.

Lemma fits_templates r s ts : fits_render r s -> fits_render r (setTemplates ts s).
Proof.
  intros (H1 & H2 & H3). split; [done|]. split; [done|]. destruct r as [r|]; [|done].
  destruct H3 as (H4 & H5 & H6 & H7). split; [done|]. split; [done|]. split; [left; simpl; lia|done].
Qed.

Lemma load_tenant_runs s s0 chs ks : runs (committing s0 chs ks) (committing s0 chs ks) (load_tenant myTenantId s).
Proof.
  unfold load_tenant. destruct (truthy _); [|by apply Ui.runs_nil].
  intros s' Hs'. cbn [Ui.sync_all Ui.sync]. split; [by apply (neutral_committing (fun s => s <| loadingTenant := true |>))|].
  set (bs := [_; _; _; _]).
  assert (Hb : Forall (fun b => Forall (fun q => permitted (OReq q)) (http _ (Ui.b_event b))) bs).
  { subst bs.
    apply Forall_cons_2; [apply (get_served "contacts" _ "contacts.view"); in_table|].
    apply Forall_cons_2; [apply (get_served "groups" _ "groups.view"); in_table|].
    apply Forall_cons_2; [apply (get_served "templates" _ "templates.view"); in_table|].
    apply Forall_cons_2; [apply (get_served "channels" _ "channels.view"); in_table|].
    apply Forall_nil_2. }
  split.
  - rewrite app_nil_r. apply Forall_map, Forall_concat. by apply Forall_map.
  - constructor; [|constructor]. intros r. constructor; [done| |intros r' x; safe_sets].
    subst bs. repeat constructor; intros r' [x|e] s1 Hs1; cbn in *;
      first [by apply fits_templates | apply fits_available; [auto using NoDup_unique, NoDup_nil_2|done]
            | done | (eapply neutral_fits in Hs1; [exact Hs1|by intros ?])].
Qed.

Lemma keep_available_runs s chs ks :
  NoDup (availableChannels s) ->
  runs (committing s chs ks) (committing s (availableChannels s) ks) (keep_available s).
Proof.
  intros Hn. apply Ui.runs_set. intros s' (H1 & H2 & H3 & H4 & H5 & H6 & H7).
  repeat split; simpl; auto; [by apply NoDup_filter_by|].
  intros ch [Hi _]%elem_of_filter_by. by apply includes_true.
Qed.

Lemma keep_values_runs s chs ks : runs (committing s chs ks) (committing s chs (variables s)) (keep_values s).
Proof.
  apply Ui.runs_set. intros s' (H1 & H2 & H3 & H4 & H5 & H6 & H7).
  repeat split; simpl; auto. unfold okeys. rewrite map_map. apply map_id.
Qed.

Lemma follow_template_runs s ks :
  runs (committing s (availableChannels s) ks) (committing s (availableChannels s) ks) (follow_template s).
Proof.
  unfold follow_template. destruct (selectedTemplate s) as [t|]; [|by apply Ui.runs_nil].
  eapply Ui.runs_app; apply Ui.runs_if || (destruct (truthy (event_ s)); [by apply Ui.runs_nil|]).
  - intros [_ Hc%includes_true]%andb_prop. apply Ui.runs_set.
    intros s' (H1 & H2 & H3 & H4 & H5 & H6 & H7).
    destruct (includes (selectedChannels s') (channel t)) eqn:Hi; [done|]. apply includes_false in Hi.
    repeat split; simpl; auto.
    + apply NoDup_app. split; [done|]. split; [|apply NoDup_singleton].
      intros x Hx ->%list_elem_of_singleton. done.
    + intros ch [Hch| ->%list_elem_of_singleton]%elem_of_app; auto.
  - auto.
  - apply Ui.runs_set. intros s' Hs'.
    by apply (neutral_committing (fun s => s <| event_ := template_key t |>)).
Qed.

Lemma commit_safe r s : fits_render r s ->
  let '(s', os, ps) := Ui.sync_all http (effects isPlatform myTenantId r s) s in
  fits_render (Some s) s' /\ Forall permitted os
  /\ Forall (Ui.suspended http fits_render permitted) ps.
Proof.
  intros Hs. pose proof Hs as (Hav & Hsel & Hr).
  assert (H : runs (committing s (selectedChannels s) (okeys (templateValues s)))
    (committing s (availableChannels s) (variables s)) (effects isPlatform myTenantId r s)).
  { unfold effects.
    eapply Ui.runs_app; [apply Ui.runs_if; [intros _; apply load_tenants_runs|auto]|].
    eapply Ui.runs_app; [apply Ui.runs_if; [intros _; apply load_tenant_runs|auto]|].
    eapply Ui.runs_app; [apply Ui.runs_if; [intros _; by apply keep_available_runs|]|].
    { intros (r0 & -> & He)%changed_false s' (H1 & H2 & H3 & H4 & H5 & H6 & H7).
      destruct Hr as (_ & [Hlt|[_ Heq]] & _ & Hsub & _); [lia|].
      repeat split; auto. intros ch Hch. rewrite <- Heq. auto. }
    eapply Ui.runs_app; [apply Ui.runs_if; [intros _; by apply keep_values_runs|]|].
    { intros (r0 & -> & He)%changed_false s' (H1 & H2 & H3 & H4 & H5 & H6 & H7).
      destruct Hr as (_ & _ & Ht & _ & Hk).
      repeat split; auto. rewrite H6, Hk. by apply template_ref_variables. }
    apply Ui.runs_if; [intros _; apply follow_template_runs|auto]. }
  specialize (H s). destruct (Ui.sync_all _ _ _) as [[s' os] ps].
  destruct H as (H & Ho & Hp); [by repeat split|]. split; [|done].
  destruct H as (H1 & H2 & H3 & H4 & H5 & H6 & H7). unfold fits_render. rewrite H1.
  repeat split; auto.
Qed.

Lemma page_invariant c :
  Ui.reachable http (effects isPlatform myTenantId) (handle isPlatform)
    (view isPlatform myTenantId canSend) (initial isPlatform myTenantId) c ->
  Ui.config_at http fits_render permitted c.
Proof.
  apply Ui.reachable_at; [apply commit_safe|apply page_handle_safe|].
  repeat split; [constructor|apply NoDup_singleton].
Qed.

End Invariant.

(** C9: in every interleaving of typing, loading and switching tenants, whenever
    the page is at rest the selected channels are, once each, channels available
    to the tenant on screen, and the values held are exactly those of the
    variables of the selected template; and every request the page ever made has
    a route in the API, under one of the six permissions of the page, [tenants.view] for
    platform users only and [notifications.send] for users who may send. *)
Theorem send_page_invariant isPlatform myTenantId canSend c :
  Ui.reachable http (effects isPlatform myTenantId) (handle isPlatform)
    (view isPlatform myTenantId canSend) (initial isPlatform myTenantId) c ->
  (Ui.c_dirty c = false ->
   NoDup (selectedChannels (Ui.c_state c))
   /\ (forall ch, ch ∈ selectedChannels (Ui.c_state c) -> ch ∈ availableChannels (Ui.c_state c))
   /\ okeys (templateValues (Ui.c_state c)) = variables (Ui.c_state c))
  /\ Forall (permitted isPlatform canSend) (Ui.c_trace c).
Proof.
  intros Hc. apply page_invariant in Hc as (HR & _ & Ht & Hd). split; [|done].
  intros Hclean. rewrite (Hd Hclean) in HR. destruct HR as (_ & H2 & _ & _ & _ & H3 & H4). done.
Qed.

(** A server for the examples: one tenant with one template and two channels. *)
Definition sample_template : TemplateOption :=
  Template_ "order.confirmed" "sms" (Some "Order {{order_id}}") (Some "Hi {{ name }}").
Definition sample_server (X : Type) (e : event X) : result X :=
  match e with
  | ListTenants => Ok [Tenant "t1" "Acme" "acme"]
  | ListContacts _ => Ok [Contact "c1" "Ada" "ada@example.com" ""]
  | ListGroups _ => Threw NotAnError
  | ListTemplates _ => Ok [sample_template]
  | ListChannels _ => Ok [Channel "sms" true; Channel "push" false; Channel "sms" true]
  | SendNotification _ => Ok "n1"
  end.

Notation sample_commit := (Ui.commit http (effects false "t1")).
Notation sample_act a c := (Ui.resume http c (Ui.c_pool c) (handle false a (Ui.c_state c))).

(** Mounted, answered and rendered: the tenant's data is loaded. *)
Definition sample_loaded : Ui.config :=
  sample_commit (sample_commit (Ui.drain http sample_server 20 (sample_commit (sample_commit
    (Ui.initial (initial false "t1")))))).

(** The user picks the template; the effects follow. *)
Definition sample_picked : Ui.config :=
  sample_commit (sample_commit (sample_commit (sample_act (ChooseTemplate "order.confirmed") sample_loaded))).

Example sample_picked_state :
  (selectedChannels (Ui.c_state sample_picked), event_ (Ui.c_state sample_picked),
   okeys (templateValues (Ui.c_state sample_picked)), Ui.c_dirty sample_loaded, Ui.c_dirty sample_picked)
  = (["sms"], "order.confirmed", ["order_id"; "name"], false, false).
Proof. vm_compute. reflexivity. Qed.

Notation sample_reachable :=
  (Ui.reachable http (effects false "t1") (handle false) (view false "t1" true) (initial false "t1")).

Lemma sample_commits c : sample_reachable c -> Ui.c_dirty c = true -> sample_reachable (sample_commit c).
Proof. intros Hc Hd. eapply Ui.reach_step; [done|by apply Ui.step_commit]. Qed.

Lemma sample_loaded_reachable : sample_reachable sample_loaded.
Proof.
  repeat (apply sample_commits; [|vm_compute; reflexivity]).
  apply Ui.drain_reachable.
  repeat (apply sample_commits; [|vm_compute; reflexivity]). apply Ui.reach_init.
Qed.

Lemma offers_template s t :
  truthy (effectiveTenant "t1" s) && negb (loadingTenant s) = true -> t ∈ templates s ->
  offered (view false "t1" true s) (ChooseTemplate (template_key t)).
Proof.
  intros Hb Ht. unfold view. do 3 (apply offered_app; right).
  apply offered_app. left. apply offered_when. split; [done|]. unfold audience.
  do 4 (apply offered_app; right). left. split; [done|].
  exists (template_key t, template_label t). split; [|done]. right. apply in_map_iff.
  exists t. split; [done|]. by apply list_elem_of_In.
Qed.

Lemma sample_picked_reachable : sample_reachable sample_picked.
Proof.
  repeat (apply sample_commits; [|vm_compute; reflexivity]).
  eapply Ui.reach_step; [apply sample_loaded_reachable|].
  apply (Ui.step_event http (effects false "t1") (handle false) (view false "t1" true) sample_loaded);
    [vm_compute; reflexivity|].
  apply (offers_template _ sample_template); [vm_compute; reflexivity|].
  assert (Hts : templates (Ui.c_state sample_loaded) = [sample_template]) by (vm_compute; reflexivity).
  rewrite Hts. by left.
Qed.

Lemma send_page_invariant_witness :
  NoDup (selectedChannels (Ui.c_state sample_picked))
  /\ okeys (templateValues (Ui.c_state sample_picked)) = variables (Ui.c_state sample_picked).
Proof.
  destruct (send_page_invariant false "t1" true sample_picked sample_picked_reachable) as [H _].
  destruct (H ltac:(vm_compute; reflexivity)) as (H1 & _ & H3). exact (conj H1 H3).
Defined.

Definition sample_form : state :=
  (initial false "t1") <| templates := [sample_template] |> <| templateKey := "order.confirmed" |>
    <| event_ := "order.confirmed" |> <| selectedChannels := ["sms"] |> <| recipientValue := "a@b.c" |>
    <| templateValues := [("order_id", "7"); ("name", "Ada")] |>.

Lemma sample_form_valid : form_valid false sample_form.
Proof. apply validateForm_nil. vm_compute. reflexivity. Qed.

(** The page takes back a choice of the user: after the channel of the
    selected template is switched off, the next edit of the event selects it
    again. *)
Theorem event_edit_reselects_channel isPlatform myTenantId s t v :
  selectedTemplate s = Some t -> channel t <> "" -> channel t ∈ availableChannels s ->
  channel t ∉ selectedChannels s -> v <> event_ s ->
  let s1 := (Ui.sync http (handle isPlatform (SetEvent v) s) s).1.1 in
  let s2 := (Ui.sync_all http (effects isPlatform myTenantId (Some s) s1) s1).1.1 in
  channel t ∉ selectedChannels s1 /\ channel t ∈ selectedChannels s2.
Proof.
  intros Ht Hne Hav Hsel Hv. cbn [handle set_field Ui.sync fst].
  assert (Hclear : forall n s', exists fe, clearFieldError n s' = s' <| fieldErrors := fe |>).
  { intros n s'. unfold clearFieldError. destruct (truthy _); [by eexists|].
    exists (fieldErrors s'). by destruct s'. }
  destruct (Hclear "event" (s <| event_ := v |>)) as [fe ->].
  set (s1 := _ <| fieldErrors := fe |>). cbv zeta.
  assert (Hs1 : selectedTemplate s1 = Some t) by done.
  assert (Heff : effects isPlatform myTenantId (Some s) s1 = follow_template s1).
  { unfold effects, changed, template_ref. rewrite Hs1, Ht.
    change (tenantId s1) with (tenantId s). change (availableRef s1) with (availableRef s).
    change (templatesRef s1) with (templatesRef s).
    change (effectiveTenant myTenantId s1) with (effectiveTenant myTenantId s).
    change (event_ s1) with v.
    rewrite !bool_decide_eq_true_2 by done. rewrite bool_decide_eq_false_2 by done. done. }
  rewrite Heff. split; [done|]. unfold follow_template. rewrite Hs1.
  assert (Hc : truthy (channel t) && includes (availableChannels s1) (channel t) = true).
  { apply andb_true_intro. split; [by apply truthy_true|by apply includes_true]. }
  rewrite Hc. change (event_ s1) with v.
  assert (Hi : includes (selectedChannels s1) (channel t) = false) by (by apply includes_false).
  destruct (truthy v); cbn [app Ui.sync_all Ui.sync fst]; rewrite Hi; simpl;
    apply elem_of_app; right; by left.
Qed.

Lemma event_edit_reselects_channel_witness :
  let s := sample_form <| availableChannels := ["sms"; "email"] |> <| selectedChannels := ["email"] |> in
  let s1 := (Ui.sync http (handle false (SetEvent "order.paid") s) s).1.1 in
  let s2 := (Ui.sync_all http (effects false "t1" (Some s) s1) s1).1.1 in
  "sms" ∉ selectedChannels s1 /\ "sms" ∈ selectedChannels s2.
Proof.
  apply (event_edit_reselects_channel false "t1"
    (sample_form <| availableChannels := ["sms"; "email"] |> <| selectedChannels := ["email"] |>)
    sample_template "order.paid").
  - vm_compute. reflexivity.
  - discriminate.
  - by left.
  - simpl. set_solver.
  - discriminate.
Defined.
