(* ===== verification/Notify.v ===== *)
(** Accepting a notification (notification-core-api: internal/notifications,
    ratelimit, channels, features, tenant, queue/control.go and the handler
    [SendAdminNotification]): the checks, the rate limits, the rows and the jobs of
    the channels, and the pass over the scheduled ones; and what becomes of the
    form of the send page (SendPage.v) on its way to the workers (Delivery.v). *)
From stdpp Require Import sorting.
From S2P Require Import Prelude Js React Query Client Components Auth Api Page Handlers Template SendPage.
From S2P Require Import GoTime Delivery.
From S2P Require Json.

(** * Requests *)

Record Target := MkTarget { t_type : string; t_recipient : gomap; t_id : string }.
Record Schedule := MkSchedule { s_type : string; s_send_at : string }.
Record Request := MkRequest {
  Event : string; Channels : list string; Template_ : string; Target_ : Target; RData : gomap;
  Priority : Z; Schedule_ : Schedule; IdempotencyKey : string }.
#[export] Instance eta_request : Eta Request := fun r =>
  MkRequest (Event r) (Channels r) (Template_ r) (Target_ r) (RData r) (Priority r) (Schedule_ r)
    (IdempotencyKey r).

(** Decoding into a map: the last member of a name counts. *)
Definition to_map (o : obj json) : gomap := fold_left (fun m kv => <[kv.1 := kv.2]> m) o ∅.
Definition omember (b : json) (k : string) : gomap :=
  match jfield b k with Some (JObj o) => to_map o | _ => ∅ end.
Definition lmember (b : json) (k : string) : list string :=
  match jfield b k with
  | Some (JArr xs) => map (fun v => match v with JStr s => s | _ => "" end) xs
  | _ => []
  end.
Definition sub (b : json) (k : string) : json := default JNull (jfield b k).

Definition target_of (b : json) : Target := MkTarget (member b "type") (omember b "recipient") (member b "id").
Definition request_of (b : json) : Request :=
  MkRequest (member b "event") (lmember b "channels") (member b "template") (target_of (sub b "target"))
    (omember b "data") (default 0 (QueueRow.pint b "priority"))
    (MkSchedule (member (sub b "schedule") "type") (member (sub b "schedule") "send_at"))
    (member b "idempotency_key").

(** [json.Marshal]: the members of a map come in an order of their own. *)
Definition target_json (t : Target) : json :=
  JObj [("type", JStr (t_type t)); ("recipient", JObj (map_to_list (t_recipient t))); ("id", JStr (t_id t))].
Definition request_json (r : Request) : json :=
  JObj [("event", JStr (Event r)); ("channels", jstrs (Channels r)); ("template", JStr (Template_ r));
        ("target", target_json (Target_ r)); ("data", JObj (map_to_list (RData r)));
        ("priority", JNum (int (Priority r)));
        ("schedule", JObj [("type", JStr (s_type (Schedule_ r))); ("send_at", JStr (s_send_at (Schedule_ r)))]);
        ("idempotency_key", JStr (IdempotencyKey r))].

(** [for k, v := range req.Data { p[k] = v }; for k, v := range req.Target.Recipient
    { p[k] = v }] *)
Definition jobPayload (data recipient : gomap) : gomap := recipient ∪ data.

(** * Rate limits (internal/ratelimit) *)

(** A key of Redis: its count, and when it expires, if it does. *)
Record counter := Counter { c_count : Z; c_expires : option Z }.
Abbreviation counters := (gmap string counter).

Definition live (now : Z) (key : string) (c : counters) : option counter :=
  x ← c !! key;
  match c_expires x with Some e => if e <=? now then None else Some x | None => Some x end.
Definition INCR (now : Z) (key : string) (c : counters) : counters * Z :=
  let x := default (Counter 0 None) (live now key c) in
  (<[key := Counter (c_count x + 1) (c_expires x)]> c, c_count x + 1).
Definition EXPIRE (now : Z) (key : string) (window : Z) (c : counters) : counters :=
  match live now key c with
  | Some x => <[key := Counter (c_count x) (Some (now + window))]> c
  | None => c
  end.

(** Whether INCR and EXPIRE are answered. *)
Record redis := Redis { r_incr : bool; r_expire : bool }.

(** [None] is an error.  The window of a key starts at its first call; without EXPIRE
    it never ends. *)
Definition AllowKey (r : redis) (now : Z) (key : string) (limit window : Z) (c : counters)
    : counters * option bool :=
  if negb (r_incr r) then (c, None)
  else
    let '(c, count) := INCR now key c in
    if count =? 1 then
      if negb (r_expire r) then (c, None) else (EXPIRE now key window c, Some (count <=? limit))
    else (c, Some (count <=? limit)).

(** [loadLimits]: the row of the channel, when it can be read. *)
Definition loadLimits (row : option (Z * Z)) : Z * Z :=
  let '(rate, quota) := default (100, 50000) row in
  (if rate <=? 0 then 100 else rate, if quota <=? 0 then 50000 else quota).

Definition rate_key (tenantID : string) : string := "tenant:" +:+ tenantID +:+ ":rate".
Definition daily_key (tenantID channel day : string) : string :=
  "tenant:" +:+ tenantID +:+ ":daily:" +:+ channel +:+ ":" +:+ day.

(** A second and a day, in nanoseconds. *)
Definition rate_window : Z := 10 ^ 9.
Definition daily_window : Z := 24 * 3600 * 10 ^ 9.

(** A call, with the limits it has loaded and the day it has read. *)
Record allow_call := AllowCall { q_limits : Z * Z; q_tenant : string; q_channel : string; q_day : string }.
Definition q_rate (x : allow_call) : string := rate_key (q_tenant x).
Definition q_daily (x : allow_call) : string := daily_key (q_tenant x) (q_channel x) (q_day x).

(** [Allow], when nothing comes between its commands. *)
Definition Allow (r : redis) (now : Z) (x : allow_call) (c : counters) : counters * option bool :=
  if bool_decide (q_tenant x = "" \/ q_channel x = "") then (c, Some false)
  else
    let '(c, ok) := AllowKey r now (q_rate x) (q_limits x).1 rate_window c in
    match ok with
    | Some true => AllowKey r now (q_daily x) (q_limits x).2 daily_window c
    | _ => (c, ok)
    end.

(** [Allow] command by command, with what others do in between: the command that comes
    next, or the answer. *)
Inductive allow_stage := RateIncr | RateExpire | DailyIncr | DailyExpire | Answered (ok : option bool).
#[export] Instance allow_stage_dec : EqDecision allow_stage.
Proof. solve_decision. Defined.
Definition judged (count limit : Z) (next : allow_stage) : allow_stage :=
  if count <=? limit then next else Answered (Some false).
(** [answered]: whether Redis answers; the commands at the time of Redis. *)
Definition Allow_step (answered : bool) (now : Z) (x : allow_call) (st : allow_stage) (c : counters)
    : allow_stage * counters :=
  match st with
  | RateIncr =>
      if bool_decide (q_tenant x = "" \/ q_channel x = "") then (Answered (Some false), c)
      else if negb answered then (Answered None, c)
      else
        let '(c, count) := INCR now (q_rate x) c in
        (if count =? 1 then RateExpire else judged count (q_limits x).1 DailyIncr, c)
  | RateExpire =>
      if negb answered then (Answered None, c)
      else (judged 1 (q_limits x).1 DailyIncr, EXPIRE now (q_rate x) rate_window c)
  | DailyIncr =>
      if negb answered then (Answered None, c)
      else
        let '(c, count) := INCR now (q_daily x) c in
        (if count =? 1 then DailyExpire else judged count (q_limits x).2 (Answered (Some true)), c)
  | DailyExpire =>
      if negb answered then (Answered None, c)
      else (judged 1 (q_limits x).2 (Answered (Some true)), EXPIRE now (q_daily x) daily_window c)
  | Answered ok => (Answered ok, c)
  end.

(** Calls at a time: one of them goes on. *)
Record allow_turn := AllowTurn { u_call : nat; u_answered : bool; u_now : Z }.
Abbreviation allow_state := (list (allow_call * allow_stage) * counters)%type.
Definition allow_on (s : allow_state) (u : allow_turn) : allow_state :=
  match s.1 !! u_call u with
  | Some (x, st) =>
      let '(st, c) := Allow_step (u_answered u) (u_now u) x st s.2 in (<[u_call u := (x, st)]> s.1, c)
  | None => s
  end.
Definition allow_all (us : list allow_turn) (s : allow_state) : allow_state := fold_left allow_on us s.

(** * Queues of a tenant (internal/queue/control.go) *)

Definition slug_char (c : ascii) : bool :=
  is_digit c || ((97 <=? byte c) && (byte c <=? 122)).
(** [regexp.MustCompile(`[^a-z0-9]+`).ReplaceAllString(s, "-")] *)
Fixpoint dashed (gap : bool) (s : string) : string :=
  match s with
  | EmptyString => ""
  | String c s =>
      if slug_char c then String c (dashed false s)
      else if gap then dashed true s else String "-"%char (dashed true s)
  end.
(** [strings.Trim(s, "-")] *)
Fixpoint ltrim_dash (s : string) : string :=
  match s with String c s' => if decide (c = "-"%char) then ltrim_dash s' else s | _ => s end.
Fixpoint rtrim_dash (s : string) : string :=
  match s with
  | EmptyString => ""
  | String c s =>
      let t := rtrim_dash s in if bool_decide (c = "-"%char /\ t = "") then "" else String c t
  end.

Definition NameForTenant (slug channel : string) : string :=
  let slug := rtrim_dash (ltrim_dash (dashed false (to_lower slug))) in
  "tenant." +:+ (slug ||| "tenant") +:+ "." +:+ to_lower channel.

(** [tenant_queue_controls]: the name of the queue of a tenant's channel; the names
    are unique in the table. *)
Abbreviation control_table := (gmap (string * string) string).

(** [EnsureControl], with the slug of the tenant when it is read. *)
Definition EnsureControl (slug : option string) (db : bool) (tenantID channel : string) (t : control_table)
    : option (control_table * string) :=
  slug ← slug;
  let name := NameForTenant slug channel in
  if negb db then None
  else
    match t !! (tenantID, channel) with
    | Some n => Some (t, n)
    | None =>
        if bool_decide (map_Forall (fun _ n => n <> name) t)
        then Some (<[(tenantID, channel) := name]> t, name) else None
    end.

(** * Accepting (internal/notifications/service.go) *)

Record notification_row := MkNotification {
  n_tenant : string; n_public_id : string; n_event : string; n_template : string; n_target_type : string;
  n_target : json; n_data : json; n_channels : json; n_priority : Z; n_schedule_type : string;
  n_scheduled_at : option Z; n_status : string; n_key : option string }.
Record scheduled_job := MkScheduled {
  j_tenant : string; j_notification : string; j_due : Z; j_status : string; j_payload : json }.

(** What the API keeps between two requests, besides the rows of Delivery.v. *)
Record api := Api { a_counters : counters; a_controls : control_table }.

(** What the surroundings answer while a request is handled: the rows read, Redis,
    the statements and the publications by their number, and the new identifiers. *)
Record surroundings := Surroundings {
  tenant_status : option string;
  tenant_slug : option string;
  feature : string -> option bool;
  channel_config : string -> option (bool * string * string);
  limits : string -> option (Z * Z);
  redis_ : redis;
  clock : string -> Z;
  today : string;
  stmt : nat -> bool;
  control_stmt : nat -> bool;
  pub : nat -> bool;
  public_id : string;
  notification_id : string;
  delivery_id : nat -> string }.

(** [tenant.EnsureActive], [features.Enabled] and [channels.ValidateSend]: an error,
    or none. *)
Definition EnsureActive (status : option string) : option string :=
  match status with
  | None => Some "no rows in result set"
  | Some st => if decide (st = "active") then None else Some "tenant is not active"
  end.
Definition ValidateSend (direction : string) (row : option (bool * string * string)) : option string :=
  match row with
  | None => Some "no rows in result set"
  | Some (enabled, dir, provider) =>
      if negb enabled then Some "channel disabled"
      else if negb (bool_decide (dir = direction \/ dir = "two_way")) then Some "channel direction not allowed"
      else if decide (provider = "") then Some "provider not configured"
      else None
  end.

Section Send.
Variable w : surroundings.

(** The loop over the channels: the counters move even when a later check refuses. *)
Fixpoint check_channels (tenantID : string) (chs : list string) (c : counters) : counters * option string :=
  match chs with
  | [] => (c, None)
  | ch :: chs =>
      if negb (default false (feature w ("channel." +:+ ch)))
      then (c, Some ("feature disabled: channel." +:+ ch))
      else
        match ValidateSend "one_way" (channel_config w ch) with
        | Some err => (c, Some (ch +:+ ": " +:+ err))
        | None =>
            let '(c, ok) := Allow (redis_ w) (clock w ch) (AllowCall (loadLimits (limits w ch)) tenantID ch (today w)) c in
            if default false ok then check_channels tenantID chs c
            else (c, Some (ch +:+ ": rate limit exceeded"))
        end
  end.

(** [scheduleState]: the time of a scheduled request, [Some None] for another. *)
Definition scheduleState (s : Schedule) : option (option Z) :=
  if decide (to_lower (s_type s) = "scheduled") then t ← RFC3339 (s_send_at s); Some (Some t)
  else Some None.

(** The deliveries of a notification, channel by channel: the rows inserted, the
    messages published, and whether it came to the end.  A publication does not wait
    for the transaction. *)
Fixpoint deliver (tenantID notificationID : string) (payload : gomap) (target : json) (i : nat)
    (chs : list string) (t : control_table)
    : control_table * list (string * delivery) * list message * bool :=
  match chs with
  | [] => (t, [], [], true)
  | ch :: chs =>
      if negb (stmt w (S i)) then (t, [], [], false)
      else
        let row := (delivery_id w i,
          MkDelivery tenantID notificationID ch target "queued" None (JObj [])) in
        match EnsureControl (tenant_slug w) (control_stmt w i) tenantID ch t with
        | None => (t, [row], [], false)
        | Some (t, name) =>
            if negb (pub w i) then (t, [row], [], false)
            else
              let m := (channelQueue ch,
                Some (MkJob notificationID (delivery_id w i) tenantID ch name payload 0)) in
              let '(t, rows, ms, ok) := deliver tenantID notificationID payload target (S i) chs t in
              (t, row :: rows, m :: ms, ok)
        end
  end.

(** What is left of a request: the answer, what the API keeps, the rows that were
    committed, and the messages that were published. *)
Record outcome := Outcome {
  o_answer : string + string;
  o_api : api;
  o_notification : option notification_row;
  o_job : option scheduled_job;
  o_rows : list (string * delivery);
  o_messages : list message }.

Definition refuse (a : api) (err : string) : outcome := Outcome (inl err) a None None [] [].

Definition Send (a : api) (tenantID : string) (req : Request) : outcome :=
  if decide (tenantID = "") then refuse a "tenant_id required"
  else if decide (Channels req = []) then refuse a "at least one channel is required"
  else
    let req :=
      if decide (s_type (Schedule_ req) = "")
      then req <| Schedule_ := MkSchedule "instant" (s_send_at (Schedule_ req)) |> else req in
    match EnsureActive (tenant_status w) with
    | Some err => refuse a err
    | None =>
        let '(c, err) := check_channels tenantID (Channels req) (a_counters a) in
        let a := Api c (a_controls a) in
        match err with
        | Some err => refuse a err
        | None =>
            match scheduleState (Schedule_ req) with
            | None => refuse a "parsing time"
            | Some at_ =>
                let target := target_json (Target_ req) in
                let status := match at_ with Some _ => "scheduled" | None => "queued" end in
                let n := MkNotification tenantID (public_id w) (Event req) (Template_ req)
                  (t_type (Target_ req)) target (request_json req) (jstrs (Channels req)) (Priority req)
                  (s_type (Schedule_ req)) at_ status (nullIfEmpty (IdempotencyKey req)) in
                let fits := (- 2 ^ 31 <=? Priority req) && (Priority req <? 2 ^ 31) in
                if negb (stmt w 0 && fits) then refuse a "insert notification"
                else
                  match at_ with
                  | Some t =>
                      let j := MkScheduled tenantID (notification_id w) t "pending" (request_json req) in
                      if negb (stmt w 1) then refuse a "insert scheduled job"
                      else if negb (stmt w 2) then refuse a "commit"
                      else Outcome (inr (public_id w)) a (Some n) (Some j) [] []
                  | None =>
                      let payload := jobPayload (RData req) (t_recipient (Target_ req)) in
                      let '(t, rows, ms, ok) :=
                        deliver tenantID (notification_id w) payload target 0 (Channels req) (a_controls a) in
                      let a := Api c t in
                      if negb ok then Outcome (inl "delivery") a None None [] ms
                      else if negb (stmt w (S (length (Channels req))))
                      then Outcome (inl "commit") a None None [] ms
                      else Outcome (inr (public_id w)) a (Some n) None rows ms
                  end
            end
        end
    end.

(** [SendAdminNotification], without the audit entry and the broadcast: a status, and
    what is left. *)
Definition SendAdminNotification (a : api) (p : Principal) (b : json) : Z * outcome :=
  if negb (decodes SendAdminNotification_req b) then (400, refuse a "invalid JSON")
  else
    let req := request_of b in
    let tenantID := if is_platform_admin p then member b "tenant_id" else or_empty (tenant_id p) in
    if is_platform_admin p && bool_decide (tenantID = "")
    then (400, refuse a "tenant_id is required for platform admin")
    else
      let o := Send a tenantID req in
      (match o_answer o with inl _ => 400 | inr _ => 202 end, o).

(** * Scheduled notifications *)

(** One due job of [RouteDueScheduled], with its notification: its rows are inserted
    one by one, in no transaction, and have no recipient.  Also whether the job is
    marked queued. *)
Definition route_job (a : api) (j : scheduled_job) (n : notification_row)
    : api * list (string * delivery) * list message * bool :=
  let req := request_of (n_data n) in
  let chs := lmember (JObj [("channels", n_channels n)]) "channels" in
  let payload := jobPayload (RData req) (t_recipient (target_of (n_target n))) in
  let '(t, rows, ms, ok) :=
    deliver (j_tenant j) (j_notification j) payload (JObj []) 0 chs (a_controls a) in
  (Api (a_counters a) t, rows, ms, ok && stmt w (S (length chs))).
End Send.

(** The jobs of a pass: those due, the earliest first, at most a hundred. *)
Abbreviation entry := (scheduled_job * notification_row)%type.
Definition due_before (j j' : entry) : Prop := j_due j.1 <= j_due j'.1.
#[export] Instance due_before_dec : RelDecision due_before.
Proof. intros j j'. unfold due_before. apply _. Defined.
Definition due_jobs (now : Z) (jobs : list entry) : list entry :=
  take 100 (merge_sort due_before
    (filter_by (fun j => bool_decide (j_status j.1 = "pending") && (j_due j.1 <=? now)) jobs)).

(** The pass stops at the first error; what was inserted and published stays.  The
    jobs it marked queued are the first of those due. *)
Fixpoint route_jobs (ws : nat -> surroundings) (i : nat) (a : api) (jobs : list entry)
    : api * list (string * delivery) * list message * nat :=
  match jobs with
  | [] => (a, [], [], i)
  | (j, n) :: jobs =>
      let '(a, rows, ms, ok) := route_job (ws i) a j n in
      if ok then
        let '(a, rows', ms', i') := route_jobs ws (S i) a jobs in (a, rows ++ rows', ms ++ ms', i')
      else (a, rows, ms, i)
  end.
Definition RouteDueScheduled (ws : nat -> surroundings) (now : Z) (a : api) (jobs : list entry) :=
  route_jobs ws 0 a (due_jobs now jobs).

(** * Maps *)

Lemma lookup_to_map o k : NoDup (okeys o) -> to_map o !! k = oget o k.
Proof.
  intros Hnd.
  assert (H : forall m : gomap, NoDup (okeys o) ->
    fold_left (fun (m : gomap) kv => <[kv.1 := kv.2]> m) o m !! k = (match oget o k with Some v => Some v | None => m !! k end)).
  { clear Hnd. induction o as [|[k0 v0] o IH]; intros m Hnd; simpl; [done|].
    apply NoDup_cons in Hnd as [Hk0 Hnd]. rewrite IH by done. case_decide as Hk; subst.
    - assert (oget o k0 = None) as -> by (by apply oget_None). apply lookup_insert_eq.
    - by rewrite lookup_insert_ne. }
  unfold to_map. rewrite H by done. by destruct (oget o k).
Qed.

Lemma oget_map_to_list (m : gomap) k : oget (map_to_list m) k = m !! k.
Proof.
  destruct (m !! k) as [v|] eqn:Hk.
  - apply elem_of_map_to_list in Hk. pose proof (NoDup_fst_map_to_list m) as Hnd.
    induction (map_to_list m) as [|[k0 v0] l IH]; [by apply not_elem_of_nil in Hk|]. simpl in *.
    apply NoDup_cons in Hnd as [Hk0 Hnd]. apply elem_of_cons in Hk as [[= <- <-]|Hk]; [by rewrite decide_True|].
    rewrite decide_False; [by apply IH|]. intros ->. destruct Hk0. by apply (list_elem_of_fmap_2 fst) in Hk.
  - apply oget_None. intros Hin. unfold okeys in Hin. apply list_elem_of_fmap in Hin as ([k' v] & -> & Hin).
    apply elem_of_map_to_list in Hin. simpl in *. congruence.
Qed.

(** What is marshalled reads back. *)
Lemma to_map_map_to_list (m : gomap) : to_map (map_to_list m) = m.
Proof.
  apply map_eq. intros k. rewrite lookup_to_map by apply NoDup_fst_map_to_list. apply oget_map_to_list.
Qed.
Lemma target_roundtrip t : target_of (target_json t) = t.
Proof. destruct t. unfold target_of, omember. simpl. by rewrite to_map_map_to_list. Qed.
Lemma data_roundtrip r : RData (request_of (request_json r)) = RData r.
Proof. unfold request_of, omember. simpl. by rewrite to_map_map_to_list. Qed.
Lemma channels_roundtrip chs : lmember (JObj [("channels", jstrs chs)]) "channels" = chs.
Proof. unfold lmember. simpl. induction chs as [|ch chs IH]; simpl; [done|]. by rewrite IH. Qed.

(** * A time of the form is refused *)

Lemma Send_no_time w a tenantID req v :
  Schedule_ req = MkSchedule "scheduled" v -> RFC3339 v = None ->
  exists c err, Send w a tenantID req = refuse (Api c (a_controls a)) err.
Proof.
  intros Hs Hv. unfold Send, scheduleState. destruct a as [c t]. rewrite Hs. simpl.
  case_decide; [by eexists _, _|]. case_decide; [by eexists _, _|].
  destruct (EnsureActive _); [by eexists _, _|]. destruct (check_channels _ _ _ _) as [c' [err|]]; [by eexists _, _|].
  rewrite Hs. simpl. rewrite Hv. by eexists _, _.
Qed.

(** C19: a notification cannot be scheduled from the send page.  The control of the
    time is a [datetime-local], whose text has no zone; the page sends it as it is,
    and the API reads it as RFC 3339, which wants one: whoever sends it and whatever
    the form holds, the answer is 400 and nothing is stored or queued. *)
Theorem scheduled_form_is_refused w a p isPlatform s :
  datetime_local (SendPage.sendAt s) ->
  let '(status, o) := SendAdminNotification w a p (SendPage.payload isPlatform s) in
  status = 400 /\ o_notification o = None /\ o_job o = None /\ o_rows o = [] /\ o_messages o = [].
Proof.
  intros Hv.
  assert (Hs : trim (SendPage.sendAt s) <> "").
  { rewrite trim_empty. destruct Hv as (d & t & -> & _ & _). induction d as [|c d IH]; simpl; [done|].
    by destruct (is_space c). }
  unfold SendAdminNotification. destruct (negb (decodes _ _)); [done|].
  set (b := SendPage.payload isPlatform s). destruct (_ && bool_decide _); [done|].
  assert (Hsched : Schedule_ (request_of b) = MkSchedule "scheduled" (SendPage.sendAt s)).
  { unfold request_of, b, SendPage.payload. by rewrite (proj2 (truthy_true _) Hs). }
  set (tenantID := if is_platform_admin p then member b "tenant_id" else _).
  destruct (Send_no_time w a tenantID _ _ Hsched (RFC3339_local _ Hv)) as (c & err & ->). done.
Qed.

(** * Accepted notifications enter the deliveries *)

Definition queued (j : Job) : message := (channelQueue (Channel j), Some j).
Definition inserted (to : json) (j : Job) : string * delivery := (DeliveryID j, new_delivery j to).

(** The jobs a notification makes. *)
Definition makes (w : surroundings) (tenantID nid : string) (payload : gomap) (i : nat) (chs : list string)
    (jobs : list Job) : Prop :=
  map Channel jobs = chs
  /\ map DeliveryID jobs = map (delivery_id w) (List.seq i (length chs))
  /\ Forall (fun j => TenantID j = tenantID /\ NotificationID j = nid /\ Payload j = payload /\ Attempt j = 0) jobs.

Lemma deliver_spec w tenantID nid payload target i chs t t' rows ms :
  deliver w tenantID nid payload target i chs t = (t', rows, ms, true) ->
  exists jobs, makes w tenantID nid payload i chs jobs /\ ms = map queued jobs /\ rows = map (inserted target) jobs.
Proof.
  revert i t t' rows ms. induction chs as [|ch chs IH]; intros i t t' rows ms; simpl.
  - intros [= <- <- <-]. exists []. repeat split. constructor.
  - destruct (negb (stmt w (S i))); [done|]. destruct (EnsureControl _ _ _ _ _) as [[t1 name]|]; [|done].
    destruct (negb (pub w i)); [done|].
    destruct (deliver w tenantID nid payload target (S i) chs t1) as [[[t2 rows2] ms2] ok] eqn:Hd.
    intros [= <- <- <- ->]. destruct (IH _ _ _ _ _ Hd) as (jobs & (Hc & Hid & Hall) & -> & ->).
    exists (MkJob nid (delivery_id w i) tenantID ch name payload 0 :: jobs).
    split; [|by split]. split; [simpl; by rewrite Hc|]. split; [simpl; by rewrite Hid|]. by constructor.
Qed.

(** The recipient stored with a row changes nothing else. *)
Definition recipient_is (to : json) (row : string * delivery) : string * delivery := (row.1, row.2 <| recipient_json := to |>).

Lemma deliver_target w tenantID nid payload target target' i chs t :
  let '(t1, rows1, ms1, ok1) := deliver w tenantID nid payload target i chs t in
  let '(t2, rows2, ms2, ok2) := deliver w tenantID nid payload target' i chs t in
  t1 = t2 /\ ms1 = ms2 /\ ok1 = ok2 /\ rows1 = map (recipient_is target) rows2.
Proof.
  revert i t. induction chs as [|ch chs IH]; intros i t; simpl; [done|].
  destruct (negb (stmt w (S i))); [done|]. destruct (EnsureControl _ _ _ _ _) as [[t1 name]|]; [|done].
  destruct (negb (pub w i)); [done|]. specialize (IH (S i) t1).
  destruct (deliver w tenantID nid payload target (S i) chs t1) as [[[? ?] ?] ?].
  destruct (deliver w tenantID nid payload target' (S i) chs t1) as [[[? ?] ?] ?].
  destruct IH as (-> & -> & -> & ->). done.
Qed.

(** An accepted instant request, step by step. *)
Lemma Send_instant w a tenantID req id :
  to_lower (s_type (Schedule_ req)) <> "scheduled" -> o_answer (Send w a tenantID req) = inr id ->
  exists t rows ms,
    deliver w tenantID (notification_id w) (jobPayload (RData req) (t_recipient (Target_ req)))
      (target_json (Target_ req)) 0 (Channels req) (a_controls a) = (t, rows, ms, true)
    /\ o_rows (Send w a tenantID req) = rows /\ o_messages (Send w a tenantID req) = ms
    /\ a_controls (o_api (Send w a tenantID req)) = t /\ stmt w (S (length (Channels req))) = true.
Proof.
  intros Hs. unfold Send, scheduleState. case_decide; [done|]. case_decide; [done|].
  set (req' := if decide _ then _ else req).
  assert (Hreq : to_lower (s_type (Schedule_ req')) <> "scheduled" /\ RData req' = RData req
    /\ Target_ req' = Target_ req /\ Channels req' = Channels req) by (subst req'; by case_decide).
  destruct Hreq as (Ht & Hd & Htg & Hch). destruct (EnsureActive _); [done|].
  destruct (check_channels _ _ _ _) as [c [err|]]; [done|]. rewrite decide_False by done.
  rewrite Hd, Htg, Hch. cbv beta zeta iota. destruct (negb (stmt w 0 && _)); [done|]. simpl a_controls.
  destruct (deliver _ _ _ _ _ _ _ _) as [[[t rows] ms] ok]. destruct ok; [|done]. cbn [negb].
  destruct (stmt w _); [|done]. intros _. by exists t, rows, ms.
Qed.

(** Rows and jobs come in as accepted deliveries. *)
Definition deposit (s : state) (to : json) (jobs : list Job) : state :=
  fold_left (fun s j => accept s (new_delivery j to) j) jobs s.

Lemma deposit_reached M (allowed : Delivery.event -> Prop) s to jobs :
  (forall j, allowed (Accepted j to)) -> reached M allowed s -> NoDup (map DeliveryID jobs) ->
  Forall (fun j => Attempt j = 0 /\ deliveries s !! DeliveryID j = None) jobs -> reached M allowed (deposit s to jobs).
Proof.
  intros Hok. revert s. induction jobs as [|j jobs IH]; intros s Hs Hnd Hall; simpl; [done|].
  apply NoDup_cons in Hnd as [Hj Hnd]. apply List.Forall_cons_iff in Hall as [[Ha Hf] Hall].
  apply IH; [|done|].
  - eapply reached_step; [done|apply (Hok j)|]. by apply step_accepted.
  - apply Forall_forall. intros j' Hj'. rewrite Forall_forall in Hall. destruct (Hall j' Hj') as [? ?].
    split; [done|]. simpl. rewrite lookup_insert_ne; [done|]. intros E. apply Hj. rewrite E.
    by apply (list_elem_of_fmap_2 DeliveryID).
Qed.

Lemma deposit_bag s to jobs : bag (deposit s to jobs) = bag s ++ map queued jobs.
Proof.
  revert s. induction jobs as [|j jobs IH]; intros s; simpl; [by rewrite app_nil_r|].
  rewrite IH. simpl. by rewrite <- app_assoc.
Qed.

(** * From the form to the workers *)

(** The recipient the page sends, by the kind of the target. *)
Definition recipient_of (s : SendPage.state) : obj string :=
  match mode s with
  | contact =>
      let c := find (fun x => bool_decide (c_id x = contactId s)) (contacts s) in
      [("email", from_option c_email "" c); ("phone", from_option c_phone "" c)]
  | group => []
  | direct_email => [("email", recipientValue s)]
  | direct_phone => [("phone", recipientValue s)]
  | fcm_token => [("fcm_token", recipientValue s)]
  | fcm_topic => [("fcm_topic", recipientValue s)]
  | websocket_user | in_app_user => [("external_user_id", recipientValue s)]
  end.

(** Where the worker of a channel sends it: to the member of the recipient it looks
    for, else to a variable of the template that has its name, else nowhere. *)
Definition address (s : SendPage.state) (ch : string) : string :=
  match oget [("email", "email"); ("sms", "phone"); ("fcm", "fcm_token")] ch with
  | None => "mock-recipient"
  | Some k =>
      match oget (recipient_of s) k with
      | Some v => v
      | None => default "mock-recipient" (oget (templateValues s) k)
      end
  end.

Lemma oget_strings (o : obj string) k : oget (map (fun kv => (kv.1, JStr kv.2)) o) k = JStr <$> oget o k.
Proof. induction o as [|[k0 v0] o IH]; simpl; [done|]. by case_decide. Qed.
Lemma okeys_strings (o : obj string) : okeys (map (fun kv => (kv.1, JStr kv.2)) o) = okeys o.
Proof. unfold okeys. rewrite map_map. done. Qed.

Lemma recipient_sent s :
  omember (buildTarget s) "recipient" = to_map (map (fun kv => (kv.1, JStr kv.2)) (recipient_of s)).
Proof. unfold buildTarget, recipient_of. by destruct (mode s). Qed.

Lemma recipient_keys s : NoDup (okeys (recipient_of s)).
Proof. unfold recipient_of. destruct (mode s); simpl; by repeat constructor; set_solver. Qed.

(** What the worker reads of the payload is the address. *)
Lemma recipientFor_address s ch :
  NoDup (okeys (templateValues s)) ->
  recipientFor ch (jobPayload (to_map (data_of s)) (omember (buildTarget s) "recipient")) = address s ch.
Proof.
  intros Hnd. unfold recipientFor, address.
  destruct (oget _ ch) as [k|] eqn:Hk; [|done]. simpl.
  assert (Hne : k <> "channel_options").
  { simpl in Hk. repeat (case_decide; simplify_eq; try done). }
  unfold jobPayload. rewrite lookup_union, recipient_sent.
  rewrite lookup_to_map by (rewrite okeys_strings; apply recipient_keys).
  rewrite lookup_to_map by (apply NoDup_oset; rewrite okeys_strings; done).
  unfold data_of. rewrite oget_oset_ne, !oget_strings by done.
  destruct (oget (recipient_of s) k); simpl; [by destruct (oget (templateValues s) k)|].
  by destruct (oget (templateValues s) k).
Qed.

Lemma strings_read xs : map (fun v => match v with JStr s => s | _ => "" end) (map JStr xs) = xs.
Proof. induction xs as [|x xs IH]; simpl; [done|]. by rewrite IH. Qed.

(** The identifier of the target the form shows. *)
Definition target_id (s : SendPage.state) : string :=
  match mode s with contact => contactId s | group => groupId s | _ => "" end.

(** The API decodes what the page sends when its priority is an integer. *)
Lemma payload_decodes isPlatform s :
  decodes SendAdminNotification_req (payload isPlatform s) = decodes TInt (JNum (priority s)).
Proof.
  assert (Hch : decodes (TSlice TString) (jstrs (selectedChannels s)) = true) by by apply decodes_slice.
  assert (Ht : decodes (TStruct [("type", TString); ("recipient", TMap); ("id", TString)]) (buildTarget s) = true)
    by (unfold buildTarget; by destruct (mode s)).
  assert (E : decodes SendAdminNotification_req (payload isPlatform s)
    = decodes (TSlice TString) (jstrs (selectedChannels s))
      && (decodes (TStruct [("type", TString); ("recipient", TMap); ("id", TString)]) (buildTarget s)
          && (decodes TInt (JNum (priority s)) && true))).
  { unfold payload. by destruct (truthy (trim (sendAt s))), isPlatform. }
  by rewrite E, Hch, Ht, andb_true_r.
Qed.

Lemma priority_read b z :
  jfield b "priority" = Some (JNum (int z)) -> 0 <= z <= 2 ^ 53 -> default 0 (QueueRow.pint b "priority") = z.
Proof.
  intros Hb Hz. unfold QueueRow.pint. rewrite Hb. destruct (decide (z = 0)) as [->|Hne]; [done|].
  rewrite Json.num_text_pos by lia. by rewrite DataTable.atoi_pretty by lia.
Qed.

Lemma int_decodes z : 0 <= z <= 2 ^ 53 -> decodes TInt (JNum (int z)) = true.
Proof.
  intros Hz. destruct (decide (z = 0)) as [->|Hne]; [done|]. unfold int. cbn [decodes]. fold (int z).
  rewrite Json.num_text_pos by lia. by rewrite DataTable.atoi_pretty by lia.
Qed.

(** A valid form posts its payload. *)
Lemma submit_posts isPlatform s : form_valid isPlatform s ->
  (Ui.sync SendPage.http (submit isPlatform s) s).1.2
  = [OReq (POST "/admin/api/v1/notifications/send" (payload isPlatform s))].
Proof.
  intros Hv%validateForm_nil. unfold submit. cbn [Ui.sync]. by rewrite bool_decide_eq_true_2.
Qed.

(** C26: what is posted says what the form shows.  When the page is at rest, however it
    came there, and its form is valid, a click on the button posts one body; what the
    API reads of it, when the priority is an integer, has the event, the channels in
    their order, the template and the priority of the form, the kind, the identifier
    and the addresses of its target, the time typed exactly when one was, and the tenant
    exactly for a platform user; its data are, for each variable of the template, the
    value typed, never blank, and nothing else but the options of the channels; and the
    template rendered with these data is the preview on screen. *)
Theorem payload_says_what_is_shown isPlatform myTenantId canSend c z :
  let s := Ui.c_state c in
  Ui.reachable SendPage.http (SendPage.effects isPlatform myTenantId) (SendPage.handle isPlatform)
    (SendPage.view isPlatform myTenantId canSend) (SendPage.initial isPlatform myTenantId) c ->
  Ui.c_dirty c = false -> form_valid isPlatform s -> priority s = int z -> 0 <= z <= 2 ^ 53 ->
  exists b, (Ui.sync SendPage.http (submit isPlatform s) s).1.2 = [OReq (POST "/admin/api/v1/notifications/send" b)]
    /\ decodes SendAdminNotification_req b = true
    /\ let req := request_of b in
       Event req = event_ s /\ Channels req = selectedChannels s /\ Template_ req = templateKey s /\ Priority req = z
       /\ t_type (Target_ req) = mode_value (mode s) /\ t_id (Target_ req) = target_id s
       /\ (forall k, t_recipient (Target_ req) !! k = JStr <$> oget (recipient_of s) k)
       /\ Schedule_ req = (if blank (sendAt s) then MkSchedule "" "" else MkSchedule "scheduled" (sendAt s))
       /\ member b "tenant_id" = (if isPlatform then tenantId s else "")
       /\ RData req !! "channel_options" = Some (JObj (activeChannelOptions s))
       /\ (forall k, k <> "channel_options" ->
            (k ∉ variables s -> RData req !! k = None)
            /\ (k ∈ variables s -> exists v, RData req !! k = Some (JStr v)
                  /\ oget (templateValues s) k = Some v /\ blank v = false))
       /\ forall vals : obj string, (forall k, k ∈ variables s -> RData req !! k = Some (JStr (oget_str vals k))) ->
            renderTemplate (subject_of (selectedTemplate s)) vals = renderedSubject s
            /\ renderTemplate (body_of (selectedTemplate s)) vals = renderedBody s.
Proof.
  intros s Hc Hclean Hv Hz Hrange. apply page_invariant in Hc as (HR & _ & _ & Hd).
  rewrite (Hd Hclean) in HR. destruct HR as (_ & _ & _ & _ & _ & _ & Hkeys). fold s in Hkeys.
  assert (Hnd : NoDup (okeys (templateValues s))) by (rewrite Hkeys; apply NoDup_unique).
  exists (payload isPlatform s). split; [by apply submit_posts|]. split.
  { rewrite payload_decodes, Hz. by apply int_decodes. }
  assert (Hdata : forall k, omember (payload isPlatform s) "data" !! k
    = if decide (k = "channel_options") then Some (JObj (activeChannelOptions s)) else JStr <$> oget (templateValues s) k).
  { intros k. change (omember (payload isPlatform s) "data") with (to_map (data_of s)).
    rewrite lookup_to_map by (apply NoDup_oset; by rewrite okeys_strings). unfold data_of. rewrite oget_oset.
    destruct (decide (k = "channel_options")) as [->|Hk]; [done|apply oget_strings]. }
  cbv zeta. cbn [request_of Event Channels Template_ Priority Target_ Schedule_ RData].
  split_and!.
  - done.
  - apply strings_read.
  - done.
  - by apply priority_read; [rewrite <- Hz|].
  - unfold payload, sub, target_of. simpl. unfold buildTarget. by destruct (mode s).
  - unfold payload, sub, target_of. simpl. unfold buildTarget, target_id. by destruct (mode s).
  - intros k. change (t_recipient (target_of (sub (payload isPlatform s) "target"))) with (omember (buildTarget s) "recipient").
    rewrite recipient_sent, lookup_to_map by (rewrite okeys_strings; apply recipient_keys). apply oget_strings.
  - unfold payload. destruct (truthy (trim (sendAt s))) eqn:Ht.
    + apply truthy_true in Ht. rewrite trim_empty in Ht. by apply not_true_is_false in Ht as ->.
    + apply truthy_false, trim_empty in Ht as ->. by destruct isPlatform.
  - unfold payload. by destruct (truthy (trim (sendAt s))), isPlatform.
  - by rewrite Hdata, decide_True.
  - intros k Hk. rewrite Hdata, decide_False, <- Hkeys by done. split.
    + intros Hn. apply oget_None in Hn. by rewrite Hn.
    + intros Hin. destruct (oget (templateValues s) k) as [v|] eqn:Hg; [|by apply oget_None in Hg].
      exists v. split; [done|]. split; [done|]. destruct Hv as (_ & _ & _ & _ & _ & Hvars & _).
      specialize (Hvars k). unfold oget_str in Hvars. rewrite Hg in Hvars. apply Hvars. by rewrite <- Hkeys.
  - intros vals Hvals.
    assert (E : forall k, k ∈ variables s -> oget_str vals k = oget_str (templateValues s) k).
    { intros k Hk. specialize (Hvals k Hk). rewrite Hdata in Hvals. case_decide; [done|].
      unfold oget_str at 2. destruct (oget (templateValues s) k); [|done]. simpl in Hvals. simpl. congruence. }
    split; apply render_ext; intros k Hk; apply E, names_in_form; tauto.
Qed.

(** C18: what a form sends reaches the workers.  When the API accepts a form without a
    time, there is one row and one job for each channel selected, in the order of the
    selection, each in the queue of its channel and untried; the worker of a channel
    hands its provider the address of the form: that of the contact or the value
    typed, for the channel that reads it, else the variable of the template with the
    name the worker looks for, else "mock-recipient".  The deliveries enter the
    platform of Delivery.v as accepted ones. *)
Theorem form_reaches_workers w a p isPlatform s id :
  blank (sendAt s) = true -> NoDup (okeys (templateValues s)) ->
  let o := (SendAdminNotification w a p (payload isPlatform s)).2 in
  o_answer o = inr id ->
  exists jobs,
    map Channel jobs = selectedChannels s
    /\ o_messages o = map queued jobs /\ o_rows o = map (inserted (target_json (target_of (buildTarget s)))) jobs
    /\ Forall (fun j => Attempt j = 0 /\ recipientFor (Channel j) (Payload j) = address s (Channel j)) jobs
    /\ (forall M (allowed : Delivery.event -> Prop) st to, (forall j, allowed (Accepted j to)) ->
        reached M allowed st -> NoDup (map DeliveryID jobs) ->
        Forall (fun j => deliveries st !! DeliveryID j = None) jobs -> reached M allowed (deposit st to jobs)).
Proof.
  intros Hb Hnd. unfold SendAdminNotification. destruct (negb (decodes _ _)); [done|].
  destruct (_ && bool_decide _); [done|]. cbn [snd]. intros Ho.
  assert (Hno : truthy (trim (sendAt s)) = false) by (by apply truthy_false, trim_empty).
  apply Send_instant in Ho as (t & rows & ms & Hd & -> & -> & _ & _).
  2: { unfold request_of, payload. rewrite Hno. by destruct isPlatform. }
  apply deliver_spec in Hd as (jobs & (Hc & _ & Hall) & -> & ->). exists jobs.
  assert (Htarget : Target_ (request_of (payload isPlatform s)) = target_of (buildTarget s)) by done.
  assert (Hdata : RData (request_of (payload isPlatform s)) = to_map (data_of s)) by done.
  rewrite Htarget, Hdata in *.
  split. { rewrite Hc. apply strings_read. }
  split; [done|]. split; [done|]. split.
  - eapply List.Forall_impl; [|exact Hall]. simpl. intros j (_ & _ & -> & Ha). split; [done|].
    by apply recipientFor_address.
  - intros M allowed st to Hok Hst Hids Hfresh. apply deposit_reached; [done..|].
    apply Forall_forall. intros j Hj. rewrite Forall_forall in Hall, Hfresh. split; [by apply Hall|by apply Hfresh].
Qed.

(** * Scheduled notifications *)

Lemma Send_scheduled w a tenantID req v id :
  Schedule_ req = MkSchedule "scheduled" v -> o_answer (Send w a tenantID req) = inr id ->
  exists t n j, RFC3339 v = Some t
    /\ o_notification (Send w a tenantID req) = Some n /\ o_job (Send w a tenantID req) = Some j
    /\ o_messages (Send w a tenantID req) = [] /\ o_rows (Send w a tenantID req) = []
    /\ j_tenant j = tenantID /\ j_notification j = notification_id w /\ j_due j = t /\ j_status j = "pending"
    /\ n_data n = request_json req /\ n_target n = target_json (Target_ req) /\ n_channels n = jstrs (Channels req).
Proof.
  intros Hs. unfold Send, scheduleState. rewrite Hs. simpl s_type. rewrite (decide_False (P := "scheduled" = "")) by done.
  case_decide; [done|]. case_decide; [done|]. rewrite Hs. simpl s_send_at. simpl s_type.
  destruct (EnsureActive _); [done|]. destruct (check_channels _ _ _ _) as [c [err|]]; [done|].
  rewrite decide_True by done. destruct (RFC3339 v) as [t|]; [|done]. simpl mbind.
  destruct (negb (stmt w 0 && _)); [done|]. destruct (negb (stmt w 1)); [done|]. destruct (negb (stmt w 2)); [done|].
  intros _. eexists t, _, _. repeat split.
Qed.

(** C37: a scheduled notification is an instant one sent later, but for the recipient of
    its rows.  When the API has accepted a request with a time, it has stored it and
    queued nothing; and what the pass over the due jobs makes of the stored request,
    when each answer of the surroundings is one with which the same request without a
    time is accepted, is what that request would have made: the same jobs, in the same
    queues, and the same rows of deliveries, except that their recipient is left
    empty; and the job is marked queued. *)
Theorem scheduled_is_instant_later w w' a a' tenantID req v id id' :
  Schedule_ req = MkSchedule "scheduled" v ->
  o_answer (Send w a tenantID req) = inr id ->
  notification_id w' = notification_id w ->
  let instant := Send w' a' tenantID (req <| Schedule_ := MkSchedule "instant" "" |>) in
  o_answer instant = inr id' ->
  exists n j,
    o_notification (Send w a tenantID req) = Some n /\ o_job (Send w a tenantID req) = Some j
    /\ o_messages (Send w a tenantID req) = [] /\ o_rows (Send w a tenantID req) = []
    /\ RFC3339 v = Some (j_due j)
    /\ let '(a2, rows, ms, marked) := route_job w' a' j n in
       ms = o_messages instant /\ rows = map (recipient_is (JObj [])) (o_rows instant)
       /\ a_controls a2 = a_controls (o_api instant) /\ marked = true.
Proof.
  intros Hs Ho Hid instant Hi.
  destruct (Send_scheduled w a tenantID req v id Hs Ho)
    as (t & n & j & Ht & Hn & Hj & Hms & Hrs & Hjt & Hjn & Hdue & _ & Hnd & Hnt & Hnc).
  apply Send_instant in Hi as (t' & rows & ms & Hd & Hr & Hm & Hc & Hcommit); [|done].
  exists n, j. rewrite Hdue. do 5 (split; [done|]).
  unfold route_job. rewrite Hnd, Hnt, Hnc, Hjt, Hjn, data_roundtrip, target_roundtrip, channels_roundtrip.
  rewrite Hid in Hd. simpl in Hd, Hcommit.
  pose proof (deliver_target w' tenantID (notification_id w) (jobPayload (RData req) (t_recipient (Target_ req)))
    (JObj []) (target_json (Target_ req)) 0 (Channels req) (a_controls a')) as H.
  destruct (deliver w' tenantID _ _ (JObj []) _ _ _) as [[[t2 rows2] ms2] ok2].
  unfold instant in *. rewrite Hd in H. destruct H as (-> & -> & -> & ->). rewrite Hm, Hc, Hr. by rewrite Hcommit.
Qed.

(** * Quotas *)

#[local] Ltac played_by E := cbn [fold_left Allow_step fst snd negb]; rewrite ?E; cbn [fst snd negb].

(** A call that nothing interrupts is its commands, one after the other. *)
Lemma Allow_is_its_steps r now x c :
  exists answers, fold_left (fun s answered => Allow_step answered now x s.1 s.2) answers (RateIncr, c)
    = (Answered (Allow r now x c).2, (Allow r now x c).1).
Proof.
  unfold Allow. destruct (bool_decide _) eqn:E; [by exists [true]; played_by E|].
  unfold AllowKey. destruct (r_incr r) eqn:Ei; cbn [negb]; [|by exists [false]; played_by E].
  destruct (INCR now (q_rate x) c) as [c1 n] eqn:E1. destruct (n =? 1) eqn:En.
  - destruct (r_expire r) eqn:Ee; cbn [negb]; [|by exists [true; false]; played_by E; rewrite E1, En].
    assert (n = 1) as -> by lia. destruct (1 <=? (q_limits x).1) eqn:El;
      [|by exists [true; true]; played_by E; rewrite E1; cbn [Z.eqb Pos.eqb fst snd negb Allow_step]; unfold judged; rewrite El].
    destruct (INCR now (q_daily x) _) as [c2 m] eqn:E2.
    exists (if m =? 1 then [true; true; true; true] else [true; true; true]).
    destruct (m =? 1) eqn:Em; played_by E; rewrite E1; cbn [Z.eqb Pos.eqb fst snd negb Allow_step]; unfold judged; rewrite El;
      cbn [fst snd negb Allow_step]; rewrite E2, Em; cbn [fst snd negb Allow_step]; unfold judged.
    + assert (m = 1) as -> by lia. by destruct (1 <=? (q_limits x).2).
    + by destruct (m <=? (q_limits x).2).
  - destruct (n <=? (q_limits x).1) eqn:El; [|by exists [true]; played_by E; rewrite E1, En; unfold judged; rewrite El].
    destruct (INCR now (q_daily x) c1) as [c2 m] eqn:E2.
    exists (if m =? 1 then [true; true; r_expire r] else [true; true]).
    destruct (m =? 1) eqn:Em; played_by E; rewrite E1, En; unfold judged; rewrite El; cbn [fst snd negb Allow_step];
      rewrite E2, Em; cbn [fst snd negb Allow_step]; unfold judged.
    + assert (m = 1) as -> by lia. destruct (r_expire r); cbn [negb]; [|done]. by destruct (1 <=? (q_limits x).2).
    + by destruct (m <=? (q_limits x).2).
Qed.

(** The last character of a key tells the two kinds apart. *)
Fixpoint last_char (s : string) : option ascii :=
  match s with
  | EmptyString => None
  | String c s => match last_char s with Some x => Some x | None => Some c end
  end.
Lemma last_char_app a b : last_char (a +:+ b) = match last_char b with Some x => Some x | None => last_char a end.
Proof.
  induction a as [|c a IH]; [change ("" +:+ b) with b; simpl; destruct (last_char b); done|]. rewrite app_cons_str. simpl. rewrite IH.
  destruct (last_char b), (last_char a); done.
Qed.
Lemma last_char_all f s c : all_chars f s = true -> last_char s = Some c -> f c = true.
Proof.
  induction s as [|x s IH]; [done|]. simpl. intros [Hx Hs]%andb_prop. destruct (last_char s) as [y|].
  - intros [= ->]. by apply IH.
  - by intros [= <-].
Qed.

Definition date_char (c : ascii) : bool := is_digit c || bool_decide (c = "-"%char).
(** A day as the calls write it: digits and dashes. *)
Definition a_day (day : string) : Prop := day <> "" /\ all_chars date_char day = true.

Lemma rate_is_not_daily t tenantID channel day : a_day day -> rate_key t <> daily_key tenantID channel day.
Proof.
  intros [Hne Hall] E. apply (f_equal last_char) in E. unfold rate_key, daily_key in E.
  rewrite !last_char_app in E. cbn [last_char] in E.
  destruct (last_char day) as [c|] eqn:El.
  - assert (Hc : date_char c = true) by (by eapply last_char_all). injection E as <-. vm_compute in Hc. done.
  - destruct day as [|c day]; [done|]. simpl in El. by destruct (last_char day).
Qed.

Section Quota.
(** A key, and a time span of a day in which its count is not forgotten. *)
Variables (tenantID channel day : string) (t0 quota : Z).
Hypothesis Hday : a_day day.
Hypothesis Hquota : 0 <= quota.
Notation key := (daily_key tenantID channel day).
Notation during now := (t0 <= now < t0 + daily_window).

Definition count_of (c : counters) : Z := from_option c_count 0 (c !! key).
Definition outlives (c : counters) : Prop :=
  forall x, c !! key = Some x -> 0 <= c_count x /\ forall e, c_expires x = Some e -> t0 + daily_window <= e.

Lemma outlives_live c now : outlives c -> during now -> default (Counter 0 None) (live now key c) = default (Counter 0 None) (c !! key).
Proof.
  intros Ho Hn. unfold live. destruct (c !! key) as [x|] eqn:Hx; [|done]. simpl.
  destruct (c_expires x) as [e|] eqn:He; [|done]. destruct (Ho x Hx) as [_ H]. specialize (H e He).
  by replace (e <=? now) with false by lia.
Qed.

Lemma count_nonneg c : outlives c -> 0 <= count_of c.
Proof. intros Ho. unfold count_of. destruct (c !! key) as [x|] eqn:Hx; simpl; [by apply Ho|lia]. Qed.

(** A count of any key. *)
Lemma INCR_keeps now k c :
  outlives c -> during now -> outlives (INCR now k c).1 /\ count_of c <= count_of (INCR now k c).1.
Proof.
  intros Ho Hn. pose proof (count_nonneg c Ho) as H0. unfold INCR, outlives, count_of in *. simpl.
  destruct (decide (k = key)) as [->|Hne].
  - rewrite outlives_live by done. rewrite lookup_insert_eq. destruct (c !! key) as [x|] eqn:Hx; simpl.
    + split; [|lia]. intros y [= <-]. destruct (Ho x eq_refl). simpl. split; [lia|done].
    + split; [|lia]. intros y [= <-]. simpl. split; [lia|done].
  - rewrite lookup_insert_ne by done. split; [done|lia].
Qed.
Lemma INCR_key now c : outlives c -> during now ->
  (INCR now key c).2 = count_of c + 1 /\ count_of (INCR now key c).1 = count_of c + 1.
Proof.
  intros Ho Hn. unfold INCR, count_of. simpl. rewrite outlives_live, lookup_insert_eq by done. by destruct (c !! key).
Qed.
Lemma EXPIRE_keeps now k window c :
  outlives c -> during now -> (k = key -> window = daily_window) ->
  outlives (EXPIRE now k window c) /\ count_of (EXPIRE now k window c) = count_of c.
Proof.
  intros Ho Hn Hw. unfold EXPIRE. destruct (live now k c) as [x|] eqn:Hx; [|done]. unfold outlives, count_of.
  destruct (decide (k = key)) as [->|Hne]; [|by rewrite lookup_insert_ne].
  assert (Hc : c !! key = Some x).
  { unfold live in Hx. destruct (c !! key) as [y|]; [|done]. simpl in Hx. destruct (c_expires y); [case_match|]; congruence. }
  rewrite lookup_insert_eq, Hc. split; [|done]. intros y [= <-]. destruct (Ho x Hc). simpl. split; [done|].
  intros e [= <-]. rewrite Hw by done. lia.
Qed.

Definition of_key (x : allow_call) : bool :=
  bool_decide (q_tenant x = tenantID /\ q_channel x = channel /\ q_day x = day).
(** A grant of the key, or one that only its expiry is missing to. *)
Definition grants (xs : allow_call * allow_stage) : Z :=
  if of_key xs.1 then
    match xs.2 with
    | Answered (Some true) => 1
    | DailyExpire => if 1 <=? (q_limits xs.1).2 then 1 else 0
    | _ => 0
    end
  else 0.
Definition total (l : list (allow_call * allow_stage)) : Z := fold_right (fun xs n => grants xs + n) 0 l.

Lemma total_insert l i xs ys : l !! i = Some xs -> total (<[i := ys]> l) = total l - grants xs + grants ys.
Proof.
  revert i. induction l as [|zs l IH]; intros [|i] Hi; simpl in *; try done; [injection Hi as ->; lia|].
  rewrite (IH i Hi). lia.
Qed.

Definition within (s : allow_state) : Prop :=
  outlives s.2 /\ total s.1 <= count_of s.2 /\ total s.1 <= quota
  /\ Forall (fun xs => of_key xs.1 = true -> (q_limits xs.1).2 <= quota) s.1.

(** One command of a call: what it counts for grows by no more than the count. *)
Lemma Allow_step_grants answered now x st c :
  outlives c -> during now -> (of_key x = true -> (q_limits x).2 <= quota) ->
  let '(st', c') := Allow_step answered now x st c in
  outlives c' /\ count_of c <= count_of c'
  /\ (grants (x, st') <= grants (x, st)
      \/ grants (x, st) = 0 /\ grants (x, st') = 1 /\ count_of c' = count_of c + 1 /\ count_of c' <= quota).
Proof.
  intros Ho Hn Hq. destruct st as [| | | |ok]; cbn [Allow_step].
  - destruct (bool_decide (q_tenant x = "" \/ q_channel x = "")); [split; [done|]; split; [lia|]; left; unfold grants; simpl; by destruct (of_key x)|].
    destruct answered; cbn [negb]; [|split; [done|]; split; [lia|]; left; unfold grants; simpl; by destruct (of_key x)].
    pose proof (INCR_keeps now (q_rate x) c Ho Hn) as [H1 H2]. destruct (INCR _ _ _) as [c' n]. simpl in *.
    split; [done|]. split; [done|]. left. unfold grants, judged. simpl.
    destruct (of_key x), (n =? 1), (n <=? (q_limits x).1); lia.
  - destruct answered; cbn [negb]; [|split; [done|]; split; [lia|]; left; unfold grants; simpl; by destruct (of_key x)].
    destruct (EXPIRE_keeps now (q_rate x) rate_window c Ho Hn) as [H1 H2].
    { intros E. exfalso. exact (rate_is_not_daily (q_tenant x) tenantID channel day Hday E). }
    split; [done|]. split; [lia|]. left. unfold grants, judged. simpl. destruct (of_key x), (1 <=? (q_limits x).1); lia.
  - destruct answered; cbn [negb]; [|split; [done|]; split; [lia|]; left; unfold grants; simpl; by destruct (of_key x)].
    destruct (of_key x) eqn:Hx.
    + assert (q_daily x = key) as -> by (apply bool_decide_eq_true in Hx as (E1 & E2 & E3); unfold q_daily; by rewrite E1, E2, E3).
      pose proof (INCR_keeps now key c Ho Hn) as [H1 H2]. pose proof (INCR_key now c Ho Hn) as [H3 H4].
      destruct (INCR _ _ _) as [c' n]. simpl in *. split; [done|]. split; [done|]. specialize (Hq eq_refl).
      unfold grants, judged. cbn [fst snd]. rewrite Hx. destruct (n =? 1) eqn:En.
      * destruct (1 <=? (q_limits x).2) eqn:El; [right; lia|left; lia].
      * destruct (n <=? (q_limits x).2) eqn:El; [right; lia|left; lia].
    + pose proof (INCR_keeps now (q_daily x) c Ho Hn) as [H1 H2]. destruct (INCR _ _ _) as [c' n]. simpl in *.
      split; [done|]. split; [done|]. left. unfold grants. simpl. rewrite Hx. lia.
  - destruct answered; cbn [negb]; [|split; [done|]; split; [lia|]; left; unfold grants; simpl; destruct (of_key x), (1 <=? (q_limits x).2); lia].
    destruct (EXPIRE_keeps now (q_daily x) daily_window c Ho Hn) as [H1 H2]; [done|].
    split; [done|]. split; [lia|]. left. unfold grants, judged. simpl. destruct (of_key x), (1 <=? (q_limits x).2); lia.
  - split; [done|]. split; [lia|]. by left.
Qed.

Lemma allow_on_within u s : during (u_now u) -> within s -> within (allow_on s u).
Proof.
  intros Hn (Ho & Hc & Hq & Hall). unfold allow_on. destruct (s.1 !! u_call u) as [[x st]|] eqn:Hi; [|done].
  assert (Hx : of_key x = true -> (q_limits x).2 <= quota)
    by (rewrite Forall_forall in Hall; apply (Hall (x, st)); by eapply list_elem_of_lookup_2).
  pose proof (Allow_step_grants (u_answered u) (u_now u) x st s.2 Ho Hn Hx) as Hs.
  destruct (Allow_step _ _ _ _ _) as [st' c']. destruct Hs as (Ho' & Hle & Hg). split; [done|]. simpl.
  rewrite (total_insert _ _ _ _ Hi). split; [lia|]. split; [lia|].
  by apply Forall_insert.
Qed.

Lemma allow_all_within us s : Forall (fun u => during (u_now u)) us -> within s -> within (allow_all us s).
Proof.
  intros Hus. revert s. induction Hus as [|u us Hu _ IH]; intros s Hs; [done|]. simpl. by apply IH, allow_on_within.
Qed.
End Quota.

(** The calls of a channel of a tenant that are granted on a day. *)
Definition granted (tenantID channel day : string) (l : list (allow_call * allow_stage)) : Z :=
  Z.of_nat (length (filter_by (fun xs => of_key tenantID channel day xs.1 && bool_decide (xs.2 = Answered (Some true))) l)).

Lemma granted_total tenantID channel day l : granted tenantID channel day l <= total tenantID channel day l.
Proof.
  unfold granted. induction l as [|[x st] l IH]; simpl; [lia|]. unfold grants at 1. simpl.
  destruct (of_key tenantID channel day x); simpl; [|lia].
  case_bool_decide as E; [subst st; simpl; lia|]. destruct st as [| | | |[[|]|]]; simpl; try lia; destruct (1 <=? (q_limits x).2); lia.
Qed.

(** C38: quotas hold.  Calls of any tenants and channels, each cut into its commands to
    Redis, which come in any order with those of the others and may fail, within 24
    hours: of those that count on a day, no more are granted to a channel of a tenant
    than its daily quota, though keys expire in between, as long as the key of the
    day, if there is one at the start, stays until the end. *)
Theorem daily_quota_holds tenantID channel day t0 quota cs c us :
  a_day day -> 0 <= quota -> outlives tenantID channel day t0 c ->
  Forall (fun x => of_key tenantID channel day x = true -> (q_limits x).2 <= quota) cs ->
  Forall (fun u => t0 <= u_now u < t0 + daily_window) us ->
  granted tenantID channel day (allow_all us (map (fun x => (x, RateIncr)) cs, c)).1 <= quota.
Proof.
  intros Hday Hq Ho Hcs Hus. etransitivity; [apply granted_total|].
  apply (allow_all_within tenantID channel day t0 quota Hday Hq us); [done|].
  assert (Hz : total tenantID channel day (map (fun x => (x, RateIncr)) cs) = 0).
  { clear. induction cs as [|x cs IH]; [done|]. simpl. rewrite IH. unfold grants. simpl. by destruct (of_key _ _ _ x). }
  split; [done|]. simpl. rewrite Hz. split; [by apply (count_nonneg tenantID channel day t0)|]. split; [done|].
  by apply Forall_map.
Qed.

(** * Samples *)

Section Samples.
(** Everything is enabled and answers. *)
Definition well (slug : string) : surroundings :=
  Surroundings (Some "active") (Some slug) (fun _ => Some true) (fun _ => Some (true, "two_way", "mock"))
    (fun _ => None) (Redis true true) (fun _ => 0) "2026-05-01" (fun _ => true) (fun _ => true) (fun _ => true)
    "ntf_1" "n1" (fun i => "d" +:+ pretty i).
(** The same, but the publication of the second job fails. *)
Definition unpublished : surroundings :=
  Surroundings (Some "active") (Some "acme") (fun _ => Some true) (fun _ => Some (true, "two_way", "mock"))
    (fun _ => None) (Redis true true) (fun _ => 0) "2026-05-01" (fun _ => true) (fun _ => true) (fun i => Nat.eqb i 0)
    "ntf_1" "n1" (fun i => "d" +:+ pretty i).
Definition nothing_yet : api := Api ∅ ∅.
Definition sample_request (sched : Schedule) : Request :=
  MkRequest "order.confirmed" ["email"; "sms"] "order" (MkTarget "direct_email" {["email" := JStr "ada@x.org"]} "")
    {["name" := JStr "Ada"]} 5 sched "key-1".
Definition at_ten : Schedule := MkSchedule "scheduled" "2026-05-01T10:00:00Z".
End Samples.

(** The jobs of a request are published before its transaction commits: when a later
    one fails, the answer is an error and no row is left, but the first message is in
    its queue, and its worker hands it to the provider, and publishes it to the
    retries, the attempt having no delivery to refer to. *)
Theorem refused_request_is_delivered :
  let req := sample_request (MkSchedule "" "") in
  let o := Send unpublished nothing_yet "t1" req in
  let j := MkJob "n1" "d0" "t1" "email" "tenant.acme.email"
    (jobPayload (RData req) (t_recipient (Target_ req))) 0 in
  let es := (worker (all_well true) None j).1 in
  o_answer o = inl "delivery" /\ o_rows o = [] /\ o_messages o = [queued j]
  /\ (exists m, Hand m true ∈ es /\ To m = "ada@x.org") /\ Publish RetryQueue (next_attempt j) ∈ es.
Proof.
  cbv zeta. split; [by vm_compute|]. split; [by vm_compute|]. split; [by vm_compute|]. split.
  - eexists. split; [right; left|by vm_compute].
  - right. right. right. left.
Qed.

(** The name of a queue does not tell two tenants apart whose slugs differ in
    punctuation, and the names are unique: the second tenant cannot send. *)
Theorem punctuation_blocks_a_tenant :
  let req := sample_request (MkSchedule "" "") in
  let o1 := Send (well "acme.co") nothing_yet "t1" req in
  let o2 := Send (well "acme-co") (o_api o1) "t2" req in
  o_answer o1 = inr "ntf_1" /\ o_answer o2 = inl "delivery".
Proof. vm_compute. done. Qed.

(** The idempotency key is stored and never looked at. *)
Theorem idempotency_key_is_not_looked_at :
  let req := sample_request (MkSchedule "" "") in
  let o1 := Send (well "acme") nothing_yet "t1" req in
  let o2 := Send (well "acme") (o_api o1) "t1" req in
  IdempotencyKey req = "key-1" /\ o_answer o1 = inr "ntf_1" /\ o_answer o2 = inr "ntf_1"
  /\ length (o_messages o1) = 2%nat /\ length (o_messages o2) = 2%nat.
Proof. vm_compute. done. Qed.

(** A pass that fails in the middle of a notification leaves its job pending, and the
    next one starts it again: the first channel is queued twice. *)
Theorem failed_pass_repeats_itself :
  exists n j, o_notification (Send (well "acme") nothing_yet "t1" (sample_request at_ten)) = Some n
    /\ o_job (Send (well "acme") nothing_yet "t1" (sample_request at_ten)) = Some j
    /\ let '(a1, _, ms1, done1) := RouteDueScheduled (fun _ => unpublished) (j_due j) nothing_yet [(j, n)] in
       let '(_, _, ms2, done2) := RouteDueScheduled (fun _ => well "acme") (j_due j) a1 [(j, n)] in
       done1 = 0%nat /\ done2 = 1%nat
       /\ map fst ms1 = [EmailQueue] /\ map fst ms2 = [EmailQueue; SMSQueue].
Proof. eexists _, _. split; [vm_compute; reflexivity|]. split; [vm_compute; reflexivity|]. vm_compute. done. Qed.

(** * The promises at these samples *)

Lemma scheduled_form_is_refused_witness :
  let s := SendPage.sample_form <| SendPage.sendAt := "2026-05-01T10:00" |> in
  let '(status, o) := SendAdminNotification (well "acme") nothing_yet
    (MkPrincipal "u1" (Some "t1") "a@b.c" false []) (payload false s) in
  status = 400 /\ o_notification o = None /\ o_job o = None /\ o_rows o = [] /\ o_messages o = [].
Proof.
  apply scheduled_form_is_refused. exists "2026-05-01", "10:00". split; [reflexivity|]. split; reflexivity.
Defined.

(** Three calls at once, with a quota of two and a rate of ten, and a fourth hours later. *)
Definition one_sms : allow_call := AllowCall (10, 2) "t1" "sms" "2026-05-01".
Definition three_calls : list allow_turn :=
  [AllowTurn 0 true 1; AllowTurn 1 true 1; AllowTurn 0 true 2; AllowTurn 1 true 2; AllowTurn 0 true 3; AllowTurn 2 true 3;
   AllowTurn 2 true 4; AllowTurn 1 true 4;
   AllowTurn 3 true (daily_window / 2); AllowTurn 3 true (daily_window / 2); AllowTurn 3 true (daily_window / 2)].

Lemma daily_quota_holds_witness :
  map snd (allow_all three_calls (map (fun x => (x, RateIncr)) (repeat one_sms 4), ∅)).1
  = [Answered (Some true); Answered (Some true); Answered (Some false); Answered (Some false)]
  /\ granted "t1" "sms" "2026-05-01" (allow_all three_calls (map (fun x => (x, RateIncr)) (repeat one_sms 4), ∅)).1 <= 2.
Proof.
  split; [vm_compute; reflexivity|]. apply (daily_quota_holds "t1" "sms" "2026-05-01" 0).
  - done.
  - lia.
  - intros x Hx. by rewrite lookup_empty in Hx.
  - repeat (constructor; [done|]). constructor.
  - repeat (constructor; [split; [apply Z.leb_le; reflexivity|apply Z.ltb_lt; reflexivity]|]). constructor.
Defined.

(** The form filled in on the page, from its first render. *)
Definition filling : list Ui.move :=
  let fill l v := Ui.Do (Fill l v) 0 in
  ([Ui.Render; Ui.Render; Ui.Settle 20; Ui.Render; Ui.Render; fill "Template" "order.confirmed"; Ui.Render; Ui.Render;
    Ui.Render; fill "Email Address" "a@b.c"; Ui.Render; fill "order_id" "7"; Ui.Render; fill "name" "Ada"; Ui.Render])%nat.

Lemma payload_says_what_is_shown_witness :
  exists c b,
    Ui.play SendPage.http (SendPage.effects false "t1") (SendPage.handle false) (SendPage.view false "t1" true)
      SendPage.sample_server filling (Ui.initial (SendPage.initial false "t1")) = Some c
    /\ (Ui.sync SendPage.http (submit false (Ui.c_state c)) (Ui.c_state c)).1.2
       = [OReq (POST "/admin/api/v1/notifications/send" b)]
    /\ t_recipient (Target_ (request_of b)) !! "email" = Some (JStr "a@b.c")
    /\ Schedule_ (request_of b) = MkSchedule "" ""
    /\ exists v, RData (request_of b) !! "name" = Some (JStr v) /\ blank v = false.
Proof.
  destruct (Ui.play SendPage.http (SendPage.effects false "t1") (SendPage.handle false) (SendPage.view false "t1" true)
    SendPage.sample_server filling (Ui.initial (SendPage.initial false "t1"))) as [c|] eqn:E;
    [|apply (f_equal (fun o => match o with Some _ => true | None => false end)) in E; vm_compute in E; discriminate].
  assert (Hs : forall A (f : option Ui.config -> A), f (Some c) = f (Ui.play SendPage.http (SendPage.effects false "t1")
    (SendPage.handle false) (SendPage.view false "t1" true) SendPage.sample_server filling
    (Ui.initial (SendPage.initial false "t1")))) by (intros; by rewrite E).
  destruct (payload_says_what_is_shown false "t1" true c 5)
    as (b & Hb & _ & _ & _ & _ & _ & _ & _ & Hr & Hsch & _ & _ & Hdata & _).
  - by apply (Ui.played _ _ _ _ SendPage.sample_server _ filling).
  - rewrite (Hs _ (fun o => match o with Some c => Ui.c_dirty c | None => true end)). vm_compute. reflexivity.
  - apply validateForm_nil.
    rewrite (Hs _ (fun o => match o with Some c => validateForm false (Ui.c_state c) | None => [("", "")] end)).
    vm_compute. reflexivity.
  - rewrite (Hs _ (fun o => match o with Some c => priority (Ui.c_state c) | None => int 0 end)). vm_compute. reflexivity.
  - lia.
  - exists c, b. split; [reflexivity|]. split; [exact Hb|]. split; [|split].
    + rewrite Hr. rewrite (Hs _ (fun o => match o with Some c => JStr <$> oget (recipient_of (Ui.c_state c)) "email" | None => None end)).
      vm_compute. reflexivity.
    + rewrite Hsch. rewrite (Hs _ (fun o => match o with
        Some c => if blank (sendAt (Ui.c_state c)) then MkSchedule "" "" else MkSchedule "scheduled" (sendAt (Ui.c_state c))
        | None => MkSchedule "" "" end)). vm_compute. reflexivity.
    + destruct (Hdata "name" ltac:(discriminate)) as [_ Hin]. destruct Hin as (v & Hv & _ & Hbl); [|exists v; split; [exact Hv|exact Hbl]].
      rewrite (Hs _ (fun o => match o with Some c => variables (Ui.c_state c) | None => [] end)).
      apply list_elem_of_In. vm_compute. tauto.
Defined.

Lemma form_reaches_workers_witness :
  exists jobs, map Channel jobs = ["sms"]
    /\ Forall (fun j => Attempt j = 0 /\ recipientFor (Channel j) (Payload j) = address SendPage.sample_form (Channel j)) jobs.
Proof.
  destruct (form_reaches_workers (well "acme") nothing_yet (MkPrincipal "u1" (Some "t1") "a@b.c" false [])
              false SendPage.sample_form "ntf_1") as (jobs & Hc & _ & _ & Hall & _).
  - vm_compute. reflexivity.
  - vm_compute. apply NoDup_cons. split; [set_solver|apply NoDup_singleton].
  - vm_compute. reflexivity.
  - by exists jobs.
Defined.

Lemma scheduled_is_instant_later_witness :
  let o := Send (well "acme") nothing_yet "t1" (sample_request at_ten) in
  let instant := Send (well "acme") nothing_yet "t1" (sample_request (MkSchedule "instant" "")) in
  exists n j, o_notification o = Some n /\ o_job o = Some j /\ RFC3339 "2026-05-01T10:00:00Z" = Some (j_due j)
    /\ (route_job (well "acme") nothing_yet j n).1.1.2 = map (recipient_is (JObj [])) (o_rows instant)
    /\ length (o_rows instant) = 2%nat.
Proof.
  destruct (scheduled_is_instant_later (well "acme") (well "acme") nothing_yet nothing_yet "t1"
    (sample_request at_ten) "2026-05-01T10:00:00Z" "ntf_1" "ntf_1") as (n & j & Hn & Hj & _ & _ & Ht & Hroute).
  - reflexivity.
  - vm_compute. reflexivity.
  - reflexivity.
  - vm_compute. reflexivity.
  - exists n, j. split; [exact Hn|]. split; [exact Hj|]. split; [exact Ht|]. split; [|vm_compute; reflexivity].
    destruct (route_job (well "acme") nothing_yet j n) as [[[a2 rows] ms] marked].
    destruct Hroute as (_ & Hrows & _). exact Hrows.
Defined.
