(* ===== verification/Hub.v ===== *)
(** The messages shown while they are sent (internal/websocket: hub, clients and the
    handler; internal/http/handlers: broadcastIfWebSocket and the inbox): the hub as a
    machine whose loop, broadcasts, handlers and writers take turns, and what a sent
    notification makes it do.

    The loop changes the maps of the hub under a lock that broadcasts share; the buffer
    of a connection is a channel of 64 places, and a send on a closed channel panics. *)
From stdpp Require Import gmap.
From S2P Require Import Prelude Js React Query Client Components Auth Api Page Handlers Template SendPage.
From S2P Require Import Secrets Delivery Notify.

(** * The hub *)

(** [Delivery] of the hub. *)
Record note := Note {
  NotificationID : string; Title : string; Body : string; Data : gomap; NoteChannel : string }.

(** A row of [in_app_notifications], and the rows by their identifiers, the latest
    first. *)
Record inbox_row := InboxRow {
  i_tenant : string; i_notification : string; i_contact : option string; i_external : option string;
  i_title : string; i_body : string; i_data : gomap; i_status : string }.
#[export] Instance eta_inbox_row : Eta inbox_row := fun r =>
  InboxRow (i_tenant r) (i_notification r) (i_contact r) (i_external r) (i_title r) (i_body r) (i_data r) (i_status r).
Abbreviation inbox := (list (string * inbox_row)).

(** A client: [seen] is what was ever put into its buffer, [waiting] what is left. *)
Record conn := Conn {
  c_tenant : string; c_contact : string; c_external : string; waiting : list note; seen : list note; closed : bool }.
#[export] Instance eta_conn : Eta conn := fun c => Conn (c_tenant c) (c_contact c) (c_external c) (waiting c) (seen c) (closed c).

Inductive command := Joins (i : nat) | Leaves (i : nat).

(** The maps of the hub, the connections there ever were, the command the loop has
    received and not carried out, and the unread messages that a handler has read and
    not sent yet. *)
Record hub := Hub {
  conns : gmap nat conn; clients : gset nat; byTenant : gmap string (gset nat); received : option command;
  disconnects : Z; syncing : gmap nat (list note) }.
#[export] Instance eta_hub : Eta hub := fun h =>
  Hub (conns h) (clients h) (byTenant h) (received h) (disconnects h) (syncing h).
Definition no_hub : hub := Hub ∅ ∅ ∅ None 0 ∅.

Definition capacity : nat := 64.

(** [SendDelivery]: [None] is a panic; a full buffer drops the message. *)
Definition SendDelivery (d : note) (c : conn) : option conn :=
  if closed c then None
  else if bool_decide (length (waiting c) < capacity)%nat
  then Some (c <| waiting := waiting c ++ [d] |> <| seen := seen c ++ [d] |>) else Some c.
Definition send_to (d : note) (i : nat) (h : hub) : option hub :=
  match conns h !! i with
  | Some c => c ← SendDelivery d c; Some (h <| conns := <[i := c]> (conns h) |>)
  | None => Some h
  end.
Definition send_all (d : note) (ids : list nat) (h : hub) : option hub :=
  fold_left (fun h i => h ← h; send_to d i h) ids (Some h).

Definition members (h : hub) (tenantID : string) : gset nat := default ∅ (byTenant h !! tenantID).

(** [BroadcastToTenant], [BroadcastToUser] *)
Definition BroadcastToTenant (tenantID : string) (d : note) (h : hub) : option hub :=
  send_all d (elements (members h tenantID)) h.
Definition BroadcastToUser (tenantID externalUserID : string) (d : note) (h : hub) : option hub :=
  send_all d (filter_by (fun i => match conns h !! i with
                                  | Some c => bool_decide (c_external c = externalUserID) | None => false end)
                (elements (members h tenantID))) h.

(** The two cases of [Run]. *)
Definition join (i : nat) (h : hub) : hub :=
  match conns h !! i with
  | Some c =>
      h <| clients := {[i]} ∪ clients h |>
        <| byTenant := <[c_tenant c := {[i]} ∪ members h (c_tenant c)]> (byTenant h) |>
  | None => h
  end.
Definition leave (i : nat) (h : hub) : hub :=
  match conns h !! i with
  | Some c =>
      if decide (i ∈ clients h) then
        h <| clients := clients h ∖ {[i]} |>
          <| byTenant :=
               let rest := members h (c_tenant c) ∖ {[i]} in
               if decide (rest = ∅) then delete (c_tenant c) (byTenant h) else <[c_tenant c := rest]> (byTenant h) |>
          <| conns := <[i := c <| closed := true |>]> (conns h) |>
          <| disconnects := disconnects h + 1 |>
      else h
  | None => h
  end.

(** [SyncUnread]: the query of the unread messages of a client, and what they are sent
    as. *)
Definition unread_by (tenantID contactID externalUserID : string) (r : inbox_row) : bool :=
  bool_decide (i_tenant r = tenantID /\ i_status r = "unread"
    /\ (i_contact r = Some contactID \/ (i_external r = Some externalUserID /\ externalUserID <> ""))).
Definition SyncUnread (tenantID contactID externalUserID : string) (rows : inbox) : list note :=
  map (fun ir => Note ir.1 (i_title ir.2) (i_body ir.2) (i_data ir.2) "in_app")
    (take 50 (filter_by (fun ir => unread_by tenantID contactID externalUserID ir.2) rows)).

(** What happens next: [ServeWS] hands a new client to the loop, or [ReadPump] one whose
    connection ended; the loop takes the lock; somebody broadcasts; the query of a handler's
    [SyncUnread] is answered from the rows of the inbox, once, and its next message is
    sent; a writer takes a message. *)
Inductive event :=
| EConnect (i : nat) (tenantID contactID externalUserID : string)
| EDisconnect (i : nat)
| ELoop
| EBroadcast (tenantID : string) (d : note)
| EBroadcastUser (tenantID externalUserID : string) (d : note)
| EUnread (i : nat) (rows : inbox)
| ESync (i : nat)
| EWrite (i : nat).

Inductive turn := Blocked | Panics | Goes (h : hub).
Definition goes (h : option hub) : turn := match h with Some h => Goes h | None => Panics end.

Definition step (e : event) (h : hub) : turn :=
  match e with
  | EConnect i t k x =>
      if bool_decide (received h = None /\ conns h !! i = None)
      then Goes (h <| conns := <[i := Conn t k x [] [] false]> (conns h) |> <| received := Some (Joins i) |>)
      else Blocked
  | EDisconnect i =>
      if bool_decide (received h = None /\ conns h !! i <> None)
      then Goes (h <| received := Some (Leaves i) |>) else Blocked
  | ELoop =>
      match received h with
      | Some (Joins i) => Goes ((join i h) <| received := None |>)
      | Some (Leaves i) => Goes ((leave i h) <| received := None |>)
      | None => Blocked
      end
  | EBroadcast t d => goes (BroadcastToTenant t d h)
  | EBroadcastUser t x d => goes (BroadcastToUser t x d h)
  | EUnread i rows =>
      match conns h !! i, syncing h !! i with
      | Some c, None =>
          Goes (h <| syncing := <[i := SyncUnread (c_tenant c) (c_contact c) (c_external c) rows]> (syncing h) |>)
      | _, _ => Blocked
      end
  | ESync i =>
      match syncing h !! i with
      | Some (d :: ds) => goes (send_to d i (h <| syncing := <[i := ds]> (syncing h) |>))
      | _ => Blocked
      end
  | EWrite i =>
      match conns h !! i with
      | Some c => Goes (h <| conns := <[i := c <| waiting := tail (waiting c) |>]> (conns h) |>)
      | None => Blocked
      end
  end.

Inductive runs : list event -> hub -> Prop :=
| runs_start : runs [] no_hub
| runs_step es h e h' : runs es h -> step e h = Goes h' -> runs (es ++ [e]) h'.

(** * Invariants *)

(** What the messages of a connection come from: a broadcast to its tenant, one to its
    external user there, or its own unread messages at the time of the query. *)
Definition unread_source (es : list event) (i : nat) (c : conn) (d : note) : Prop :=
  exists rows, EUnread i rows ∈ es /\ d ∈ SyncUnread (c_tenant c) (c_contact c) (c_external c) rows.
Definition source (es : list event) (i : nat) (c : conn) (d : note) : Prop :=
  EBroadcast (c_tenant c) d ∈ es \/ EBroadcastUser (c_tenant c) (c_external c) d ∈ es \/ unread_source es i c d.

Record wf (es : list event) (h : hub) : Prop := {
  wf_open : forall i, i ∈ clients h -> exists c, conns h !! i = Some c /\ closed c = false;
  wf_tenant : forall i t, i ∈ members h t <-> i ∈ clients h /\ exists c, conns h !! i = Some c /\ c_tenant c = t;
  wf_join : forall i, received h = Some (Joins i) -> exists c, conns h !! i = Some c /\ closed c = false;
  wf_room : forall i c, conns h !! i = Some c -> (length (waiting c) <= capacity)%nat;
  wf_source : forall i c d, conns h !! i = Some c -> d ∈ seen c -> source es i c d;
  wf_syncing : forall i ds, syncing h !! i = Some ds ->
    exists c, conns h !! i = Some c /\ forall d, d ∈ ds -> unread_source es i c d
}.

Lemma wf_more es es' h : (forall e, e ∈ es -> e ∈ es') -> wf es h -> wf es' h.
Proof.
  intros Hsub [H1 H2 H3 H4 H5 H6]. split; [done..| |].
  - intros i c d Hi Hd. specialize (H5 i c d Hi Hd). unfold source, unread_source in *. naive_solver.
  - intros i ds Hi. destruct (H6 i ds Hi) as (c & Hc & Hds). exists c. split; [done|].
    intros d Hd. specialize (Hds d Hd). unfold unread_source in *. naive_solver.
Qed.

(** What a change of buffers keeps. *)
Definition same_places (h h' : hub) : Prop :=
  clients h' = clients h /\ byTenant h' = byTenant h /\ received h' = received h /\ syncing h' = syncing h
  /\ forall i, (fun c => (c_tenant c, c_contact c, c_external c, closed c)) <$> conns h' !! i
             = (fun c => (c_tenant c, c_contact c, c_external c, closed c)) <$> conns h !! i.

Lemma same_places_refl h : same_places h h.
Proof. done. Qed.
Lemma same_places_trans h1 h2 h3 : same_places h1 h2 -> same_places h2 h3 -> same_places h1 h3.
Proof. intros (A1 & B1 & C1 & S1 & D1) (A2 & B2 & C2 & S2 & D2). split_and!; [congruence..|intros i; by rewrite D2]. Qed.

Lemma same_places_put h i c c' :
  conns h !! i = Some c -> (c_tenant c', c_contact c', c_external c', closed c') = (c_tenant c, c_contact c, c_external c, closed c) ->
  same_places h (h <| conns := <[i := c']> (conns h) |>).
Proof.
  intros Hc E. split_and!; try done. intros j. simpl. destruct (decide (i = j)) as [<-|Hne].
  - rewrite lookup_insert_eq, Hc. simpl. by rewrite E.
  - by rewrite lookup_insert_ne.
Qed.

Lemma wf_same es h h' :
  wf es h -> same_places h h' ->
  (forall i c', conns h' !! i = Some c' -> (length (waiting c') <= capacity)%nat
     /\ forall d, d ∈ seen c' -> source es i c' d) -> wf es h'.
Proof.
  intros [H1 H2 H3 _ _ H6] (A & B & C & Y & D) Hc.
  assert (Hopen : forall i, (exists c, conns h !! i = Some c /\ closed c = false) ->
    exists c, conns h' !! i = Some c /\ closed c = false).
  { intros i (c & Hi & Ho). specialize (D i). rewrite Hi in D. destruct (conns h' !! i) as [c'|]; [|done].
    simpl in D. exists c'. split; [done|]. congruence. }
  split.
  - intros i. rewrite A. intros Hi. by apply Hopen, H1.
  - intros i t. unfold members. rewrite A, B. fold (members h t). rewrite H2.
    assert (E : (exists c, conns h' !! i = Some c /\ c_tenant c = t) <-> exists c, conns h !! i = Some c /\ c_tenant c = t).
    { specialize (D i). destruct (conns h' !! i) as [c'|], (conns h !! i) as [c|]; simpl in D; naive_solver. }
    by rewrite E.
  - intros i. rewrite C. intros Hi. by apply Hopen, H3.
  - intros i c' Hi. by apply (Hc i).
  - intros i c' d Hi. by apply (Hc i).
  - intros i ds. rewrite Y. intros Hi. destruct (H6 i ds Hi) as (c & Hci & Hds). specialize (D i). rewrite Hci in D.
    destruct (conns h' !! i) as [c'|]; [|done]. simpl in D. exists c'. split; [done|]. intros d Hd.
    specialize (Hds d Hd). unfold unread_source in *. injection D as -> -> -> _. done.
Qed.

(** A message to open connections. *)
Lemma send_to_spec d i h h' : send_to d i h = Some h' ->
  same_places h h' /\ (forall j, j <> i -> conns h' !! j = conns h !! j)
  /\ forall c, conns h !! i = Some c ->
       conns h' !! i = Some (if bool_decide (length (waiting c) < capacity)%nat
                             then c <| waiting := waiting c ++ [d] |> <| seen := seen c ++ [d] |> else c).
Proof.
  unfold send_to, SendDelivery. destruct (conns h !! i) as [c|] eqn:Hc; [|intros [= <-]; done].
  destruct (closed c); [done|]. destruct (bool_decide (length (waiting c) < capacity)%nat) eqn:E; cbn [mbind option_bind];
    intros [= <-]; (split; [by eapply same_places_put|]); (split; [intros j Hj; simpl; by rewrite lookup_insert_ne|]);
    intros c0 [= <-]; simpl; by rewrite lookup_insert_eq, E.
Qed.

Lemma send_to_open d i h : (forall c, conns h !! i = Some c -> closed c = false) -> is_Some (send_to d i h).
Proof.
  intros Ho. unfold send_to, SendDelivery. destruct (conns h !! i) as [c|] eqn:Hc; [|done]. rewrite (Ho c eq_refl).
  by case_bool_decide.
Qed.

Lemma send_to_wf es d i h h' :
  wf es h -> send_to d i h = Some h' -> (forall c, conns h !! i = Some c -> source es i c d) -> wf es h'.
Proof.
  intros Hw Hs Hd. apply send_to_spec in Hs as (Hp & Hother & Hi). apply (wf_same es h); [done|done|].
  intros j c' Hj. destruct (decide (j = i)) as [->|Hne].
  - destruct (conns h !! i) as [c|] eqn:Hc.
    + specialize (Hi c eq_refl). rewrite Hi in Hj. injection Hj as <-. pose proof (wf_room _ _ Hw i c Hc) as Hr.
      case_bool_decide as Hl; simpl; (split; [rewrite ?length_app; simpl; lia|]); intros x Hx.
      * apply elem_of_app in Hx as [Hx|Hx%list_elem_of_singleton]; [|subst x; exact (Hd c eq_refl)].
        exact (wf_source _ _ Hw i c x Hc Hx).
      * exact (wf_source _ _ Hw i c x Hc Hx).
    + destruct Hp as (_ & _ & _ & _ & D). specialize (D i). by rewrite Hj, Hc in D.
  - rewrite Hother in Hj by done. split; [by eapply wf_room|]. intros x Hx. by apply (wf_source _ _ Hw j c' x).
Qed.

Lemma send_all_cons d i ids h : send_all d (i :: ids) h = h ← send_to d i h; send_all d ids h.
Proof.
  unfold send_all. cbn [fold_left mbind option_bind]. destruct (send_to d i h) as [h1|]; [done|]. simpl.
  by induction ids.
Qed.

(** A message to clients: it does not panic, and each of them that has room gets it. *)
Lemma send_all_clients es d ids h :
  wf es h -> NoDup ids -> (forall i, i ∈ ids -> i ∈ clients h) ->
  (forall i c, i ∈ ids -> conns h !! i = Some c -> source es i c d) ->
  exists h', send_all d ids h = Some h' /\ wf es h' /\ same_places h h'
    /\ (forall j, j ∉ ids -> conns h' !! j = conns h !! j)
    /\ forall i c, i ∈ ids -> conns h !! i = Some c -> (length (waiting c) < capacity)%nat ->
         exists c', conns h' !! i = Some c' /\ waiting c' = waiting c ++ [d].
Proof.
  revert h. induction ids as [|i ids IH]; intros h Hw Hnd Hin Hsrc.
  { exists h. split; [done|]. split; [done|]. split; [apply same_places_refl|]. split; [done|]. by intros i c ?%elem_of_nil. }
  apply NoDup_cons in Hnd as [Hni Hnd]. rewrite send_all_cons.
  destruct (send_to_open d i h) as [h1 Hs].
  { intros c Hc. destruct (wf_open _ _ Hw i ltac:(apply Hin; by left)) as (c0 & Hc0 & Ho). congruence. }
  rewrite Hs. cbn [mbind option_bind].
  assert (Hw1 : wf es h1) by (eapply send_to_wf; [done|exact Hs|]; intros c Hc; apply (Hsrc i c); [by left|done]).
  apply send_to_spec in Hs as (Hp & Hother & Hi).
  destruct (IH h1) as (h' & He & Hw' & Hp' & Hother' & Hgot); [done|done| |..].
  { intros j Hj. destruct Hp as (-> & _). apply Hin. by right. }
  { intros j c Hj. rewrite Hother by (by intros ->). intros Hc. apply (Hsrc j c); [by right|done]. }
  exists h'. split; [done|]. split; [done|]. split; [by eapply same_places_trans|]. split.
  - intros j Hj. rewrite not_elem_of_cons in Hj. destruct Hj as [Hj Hj']. rewrite Hother' by done. by apply Hother.
  - intros j c Hj Hc Hroom. apply elem_of_cons in Hj as [->|Hj].
    + rewrite Hother' by done. rewrite (Hi c Hc), bool_decide_eq_true_2 by done. by eexists.
    + apply Hgot; [done| |done]. rewrite Hother by (by intros ->). done.
Qed.

Lemma members_clients es h t i : wf es h -> i ∈ members h t -> i ∈ clients h.
Proof. intros Hw Hi. by apply (wf_tenant _ _ Hw) in Hi as [Hi _]. Qed.
Lemma members_tenant es h t i c : wf es h -> i ∈ members h t -> conns h !! i = Some c -> c_tenant c = t.
Proof. intros Hw Hi Hc. apply (wf_tenant _ _ Hw) in Hi as [_ (c' & Hc' & <-)]. congruence. Qed.

Lemma broadcast_to_tenant es t d h :
  wf es h -> EBroadcast t d ∈ es ->
  exists h', BroadcastToTenant t d h = Some h' /\ wf es h' /\ same_places h h'
    /\ (forall j, j ∉ members h t -> conns h' !! j = conns h !! j)
    /\ forall i c, i ∈ members h t -> conns h !! i = Some c -> (length (waiting c) < capacity)%nat ->
         exists c', conns h' !! i = Some c' /\ waiting c' = waiting c ++ [d].
Proof.
  intros Hw He. destruct (send_all_clients es d (elements (members h t)) h) as (h' & H1 & H2 & H3 & H4 & H5).
  - done.
  - apply NoDup_elements.
  - intros i Hi. apply (members_clients es h t); [done|]. by apply elem_of_elements.
  - intros i c Hi Hc. left. by rewrite (members_tenant es h t i c Hw) by (done || by apply elem_of_elements).
  - exists h'. split_and!; try done.
    + intros j Hj. apply H4. by rewrite elem_of_elements.
    + intros i c Hi. apply H5. by apply elem_of_elements.
Qed.

Lemma broadcast_to_user es t x d h :
  wf es h -> EBroadcastUser t x d ∈ es -> exists h', BroadcastToUser t x d h = Some h' /\ wf es h'.
Proof.
  intros Hw He. unfold BroadcastToUser. match goal with |- context [filter_by ?g _] => set (f := g) end.
  assert (Hin : forall i, i ∈ filter_by f (elements (members h t)) -> i ∈ members h t /\ f i = true).
  { intros i. rewrite elem_of_filter_by, elem_of_elements. tauto. }
  destruct (send_all_clients es d (filter_by f (elements (members h t))) h) as (h' & H1 & H2 & _).
  - done.
  - apply NoDup_filter_by, NoDup_elements.
  - intros i [Hi _]%Hin. by apply (members_clients es h t).
  - intros i c [Hi Hf]%Hin Hc. right. left. rewrite (members_tenant es h t i c) by done.
    unfold f in Hf. rewrite Hc in Hf. apply bool_decide_eq_true in Hf. by rewrite Hf.
  - by exists h'.
Qed.

(** * Turns of the hub *)

Lemma join_wf es i h : wf es h -> received h = Some (Joins i) -> wf es ((join i h) <| received := None |>).
Proof.
  intros Hw Hr. destruct (wf_join _ _ Hw i Hr) as (c & Hc & Ho). unfold join. rewrite Hc.
  destruct Hw as [H1 H2 H3 H4 H5 H6]. split; simpl; [| |done|done|done|done].
  - intros j. rewrite elem_of_union, elem_of_singleton. intros [->|Hj]; [by exists c|by apply H1].
  - intros j t. assert (Hm : members (h <| clients := {[i]} ∪ clients h |>
        <| byTenant := <[c_tenant c := {[i]} ∪ members h (c_tenant c)]> (byTenant h) |> <| received := None |>) t
      = if decide (c_tenant c = t) then {[i]} ∪ members h t else members h t).
    { unfold members. simpl. case_decide as E; [subst t; by rewrite lookup_insert_eq|by rewrite lookup_insert_ne]. }
    rewrite Hm. specialize (H2 j t). rewrite elem_of_union, elem_of_singleton. simpl.
    case_decide as E; rewrite ?elem_of_union, ?elem_of_singleton, H2; naive_solver congruence.
Qed.

Lemma leave_wf es i h : wf es h -> wf es ((leave i h) <| received := None |>).
Proof.
  intros Hw. pose proof Hw as [H1 H2 H3 H4 H5 H6]. unfold leave. destruct (conns h !! i) as [c|] eqn:Hc; [|by split].
  case_decide as Hi; [|by split].
  set (rest := members h (c_tenant c) ∖ {[i]}).
  assert (Hconn : forall j c', <[i := c <| closed := true |>]> (conns h) !! j = Some c' ->
    exists c0, conns h !! j = Some c0 /\ c_tenant c' = c_tenant c0 /\ c_contact c' = c_contact c0 /\ c_external c' = c_external c0
      /\ waiting c' = waiting c0 /\ seen c' = seen c0).
  { intros j c'. destruct (decide (i = j)) as [<-|Hne].
    - rewrite lookup_insert_eq. intros [= <-]. by exists c.
    - rewrite lookup_insert_ne by done. intros Hj. by exists c'. }
  split; simpl; [| |done| | |].
  - intros j [Hj Hn]%elem_of_difference. rewrite elem_of_singleton in Hn. rewrite lookup_insert_ne by done. by apply H1.
  - intros j t.
    assert (Hm : forall b, b = (if decide (rest = ∅) then delete (c_tenant c) (byTenant h)
        else <[c_tenant c := rest]> (byTenant h)) ->
      default ∅ (b !! t) = if decide (c_tenant c = t) then rest else members h t).
    { intros b ->. case_decide as E; case_decide as Et.
      - subst t. by rewrite lookup_delete_eq, E.
      - by rewrite lookup_delete_ne.
      - subst t. by rewrite lookup_insert_eq.
      - by rewrite lookup_insert_ne. }
    unfold members at 1. simpl. rewrite (Hm _ eq_refl). specialize (H2 j t). rewrite elem_of_difference, elem_of_singleton.
    assert (Hex : j <> i -> (exists c0, <[i := c <| closed := true |>]> (conns h) !! j = Some c0 /\ c_tenant c0 = t)
        <-> exists c0, conns h !! j = Some c0 /\ c_tenant c0 = t)
      by (intros Hne; by rewrite lookup_insert_ne).
    destruct (decide (j = i)) as [->|Hne].
    + split; [|by intros [[_ []] _]]. intros Hin. exfalso. revert Hin. unfold rest.
      destruct (decide (c_tenant c = t)) as [Et|Et]; [rewrite elem_of_difference, elem_of_singleton; tauto|].
      intros (_ & c0 & Hc0 & <-)%H2. congruence.
    + rewrite (Hex Hne). unfold rest. destruct (decide (c_tenant c = t)) as [Et|Et]; [subst t; rewrite elem_of_difference, elem_of_singleton, H2|rewrite H2]; tauto.
  - intros j c' (c0 & Hj & _ & _ & _ & Hwt & _)%Hconn. rewrite Hwt. by eapply H4.
  - intros j c' d (c0 & Hj & Ht & Hk & Hx & _ & Hs)%Hconn. rewrite Hs. intros Hd. specialize (H5 j c0 d Hj Hd).
    unfold source, unread_source in *. by rewrite Ht, Hk, Hx.
  - intros j ds Hj. destruct (H6 j ds Hj) as (c0 & Hc0 & Hds). destruct (decide (i = j)) as [<-|Hne].
    + rewrite lookup_insert_eq. eexists. split; [done|]. rewrite Hc in Hc0. by injection Hc0 as <-.
    + rewrite lookup_insert_ne by done. by exists c0.
Qed.

Lemma no_hub_wf : wf [] no_hub.
Proof.
  split; [by intros i ?%elem_of_empty| |done|by intros i c ?|by intros i c d ?|by intros i ds ?].
  intros i t. unfold members. simpl. rewrite lookup_empty. simpl. set_solver.
Qed.

Lemma hub_step_wf es e h h' : wf es h -> step e h = Goes h' -> wf (es ++ [e]) h'.
Proof.
  intros Hw0. assert (Hw : wf (es ++ [e]) h) by (eapply wf_more; [|exact Hw0]; intros; apply elem_of_app; by left).
  assert (He : e ∈ es ++ [e]) by (apply elem_of_app; right; by apply list_elem_of_singleton).
  clear Hw0. revert Hw He. generalize (es ++ [e]). clear es. intros es Hw He Hs.
  destruct e as [i t k x|i| |t d|t x d|i rows|i|i]; simpl in Hs.
  - case_bool_decide as Hb; [|done]. injection Hs as <-. destruct Hb as [Hr Hn]. destruct Hw as [H1 H2 H3 H4 H5 H6].
    assert (Hne : forall j c, conns h !! j = Some c -> i <> j) by (intros j c Hj ->; congruence).
    assert (Hcase : forall j c, <[i := Conn t k x [] [] false]> (conns h) !! j = Some c ->
      (j = i /\ c = Conn t k x [] [] false) \/ conns h !! j = Some c).
    { intros j c. destruct (decide (i = j)) as [<-|Hij]; [rewrite lookup_insert_eq; intros [= <-]; by left|].
      rewrite lookup_insert_ne by done. by right. }
    split; simpl.
    + intros j (c & Hj & Ho)%H1. exists c. by rewrite lookup_insert_ne by (by eapply Hne).
    + intros j t'. change (members _ t') with (members h t'). rewrite H2. split.
      * intros (Hj & c & Hc & Ht). split; [done|]. exists c. by rewrite lookup_insert_ne by (by eapply Hne).
      * intros (Hj & c & [[-> ->]|Hc]%Hcase & Ht); [|split; [done|]; by exists c].
        apply H1 in Hj as (c & Hc & _). congruence.
    + intros j [= <-]. eexists. by rewrite lookup_insert_eq.
    + intros j c [[_ ->]|Hc]%Hcase; [simpl; lia|by eapply H4].
    + intros j c d [[_ ->]|Hc]%Hcase; [by intros ?%elem_of_nil|by eapply H5].
    + intros j ds (c & Hc & Hds)%H6. exists c. by rewrite lookup_insert_ne by (by eapply Hne).
  - case_bool_decide as Hb; [|done]. injection Hs as <-. destruct Hw as [H1 H2 H3 H4 H5 H6]. by split.
  - destruct (received h) as [[i|i]|] eqn:Hr; [..|done]; injection Hs as <-; [by apply join_wf|by apply leave_wf].
  - destruct (broadcast_to_tenant es t d h Hw He) as (h1 & Hb & Hw1 & _). rewrite Hb in Hs. by injection Hs as <-.
  - destruct (broadcast_to_user es t x d h Hw He) as (h1 & Hb & Hw1). rewrite Hb in Hs. by injection Hs as <-.
  - destruct (conns h !! i) as [c|] eqn:Hc; [|done]. destruct (syncing h !! i); [done|]. injection Hs as <-.
    destruct Hw as [H1 H2 H3 H4 H5 H6]. split; [done..|]. simpl. intros j ds. destruct (decide (i = j)) as [<-|Hne].
    + rewrite lookup_insert_eq. intros [= <-]. exists c. split; [done|]. intros d Hd. by exists rows.
    + rewrite lookup_insert_ne by done. apply H6.
  - destruct (syncing h !! i) as [[|d ds]|] eqn:Hy; [done| |done].
    destruct (send_to _ _ _) as [h1|] eqn:E; [|done]. injection Hs as <-.
    destruct (wf_syncing _ _ Hw i _ Hy) as (c & Hc & Hds).
    assert (Hw1 : wf es (h <| syncing := <[i := ds]> (syncing h) |>)).
    { destruct Hw as [H1 H2 H3 H4 H5 H6]. split; [done..|]. simpl. intros j ds'. destruct (decide (i = j)) as [<-|Hne].
      - rewrite lookup_insert_eq. intros [= <-]. exists c. split; [done|]. intros x Hx. apply Hds. by right.
      - rewrite lookup_insert_ne by done. apply H6. }
    eapply send_to_wf; [exact Hw1|exact E|]. simpl. rewrite Hc. intros c' [= <-]. right; right. apply Hds. by left.
  - destruct (conns h !! i) as [c|] eqn:Hc; [|done]. injection Hs as <-.
    apply (wf_same es h); [done|by eapply same_places_put|]. intros j c'. simpl.
    destruct (decide (i = j)) as [<-|Hne].
    + rewrite lookup_insert_eq. intros [= <-]. simpl. split.
      * pose proof (wf_room _ _ Hw i c Hc). destruct (waiting c); simpl in *; lia.
      * intros d Hd. exact (wf_source _ _ Hw i c d Hc Hd).
    + rewrite lookup_insert_ne by done. intros Hj. split; [by eapply wf_room|]. intros d Hd. by eapply wf_source.
Qed.

Lemma runs_wf es h : runs es h -> wf es h.
Proof. induction 1; [apply no_hub_wf|by eapply hub_step_wf]. Qed.

(** C24: the hub keeps tenants apart.  However the loop, broadcasts, handlers and writers
    take turns, a broadcast never panics; it reaches each client of its tenant whose
    buffer has room, and nobody else; at most 64 messages wait for a client; and
    whatever a client was ever given was broadcast to its tenant or to its user there,
    or is its own unread message. *)
Theorem hub_keeps_tenants_apart es h t d :
  runs es h ->
  (exists h', step (EBroadcast t d) h = Goes h'
     /\ forall i c, conns h !! i = Some c ->
          (i ∈ clients h /\ c_tenant c = t -> (length (waiting c) < capacity)%nat ->
             exists c', conns h' !! i = Some c' /\ waiting c' = waiting c ++ [d])
          /\ (~ (i ∈ clients h /\ c_tenant c = t) -> conns h' !! i = Some c))
  /\ (forall x, exists h', step (EBroadcastUser t x d) h = Goes h')
  /\ forall i c, conns h !! i = Some c ->
       (length (waiting c) <= capacity)%nat /\ forall d, d ∈ seen c -> source es i c d.
Proof.
  intros Hr%runs_wf.
  assert (Hmore : forall e, wf (e :: es) h) by (intros e; eapply wf_more; [|exact Hr]; intros; by right).
  split; [|split].
  - destruct (broadcast_to_tenant _ t d h (Hmore (EBroadcast t d)) ltac:(by left)) as (h' & Hb & _ & _ & Hother & Hgot).
    exists h'. split; [simpl; by rewrite Hb|]. intros i c Hc.
    assert (Hm : i ∈ members h t <-> i ∈ clients h /\ c_tenant c = t).
    { rewrite (wf_tenant _ _ Hr). split; [|naive_solver]. intros (Hi & c' & Hc' & <-). split; [done|congruence]. }
    split; [intros Hi Hroom; apply (Hgot i c); [by apply Hm|done|done]|].
    intros Hn. rewrite Hother; [done|]. by rewrite Hm.
  - intros x. destruct (broadcast_to_user _ t x d h (Hmore (EBroadcastUser t x d)) ltac:(by left)) as (h' & Hb & _).
    exists h'. simpl. by rewrite Hb.
  - intros i c Hc. split; [by eapply wf_room|]. intros d' Hd. by eapply wf_source.
Qed.

(** Events in their order. *)
Fixpoint play (es : list event) (h : hub) : turn :=
  match es with
  | [] => Goes h
  | e :: es => match step e h with Goes h => play es h | t => t end
  end.

Lemma play_runs es0 es h h' : runs es0 h -> play es h = Goes h' -> runs (es0 ++ es) h'.
Proof.
  revert es0 h. induction es as [|e es IH]; intros es0 h Hr; simpl.
  - intros [= <-]. by rewrite app_nil_r.
  - destruct (step e h) as [| |h1] eqn:E; [done..|]. intros Hp.
    replace (es0 ++ e :: es) with ((es0 ++ [e]) ++ es) by (by rewrite <- app_assoc).
    apply (IH _ h1); [by eapply runs_step|done].
Qed.

(** The unread messages are sent without the lock: when the connection ends meanwhile,
    the handler panics. *)
Lemma sync_can_panic : exists es h, runs es h /\ step (ESync 0) h = Panics.
Proof.
  set (es := [EConnect 0 "t1" "" "x"; ELoop; EUnread 0 [("n1", InboxRow "t1" "" None (Some "x") "Hi" "" ∅ "unread")];
              EDisconnect 0; ELoop]).
  exists es. destruct (play es no_hub) as [| |h] eqn:E; [vm_compute in E; discriminate..|].
  exists h. split; [apply (play_runs [] _ no_hub h); [constructor|exact E]|].
  apply (f_equal (fun t => match t with Goes h => step (ESync 0) h | t => t end)) in E.
  rewrite <- E. reflexivity.
Qed.

(** Several broadcasts to a tenant. *)
Lemma play_broadcasts t ds es h :
  runs es h ->
  exists h', play (map (EBroadcast t) ds) h = Goes h'
    /\ forall i c, i ∈ clients h -> conns h !! i = Some c -> c_tenant c = t ->
         (length (waiting c) + length ds <= capacity)%nat ->
         exists c', conns h' !! i = Some c' /\ waiting c' = waiting c ++ ds.
Proof.
  revert es h. induction ds as [|d ds IH]; intros es h Hr; simpl.
  - exists h. split; [done|]. intros i c _ Hc _ _. exists c. by rewrite app_nil_r.
  - pose proof (runs_wf _ _ Hr) as Hw.
    assert (Hw' : wf (EBroadcast t d :: es) h) by (eapply wf_more; [|exact Hw]; intros; by right).
    destruct (broadcast_to_tenant _ t d h Hw' ltac:(by left)) as (h1 & Hb & _ & (Hcl & _ & _ & _ & Hpl) & _ & Hgot).
    rewrite Hb. simpl. destruct (IH (es ++ [EBroadcast t d]) h1) as (h' & Hp & Hall).
    { eapply runs_step; [exact Hr|]. simpl. by rewrite Hb. }
    exists h'. split; [done|]. intros i c Hi Hc Ht Hroom.
    destruct (Hgot i c) as (c1 & Hc1 & Hwt); [apply (wf_tenant _ _ Hw); split; [done|by exists c]|done|lia|].
    assert (Ht1 : c_tenant c1 = t) by (specialize (Hpl i); rewrite Hc1, Hc in Hpl; simpl in Hpl; congruence).
    destruct (Hall i c1) as (c' & Hc' & Hw2); [by rewrite Hcl|done|done|rewrite Hwt, length_app; simpl; lia|].
    exists c'. split; [done|]. by rewrite Hw2, Hwt, <- app_assoc.
Qed.

(** * Sent notifications *)

(** An accepted request is answered with its public identifier. *)
Lemma Send_answer w a t req id : o_answer (Send w a t req) = inr id -> id = public_id w.
Proof.
  unfold Send. case_decide; [done|]. case_decide; [done|]. cbv zeta.
  destruct (EnsureActive _); [done|]. destruct (check_channels _ _ _ _) as [c [err|]]; [done|].
  destruct (scheduleState _) as [[at_|]|]; [| |done]; (destruct (negb (stmt w 0 && _)); [done|]).
  - destruct (negb (stmt w 1)); [done|]. destruct (negb (stmt w 2)); [done|]. by intros [= ->].
  - destruct (deliver _ _ _ _ _ _ _ _) as [[[t1 rows] ms] ok]. destruct (negb ok); [done|].
    destruct (negb _); [done|]. by intros [= ->].
Qed.

Definition hex_or_mark (c : ascii) : bool :=
  is_digit c || ((97 <=? byte c) && (byte c <=? 102)) || ((65 <=? byte c) && (byte c <=? 70))
  || (byte c =? 45) || (byte c =? 123) || (byte c =? 125).

Section Inbox.
(** Which texts the database takes for a uuid: digits in base sixteen, with dashes and
    braces. *)
Variable uuid : string -> bool.
Hypothesis uuid_digits : forall s, uuid s = true -> all_chars hex_or_mark s = true.

(** The subject of the template, if it is found. *)
Definition title_of (subject : option string) (req : Request) : string :=
  let title := match RData req !! "title" with Some (JStr t) => t | _ => "Notification" end in
  if decide (Template_ req = "") then title else default "" subject ||| title.

(** [broadcastIfWebSocket]: what it tells the hub, and the inbox.  [db] is the identifier
    of a new row; an insertion that fails is not looked at.  Neither the contact nor
    the external user of a row is ever set. *)
Fixpoint broadcast_channels (db : nat -> option string) (subject : option string) (tenantID notificationID : string)
    (req : Request) (n : nat) (chs : list string) (rows : inbox) : list note * inbox :=
  match chs with
  | [] => ([], rows)
  | ch :: chs =>
      if negb (includes ["websocket"; "in_app"] ch)
      then broadcast_channels db subject tenantID notificationID req (S n) chs rows
      else
        let title := title_of subject req in
        let rows :=
          match db n with
          | Some i =>
              if uuid notificationID
              then (i, InboxRow tenantID notificationID None None title "" (RData req) "unread") :: rows else rows
          | None => rows
          end in
        let '(ds, rows) := broadcast_channels db subject tenantID notificationID req (S n) chs rows in
        (Note notificationID title "" (RData req) ch :: ds, rows)
  end.
Definition broadcastIfWebSocket (db : nat -> option string) (subject : option string) (tenantID notificationID : string)
    (req : Request) (rows : inbox) : list note * inbox :=
  broadcast_channels db subject tenantID notificationID req 0 (Channels req) rows.

Lemma broadcast_channels_spec db subject t id req n chs rows :
  uuid id = false ->
  broadcast_channels db subject t id req n chs rows
  = (map (Note id (title_of subject req) "" (RData req)) (filter_by (includes ["websocket"; "in_app"]) chs), rows).
Proof.
  intros Hu. revert n. induction chs as [|ch chs IH]; intros n; [done|]. cbn [broadcast_channels filter_by].
  destruct (includes ["websocket"; "in_app"] ch); simpl; [|by rewrite IH]. rewrite Hu. destruct (db n); by rewrite IH.
Qed.

Lemma public_id_is_no_uuid s : starts_with "ntf_" s = true -> uuid s = false.
Proof.
  intros Hs. destruct (uuid s) eqn:E; [|done]. apply uuid_digits in E. destruct s as [|c s]; [done|].
  simpl in Hs. apply andb_prop in Hs as [Hc _]. apply bool_decide_eq_true in Hc. subst c. done.
Qed.

(** C25: what is sent to one is told to all, and kept for nobody.  When the API accepts a
    form of the send page, then for each channel websocket or in-app selected every
    client connected in the tenant gets the note, whoever the form is addressed to,
    with an empty text; and the inbox stays as it was, since what would be stored
    refers to the public identifier, which is no uuid. *)
Theorem notes_go_to_all_and_are_not_kept w a p isPlatform s id db subject rows es h tenantID :
  starts_with "ntf_" (public_id w) = true ->
  (SendAdminNotification w a p (payload isPlatform s)).1 = 202 ->
  o_answer (SendAdminNotification w a p (payload isPlatform s)).2 = inr id ->
  runs es h ->
  let req := request_of (payload isPlatform s) in
  let '(notes, rows') := broadcastIfWebSocket db subject tenantID id req rows in
  rows' = rows
  /\ map NoteChannel notes = filter_by (includes ["websocket"; "in_app"]) (selectedChannels s)
  /\ Forall (fun d => Body d = "" /\ NotificationID d = id) notes
  /\ exists h', play (map (EBroadcast tenantID) notes) h = Goes h'
       /\ forall i c, i ∈ clients h -> conns h !! i = Some c -> c_tenant c = tenantID ->
            (length (waiting c) + length notes <= capacity)%nat ->
            exists c', conns h' !! i = Some c' /\ waiting c' = waiting c ++ notes.
Proof.
  intros Hid _ Ho Hr. cbv zeta.
  assert (Hpub : id = public_id w).
  { revert Ho. unfold SendAdminNotification. destruct (negb _); [done|]. destruct (_ && bool_decide _); [done|].
    simpl. apply Send_answer. }
  subst id. unfold broadcastIfWebSocket. rewrite broadcast_channels_spec by by apply public_id_is_no_uuid.
  assert (Hch : Notify.Channels (request_of (payload isPlatform s)) = selectedChannels s) by apply strings_read.
  rewrite Hch. split; [done|]. split; [rewrite map_map; apply map_id|]. split.
  - apply Forall_map, Forall_true. by intros x.
  - by eapply play_broadcasts.
Qed.
End Inbox.

(** * Samples *)

Definition visitor : list event := [EConnect 0 "t1" "" "ext-1"; ELoop].
Definition hello : note := Note "ntf_1" "Hello" "" ∅ "websocket".

Lemma hub_keeps_tenants_apart_witness :
  exists h h' c', play visitor no_hub = Goes h /\ step (EBroadcast "t1" hello) h = Goes h'
    /\ conns h' !! 0%nat = Some c' /\ waiting c' = [hello].
Proof.
  destruct (play visitor no_hub) as [| |h] eqn:E; [vm_compute in E; discriminate..|].
  destruct (hub_keeps_tenants_apart visitor h "t1" hello) as ((h' & Hs & Hall) & _).
  { apply (play_runs [] _ no_hub h); [constructor|exact E]. }
  assert (Hc : conns h !! 0%nat = Some (Conn "t1" "" "ext-1" [] [] false) /\ 0%nat ∈ clients h).
  { injection E as <-. split; [reflexivity|]. apply elem_of_union_l. by apply elem_of_singleton. }
  destruct Hc as [Hc Hi]. destruct (Hall 0%nat _ Hc) as [Hgot _].
  destruct (Hgot (conj Hi eq_refl)) as (c' & Hc' & Hw); [apply Nat.ltb_lt; reflexivity|].
  exists h, h', c'. split; [done|]. split; [done|]. split; [exact Hc'|exact Hw].
Defined.

Definition looks_like_uuid (s : string) : bool := all_chars hex_or_mark s && Nat.eqb (String.length s) 36.
Definition noted_form : SendPage.state := SendPage.sample_form <| SendPage.selectedChannels := ["in_app"] |>.
Definition ann : Principal := MkPrincipal "u1" (Some "t1") "a@b.c" false [].

Lemma notes_go_to_all_and_are_not_kept_witness :
  let o := SendAdminNotification (well "acme") nothing_yet ann (payload false noted_form) in
  o.1 = 202 /\ o_answer o.2 = inr "ntf_1"
  /\ (broadcastIfWebSocket looks_like_uuid (fun _ => Some "n1") None "t1" "ntf_1" (request_of (payload false noted_form)) []).2 = [].
Proof.
  cbv zeta. assert (H1 : (SendAdminNotification (well "acme") nothing_yet ann (payload false noted_form)).1 = 202)
    by (vm_compute; reflexivity).
  assert (H2 : o_answer (SendAdminNotification (well "acme") nothing_yet ann (payload false noted_form)).2 = inr "ntf_1")
    by (vm_compute; reflexivity).
  split; [exact H1|]. split; [exact H2|].
  pose proof (notes_go_to_all_and_are_not_kept looks_like_uuid
    ltac:(intros s Hs; apply andb_prop in Hs as [Hs _]; exact Hs) (well "acme") nothing_yet ann false noted_form "ntf_1"
    (fun _ => Some "n1") None [] [] no_hub "t1" eq_refl H1 H2 runs_start) as H. cbv zeta in H.
  destruct (broadcastIfWebSocket _ _ _ _ _ _ _) as [notes rows]. destruct H as [-> _]. reflexivity.
Defined.
