(* ===== verification/Sockets.v ===== *)
(** The connections of web sockets (internal/websocket/handler.go, internal/auth/auth.go
    and internal/http/handlers/handlers.go): the tokens they are opened with, what the
    hub of Hub.v is handed for a token, and the messages of the inbox: what a connection
    is sent of them, and the marks of those that were read.

    Times are nanoseconds.  The row of a connection is left out: its insertion names a
    column that [websocket_sessions] does not have, and its error is dropped. *)
From stdpp Require Import gmap.
From S2P Require Import Prelude Js React Query Client Components Auth Api Page Handlers Template SendPage.
From S2P Require Import Accounts Sessions Rbac Reset Secrets Delivery Notify Hub.

(** * Tokens of connections *)

(** A row of [websocket_connection_tokens], by the hash of its token; no contact is ever
    set. *)
Record ws_row := WsRow {
  w_tenant : string; w_user : string; w_external : option string; w_status : string; w_expires : Z }.
#[export] Instance eta_ws_row : Eta ws_row := fun r =>
  WsRow (w_tenant r) (w_user r) (w_external r) (w_status r) (w_expires r).
Abbreviation ws_table := (gmap string ws_row).

(** Who a connection is for. *)
Record peer := Peer { p_principal : string; p_tenant : string; p_user : string; p_contact : string; p_external : string }.

Section Tokens.
Variable HashSecret : string -> string.
Variable webSocketTokenTTL : Z.
(** The claims of an access token, if the library accepts it at a time. *)
Variable verify : Z -> string -> option claims.

(** [CreateWebSocketToken]: the token is drawn first, then the nonce. *)
Definition CreateWebSocketToken (w : draw) (now : Z) (userID tenantID externalUserID : string) (d : tables)
    (ts : ws_table) : option ws_table :=
  let h := HashSecret (d_token w) in
  if d_stmt w 0 && d_stmt w 1 && d_stmt w 2 && bool_decide (tenantID ∈ tenants d) && row_exists (users d) userID
     && bool_decide (ts !! h = None)
  then Some (<[h := WsRow tenantID userID (nullIfEmpty externalUserID) "active" (now + webSocketTokenTTL)]> ts)
  else None.

(** The handler: a status, and the token when it is 201.  A body that is missing or of
    another form leaves the fields that it does not give empty. *)
Definition WebSocketToken (w : draw) (now : Z) (p : Principal) (body : option json) (d : tables) (ts : ws_table)
    : Z * option string * ws_table :=
  let b := default JNull body in
  let own := or_empty (tenant_id p) in
  if negb (is_platform_admin p) && bool_decide (member b "tenant_id" <> "" /\ member b "tenant_id" <> own)
  then (403, None, ts)
  else
    let tenantID := if is_platform_admin p then member b "tenant_id" else own in
    if decide (tenantID = "") then (400, None, ts)
    else
      match CreateWebSocketToken w now (user_id p) tenantID (member b "external_user_id") d ts with
      | Some ts => (201, Some (d_token w), ts)
      | None => (500, None, ts)
      end.

(** The query of an active token, and the statement after it, whose error is dropped:
    other connections come in between. *)
Definition ws_select (now : Z) (token : string) (ts : ws_table) : option peer :=
  r ← ts !! HashSecret token;
  if bool_decide (w_status r = "active" /\ now < w_expires r)
  then Some (Peer "ws_token" (w_tenant r) (w_user r) "" (or_empty (w_external r))) else None.
Definition ws_use (w : draw) (token : string) (ts : ws_table) : ws_table :=
  if d_stmt w 1 then alter (fun r => r <| w_status := "used" |>) (HashSecret token) ts else ts.

Definition validateToken (w : draw) (now : Z) (token : string) (ts : ws_table) : option peer * ws_table :=
  match (if d_stmt w 0 then ws_select now token ts else None) with
  | Some x => (Some x, ws_use w token ts)
  | None =>
      match verify now token with
      | Some c => (Some (Peer "jwt" (or_empty (tenant_id (c_principal c))) (user_id (c_principal c)) "" ""), ts)
      | None => (None, ts)
      end
  end.

(** The token of a request: its parameter, else what its header bears. *)
Definition socket_token (parameter authorization : string) : string :=
  if decide (parameter <> "") then parameter
  else if starts_with "Bearer " authorization then drop 7 authorization else "".

(** [ServeWS], up to the protocol of the connection: 401, or the peer. *)
Definition ServeWS (w : draw) (now : Z) (parameter authorization : string) (ts : ws_table)
    : (Z + peer) * ws_table :=
  let token := socket_token parameter authorization in
  if decide (token = "") then (inl 401, ts)
  else match validateToken w now token ts with
       | (Some x, ts) => (inr x, ts)
       | (None, ts) => (inl 401, ts)
       end.

(** * Connections over time *)

(** What happens: a token is asked for; a connection is opened; the inbox changes in any
    way; the query of the unread messages of a connection is answered from it; or the
    hub goes on. *)
Inductive move :=
| MIssue (w : draw) (now : Z) (p : Principal) (body : option json) (d : tables)
| MOpen (i : nat) (w : draw) (now : Z) (parameter authorization : string)
| MInbox (rows : inbox)
| MUnread (i : nat)
| MHub (e : Hub.event).

Record sockets := Sockets { so_tokens : ws_table; so_hub : hub; so_inbox : inbox }.

(** The hub takes up a connection only by [ServeWS], and reads the inbox as it is. *)
Definition connects (e : Hub.event) : bool := match e with EConnect _ _ _ _ => true | _ => false end.
Definition reads (e : Hub.event) : bool := match e with EUnread _ _ => true | _ => false end.

Definition move_step (m : move) (s : sockets) : option sockets :=
  match m with
  | MIssue w now p body d => Some (Sockets (WebSocketToken w now p body d (so_tokens s)).2 (so_hub s) (so_inbox s))
  | MOpen i w now parameter authorization =>
      match ServeWS w now parameter authorization (so_tokens s) with
      | (inl _, ts) => Some (Sockets ts (so_hub s) (so_inbox s))
      | (inr x, ts) =>
          match Hub.step (EConnect i (p_tenant x) (p_contact x) (p_external x)) (so_hub s) with
          | Goes h => Some (Sockets ts h (so_inbox s))
          | _ => None
          end
      end
  | MInbox rows => Some (Sockets (so_tokens s) (so_hub s) rows)
  | MUnread i =>
      match Hub.step (EUnread i (so_inbox s)) (so_hub s) with
      | Goes h => Some (Sockets (so_tokens s) h (so_inbox s))
      | _ => None
      end
  | MHub e =>
      if connects e || reads e then None
      else match Hub.step e (so_hub s) with Goes h => Some (Sockets (so_tokens s) h (so_inbox s)) | _ => None end
  end.
Fixpoint moves (ms : list move) (s : sockets) : option sockets :=
  match ms with [] => Some s | m :: ms => s ← move_step m s; moves ms s end.
Definition no_sockets : sockets := Sockets ∅ no_hub [].

Lemma moves_app ms ms' s : moves (ms ++ ms') s = s1 ← moves ms s; moves ms' s1.
Proof. revert s. induction ms as [|m ms IH]; intros s; simpl; [done|]. by destruct (move_step m s); simpl. Qed.

(** * Tokens *)

(** The tenant and the external user that a token is asked for. *)
Definition asked_tenant (p : Principal) (body : option json) : string :=
  if is_platform_admin p then member (default JNull body) "tenant_id" else or_empty (tenant_id p).
Definition asked_external (body : option json) : string := member (default JNull body) "external_user_id".

Lemma WebSocketToken_spec w now p body d ts :
  (WebSocketToken w now p body d ts).2 = ts
  \/ ts !! HashSecret (d_token w) = None
     /\ (WebSocketToken w now p body d ts).1 = (201, Some (d_token w))
     /\ asked_tenant p body <> "" /\ asked_tenant p body ∈ tenants d
     /\ (WebSocketToken w now p body d ts).2
       = <[HashSecret (d_token w) :=
            WsRow (asked_tenant p body) (user_id p) (nullIfEmpty (asked_external body)) "active"
              (now + webSocketTokenTTL)]> ts.
Proof.
  unfold WebSocketToken, asked_tenant, asked_external. destruct (_ && bool_decide _); [by left|].
  case_decide as Ht; [by left|]. unfold CreateWebSocketToken.
  destruct (_ && bool_decide (ts !! _ = None)) eqn:E; [right|by left].
  rewrite !andb_true_iff, !bool_decide_eq_true in E. destruct E as [[[_ Hin] _] Hf].
  repeat split; assumption.
Qed.

(** What opens a connection: a token asked for less than its time ago, or an access token. *)
Definition vouched (ms : list move) (now : Z) (token tenantID externalUserID : string) : Prop :=
  (exists w0 now0 p body d, MIssue w0 now0 p body d ∈ ms /\ HashSecret (d_token w0) = HashSecret token
     /\ now < now0 + webSocketTokenTTL /\ tenantID = asked_tenant p body /\ externalUserID = asked_external body)
  \/ exists c, verify now token = Some c /\ tenantID = or_empty (tenant_id (c_principal c)) /\ externalUserID = "".

Definition issued (ms : list move) (h : string) (r : ws_row) : Prop :=
  exists w0 now0 p body d, MIssue w0 now0 p body d ∈ ms /\ HashSecret (d_token w0) = h
    /\ w_tenant r = asked_tenant p body /\ w_external r = nullIfEmpty (asked_external body)
    /\ w_expires r = now0 + webSocketTokenTTL.

Lemma or_empty_null x : or_empty (nullIfEmpty x) = x.
Proof. unfold nullIfEmpty. by case_decide; subst. Qed.

Lemma validateToken_spec w now token ts :
  (forall x, (validateToken w now token ts).1 = Some x ->
     (exists r, ts !! HashSecret token = Some r /\ w_status r = "active" /\ now < w_expires r
        /\ x = Peer "ws_token" (w_tenant r) (w_user r) "" (or_empty (w_external r)))
     \/ exists c, verify now token = Some c
        /\ x = Peer "jwt" (or_empty (tenant_id (c_principal c))) (user_id (c_principal c)) "" "")
  /\ (forall h, (validateToken w now token ts).2 !! h = ts !! h
       \/ h = HashSecret token /\ (validateToken w now token ts).2 !! h = (fun r => r <| w_status := "used" |>) <$> ts !! h).
Proof.
  unfold validateToken. destruct (if d_stmt w 0 then _ else _) as [x|] eqn:E; simpl.
  - split.
    + intros y [= <-]. left. destruct (d_stmt w 0); [|done]. unfold ws_select in E.
      destruct (ts !! HashSecret token) as [r|]; [|done]. cbn [mbind option_bind] in E.
      case_bool_decide as Ha; [|done]. injection E as <-. exists r. tauto.
    + intros h. unfold ws_use. destruct (d_stmt w 1); [|by left].
      destruct (decide (h = HashSecret token)) as [->|Hne]; [right|left].
      * split; [done|]. by rewrite lookup_alter_eq.
      * by rewrite lookup_alter_ne.
  - destruct (verify now token) as [c|]; simpl; (split; [|by left]); [|done].
    intros x [= <-]. right. by exists c.
Qed.

(** * The hub behind the tokens *)

(** The hub's own moves make no connection and change nobody's place. *)
Lemma step_places e h h' i c' :
  connects e = false -> Hub.step e h = Goes h' -> conns h' !! i = Some c' ->
  exists c, conns h !! i = Some c /\ c_tenant c' = c_tenant c /\ c_external c' = c_external c.
Proof.
  assert (Hall : forall d ids h h', send_all d ids h = Some h' -> same_places h h').
  { intros d ids. induction ids as [|j ids IH]; intros h0 h1; [intros [= <-]; apply same_places_refl|].
    rewrite send_all_cons. destruct (send_to d j h0) as [h2|] eqn:E; [|done]. cbn [mbind option_bind]. intros Hr.
    eapply same_places_trans; [|by apply IH]. by apply send_to_spec in E as [E _]. }
  assert (Hsame : forall h0 h1, same_places h0 h1 -> conns h1 !! i = Some c' ->
    exists c, conns h0 !! i = Some c /\ c_tenant c' = c_tenant c /\ c_external c' = c_external c).
  { intros h0 h1 (_ & _ & _ & _ & Hp) Hi. specialize (Hp i). rewrite Hi in Hp. destruct (conns h0 !! i) as [c|]; [|done].
    simpl in Hp. exists c. split; [done|]. split; congruence. }
  intros He Hs Hi. destruct e as [j t k x|j| |t d|t x d|j rows|j|j]; [done|..]; cbn [Hub.step] in Hs.
  - case_bool_decide; [|done]. injection Hs as <-. by exists c'.
  - destruct (received h) as [[j|j]|]; [..|done]; injection Hs as <-.
    + unfold join in Hi. destruct (conns h !! j); by exists c'.
    + unfold leave in Hi. destruct (conns h !! j) as [c|] eqn:Hc; [|by exists c']. case_decide; [|by exists c'].
      simpl in Hi. apply lookup_insert_Some in Hi as [[<- <-]|[_ Hi]]; [by exists c|by exists c'].
  - destruct (BroadcastToTenant t d h) as [h1|] eqn:E; [|done]. injection Hs as <-. by apply (Hsame h h1); [eapply Hall|].
  - destruct (BroadcastToUser t x d h) as [h1|] eqn:E; [|done]. injection Hs as <-. by apply (Hsame h h1); [eapply Hall|].
  - destruct (conns h !! j) as [c|] eqn:Hc; [|done]. destruct (syncing h !! j); [done|]. injection Hs as <-. by exists c'.
  - destruct (syncing h !! j) as [[|d ds]|]; [done| |done].
    destruct (send_to _ _ _) as [h1|] eqn:E; [|done]. injection Hs as <-. apply send_to_spec in E as [E _].
    exact (Hsame (h <| syncing := <[j := ds]> (syncing h) |>) h1 E Hi).
  - destruct (conns h !! j) as [c|] eqn:Hc; [|done]. injection Hs as <-. simpl in Hi.
    apply lookup_insert_Some in Hi as [[<- <-]|[_ Hi]]; [by exists c|by exists c'].
Qed.

(** Where an event of the hub comes from; a query is answered from the inbox as it is. *)
Definition queried (ms : list move) (i : nat) (rows : inbox) : Prop :=
  exists ms1 ms2 s, ms = ms1 ++ MUnread i :: ms2 /\ moves ms1 no_sockets = Some s /\ so_inbox s = rows.
Definition heard (ms : list move) (e : Hub.event) : Prop :=
  match e with
  | EConnect _ _ _ _ => True
  | EUnread i rows => queried ms i rows
  | _ => MHub e ∈ ms
  end.

Record kept_safe (ms : list move) (s : sockets) : Prop := {
  kept_tokens : forall h r, so_tokens s !! h = Some r -> issued ms h r;
  kept_opened : forall i c, conns (so_hub s) !! i = Some c -> exists w now parameter authorization,
    MOpen i w now parameter authorization ∈ ms
    /\ vouched ms now (socket_token parameter authorization) (c_tenant c) (c_external c);
  kept_runs : exists es, runs es (so_hub s) /\ forall e, e ∈ es -> heard ms e }.

Lemma vouched_more ms ms' now token t x : (forall m, m ∈ ms -> m ∈ ms') -> vouched ms now token t x -> vouched ms' now token t x.
Proof. intros Hm. unfold vouched. naive_solver. Qed.

Lemma heard_more ms m e : heard ms e -> heard (ms ++ [m]) e.
Proof.
  destruct e; simpl; try (intros H; apply elem_of_app; by left); [done|].
  intros (ms1 & ms2 & s & -> & Hs & Hr). exists ms1, (ms2 ++ [m]), s. by rewrite <- app_assoc.
Qed.

Lemma kept_more ms m s : kept_safe ms s -> kept_safe (ms ++ [m]) s.
Proof.
  assert (Hm : forall x, x ∈ ms -> x ∈ ms ++ [m]) by (intros x Hx; apply elem_of_app; by left).
  intros [H1 H2 (es & H3 & H4)]. split.
  - intros h r Hh. destruct (H1 h r Hh) as (w0 & now0 & p & body & d & Hin & ?). exists w0, now0, p, body, d. auto.
  - intros i c Hi. destruct (H2 i c Hi) as (w & now & q & a & Hin & Hv). exists w, now, q, a.
    split; [auto|by eapply vouched_more].
  - exists es. split; [done|]. intros e He. by apply heard_more, H4.
Qed.

Lemma ServeWS_spec w now q a ts ts' o :
  ServeWS w now q a ts = (o, ts') ->
  (forall x, o = inr x ->
     (exists r, ts !! HashSecret (socket_token q a) = Some r /\ now < w_expires r
        /\ p_tenant x = w_tenant r /\ p_external x = or_empty (w_external r))
     \/ exists c, verify now (socket_token q a) = Some c
        /\ p_tenant x = or_empty (tenant_id (c_principal c)) /\ p_external x = "")
  /\ forall h r', ts' !! h = Some r' -> exists r, ts !! h = Some r /\ w_tenant r' = w_tenant r
       /\ w_external r' = w_external r /\ w_expires r' = w_expires r.
Proof.
  unfold ServeWS. case_decide; [intros [= <- <-]; split; [done|]; intros h r' Hr; by exists r'|].
  destruct (validateToken_spec w now (socket_token q a) ts) as [Hx Hts].
  destruct (validateToken _ _ _ _) as [ox ts1]. simpl in *. intros E.
  assert (ts1 = ts') as -> by (destruct ox; by simplify_eq). split.
  - intros x ->. assert (ox = Some x) as -> by (destruct ox; by simplify_eq).
    destruct (Hx x eq_refl) as [(r & Hr & _ & Hn & ->)|(c & Hc & ->)]; [left; by exists r|right; by exists c].
  - intros h r' Hr. destruct (Hts h) as [E1|[-> E1]]; rewrite Hr in E1; [by exists r'|].
    destruct (ts !! HashSecret (socket_token q a)) as [r|]; [|done]. injection E1 as ->. by exists r.
Qed.

Lemma kept_step ms m s s' :
  moves ms no_sockets = Some s -> kept_safe ms s -> move_step m s = Some s' -> kept_safe (ms ++ [m]) s'.
Proof.
  intros Hms Hk. pose proof (kept_more ms m s Hk) as [H1 H2 (es & H3 & H4)].
  assert (Hm : m ∈ ms ++ [m]) by (apply elem_of_app; right; by apply list_elem_of_singleton).
  destruct m as [w now p body d|i w now q a|rows|i|e]; cbn [move_step].
  - intros [= <-]. split; simpl; [|done|by exists es]. intros h r.
    destruct (WebSocketToken_spec w now p body d (so_tokens s)) as [->|(Hf & _ & _ & _ & ->)]; [apply H1|].
    intros [[<- <-]|[_ Hr]]%lookup_insert_Some; [|by apply H1]. by exists w, now, p, body, d.
  - destruct (ServeWS w now q a (so_tokens s)) as [o ts] eqn:E. apply ServeWS_spec in E as [Hx Hts].
    assert (Ht : forall h r, ts !! h = Some r -> issued (ms ++ [MOpen i w now q a]) h r).
    { intros h r' (r & Hr & E1 & E2 & E3)%Hts. destruct (H1 h r Hr) as (w0 & now0 & p & body & d & Hall).
      exists w0, now0, p, body, d. rewrite E1, E2, E3. exact Hall. }
    destruct o as [st|x]; [intros [= <-]; by split; simpl; [|done|exists es]|].
    destruct (Hub.step _ (so_hub s)) as [| |h1] eqn:Hs; [done..|]. intros [= <-]. split; simpl; [done| |].
    + cbn [Hub.step] in Hs. case_bool_decide; [|done]. injection Hs as <-. simpl.
      intros j c [[<- <-]|[_ Hc]]%lookup_insert_Some; [|by apply H2].
      exists w, now, q, a. split; [done|]. simpl.
      destruct (Hx x eq_refl) as [(r & Hr & Hn & -> & ->)|(cl & Hv & -> & ->)]; [left|right; by exists cl].
      destruct (H1 _ _ Hr) as (w0 & now0 & p & body & d & Hin & Hh & -> & -> & He). exists w0, now0, p, body, d.
      rewrite or_empty_null. split_and!; try done. lia.
    + exists (es ++ [EConnect i (p_tenant x) (p_contact x) (p_external x)]). split; [by eapply runs_step|].
      intros e [He|He%list_elem_of_singleton]%elem_of_app; [by apply H4|by subst].
  - intros [= <-]. split; simpl; [done..|by exists es].
  - destruct (Hub.step _ (so_hub s)) as [| |h1] eqn:Hs; [done..|]. intros [= <-]. split; simpl; [done| |].
    + intros j c' Hj. destruct (step_places (EUnread i (so_inbox s)) _ _ _ _ eq_refl Hs Hj) as (c & Hi & -> & ->). by apply H2.
    + exists (es ++ [EUnread i (so_inbox s)]). split; [by eapply runs_step|].
      intros e' [He|He%list_elem_of_singleton]%elem_of_app; [by apply H4|subst e']. by exists ms, [], s.
  - destruct (connects e || reads e) eqn:Hc; [done|]. apply orb_false_iff in Hc as [Hc Hq].
    destruct (Hub.step e (so_hub s)) as [| |h1] eqn:Hs; [done..|].
    intros [= <-]. split; simpl; [done| |].
    + intros j c' Hj. destruct (step_places e _ _ _ _ Hc Hs Hj) as (c & Hi & -> & ->). by apply H2.
    + exists (es ++ [e]). split; [by eapply runs_step|].
      intros e' [He|He%list_elem_of_singleton]%elem_of_app; [by apply H4|subst e'; by destruct e].
Qed.

Lemma moves_kept ms s : moves ms no_sockets = Some s -> kept_safe ms s.
Proof.
  revert s. induction ms as [|m ms IH] using rev_ind; intros s.
  - intros [= <-]. split; [done|done|]. exists []. split; [constructor|]. by intros e ?%elem_of_nil.
  - rewrite moves_app. destruct (moves ms no_sockets) as [s1|] eqn:E1; [|done]. simpl.
    destruct (move_step m s1) as [s2|] eqn:E; [|done]. simpl. intros [= <-]. by eapply kept_step; [exact E1|by apply IH|].
Qed.

(** A message of the inbox as a connection is sent it: an unread one of its tenant, for
    its contact or for its external user. *)
Definition own_unread (c : conn) (rows : inbox) (d : note) : Prop :=
  exists id r, (id, r) ∈ rows /\ d = Note id (i_title r) (i_body r) (i_data r) "in_app"
    /\ i_tenant r = c_tenant c /\ i_status r = "unread"
    /\ (i_contact r = Some (c_contact c) \/ (i_external r = Some (c_external c) /\ c_external c <> "")).

Lemma SyncUnread_own c rows d :
  d ∈ SyncUnread (c_tenant c) (c_contact c) (c_external c) rows -> own_unread c rows d.
Proof.
  intros ([id r] & -> & Hin)%list_elem_of_fmap. apply elem_of_take in Hin as (n & Hin%list_elem_of_lookup_2 & _).
  apply elem_of_filter_by in Hin as [Hu Hin]. apply bool_decide_eq_true in Hu. simpl in Hu. exists id, r. naive_solver.
Qed.

(** C23: every connection is vouched for.  In any order of requests for tokens, openings,
    changes of the inbox, queries of it and turns of the hub, a connection was opened
    either with a token asked for less than its time ago, by a user of the
    connection's tenant or by a platform user for that tenant, and for its external
    user; or with an access token of a user of that tenant.  And whatever it was given
    was told to its tenant, or to its external user there, or was, when the handler of
    the connection read the inbox, an unread message of its tenant for its contact or
    its external user. *)
Theorem connections_are_vouched_for ms s i c :
  moves ms no_sockets = Some s -> conns (so_hub s) !! i = Some c ->
  (exists w now parameter authorization, MOpen i w now parameter authorization ∈ ms
     /\ vouched ms now (socket_token parameter authorization) (c_tenant c) (c_external c))
  /\ forall d, d ∈ seen c ->
       MHub (EBroadcast (c_tenant c) d) ∈ ms \/ MHub (EBroadcastUser (c_tenant c) (c_external c) d) ∈ ms
       \/ exists ms1 ms2 s1, ms = ms1 ++ MUnread i :: ms2 /\ moves ms1 no_sockets = Some s1
            /\ own_unread c (so_inbox s1) d.
Proof.
  intros Hm Hi. destruct (moves_kept ms s Hm) as [_ Ho (es & Hr & Hes)]. split; [by apply Ho|].
  intros d Hd. destruct (wf_source _ _ (runs_wf _ _ Hr) i c d Hi Hd) as [He|[He|(rows & He & Hin)]];
    [left; by apply Hes in He|right; left; by apply Hes in He|right; right].
  apply Hes in He as (ms1 & ms2 & s1 & E & Hs1 & <-). exists ms1, ms2, s1. split; [done|]. split; [done|].
  by apply SyncUnread_own.
Qed.

(** A token that was used stays so: its hash is not given to another. *)
Definition used_up (h : string) (s : sockets) : Prop := exists r, so_tokens s !! h = Some r /\ w_status r = "used".

Lemma used_up_kept h ms s s' : used_up h s -> moves ms s = Some s' -> used_up h s'.
Proof.
  revert s. induction ms as [|m ms IH]; intros s Hu; simpl; [by intros [= <-]|].
  destruct (move_step m s) as [s1|] eqn:E; [|done]. simpl. apply IH. destruct Hu as (r & Hr & Hs).
  assert (Hopen : forall w now q a o ts, ServeWS w now q a (so_tokens s) = (o, ts) ->
    exists r', ts !! h = Some r' /\ w_status r' = "used").
  { intros w now q a o ts. unfold ServeWS. case_decide; [intros [= _ <-]; by exists r|].
    destruct (validateToken_spec w now (socket_token q a) (so_tokens s)) as [_ Hts].
    destruct (validateToken _ _ _ _) as [ox ts1]. simpl in Hts. intros Eo.
    assert (ts1 = ts) as -> by (destruct ox; by simplify_eq).
    destruct (Hts h) as [->|[_ ->]]; rewrite Hr; [by exists r|]. simpl. by eexists. }
  destruct m as [w now p body d|i w now q a|rows|i|e]; cbn [move_step] in E.
  - injection E as <-. unfold used_up. simpl.
    destruct (WebSocketToken_spec w now p body d (so_tokens s)) as [->|(Hf & _ & _ & _ & ->)]; [by exists r|].
    exists r. split; [|done]. rewrite lookup_insert_ne; [done|congruence].
  - destruct (ServeWS w now q a (so_tokens s)) as [o ts] eqn:Eo. specialize (Hopen w now q a o ts Eo).
    destruct o as [st|x]; [by injection E as <-|]. destruct (Hub.step _ _); [done..|]. by injection E as <-.
  - injection E as <-. by exists r.
  - destruct (Hub.step _ _); [done..|]. injection E as <-. by exists r.
  - destruct (connects e || reads e); [done|]. destruct (Hub.step e _); [done..|]. injection E as <-. by exists r.
Qed.

(** A token opens one connection.  Once a connection was opened with a token of
    its own and the statement that marks it did not fail, the token opens no other, in
    whatever happens later, but as an access token. *)
Theorem socket_tokens_open_once w now parameter authorization x s ts h rows ms s' w' now' parameter' authorization' y ts' :
  ServeWS w now parameter authorization (so_tokens s) = (inr x, ts) -> p_principal x = "ws_token" -> d_stmt w 1 = true ->
  moves ms (Sockets ts h rows) = Some s' ->
  socket_token parameter' authorization' = socket_token parameter authorization ->
  ServeWS w' now' parameter' authorization' (so_tokens s') = (inr y, ts') -> p_principal y = "jwt".
Proof.
  intros Ho Hx Hw Hm Htok Ho'.
  assert (Hu : used_up (HashSecret (socket_token parameter authorization)) (Sockets ts h rows)).
  { unfold ServeWS in Ho. case_decide; [done|]. unfold validateToken in Ho.
    destruct (if d_stmt w 0 then _ else _) as [x'|] eqn:E.
    - injection Ho as -> <-. destruct (d_stmt w 0); [|done]. unfold ws_select in E.
      destruct (so_tokens s !! _) as [r|] eqn:Hr; [|done]. unfold used_up, ws_use. rewrite Hw. simpl.
      exists (r <| w_status := "used" |>). split; [|done]. by rewrite lookup_alter_eq, Hr.
    - destruct (verify now _); [|done]. injection Ho as <- _. done. }
  destruct (used_up_kept _ _ _ _ Hu Hm) as (r & Hr & Hs). unfold ServeWS in Ho'. rewrite Htok in Ho'.
  case_decide; [done|]. unfold validateToken in Ho'.
  assert (E : ws_select now' (socket_token parameter authorization) (so_tokens s') = None).
  { unfold ws_select. rewrite Hr. cbn [mbind option_bind]. rewrite bool_decide_false; [done|]. rewrite Hs. by intros []. }
  rewrite E in Ho'. assert (En : (if d_stmt w' 0 then None else None : option peer) = None) by by destruct (d_stmt w' 0).
  rewrite En in Ho'. destruct (verify now' _); [|done]. by injection Ho' as <- _.
Qed.

(** Two connections that ask for one token before either marks it are both opened; and
    so are all, when the statement that marks it fails. *)
Theorem one_token_two_connections w now token ts r :
  ts !! HashSecret token = Some r -> w_status r = "active" -> now < w_expires r ->
  let x := Peer "ws_token" (w_tenant r) (w_user r) "" (or_empty (w_external r)) in
  (ws_select now token ts = Some x /\ ws_select now token (ws_use w token ts) = (if d_stmt w 1 then None else Some x))
  /\ (d_stmt w 0 = true -> d_stmt w 1 = false -> validateToken w now token ts = (Some x, ts)).
Proof.
  intros Hr Hs Hn x.
  assert (E : ws_select now token ts = Some x).
  { unfold ws_select. rewrite Hr. cbn [mbind option_bind]. by rewrite bool_decide_true. }
  split; [split; [done|]|].
  - unfold ws_use. destruct (d_stmt w 1); [|done]. unfold ws_select. rewrite lookup_alter_eq, Hr.
    cbn [fmap option_fmap option_map mbind option_bind]. by rewrite bool_decide_false by (simpl; by intros []).
  - intros H0 H1. unfold validateToken, ws_use. by rewrite H0, H1, E.
Qed.
End Tokens.

(** * The inbox *)

Definition mark_read (r : inbox_row) : inbox_row :=
  if decide (i_status r = "unread") then r <| i_status := "read" |> else r.
(** [UPDATE ... SET status = 'read' WHERE tenant_id = ... AND status = 'unread'] *)
Definition mark (f : string -> bool) (tenantID : string) (rows : inbox) : inbox :=
  map (fun ir => if f ir.1 && bool_decide (i_tenant ir.2 = tenantID) then (ir.1, mark_read ir.2) else ir) rows.

Section Marks.
(** Which texts the database takes for a uuid; another is an error. *)
Variable uuid : string -> bool.

Definition MarkInAppRead (db : bool) (p : Principal) (i : string) (rows : inbox) : Z * inbox :=
  let t := or_empty (tenant_id p) in
  if db && uuid i && uuid t then (200, mark (fun j => bool_decide (j = i)) t rows) else (500, rows).
Definition MarkAllInAppRead (db : bool) (p : Principal) (rows : inbox) : Z * inbox :=
  let t := or_empty (tenant_id p) in
  if db && uuid t then (200, mark (fun _ => true) t rows) else (500, rows).

(** The messages of a tenant, of a status when one is asked for; what is unread. *)
Definition ListInAppNotifications (db : bool) (p : Principal) (status : string) (rows : inbox) : Z * inbox :=
  let t := or_empty (tenant_id p) in
  if db && uuid t then
    (200, filter_by (fun ir => bool_decide (i_tenant ir.2 = t) && (bool_decide (status = "") || bool_decide (i_status ir.2 = status))) rows)
  else (500, []).
Definition SyncInApp (db : bool) (p : Principal) (rows : inbox) : Z * inbox :=
  let t := or_empty (tenant_id p) in
  if db && uuid t then
    (200, take 50 (filter_by (fun ir => bool_decide (i_tenant ir.2 = t /\ i_status ir.2 = "unread")) rows))
  else (500, []).

(** [ackFn], as it is set by a connection: only while that connection is being opened. *)
Definition acknowledge (db : bool) (tenantID i : string) (rows : inbox) : inbox :=
  if db && uuid i && uuid tenantID then mark (fun j => bool_decide (j = i)) tenantID rows else rows.

(** All read by one is read for all of its tenant, and for nobody else. *)
Theorem read_by_one_is_read_by_all p q db db' rows rows' :
  MarkAllInAppRead db p rows = (200, rows') ->
  ((SyncInApp db' q rows').1 = 200 -> or_empty (tenant_id q) = or_empty (tenant_id p) -> (SyncInApp db' q rows').2 = [])
  /\ (or_empty (tenant_id q) <> or_empty (tenant_id p) ->
        SyncInApp db' q rows' = SyncInApp db' q rows
        /\ forall st, ListInAppNotifications db' q st rows' = ListInAppNotifications db' q st rows).
Proof.
  unfold MarkAllInAppRead. destruct (db && _); [|done]. intros [= <-]. set (t := or_empty (tenant_id p)). split.
  - intros _ Hq. unfold SyncInApp. destruct (db' && _); [|done]. simpl. rewrite Hq. fold t.
    rewrite filter_by_none; [done|]. apply Forall_forall. intros [i r] Hin. unfold mark in Hin. apply list_elem_of_fmap in Hin as ([j r0] & E & _).
    simpl in E. apply bool_decide_eq_false. intros [Ht Hs]. simpl in *. case_bool_decide as Ht0; simplify_eq.
    unfold mark_read in Hs. case_decide; done.
  - intros Hq. assert (Hf : forall f : string * inbox_row -> bool,
      (forall i r, i_tenant r = t -> f (i, r) = false) -> filter_by f (mark (fun _ => true) t rows) = filter_by f rows).
    { intros f Hf. unfold mark. induction rows as [|[i r] rows IH]; [done|]. cbn [map filter_by]. rewrite IH.
      cbn [andb fst snd]. case_bool_decide as Ht; [|done]. rewrite !Hf; [done|done|].
      unfold mark_read. by case_decide. }
    unfold SyncInApp, ListInAppNotifications. split; [|intros st]; (destruct (db' && _); [|done]).
    + do 2 f_equal. apply Hf. intros i r Ht. apply bool_decide_eq_false. simpl. intros []. congruence.
    + f_equal. apply Hf. intros i r Ht. rewrite bool_decide_false; [done|]. simpl. congruence.
Qed.
End Marks.

(** * Samples *)

Definition no_access (now : Z) (token : string) : option claims := None.
Definition minute : Z := 60 * second.
Definition ask_t1 : option json := Some (JObj [("tenant_id", JStr "t1"); ("external_user_id", JStr "ext-1")]).
Definition drawn (token : string) : draw := Draw (fun _ => true) token.
(** A message of another tenant, one of another user, and one of the visitor. *)
Definition three_rows : inbox :=
  [("n1", InboxRow "t2" "" None (Some "ext-1") "Theirs" "" ∅ "unread");
   ("n2", InboxRow "t1" "" None (Some "ext-2") "Other" "" ∅ "unread");
   ("n3", InboxRow "t1" "" None (Some "ext-1") "Mine" "Hi" ∅ "unread")].
Definition visit : list move :=
  [MIssue (drawn "wst_1") 0 ann ask_t1 two_tenants; MInbox three_rows; MOpen 0 (drawn "") second "wst_1" ""; MHub ELoop;
   MUnread 0; MHub (ESync 0)].

Lemma connections_are_vouched_for_witness :
  exists s c, moves hash_of minute no_access visit no_sockets = Some s /\ conns (so_hub s) !! 0%nat = Some c
    /\ (c_tenant c, c_external c, seen c) = ("t1", "ext-1", [Note "n3" "Mine" "Hi" ∅ "in_app"])
    /\ (exists now, vouched hash_of minute no_access visit now "wst_1" (c_tenant c) (c_external c))
    /\ exists ms1 ms2 s1, visit = ms1 ++ MUnread 0 :: ms2 /\ moves hash_of minute no_access ms1 no_sockets = Some s1
         /\ own_unread c (so_inbox s1) (Note "n3" "Mine" "Hi" ∅ "in_app").
Proof.
  destruct (moves hash_of minute no_access visit no_sockets) as [s|] eqn:E; [|vm_compute in E; discriminate].
  destruct (conns (so_hub s) !! 0%nat) as [c|] eqn:Hc;
    [|injection E as <-; vm_compute in Hc; discriminate].
  assert (Hseen : (c_tenant c, c_external c, seen c) = ("t1", "ext-1", [Note "n3" "Mine" "Hi" ∅ "in_app"]))
    by (injection E as <-; vm_compute in Hc; by injection Hc as <-).
  exists s, c. split; [done|]. split; [done|]. split; [done|].
  destruct (connections_are_vouched_for hash_of minute no_access visit s 0 c E Hc) as [(w & now & q & a & Hin & Hv) Hsrc].
  injection Hseen as _ _ Hseen. split.
  - exists now. apply list_elem_of_In in Hin. destruct Hin as [?|[?|[Hm|[?|[?|[?|[]]]]]]]; try discriminate.
    injection Hm as _ _ <- <-. exact Hv.
  - destruct (Hsrc (Note "n3" "Mine" "Hi" ∅ "in_app")) as [H|[H|H]]; [rewrite Hseen; by left| | |exact H];
      apply list_elem_of_In in H; destruct H as [?|[?|[?|[?|[?|[?|[]]]]]]]; discriminate.
Defined.

Definition one_socket_token : ws_table := {["h:wst_1" := WsRow "t1" "u1" (Some "ext-1") "active" minute]}.

Lemma socket_tokens_open_once_witness :
  exists x ts, ServeWS hash_of no_access (drawn "") second "wst_1" "" one_socket_token = (inr x, ts)
    /\ forall y ts', ServeWS hash_of no_access (drawn "") second "" "Bearer wst_1" ts = (inr y, ts') -> p_principal y = "jwt".
Proof.
  eexists _, _. split; [reflexivity|]. intros y ts' Ey.
  by apply (socket_tokens_open_once hash_of minute no_access (drawn "") second "wst_1" "" _ (Sockets one_socket_token no_hub []) _
    no_hub [] [] _ (drawn "") second "" "Bearer wst_1" y ts' eq_refl eq_refl eq_refl eq_refl eq_refl).
Defined.
