(* ===== verification/Providers.v ===== *)
(** pages/providers/ProvidersPage.tsx: the catalog of provider types of the
    platform, and the provider settings of a tenant. *)
From S2P Require Import Prelude Js React Query Client Components Auth Api Page.

Inductive field_type := FText | FNumber | FPassword | FTextarea | FSelect.

(** A configuration field; its placeholder is left out. *)
Record field := Field {
  key : string; label : string; type_ : field_type; required : bool; sensitive : bool;
  options_ : list string }.

Record schema := Schema { title : string; docs : option string; fields : list field }.

Definition DEFAULT_PROVIDER_SCHEMAS : obj schema :=
  [
    ("mock_email", Schema "Mock email" None []);
    ("mock_sms", Schema "Mock SMS" None []);
    ("mock_fcm", Schema "Mock FCM" None []);
    ("websocket", Schema "Internal WebSocket" None []);
    ("in_app", Schema "In-app inbox" None []);
    ("database_inbox", Schema "Database inbox" None []);
    ("smtp", Schema "SMTP" (Some "Uses the platform SMTP adapter.")
      [Field "host" "SMTP host" FText true false [];
       Field "port" "Port" FNumber true false [];
       Field "username" "Username" FText false false [];
       Field "password" "Password" FPassword false true [];
       Field "from" "From address" FText true false []]);
    ("sendgrid", Schema "SendGrid" (Some "SendGrid Mail Send API uses Bearer API-key authentication.")
      [Field "api_key" "API key" FPassword true true [];
       Field "from" "Verified sender email" FText true false [];
       Field "from_name" "Sender name" FText false false [];
       Field "base_url" "Base URL" FText false false []]);
    ("mailgun", Schema "Mailgun" (Some "Mailgun messages API sends through /v3/{domain_name}/messages using API key credentials.")
      [Field "api_key" "API key or domain sending key" FPassword true true [];
       Field "domain" "Sending domain" FText true false [];
       Field "region" "Region" FSelect true false ["US"; "EU"];
       Field "from" "From address" FText true false []]);
    ("postmark", Schema "Postmark" (Some "Postmark authenticates with X-Postmark-Server-Token.")
      [Field "server_token" "Server token" FPassword true true [];
       Field "from" "From address" FText true false [];
       Field "message_stream" "Message stream" FText false false []]);
    ("brevo", Schema "Brevo" (Some "Brevo transactional email uses api-key header and /v3/smtp/email.")
      [Field "api_key" "API key" FPassword true true [];
       Field "sender_email" "Sender email" FText true false [];
       Field "sender_name" "Sender name" FText false false [];
       Field "template_id" "Default template ID" FNumber false false []]);
    ("resend", Schema "Resend" (Some "Resend send email API uses Bearer API-key authentication.")
      [Field "api_key" "API key" FPassword true true [];
       Field "from" "From address" FText true false []]);
    ("generic_http_sms", Schema "Generic HTTP SMS" (Some "Uses the platform generic HTTP SMS adapter.")
      [Field "url" "Endpoint URL" FText true false [];
       Field "method" "Method" FSelect true false ["POST"; "PUT"];
       Field "token" "Token" FPassword false true [];
       Field "token_header" "Token header" FText false false [];
       Field "phone_key" "Phone field key" FText false false [];
       Field "message_key" "Message field key" FText false false [];
       Field "timeout_seconds" "Timeout seconds" FNumber false false [];
       Field "body_pattern" "Body pattern JSON" FTextarea false false []]);
    ("sparrow", Schema "Sparrow SMS" None
      [Field "url" "Endpoint URL" FText true false [];
       Field "token" "Token" FPassword true true [];
       Field "from" "Identity / sender" FText false false [];
       Field "body_pattern" "Body pattern JSON" FTextarea false false []]);
    ("twilio", Schema "Twilio SMS" (Some "Twilio Messages API uses Account SID, Auth Token, From, To, and Body.")
      [Field "account_sid" "Account SID" FText true false [];
       Field "auth_token" "Auth token" FPassword true true [];
       Field "from" "From number or messaging service SID" FText true false [];
       Field "status_callback" "Status callback URL" FText false false []]);
    ("infobip", Schema "Infobip SMS" (Some "Infobip SMS API uses base URL, API key, sender, destinations, and text.")
      [Field "base_url" "Base URL" FText true false [];
       Field "api_key" "API key" FPassword true true [];
       Field "from" "Sender" FText true false []]);
    ("fcm", Schema "Firebase Cloud Messaging HTTP v1" (Some "FCM HTTP v1 uses a Firebase service account JSON or service account path.")
      [Field "service_account_json" "Service account JSON" FTextarea false true [];
       Field "service_account_path" "Service account path" FText false false []]);
    ("onesignal", Schema "OneSignal" None
      [Field "app_id" "App ID" FText true false [];
       Field "rest_api_key" "REST API key" FPassword true true []]);
    ("web_push_vapid", Schema "Web Push VAPID" None
      [Field "subject" "VAPID subject" FText true false [];
       Field "public_key" "VAPID public key" FText true false [];
       Field "private_key" "VAPID private key" FPassword true true []]) ].

Definition schema_of (provider : string) : option schema := oget DEFAULT_PROVIDER_SCHEMAS provider.

Definition PROVIDERS_BY_CHANNEL : obj (list string) :=
  [ ("email", ["mock_email"; "smtp"; "sendgrid"; "mailgun"; "postmark"; "brevo"; "mailjet";
               "sparkpost"; "resend"; "mandrill"; "ses"]);
    ("sms", ["mock_sms"; "generic_http_sms"; "sparrow"; "twilio"; "infobip"; "messagebird"; "vonage";
             "plivo"; "telnyx"; "sinch"; "aakash_sms"; "quickconnect"; "bangalink"; "ncell"; "ntc"]);
    ("fcm", ["mock_fcm"; "fcm"; "onesignal"; "expo"; "apns"; "hms_push"]);
    ("websocket", ["websocket"; "pusher"; "ably"; "socketio"]);
    ("in_app", ["in_app"; "database_inbox"]);
    ("web_push", ["web_push_vapid"; "onesignal_web_push"]);
    ("whatsapp", ["whatsapp_cloud"; "twilio_whatsapp"; "messagebird_whatsapp"]) ].

Definition providerLabel (provider : string) : string :=
  from_option title "" (schema_of provider) ||| spaced provider.

(** [values[key]?.trim()] *)
Definition value_of (values : obj string) (k : string) : string := trim (oget_str values k).

Definition config_value (f : field) (v : string) : json :=
  match type_ f with FNumber => JNum (Number v) | _ => JStr v end.

Definition providerConfigFromForm (provider : string) (values : obj string)
    (customRows : list (string * string)) : obj json :=
  match schema_of provider with
  | Some sc =>
      fold_left (fun out f =>
        let v := value_of values (key f) in
        if truthy v then oset out (key f) (config_value f v) else out) (fields sc) []
  | None =>
      fold_left (fun out row =>
        let k := trim row.1 in if truthy k then oset out k (JStr row.2) else out) customRows []
  end.

Definition missingRequiredProviderFields (provider : string) (values : obj string) : list string :=
  match schema_of provider with
  | None => []
  | Some sc =>
      map label (filter_by (fun f => required f && negb (truthy (value_of values (key f)))) (fields sc))
  end.

(** * State *)

Record ProviderTypeItem := TypeItem {
  p_provider : string; p_channel : string; p_description : string; p_tenant_count : Z; p_enabled : bool }.
#[export] Instance eta_item : Eta ProviderTypeItem := fun i =>
  TypeItem (p_provider i) (p_channel i) (p_description i) (p_tenant_count i) (p_enabled i).
Record TenantProviderConfig := Config {
  id : string; c_channel : string; c_provider : string; c_is_default : bool; c_status : string }.
#[export] Instance eta_config : Eta TenantProviderConfig := fun c =>
  Config (id c) (c_channel c) (c_provider c) (c_is_default c) (c_status c).
Record TenantChannel := Channel { ch_id : string; ch_channel : string; ch_enabled : bool }.

Record form_ := Form { f_channel : string; f_provider : string; f_status : string; f_is_default : bool }.
#[export] Instance eta_form : Eta form_ := fun f =>
  Form (f_channel f) (f_provider f) (f_status f) (f_is_default f).

Record state := State {
  items : list ProviderTypeItem; tenantConfigs : list TenantProviderConfig;
  channels : list TenantChannel; loading : bool; saving : string;
  editing : option TenantProviderConfig; showForm : bool; form : form_;
  configValues : obj string; customRows : list (string * string);
  meta_ : option Pagination.PaginationMeta; search : string; channelFilter : string;
  statusFilter : string; pg : Pagination.state; dialog : Confirm.state ProviderTypeItem }.
#[export] Instance eta_state : Eta state := fun s =>
  State (items s) (tenantConfigs s) (channels s) (loading s) (saving s) (editing s) (showForm s)
    (form s) (configValues s) (customRows s) (meta_ s) (search s) (channelFilter s)
    (statusFilter s) (pg s) (dialog s).

Definition initial : state :=
  State [] [] [] true "" None false (Form "" "" "active" false) [] [("", "")] None "" "" ""
    Pagination.usePagination Confirm.initial.

Definition set_dialog (f : Confirm.state ProviderTypeItem -> Confirm.state ProviderTypeItem) (s : state) : state :=
  s <| dialog := f (dialog s) |>.

Inductive action :=
| Search (v : string) | FilterChannel (v : string) | FilterStatus (v : string) | ClearFilters
| Paging (a : Pagination.action)
| ToggleType (i : ProviderTypeItem) | Dialog (a : Confirm.action ProviderTypeItem)
| Open (c : option TenantProviderConfig) | CloseForm | SetForm (f : form_)
| ChooseProvider (p : string) | SetValue (k v : string) | SetRows (rows : list (string * string))
| Save | ToggleStatus (c : TenantProviderConfig).

Inductive event : Type -> Type :=
| ListTypes (q ch en : string) (pg : Pagination.state) : event (ApiList ProviderTypeItem)
| ListConfigs (pg : Pagination.state) : event (ApiList TenantProviderConfig)
| ListConfigsAndChannels (pg : Pagination.state) : event (ApiList TenantProviderConfig * ApiList TenantChannel)
| PutType (provider : string) (enabled : bool) : event unit
| PutConfig (id : string) (b : json) : event unit
| PostConfig (b : json) : event unit.

Definition configs_request (p : Pagination.state) : request :=
  listPage "/admin/api/v1/providers" (page_params p).

Definition http (X : Type) (e : event X) : list request :=
  match e with
  | ListTypes q ch en p =>
      [listPage "/admin/api/v1/provider-types"
         ([("q", Some q); ("filter_channel", Some ch); ("filter_enabled", Some en)] ++ page_params p)]
  | ListConfigs p => [configs_request p]
  | ListConfigsAndChannels p =>
      [configs_request p; listPage "/admin/api/v1/channels" [("per_page", Some "100")]]
  | PutType p enabled =>
      [PUT ("/admin/api/v1/provider-types/" +:+ encodeURIComponent p) (JObj [("enabled", JBool enabled)])]
  | PutConfig id b => [PUT ("/admin/api/v1/providers/" +:+ id) b]
  | PostConfig b => [POST "/admin/api/v1/providers" b]
  end.

Section ProvidersPage.
Variable isPlatform : bool.
Variable can : string -> bool.

(** * Effects *)

Definition load (s : state) : prog event state :=
  set! (fun s => s <| loading := true |>) ;;
  if isPlatform then
    await! r <- ListTypes (search s) (channelFilter s) (statusFilter s) (pg s) ;;
    match r with
    | Ok res =>
        set! (fun s => s <| items := data res |>) ;;
        set! (fun s => s <| meta_ := meta res |>) ;;
        set! (fun s => s <| loading := false |>) ;; Done
    | Threw x =>
        emit! toast_error "Unable to load provider catalog" "Load failed" x ;;
        set! (fun s => s <| loading := false |>) ;; Done
    end
  else
    await! r <- ListConfigsAndChannels (pg s) ;;
    match r with
    | Ok (providers, channelRes) =>
        set! (fun s => s <| tenantConfigs := data providers |>) ;;
        set! (fun s => s <| meta_ := meta providers |>) ;;
        set! (fun s => s <| channels := filter_by ch_enabled (data channelRes) |>) ;;
        set! (fun s => s <| loading := false |>) ;; Done
    | Threw x =>
        emit! toast_error "Unable to load provider settings" "Load failed" x ;;
        set! (fun s => s <| loading := false |>) ;; Done
    end.

Definition filters (s : state) : list string := [search s; channelFilter s; statusFilter s].
Definition paging (s : state) : Z * Z := (Pagination.page (pg s), Pagination.perPage (pg s)).

Definition effects (r : option state) (s : state) : list (prog event state) :=
  (if changed filters r s
   then [ set! (fun s => s <| pg := Pagination.setPage 1 (pg s) |>) ;; Done ] else [])
  ++ (if changed filters r s || changed paging r s then [ load s ] else []).

(** * Handlers *)

Definition toggle (item : ProviderTypeItem) : prog event state :=
  let enabled := negb (p_enabled item) in
  set! (fun s => s <| saving := p_provider item |>) ;;
  await! r <- PutType (p_provider item) enabled ;;
  match r with
  | Ok _ =>
      set! (fun s => s <| items := map (fun p =>
        if decide (p_provider p = p_provider item) then p <| p_enabled := enabled |> else p) (items s) |>) ;;
      emit! success_msg (if enabled then "Provider enabled globally" else "Provider disabled globally")
        (spaced (p_provider item)) ;;
      set! (fun s => s <| saving := "" |>) ;; Done
  | Threw x =>
      emit! toast_error "Unable to update provider" "Update failed" x ;;
      set! (fun s => s <| saving := "" |>) ;; Done
  end.

Definition requestToggle (item : ProviderTypeItem) : prog event state :=
  if can "providers.update" then
    set! (set_pending set_dialog (Some (Confirm.Intent
      ((if p_enabled item then "Disable" else "Enable") +:+ " provider globally")
      (Some "Confirm global provider status change")
      (Some ("Change " +:+ spaced (p_provider item) +:+ " for every tenant?"))
      (Some (if p_enabled item then "Disable globally" else "Enable globally"))
      (p_enabled item) item))) ;; Done
  else Done.

Definition openProviderForm (item : option TenantProviderConfig) (s : state) : prog event state :=
  let blank_form :=
    match item with
    | Some i => Form (c_channel i) (c_provider i) (c_status i) (c_is_default i)
    | None => Form (from_option ch_channel "" (head (channels s))) "" "active" false
    end in
  set! (fun s => s <| editing := item |>) ;;
  set! (fun s => s <| form := blank_form |>) ;;
  set! (fun s => s <| configValues := [] |>) ;;
  set! (fun s => s <| customRows := [("", "")] |>) ;;
  set! (fun s => s <| showForm := true |>) ;; Done.

Definition save_body (s : state) : json :=
  let config := providerConfigFromForm (f_provider (form s)) (configValues s) (customRows s) in
  JObj ([("channel", JStr (f_channel (form s))); ("provider", JStr (f_provider (form s)));
         ("status", JStr (f_status (form s))); ("is_default", JBool (f_is_default (form s)))]
    ++ match config with [] => [] | _ => [("config_json", JStr (stringify (JObj config)))] end).

Definition save_failed (x : thrown) : prog event state :=
  emit! toast_error "Unable to save provider settings" "Save failed" x ;;
  set! (fun s => s <| saving := "" |>) ;; Done.

Definition saveTenantProvider (s : state) : prog event state :=
  if negb (truthy (f_channel (form s))) || negb (truthy (f_provider (form s))) then
    emit! failure "Provider and channel are required" ;; Done
  else
    let missing := missingRequiredProviderFields (f_provider (form s)) (configValues s) in
    if bool_decide (editing s = None) && negb (bool_decide (missing = [])) then
      emit! failure_msg "Missing provider settings" (join ", " missing) ;; Done
    else
      set! (fun s' => s' <| saving := from_option id "" (editing s) ||| "new-provider" |>) ;;
      await! r <- match editing s with Some e => PutConfig (id e) (save_body s) | None => PostConfig (save_body s) end ;;
      match r with
      | Threw x => save_failed x
      | Ok _ =>
          emit! success (match editing s with
                         | Some _ => "Provider settings updated" | None => "Provider settings created" end) ;;
          set! (fun s => s <| showForm := false |>) ;;
          set! (fun s => s <| editing := None |>) ;;
          await! r <- ListConfigs (pg s) ;;
          match r with
          | Threw x => save_failed x
          | Ok providers =>
              set! (fun s => s <| tenantConfigs := data providers |>) ;;
              set! (fun s => s <| meta_ := meta providers |>) ;;
              set! (fun s => s <| saving := "" |>) ;; Done
          end
      end.

Definition setTenantProviderStatus (item : TenantProviderConfig) (status : string) : prog event state :=
  set! (fun s => s <| saving := id item |>) ;;
  await! r <- PutConfig (id item) (JObj [("status", JStr status)]) ;;
  match r with
  | Ok _ =>
      set! (fun s => s <| tenantConfigs := map (fun p =>
        if decide (id p = id item) then p <| c_status := status |> else p) (tenantConfigs s) |>) ;;
      emit! success (if decide (status = "active") then "Provider enabled" else "Provider disabled") ;;
      set! (fun s => s <| saving := "" |>) ;; Done
  | Threw x =>
      emit! toast_error "Unable to update provider" "Update failed" x ;;
      set! (fun s => s <| saving := "" |>) ;; Done
  end.

Definition active (c : TenantProviderConfig) : bool := bool_decide (c_status c = "active").

Definition handle (a : action) (s : state) : prog event state :=
  match a with
  | Search v => set! (fun s => s <| search := v |>) ;; Done
  | FilterChannel v => set! (fun s => s <| channelFilter := v |>) ;; Done
  | FilterStatus v => set! (fun s => s <| statusFilter := v |>) ;; Done
  | ClearFilters =>
      set! (fun s => s <| search := "" |>) ;; set! (fun s => s <| channelFilter := "" |>) ;;
      set! (fun s => s <| statusFilter := "" |>) ;; Done
  | Paging a => set! (fun s => s <| pg := Pagination.apply a (pg s) |>) ;; Done
  | ToggleType i => requestToggle i
  | Dialog a => dialog_handle dialog set_dialog toggle a s
  | Open c => openProviderForm c s
  | CloseForm => set! (fun s => s <| showForm := false |>) ;; Done
  | SetForm f => set! (fun s => s <| form := f |>) ;; Done
  | ChooseProvider p =>
      let f := (form s) <| f_provider := p |> in
      set! (fun s => s <| form := f |>) ;; set! (fun s => s <| configValues := [] |>) ;;
      set! (fun s => s <| customRows := [("", "")] |>) ;; Done
  | SetValue k v =>
      let values := oset (configValues s) k v in
      set! (fun s => s <| configValues := values |>) ;; Done
  | SetRows rows => set! (fun s => s <| customRows := rows |>) ;; Done
  | Save => saveTenantProvider s
  | ToggleStatus c => setTenantProviderStatus c (if active c then "disabled" else "active")
  end.

(** * Views *)

Definition ProviderSelect (s : state) : node action :=
  let providers := default (okeys DEFAULT_PROVIDER_SCHEMAS) (oget PROVIDERS_BY_CHANNEL (f_channel (form s))) in
  Sel "Provider identifier" (f_provider (form s)) false
    (("", "Select provider") :: map (fun p => (p, providerLabel p)) providers) ChooseProvider.

Definition field_input (editing : bool) (values : obj string) (f : field) : node action :=
  let l := label f +:+ (if required f && negb editing then " *" else "") in
  match type_ f with
  | FSelect => Sel l (oget_str values (key f)) false
                 (("", "Select") :: map (fun o => (o, o)) (options_ f)) (SetValue (key f))
  | _ => Inp l (oget_str values (key f)) false (SetValue (key f))
  end.

Definition custom_row (rows : list (string * string)) (i : nat) (row : string * string) : list (node action) :=
  [ Inp "config_key" row.1 false (fun v => SetRows (map_at i (fun r => (v, r.2)) rows));
    Inp "value" row.2 false (fun v => SetRows (map_at i (fun r => (r.1, v)) rows));
    Btn "Remove" false (SetRows (remove_at i rows)) ].

Definition ProviderConfigEditor (s : state) : list (node action) :=
  let provider := f_provider (form s) in
  if negb (truthy provider) then [Txt "Select a provider to configure fields."]
  else match schema_of provider with
  | None =>
      [Txt "Custom provider fields"]
      ++ concat (map (fun ir => custom_row (customRows s) ir.1 ir.2) (imap pair (customRows s)))
      ++ [Btn "Add field" false (SetRows (customRows s ++ [("", "")]))]
  | Some sc =>
      match fields sc with
      | [] => [Txt (title sc +:+ " does not require provider credentials.")]
      | fs =>
          [Txt (title sc +:+ " settings")]
          ++ when (truthy (or_empty (docs sc))) [Txt (or_empty (docs sc))]
          ++ when (bool_decide (is_Some (editing s)))
               [Txt "Existing secrets are not shown. Leave secret fields blank unless you are rotating them."]
          ++ map (field_input (bool_decide (is_Some (editing s))) (configValues s)) fs
      end
  end.

Definition provider_form (s : state) : node action :=
  let f := form s in
  Modal.Modal (match editing s with Some _ => "Update provider settings" | None => "Add provider settings" end)
    "Config JSON is encrypted at rest and is never returned by read APIs." CloseForm
    ([ Sel "Allowed channel" (f_channel f) (bool_decide (is_Some (editing s)))
         (map (fun c => (ch_channel c, ch_channel c)) (channels s)) (fun v => SetForm (f <| f_channel := v |>));
       ProviderSelect s;
       Sel "Status" (f_status f) false [("active", "Active"); ("disabled", "Disabled")]
         (fun v => SetForm (f <| f_status := v |>));
       Chk "Default for channel" (f_is_default f) false (SetForm (f <| f_is_default := negb (f_is_default f) |>)) ]
     ++ ProviderConfigEditor s)
    [ Modal.ModalButton "Cancel" false CloseForm;
      Modal.ModalButton (if truthy (saving s) then "Saving..." else "Save provider") (truthy (saving s)) Save ].

Definition config_row (s : state) (c : TenantProviderConfig) : list (node action) :=
  [ Txt (c_provider c); Txt (spaced (c_channel c)); Txt (if c_is_default c then "Yes" else "No");
    Status.StatusToggle (active c) (if active c then "Enabled" else "Disabled")
      (negb (can "providers.update") || bool_decide (saving s = id c)) (ToggleStatus c);
    Btn "Edit" (negb (can "providers.update")) (Open (Some c)) ].

Definition tenant_view (s : state) : list (node action) :=
  when (can "providers.create") [Btn "Add provider" false (Open None)]
  ++ (if loading s then [Txt "Loading..."]
      else if bool_decide (length (tenantConfigs s) = 0%nat) then [Txt "No provider settings configured"]
      else concat (map (config_row s) (tenantConfigs s))
           ++ embed Paging (Pagination.TablePagination (meta_ s) (pg s)))
  ++ when (showForm s) [provider_form s]
  ++ embed Dialog (Confirm.confirmDialog (dialog s)).

Definition type_row (s : state) (i : ProviderTypeItem) : list (node action) :=
  [ Txt (spaced (p_provider i)); Txt (p_description i ||| "-"); Txt (spaced (p_channel i));
    Txt (pretty (p_tenant_count i) +:+ " tenant" +:+ (if p_tenant_count i =? 1 then "" else "s"));
    Status.StatusToggle (p_enabled i) ((if p_enabled i then "Disable " else "Enable ") +:+ p_provider i)
      (negb (can "providers.update") || bool_decide (saving s = p_provider i)) (ToggleType i) ].

Definition platform_view (s : state) : list (node action) :=
  [ Inp "Search providers" (search s) false Search;
    Sel "Channel" (channelFilter s) false
      [("", "All channels"); ("email", "Email"); ("sms", "SMS"); ("fcm", "FCM"); ("websocket", "WebSocket")]
      FilterChannel;
    Sel "Status" (statusFilter s) false [("", "All statuses"); ("true", "Enabled"); ("false", "Disabled")]
      FilterStatus ]
  ++ when (truthy (search s) || truthy (channelFilter s) || truthy (statusFilter s))
       [Btn "Clear filters" false ClearFilters]
  ++ (if loading s then [Txt "Loading..."]
      else if bool_decide (length (items s) = 0%nat) then [Txt "No providers found"]
      else concat (map (type_row s) (items s)))
  ++ when (negb (loading s)) (embed Paging (Pagination.TablePagination (meta_ s) (pg s)))
  ++ embed Dialog (Confirm.confirmDialog (dialog s)).

Definition view (s : state) : list (node action) :=
  if isPlatform then platform_view s else tenant_view s.

End ProvidersPage.

(** * Every request is authorized *)

Section Safety.
Variable u : Principal.
Notation can := (hasPermission (Some u)).
Notation isPlatform := (is_platform_admin u).

(** Opening the page takes these two. *)
Definition given : list string := ["providers.view"; "channels.view"].

(** A form that is open, and a dialog that asks, were opened by a control the
    user's permissions enable. *)
Definition guarded (s : state) : Prop :=
  (showForm s = true ->
   can (match editing s with Some _ => "providers.update" | None => "providers.create" end) = true)
  /\ (Confirm.pending (dialog s) <> None -> can "providers.update" = true).

Notation safe := (Ui.safe http guarded (careful given u)).

Lemma put_type_safe p b : can "providers.update" = true ->
  Forall (fun r => careful given u (OReq r)) (http _ (PutType p b)).
Proof.
  intros Hc. constructor; [|constructor].
  writes "PUT" [L "provider-types"; V "provider"] "providers.update" [encodeURIComponent p].
Qed.

Lemma configs_safe p : careful given u (OReq (configs_request p)).
Proof. unfold configs_request. reads "GET" [L "providers"] "providers.view" (@nil string). Qed.

Lemma put_config_safe id b : can "providers.update" = true ->
  decodes UpdateProviderConfig_req b = true ->
  Forall (fun r => careful given u (OReq r)) [PUT ("/admin/api/v1/providers/" +:+ id) b].
Proof.
  intros Hc Hb. constructor; [|constructor].
  writes_body "PUT" [L "providers"; V "id"] "providers.update" [id] Hb.
Qed.

Lemma save_body_reads s :
  decodes UpdateProviderConfig_req (save_body s) = true /\ decodes CreateProviderConfig_req (save_body s) = true.
Proof. unfold save_body. by destruct (providerConfigFromForm _ _ _). Qed.

Lemma provider_load_safe s : safe (load isPlatform s).
Proof.
  unfold load. safe_walk; repeat constructor.
  - reads "GET" [L "provider-types"] "providers.view" (@nil string).
  - apply configs_safe.
  - reads "GET" [L "channels"] "channels.view" (@nil string).
Qed.

Lemma save_safe s :
  guarded s -> showForm s = true -> safe (saveTenantProvider s).
Proof.
  intros [Hf _] Hs. specialize (Hf Hs). unfold saveTenantProvider, save_failed. safe_walk.
  all: try (destruct (editing s) as [e|] eqn:He; cbn [http]).
  all: try (by apply put_config_safe; [|apply save_body_reads]).
  all: constructor; [|constructor].
  all: try apply configs_safe.
  writes_body "POST" [L "providers"] "providers.create" (@nil string) (proj2 (save_body_reads s)).
Qed.

(** What the controls on screen say about the state and the permissions. *)
Lemma provider_offered a s : offered (view isPlatform can s) a ->
  match a with
  | Dialog (Confirm.Request _) => False
  | Open c => can (match c with Some _ => "providers.update" | None => "providers.create" end) = true
  | Save => showForm s = true
  | ToggleStatus _ => can "providers.update" = true
  | _ => True
  end.
Proof.
  unfold view, tenant_view, platform_view, config_row, type_row, provider_form, Modal.Modal,
    Modal.ModalButton, Status.StatusToggle, ProviderConfigEditor, ProviderSelect, field_input, custom_row,
    Pagination.TablePagination.
  intros Ha. page_cases Ha; subst; guards; try done; by destruct act; apply confirmDialog_offers in Hact.
Qed.

Lemma provider_handle_safe a s :
  guarded s -> offered (view isPlatform can s) a -> safe (handle can a s).
Proof.
  intros Hs Ha. apply provider_offered in Ha. destruct a; try (simpl; safe_walk; fail).
  - simpl. unfold requestToggle. safe_walk.
  - match goal with act : Confirm.action _ |- _ => destruct act end; simpl; safe_walk; try done.
    apply put_type_safe, Hs. congruence.
  - simpl. unfold openProviderForm. safe_walk.
  - by apply save_safe.
  - simpl. unfold setTenantProviderStatus. safe_walk. by apply put_config_safe.
Qed.

End Safety.

(** No request of the provider pages is refused for a permission: in every
    interleaving each one has a route of the API, and the user holds its
    permission, or it is one of the two that reading the page takes; in
    particular nothing is created or changed for a user without the permission
    to, through the form, the switches or the confirmation dialog. *)
Theorem providers_authorized u c :
  let can := hasPermission (Some u) in
  Ui.reachable http (effects (is_platform_admin u)) (handle can) (view (is_platform_admin u) can) initial c ->
  Forall (careful given u) (Ui.c_trace c).
Proof.
  intros can Hc. eapply (Ui.reachable_safe http _ _ _ (guarded u) (careful given u)); [..|exact Hc].
  - intros r s _. unfold effects. apply Forall_app. split; (dmatch; [apply Forall_singleton|constructor]).
    + safe_walk.
    + apply provider_load_safe.
  - intros a s. apply provider_handle_safe.
  - split; [done|]. by intros ?.
Qed.

Definition sample_user : Principal :=
  MkPrincipal "u1" (Some "t1") "ops@example.com" false ["providers.manage"].

Lemma providers_authorized_witness :
  exists c : Ui.config (E := event) (S := state),
    Ui.c_trace c <> [] /\ Forall (careful given sample_user) (Ui.c_trace c).
Proof.
  exists (Ui.commit http (effects false) (Ui.initial initial)). split; [discriminate|].
  apply (providers_authorized sample_user).
  eapply Ui.reach_step; [apply Ui.reach_init|by apply Ui.step_commit].
Defined.

(** * What is saved *)

Definition field_keys (sc : schema) : list string := map key (fields sc).

Lemma schemas_keys_distinct provider sc :
  schema_of provider = Some sc -> NoDup (field_keys sc).
Proof.
  intros H%oget_Some_elem.
  assert (Hall : forallb (fun kv => bool_decide (NoDup (field_keys kv.2))) DEFAULT_PROVIDER_SCHEMAS = true)
    by (vm_compute; reflexivity).
  rewrite forallb_forall in Hall. apply list_elem_of_In in H. specialize (Hall _ H).
  by apply bool_decide_eq_true in Hall.
Qed.

Lemma oget_config_fold values fs out k : NoDup (map key fs) ->
  oget (fold_left (fun out f =>
    if truthy (value_of values (key f)) then oset out (key f) (config_value f (value_of values (key f)))
    else out) fs out) k =
  match find (fun f => bool_decide (key f = k)) fs with
  | Some f => if truthy (value_of values k) then Some (config_value f (value_of values k)) else oget out k
  | None => oget out k
  end.
Proof.
  revert out. induction fs as [|f fs IH]; intros out; simpl; [done|].
  intros [Hn Hnd]%NoDup_cons. rewrite IH by done. destruct (bool_decide (key f = k)) eqn:Hk.
  - apply bool_decide_eq_true in Hk. subst k.
    assert (Hf : find (fun f0 => bool_decide (key f0 = key f)) fs = None).
    { apply find_None. intros x Hx. apply bool_decide_eq_false. intros Heq. apply Hn.
      apply list_elem_of_fmap. by exists x. }
    rewrite Hf. destruct (truthy _); [by rewrite oget_oset_eq|done].
  - apply bool_decide_eq_false in Hk.
    assert (Ho : oget (if truthy (value_of values (key f))
      then oset out (key f) (config_value f (value_of values (key f))) else out) k = oget out k).
    { destruct (truthy (value_of values (key f))) eqn:Hx; [apply oget_oset_ne; congruence|reflexivity]. }
    by rewrite Ho.
Qed.

(** The fields of a schema in what is sent. *)
Lemma provider_config_get provider sc values rows k :
  schema_of provider = Some sc ->
  oget (providerConfigFromForm provider values rows) k =
    match find (fun f => bool_decide (key f = k)) (fields sc) with
    | Some f => if truthy (value_of values k) then Some (config_value f (value_of values k)) else None
    | None => None
    end.
Proof.
  intros Hsc. unfold providerConfigFromForm. rewrite Hsc. rewrite oget_config_fold; [done|].
  by apply (schemas_keys_distinct provider).
Qed.

Lemma field_found sc f : NoDup (field_keys sc) -> f ∈ fields sc ->
  find (fun g => bool_decide (key g = key f)) (fields sc) = Some f.
Proof.
  unfold field_keys. intros Hnd Hf. revert Hf Hnd. induction (fields sc) as [|g fs IH]; simpl.
  - by intros ?%not_elem_of_nil.
  - intros [->|Hf]%elem_of_cons [Hn Hnd]%NoDup_cons.
    + by rewrite bool_decide_eq_true_2.
    + rewrite bool_decide_eq_false_2; [auto|]. intros Heq. apply Hn. rewrite Heq. by apply list_elem_of_fmap_2.
Qed.

Lemma required_typed provider sc values f :
  schema_of provider = Some sc -> missingRequiredProviderFields provider values = [] ->
  f ∈ fields sc -> required f = true -> truthy (value_of values (key f)) = true.
Proof.
  unfold missingRequiredProviderFields. intros -> Hm Hf Hr. destruct (truthy (value_of values (key f))) eqn:Ht; [done|].
  assert (Hin : f ∈ filter_by (fun f => required f && negb (truthy (value_of values (key f)))) (fields sc))
    by (apply elem_of_filter_by; by rewrite Hr, Ht).
  apply map_eq_nil in Hm. rewrite Hm in Hin. by apply not_elem_of_nil in Hin.
Qed.

(** The settings sent for a provider with a schema are, for each of its
    fields, the trimmed value typed, a number for a numeric field, and nothing
    for a field left blank; no other key is sent; and a new provider with no
    missing field carries every required one. *)
Theorem provider_config_correct provider sc values rows k :
  schema_of provider = Some sc ->
  oget (providerConfigFromForm provider values rows) k =
    match find (fun f => bool_decide (key f = k)) (fields sc) with
    | Some f => if truthy (value_of values k) then Some (config_value f (value_of values k)) else None
    | None => None
    end
  /\ (missingRequiredProviderFields provider values = [] ->
      forall f, f ∈ fields sc -> required f = true -> key f = k ->
      oget (providerConfigFromForm provider values rows) k = Some (config_value f (value_of values k))).
Proof.
  intros Hsc. split; [by apply provider_config_get|]. intros Hm f Hf Hr <-. rewrite (provider_config_get _ sc) by done.
  rewrite field_found by (done || by apply (schemas_keys_distinct provider)). by rewrite (required_typed provider sc).
Qed.

Definition smtp_values : obj string := [("host", " smtp.example.com "); ("port", "587"); ("from", "a@b.c")].
Definition smtp_schema : schema := default (Schema "" None []) (schema_of "smtp").

Lemma provider_config_correct_witness :
  oget (providerConfigFromForm "smtp" smtp_values []) "host" = Some (JStr "smtp.example.com")
  /\ oget (providerConfigFromForm "smtp" smtp_values []) "password" = None.
Proof.
  split.
  - rewrite (proj1 (provider_config_correct "smtp" smtp_schema smtp_values [] "host" eq_refl)). reflexivity.
  - rewrite (proj1 (provider_config_correct "smtp" smtp_schema smtp_values [] "password" eq_refl)). reflexivity.
Defined.

(** Saving reaches the API exactly when a channel and a provider are chosen
    and, for a new provider, no required field is missing: then with one request,
    a creation or an update of the configuration being edited; otherwise an error
    is shown and nothing changes. *)
Theorem save_requests_iff_complete s :
  let complete := f_channel (form s) <> "" /\ f_provider (form s) <> ""
    /\ (editing s = None -> missingRequiredProviderFields (f_provider (form s)) (configValues s) = []) in
  let '(s', outs, suspended) := Ui.sync http (saveTenantProvider s) s in
  (complete ->
     outs = [OReq (match editing s with
                   | Some e => PUT ("/admin/api/v1/providers/" +:+ id e) (save_body s)
                   | None => POST "/admin/api/v1/providers" (save_body s)
                   end)]
     /\ truthy (saving s') = true /\ length suspended = 1%nat)
  /\ (~ complete -> s' = s /\ suspended = [] /\ exists t m, outs = [OToast ToastError t m]).
Proof.
  cbv zeta. unfold saveTenantProvider.
  destruct (truthy (f_channel (form s))) eqn:Hc; simpl.
  2:{ apply truthy_false in Hc. rewrite Hc. split; [by intros [? _]|]. eauto 6. }
  apply truthy_true in Hc. destruct (truthy (f_provider (form s))) eqn:Hp; simpl.
  2:{ apply truthy_false in Hp. rewrite Hp. split; [by intros (_ & ? & _)|]. eauto 6. }
  apply truthy_true in Hp.
  destruct (missingRequiredProviderFields (f_provider (form s)) (configValues s)) as [|m ms] eqn:Hm.
  - rewrite andb_false_r. simpl.
    destruct (editing s) as [e|]; simpl;
      (split; [intros _; repeat split; apply truthy_true; unfold jsor; by case_decide|]);
      intros Hn; exfalso; by apply Hn.
  - destruct (editing s) as [e|] eqn:He; simpl.
    + split; [|intros Hn; exfalso; apply Hn; by repeat split].
      intros _. repeat split. apply truthy_true. unfold jsor. by case_decide.
    + split; [intros (_ & _ & Hn); by specialize (Hn eq_refl)|]. eauto 6.
Qed.
