(* ===== verification/ProviderConfigs.v ===== *)
(** The provider configurations of tenants (internal/http/handlers/handlers.go with the
    adapters of internal/providers): the writes behind their routes, the encryption of
    the settings at rest, and what a test of a configuration builds of them; and what
    becomes of the form of the page of providers.

    [id] of the world is that of a new row; each write is one statement. *)
From stdpp Require Import gmap.
From S2P Require Import Providers.
From S2P Require Import Prelude Js Json React Query Client Components Auth Api Page Handlers Accounts Secrets Rbac.

(** * Rows *)

Record provider_row := ProviderRow {
  pr_channel : string; pr_provider : string; pr_config : json; pr_default : bool; pr_status : string }.
#[export] Instance eta_provider_row : Eta provider_row := fun r =>
  ProviderRow (pr_channel r) (pr_provider r) (pr_config r) (pr_default r) (pr_status r).

(** The rows by their identifier, each with its tenant. *)
Abbreviation provider_table := (gmap string (string * provider_row)).

Definition active_default (r : provider_row) : bool := pr_default r && bool_decide (pr_status r = "active").
(** [idx_provider_one_default]: another active default of the tenant's channel. *)
Definition clashes (tenant : string) (r : provider_row) (x : string * provider_row) : bool :=
  bool_decide (x.1 = tenant /\ pr_channel x.2 = pr_channel r) && active_default x.2.
Definition second_default (tenant : string) (r : provider_row) (t : provider_table) : bool :=
  active_default r && taken (clashes tenant r) t.

(** * Adapters *)

(** [stringVal], [intVal] *)
Definition stringVal (m : obj json) (key def : string) : string :=
  match oget m key with Some (JStr v) => if decide (v <> "") then v else def | _ => def end.
(** [int(v)] of a float *)
Definition truncated (x : num) : Z :=
  match x with Dec m e => if 0 <=? e then m * 10 ^ e else Z.quot m (10 ^ (- e)) | _ => 0 end.
Definition intVal (m : obj json) (key : string) (def : Z) : Z :=
  match oget m key with Some (JNum x) => truncated x | _ => def end.

Record SMTPConfig := MkSMTP {
  Host : string; Port : Z; Username : string; Password : string; From : string }.
Record HTTPConfig := MkHTTP {
  URL : string; Method : string; Token : string; TokenHeader : string; PhoneKey : string; MessageKey : string;
  BodyPattern : string; Timeout : Z }.
Inductive adapter := SMTPProvider (c : SMTPConfig) | HTTPProvider (c : HTTPConfig) | FCMV1Provider (projectID : string).

(** The adapters of the channels: [None] is an error, [Some None] is nil. *)
Definition email_NewReal (cfg : obj json) : option (option adapter) :=
  if decide (stringVal cfg "host" "" = "") then Some None
  else Some (Some (SMTPProvider (MkSMTP (stringVal cfg "host" "") (intVal cfg "port" 587)
         (stringVal cfg "username" "") (stringVal cfg "password" "") (stringVal cfg "from" "")))).

(** [NewHTTP]: a timeout in nanoseconds, of thirty seconds when there is none. *)
Definition sms_NewReal (cfg : obj json) : option (option adapter) :=
  if decide (stringVal cfg "url" "" = "") then Some None
  else
    let seconds := match oget cfg "timeout_seconds" with
                   | Some (JNum (Dec m e)) => if 0 <? m then truncated (Dec m e) else 0
                   | _ => 0
                   end in
    let timeout := DataTable.int64 (seconds * 1000000000) in
    Some (Some (HTTPProvider (MkHTTP (stringVal cfg "url" "") (stringVal cfg "method" "POST")
      (stringVal cfg "token" "") (stringVal cfg "token_header" "Authorization") (stringVal cfg "phone_key" "phone")
      (stringVal cfg "message_key" "message") (stringVal cfg "body_pattern" "")
      (if decide (timeout = 0) then 30000000000 else timeout)))).

Definition ServiceAccount : gotype :=
  TStruct (strings ["type"; "project_id"; "private_key_id"; "private_key"; "client_email"; "client_id"; "auth_uri";
                    "token_uri"; "auth_provider_x509_cert_url"; "client_x509_cert_url"]).
Definition NewFCMV1FromJSON (saJSON : string) : option adapter :=
  match Json.parse saJSON with
  | Some sa =>
      if negb (decodes ServiceAccount sa) then None
      else if decide (member sa "project_id" = "") then None else Some (FCMV1Provider (member sa "project_id"))
  | None => None
  end.

(** * Handlers *)

(** What the surroundings answer: whether the statement succeeds, the identifier of a
    new row, the nonce of an encryption. *)
Record around := Around { succeeds : bool; fresh_id : string; nonce_read : option string }.
#[export] Instance eta_around : Eta around := fun w => Around (succeeds w) (fresh_id w) (nonce_read w).

(** What came of a test that was not refused. *)
Inductive tested := Tried (a : adapter) (message_id : option string) | Skipped.

Section Handlers.
Context `{cipher : Aead}.
(** The key of the service; the identifiers of tenants; the files of the host; what an
    adapter is answered for the message of a test. *)
Variable encKey : option string.
Variable tenants : list string.
Variable ReadFile : string -> option string.
Variable answered : adapter -> option string.

Definition encryptedProviderConfigJSON (rand : option string) (raw : string) : option string :=
  encrypted ← Encrypt encKey rand raw; Some (DataTable.Marshal (JStr encrypted)).
(** A null leaves the empty string. *)
Definition decryptProviderConfigJSON (raw : string) : option string :=
  match Json.parse raw with
  | Some (JStr encrypted) => Decrypt encKey encrypted
  | Some JNull => Decrypt encKey ""
  | _ => Decrypt encKey raw
  end.

Definition CreateProviderConfig (w : around) (p : Principal) (body : option json) (t : provider_table)
    : Z * provider_table :=
  match decoded CreateProviderConfig_req body with
  | None => (400, t)
  | Some b =>
      if decide (member b "channel" = "" \/ member b "provider" = "") then (400, t)
      else
        match encryptedProviderConfigJSON (nonce_read w) (member b "config_json" ||| "{}") with
        | None => (500, t)
        | Some encrypted =>
            match nullIfEmpty (tenant_for p b), Json.parse encrypted with
            | Some tenant, Some config =>
                let r := ProviderRow (member b "channel") (member b "provider") config (flag b "is_default") "active" in
                if succeeds w && bool_decide (tenant ∈ tenants) && negb (row_exists t (fresh_id w))
                   && negb (second_default tenant r t)
                then (201, <[fresh_id w := (tenant, r)]> t) else (500, t)
            | _, _ => (500, t)
            end
        end
  end.

(** The members that are sent and not empty replace those of the row. *)
Definition UpdateProviderConfig (w : around) (p : Principal) (id : string) (body : option json) (t : provider_table)
    : Z * provider_table :=
  match decoded UpdateProviderConfig_req body with
  | None => (400, t)
  | Some b =>
      let config :=
        if decide (member b "config_json" = "") then Some None
        else match encryptedProviderConfigJSON (nonce_read w) (member b "config_json") with
             | Some encrypted => Some (Json.parse encrypted)
             | None => None
             end in
      match config with
      | None => (500, t)
      | Some config =>
          if negb (succeeds w) then (500, t)
          else
            match t !! id with
            | Some (tenant, r) =>
                if touches p tenant then
                  let r' := ProviderRow (pr_channel r) (kept (pr_provider r) (member b "provider"))
                    (default (pr_config r) config)
                    (match jfield b "is_default" with Some (JBool x) => x | _ => pr_default r end)
                    (kept (pr_status r) (member b "status")) in
                  if second_default tenant r' (delete id t) then (500, t) else (200, <[id := (tenant, r')]> t)
                else (404, t)
            | None => (404, t)
            end
      end
  end.

Definition DeleteProviderConfig (w : around) (p : Principal) (id : string) (t : provider_table) : Z * provider_table :=
  if negb (succeeds w) then (500, t)
  else
    match t !! id with
    | Some (tenant, _) => if touches p tenant then (200, delete id t) else (404, t)
    | None => (404, t)
    end.

Definition fcm_NewReal (cfg : obj json) : option (option adapter) :=
  if decide (stringVal cfg "service_account_path" "" <> "") then
    data ← ReadFile (stringVal cfg "service_account_path" ""); Some <$> NewFCMV1FromJSON data
  else if decide (stringVal cfg "service_account_json" "" <> "") then
    Some <$> NewFCMV1FromJSON (stringVal cfg "service_account_json" "")
  else Some None.

Definition NewReal (channel : string) : option (obj json -> option (option adapter)) :=
  oget [("email", email_NewReal); ("sms", sms_NewReal); ("fcm", fcm_NewReal)] channel.

(** The test of settings: the adapter of the channel, if there is one, built of them. *)
Definition test_settings (channel : string) (cfg : obj json) : Z * option tested :=
  match NewReal channel with
  | None => (200, Some Skipped)
  | Some build =>
      match build cfg with
      | Some (Some a) => (200, Some (Tried a (answered a)))
      | _ => (400, None)
      end
  end.

(** Settings that are no object are none. *)
Definition TestProviderConfig (w : around) (p : Principal) (id : string) (t : provider_table) : Z * option tested :=
  match (if succeeds w then t !! id else None) with
  | Some (tenant, r) =>
      if touches p tenant then
        match decryptProviderConfigJSON (stringify (pr_config r)) with
        | None => (500, None)
        | Some decrypted =>
            test_settings (pr_channel r) (match Json.parse decrypted with Some (JObj m) => m | _ => [] end)
        end
      else (404, None)
  | None => (404, None)
  end.

Definition provider_handlers (w : around) (p : Principal) : handled_routes provider_table :=
  [ ("POST", [L "providers"], fun _ b => CreateProviderConfig w p b);
    ("PUT", [L "providers"; V "id"], fun v b => UpdateProviderConfig w p (arg v 0) b);
    ("DELETE", [L "providers"; V "id"], fun v _ => DeleteProviderConfig w p (arg v 0));
    ("POST", [L "providers"; V "id"; L "test"], fun v _ t => ((TestProviderConfig w p (arg v 0) t).1, t)) ].

Record provider_call := ProviderCall { pc_by : Principal; pc_around : around; pc_request : request }.
Definition serve_provider (c : provider_call) (t : provider_table) : option (Z * provider_table) :=
  route_to (provider_handlers (pc_around c) (pc_by c)) (pc_by c) (pc_request c) t.
Fixpoint serve_providers (cs : list provider_call) (t : provider_table) : option (list Z * provider_table) :=
  match cs with
  | [] => Some ([], t)
  | c :: cs =>
      '(status, t) ← serve_provider c t;
      '(statuses, t) ← serve_providers cs t; Some (status :: statuses, t)
  end.

(** * Settings at rest *)

(** A nonce is as long as the cipher asks for. *)
Definition fresh_nonce (w : around) : Prop :=
  forall nonce, nonce_read w = Some nonce -> String.length nonce = NonceSize.

Lemma go_chars_plain s :
  all_chars (fun c => negb ((byte c =? 60) || (byte c =? 62) || (byte c =? 38))) s = true ->
  DataTable.go_chars s = json_chars s.
Proof.
  induction s as [|c s IH]; [done|]. cbn [all_chars DataTable.go_chars json_chars].
  intros [Hc Hs]%andb_prop. rewrite IH by done. f_equal. unfold DataTable.go_char.
  destruct (byte c =? 60), (byte c =? 62), (byte c =? 38); done.
Qed.

(** An encrypted text as the handlers store it. *)
Lemma encrypted_parses rand raw text :
  raw <> "" -> encryptedProviderConfigJSON rand raw = Some text ->
  exists e, Encrypt encKey rand raw = Some e /\ starts_with "enc:v1:" e = true /\ Json.parse text = Some (JStr e).
Proof.
  unfold encryptedProviderConfigJSON. intros Hraw. destruct (Encrypt encKey rand raw) as [e|] eqn:E; [|done].
  cbn [mbind option_bind]. intros [= <-]. exists e. split; [done|].
  unfold Encrypt in E. rewrite decide_False in E by done. destruct encKey, rand; try done.
  injection E as E. split; [by rewrite <- E|].
  assert (He : DataTable.Marshal (JStr e) = stringify (JStr e)).
  { change (DataTable.Marshal (JStr e)) with (String quote "" +:+ DataTable.go_chars e +:+ String quote "").
    rewrite go_chars_plain; [done|]. rewrite <- E, all_chars_app. by rewrite encoded_chars. }
  change (DataTable.go_string e) with (DataTable.Marshal (JStr e)). rewrite He. by apply parse_stringify.
Qed.

(** What a test reads of the settings at rest. *)
Definition settings (r : provider_row) : option json :=
  decrypted ← decryptProviderConfigJSON (stringify (pr_config r)); Json.parse decrypted.

Lemma sealed_settings rand raw e (r : provider_row) :
  (forall nonce, rand = Some nonce -> String.length nonce = NonceSize) ->
  Encrypt encKey rand raw = Some e -> pr_config r = JStr e ->
  decryptProviderConfigJSON (stringify (pr_config r)) = Some raw.
Proof.
  intros Hn He ->. unfold decryptProviderConfigJSON. rewrite parse_stringify by done. by eapply Decrypt_Encrypt.
Qed.

(** * The form *)

(** The settings that the form on the page sends. *)
Definition form_settings (s : Providers.state) : obj json :=
  providerConfigFromForm (f_provider (form s)) (configValues s) (customRows s).

Lemma config_sent s :
  member (save_body s) "config_json"
  = match form_settings s with [] => "" | _ => stringify (JObj (form_settings s)) end.
Proof. unfold save_body. fold (form_settings s). by destruct (form_settings s). Qed.

Lemma save_body_member s k :
  k ∈ ["channel"; "provider"; "status"] ->
  member (save_body s) k
  = if decide (k = "channel") then f_channel (form s) else if decide (k = "provider") then f_provider (form s)
    else f_status (form s).
Proof.
  intros Hk. unfold member, jfield, save_body. rewrite !elem_of_cons in Hk.
  by destruct Hk as [->|[->|[->|?%elem_of_nil]]].
Qed.

(** The row that an accepted creation leaves. *)
Lemma created s w p t t' :
  plain (JObj (form_settings s)) -> fresh_nonce w ->
  CreateProviderConfig w p (Some (save_body s)) t = (201, t') ->
  is_platform_admin p = false /\
  exists r, t' = <[fresh_id w := (or_empty (tenant_id p), r)]> t /\ t !! fresh_id w = None
    /\ pr_channel r = f_channel (form s) /\ pr_provider r = f_provider (form s)
    /\ pr_default r = f_is_default (form s) /\ pr_status r = "active"
    /\ decryptProviderConfigJSON (stringify (pr_config r)) = Some (stringify (JObj (form_settings s))).
Proof.
  intros Hp Hn. unfold CreateProviderConfig, decoded. rewrite (proj2 (save_body_reads s)).
  rewrite !save_body_member by (rewrite !elem_of_cons; tauto). cbn [decide].
  rewrite !(decide_True (P := _ = _)) by done. rewrite (decide_False (P := "provider" = "channel")) by done.
  case_decide; [done|]. rewrite config_sent.
  assert (Hraw : (match form_settings s with [] => "" | _ => stringify (JObj (form_settings s)) end ||| "{}")
    = stringify (JObj (form_settings s))) by (destruct (form_settings s); [done|]; unfold jsor; by rewrite decide_False).
  rewrite Hraw. destruct (encryptedProviderConfigJSON _ _) as [text|] eqn:E; [|done].
  apply encrypted_parses in E as (e & He & _ & ->); [|done].
  destruct (nullIfEmpty (tenant_for p (save_body s))) as [tenant|] eqn:Et; [|done].
  destruct (_ && _) eqn:Hok; [|done]. rewrite !andb_true_iff in Hok. destruct Hok as [[_ Hid%negb_true_iff] _].
  intros [= <-]. unfold tenant_for in Et. destruct (is_platform_admin p) eqn:Hplat.
  { assert (Hm : member (save_body s) "tenant_id" = "") by (unfold save_body; by destruct (providerConfigFromForm _ _ _)).
    by rewrite Hm in Et. }
  split; [done|]. unfold nullIfEmpty in Et. case_decide; [done|]. injection Et as <-.
  eexists. split; [done|]. split; [by apply row_exists_false|]. split; [done|]. split; [done|]. split; [|split; [done|]].
  - unfold flag, save_body. by destruct (providerConfigFromForm _ _ _).
  - by eapply sealed_settings.
Qed.

(** * Serving *)

Lemma provider_once w p : NoDup (map fst (provider_handlers w p)).
Proof.
  change (NoDup [("POST", [L "providers"]); ("PUT", [L "providers"; V "id"]); ("DELETE", [L "providers"; V "id"]);
                 ("POST", [L "providers"; V "id"; L "test"])]).
  apply (bool_decide_unpack _). vm_compute. done.
Qed.

Lemma provider_post_served w p b t st t' :
  serve_provider (ProviderCall p w (POST "/admin/api/v1/providers" b)) t = Some (st, t') -> st <> 403 ->
  CreateProviderConfig w p (Some b) t = (st, t').
Proof.
  unfold serve_provider. cbn [pc_by pc_around pc_request].
  rewrite (route_at _ _ 0 _ _ _ "providers.create" ["providers"] _ t (provider_once w p) eq_refl); try done.
  - destruct (HasPermission p _); intros [= H0]; simplify_eq; done.
  - apply list_elem_of_In. vm_compute. tauto.
  - repeat constructor; done.
Qed.

Lemma provider_put_served w p id b t st t' : ident id = true ->
  serve_provider (ProviderCall p w (PUT ("/admin/api/v1/providers/" +:+ id) b)) t = Some (st, t') -> st <> 403 ->
  UpdateProviderConfig w p id (Some b) t = (st, t').
Proof.
  unfold serve_provider. cbn [pc_by pc_around pc_request]. intros Hid.
  rewrite (route_at _ _ 1 _ _ _ "providers.update" ["providers"; id] _ t (provider_once w p) eq_refl); try done.
  - destruct (HasPermission p _); intros [= H0]; simplify_eq; done.
  - apply list_elem_of_In. vm_compute. tauto.
  - repeat constructor; done.
  - simpl. by destruct (ident_plain id Hid) as (-> & _).
Qed.

(** The settings of a row are encrypted. *)
Definition sealed (r : provider_row) : Prop := exists e, pr_config r = JStr e /\ starts_with "enc:v1:" e = true.

(** What a handler does to the table, and the row it does it to. *)
Inductive write (p : Principal) (t : provider_table) : string -> provider_table -> Prop :=
| w_none i : write p t i t
| w_insert i tn r : t !! i = None -> is_platform_admin p = true \/ tn = or_empty (tenant_id p) ->
    second_default tn r t = false -> sealed r -> write p t i (<[i := (tn, r)]> t)
| w_update i tn r r' : t !! i = Some (tn, r) -> touches p tn = true ->
    second_default tn r' (delete i t) = false -> pr_config r' = pr_config r \/ sealed r' ->
    write p t i (<[i := (tn, r')]> t)
| w_delete i tn r : t !! i = Some (tn, r) -> touches p tn = true -> write p t i (delete i t).
Hint Constructors write : core.

Lemma CreateProviderConfig_writes w p b t : write p t (fresh_id w) (CreateProviderConfig w p b t).2.
Proof.
  unfold CreateProviderConfig. destruct (decoded _ _) as [b'|]; [|done]. case_decide; [done|].
  destruct (encryptedProviderConfigJSON _ _) as [text|] eqn:E; [|done].
  apply encrypted_parses in E as (e & He & Hs & ->); [|unfold jsor; by case_decide].
  destruct (nullIfEmpty _) as [tn|] eqn:Et; [|done]. destruct (_ && _) eqn:Hok; [|done].
  rewrite !andb_true_iff, !negb_true_iff in Hok. destruct Hok as [[_ Hid] Hd]. apply row_exists_false in Hid.
  apply w_insert; [done| |done|by exists e].
  unfold tenant_for in Et. destruct (is_platform_admin p); [by left|right].
  unfold nullIfEmpty in Et. case_decide; [done|]. by injection Et as <-.
Qed.

Lemma CreateProviderConfig_fresh w p b t : t !! fresh_id w <> None -> (CreateProviderConfig w p b t).2 = t.
Proof.
  intros Hid. assert (Hr : row_exists t (fresh_id w) = true) by (unfold row_exists; by rewrite bool_decide_eq_false_2).
  unfold CreateProviderConfig. destruct (decoded _ _) as [b'|]; [|done]. case_decide; [done|].
  destruct (encryptedProviderConfigJSON _ _) as [text|]; [|done].
  destruct (nullIfEmpty _) as [tn|], (Json.parse text) as [c|]; try done. cbv zeta. rewrite Hr. cbn [negb].
  by rewrite andb_false_r.
Qed.

Lemma UpdateProviderConfig_writes w p i b t : write p t i (UpdateProviderConfig w p i b t).2.
Proof.
  unfold UpdateProviderConfig. destruct (decoded _ _) as [b'|]; [|done].
  assert (Hc : match (if decide (member b' "config_json" = "") then Some None
        else match encryptedProviderConfigJSON (nonce_read w) (member b' "config_json") with
             | Some encrypted => Some (Json.parse encrypted) | None => None end) with
      | Some (Some c) => exists e, c = JStr e /\ starts_with "enc:v1:" e = true | _ => True end).
  { case_decide; [done|]. destruct (encryptedProviderConfigJSON _ _) as [text|] eqn:E; [|done].
    apply encrypted_parses in E as (e & He & Hs & ->); [by exists e|done]. }
  destruct (if decide _ then _ else _) as [config|]; [|done]. destruct (negb _); [done|].
  destruct (t !! i) as [[tn r]|] eqn:Hi; [|done]. destruct (touches p tn) eqn:Ht; [|done].
  destruct (second_default _ _ _) eqn:Hd; [done|]. eapply w_update; [done..|].
  destruct config as [c|]; [right|by left]. destruct Hc as (e & -> & Hs). by exists e.
Qed.

Lemma DeleteProviderConfig_writes w p i t : write p t i (DeleteProviderConfig w p i t).2.
Proof.
  unfold DeleteProviderConfig. destruct (negb _); [done|]. destruct (t !! i) as [[tn r]|] eqn:Hi; [|done].
  destruct (touches p tn) eqn:Ht; [|done]. by eapply w_delete.
Qed.

(** The path is that of the row. *)
Definition addresses (i : string) (r : request) : Prop := api_segments (req_path r) = Some ["providers"; i].

Lemma provider_writes c t st t' : serve_provider c t = Some (st, t') ->
  exists i, write (pc_by c) t i t' /\ (t' = t \/ t !! i = None \/ addresses i (pc_request c)).
Proof.
  unfold serve_provider. destruct c as [p w r]. cbn [pc_by pc_around pc_request].
  intros [(-> & _)|(h & v & (m & pat & segs & Hin & _ & Hsegs & Hf & ->) & Hh)]%route_handles; [exists ""; auto|].
  assert (Hone : forall pat', pat' = [L "providers"; V "id"] -> fits pat' segs = true ->
    exists i, segs = ["providers"; i] /\ arg (wildcards pat' segs) 0 = i).
  { intros ? -> Hfit. destruct segs as [|a [|i [|? ?]]]; try done; simpl in Hfit;
      rewrite ?andb_false_r in Hfit; try done.
    apply andb_prop in Hfit as [->%bool_decide_eq_true _]. by exists i. }
  unfold provider_handlers in Hin. rewrite !elem_of_cons in Hin.
  destruct Hin as [[= -> -> ->]|[[= -> -> ->]|[[= -> -> ->]|[[= -> -> ->]|?%elem_of_nil]]]]; [| | | |done];
    apply (f_equal snd) in Hh; cbn [snd] in Hh; subst t'.
  - exists (fresh_id w). split; [apply CreateProviderConfig_writes|].
    destruct (t !! fresh_id w) eqn:Hi; [left|by right; left]. apply CreateProviderConfig_fresh. by rewrite Hi.
  - destruct (Hone _ eq_refl Hf) as (i & -> & ->). exists i. split; [apply UpdateProviderConfig_writes|auto].
  - destruct (Hone _ eq_refl Hf) as (i & -> & ->). exists i. split; [apply DeleteProviderConfig_writes|auto].
  - exists "". auto.
Qed.

(** A relation of tables that the writes keep is kept by requests. *)
Lemma serve_providers_keeps (R : provider_table -> provider_table -> Prop) (who : provider_call -> Prop) :
  (forall t, R t t) -> (forall t1 t2 t3, R t1 t2 -> R t2 t3 -> R t1 t3) ->
  (forall c t i t', who c -> write (pc_by c) t i t' -> t' = t \/ t !! i = None \/ addresses i (pc_request c) -> R t t') ->
  forall cs t sts t', Forall who cs -> serve_providers cs t = Some (sts, t') -> R t t'.
Proof.
  intros Hrefl Htrans Hstep cs. induction cs as [|c cs IH]; intros t sts t' Hw; simpl; [by intros [= _ <-]|].
  apply Forall_cons in Hw as [Hc Hcs]. destruct (serve_provider c t) as [[st t1]|] eqn:E; [|done]. simpl.
  destruct (serve_providers cs t1) as [[sts1 t2]|] eqn:E2; [|done]. simpl. intros [= _ <-].
  apply (Htrans t t1); [|by eapply IH]. destruct (provider_writes _ _ _ _ E) as (i & Hwr & Ha). by eapply Hstep.
Qed.

(** A row stays while no request addresses it. *)
Lemma unaddressed_stays i x cs t sts t' :
  serve_providers cs t = Some (sts, t') -> Forall (fun c => ~ addresses i (pc_request c)) cs ->
  t !! i = Some x -> t' !! i = Some x.
Proof.
  intros Hs Hf. revert Hf Hs.
  apply (serve_providers_keeps (fun t t' => t !! i = Some x -> t' !! i = Some x)
    (fun c => ~ addresses i (pc_request c))); [done|eauto|].
  intros c t1 j t2 Hn Hw Ha Hi. destruct (decide (j = i)) as [->|Hne].
  - by destruct Ha as [->|[Ha|Ha]]; [|congruence|].
  - by destruct Hw; rewrite ?lookup_insert_ne, ?lookup_delete_ne by done.
Qed.

(** The settings that a form leaves are those that a test is made of. *)
Lemma created_then_tested s w p t t1 cs sts t2 w' :
  plain (JObj (form_settings s)) -> fresh_nonce w ->
  serve_provider (ProviderCall p w (POST "/admin/api/v1/providers" (save_body s))) t = Some (201, t1) ->
  serve_providers cs t1 = Some (sts, t2) -> Forall (fun c => ~ addresses (fresh_id w) (pc_request c)) cs ->
  succeeds w' = true ->
  TestProviderConfig w' p (fresh_id w) t2 = test_settings (f_channel (form s)) (form_settings s).
Proof.
  intros Hp Hn Hc%provider_post_served Hs Hcs Hok; [|done].
  apply created in Hc as (Hplat & r & -> & _ & Hch & _ & _ & _ & Hd); [|done..].
  assert (Hr : t2 !! fresh_id w = Some (or_empty (tenant_id p), r))
    by (eapply unaddressed_stays; [exact Hs|done|apply lookup_insert_eq]).
  unfold TestProviderConfig. rewrite Hok, Hr. unfold touches. rewrite Hplat, bool_decide_true by done. cbn [orb].
  by rewrite Hd, parse_stringify, Hch.
Qed.

Lemma stringVal_sent s sc f :
  schema_of (f_provider (form s)) = Some sc -> f ∈ fields sc -> type_ f <> FNumber ->
  stringVal (form_settings s) (key f) "" = value_of (configValues s) (key f).
Proof.
  intros Hsc Hf Ht. unfold stringVal, form_settings. rewrite (provider_config_get _ sc) by done.
  rewrite field_found by (done || by apply (schemas_keys_distinct (f_provider (form s)))).
  destruct (truthy (value_of (configValues s) (key f))) eqn:Hv.
  - unfold config_value. apply truthy_true in Hv. by destruct (type_ f); rewrite ?decide_True.
  - by apply truthy_false in Hv.
Qed.

Lemma stringVal_absent s sc k :
  schema_of (f_provider (form s)) = Some sc -> k ∉ field_keys sc -> stringVal (form_settings s) k "" = "".
Proof.
  intros Hsc Hk. unfold stringVal, form_settings. rewrite (provider_config_get _ sc) by done.
  destruct (find _ _) as [f|] eqn:E; [|done]. apply find_Some in E as [E%bool_decide_eq_true Hin].
  destruct Hk. rewrite <- E. by apply list_elem_of_fmap_2.
Qed.

(** C12: the settings typed on the page of providers are those that the provider is
    tested with.  When the API accepts the form of a new configuration, with a nonce of
    the cipher's length and settings that are [plain] (whole numbers a double holds), then whatever
    other configurations are written meanwhile, a test of it by the same user is made
    of exactly what the form sent, through the encryption at rest; with the provider
    smtp, the mail server is asked with each value as typed, trimmed. *)
Theorem saved_settings_are_tested s w p t t1 cs sts t2 w' :
  plain (JObj (form_settings s)) -> fresh_nonce w ->
  serve_provider (ProviderCall p w (POST "/admin/api/v1/providers" (save_body s))) t = Some (201, t1) ->
  serve_providers cs t1 = Some (sts, t2) -> Forall (fun c => ~ addresses (fresh_id w) (pc_request c)) cs ->
  succeeds w' = true ->
  TestProviderConfig w' p (fresh_id w) t2 = test_settings (f_channel (form s)) (form_settings s)
  /\ (f_channel (form s) = "email" -> f_provider (form s) = "smtp" ->
      missingRequiredProviderFields "smtp" (configValues s) = [] ->
      let typed := value_of (configValues s) in
      let a := SMTPProvider (MkSMTP (typed "host") (truncated (Number (typed "port"))) (typed "username")
                               (typed "password") (typed "from")) in
      TestProviderConfig w' p (fresh_id w) t2 = (200, Some (Tried a (answered a)))).
Proof.
  intros Hp Hn Hc Hs Hcs Hok. pose proof (created_then_tested _ _ _ _ _ _ _ _ _ Hp Hn Hc Hs Hcs Hok) as Ht.
  split; [done|]. intros Hch Hpr Hm typed a. rewrite Ht, Hch. unfold test_settings. cbn [NewReal oget decide].
  rewrite decide_True by done. unfold email_NewReal.
  assert (Hsc : schema_of (f_provider (form s)) = Some smtp_schema) by by rewrite Hpr.
  assert (Hv : forall n f, fields smtp_schema !! n = Some f -> type_ f <> FNumber ->
    stringVal (form_settings s) (key f) "" = typed (key f)).
  { intros n f Hf. apply (stringVal_sent s smtp_schema); [done|by eapply list_elem_of_lookup_2]. }
  rewrite (Hv 0%nat _ eq_refl ltac:(done) : stringVal _ "host" _ = _), (Hv 2%nat _ eq_refl ltac:(done) : stringVal _ "username" _ = _),
    (Hv 3%nat _ eq_refl ltac:(done) : stringVal _ "password" _ = _), (Hv 4%nat _ eq_refl ltac:(done) : stringVal _ "from" _ = _).
  assert (Hr : forall n f, fields smtp_schema !! n = Some f -> required f = true -> truthy (typed (key f)) = true).
  { intros n f Hf. apply (required_typed "smtp" smtp_schema); [done|done|by eapply list_elem_of_lookup_2]. }
  rewrite decide_False by apply truthy_true, (Hr 0%nat _ eq_refl eq_refl).
  assert (Hport : intVal (form_settings s) "port" 587 = truncated (Number (typed "port"))).
  { unfold intVal, form_settings. rewrite (provider_config_get _ smtp_schema) by done.
    change (find _ (fields smtp_schema)) with (fields smtp_schema !! 1%nat). cbn [lookup list_lookup fields smtp_schema].
    by rewrite (Hr 1%nat _ eq_refl eq_refl : truthy (value_of (configValues s) "port") = true). }
  by rewrite Hport.
Qed.

(** The settings that the adapter of a channel cannot do without: one of them. *)
Definition adapter_keys (channel : string) : list string :=
  default [] (oget [("email", ["host"]); ("sms", ["url"]);
                    ("fcm", ["service_account_path"; "service_account_json"])] channel).
Definition fits_adapter (channel provider : string) : bool :=
  match schema_of provider with
  | Some sc => existsb (includes (field_keys sc)) (adapter_keys channel)
  | None => false
  end.

Lemma unfit_settings_fail channel s sc :
  schema_of (f_provider (form s)) = Some sc -> channel ∈ ["email"; "sms"; "fcm"] ->
  fits_adapter channel (f_provider (form s)) = false -> test_settings channel (form_settings s) = (400, None).
Proof.
  intros Hsc Hch Hfit. unfold fits_adapter in Hfit. rewrite Hsc in Hfit.
  assert (Hk : forall k, k ∈ adapter_keys channel -> stringVal (form_settings s) k "" = "").
  { intros k Hk. apply (stringVal_absent s sc); [done|]. apply includes_false.
    apply not_true_iff_false. intros E. apply not_true_iff_false in Hfit. apply Hfit, existsb_exists.
    exists k. split; [by apply list_elem_of_In|done]. }
  rewrite !elem_of_cons in Hch. destruct Hch as [->|[->|[->|?%elem_of_nil]]]; [| | |done].
  - unfold test_settings. cbn [NewReal oget]. rewrite decide_True by done. unfold email_NewReal.
    by rewrite (Hk "host") by by left.
  - unfold test_settings. cbn [NewReal oget]. rewrite decide_False, decide_True by done. unfold sms_NewReal.
    by rewrite (Hk "url") by by left.
  - unfold test_settings. cbn [NewReal oget]. rewrite !decide_False, decide_True by done. unfold fcm_NewReal.
    by rewrite (Hk "service_account_path" ltac:(by left)), (Hk "service_account_json" ltac:(by (right; left))).
Qed.

(** Of the menus of the page. *)
Lemma four_fit :
  forallb (fun ch => forallb (fun pr => negb (fits_adapter ch pr) || includes ["smtp"; "generic_http_sms"; "sparrow"; "fcm"] pr)
    (default [] (oget PROVIDERS_BY_CHANNEL ch))) ["email"; "sms"; "fcm"] = true.
Proof. vm_compute. done. Qed.

(** C27: a provider other than smtp, the two HTTP gateways and Firebase cannot work.
    Each provider of the menu of its channel that the page knows the settings of,
    except these four, is refused with 400 as incomplete by the test of its
    configuration, however complete the form was. *)
Theorem complete_settings_are_refused s w p t t1 cs sts t2 w' :
  plain (JObj (form_settings s)) -> fresh_nonce w ->
  serve_provider (ProviderCall p w (POST "/admin/api/v1/providers" (save_body s))) t = Some (201, t1) ->
  serve_providers cs t1 = Some (sts, t2) -> Forall (fun c => ~ addresses (fresh_id w) (pc_request c)) cs ->
  succeeds w' = true -> f_channel (form s) ∈ ["email"; "sms"; "fcm"] ->
  f_provider (form s) ∈ default [] (oget PROVIDERS_BY_CHANNEL (f_channel (form s))) ->
  is_Some (schema_of (f_provider (form s))) ->
  f_provider (form s) ∉ ["smtp"; "generic_http_sms"; "sparrow"; "fcm"] ->
  TestProviderConfig w' p (fresh_id w) t2 = (400, None).
Proof.
  intros Hp Hn Hc Hs Hcs Hok Hch Hpr [sc Hsc] Hne. rewrite (created_then_tested _ _ _ _ _ _ _ _ _ Hp Hn Hc Hs Hcs Hok).
  apply (unfit_settings_fail _ _ sc); [done..|].
  pose proof four_fit as Hall. rewrite forallb_forall in Hall. specialize (Hall _ (proj1 (list_elem_of_In _ _) Hch)).
  cbv beta in Hall. rewrite forallb_forall in Hall. specialize (Hall _ (proj1 (list_elem_of_In _ _) Hpr)).
  apply orb_prop in Hall as [Hall%negb_true_iff|Hall%includes_true]; done.
Qed.

(** An edit keeps the settings or replaces them as a whole.  When the API accepts
    the form of a configuration, its provider, status and default are those of the
    form; a form without settings leaves the settings as they were, and any other
    leaves exactly the settings typed: a secret left blank is lost as soon as another
    field is filled. *)
Theorem edit_replaces_settings s e w p t t' :
  editing s = Some e -> ident (Providers.id e) = true -> plain (JObj (form_settings s)) -> fresh_nonce w ->
  serve_provider (ProviderCall p w (PUT ("/admin/api/v1/providers/" +:+ Providers.id e) (save_body s))) t = Some (200, t') ->
  exists tn r r', t !! Providers.id e = Some (tn, r) /\ touches p tn = true
    /\ t' = <[Providers.id e := (tn, r')]> t
    /\ pr_channel r' = pr_channel r /\ pr_provider r' = kept (pr_provider r) (f_provider (form s))
    /\ pr_status r' = kept (pr_status r) (f_status (form s)) /\ pr_default r' = f_is_default (form s)
    /\ (form_settings s = [] -> pr_config r' = pr_config r)
    /\ (form_settings s <> [] -> settings r' = Some (JObj (form_settings s))
          /\ forall sc f, schema_of (f_provider (form s)) = Some sc -> f ∈ fields sc ->
               truthy (value_of (configValues s) (key f)) = false ->
               forall cfg, settings r' = Some cfg -> jfield cfg (key f) = None).
Proof.
  intros _ Hid Hp Hn Hs%provider_put_served; [|done..]. revert Hs. unfold UpdateProviderConfig, decoded.
  rewrite (proj1 (save_body_reads s)). destruct (if decide _ then _ else _) as [config|] eqn:Ec; [|done].
  destruct (negb _); [done|]. destruct (t !! Providers.id e) as [[tn r]|] eqn:Hi; [|done].
  destruct (touches p tn) eqn:Ht; [|done]. destruct (second_default _ _ _); [done|]. intros [= <-].
  rewrite !save_body_member by (rewrite !elem_of_cons; tauto).
  exists tn, r. eexists. split; [done|]. split; [done|]. split; [done|]. cbn [pr_channel pr_provider pr_status pr_default pr_config].
  split; [done|]. split; [done|]. split; [done|]. split; [unfold save_body; fold (form_settings s); by destruct (form_settings s)|].
  rewrite config_sent in Ec. split.
  - intros E. rewrite E in Ec. rewrite decide_True in Ec by done. by injection Ec as <-.
  - intros E. assert (Hraw : match form_settings s with [] => "" | _ => stringify (JObj (form_settings s)) end
      = stringify (JObj (form_settings s))) by by destruct (form_settings s).
    rewrite Hraw in Ec. rewrite decide_False in Ec by done. destruct (encryptedProviderConfigJSON _ _) as [text|] eqn:Et; [|done].
    apply encrypted_parses in Et as (x & Hx & _ & Hj); [|done]. injection Ec as <-. rewrite Hj.
    assert (Hset : settings (ProviderRow (pr_channel r) (kept (pr_provider r) (f_provider (form s))) (JStr x)
        (f_is_default (form s)) (kept (pr_status r) (f_status (form s)))) = Some (JObj (form_settings s))).
    { unfold settings. erewrite sealed_settings; [|exact Hn|exact Hx|done]. cbn [mbind option_bind]. by rewrite parse_stringify. }
    split; [exact Hset|].
    intros sc f Hsc Hf Hblank cfg Hcfg. pose proof (eq_trans (eq_sym Hcfg) Hset) as E2. injection E2 as ->.
    unfold jfield, form_settings. rewrite (provider_config_get _ sc) by done.
    rewrite field_found by (done || by apply (schemas_keys_distinct (f_provider (form s)))). by rewrite Hblank.
Qed.

(** A channel of a tenant has one active default. *)
Definition one_default (t : provider_table) : Prop :=
  forall i j tn r r', t !! i = Some (tn, r) -> t !! j = Some (tn, r') ->
    pr_channel r = pr_channel r' -> active_default r = true -> active_default r' = true -> i = j.

(** The settings in a table are encrypted, or those that were in the row before. *)
Definition settings_kept (t t' : provider_table) : Prop :=
  forall i tn r, t' !! i = Some (tn, r) ->
    sealed r \/ exists r0, t !! i = Some (tn, r0) /\ pr_config r = pr_config r0.

(** The rows of a tenant are the same. *)
Definition same_rows (tn : string) (t t' : provider_table) : Prop :=
  forall i r, t' !! i = Some (tn, r) <-> t !! i = Some (tn, r).

Lemma settings_kept_refl t : settings_kept t t.
Proof. intros i tn r Hr. right. by exists r. Qed.
Lemma settings_kept_trans t1 t2 t3 : settings_kept t1 t2 -> settings_kept t2 t3 -> settings_kept t1 t3.
Proof.
  intros H1 H2 i tn r Hr. destruct (H2 i tn r Hr) as [?|(r2 & Hr2 & E)]; [by left|].
  destruct (H1 i tn r2 Hr2) as [(e & He & Hs)|(r1 & Hr1 & E1)]; [left; exists e; split; [congruence|done]|].
  right. exists r1. split; [done|congruence].
Qed.

Lemma no_second_default tn r t : second_default tn r t = false ->
  forall i r', t !! i = Some (tn, r') -> pr_channel r = pr_channel r' -> active_default r = true ->
  active_default r' = true -> False.
Proof.
  unfold second_default, taken. intros Hd i r' Hi Hch Hr Hr'. rewrite Hr in Hd. cbn [andb] in Hd.
  destruct (row_where _ _) eqn:E; [done|]. pose proof (proj1 (row_where_None _ _) E i _ Hi) as Hx.
  unfold clashes in Hx. cbn [fst snd] in Hx. by rewrite Hr', bool_decide_true in Hx by done.
Qed.

Lemma one_default_subset t t' : t' ⊆ t -> one_default t -> one_default t'.
Proof.
  intros Hsub Hd i j tn r r' Hi Hj. apply (Hd i j tn r r'); by eapply lookup_weaken.
Qed.

Lemma put_one_default t i tn r :
  one_default t -> second_default tn r (delete i t) = false -> one_default (<[i := (tn, r)]> t).
Proof.
  intros Hd Hno. pose proof (no_second_default _ _ _ Hno) as Hn.
  apply (one_default_subset _ (delete i t)) in Hd; [|apply delete_subseteq].
  assert (Hl : forall j x, <[i := (tn, r)]> t !! j = Some x -> (j = i /\ x = (tn, r)) \/ delete i t !! j = Some x).
  { intros j x. destruct (decide (i = j)) as [<-|Hne]; [rewrite lookup_insert_eq; intros [= <-]; by left|].
    rewrite lookup_insert_ne by done. right. by rewrite lookup_delete_ne. }
  intros j j' tn' r1 r2 [[-> E1]|Hj]%Hl [[-> E2]|Hj']%Hl Hch H1 H2; simplify_eq; try done.
  - by destruct (Hn _ _ Hj' Hch H1 H2).
  - by destruct (Hn _ _ Hj (eq_sym Hch) H2 H1).
  - by eapply Hd.
Qed.

Lemma write_one_default p t i t' : write p t i t' -> one_default t -> one_default t'.
Proof.
  intros [|j tn r Hj _ Hno _|j tn r r' _ _ Hno _|j tn r _ _] Hd; [done|..].
  - apply put_one_default; [done|by rewrite delete_id].
  - by apply put_one_default.
  - eapply one_default_subset; [apply delete_subseteq|done].
Qed.

Lemma write_settings p t i t' : write p t i t' -> settings_kept t t'.
Proof.
  intros [|j tn r Hj _ _ Hr|j tn r r' Hj _ _ Hr|j tn r _ _]; [apply settings_kept_refl|..].
  - intros k tn' r1. destruct (decide (j = k)) as [<-|Hne].
    + rewrite lookup_insert_eq. intros [= <- <-]. by left.
    + rewrite lookup_insert_ne by done. intros Hk. right. by exists r1.
  - intros k tn' r1. destruct (decide (j = k)) as [<-|Hne].
    + rewrite lookup_insert_eq. intros [= <- <-]. destruct Hr as [Hr|?]; [right; by exists r|by left].
    + rewrite lookup_insert_ne by done. intros Hk. right. by exists r1.
  - intros k tn' r1 [_ Hk]%lookup_delete_Some. right. by exists r1.
Qed.

Lemma write_elsewhere p t j t' tn :
  write p t j t' -> is_platform_admin p = false -> or_empty (tenant_id p) <> tn -> same_rows tn t t'.
Proof.
  intros Hw Hp Hn i r.
  assert (Ht : forall tn', touches p tn' = true -> tn' <> tn)
    by (intros tn'; unfold touches; rewrite Hp; intros ->%bool_decide_eq_true; done).
  pose (other := fun x : string * provider_row => x.1 <> tn).
  assert (Hm : ~ other (tn, r)) by (intros Ho; by apply Ho).
  destruct Hw as [|j tn' r' Hj Hmine _ _|j tn' r1 r2 Hj Hto _ _|j tn' r1 Hj Hto]; [done|..].
  - apply (insert_elsewhere other); [|congruence|done]. destruct Hmine as [?| ->]; [congruence|done].
  - apply (insert_elsewhere other); [by apply Ht| |done]. intros x Hx. rewrite Hj in Hx. injection Hx as <-. by apply Ht.
  - apply (delete_elsewhere other); [|done]. intros x Hx. rewrite Hj in Hx. injection Hx as <-. by apply Ht.
Qed.
End Handlers.

(** * Samples *)

(** A cipher that puts its key in front. *)
#[local] Instance boxed : Aead.
Proof.
  refine {| seal := fun key _ plain => key +:+ plain;
            open := fun key _ c => if starts_with key c then Some (drop (String.length key) c) else None |}.
  intros key _ plain. rewrite drop_app.
  by replace (starts_with key (key +:+ plain)) with true by (induction key as [|c key IH]; [by destruct plain|]; rewrite app_cons_str; simpl; by rewrite bool_decide_true).
Defined.

Definition operator : Principal :=
  MkPrincipal "u1" (Some "t1") "ops@example.com" false ["providers.create"; "providers.update"; "providers.test"].
Definition round : around := Around true "c1" (Some "123456789012").
Definition smtp_form : Providers.state :=
  Providers.initial <| form := Form "email" "smtp" "active" true |> <| configValues := smtp_values |>.
Definition sendgrid_form : Providers.state :=
  Providers.initial <| form := Form "email" "sendgrid" "active" false |>
    <| configValues := [("api_key", "SG.1"); ("from", "a@b.c")] |>.
Definition no_file (_ : string) : option string := None.
Definition no_answer (_ : adapter) : option string := None.
Notation post s := (POST "/admin/api/v1/providers" (save_body s)).
Notation serve_one := (serve_provider (Some "key") ["t1"] no_file no_answer).
Notation test := (TestProviderConfig (Some "key") no_file no_answer).

Ltac plain_settings :=
  apply plain_obj; split;
  [ apply (bool_decide_unpack _); vm_compute; exact I
  | match goal with |- Forall _ ?l => let l' := eval vm_compute in l in change l with l' end;
    repeat constructor; simpl; lia ].

Lemma round_nonce : fresh_nonce round.
Proof. by intros ? [= <-]. Qed.

Lemma saved_settings_are_tested_witness :
  exists t1, serve_one (ProviderCall operator round (post smtp_form)) ∅ = Some (201, t1)
    /\ test round operator "c1" t1
       = (200, Some (Tried (SMTPProvider (MkSMTP "smtp.example.com" 587 "" "" "a@b.c")) None)).
Proof.
  destruct (serve_one (ProviderCall operator round (post smtp_form)) ∅) as [[st t1]|] eqn:E.
  2:{ apply (f_equal (option_map fst)) in E. vm_compute in E. discriminate. }
  assert (st = 201) as -> by (apply (f_equal (option_map fst)) in E; vm_compute in E; congruence).
  exists t1. split; [done|].
  destruct (saved_settings_are_tested (Some "key") ["t1"] no_file no_answer smtp_form round operator ∅ t1 [] [] t1 round)
    as [_ Ht]; [|exact round_nonce|exact E|done|done|done|].
  - plain_settings.
  - exact (Ht eq_refl eq_refl eq_refl).
Defined.

Lemma complete_settings_are_refused_witness :
  missingRequiredProviderFields "sendgrid" (configValues sendgrid_form) = []
  /\ exists t1, serve_one (ProviderCall operator round (post sendgrid_form)) ∅ = Some (201, t1)
    /\ test round operator "c1" t1 = (400, None).
Proof.
  split; [reflexivity|].
  destruct (serve_one (ProviderCall operator round (post sendgrid_form)) ∅) as [[st t1]|] eqn:E.
  2:{ apply (f_equal (option_map fst)) in E. vm_compute in E. discriminate. }
  assert (st = 201) as -> by (apply (f_equal (option_map fst)) in E; vm_compute in E; congruence).
  exists t1. split; [done|].
  apply (complete_settings_are_refused (Some "key") ["t1"] no_file no_answer sendgrid_form round operator ∅ t1 [] [] t1 round);
    [|exact round_nonce|exact E|done|done|done|by left|apply includes_true; reflexivity|eexists; reflexivity|apply includes_false; reflexivity].
  plain_settings.
Defined.

(** The host is changed and the password is left blank. *)
Definition moved_form : Providers.state :=
  smtp_form <| editing := Some (Config "c1" "email" "smtp" true "active") |>
    <| configValues := [("host", "mail.example.com")] |>.
Definition stored_row : provider_row :=
  ProviderRow "email" "smtp"
    (JStr (default "" (Encrypt (Some "key") (Some "123456789012") (stringify (JObj [("password", JStr "hunter2")])))))
    true "active".

Lemma edit_replaces_settings_witness :
  exists t' r', serve_one (ProviderCall operator round (PUT "/admin/api/v1/providers/c1" (save_body moved_form)))
      {["c1" := ("t1", stored_row)]} = Some (200, t')
    /\ t' = <["c1" := ("t1", r')]> {["c1" := ("t1", stored_row)]}
    /\ (settings (Some "key") stored_row ≫= fun cfg => jfield cfg "password") = Some (JStr "hunter2")
    /\ (settings (Some "key") r' ≫= fun cfg => jfield cfg "password") = None.
Proof.
  destruct (serve_one (ProviderCall operator round (PUT "/admin/api/v1/providers/c1" (save_body moved_form)))
      {["c1" := ("t1", stored_row)]}) as [[st t']|] eqn:E.
  2:{ apply (f_equal (option_map fst)) in E. vm_compute in E. discriminate. }
  assert (st = 200) as -> by (apply (f_equal (option_map fst)) in E; vm_compute in E; congruence).
  destruct (edit_replaces_settings (Some "key") ["t1"] no_file no_answer moved_form
    (Config "c1" "email" "smtp" true "active") round operator {["c1" := ("t1", stored_row)]} t')
    as (tn & r & r' & Hi & _ & Ht' & _ & _ & _ & _ & _ & Hset); [done|done| |exact round_nonce|exact E|].
  { plain_settings. }
  assert (Htn : tn = "t1") by (vm_compute in Hi; congruence). subst tn.
  exists t', r'. split; [done|]. split; [exact Ht'|]. split; [vm_compute; reflexivity|].
  destruct (Hset ltac:(vm_compute; discriminate)) as [-> _]. reflexivity.
Defined.
