(* ===== verification/Content.v ===== *)
(** What the tenants write, over time (internal/http/handlers/crud.go and the members of
    groups in handlers.go): the tables of templates, contacts, groups with their members
    and campaigns, behind their routes, on the rows of Handlers.v.

    A write is one statement; [succeeds] says whether it is answered, the unique key of
    templates and the form of identifiers included, and [fresh_id] is the identifier of
    a new row. *)
From stdpp Require Import gmap.
From S2P Require Import Prelude Js Json React Query Client Components Auth Api Page Handlers Accounts Secrets Rbac.
From S2P Require Providers.
From S2P Require Import ProviderConfigs.

(** * Tables *)

(** The members of groups, by group and contact, with the tenant of the row. *)
Record content := Content {
  templates : gmap string TemplateRow.row;
  contacts : gmap string ContactRow.row;
  groups : gmap string GroupRow.row;
  group_members : gmap (string * string) string;
  campaigns : gmap string CampaignRow.row }.
#[export] Instance eta_content : Eta content := fun d =>
  Content (templates d) (contacts d) (groups d) (group_members d) (campaigns d).

Create HintDb content.

Section Writes.
(** The identifiers of the tenants. *)
Variable tenants : list string.

(** * Statements *)

Definition known_tenant (t : option string) : bool :=
  match t with Some t => bool_decide (t ∈ tenants) | None => false end.

(** The row that a handler makes is inserted. *)
Definition add {R} (tenant_of : R -> option string) (w : around) (create : bool -> Z * option R) (rows : gmap string R)
    : Z * gmap string R :=
  match create (succeeds w) with
  | (st, Some r) =>
      if known_tenant (tenant_of r) && negb (row_exists rows (fresh_id w)) then (st, <[fresh_id w := r]> rows)
      else (500, rows)
  | (st, None) => (st, rows)
  end.

(** The row that a handler changes; without one the body is read all the same. *)
Definition edit {R} (w : around) (reads : bool) (change : bool -> R -> Z * R) (i : string) (rows : gmap string R)
    : Z * gmap string R :=
  match rows !! i with
  | Some r => let '(st, r) := change (succeeds w) r in (st, <[i := r]> rows)
  | None => (if negb reads then 400 else if succeeds w then 404 else 500, rows)
  end.

(** [DELETE ... WHERE id = ...], and of the tenant unless the user is of the platform. *)
Definition remove {R} (tenant_of : R -> option string) (w : around) (p : Principal) (i : string) (rows : gmap string R)
    : Z * gmap string R :=
  if negb (succeeds w) then (500, rows)
  else
    match rows !! i with
    | Some r => if touches p (or_empty (tenant_of r)) then (200, delete i rows) else (404, rows)
    | None => (404, rows)
    end.

(** * Handlers *)

(** The body is missing or no JSON. *)
Definition with_body {A} (b : option json) (d : A) (k : json -> Z * A) : Z * A :=
  match b with Some b => k b | None => (400, d) end.

Definition CreateTemplate (w : around) (p : Principal) (b : option json) (d : content) : Z * content :=
  with_body b d (fun b =>
    let '(st, rows) := add TemplateRow.tenant w (fun db => TemplateRow.CreateTemplate db p b) (templates d) in
    (st, d <| templates := rows |>)).
Definition UpdateTemplate (w : around) (p : Principal) (i : string) (b : option json) (d : content) : Z * content :=
  with_body b d (fun b =>
    let reads := decodes UpdateTemplate_req b
      && bool_decide (member b "template_key" <> "" /\ member b "channel" <> "" /\ member b "body" <> "") in
    let '(st, rows) := edit w reads (fun db => TemplateRow.UpdateTemplate db p b) i (templates d) in
    (st, d <| templates := rows |>)).
Definition DeleteTemplate (w : around) (p : Principal) (i : string) (d : content) : Z * content :=
  let '(st, rows) := remove TemplateRow.tenant w p i (templates d) in (st, d <| templates := rows |>).

Definition CreateContact (w : around) (p : Principal) (b : option json) (d : content) : Z * content :=
  with_body b d (fun b =>
    let '(st, rows) := add ContactRow.tenant w (fun db => ContactRow.CreateContact db p b) (contacts d) in
    (st, d <| contacts := rows |>)).
Definition UpdateContact (w : around) (p : Principal) (i : string) (b : option json) (d : content) : Z * content :=
  with_body b d (fun b =>
    let '(st, rows) :=
      edit w (decodes UpdateContact_req b) (fun db => ContactRow.UpdateContact db p b) i (contacts d) in
    (st, d <| contacts := rows |>)).
(** The members go with their contact, and with their group. *)
Definition DeleteContact (w : around) (p : Principal) (i : string) (d : content) : Z * content :=
  let '(st, rows) := remove ContactRow.tenant w p i (contacts d) in
  (st, d <| contacts := rows |>
         <| group_members := filter (fun gc => is_Some (rows !! gc.1.2)) (group_members d) |>).

Definition CreateGroup (w : around) (p : Principal) (b : option json) (d : content) : Z * content :=
  with_body b d (fun b =>
    let '(st, rows) := add GroupRow.tenant w (fun db => GroupRow.CreateGroup db p b) (groups d) in
    (st, d <| groups := rows |>)).
Definition DeleteGroup (w : around) (p : Principal) (i : string) (d : content) : Z * content :=
  let '(st, rows) := remove GroupRow.tenant w p i (groups d) in
  (st, d <| groups := rows |>
         <| group_members := filter (fun gc => is_Some (rows !! gc.1.1)) (group_members d) |>).

(** [INSERT ... SELECT ... ON CONFLICT DO NOTHING]: the answer is 201 whether there was
    something to insert or not. *)
Definition AddGroupMember (w : around) (p : Principal) (group : string) (b : option json) (d : content) : Z * content :=
  match decoded AddGroupMember_req b with
  | None => (400, d)
  | Some b =>
      let contact := member b "contact_id" in
      if negb (succeeds w) then (500, d)
      else
        match groups d !! group, contacts d !! contact with
        | Some g, Some c =>
            if GroupRow.AddGroupMember p (or_empty (GroupRow.tenant g)) (or_empty (ContactRow.tenant c))
               && bool_decide (group_members d !! (group, contact) = None)
            then (201, d <| group_members := <[(group, contact) := or_empty (GroupRow.tenant g)]> (group_members d) |>)
            else (201, d)
        | _, _ => (201, d)
        end
  end.
Definition RemoveGroupMember (w : around) (p : Principal) (group contact : string) (d : content) : Z * content :=
  if negb (succeeds w) then (500, d)
  else
    match group_members d !! (group, contact) with
    | Some t =>
        if touches p t then (200, d <| group_members := delete (group, contact) (group_members d) |>) else (200, d)
    | None => (200, d)
    end.

Definition CreateCampaign (w : around) (p : Principal) (b : option json) (d : content) : Z * content :=
  with_body b d (fun b =>
    let '(st, rows) := add CampaignRow.tenant w (fun db => CampaignRow.CreateCampaign db p b) (campaigns d) in
    (st, d <| campaigns := rows |>)).
(** The members that are sent, the status among them. *)
Definition update_campaign (p : Principal) (b : json) (db : bool) (r : CampaignRow.row) : Z * CampaignRow.row :=
  if negb (decodes UpdateCampaign_req b) then (400, r)
  else
    update db (touches p (or_empty (CampaignRow.tenant r))) r
      (CampaignRow.Row (CampaignRow.tenant r) (kept (CampaignRow.name r) (member b "name"))
         (kept_null (CampaignRow.description r) (member b "description")) (kept (CampaignRow.status r) (member b "status"))).
Definition UpdateCampaign (w : around) (p : Principal) (i : string) (b : option json) (d : content) : Z * content :=
  with_body b d (fun b =>
    let '(st, rows) := edit w (decodes UpdateCampaign_req b) (update_campaign p b) i (campaigns d) in
    (st, d <| campaigns := rows |>)).
Definition campaign_action (w : around) (p : Principal) (target i : string) (d : content) : Z * content :=
  let '(st, rows) := edit w true (fun db => CampaignRow.campaignStatusTransition db p target) i (campaigns d) in
  (st, d <| campaigns := rows |>).

(** [ListGroupMembers]: the contacts of the group, of the user's tenant unless the user is
    of the platform. *)
Definition ListGroupMembers (p : Principal) (group : string) (d : content) : list string :=
  filter_by (fun c => match contacts d !! c with
                      | Some r => touches p (or_empty (ContactRow.tenant r)) | None => false end)
    (map snd (filter_by (fun gc => bool_decide (gc.1 = group)) (map fst (map_to_list (group_members d))))).

(** * Routes *)

Definition content_handlers (w : around) (p : Principal) : handled_routes content :=
  [ ("POST", [L "templates"], fun _ b => CreateTemplate w p b);
    ("PUT", [L "templates"; V "id"], fun v b => UpdateTemplate w p (arg v 0) b);
    ("DELETE", [L "templates"; V "id"], fun v _ => DeleteTemplate w p (arg v 0));
    ("POST", [L "contacts"], fun _ b => CreateContact w p b);
    ("PUT", [L "contacts"; V "id"], fun v b => UpdateContact w p (arg v 0) b);
    ("DELETE", [L "contacts"; V "id"], fun v _ => DeleteContact w p (arg v 0));
    ("POST", [L "groups"], fun _ b => CreateGroup w p b);
    ("DELETE", [L "groups"; V "id"], fun v _ => DeleteGroup w p (arg v 0));
    ("POST", [L "groups"; V "id"; L "members"], fun v b => AddGroupMember w p (arg v 0) b);
    ("DELETE", [L "groups"; V "id"; L "members"; V "contact_id"],
       fun v _ => RemoveGroupMember w p (arg v 0) (arg v 1));
    ("POST", [L "campaigns"], fun _ b => CreateCampaign w p b);
    ("PUT", [L "campaigns"; V "id"], fun v b => UpdateCampaign w p (arg v 0) b);
    ("POST", [L "campaigns"; V "id"; L "approve"], fun v _ => campaign_action w p "approved" (arg v 0));
    ("POST", [L "campaigns"; V "id"; L "send"], fun v _ => campaign_action w p "sending" (arg v 0));
    ("POST", [L "campaigns"; V "id"; L "cancel"], fun v _ => campaign_action w p "cancelled" (arg v 0)) ].

Record content_call := ContentCall { cc_by : Principal; cc_around : around; cc_request : request }.
Definition serve_content (c : content_call) (d : content) : option (Z * content) :=
  route_to (content_handlers (cc_around c) (cc_by c)) (cc_by c) (cc_request c) d.
Fixpoint serve_contents (cs : list content_call) (d : content) : option (list Z * content) :=
  match cs with
  | [] => Some ([], d)
  | c :: cs =>
      '(status, d) ← serve_content c d;
      '(statuses, d) ← serve_contents cs d; Some (status :: statuses, d)
  end.

(** * What a write does *)

(** A write of a user on a table of tenants' rows. *)
Inductive writes {R} (tenant_of : R -> option string) (p : Principal) (m : gmap string R) : gmap string R -> Prop :=
| writes_nothing : writes tenant_of p m m
| writes_new i r t : m !! i = None -> tenant_of r = Some t -> t ∈ tenants -> touches p t = true ->
    writes tenant_of p m (<[i := r]> m)
| writes_change i r r' : m !! i = Some r -> touches p (or_empty (tenant_of r)) = true -> tenant_of r' = tenant_of r ->
    writes tenant_of p m (<[i := r']> m)
| writes_gone i r : m !! i = Some r -> touches p (or_empty (tenant_of r)) = true -> writes tenant_of p m (delete i m).

Lemma touches_own p b t : nullIfEmpty (tenant_for p b) = Some t -> touches p t = true.
Proof.
  unfold nullIfEmpty, tenant_for, touches. case_decide; [done|]. intros [= <-].
  destruct (is_platform_admin p); [done|]. by apply bool_decide_eq_true.
Qed.

Lemma add_writes {R} (tenant_of : R -> option string) w p b create rows :
  (forall db st r, create db = (st, Some r) -> tenant_of r = nullIfEmpty (tenant_for p b)) ->
  writes tenant_of p rows (add tenant_of w create rows).2
  /\ forall i, is_Some (rows !! i) -> is_Some ((add tenant_of w create rows).2 !! i).
Proof.
  intros Ht. unfold add. destruct (create (succeeds w)) as [st [r|]] eqn:E; [|split; [constructor|done]].
  apply Ht in E. destruct (_ && _) eqn:Ek; [|split; [constructor|done]].
  apply andb_prop in Ek as [Hk Hf%negb_true_iff]. apply row_exists_false in Hf. split.
  - unfold known_tenant in Hk. destruct (tenant_of r) as [t|] eqn:Er; [|done]. apply bool_decide_eq_true in Hk.
    eapply writes_new; [done..|]. by eapply touches_own.
  - intros i Hi. simpl. destruct (decide (fresh_id w = i)) as [->|]; [by rewrite lookup_insert_eq|by rewrite lookup_insert_ne].
Qed.

Lemma edit_writes {R} (tenant_of : R -> option string) w p reads change i rows :
  (forall db r, (change db r).2 = r \/ touches p (or_empty (tenant_of r)) = true /\ tenant_of (change db r).2 = tenant_of r) ->
  writes tenant_of p rows (edit w reads change i rows).2
  /\ forall j, is_Some (rows !! j) -> is_Some ((edit w reads change i rows).2 !! j).
Proof.
  intros Hc. unfold edit. destruct (rows !! i) as [r|] eqn:Hi; [|split; [constructor|done]].
  specialize (Hc (succeeds w) r). destruct (change (succeeds w) r) as [st r']. simpl in *. split.
  - destruct Hc as [->|[Ht Hr]]; [|by eapply writes_change]. rewrite insert_id by done. constructor.
  - intros j Hj. destruct (decide (i = j)) as [->|]; [by rewrite lookup_insert_eq|by rewrite lookup_insert_ne].
Qed.

Lemma remove_writes {R} (tenant_of : R -> option string) w p i rows :
  writes tenant_of p rows (remove tenant_of w p i rows).2.
Proof.
  unfold remove. destruct (negb (succeeds w)); [constructor|]. destruct (rows !! i) as [r|] eqn:Hi; [|constructor].
  destruct (touches p _) eqn:Ht; [by eapply writes_gone|constructor].
Qed.

(** A change of a row of the user, that keeps its tenant. *)
Lemma update_own {R} (tenant_of : R -> option string) p db (r r' : R) :
  tenant_of r' = tenant_of r ->
  (update db (touches p (or_empty (tenant_of r))) r r').2 = r
  \/ touches p (or_empty (tenant_of r)) = true
     /\ tenant_of (update db (touches p (or_empty (tenant_of r))) r r').2 = tenant_of r.
Proof. intros E. unfold update. destruct db, (touches p _); simpl; auto. Qed.

Lemma insert_row {R} db required (r r' : R) st : insert db required r = (st, Some r') -> r' = r.
Proof. unfold insert. destruct (_ && _); [by intros [= _ ->]|done]. Qed.

(** What a request leaves of the tables. *)
Inductive wrote (p : Principal) (d : content) : content -> Prop :=
| wrote_templates m : writes TemplateRow.tenant p (templates d) m -> wrote p d (d <| templates := m |>)
| wrote_campaigns m : writes CampaignRow.tenant p (campaigns d) m -> wrote p d (d <| campaigns := m |>)
| wrote_contacts m : writes ContactRow.tenant p (contacts d) m -> (forall i, is_Some (contacts d !! i) -> is_Some (m !! i)) ->
    wrote p d (d <| contacts := m |>)
| wrote_groups m : writes GroupRow.tenant p (groups d) m -> (forall i, is_Some (groups d !! i) -> is_Some (m !! i)) ->
    wrote p d (d <| groups := m |>)
| wrote_contact_gone m : writes ContactRow.tenant p (contacts d) m ->
    wrote p d (d <| contacts := m |> <| group_members := filter (fun gc => is_Some (m !! gc.1.2)) (group_members d) |>)
| wrote_group_gone m : writes GroupRow.tenant p (groups d) m ->
    wrote p d (d <| groups := m |> <| group_members := filter (fun gc => is_Some (m !! gc.1.1)) (group_members d) |>)
| wrote_member g c rg rc : groups d !! g = Some rg -> contacts d !! c = Some rc -> group_members d !! (g, c) = None ->
    GroupRow.AddGroupMember p (or_empty (GroupRow.tenant rg)) (or_empty (ContactRow.tenant rc)) = true ->
    wrote p d (d <| group_members := <[(g, c) := or_empty (GroupRow.tenant rg)]> (group_members d) |>)
| wrote_no_member g c t : group_members d !! (g, c) = Some t -> touches p t = true ->
    wrote p d (d <| group_members := delete (g, c) (group_members d) |>).

Lemma wrote_nothing p d : wrote p d d.
Proof. pose proof (wrote_templates p d (templates d) (writes_nothing _ _ _)) as H. by destruct d. Qed.

Lemma with_body_wrote p b d k : (forall b, wrote p d (k b).2) -> wrote p d (with_body b d k).2.
Proof. intros Hk. destruct b as [b|]; [apply Hk|apply wrote_nothing]. Qed.

(** A row that is made, or changed, by the function of Handlers.v that is unfolded. *)
Ltac made f := let E := fresh "E" in
  intros ? ? ?; unfold f; repeat (case_decide || destruct (negb _)); try done; intros E%insert_row; by rewrite E.
Ltac adds tn :=
  cbv beta zeta; match goal with |- context [add tn ?w (fun db => ?f db ?p ?b) ?rows] =>
    destruct (add_writes tn w p b (fun db => f db p b) rows) as [Hw Hk]; [made f|destruct (add tn w _ rows)] end.
Ltac edits tn f :=
  cbv beta zeta; match goal with |- context [edit ?w ?reads ?c ?i ?rows] =>
    match goal with p : Principal |- _ =>
      destruct (edit_writes tn w p reads c i rows) as [Hw Hk];
      [intros ? ?; unfold f; repeat (case_decide || destruct (negb _)); try (by left); by apply update_own
      |destruct (edit w reads c i rows)] end end.
Ltac with_a_body := apply with_body_wrote; let b := fresh "b" in intros b.

Lemma CreateTemplate_wrote w p b d : wrote p d (CreateTemplate w p b d).2.
Proof. with_a_body. adds TemplateRow.tenant. by apply wrote_templates. Qed.
Lemma CreateContact_wrote w p b d : wrote p d (CreateContact w p b d).2.
Proof. with_a_body. adds ContactRow.tenant. by apply wrote_contacts. Qed.
Lemma CreateGroup_wrote w p b d : wrote p d (CreateGroup w p b d).2.
Proof. with_a_body. adds GroupRow.tenant. by apply wrote_groups. Qed.
Lemma CreateCampaign_wrote w p b d : wrote p d (CreateCampaign w p b d).2.
Proof. with_a_body. adds CampaignRow.tenant. by apply wrote_campaigns. Qed.

Lemma UpdateTemplate_wrote w p i b d : wrote p d (UpdateTemplate w p i b d).2.
Proof. with_a_body. edits TemplateRow.tenant TemplateRow.UpdateTemplate. by apply wrote_templates. Qed.
Lemma UpdateContact_wrote w p i b d : wrote p d (UpdateContact w p i b d).2.
Proof. with_a_body. edits ContactRow.tenant ContactRow.UpdateContact. by apply wrote_contacts. Qed.
Lemma UpdateCampaign_wrote w p i b d : wrote p d (UpdateCampaign w p i b d).2.
Proof. with_a_body. edits CampaignRow.tenant update_campaign. by apply wrote_campaigns. Qed.
Lemma campaign_action_wrote w p target i d : wrote p d (campaign_action w p target i d).2.
Proof.
  unfold campaign_action. edits CampaignRow.tenant CampaignRow.campaignStatusTransition. by apply wrote_campaigns.
Qed.

Lemma DeleteTemplate_wrote w p i d : wrote p d (DeleteTemplate w p i d).2.
Proof.
  unfold DeleteTemplate. pose proof (remove_writes TemplateRow.tenant w p i (templates d)) as H.
  destruct (remove _ _ _ _ _). by apply wrote_templates.
Qed.
Lemma DeleteContact_wrote w p i d : wrote p d (DeleteContact w p i d).2.
Proof.
  unfold DeleteContact. pose proof (remove_writes ContactRow.tenant w p i (contacts d)) as H.
  destruct (remove _ _ _ _ _). by apply wrote_contact_gone.
Qed.
Lemma DeleteGroup_wrote w p i d : wrote p d (DeleteGroup w p i d).2.
Proof.
  unfold DeleteGroup. pose proof (remove_writes GroupRow.tenant w p i (groups d)) as H.
  destruct (remove _ _ _ _ _). by apply wrote_group_gone.
Qed.
Lemma AddGroupMember_wrote w p g b d : wrote p d (AddGroupMember w p g b d).2.
Proof.
  unfold AddGroupMember. destruct (decoded _ _) as [x|]; [|apply wrote_nothing]. cbv zeta.
  destruct (negb (succeeds w)); [apply wrote_nothing|]. destruct (groups d !! g) as [rg|] eqn:Hg; [|apply wrote_nothing].
  destruct (contacts d !! member x "contact_id") as [rc|] eqn:Hc; [|apply wrote_nothing].
  destruct (_ && _) eqn:E; [|apply wrote_nothing]. apply andb_prop in E as [Ha Hn%bool_decide_eq_true].
  by eapply wrote_member.
Qed.
Lemma RemoveGroupMember_wrote w p g c d : wrote p d (RemoveGroupMember w p g c d).2.
Proof.
  unfold RemoveGroupMember. destruct (negb _); [apply wrote_nothing|].
  destruct (group_members d !! (g, c)) as [t|] eqn:E; [|apply wrote_nothing].
  destruct (touches p t) eqn:Ht; [by eapply wrote_no_member|apply wrote_nothing].
Qed.

#[local] Hint Resolve CreateTemplate_wrote UpdateTemplate_wrote DeleteTemplate_wrote CreateContact_wrote
  UpdateContact_wrote DeleteContact_wrote CreateGroup_wrote DeleteGroup_wrote AddGroupMember_wrote
  RemoveGroupMember_wrote CreateCampaign_wrote UpdateCampaign_wrote campaign_action_wrote : content.

Lemma handled_wrote w p v r d h : handles (content_handlers w p) h v r -> wrote p d (h v (req_body r) d).2.
Proof.
  intros (m & pat & segs & Hin & _). unfold content_handlers in Hin.
  repeat (apply elem_of_cons in Hin as [Hin|Hin]; [injection Hin as _ _ ->; auto with content|]). by apply elem_of_nil in Hin.
Qed.

Lemma serve_content_wrote c d st d' : serve_content c d = Some (st, d') -> wrote (cc_by c) d d'.
Proof.
  unfold serve_content. intros [(-> & _ & _)|(h & v & Hh & E)]%route_handles; [apply wrote_nothing|].
  pose proof (handled_wrote _ _ _ _ d _ Hh) as H. by rewrite E in H.
Qed.

(** What requests of certain users keep, when each write does. *)
Lemma serve_contents_keeps (who : Principal -> Prop) (P : content -> Prop) (R : content -> content -> Prop) :
  (forall d, R d d) -> (forall d1 d2 d3, R d1 d2 -> R d2 d3 -> R d1 d3) ->
  (forall p d d', who p -> P d -> wrote p d d' -> P d' /\ R d d') ->
  forall cs d sts d', Forall (fun c => who (cc_by c)) cs -> serve_contents cs d = Some (sts, d') -> P d -> P d' /\ R d d'.
Proof.
  intros Hrefl Htrans Hstep cs. induction cs as [|c cs IH]; intros d sts d' Hw; simpl; [by intros [= _ <-]|].
  apply List.Forall_cons_iff in Hw as [Hc Hw]. destruct (serve_content c d) as [[st d1]|] eqn:Hs; [|done]. simpl.
  destruct (serve_contents cs d1) as [[sts1 d2]|] eqn:Hr; [|done]. simpl. intros [= _ <-] HP.
  apply serve_content_wrote in Hs. destruct (Hstep _ _ _ Hc HP Hs) as [HP1 HR1].
  destruct (IH _ _ _ Hw Hr HP1) as [HP2 HR2]. eauto.
Qed.

(** * The tables are kept *)

Definition rows_known {R} (tenant_of : R -> option string) (m : gmap string R) : Prop :=
  forall i r, m !! i = Some r -> known_tenant (tenant_of r) = true.

(** Every row is of a tenant, and every member is a contact of a group, with the tenant of
    the group. *)
Record whole (d : content) : Prop := {
  whole_templates : rows_known TemplateRow.tenant (templates d);
  whole_contacts : rows_known ContactRow.tenant (contacts d);
  whole_groups : rows_known GroupRow.tenant (groups d);
  whole_campaigns : rows_known CampaignRow.tenant (campaigns d);
  whole_members : forall g c t, group_members d !! (g, c) = Some t ->
    exists rg, groups d !! g = Some rg /\ t = or_empty (GroupRow.tenant rg) /\ is_Some (contacts d !! c) }.
(** The members are contacts of the tenant of their group. *)
Definition at_home (d : content) : Prop :=
  forall g c t rc, group_members d !! (g, c) = Some t -> contacts d !! c = Some rc -> or_empty (ContactRow.tenant rc) = t.

(** What a tenant has is the same. *)
Definition same_rows {R} (tenant_of : R -> option string) (t : string) (m m' : gmap string R) : Prop :=
  forall i r, tenant_of r = Some t -> m' !! i = Some r <-> m !! i = Some r.
Record same_for (t : string) (d d' : content) : Prop := {
  same_templates : same_rows TemplateRow.tenant t (templates d) (templates d');
  same_contacts : same_rows ContactRow.tenant t (contacts d) (contacts d');
  same_groups : same_rows GroupRow.tenant t (groups d) (groups d');
  same_campaigns : same_rows CampaignRow.tenant t (campaigns d) (campaigns d');
  same_members : forall gc, group_members d' !! gc = Some t <-> group_members d !! gc = Some t }.

Lemma writes_known {R} (tenant_of : R -> option string) p m m' :
  writes tenant_of p m m' -> rows_known tenant_of m -> rows_known tenant_of m'.
Proof.
  intros Hw Hk. destruct Hw as [|i r t _ Hr Ht _|i r r' Hi _ Hr|i r _ _]; [done|..]; intros j x.
  - intros [[_ <-]|[_ Hj]]%lookup_insert_Some; [|by eapply Hk]. rewrite Hr. by apply bool_decide_eq_true.
  - intros [[_ <-]|[_ Hj]]%lookup_insert_Some; [|by eapply Hk]. rewrite Hr. by eapply Hk.
  - intros [_ Hj]%lookup_delete_Some. by eapply Hk.
Qed.

(** A row that was there and is there has the tenant it had. *)
Lemma writes_tenant {R} (tenant_of : R -> option string) p m m' i r r' :
  writes tenant_of p m m' -> m !! i = Some r -> m' !! i = Some r' -> tenant_of r' = tenant_of r.
Proof.
  intros Hw Hi. destruct Hw as [|j x t Hj _ _ _|j x x' Hj _ Hx|j x _ _]; [congruence|..].
  - rewrite lookup_insert_ne by (intros ->; congruence). congruence.
  - intros [[-> <-]|[_ ?]]%lookup_insert_Some; congruence.
  - intros [_ ?]%lookup_delete_Some. congruence.
Qed.

(** A row that is gone was of the user. *)
Lemma writes_lost {R} (tenant_of : R -> option string) p m m' i r :
  writes tenant_of p m m' -> m !! i = Some r -> m' !! i = None -> touches p (or_empty (tenant_of r)) = true.
Proof.
  intros Hw Hi. destruct Hw as [|j x t _ _ _ _|j x x' _ _ _|j x Hj Ht]; [congruence|..].
  - by intros [? _]%lookup_insert_None; simplify_eq.
  - by intros [? _]%lookup_insert_None; simplify_eq.
  - intros [->|?]%lookup_delete_None; [|congruence]. congruence.
Qed.

Lemma writes_elsewhere {R} (tenant_of : R -> option string) p m m' t :
  touches p t = false -> writes tenant_of p m m' -> same_rows tenant_of t m m'.
Proof.
  intros Ht Hw i r Hr. destruct Hw as [|j x t' Hj Hx _ Htt|j x x' Hj Htx Hx|j x Hj Htx]; [done|..].
  - apply (insert_elsewhere (fun x => tenant_of x <> Some t)); [congruence|congruence|tauto].
  - apply (insert_elsewhere (fun x => tenant_of x <> Some t)); [| |tauto].
    + intros E. rewrite Hx in E. rewrite E in Htx. simpl in Htx. congruence.
    + intros y Hy E. simplify_eq. rewrite E in Htx. simpl in Htx. congruence.
  - apply (delete_elsewhere (fun x => tenant_of x <> Some t)); [|tauto].
    intros y Hy E. simplify_eq. rewrite E in Htx. simpl in Htx. congruence.
Qed.

Lemma wrote_whole p d d' : wrote p d d' -> whole d -> whole d'.
Proof.
  intros Hw [H1 H2 H3 H4 H5]. destruct Hw as [m Hm|m Hm|m Hm Hk|m Hm Hk|m Hm|m Hm|g c rg rc Hg Hc _ _|g c t Hi _].
  - split; try done. by eapply writes_known.
  - split; try done. by eapply writes_known.
  - split; try done; [by eapply writes_known|]. simpl. intros g c t (rg & Hg & Ht & Hc)%H5. exists rg. auto.
  - split; try done; [by eapply writes_known|]. simpl. intros g c t (rg & Hg & Ht & Hc)%H5.
    destruct (Hk g) as [rg' Hg']; [by exists rg|]. exists rg'. split; [done|]. split; [|done].
    by rewrite (writes_tenant _ _ _ _ _ _ _ Hm Hg Hg').
  - split; try done; [by eapply writes_known|]. simpl. intros g c t [Hi Hc]%map_lookup_filter_Some.
    destruct (H5 g c t Hi) as (rg & Hg & Ht & _). by exists rg.
  - split; try done; [by eapply writes_known|]. simpl. intros g c t [Hi [rg' Hg']]%map_lookup_filter_Some.
    destruct (H5 g c t Hi) as (rg & Hg & Ht & Hc). exists rg'. split; [done|]. split; [|done].
    simpl in Hg'. by rewrite (writes_tenant _ _ _ _ _ _ _ Hm Hg Hg').
  - split; try done. simpl. intros g' c' t [[[= <- <-] <-]|[_ Hi]]%lookup_insert_Some; [by exists rg|by apply H5].
  - split; try done. simpl. intros g' c' t' [_ Hi']%lookup_delete_Some. by apply H5.
Qed.

Lemma wrote_at_home p d d' : is_platform_admin p = false -> wrote p d d' -> whole d -> at_home d -> at_home d'.
Proof.
  intros Hp Hw Hd Hh.
  assert (Hc : forall m, writes ContactRow.tenant p (contacts d) m -> forall g c t rc,
    group_members d !! (g, c) = Some t -> m !! c = Some rc -> or_empty (ContactRow.tenant rc) = t).
  { intros m Hm g c t rc Hi Hc. destruct (whole_members _ Hd g c t Hi) as (rg & _ & _ & [rc0 Hc0]).
    rewrite (writes_tenant _ _ _ _ _ _ _ Hm Hc0 Hc). by eapply Hh. }
  destruct Hw as [m Hm|m Hm|m Hm Hk|m Hm Hk|m Hm|m Hm|g c rg rc Hg Hrc _ Ha|g c t Hi _]; try done.
  - intros g c t rc. simpl. by eapply Hc.
  - intros g c t rc. simpl. intros [Hi _]%map_lookup_filter_Some. by eapply Hc.
  - intros g c t rc. simpl. intros [Hi _]%map_lookup_filter_Some. by eapply Hh.
  - intros g' c' t rc'. simpl. intros [[[= <- <-] <-]|[_ Hi]]%lookup_insert_Some; [|by eapply Hh].
    unfold GroupRow.AddGroupMember in Ha. rewrite Hp in Ha. apply bool_decide_eq_true in Ha. intros Hc'.
    assert (rc' = rc) as -> by congruence. by destruct Ha as [-> ->].
  - intros g' c' t' rc. simpl. intros [_ Hi']%lookup_delete_Some. by eapply Hh.
Qed.

Lemma same_for_refl t d : same_for t d d.
Proof. by split. Qed.
Lemma same_for_trans t d1 d2 d3 : same_for t d1 d2 -> same_for t d2 d3 -> same_for t d1 d3.
Proof.
  intros [A1 A2 A3 A4 A5] [B1 B2 B3 B4 B5]. split; [intros i r Hr..|intros gc].
  - rewrite (B1 i r Hr). by apply A1.
  - rewrite (B2 i r Hr). by apply A2.
  - rewrite (B3 i r Hr). by apply A3.
  - rewrite (B4 i r Hr). by apply A4.
  - rewrite B5. apply A5.
Qed.

Lemma known_own tn : known_tenant tn = true -> tn = Some (or_empty tn).
Proof. by destruct tn. Qed.

(** A member of another tenant stays when what it refers to does. *)
Lemma members_elsewhere d t (f : (string * string) * string -> Prop) `{forall x, Decision (f x)} :
  (forall gc, group_members d !! gc = Some t -> f (gc, t)) ->
  forall gc, filter f (group_members d) !! gc = Some t <-> group_members d !! gc = Some t.
Proof. intros Hf gc. rewrite map_lookup_filter_Some. split; [by intros []|auto]. Qed.

Lemma wrote_elsewhere p t d d' : touches p t = false -> wrote p d d' -> whole d -> at_home d -> same_for t d d'.
Proof.
  intros Ht Hw Hd Hh.
  assert (Hp : is_platform_admin p = false) by (unfold touches in Ht; by destruct (is_platform_admin p)).
  destruct Hw as [m Hm|m Hm|m Hm Hk|m Hm Hk|m Hm|m Hm|g c rg rc Hg Hc Hno Ha|g c t' Hi Ht'].
  - split; try done. by eapply writes_elsewhere.
  - split; try done. by eapply writes_elsewhere.
  - split; try done. by eapply writes_elsewhere.
  - split; try done. by eapply writes_elsewhere.
  - split; try done; [by eapply writes_elsewhere|]. simpl. apply members_elsewhere. intros [g c] Hi. simpl.
    destruct (whole_members _ Hd g c t Hi) as (_ & _ & _ & [rc Hc]). destruct (m !! c) as [rc'|] eqn:E; [by eexists|].
    pose proof (writes_lost _ _ _ _ _ _ Hm Hc E) as Hx. rewrite (Hh g c t rc Hi Hc) in Hx. congruence.
  - split; try done; [by eapply writes_elsewhere|]. simpl. apply members_elsewhere. intros [g c] Hi. simpl.
    destruct (whole_members _ Hd g c t Hi) as (rg & Hg & -> & _). destruct (m !! g) as [rg'|] eqn:E; [by eexists|].
    pose proof (writes_lost _ _ _ _ _ _ Hm Hg E) as Hx. congruence.
  - split; try done. simpl. intros gc. unfold GroupRow.AddGroupMember in Ha. rewrite Hp in Ha.
    apply bool_decide_eq_true in Ha as [Ha _]. rewrite lookup_insert_Some. split; [intros [[_ E]|[_ Hi]]; [|done]|].
    + unfold touches in Ht. rewrite Hp in Ht. apply bool_decide_eq_false in Ht. congruence.
    + intros Hi. right. split; [congruence|done].
  - split; try done. simpl. intros gc. rewrite lookup_delete_Some. split; [by intros []|]. intros Hgc. split; [congruence|done].
Qed.

(** C6: what tenants write is kept.  Whatever requests are served, every row stays with a
    tenant, and every member of a group is a contact that exists, in a group that exists,
    with the tenant of the group, deletions included; and while no user of the platform
    writes, the members are contacts of the tenant of their group, and what a tenant has
    stays as it is for all that the users of others send. *)
Theorem content_is_kept cs d sts d' :
  serve_contents cs d = Some (sts, d') -> whole d ->
  whole d'
  /\ (at_home d -> Forall (fun c => is_platform_admin (cc_by c) = false) cs ->
        at_home d'
        /\ forall t, Forall (fun c => or_empty (tenant_id (cc_by c)) <> t) cs -> same_for t d d').
Proof.
  intros Hs Hd. split.
  - eapply (serve_contents_keeps (fun _ => True) whole (fun _ _ => True)); [done|done| |by apply Forall_true|exact Hs|done].
    intros p d1 d2 _ H1 Hw. split; [by eapply wrote_whole|done].
  - intros Hh Hf. split.
    + eapply (serve_contents_keeps (fun p => is_platform_admin p = false) (fun d => whole d /\ at_home d) (fun _ _ => True));
        [done|done| |exact Hf|exact Hs|done].
      intros p d1 d2 Hp [H1 H2] Hw. split; [|done]. split; [by eapply wrote_whole|by eapply wrote_at_home].
    + intros t Hn. assert (Hall : Forall (fun c => is_platform_admin (cc_by c) = false /\ or_empty (tenant_id (cc_by c)) <> t) cs)
        by (by apply List.Forall_and).
      eapply (serve_contents_keeps (fun p => is_platform_admin p = false /\ or_empty (tenant_id p) <> t)
        (fun d => whole d /\ at_home d) (same_for t)); [apply same_for_refl|apply same_for_trans| |exact Hall|exact Hs|done].
      intros p d1 d2 [Hp Hpt] [H1 H2] Hw. split; [split; [by eapply wrote_whole|by eapply wrote_at_home]|].
      apply (wrote_elsewhere p); [|done..]. unfold touches. rewrite Hp. apply bool_decide_eq_false. congruence.
Qed.
End Writes.

(** * Samples *)

Section Samples.
Definition two : list string := ["t1"; "t2"].
Definition contact_of (t name : string) : ContactRow.row := ContactRow.Row (Some t) None (Some name) None None.
Definition friends : content :=
  Content ∅ {["c1" := contact_of "t1" "Ada"; "c2" := contact_of "t2" "Bob"]}
    {["g1" := GroupRow.Row (Some "t1") "Friends" (Some "")]} {[("g1", "c1") := "t1"]}
    {["k1" := CampaignRow.Row (Some "t1") "May" None "draft"]}.
Definition editor : Principal := MkPrincipal "u1" (Some "t1") "ada@x.org" false ["campaigns.update"; "contacts.delete"].
Definition platform_user : Principal := MkPrincipal "u0" None "root@x.org" true [].
Definition serves_well : around := Around true "n1" None.

(** Whoever may edit a campaign may approve it and have it sent: the form of an edit has a
    status, which asks for the permission to edit only. *)
Theorem update_approves_campaigns :
  HasPermission editor "campaigns.approve" = false /\ HasPermission editor "campaigns.send" = false
  /\ exists d', serve_content two
        (ContentCall editor serves_well (PUT "/admin/api/v1/campaigns/k1" (JObj [("status", JStr "sending")]))) friends
      = Some (200, d')
     /\ CampaignRow.status <$> campaigns d' !! "k1" = Some "sending".
Proof. split; [reflexivity|]. split; [reflexivity|]. eexists. split; vm_compute; reflexivity. Qed.

(** A user of the platform can make a contact of one tenant a member of a group of another,
    where its users are not shown it. *)
Theorem foreign_member_is_hidden :
  exists d', serve_content two
      (ContentCall platform_user serves_well
         (POST "/admin/api/v1/groups/g1/members" (JObj [("contact_id", JStr "c2")]))) friends = Some (201, d')
    /\ group_members d' !! ("g1", "c2") = Some "t1"
    /\ ListGroupMembers editor "g1" d' = ["c1"] /\ length (ListGroupMembers platform_user "g1" d') = 2%nat.
Proof. eexists. split; [vm_compute; reflexivity|]. repeat split; vm_compute; reflexivity. Qed.

Lemma friends_whole : whole two friends.
Proof.
  split.
  - intros i r Hr. simpl in Hr. by rewrite lookup_empty in Hr.
  - intros i r Hr. simpl in Hr. apply lookup_insert_Some in Hr as [[_ <-]|[_ Hr]]; [done|].
    by apply lookup_singleton_Some in Hr as [_ <-].
  - intros i r Hr. simpl in Hr. by apply lookup_singleton_Some in Hr as [_ <-].
  - intros i r Hr. simpl in Hr. by apply lookup_singleton_Some in Hr as [_ <-].
  - intros g c t Hi. simpl in Hi. apply lookup_singleton_Some in Hi as [[= <- <-] <-]. eexists. split; [reflexivity|].
    split; [reflexivity|]. by eexists.
Qed.

Lemma content_is_kept_witness :
  exists d', serve_contents two
      [ContentCall editor serves_well (DELETE "/admin/api/v1/contacts/c1")] friends = Some ([200], d')
    /\ whole two d' /\ contacts d' !! "c1" = None /\ same_for "t2" friends d'.
Proof.
  destruct (serve_contents two [ContentCall editor serves_well (DELETE "/admin/api/v1/contacts/c1")] friends) as [[sts d']|] eqn:E;
    [|vm_compute in E; discriminate].
  assert (Hc : sts = [200] /\ contacts d' !! "c1" = None).
  { assert (H : (fun y => (y.1, contacts y.2 !! "c1"))
        <$> serve_contents two [ContentCall editor serves_well (DELETE "/admin/api/v1/contacts/c1")] friends = Some ([200], None))
      by (vm_compute; reflexivity).
    rewrite E in H. injection H as H1 H2. by split. }
  destruct Hc as [-> Hc]. exists d'. split; [reflexivity|].
  destruct (content_is_kept two _ friends _ d' E friends_whole) as [Hw Hh]. split; [exact Hw|]. split; [exact Hc|].
  destruct Hh as [_ Hs].
  - intros g c t rc Hi Hrc. simpl in Hi. apply lookup_singleton_Some in Hi as [[= <- <-] <-]. vm_compute in Hrc. by injection Hrc as <-.
  - by constructor.
  - apply Hs. by constructor.
Defined.
End Samples.
