(* ===== verification/Tenants.v ===== *)
(** pages/tenants/TenantsPage.tsx: the list of tenants, and the form that
    provisions or edits one. *)
From S2P Require Import Prelude Js React Query Client Components Auth Api Page.

Record Tenant := MkTenant { id : string; name : string; slug : string; status : string }.
Record CatalogFeature := Feature { identifier : string; f_name : string; category : string }.
Record CatalogChannel := Channel { channel : string; description : string; enabled : bool }.
Record ProviderType := Provider { p_provider : string; p_channel : string; p_enabled : option bool }.
Record StarterTemplate := Template_ {
  template_key : string; t_channel : string; subject : string; body : string }.
#[export] Instance eta_template : Eta StarterTemplate := fun t =>
  Template_ (template_key t) (t_channel t) (subject t) (body t).

Record ProvisionForm := Form {
  fm_name : string; fm_slug : string; timezone : string; country : string; default_sender : string;
  default_sms : string; features_ : list string; channels_ : list string; providers : obj string;
  templates : list StarterTemplate }.
#[export] Instance eta_form : Eta ProvisionForm := fun f =>
  Form (fm_name f) (fm_slug f) (timezone f) (country f) (default_sender f) (default_sms f)
    (features_ f) (channels_ f) (providers f) (templates f).

Definition emptyProvision : ProvisionForm := Form "" "" "" "" "" "" [] [] [] [].

(** What editing loads: the overview and the settings of the tenant. *)
Record OverviewProvider := OvProvider {
  op_channel : string; op_provider : string; op_is_default : bool; op_status : string }.
Record Overview := MkOverview {
  ov_features : list (string * bool); ov_channels : list (string * bool);
  ov_providers : list OverviewProvider }.
Record TenantSettings := MkSettings {
  cfg_timezone : option string; cfg_country : option string;
  cfg_default_sender : option string; cfg_default_sms : option string }.

(** The parameters a [load] closes over. *)
Record load_args := LoadArgs { l_search : string; l_status : string; l_pg : Pagination.state }.

Record state := State {
  items : list Tenant; error : string; loading : bool; showCreate : bool; createErr : string;
  editId : option string; form : ProvisionForm; features : list CatalogFeature;
  channels : list CatalogChannel; providerTypes : list ProviderType; saving : bool;
  meta_ : option Pagination.PaginationMeta; search : string; statusFilter : string;
  pg : Pagination.state; dialog : Confirm.state (Tenant * load_args) }.
#[export] Instance eta_state : Eta state := fun s =>
  State (items s) (error s) (loading s) (showCreate s) (createErr s) (editId s) (form s) (features s)
    (channels s) (providerTypes s) (saving s) (meta_ s) (search s) (statusFilter s) (pg s) (dialog s).

Definition initial : state :=
  State [] "" true false "" None emptyProvision [] [] [] false None "" "" Pagination.usePagination
    Confirm.initial.

Definition set_dialog (f : Confirm.state (Tenant * load_args) -> Confirm.state (Tenant * load_args))
    (s : state) : state := s <| dialog := f (dialog s) |>.

Inductive action :=
| Search (v : string) | FilterStatus (v : string) | ClearFilters | Paging (a : Pagination.action)
| OpenCreate | CloseCreate | View (i : Tenant) | OpenEdit (i : Tenant) | CloseEdit
| SetForm (f : ProvisionForm) | Create | Edit (id : string)
| ToggleStatus (i : Tenant) | Dialog (a : Confirm.action (Tenant * load_args)).

Inductive event : Type -> Type :=
| ListTenants (a : load_args) : event (ApiList Tenant)
| ListFeatures : event (list CatalogFeature)
| ListChannels : event (list CatalogChannel)
| ListProviderTypes : event (list ProviderType)
| PostTenant (b : json) : event unit
| PatchTenant (id : string) (b : json) : event unit
| PatchStatus (id : string) (status : string) : event unit
| LoadEdit (id : string) : event (Overview * TenantSettings * list StarterTemplate).

Definition http (X : Type) (e : event X) : list request :=
  match e with
  | ListTenants a =>
      [listPage "/admin/api/v1/tenants"
         ([("q", Some (l_search a)); ("filter_status", Some (l_status a))] ++ page_params (l_pg a))]
  | ListFeatures => [list_ "/admin/api/v1/feature-catalog"]
  | ListChannels => [list_ "/admin/api/v1/channel-catalog"]
  | ListProviderTypes => [list_ "/admin/api/v1/provider-types"]
  | PostTenant b => [POST "/admin/api/v1/tenants" b]
  | PatchTenant id b => [PATCH ("/admin/api/v1/tenants/" +:+ id) b]
  | PatchStatus id st =>
      [PATCH ("/admin/api/v1/tenants/" +:+ id +:+ "/status") (JObj [("status", JStr st)])]
  | LoadEdit id =>
      [GET ("/admin/api/v1/tenants/" +:+ id +:+ "/overview");
       GET ("/admin/api/v1/tenants/" +:+ id +:+ "/settings");
       list_ ("/admin/api/v1/templates?tenant_id=" +:+ id)]
  end.

(** * The payload *)

Definition template_json (t : StarterTemplate) : json :=
  JObj [("template_key", JStr (template_key t)); ("channel", JStr (t_channel t));
        ("subject", JStr (subject t)); ("body", JStr (body t))].

Definition channel_json (selected : list string) (c : CatalogChannel) : json :=
  JObj [("channel", JStr (channel c)); ("enabled", JBool (includes selected (channel c)));
        ("direction", JStr (if decide (channel c = "websocket" \/ channel c = "in_app")
                            then "two_way" else "one_way"));
        ("rate_limit_per_second", JNum (int 10)); ("daily_quota", JNum (int 10000))].

Definition provider_json (ps : obj string) (ch : string) : json :=
  JObj [("channel", JStr ch); ("provider", JStr (oget_str ps ch)); ("is_default", JBool true)].

Definition payload (s : state) : json :=
  let f := form s in
  JObj [("name", JStr (fm_name f)); ("slug", JStr (fm_slug f));
        ("settings", JObj [("timezone", JStr (timezone f)); ("country", JStr (country f));
                           ("default_sender", JStr (default_sender f)); ("default_sms", JStr (default_sms f))]);
        ("features", jstrs (features_ f));
        ("channels", JArr (map (channel_json (channels_ f)) (channels s)));
        ("providers", JArr (map (provider_json (providers f))
                              (filter_by (fun c => truthy (oget_str (providers f) c)) (channels_ f))));
        ("templates", JArr (map template_json (templates f)))].

(** The form of [openEdit], once its three answers are there. *)
Definition edit_form (i : Tenant) (ov : Overview) (cfg : TenantSettings) (ts : list StarterTemplate)
    : ProvisionForm :=
  Form (name i) (slug i) (or_empty (cfg_timezone cfg)) (or_empty (cfg_country cfg))
    (or_empty (cfg_default_sender cfg)) (or_empty (cfg_default_sms cfg))
    (map fst (filter_by snd (ov_features ov)))
    (map fst (filter_by snd (ov_channels ov)))
    (fold_left (fun o p => oset o (op_channel p) (op_provider p))
       (filter_by (fun p => op_is_default p && bool_decide (op_status p = "active")) (ov_providers ov)) [])
    ts.

Section TenantsPage.
Variable isPlatform : bool.

(** The redirection of a user without [can('tenants.view')]. *)
Definition gate (can : string -> bool) : option string :=
  if can "tenants.view" then None else Some "/".

(** * Effects and handlers *)

Definition args (s : state) : load_args := LoadArgs (search s) (statusFilter s) (pg s).

Definition load (a : load_args) : prog event state :=
  set! (fun s => s <| loading := true |>) ;;
  await! r <- ListTenants a ;;
  match r with
  | Ok res =>
      set! (fun s => s <| items := data res |>) ;;
      set! (fun s => s <| meta_ := meta res |>) ;;
      set! (fun s => s <| loading := false |>) ;; Done
  | Threw x =>
      set! (fun s => s <| error := or_empty (message_of x) |>) ;;
      set! (fun s => s <| loading := false |>) ;; Done
  end.

Definition load_catalogs : prog event state :=
  Join
    [ Branch ListFeatures (fun r =>
        match r with Ok x => inl (fun s => s <| features := x |>) | Threw e => inr e end);
      Branch ListChannels (fun r =>
        match r with
        | Ok x => inl (fun s => s <| channels := filter_by enabled x |>) | Threw e => inr e end);
      Branch ListProviderTypes (fun r =>
        match r with
        | Ok x => inl (fun s => s <| providerTypes :=
                    filter_by (fun p => negb (bool_decide (p_enabled p = Some false))) x |>)
        | Threw e => inr e end) ]
    (fun _ => Done).

Definition filters (s : state) : list string := [search s; statusFilter s].
Definition paging (s : state) : Z * Z := (Pagination.page (pg s), Pagination.perPage (pg s)).

Definition effects (r : option state) (s : state) : list (prog event state) :=
  (if changed filters r s
   then [ set! (fun s => s <| pg := Pagination.setPage 1 (pg s) |>) ;; Done ] else [])
  ++ (if changed filters r s || changed paging r s then [ load (args s) ] else [])
  ++ (match r with None => [ load_catalogs ] | Some _ => [] end).

Definition saved (x : thrown) (toast : string) : prog event state :=
  set! (fun s => s <| createErr := or_empty (message_of x) |>) ;;
  emit! OToast ToastError toast (message_of x) ;;
  set! (fun s => s <| saving := false |>) ;; Done.

Definition handleCreate (s : state) : prog event state :=
  set! (fun s => s <| createErr := "" |>) ;;
  set! (fun s => s <| saving := true |>) ;;
  await! r <- PostTenant (payload s) ;;
  match r with
  | Ok _ =>
      set! (fun s => s <| showCreate := false |>) ;;
      set! (fun s => s <| form := emptyProvision |>) ;;
      emit! success_msg "Tenant created" (fm_name (form s)) ;;
      fork! load (args s) ;;
      set! (fun s => s <| saving := false |>) ;; Done
  | Threw x => saved x "Unable to create tenant"
  end.

Definition handleEdit (tid : string) (s : state) : prog event state :=
  set! (fun s => s <| saving := true |>) ;;
  await! r <- PatchTenant tid (payload s) ;;
  match r with
  | Ok _ =>
      set! (fun s => s <| editId := None |>) ;;
      emit! success_msg "Tenant updated" (fm_name (form s)) ;;
      fork! load (args s) ;;
      set! (fun s => s <| saving := false |>) ;; Done
  | Threw x => saved x "Unable to update tenant"
  end.

Definition openEdit (i : Tenant) : prog event state :=
  set! (fun s => s <| editId := Some (id i) |>) ;;
  set! (fun s => s <| form := emptyProvision <| fm_name := name i |> <| fm_slug := slug i |> |>) ;;
  await! r <- LoadEdit (id i) ;;
  match r with
  | Ok (ov, cfg, ts) =>
      set! (fun s => s <| createErr := "" |>) ;;
      set! (fun s => s <| form := edit_form i ov cfg ts |>) ;; Done
  | Threw x =>
      set! (fun s => s <| createErr := or_empty (message_of x) |>) ;;
      emit! OToast ToastError "Unable to load tenant" (message_of x) ;; Done
  end.

Definition active (i : Tenant) : bool := bool_decide (status i = "active").

Definition toggleStatus (k : Tenant * load_args) : prog event state :=
  let newStatus := if active k.1 then "disabled" else "active" in
  await! r <- PatchStatus (id k.1) newStatus ;;
  match r with
  | Ok _ =>
      emit! success_msg ("Tenant " +:+ newStatus) (name k.1) ;;
      fork! load k.2 ;; Done
  | Threw x =>
      set! (fun s => s <| error := or_empty (message_of x) |>) ;;
      emit! OToast ToastError "Unable to update tenant status" (message_of x) ;; Done
  end.

Definition requestToggle (i : Tenant) (s : state) : prog event state :=
  set! (set_pending set_dialog (Some (Confirm.Intent
    ((if active i then "Disable" else "Enable") +:+ " tenant")
    (Some "Confirm tenant status change")
    (Some ("Change " +:+ name i +:+ " to " +:+ (if active i then "disabled" else "enabled") +:+ "?"))
    (Some (if active i then "Disable" else "Enable")) (active i) (i, args s)))) ;; Done.

Definition handle (a : action) (s : state) : prog event state :=
  match a with
  | Search v => set! (fun s => s <| search := v |>) ;; Done
  | FilterStatus v => set! (fun s => s <| statusFilter := v |>) ;; Done
  | ClearFilters =>
      set! (fun s => s <| search := "" |>) ;; set! (fun s => s <| statusFilter := "" |>) ;; Done
  | Paging a => set! (fun s => s <| pg := Pagination.apply a (pg s) |>) ;; Done
  | OpenCreate =>
      set! (fun s => s <| form := emptyProvision |>) ;; set! (fun s => s <| createErr := "" |>) ;;
      set! (fun s => s <| showCreate := true |>) ;; Done
  | CloseCreate => set! (fun s => s <| showCreate := false |>) ;; Done
  | View i => emit! ONav ("/tenants/" +:+ id i) ;; Done
  | OpenEdit i => openEdit i
  | CloseEdit => set! (fun s => s <| editId := None |>) ;; Done
  | SetForm f => set! (fun s => s <| form := f |>) ;; Done
  | Create => handleCreate s
  | Edit id => handleEdit id s
  | ToggleStatus i => requestToggle i s
  | Dialog a => dialog_handle dialog set_dialog toggleStatus a s
  end.

(** * Views *)

Definition toggle_feature (f : ProvisionForm) (v : string) : ProvisionForm :=
  f <| features_ := toggle_elem v (features_ f) |>.
Definition toggle_channel (f : ProvisionForm) (v : string) : ProvisionForm :=
  f <| channels_ := toggle_elem v (channels_ f) |>.

Definition channel_options (s : state) (c : CatalogChannel) : list ProviderType :=
  filter_by (fun p => bool_decide (p_channel p = channel c)
      || bool_decide (channel c = "in_app") && bool_decide (p_channel p = "websocket")) (providerTypes s).

Definition channel_card (s : state) (c : CatalogChannel) : list (node action) :=
  let f := form s in
  let on := includes (channels_ f) (channel c) in
  [ Chk (spaced (channel c)) on false (SetForm (toggle_channel f (channel c)));
    Txt (description c ||| "Tenant delivery channel"); Txt (if on then "Enabled" else "Disabled") ]
  ++ when on
       [ Sel "Select default provider" (oget_str (providers f) (channel c)) false
           (map (fun p => (p_provider p, spaced (p_provider p))) (channel_options s c))
           (fun v => SetForm (f <| providers := oset (providers f) (channel c) v |>)) ].

Definition template_card (s : state) (i : nat) (t : StarterTemplate) : list (node action) :=
  let f := form s in
  let update g := SetForm (f <| templates := map_at i g (templates f) |>) in
  let chs := match channels_ f with [] => map channel (channels s) | chs => chs end in
  [ Btn "Remove" false (SetForm (f <| templates := remove_at i (templates f) |>));
    Inp "Template key" (template_key t) false (fun v => update (fun t => t <| template_key := v |>));
    Sel "Channel" (t_channel t) false (map (fun c => (c, spaced c)) chs)
      (fun v => update (fun t => t <| t_channel := v |>));
    Inp "Subject" (subject t) false (fun v => update (fun t => t <| subject := v |>));
    Inp "Body" (body t) false (fun v => update (fun t => t <| body := v |>)) ].

Definition TenantProvisionModal (title : string) (on_close on_save : action) (s : state) : node action :=
  let f := form s in
  Modal.Modal title
    "Provision the tenant workspace, delivery access, provider defaults, and starter content." on_close
    (when (truthy (createErr s)) [Txt (createErr s)]
     ++ [ Inp "Tenant name" (fm_name f) false (fun v => SetForm (f <| fm_name := v |>));
          Inp "Workspace slug" (fm_slug f) false (fun v => SetForm (f <| fm_slug := v |>));
          Inp "Timezone" (timezone f) false (fun v => SetForm (f <| timezone := v |>));
          Inp "Country" (country f) false (fun v => SetForm (f <| country := v |>));
          Inp "Default email sender" (default_sender f) false (fun v => SetForm (f <| default_sender := v |>));
          Inp "Default SMS sender" (default_sms f) false (fun v => SetForm (f <| default_sms := v |>)) ]
     ++ map (fun x => Chk (f_name x) (includes (features_ f) (identifier x)) false
              (SetForm (toggle_feature f (identifier x)))) (features s)
     ++ concat (map (channel_card s) (channels s))
     ++ [ Btn "Add template" false (SetForm (f <| templates := templates f ++
            [Template_ "" (from_option Datatypes.id "" (head (channels_ f)) ||| "email") "" ""] |>)) ]
     ++ concat (map (fun it => template_card s it.1 it.2) (imap pair (templates f))))
    [ Modal.ModalButton "Cancel" false on_close;
      Modal.ModalButton (if saving s then "Saving..." else if starts_with "Create" title then "Create tenant"
                         else "Save changes")
        (saving s || negb (truthy (fm_name f)) || negb (truthy (fm_slug f))) on_save ].

Definition row (s : state) (i : Tenant) : list (node action) :=
  [ Txt (to_upper (slice0 2 (name i))); Txt (name i); Txt (slice0 8 (id i)); Txt (slug i);
    if isPlatform
    then Status.StatusToggle (active i) ((if active i then "Disable " else "Enable ") +:+ name i) false (ToggleStatus i)
    else Txt (Status.StatusBadge (Status.SText (status i))).2;
    Btn "View" false (View i) ]
  ++ when isPlatform [Btn "Edit" false (OpenEdit i)].

Definition editingTenant (s : state) : option Tenant :=
  find (fun i => bool_decide (Some (id i) = editId s)) (items s).

Definition view (s : state) : list (node action) :=
  when isPlatform [Btn "Create tenant" false OpenCreate]
  ++ when (truthy (error s)) [Txt (error s)]
  ++ [ Inp "Search tenants" (search s) false Search;
       Sel "Status" (statusFilter s) false
         [("", "All statuses"); ("active", "Active"); ("disabled", "Disabled"); ("suspended", "Suspended")]
         FilterStatus ]
  ++ when (truthy (search s) || truthy (statusFilter s)) [Btn "Clear filters" false ClearFilters]
  ++ (if loading s then [Txt "Loading..."]
      else if bool_decide (length (items s) = 0%nat) then [Txt "No tenants found"]
      else concat (map (row s) (items s)) ++ embed Paging (Pagination.TablePagination (meta_ s) (pg s)))
  ++ when (showCreate s) [TenantProvisionModal "Create tenant" CloseCreate Create s]
  ++ (match editingTenant s with
      | Some i => [TenantProvisionModal "Edit tenant" CloseEdit (Edit (id i)) s]
      | None => []
      end)
  ++ embed Dialog (Confirm.confirmDialog (dialog s)).

End TenantsPage.

(** * Every request is authorized *)

Section Safety.
Variable u : Principal.
Hypothesis opened : gate (hasPermission (Some u)) = None.
Notation isPlatform := (is_platform_admin u).

(** The catalogs are read without a check of the page. *)
Definition given : list string := ["features.view"; "channels.view"; "providers.view"].

Definition guarded (s : state) : Prop :=
  (showCreate s = true -> isPlatform = true)
  /\ (editId s <> None -> isPlatform = true)
  /\ (Confirm.pending (dialog s) <> None -> isPlatform = true).

Notation safe := (Ui.safe http guarded (careful given u)).

Lemma can_view : hasPermission (Some u) "tenants.view" = true.
Proof. unfold gate in opened. by destruct (hasPermission _ _). Qed.

Lemma tenant_load_safe a : safe (load a).
Proof.
  unfold load. safe_walk. constructor; [|constructor].
  apply (careful_can _ _ "tenants.view"); [|apply can_view|discriminate].
  served_by "GET" [L "tenants"] "tenants.view" (@nil string).
Qed.

Lemma catalogs_safe : safe load_catalogs.
Proof.
  apply Ui.safe_join; [| |intros; apply Ui.safe_done].
  - apply Forall_cons_2; [|apply Forall_cons_2; [|apply Forall_cons_2; [|apply Forall_nil_2]]];
      apply Forall_singleton.
    + reads "GET" [L "feature-catalog"] "features.view" (@nil string).
    + reads "GET" [L "channel-catalog"] "channels.view" (@nil string).
    + reads "GET" [L "provider-types"] "providers.view" (@nil string).
  - apply Forall_cons_2; [|apply Forall_cons_2; [|apply Forall_cons_2; [|apply Forall_nil_2]]];
      intros [x|e]; simpl; done.
Qed.

Lemma platform_request m pat perm args r :
  isPlatform = true -> Route m pat perm ∈ routes -> m = req_method r ->
  req_path r = api_path (fill pat args) -> perm <> "audit_logs.view" ->
  body_fits (Route m pat perm) (req_body r) = true ->
  Forall (fun r => careful given u (OReq r)) [r].
Proof.
  intros Hp Hr Hm Hpath Hne Hb. constructor; [|constructor].
  apply (careful_can _ _ perm); [|by apply platform_can|done].
  by apply (served_path (Route m pat perm) args).
Qed.

Lemma tenant_offered a s : guarded s -> offered (view isPlatform s) a ->
  match a with
  | Dialog (Confirm.Request _) => False
  | OpenCreate | OpenEdit _ | Create | Edit _ | ToggleStatus _ => isPlatform = true
  | _ => True
  end.
Proof.
  intros (H1 & H2 & H3) Ha.
  assert (He : editingTenant s <> None -> isPlatform = true).
  { intros He. apply H2. destruct (editingTenant s) as [i|] eqn:E; [|done].
    apply find_Some in E as [E%bool_decide_eq_true _]. congruence. }
  unfold view, row, TenantProvisionModal, channel_card, template_card, Modal.Modal, Modal.ModalButton,
    Status.StatusToggle, Pagination.TablePagination in Ha.
  page_cases Ha; subst; guards; try done; try (by apply H1); try (by apply He);
    by destruct act; apply confirmDialog_offers in Hact.
Qed.

Lemma tenant_toggle_safe k : isPlatform = true -> safe (toggleStatus k).
Proof.
  intros Hp. unfold toggleStatus. safe_walk; [|apply Ui.safe_fork; [apply tenant_load_safe|apply Ui.safe_done]].
  by apply (platform_request "PATCH" [L "tenants"; V "id"; L "status"] "tenants.update" [id k.1] _ Hp);
    [in_table|..].
Qed.

Lemma payload_reads s : decodes tenantProvisioningRequest (payload s) = true.
Proof.
  apply decodes_struct. repeat (apply Forall_cons_2; [try done|]); try done;
    by apply decodes_slice.
Qed.

Lemma create_safe s : isPlatform = true -> safe (handleCreate s).
Proof.
  intros Hp. unfold handleCreate, saved. safe_walk.
  - by apply (platform_request "POST" [L "tenants"] "tenants.create" [] _ Hp); [in_table|done..|apply payload_reads].
  - apply Ui.safe_fork; [apply tenant_load_safe|safe_walk].
Qed.

Lemma edit_safe i s : isPlatform = true -> safe (handleEdit i s).
Proof.
  intros Hp. unfold handleEdit, saved. safe_walk.
  - by apply (platform_request "PATCH" [L "tenants"; V "id"] "tenants.update" [i] _ Hp); [in_table|done..|apply payload_reads].
  - apply Ui.safe_fork; [apply tenant_load_safe|safe_walk].
Qed.

Lemma open_edit_safe i : isPlatform = true -> safe (openEdit i).
Proof.
  intros Hp. unfold openEdit. safe_walk.
  cbn [http]. apply Forall_cons_2; [|apply Forall_cons_2; [|apply Forall_singleton]].
  - apply (careful_can _ _ "tenants.view"); [|by apply platform_can|done].
    served_by "GET" [L "tenants"; V "id"; L "overview"] "tenants.view" [id i].
  - apply (careful_can _ _ "settings.view"); [|by apply platform_can|done].
    served_by "GET" [L "tenants"; V "id"; L "settings"] "settings.view" [id i].
  - apply (careful_can _ _ "templates.view"); [|by apply platform_can|done].
    exists (Route "GET" [L "templates"] "templates.view"), [], ("tenant_id=" +:+ id i).
    split; [in_table|]. repeat split. by right.
Qed.

Lemma tenant_handle_safe a s :
  guarded s -> offered (view isPlatform s) a -> safe (handle a s).
Proof.
  intros Hs Ha. apply tenant_offered in Ha; [|done]. destruct a; try (simpl; safe_walk; fail).
  - by apply open_edit_safe.
  - by apply create_safe.
  - by apply edit_safe.
  - simpl. unfold requestToggle. safe_walk.
  - cbn [handle]. apply dialog_safe; [by destruct a|keeps|intros ?; keeps|].
    intros i Hi. apply tenant_toggle_safe, Hs. congruence.
Qed.

End Safety.

(** A user who may open the tenants page is never refused a request for a
    permission, beyond the three catalogs the page always reads: in every
    interleaving each request has a route, and its permission is one the user
    holds; tenants are created, edited and switched by platform users only. *)
Theorem tenants_authorized u c :
  gate (hasPermission (Some u)) = None ->
  Ui.reachable http effects handle (view (is_platform_admin u)) initial c ->
  Forall (careful given u) (Ui.c_trace c).
Proof.
  intros Hg Hc. eapply (Ui.reachable_safe http _ _ _ (guarded u) (careful given u)); [..|exact Hc].
  - intros r s _. unfold effects. apply Forall_app. split; [dmatch; [apply Forall_singleton|constructor]|].
    { safe_walk. }
    apply Forall_app. split; [dmatch; [apply Forall_singleton|constructor]; by apply tenant_load_safe|].
    destruct r; [constructor|]. apply Forall_singleton, catalogs_safe.
  - intros a s. by apply tenant_handle_safe.
  - repeat split; by intros ?.
Qed.

Definition platform_user : Principal := MkPrincipal "u1" None "root@example.com" true [].

Lemma tenants_authorized_witness :
  exists c : Ui.config (E := event) (S := state),
    length (Ui.c_trace c) = 4%nat /\ Forall (careful given platform_user) (Ui.c_trace c).
Proof.
  exists (Ui.commit http effects (Ui.initial initial)). split; [reflexivity|].
  apply (tenants_authorized platform_user); [reflexivity|].
  eapply Ui.reach_step; [apply Ui.reach_init|by apply Ui.step_commit].
Defined.

(** * What editing saves *)

(** Saving a tenant that was opened and left as it is sends back what was
    loaded: its name and slug, its enabled features, each channel of the catalog
    with the state it had, and the default active provider of each enabled
    channel. *)
Theorem edit_roundtrip i ov cfg ts s :
  form s = edit_form i ov cfg ts -> NoDup (map fst (ov_channels ov)) ->
  jfield (payload s) "name" = Some (JStr (name i))
  /\ jfield (payload s) "slug" = Some (JStr (slug i))
  /\ jfield (payload s) "features" = Some (jstrs (map fst (filter_by snd (ov_features ov))))
  /\ (exists cs, jfield (payload s) "channels" = Some (JArr cs)
      /\ length cs = length (channels s)
      /\ forall n c, channels s !! n = Some c ->
         (cs !! n ≫= fun j => jfield j "channel") = Some (JStr (channel c))
         /\ (cs !! n ≫= fun j => jfield j "enabled")
            = Some (JBool (default false (oget (ov_channels ov) (channel c)))))
  /\ (exists ps, jfield (payload s) "providers" = Some (JArr ps)
      /\ forall p, p ∈ ps <-> exists ch, (ch, true) ∈ ov_channels ov
         /\ truthy (oget_str (providers (form s)) ch) = true
         /\ p = provider_json (providers (form s)) ch).
Proof.
  intros Hf Hnd. unfold payload. rewrite Hf. simpl. repeat split.
  - eexists. split; [reflexivity|]. rewrite length_map. split; [done|]. intros n c Hc.
    rewrite list_lookup_fmap, Hc. simpl. split; [done|]. f_equal. f_equal.
    destruct (includes _ _) eqn:Hi.
    + apply includes_true, list_elem_of_fmap in Hi as ([k b] & Hk & [Hb Hin]%elem_of_filter_by).
      simpl in *. subst. by rewrite (oget_elem _ _ _ Hnd Hin).
    + apply includes_false in Hi. destruct (oget (ov_channels ov) (channel c)) as [[]|] eqn:Hg; try done.
      apply oget_Some_elem in Hg. exfalso. apply Hi, list_elem_of_fmap. exists (channel c, true).
      split; [done|]. by apply elem_of_filter_by.
  - eexists. split; [reflexivity|]. intros p. rewrite list_elem_of_fmap. split.
    + intros (ch & -> & [Ht Hin]%elem_of_filter_by).
      apply list_elem_of_fmap in Hin as ([k b] & -> & [Hb Hin]%elem_of_filter_by). simpl in *. subst.
      by exists k.
    + intros (ch & Hin & Ht & ->). exists ch. split; [done|]. apply elem_of_filter_by. split; [done|].
      apply list_elem_of_fmap. exists (ch, true). split; [done|]. by apply elem_of_filter_by.
Qed.

Definition tenant_a : Tenant := MkTenant "a" "Acme" "acme" "active".
Definition tenant_b : Tenant := MkTenant "b" "Bolt" "bolt" "active".
Definition overview_a : Overview :=
  MkOverview [("campaigns", true); ("otp", false)] [("email", true); ("sms", false)]
    [OvProvider "email" "smtp" true "active"].
Definition overview_b : Overview := MkOverview [] [("sms", true)] [].
Definition no_settings : TenantSettings := MkSettings None None None None.

Lemma edit_roundtrip_witness :
  let s := initial <| channels := [Channel "email" "" true; Channel "sms" "" true] |>
             <| form := edit_form tenant_a overview_a no_settings [] |> in
  jfield (payload s) "features" = Some (jstrs ["campaigns"]).
Proof.
  set (s := initial <| channels := [Channel "email" "" true; Channel "sms" "" true] |>
             <| form := edit_form tenant_a overview_a no_settings [] |>).
  apply (edit_roundtrip tenant_a overview_a no_settings [] s); [reflexivity|].
  apply NoDup_cons. split; [simpl; set_solver|]. apply NoDup_singleton.
Defined.

(** A server with two tenants, for runs of the page. *)
Definition sample_server (X : Type) (e : event X) : result X :=
  match e with
  | ListTenants _ => Ok (MkList [tenant_a; tenant_b] None)
  | ListFeatures => Ok []
  | ListChannels => Ok [Channel "email" "" true; Channel "sms" "" true]
  | ListProviderTypes => Ok []
  | PostTenant _ | PatchTenant _ _ | PatchStatus _ _ => Ok tt
  | LoadEdit i =>
      Ok (if decide (i = "a") then overview_a else overview_b, no_settings, [])
  end.

Notation page_reachable := (Ui.reachable http effects handle (view true) initial).
Notation page_commit := (Ui.commit http effects).
Notation page_act a c := (Ui.resume http c (Ui.c_pool c) (handle a (Ui.c_state c))).

Definition loaded : Ui.config :=
  page_commit (Ui.drain http sample_server 20 (page_commit (page_commit (Ui.initial initial)))).
Definition edit_a : Ui.config := page_commit (page_act (OpenEdit tenant_a) loaded).
Definition edit_b : Ui.config := page_commit (page_act (OpenEdit tenant_b) edit_a).

(** The answer for tenant b arrives first, the one for tenant a last. *)
Definition answer (i : nat) (c : Ui.config) : Ui.config :=
  match Ui.c_pool c !! i with
  | Some (Call e k) => page_commit (Ui.resume http c (delete i (Ui.c_pool c)) (k (sample_server _ e)))
  | _ => c
  end.
Definition crossed : Ui.config := answer 0 (answer 1 edit_b).

Lemma commit_reach c : page_reachable c -> Ui.c_dirty c = true -> page_reachable (page_commit c).
Proof. intros Hc Hd. eapply Ui.reach_step; [done|by apply Ui.step_commit]. Qed.

Lemma resume_dirty (c : Ui.config (E := event) (S := state)) pool p : Ui.c_dirty (Ui.resume http c pool p) = true.
Proof. unfold Ui.resume. by destruct (Ui.sync _ _ _) as [[? ?] ?]. Qed.

Lemma answer_reach i c : page_reachable c -> page_reachable (answer i c).
Proof.
  intros Hc. unfold answer. destruct (Ui.c_pool c !! i) as [[| | |X e k| |]|] eqn:Hi; try done.
  apply commit_reach; [|apply resume_dirty]. eapply Ui.reach_step; [done|]. 
  by apply (Ui.step_reply http effects handle (view true) c i X e k (sample_server X e)).
Qed.

Lemma open_edit_reach i c : page_reachable c -> Ui.c_dirty c = false ->
  loading (Ui.c_state c) = false -> i ∈ items (Ui.c_state c) ->
  page_reachable (page_commit (page_act (OpenEdit i) c)).
Proof.
  intros Hc Hd Hl Hi. apply commit_reach; [|apply resume_dirty].
  eapply Ui.reach_step; [done|]. apply (Ui.step_event http effects handle (view true)); [done|].
  unfold view. do 4 (apply offered_app; right). apply offered_app. left. rewrite Hl.
  destruct (bool_decide _) eqn:Hn.
  - apply bool_decide_eq_true, nil_length_inv in Hn. rewrite Hn in Hi. by apply not_elem_of_nil in Hi.
  - apply offered_app. left. apply offered_concat. exists i. split; [done|].
    unfold row. apply offered_app. right. by left.
Qed.

Lemma save_offered i s : editingTenant s = Some i ->
  saving s || negb (truthy (fm_name (form s))) || negb (truthy (fm_slug (form s))) = false ->
  offered (view true s) (Edit (id i)).
Proof.
  intros Hi Hs. unfold view. do 6 (apply offered_app; right). apply offered_app. left. rewrite Hi.
  left. apply offers_grp. apply offered_app. right. apply offered_app. right. right. left. by split.
Qed.

Lemma loaded_reach : page_reachable loaded.
Proof.
  repeat (apply commit_reach; [|vm_compute; reflexivity]). apply Ui.drain_reachable.
  repeat (apply commit_reach; [|vm_compute; reflexivity]). apply Ui.reach_init.
Qed.

Lemma edit_a_reach : page_reachable edit_a.
Proof.
  apply open_edit_reach; [apply loaded_reach|vm_compute; reflexivity..|].
  assert (H : items (Ui.c_state loaded) = [tenant_a; tenant_b]) by (vm_compute; reflexivity).
  rewrite H. by left.
Qed.

Lemma crossed_reach : page_reachable crossed.
Proof.
  do 2 apply answer_reach. apply open_edit_reach; [apply edit_a_reach|vm_compute; reflexivity..|].
  assert (H : items (Ui.c_state edit_a) = [tenant_a; tenant_b]) by (vm_compute; reflexivity).
  rewrite H. by right; left.
Qed.

(** The editor can overwrite a tenant with what it did not load.  It can be
    saved before (or without) the answer that fills it, which disables every
    channel and feature of the tenant; and when two tenants are opened one after
    the other and the answers cross, saving the second one sends the data of the
    first, name included. *)
Theorem edit_can_overwrite_tenant :
  (exists c, page_reachable c /\ Ui.c_dirty c = false
     /\ offered (view true (Ui.c_state c)) (Edit "a")
     /\ oget (ov_channels overview_a) "email" = Some true
     /\ jfield (payload (Ui.c_state c)) "features" = Some (jstrs [])
     /\ jfield (payload (Ui.c_state c)) "channels"
        = Some (JArr (map (channel_json []) (channels (Ui.c_state c)))))
  /\ (exists c, page_reachable c /\ Ui.c_dirty c = false
     /\ offered (view true (Ui.c_state c)) (Edit "b")
     /\ jfield (payload (Ui.c_state c)) "name" = Some (JStr (name tenant_a))
     /\ Ui.sync http (handle (Edit "b") (Ui.c_state c)) (Ui.c_state c)
        = ((Ui.c_state c) <| saving := true |>,
           [OReq (PATCH "/admin/api/v1/tenants/b" (payload (Ui.c_state c)))],
           (Ui.sync http (handle (Edit "b") (Ui.c_state c)) (Ui.c_state c)).2)).
Proof.
  split.
  - exists edit_a. split; [apply edit_a_reach|]. split; [vm_compute; reflexivity|].
    split; [apply (save_offered tenant_a); vm_compute; reflexivity|]. repeat split; vm_compute; reflexivity.
  - exists crossed. split; [apply crossed_reach|]. split; [vm_compute; reflexivity|].
    split; [apply (save_offered tenant_b); vm_compute; reflexivity|].
    split; [vm_compute; reflexivity|]. reflexivity.
Qed.
