(* ===== verification/Provision.v ===== *)
(** The provisioning of tenants (internal/http/handlers/handlers.go, with the encryption
    of internal/security): what the form of the page of tenants leaves of a tenant's
    settings, features, channels, providers and templates.

    The statements of a provisioning are no transaction: a failing one ends it, and
    what those before it did stays. *)
From stdpp Require Import gmap.
From S2P Require Import Tenants.
From S2P Require Import Prelude Js Json React Query Client Components Auth Api Page Handlers Accounts Secrets Rbac ProviderConfigs.

(** * Rows *)

Record channel_row := ChannelRow {
  ch_enabled : bool; ch_direction : string; ch_rate : Z; ch_quota : Z; ch_priority : Z }.
Record template_row := TemplateRow { tm_subject : option string; tm_body : string; tm_status : string }.

(** A tenant with its rows of other tables, by their unique columns: features by key,
    channels by name, templates by key, channel and locale, providers by identifier. *)
Record tenant_row := TenantRow {
  tn_name : string; tn_slug : string; tn_status : string; tn_config : obj json;
  tn_features : gmap string bool; tn_channels : gmap string channel_row;
  tn_providers : gmap string provider_row; tn_templates : gmap (string * string * string) template_row }.
#[export] Instance eta_tenant_row : Eta tenant_row := fun t =>
  TenantRow (tn_name t) (tn_slug t) (tn_status t) (tn_config t) (tn_features t) (tn_channels t)
    (tn_providers t) (tn_templates t).

(** * Statements *)

(** A statement on the tenant of an identifier, if there is one. *)
Definition statement : Type := option tenant_row -> option (option tenant_row).
(** [UPDATE] and [DELETE] of nothing succeed; an inserted row refers to its tenant. *)
Definition updates (f : tenant_row -> tenant_row) : statement := fun t => Some (f <$> t).
Definition inserts (f : tenant_row -> option tenant_row) : statement := fun t =>
  match t with Some t => Some <$> f t | None => None end.

(** The statements in their order, the first being the nth of its request: whether all
    succeeded, and what is left. *)
Fixpoint execute (stmt : nat -> bool) (n : nat) (ss : list statement) (t : option tenant_row)
    : bool * option tenant_row :=
  match ss with
  | [] => (true, t)
  | s :: ss =>
      match (if stmt n then s t else None) with
      | Some t => execute stmt (S n) ss t
      | None => (false, t)
      end
  end.

Section Provisioning.
Context `{cipher : Aead}.
(** The key of the service, the nonce of the nth encryption, the identifier of the nth
    new row, and the identifiers of the active features of the catalog. *)
Variable encKey : option string.
Variable rand : nat -> option string.
Variable row_id : nat -> string.
Variable catalog : list string.

(** [$4::jsonb] of a text. *)
Definition jsonb (text : string) : option json := Json.parse text.

(** The members of a decoded request: nil when they are absent or null. *)
Definition object_member (b : json) (k : string) : option (obj json) :=
  match jfield b k with Some (JObj m) => Some m | _ => None end.
Definition list_member (b : json) (k : string) : option (list json) :=
  match jfield b k with Some (JArr xs) => Some xs | _ => None end.
Definition int_member (b : json) (k : string) : Z := default 0 (QueueRow.pint b k).

(** A parameter for a column of four bytes. *)
Definition int4 (z : Z) : bool := (- 2 ^ 31 <=? z) && (z <? 2 ^ 31).

Definition set_features (fs : list string) : statement := fun t =>
  if decide (catalog = []) then Some t
  else inserts (fun t =>
    Some (t <| tn_features := fold_left (fun m k => <[k := includes fs k]> m) catalog (tn_features t) |>)) t.

Definition set_channel (c : json) : statement :=
  let direction := member c "direction" ||| "one_way" in
  let rate := if int_member c "rate_limit_per_second" <? 1 then 10 else int_member c "rate_limit_per_second" in
  let quota := if int_member c "daily_quota" <? 1 then 10000 else int_member c "daily_quota" in
  inserts (fun t =>
    if int4 rate && int4 quota then
      let priority := from_option ch_priority 5 (tn_channels t !! member c "channel") in
      Some (t <| tn_channels := <[member c "channel" := ChannelRow (flag c "enabled") direction rate quota priority]>
                                  (tn_channels t) |>)
    else None).

(** The settings are encrypted as those of a configuration are, but the encrypted text
    is not made JSON. *)
Definition add_provider (n : nat) (p : json) : statement :=
  inserts (fun t =>
    encrypted ← Encrypt encKey (rand n) "{}"; config ← jsonb encrypted;
    let r := ProviderRow (member p "channel") (member p "provider") config (flag p "is_default") "active" in
    if row_exists (tn_providers t) (row_id n)
       || active_default r && taken (fun r' => clashes "" r ("", r')) (tn_providers t) then None
    else Some (t <| tn_providers := <[row_id n := r]> (tn_providers t) |>)).

Definition set_template (x : json) : list statement :=
  if decide (member x "template_key" = "" \/ member x "channel" = "" \/ member x "body" = "") then []
  else
    [ inserts (fun t =>
        Some (t <| tn_templates := <[(member x "template_key", member x "channel", "en") :=
            TemplateRow (nullIfEmpty (member x "subject")) (member x "body") "active"]> (tn_templates t) |>)) ].

(** [applyTenantProvisioning] *)
Definition applyTenantProvisioning (b : json) : list statement :=
  match object_member b "settings" with Some m => [updates (fun t => t <| tn_config := m |>)] | None => [] end
  ++ match list_member b "features" with Some _ => [set_features (texts b "features")] | None => [] end
  ++ map set_channel (default [] (list_member b "channels"))
  ++ match list_member b "providers" with
     | Some ps => updates (fun t => t <| tn_providers := ∅ |>) :: imap add_provider ps
     | None => []
     end
  ++ match list_member b "templates" with
     | Some xs => updates (fun t => t <| tn_templates := ∅ |>) :: concat (map set_template xs)
     | None => []
     end.

(** * Handlers *)

Definition slug_taken (slug : string) (ts : gmap string tenant_row) : bool :=
  taken (fun t => bool_decide (tn_slug t = slug)) ts.

(** What is left of a tenant is put back. *)
Definition put_back (id : string) (t : option tenant_row) (ts : gmap string tenant_row) : gmap string tenant_row :=
  match t with Some t => <[id := t]> ts | None => ts end.

Definition CreateTenant (stmt : nat -> bool) (id : string) (p : Principal) (body : option json)
    (ts : gmap string tenant_row) : Z * gmap string tenant_row :=
  if negb (is_platform_admin p) then (403, ts)
  else
    match decoded tenantProvisioningRequest body with
    | None => (400, ts)
    | Some b =>
        if decide (member b "name" = "" \/ member b "slug" = "") then (400, ts)
        else if negb (stmt 0%nat) || row_exists ts id then (500, ts)
        else if slug_taken (member b "slug") ts then (409, ts)
        else
          let t := TenantRow (member b "name") (member b "slug") "active" [] ∅ ∅ ∅ ∅ in
          let '(ok, t) := execute stmt 1 (applyTenantProvisioning b) (Some t) in
          (if ok then 201 else 500, put_back id t ts)
    end.

(** The name and the slug, unless they are empty. *)
Definition rename (b : json) (t : tenant_row) : tenant_row :=
  t <| tn_name := kept (tn_name t) (member b "name") |> <| tn_slug := kept (tn_slug t) (member b "slug") |>.

(** Whether the tenant exists is not looked at. *)
Definition UpdateTenant (stmt : nat -> bool) (p : Principal) (id : string) (body : option json)
    (ts : gmap string tenant_row) : Z * gmap string tenant_row :=
  if negb (is_platform_admin p) then (403, ts)
  else
    match decoded tenantProvisioningRequest body with
    | None => (400, ts)
    | Some b =>
        let named := bool_decide (member b "name" <> "" \/ member b "slug" <> "") in
        if named && negb (stmt 0%nat) then (500, ts)
        else if named && row_exists ts id && bool_decide (member b "slug" <> "")
                && slug_taken (member b "slug") (delete id ts) then (409, ts)
        else
          let '(ok, t) := execute stmt 1 (applyTenantProvisioning b) (rename b <$> ts !! id) in
          (if ok then 200 else 500, put_back id t ts)
    end.

Definition UpdateTenantStatus (stmt : nat -> bool) (p : Principal) (id : string) (body : option json)
    (ts : gmap string tenant_row) : Z * gmap string tenant_row :=
  if negb (is_platform_admin p) then (403, ts)
  else
    match decoded UpdateTenantStatus_req body with
    | None => (400, ts)
    | Some b =>
        if negb (includes ["active"; "disabled"; "suspended"] (member b "status")) then (400, ts)
        else if stmt 0%nat then (200, alter (fun t => t <| tn_status := member b "status" |>) id ts) else (500, ts)
    end.

(** * Encrypted texts are no JSON *)

Lemma add_provider_fails n p t : add_provider n p t = None.
Proof.
  unfold add_provider, inserts. destruct t as [t|]; [|done]. destruct (Encrypt _ _ _) as [e|] eqn:E; [|done].
  unfold jsonb. simpl. by rewrite (encrypted_is_no_json encKey (rand n) "{}" e E ltac:(done)).
Qed.

(** Statements that all succeed. *)
Fixpoint sequence (ss : list statement) (t : option tenant_row) : option (option tenant_row) :=
  match ss with [] => Some t | s :: ss => t ← s t; sequence ss t end.

Lemma sequence_app ss ss' t : sequence (ss ++ ss') t = t ← sequence ss t; sequence ss' t.
Proof. revert t. induction ss as [|s ss IH]; intros t; simpl; [done|]. by destruct (s t) as [t'|]; simpl. Qed.

Lemma execute_sequence stmt n ss t t' : execute stmt n ss t = (true, t') -> sequence ss t = Some t'.
Proof.
  revert n t. induction ss as [|s ss IH]; intros n t; simpl; [by intros [= <-]|].
  destruct (stmt n); [|done]. destruct (s t) as [t1|]; [|done]. simpl. apply IH.
Qed.

(** What a sequence leaves when the statement after it fails. *)
Lemma execute_stops stmt n ss s ss' t t' :
  (forall n, stmt n = true) -> sequence ss t = Some t' -> s t' = None ->
  execute stmt n (ss ++ s :: ss') t = (false, t').
Proof.
  intros Hs. revert n t. induction ss as [|s0 ss IH]; intros n t; simpl; rewrite Hs.
  - intros [= ->] ->. done.
  - destruct (s0 t) as [t1|]; [|done]. simpl. apply IH.
Qed.
Lemma execute_completes stmt n ss t t' :
  (forall n, stmt n = true) -> sequence ss t = Some t' -> execute stmt n ss t = (true, t').
Proof.
  intros Hs. revert n t. induction ss as [|s ss IH]; intros n t; simpl; [by intros [= <-]|].
  rewrite Hs. destruct (s t) as [t1|]; [|done]. simpl. apply IH.
Qed.

(** * The form *)

Definition form_config (f : ProvisionForm) : obj json :=
  [("timezone", JStr (timezone f)); ("country", JStr (country f));
   ("default_sender", JStr (default_sender f)); ("default_sms", JStr (default_sms f))].
Definition form_channel (selected : list string) (rows : gmap string channel_row) (c : CatalogChannel) : channel_row :=
  ChannelRow (includes selected (channel c))
    (if decide (channel c = "websocket" \/ channel c = "in_app") then "two_way" else "one_way")
    10 10000 (from_option ch_priority 5 (rows !! channel c)).
Definition form_channels (f : ProvisionForm) (cs : list CatalogChannel) (rows : gmap string channel_row)
    : gmap string channel_row :=
  fold_left (fun m c => <[channel c := form_channel (channels_ f) m c]> m) cs rows.
Definition form_features (f : ProvisionForm) (rows : gmap string bool) : gmap string bool :=
  fold_left (fun m k => <[k := includes (Tenants.features_ f) k]> m) catalog rows.
Definition complete_template (x : StarterTemplate) : bool :=
  truthy (template_key x) && truthy (t_channel x) && truthy (Tenants.body x).
Definition form_templates (f : ProvisionForm) : gmap (string * string * string) template_row :=
  fold_left (fun m x => <[(template_key x, t_channel x, "en") :=
      TemplateRow (nullIfEmpty (Tenants.subject x)) (Tenants.body x) "active"]> m)
    (filter_by complete_template (Tenants.templates f)) ∅.
(** The channels that a provider is chosen for. *)
Definition form_providers (f : ProvisionForm) : list string :=
  filter_by (fun c => truthy (oget_str (Tenants.providers f) c)) (channels_ f).

(** The statements before the insertion of providers. *)
Definition first_statements (s : Tenants.state) : list statement :=
  updates (fun t => t <| tn_config := form_config (form s) |>) :: set_features (Tenants.features_ (form s))
  :: map set_channel (map (channel_json (channels_ (form s))) (Tenants.channels s))
  ++ [updates (fun t => t <| tn_providers := ∅ |>)].
Definition last_statements (s : Tenants.state) : list statement :=
  updates (fun t => t <| tn_templates := ∅ |>) :: concat (map set_template (map template_json (Tenants.templates (form s)))).

Lemma payload_statements s :
  applyTenantProvisioning (payload s)
  = first_statements s ++ imap add_provider (map (provider_json (Tenants.providers (form s))) (form_providers (form s)))
    ++ last_statements s.
Proof.
  assert (Hf : texts (payload s) "features" = Tenants.features_ (form s)).
  { unfold texts. change (jfield (payload s) "features") with (Some (jstrs (Tenants.features_ (form s)))).
    unfold jstrs. rewrite map_map. apply map_id. }
  unfold applyTenantProvisioning. rewrite Hf.
  change (object_member (payload s) "settings") with (Some (form_config (form s))).
  change (list_member (payload s) "features") with (Some (map JStr (Tenants.features_ (form s)))).
  change (list_member (payload s) "channels") with (Some (map (channel_json (channels_ (form s))) (Tenants.channels s))).
  change (list_member (payload s) "providers")
    with (Some (map (provider_json (Tenants.providers (form s))) (form_providers (form s)))).
  change (list_member (payload s) "templates") with (Some (map template_json (Tenants.templates (form s)))).
  unfold first_statements, last_statements. simpl. by rewrite <- !app_assoc.
Qed.

Lemma sequence_features fs t :
  sequence [set_features fs] (Some t)
  = Some (Some (t <| tn_features := fold_left (fun m k => <[k := includes fs k]> m) catalog (tn_features t) |>)).
Proof. unfold set_features. simpl. case_decide as E; [rewrite E; by destruct t|done]. Qed.

Lemma sequence_channels f cs t :
  sequence (map set_channel (map (channel_json (channels_ f)) cs)) (Some t)
  = Some (Some (t <| tn_channels := form_channels f cs (tn_channels t) |>)).
Proof.
  revert t. induction cs as [|c cs IH]; intros t; [by destruct t|]. cbn [map sequence].
  assert (Hc : set_channel (channel_json (channels_ f) c) (Some t)
    = Some (Some (t <| tn_channels := <[channel c := form_channel (channels_ f) (tn_channels t) c]> (tn_channels t) |>))).
  { unfold channel_json, form_channel. by destruct (decide (channel c = "websocket" \/ channel c = "in_app")). }
  rewrite Hc. cbn [mbind option_bind]. rewrite IH. done.
Qed.

Lemma set_template_form x :
  set_template (template_json x)
  = if complete_template x then
      [inserts (fun t => Some (t <| tn_templates := <[(template_key x, t_channel x, "en") :=
          TemplateRow (nullIfEmpty (Tenants.subject x)) (Tenants.body x) "active"]> (tn_templates t) |>))]
    else [].
Proof.
  unfold set_template.
  change (member (template_json x) "template_key") with (template_key x).
  change (member (template_json x) "channel") with (t_channel x).
  change (member (template_json x) "body") with (Tenants.body x).
  change (member (template_json x) "subject") with (Tenants.subject x).
  assert (Hx : complete_template x = negb (bool_decide (template_key x = "" \/ t_channel x = "" \/ Tenants.body x = ""))).
  { unfold complete_template, truthy. repeat case_bool_decide; naive_solver. }
  rewrite Hx. destruct (decide (template_key x = "" \/ t_channel x = "" \/ Tenants.body x = "")) as [E|E];
    [by rewrite bool_decide_true|by rewrite bool_decide_false].
Qed.

Lemma sequence_templates f t :
  sequence (concat (map set_template (map template_json (Tenants.templates f)))) (Some t)
  = Some (Some (t <| tn_templates := fold_left (fun m x => <[(template_key x, t_channel x, "en") :=
      TemplateRow (nullIfEmpty (Tenants.subject x)) (Tenants.body x) "active"]> m)
    (filter_by complete_template (Tenants.templates f)) (tn_templates t) |>)).
Proof.
  revert t. induction (Tenants.templates f) as [|x xs IH]; intros t; [by destruct t|].
  cbn [map concat filter_by]. rewrite sequence_app.
  rewrite set_template_form. destruct (complete_template x);
    cbn [sequence inserts fmap option_fmap option_map mbind option_bind]; by rewrite IH.
Qed.

Lemma sequence_first s t :
  sequence (first_statements s) (Some t)
  = Some (Some (t <| tn_config := form_config (form s) |> <| tn_features := form_features (form s) (tn_features t) |>
      <| tn_channels := form_channels (form s) (Tenants.channels s) (tn_channels t) |> <| tn_providers := ∅ |>)).
Proof.
  unfold first_statements. cbn [sequence updates fmap option_fmap option_map mbind option_bind].
  pose proof (sequence_features (Tenants.features_ (form s)) (t <| tn_config := form_config (form s) |>)) as Hf.
  cbn [sequence] in Hf.
  destruct (set_features _ _) as [t1|]; [|done]. cbn [mbind option_bind] in *. simplify_eq.
  rewrite sequence_app, sequence_channels. done.
Qed.

(** What is left by a form without providers. *)
Definition provisioned (s : Tenants.state) (t : tenant_row) : tenant_row :=
  t <| tn_config := form_config (form s) |> <| tn_features := form_features (form s) (tn_features t) |>
    <| tn_channels := form_channels (form s) (Tenants.channels s) (tn_channels t) |>
    <| tn_providers := ∅ |> <| tn_templates := form_templates (form s) |>.

Lemma sequence_form s t : form_providers (form s) = [] ->
  sequence (applyTenantProvisioning (payload s)) (Some t) = Some (Some (provisioned s t)).
Proof.
  intros E. rewrite payload_statements, E, !sequence_app, sequence_first. cbn [map imap app sequence mbind option_bind].
  unfold last_statements. cbn [app sequence updates fmap option_fmap option_map mbind option_bind].
  by rewrite sequence_templates.
Qed.

Lemma sequence_payload s t t' :
  sequence (applyTenantProvisioning (payload s)) (Some t) = Some t' ->
  form_providers (form s) = [] /\ t' = Some (provisioned s t).
Proof.
  intros H. destruct (form_providers (form s)) as [|c cs] eqn:E.
  - rewrite sequence_form in H by done. by simplify_eq.
  - rewrite payload_statements, E, !sequence_app, sequence_first in H. cbn [map imap app sequence mbind option_bind] in H.
    by rewrite add_provider_fails in H.
Qed.

Lemma form_features_lookup f rows k :
  form_features f rows !! k = if decide (k ∈ catalog) then Some (includes (Tenants.features_ f) k) else rows !! k.
Proof.
  unfold form_features. revert rows. induction catalog as [|x xs IH]; intros rows; [done|]. simpl. rewrite IH.
  destruct (decide (k ∈ xs)) as [Hk|Hk]; [by rewrite decide_True by by right|].
  destruct (decide (x = k)) as [->|Hne].
  - rewrite lookup_insert_eq. by rewrite decide_True by by left.
  - rewrite lookup_insert_ne by done. rewrite decide_False; [done|]. rewrite not_elem_of_cons. done.
Qed.

Lemma form_channels_other f cs rows ch : ch ∉ map channel cs -> form_channels f cs rows !! ch = rows !! ch.
Proof.
  unfold form_channels. revert rows. induction cs as [|c cs IH]; intros rows; [done|]. simpl.
  rewrite not_elem_of_cons. intros [Hne Hn]. rewrite IH by done. by rewrite lookup_insert_ne.
Qed.

Lemma form_channels_lookup f cs rows c : c ∈ cs ->
  form_channels f cs rows !! channel c = Some (form_channel (channels_ f) rows c).
Proof.
  unfold form_channels. revert rows c. induction cs as [|x cs IH]; intros rows c; [by intros ?%elem_of_nil|]. simpl.
  intros Hc. destruct (decide (channel c ∈ map channel cs)) as [Hin|Hn].
  - apply list_elem_of_fmap in Hin as (y & Hy & Hin).
    assert (Hsame : forall m, form_channel (channels_ f) m c = form_channel (channels_ f) m y)
      by (intros m; unfold form_channel; by rewrite Hy).
    rewrite Hsame, Hy. rewrite IH by done. f_equal. unfold form_channel. f_equal.
    destruct (decide (channel x = channel y)) as [->|Hne]; [by rewrite lookup_insert_eq|by rewrite lookup_insert_ne].
  - apply elem_of_cons in Hc as [->|Hc]; [|by destruct Hn; apply list_elem_of_fmap_2].
    pose proof (fun rows => form_channels_other f cs rows (channel x) Hn) as Ho. unfold form_channels in Ho.
    rewrite Ho. apply lookup_insert_eq.
Qed.

(** C21: a tenant is saved as its form says, when it is saved at all.  When the API
    accepts the form of a new or an edited tenant, the form has chosen no provider;
    the tenant has the name and the slug of the form, exactly the four settings of
    the form, each active feature of the catalog as checked, each channel on screen
    as checked, no providers, and exactly the complete templates of the form. *)
Theorem saved_tenant_is_as_the_form stmt p id s ts ts' t :
  CreateTenant stmt id p (Some (payload s)) ts = (201, ts') /\ t = TenantRow "" "" "active" [] ∅ ∅ ∅ ∅
  \/ UpdateTenant stmt p id (Some (payload s)) ts = (200, ts') /\ ts !! id = Some t ->
  form_providers (form s) = []
  /\ exists t', ts' = <[id := t']> ts
     /\ tn_name t' = kept (tn_name t) (fm_name (form s)) /\ tn_slug t' = kept (tn_slug t) (fm_slug (form s))
     /\ tn_status t' = tn_status t /\ tn_config t' = form_config (form s)
     /\ (forall k, tn_features t' !! k
          = if decide (k ∈ catalog) then Some (includes (Tenants.features_ (form s)) k) else tn_features t !! k)
     /\ (forall c, c ∈ Tenants.channels s ->
          tn_channels t' !! channel c = Some (form_channel (channels_ (form s)) (tn_channels t) c))
     /\ (forall ch, ch ∉ map channel (Tenants.channels s) -> tn_channels t' !! ch = tn_channels t !! ch)
     /\ tn_providers t' = ∅ /\ tn_templates t' = form_templates (form s).
Proof.
  intros H.
  assert (Ht : form_providers (form s) = [] /\ ts' = <[id := provisioned s (rename (payload s) t)]> ts).
  { assert (Hb : decoded tenantProvisioningRequest (Some (payload s)) = Some (payload s))
      by (unfold decoded; by rewrite payload_reads).
    destruct H as [[H ->]|[H Ht]].
    - unfold CreateTenant in H. destruct (negb (is_platform_admin p)); [done|]. rewrite Hb in H.
      case_decide as Hne; [done|]. destruct (_ || _); [done|]. destruct (slug_taken _ _); [done|].
      destruct (execute _ _ _ _) as [ok t1] eqn:E. destruct ok; [|done]. injection H as <-.
      apply execute_sequence, sequence_payload in E as [Hp ->]. split; [done|]. simpl. do 2 f_equal.
      unfold rename, kept. cbn [tn_name tn_slug]. by rewrite !decide_False by tauto.
    - unfold UpdateTenant in H. destruct (negb (is_platform_admin p)); [done|]. rewrite Hb in H.
      destruct (_ && negb _); [done|]. destruct (_ && slug_taken _ _); [done|]. rewrite Ht in H.
      destruct (execute _ _ _ _) as [ok t1] eqn:E. destruct ok; [|done]. injection H as <-.
      by apply execute_sequence, sequence_payload in E as [Hp ->]. }
  destruct Ht as [Hp ->]. split; [done|]. eexists. split; [done|]. split_and!; try done.
  - intros k. apply form_features_lookup.
  - intros c Hc. by apply form_channels_lookup.
  - intros ch Hch. by apply form_channels_other.
Qed.

(** * Opening and saving *)

(** [GetTenantOverview], in any order of its lists. *)
Definition overview_of (t : tenant_row) (ov : Overview) : Prop :=
  ov_features ov ≡ₚ map_to_list (tn_features t)
  /\ ov_channels ov ≡ₚ map (fun kc => (kc.1, ch_enabled kc.2)) (map_to_list (tn_channels t))
  /\ ov_providers ov ≡ₚ map (fun r => OvProvider (pr_channel r) (pr_provider r) (pr_default r) (pr_status r)) (map_to_list (tn_providers t)).*2.

(** A channel is served: it is enabled, and has an active default provider. *)
Definition serves_channel (t : tenant_row) : Prop :=
  exists i r c, tn_providers t !! i = Some r /\ pr_default r = true /\ pr_status r = "active"
    /\ tn_channels t !! pr_channel r = Some c /\ ch_enabled c = true.

Lemma oset_fold_truthy (ps : list OverviewProvider) o x :
  (forall p, p ∈ ps -> op_provider p <> "") ->
  truthy (oget_str (fold_left (fun o p => oset o (op_channel p) (op_provider p)) ps o) x) = true
  <-> truthy (oget_str o x) = true \/ exists p, p ∈ ps /\ op_channel p = x.
Proof.
  revert o. induction ps as [|p ps IH]; intros o Hne; simpl.
  - split; [by left|]. intros [H|(p & Hp & _)]; [done|]. by apply elem_of_nil in Hp.
  - rewrite IH by (intros q Hq; apply Hne; by right). setoid_rewrite elem_of_cons.
    assert (Ho : truthy (oget_str (oset o (op_channel p) (op_provider p)) x) = true
      <-> op_channel p = x \/ truthy (oget_str o x) = true).
    { unfold oget_str. rewrite oget_oset. case_decide as E; simpl.
      - split; [by left|]. intros _. apply truthy_true. apply Hne. by left.
      - naive_solver. }
    rewrite Ho. naive_solver.
Qed.

Lemma elem_of_rows {V} (m : gmap string V) v : v ∈ (map_to_list m).*2 <-> exists i, m !! i = Some v.
Proof.
  rewrite list_elem_of_fmap. split.
  - intros ([i x] & -> & Hx%elem_of_map_to_list). by exists i.
  - intros (i & Hi%elem_of_map_to_list). by exists (i, v).
Qed.

Lemma opened_providers t ov s i cfg tms :
  overview_of t ov -> form s = edit_form i ov cfg tms -> (forall i r, tn_providers t !! i = Some r -> pr_provider r <> "") ->
  form_providers (form s) <> [] <-> serves_channel t.
Proof.
  intros (_ & Hc & Hp) Hf Hne.
  assert (Hin : forall c, c ∈ form_providers (form s) <->
    (exists i r, tn_providers t !! i = Some r /\ pr_default r = true /\ pr_status r = "active" /\ pr_channel r = c)
    /\ exists row, tn_channels t !! c = Some row /\ ch_enabled row = true).
  { intros c. unfold form_providers. rewrite elem_of_filter_by, Hf. simpl. rewrite oset_fold_truthy.
    - assert (H1 : (exists p, p ∈ filter_by (fun p => op_is_default p && bool_decide (op_status p = "active")) (ov_providers ov)
          /\ op_channel p = c)
        <-> exists i r, tn_providers t !! i = Some r /\ pr_default r = true /\ pr_status r = "active" /\ pr_channel r = c).
      { setoid_rewrite elem_of_filter_by. split.
        - intros (q & [Hq Hin] & Hqc). rewrite Hp in Hin. apply list_elem_of_fmap in Hin as (r & -> & [i' Hr]%elem_of_rows).
          simpl in *. apply andb_prop in Hq as [Hd Hs%bool_decide_eq_true]. by exists i', r.
        - intros (i' & r & Hr & Hd & Hs & Hrc). eexists.
          split; [split; [|rewrite Hp; apply list_elem_of_fmap_2, elem_of_rows; by eexists]|done].
          simpl. rewrite Hd. by apply bool_decide_eq_true. }
      assert (H2 : c ∈ map fst (filter_by snd (ov_channels ov)) <-> exists row, tn_channels t !! c = Some row /\ ch_enabled row = true).
      { rewrite list_elem_of_fmap. setoid_rewrite elem_of_filter_by. split.
        - intros ([k e] & -> & He & Hin). simpl in *. subst e. rewrite Hc in Hin.
          apply list_elem_of_fmap in Hin as ([k' row] & [= -> Hrow] & Hin). exists row. by apply elem_of_map_to_list in Hin.
        - intros (row & Hrow & He). exists (c, true). split; [done|]. split; [done|]. rewrite Hc.
          apply list_elem_of_fmap. exists (c, row). split; [by rewrite <- He|]. by apply elem_of_map_to_list. }
      rewrite H1, H2. simpl. unfold truthy, oget_str. simpl. naive_solver.
    - intros q [_ Hq]%elem_of_filter_by. rewrite Hp in Hq.
      apply list_elem_of_fmap in Hq as (r & -> & [i' Hr]%elem_of_rows). by eapply Hne. }
  split.
  - intros H. destruct (form_providers (form s)) as [|c cs]; [done|].
    destruct (proj1 (Hin c) ltac:(by left)) as [(i' & r & Hr & Hd & Hst & <-) (row & Hrow & He)]. by exists i', r, row.
  - intros (i' & r & c & Hr & Hd & Hst & Hcr & He) H.
    assert (Hx : pr_channel r ∈ form_providers (form s)) by (apply Hin; eauto 10).
    rewrite H in Hx. by apply elem_of_nil in Hx.
Qed.

(** C22: opening a tenant and saving it unchanged destroys.  When no statement fails,
    the providers of the tenant are gone with their settings, the limits of every
    channel on screen are the default ones again, and the settings that the form
    does not show are forgotten.  If an enabled channel had an active default
    provider, the provisioning fails after that, since the encrypted settings of the
    new provider are no JSON: the answer is 500, and the templates are not reached. *)
Theorem opened_and_saved_destroys stmt p id ov cfg tms s ts t :
  (forall n, stmt n = true) -> is_platform_admin p = true -> ts !! id = Some t ->
  slug_taken (tn_slug t) (delete id ts) = false -> overview_of t ov ->
  (forall i r, tn_providers t !! i = Some r -> pr_provider r <> "") ->
  form s = edit_form (MkTenant id (tn_name t) (tn_slug t) (tn_status t)) ov cfg tms ->
  exists st t', UpdateTenant stmt p id (Some (payload s)) ts = (st, <[id := t']> ts)
    /\ (serves_channel t -> st = 500 /\ tn_templates t' = tn_templates t)
    /\ (~ serves_channel t -> st = 200)
    /\ tn_providers t' = ∅
    /\ (forall c, c ∈ Tenants.channels s -> exists row, tn_channels t' !! channel c = Some row
          /\ ch_rate row = 10 /\ ch_quota row = 10000)
    /\ (forall k, k ∉ ["timezone"; "country"; "default_sender"; "default_sms"] -> oget (tn_config t') k = None).
Proof.
  intros Hs Hp Ht Hslug Hov Hne Hf.
  pose proof (opened_providers t ov s _ cfg tms Hov Hf Hne) as Hserves.
  unfold UpdateTenant. rewrite Hp. cbn [negb]. unfold decoded. rewrite payload_reads, Hs.
  change (member (payload s) "slug") with (fm_slug (form s)).
  assert (Hsl : fm_slug (form s) = tn_slug t) by (by rewrite Hf). rewrite Hsl, Hslug, !andb_false_r, Ht. cbn [fmap option_fmap option_map].
  assert (Hren : rename (payload s) t = t).
  { unfold rename. change (member (payload s) "name") with (fm_name (form s)).
    change (member (payload s) "slug") with (fm_slug (form s)). rewrite Hf. simpl. unfold kept.
    destruct t. simpl. by repeat case_decide. }
  rewrite Hren.
  assert (Hcfg : forall k, k ∉ ["timezone"; "country"; "default_sender"; "default_sms"] -> oget (form_config (form s)) k = None).
  { intros k Hk. rewrite !not_elem_of_cons in Hk. unfold form_config. simpl. by rewrite !decide_False by naive_solver. }
  destruct (form_providers (form s)) as [|c cs] eqn:E.
  - rewrite (execute_completes _ _ _ _ _ Hs (sequence_form s t E)).
    exists 200, (provisioned s t). split; [done|]. split; [intros H; by apply Hserves in H|]. split; [done|]. split; [done|]. split.
    + intros x Hx. eexists. split; [by apply form_channels_lookup|done].
    + exact Hcfg.
  - rewrite payload_statements, E. cbn [map imap app].
    erewrite (execute_stops _ _ (first_statements s)); [|done|apply sequence_first|apply add_provider_fails].
    eexists 500, _. split; [done|]. split; [done|]. split; [intros H; destruct H; by apply Hserves|]. split; [done|]. split.
    + intros x Hx. eexists. split; [by apply form_channels_lookup|done].
    + exact Hcfg.
Qed.

End Provisioning.

(** * The table of configurations *)

(** The tenants with the table that [ProviderConfigs] writes: the providers of a tenant
    are its rows there. *)
Record platform := Platform { pf_tenants : gmap string tenant_row; pf_table : provider_table }.

Definition rows_of (id : string) (t : provider_table) : gmap string provider_row :=
  omap (fun x => if decide (x.1 = id) then Some x.2 else None) t.
Definition view (st : platform) : gmap string tenant_row :=
  map_imap (fun id t => Some (t <| tn_providers := rows_of id (pf_table st) |>)) (pf_tenants st).
(** The rows of a tenant after a provisioning are those it left. *)
Definition write_back (id : string) (ts : gmap string tenant_row) (t : provider_table) : provider_table :=
  match ts !! id with
  | Some tn => filter (fun x => x.2.1 <> id) t ∪ ((fun r => (id, r)) <$> tn_providers tn)
  | None => t
  end.
Definition on_tenant (id : string) (f : gmap string tenant_row -> Z * gmap string tenant_row) (st : platform)
    : Z * platform :=
  let '(status, ts) := f (view st) in (status, Platform ts (write_back id ts (pf_table st))).

Section Platform.
Context `{cipher : Aead}.
Variable encKey : option string.
Variable ReadFile : string -> option string.
Variable answered : adapter -> option string.

(** A request on tenants, with what the surroundings answer. *)
Record tenant_call := TenantCall {
  tc_by : Principal; tc_stmt : nat -> bool; tc_id : string; tc_rand : nat -> option string;
  tc_rows : nat -> string; tc_catalog : list string; tc_request : request }.

Definition tenant_handlers (c : tenant_call) : handled_routes platform :=
  let provisioning {A} (f : (nat -> option string) -> (nat -> string) -> list string -> A) :=
    f (tc_rand c) (tc_rows c) (tc_catalog c) in
  [ ("POST", [L "tenants"], fun _ b => on_tenant (tc_id c)
      (provisioning (CreateTenant encKey) (tc_stmt c) (tc_id c) (tc_by c) b));
    ("PATCH", [L "tenants"; V "id"], fun v b => on_tenant (arg v 0)
      (provisioning (UpdateTenant encKey) (tc_stmt c) (tc_by c) (arg v 0) b));
    ("PATCH", [L "tenants"; V "id"; L "status"], fun v b => on_tenant (arg v 0)
      (UpdateTenantStatus (tc_stmt c) (tc_by c) (arg v 0) b)) ].

(** The requests that write configurations: those of their own routes, and those on
    tenants. *)
Inductive admin_call := ProviderRequest (c : provider_call) | TenantRequest (c : tenant_call).
Definition admin_by (c : admin_call) : Principal :=
  match c with ProviderRequest c => pc_by c | TenantRequest c => tc_by c end.

Definition serve_admin (c : admin_call) (st : platform) : option (Z * platform) :=
  match c with
  | ProviderRequest c =>
      '(status, t) ← serve_provider encKey (map_to_list (pf_tenants st)).*1 ReadFile answered c (pf_table st);
      Some (status, Platform (pf_tenants st) t)
  | TenantRequest c => route_to (tenant_handlers c) (tc_by c) (tc_request c) st
  end.
Fixpoint serve_admins (cs : list admin_call) (st : platform) : option (list Z * platform) :=
  match cs with
  | [] => Some ([], st)
  | c :: cs =>
      '(status, st) ← serve_admin c st;
      '(statuses, st) ← serve_admins cs st; Some (status :: statuses, st)
  end.

(** A provisioning takes providers away and adds none. *)
Definition fewer (t t' : option tenant_row) : Prop :=
  match t, t' with
  | Some t, Some t' => tn_providers t' ⊆ tn_providers t
  | None, None => True
  | _, _ => False
  end.
Lemma fewer_refl t : fewer t t.
Proof. destruct t; simpl; done. Qed.
Lemma fewer_trans t1 t2 t3 : fewer t1 t2 -> fewer t2 t3 -> fewer t1 t3.
Proof. destruct t1, t2, t3; simpl; try done. intros H1 H2. by transitivity (tn_providers t0). Qed.

Definition takes_away (s : statement) : Prop := forall t t', s t = Some t' -> fewer t t'.

Lemma updates_takes_away f : (forall t, tn_providers (f t) ⊆ tn_providers t) -> takes_away (updates f).
Proof. intros Hf t t'. unfold updates. intros [= <-]. destruct t as [t|]; [apply Hf|done]. Qed.
Lemma inserts_takes_away f : (forall t t', f t = Some t' -> tn_providers t' = tn_providers t) -> takes_away (inserts f).
Proof.
  intros Hf t t'. unfold inserts. destruct t as [t|]; [|done]. destruct (f t) as [t1|] eqn:E; [|done].
  intros [= <-]. simpl. by rewrite (Hf t t1 E).
Qed.

Lemma execute_takes_away stmt n ss t : Forall takes_away ss -> fewer t (execute stmt n ss t).2.
Proof.
  intros Hs. revert n t. induction Hs as [|s ss Hs _ IH]; intros n t; simpl; [apply fewer_refl|].
  destruct (stmt n); [|apply fewer_refl]. destruct (s t) as [t1|] eqn:E; [|apply fewer_refl].
  eapply fewer_trans; [by apply Hs|apply IH].
Qed.

Lemma provisioning_takes_away rand row_id catalog b :
  Forall takes_away (applyTenantProvisioning encKey rand row_id catalog b).
Proof.
  assert (Hkeep : forall f, (forall t, tn_providers (f t) = tn_providers t) -> takes_away (updates f)).
  { intros f Hf. apply updates_takes_away. intros t. by rewrite Hf. }
  unfold applyTenantProvisioning. rewrite !Forall_app. split_and!.
  - destruct (object_member _ _); constructor; [by apply Hkeep|done].
  - destruct (list_member b "features"); constructor; [|done]. intros t t'. unfold set_features.
    case_decide; [intros [= <-]; apply fewer_refl|]. apply inserts_takes_away. by intros ?? [= <-].
  - apply Forall_map, Forall_forall. intros c _. apply inserts_takes_away. intros t t'.
    destruct (_ && _); [|done]. by intros [= <-].
  - destruct (list_member b "providers") as [ps|]; [|done]. constructor.
    + apply updates_takes_away. intros t. apply map_empty_subseteq.
    + apply Forall_forall. intros s Hs. apply elem_of_lookup_imap in Hs as (n & x & -> & _).
      intros t t'. by rewrite add_provider_fails.
  - destruct (list_member b "templates") as [xs|]; [|done]. constructor; [by apply Hkeep|].
    apply Forall_forall. intros s Hs. apply list_elem_of_In, in_concat in Hs as (l & Hl & Hs).
    apply in_map_iff in Hl as (x & <- & _). unfold set_template in Hs. case_decide; [done|].
    destruct Hs as [<-|[]]. apply inserts_takes_away. by intros ?? [= <-].
Qed.

(** A handler that leaves the tenant of the identifier with no more providers than it
    had. *)
Definition takes (id : string) (ts ts' : gmap string tenant_row) : Prop :=
  match ts' !! id with
  | Some t' => tn_providers t' ⊆ from_option tn_providers ∅ (ts !! id)
  | None => True
  end.
Definition only_takes (id : string) (f : gmap string tenant_row -> Z * gmap string tenant_row) : Prop :=
  forall ts, takes id ts (f ts).2.

Lemma only_takes_same id ts : takes id ts ts.
Proof. unfold takes. destruct (ts !! id); simpl; done. Qed.

Lemma put_back_takes id t t' (ts : gmap string tenant_row) :
  fewer t t' -> t = None \/ tn_providers <$> t = Some ∅ \/ tn_providers <$> t = tn_providers <$> ts !! id ->
  takes id ts (put_back id t' ts).
Proof.
  intros Hf Ht. unfold takes. destruct t as [t|], t' as [t'|]; try done; simpl.
  - rewrite lookup_insert_eq. simpl in Hf, Ht. destruct Ht as [?|[[= E]|E]]; [done|..].
    + rewrite E in Hf. etrans; [exact Hf|]. apply map_empty_subseteq.
    + destruct (ts !! id) as [t0|]; [|done]. injection E as E. simpl. by rewrite <- E.
  - destruct (ts !! id) as [t0|]; simpl; [|done]. by destruct Ht as [?|[?|?]].
Qed.

Lemma CreateTenant_takes rand row_id catalog stmt id p b :
  only_takes id (CreateTenant encKey rand row_id catalog stmt id p b).
Proof.
  intros ts. unfold CreateTenant. destruct (negb _); [apply only_takes_same|].
  destruct (decoded _ _) as [b'|]; [|apply only_takes_same]. case_decide; [apply only_takes_same|].
  destruct (_ || _); [apply only_takes_same|]. destruct (slug_taken _ _); [apply only_takes_same|].
  match goal with |- context [execute ?s ?n ?ss ?t] =>
    pose proof (execute_takes_away s n ss t (provisioning_takes_away _ _ _ _)) as Hf; destruct (execute s n ss t) as [ok t1] end.
  apply (put_back_takes _ _ _ _ Hf). by right; left.
Qed.

Lemma UpdateTenant_takes rand row_id catalog stmt p id b :
  only_takes id (UpdateTenant encKey rand row_id catalog stmt p id b).
Proof.
  intros ts. unfold UpdateTenant. destruct (negb _); [apply only_takes_same|].
  destruct (decoded _ _) as [b'|]; [|apply only_takes_same]. destruct (_ && negb _); [apply only_takes_same|].
  destruct (_ && slug_taken _ _); [apply only_takes_same|].
  match goal with |- context [execute ?s ?n ?ss ?t] =>
    pose proof (execute_takes_away s n ss t (provisioning_takes_away _ _ _ _)) as Hf; destruct (execute s n ss t) as [ok t1] end.
  apply (put_back_takes _ _ _ _ Hf). right. right. by destruct (ts !! id).
Qed.

Lemma UpdateTenantStatus_takes stmt p id b : only_takes id (UpdateTenantStatus stmt p id b).
Proof.
  intros ts. unfold UpdateTenantStatus. destruct (negb _); [apply only_takes_same|].
  destruct (decoded _ _) as [b'|]; [|apply only_takes_same]. destruct (negb _); [apply only_takes_same|].
  destruct (stmt _); [|apply only_takes_same]. unfold takes. simpl. rewrite lookup_alter_eq. destruct (ts !! id); simpl; done.
Qed.

Lemma view_lookup st id : view st !! id = (fun t => t <| tn_providers := rows_of id (pf_table st) |>) <$> pf_tenants st !! id.
Proof. unfold view. rewrite map_lookup_imap. by destruct (pf_tenants st !! id). Qed.

Lemma on_tenant_takes id f st : only_takes id f -> pf_table (on_tenant id f st).2 ⊆ pf_table st.
Proof.
  intros Hf. unfold on_tenant. specialize (Hf (view st)). unfold takes in Hf. destruct (f (view st)) as [status ts]. simpl in *.
  unfold write_back. destruct (ts !! id) as [t'|]; [|done]. apply map_union_least; [apply map_filter_subseteq|].
  apply map_subseteq_spec. intros i x Hx. rewrite lookup_fmap in Hx. destruct (tn_providers t' !! i) as [r|] eqn:Hr; [|done].
  injection Hx as <-. eapply lookup_weaken in Hr; [|exact Hf]. rewrite view_lookup in Hr.
  destruct (pf_tenants st !! id) as [t|]; simpl in Hr; [|by rewrite lookup_empty in Hr].
  unfold rows_of in Hr. rewrite lookup_omap in Hr. destruct (pf_table st !! i) as [[tn r']|]; [|done]. simpl in Hr.
  case_decide; [|done]. congruence.
Qed.

Lemma view_written_back id st : write_back id (view st) (pf_table st) = pf_table st.
Proof.
  unfold write_back. rewrite view_lookup. destruct (pf_tenants st !! id) as [t|]; [|done]. simpl. apply map_eq. intros i.
  rewrite lookup_union, map_lookup_filter, lookup_fmap. unfold rows_of. rewrite lookup_omap.
  destruct (pf_table st !! i) as [[tn r]|]; [|done]. simpl.
  destruct (decide (tn = id)) as [->|Hne]; [by rewrite option_guard_False by naive_solver|].
  by rewrite option_guard_True.
Qed.

(** Only platform users provision. *)
Lemma on_tenant_refused id f st :
  (forall ts, f ts = (403, ts)) -> pf_table (on_tenant id f st).2 = pf_table st.
Proof. intros Hf. unfold on_tenant. rewrite Hf. apply view_written_back. Qed.

Lemma tenant_request_takes c st status st' :
  serve_admin (TenantRequest c) st = Some (status, st') ->
  pf_table st' ⊆ pf_table st /\ (is_platform_admin (tc_by c) = false -> pf_table st' = pf_table st).
Proof.
  simpl. intros [(-> & _)|(h & v & (m & pat & segs & Hin & _) & Hh)]%route_handles; [done|].
  apply (f_equal snd) in Hh. cbn [snd] in Hh. subst st'.
  unfold tenant_handlers in Hin. rewrite !elem_of_cons in Hin.
  destruct Hin as [[= _ _ ->]|[[= _ _ ->]|[[= _ _ ->]|?%elem_of_nil]]]; [..|done];
    (split; [apply on_tenant_takes|intros Hp; apply on_tenant_refused; intros ts]).
  - apply CreateTenant_takes.
  - unfold CreateTenant. by rewrite Hp.
  - apply UpdateTenant_takes.
  - unfold UpdateTenant. by rewrite Hp.
  - apply UpdateTenantStatus_takes.
  - unfold UpdateTenantStatus. by rewrite Hp.
Qed.

(** A relation of tables that the writes of configurations and the loss of rows keep. *)
Lemma serve_admins_keeps (R : provider_table -> provider_table -> Prop) (who : Principal -> Prop) :
  (forall t, R t t) -> (forall t1 t2 t3, R t1 t2 -> R t2 t3 -> R t1 t3) ->
  (forall p t i t', who p -> write p t i t' -> R t t') ->
  (forall p t t', who p -> t' ⊆ t -> (is_platform_admin p = false -> t' = t) -> R t t') ->
  forall cs st sts st', Forall (fun c => who (admin_by c)) cs -> serve_admins cs st = Some (sts, st') ->
    R (pf_table st) (pf_table st').
Proof.
  intros Hrefl Htrans Hw Hf cs. induction cs as [|c cs IH]; intros st sts st' Hall; simpl; [by intros [= _ <-]|].
  apply Forall_cons in Hall as [Hc Hall]. destruct (serve_admin c st) as [[status st1]|] eqn:E; [|done]. simpl.
  destruct (serve_admins cs st1) as [[sts1 st2]|] eqn:E2; [|done]. simpl. intros [= _ <-].
  apply (Htrans _ (pf_table st1)); [|by eapply IH]. destruct c as [c|c].
  - simpl in E. destruct (serve_provider _ _ _ _ _ _) as [[status1 t1]|] eqn:Es; [|done]. injection E as _ <-.
    apply provider_writes in Es as (i & Hwr & _). by eapply Hw.
  - apply tenant_request_takes in E as [Hsub Hsame]. by eapply Hf.
Qed.

(** C5: the table of configurations is well kept.  Whatever requests are served on the
    routes of providers and on those that create and change tenants: the settings in a
    row are encrypted, unless they are those that were in the row at the start, as the
    rows of the seeds are in the clear; when no channel of a tenant had two active
    defaults, none has; and the configurations of a tenant stay as they are while only
    users of other tenants ask. *)
Theorem provider_table_is_well_kept cs st sts st' :
  serve_admins cs st = Some (sts, st') ->
  settings_kept (pf_table st) (pf_table st')
  /\ (one_default (pf_table st) -> one_default (pf_table st'))
  /\ forall tn, Forall (fun c => is_platform_admin (admin_by c) = false /\ or_empty (tenant_id (admin_by c)) <> tn) cs ->
       same_rows tn (pf_table st) (pf_table st').
Proof.
  intros Hs. split; [|split].
  - apply (serve_admins_keeps settings_kept (fun _ => True)) with cs sts; try done.
    + apply settings_kept_refl.
    + apply settings_kept_trans.
    + intros p t i t' _. apply write_settings.
    + intros _ t t' _ Hsub _ i tn r Hr. right. exists r. split; [by eapply lookup_weaken|done].
    + by apply Forall_true.
  - apply (serve_admins_keeps (fun t t' => one_default t -> one_default t') (fun _ => True)) with cs sts; [done|eauto|..|done].
    + intros p t i t' _. apply write_one_default.
    + intros _ t t' _ Hsub _. by apply one_default_subset.
    + by apply Forall_true.
  - intros tn Hf. revert Hf Hs.
    apply (serve_admins_keeps (same_rows tn) (fun p => is_platform_admin p = false /\ or_empty (tenant_id p) <> tn));
      [done|unfold same_rows; naive_solver|..].
    + intros p t i t' [Hp Hn] Hw. by eapply write_elsewhere.
    + intros p t t' [Hp _] _ Hsame. by rewrite (Hsame Hp).
Qed.

End Platform.

(** * Samples *)

#[local] Existing Instance boxed.

Definition root : Principal := MkPrincipal "u0" None "root@x.org" true [].
Definition key : option string := Some "key".
Definition nonces (_ : nat) : option string := Some "123456789012".
Definition new_rows (n : nat) : string := "p" +:+ pretty n.
Definition two_features : list string := ["api_access.enabled"; "audit.enabled"].
Definition acme : tenant_row :=
  TenantRow "Acme" "acme" "active" [("timezone", JStr "UTC"); ("branding_logo", JStr "logo.png")]
    {["audit.enabled" := true]} {["email" := ChannelRow true "one_way" 50 200000 5]}
    {["p1" := ProviderRow "email" "smtp" (JStr "enc:v1:abc") true "active"]} ∅.
Definition acme_overview : Overview :=
  MkOverview [("audit.enabled", true)] [("email", true)] [OvProvider "email" "smtp" true "active"].
Definition on_page (f : ProvisionForm) : Tenants.state :=
  Tenants.initial <| Tenants.channels := [Channel "email" "" true] |> <| form := f |>.
Definition acme_form : ProvisionForm :=
  edit_form (MkTenant "a" "Acme" "acme" "active") acme_overview (MkSettings (Some "UTC") None None None) [].

Lemma opened_and_saved_destroys_witness :
  exists t', UpdateTenant key nonces new_rows two_features (fun _ => true) root "a" (Some (payload (on_page acme_form))) {["a" := acme]}
      = (500, <["a" := t']> {["a" := acme]})
    /\ tn_providers t' = ∅ /\ oget (tn_config t') "branding_logo" = None.
Proof.
  destruct (opened_and_saved_destroys key nonces new_rows two_features (fun _ => true) root "a" acme_overview
    (MkSettings (Some "UTC") None None None) [] (on_page acme_form) {["a" := acme]} acme)
    as (st & t' & Hu & Hserved & _ & Hp & _ & Hc); try done.
  - intros i r Hr. simpl in Hr. by apply lookup_singleton_Some in Hr as [_ <-].
  - assert (Hacme : serves_channel acme).
    { unfold serves_channel. eexists "p1", _, _. split; [apply lookup_singleton_eq|]. split; [done|]. split; [done|]. split; [by vm_compute|done]. }
    destruct (Hserved Hacme) as [-> _].
    exists t'. split; [exact Hu|]. split; [exact Hp|]. apply Hc. rewrite !not_elem_of_cons. split_and!; try done. apply not_elem_of_nil.
Defined.

Definition new_form : ProvisionForm :=
  emptyProvision <| fm_name := "Bolt" |> <| fm_slug := "bolt" |> <| Tenants.features_ := ["audit.enabled"] |>
    <| channels_ := ["email"] |>.

Lemma saved_tenant_is_as_the_form_witness :
  exists ts', CreateTenant key nonces new_rows two_features (fun _ => true) "b" root (Some (payload (on_page new_form))) {["a" := acme]}
      = (201, ts')
    /\ exists t', ts' !! "b" = Some t' /\ tn_features t' !! "api_access.enabled" = Some false.
Proof.
  destruct (CreateTenant key nonces new_rows two_features (fun _ => true) "b" root (Some (payload (on_page new_form))) {["a" := acme]})
    as [st ts'] eqn:E.
  assert (st = 201) as -> by (apply (f_equal fst) in E; vm_compute in E; congruence).
  exists ts'. split; [done|].
  destruct (saved_tenant_is_as_the_form key nonces new_rows two_features (fun _ => true) root "b" (on_page new_form) {["a" := acme]} ts'
    (TenantRow "" "" "active" [] ∅ ∅ ∅ ∅) (or_introl (conj E eq_refl)))
    as (_ & t' & -> & _ & _ & _ & _ & Hf & _).
  exists t'. split; [apply lookup_insert_eq|]. rewrite Hf. reflexivity.
Defined.

(** A tenant of the seeds: its provider is in the clear. *)
Definition seeded : platform :=
  Platform {["t1" := acme]}
    {["p1" := ("t1", ProviderRow "email" "mock" (JObj [("secret", JStr "[local-placeholder]")]) true "active")]}.
Definition no_providers : tenant_call :=
  TenantCall root (fun _ => true) "t2" nonces new_rows two_features
    (PATCH "/admin/api/v1/tenants/t1" (JObj [("providers", JArr [])])).
Definition new_default : admin_call :=
  ProviderRequest (ProviderCall operator round (POST "/admin/api/v1/providers" (Providers.save_body smtp_form))).
Notation serve_seeded := (serve_admins (Some "key") no_file no_answer [new_default; TenantRequest no_providers; new_default] seeded).

Lemma provider_table_is_well_kept_witness :
  exists sts st', serve_seeded = Some (sts, st') /\ sts = [500; 200; 201] /\ one_default (pf_table st')
    /\ settings_kept (pf_table seeded) (pf_table st').
Proof.
  destruct serve_seeded as [[sts st']|] eqn:E.
  2:{ apply (f_equal (option_map fst)) in E. vm_compute in E. discriminate. }
  exists sts, st'. split; [done|]. split.
  - apply (f_equal (option_map fst)) in E. vm_compute in E. congruence.
  - destruct (provider_table_is_well_kept (Some "key") no_file no_answer _ seeded sts st' E) as (Hs & Hd & _).
    split; [|exact Hs]. apply Hd. intros i j tn r r' Hi Hj. simpl in Hi, Hj.
    apply lookup_singleton_Some in Hi as [<- _]. by apply lookup_singleton_Some in Hj as [<- _].
Defined.
