(* ===== verification/Users.v ===== *)
(** pages/users/UsersPage.tsx: the users, their creation with a role, their edit,
    activation and removal. *)
From S2P Require Import Prelude Js React Query Client Components Auth Api Page.

Record User := MkUser {
  id : string; email : string; name : string; is_platform_admin : bool; status : string;
  created_at : string; roles_ : option string; tenants_ : option string }.
Record Role := MkRole {
  r_id : string; r_tenant_id : option string; r_name : string; r_key : string; r_scope : string }.
Record Tenant := MkTenant { t_id : string; t_name : string; t_slug : string; t_status : string }.

Inductive scope := tenant | platform.
#[export] Instance scope_eq : EqDecision scope.
Proof. solve_decision. Defined.
Definition scope_value (s : scope) : string := match s with tenant => "tenant" | platform => "platform" end.
(** [value as 'tenant' | 'platform'], for the values of the control. *)
Definition scope_of (v : string) : scope := if decide (v = "platform") then platform else tenant.

(** What a [load] closes over. *)
Record load_args := LoadArgs { l_scope : scope; l_tenant : string; l_pg : Pagination.state }.

(** The two confirmations of the page. *)
Inductive intent := Toggle (u : User) (a : load_args) | Delete (id : string) (a : load_args).

Record state := State {
  items : list User; roles : list Role; tenants : list Tenant; error : string; loading : bool;
  showForm : bool; email_ : string; name_ : string; password : string; createScope : scope;
  createTenantId : string; createRoleId : string; saving : bool; editingId : option string;
  editName : string; editEmail : string; editRoleId : string; viewingId : option string;
  userListScope : scope; tenantFilter : string; meta_ : option Pagination.PaginationMeta;
  pg : Pagination.state; dialog : Confirm.state intent }.
#[export] Instance eta_state : Eta state := fun s =>
  State (items s) (roles s) (tenants s) (error s) (loading s) (showForm s) (email_ s) (name_ s)
    (password s) (createScope s) (createTenantId s) (createRoleId s) (saving s) (editingId s)
    (editName s) (editEmail s) (editRoleId s) (viewingId s) (userListScope s) (tenantFilter s)
    (meta_ s) (pg s) (dialog s).

Definition initial : state :=
  State [] [] [] "" true false "" "" "" tenant "" "" false None "" "" "" None platform "" None
    Pagination.usePagination Confirm.initial.

Definition set_dialog (f : Confirm.state intent -> Confirm.state intent) (s : state) : state :=
  s <| dialog := f (dialog s) |>.

Inductive action :=
| ToggleForm | CloseForm | ListScope (v : scope) | FilterTenant (v : string)
| Paging (a : Pagination.action) | SetName (v : string) | SetEmail (v : string) | SetPassword (v : string)
| SetScope (v : scope) | SetTenant (v : string) | SetRole (v : string) | Submit
| ViewUser (id : string) | CloseView | EditViewed (u : User) | StartEdit (u : User) | CloseEdit
| SetEditName (v : string) | SetEditEmail (v : string) | SetEditRole (v : string) | SaveEdit (id : string)
| AskToggle (u : User) | AskDelete (u : User) | Dialog (a : Confirm.action intent).

Inductive event : Type -> Type :=
| ListUsers (a : load_args) : event (ApiList User)
| ListRoles : event (list Role)
| ListTenants : event (list Tenant)
| PostUser (b : json) : event string
| PutUser (id : string) (b : json) : event unit
| PostUserRole (id : string) (b : json) : event unit
| DeleteUser (id : string) : event unit.

Section UsersPage.
Variable isPlatform : bool.
Variable myTenantId : string.   (* user?.tenant_id || '' *)
Variable can : string -> bool.

(** * Requests *)

Definition userParams (a : load_args) : params :=
  let q := if isPlatform then query_set [] "scope" (scope_value (l_scope a)) else [] in
  let q := if isPlatform && bool_decide (l_scope a = tenant) && truthy (l_tenant a)
           then query_set q "tenant_id" (l_tenant a) else q in
  query_set (query_set q "page" (pretty (Pagination.page (l_pg a))))
    "per_page" (pretty (Pagination.perPage (l_pg a))).

Definition http (X : Type) (e : event X) : list request :=
  let users := "/admin/api/v1/users" in
  match e with
  | ListUsers a => [list_ (users +:+ "?" +:+ serialize (userParams a))]
  | ListRoles => [list_ "/admin/api/v1/roles"]
  | ListTenants => [list_ "/admin/api/v1/tenants"]
  | PostUser b => [POST users b]
  | PutUser id b => [PUT (users +:+ "/" +:+ id) b]
  | PostUserRole id b => [POST (users +:+ "/" +:+ id +:+ "/roles") b]
  | DeleteUser id => [DELETE (users +:+ "/" +:+ id)]
  end.

(** * Effects *)

Definition args (s : state) : load_args := LoadArgs (userListScope s) (tenantFilter s) (pg s).

Definition load (a : load_args) : prog event state :=
  set! (fun s => s <| loading := true |>) ;;
  Join
    ([ Branch (ListUsers a) (fun r =>
         match r with
         | Ok res => inl (fun s => s <| items := data res |> <| meta_ := meta res |>)
         | Threw x => inr x
         end);
       Branch ListRoles (fun r =>
         match r with Ok x => inl (fun s => s <| roles := x |>) | Threw x => inr x end) ]
     ++ (if isPlatform then
           [ Branch ListTenants (fun r =>
               match r with
               | Ok x => inl (fun s => s <| tenants := filter_by (fun t => bool_decide (t_status t = "active")) x |>)
               | Threw x => inr x
               end) ]
         else []))
    (fun rejected =>
      match rejected with
      | None => set! (fun s => s <| loading := false |>) ;; Done
      | Some x =>
          emit! toast_error "Unable to load users" "Load failed" x ;;
          set! (fun s => s <| loading := false |>) ;; Done
      end).

Definition filters (s : state) : string * scope := (tenantFilter s, userListScope s).
Definition paging (s : state) : Z * Z := (Pagination.page (pg s), Pagination.perPage (pg s)).

Definition effects (r : option state) (s : state) : list (prog event state) :=
  (if changed filters r s
   then [ set! (fun s => s <| pg := Pagination.setPage 1 (pg s) |>) ;; Done ] else [])
  ++ (if changed filters r s || changed paging r s then [ load (args s) ] else []).

(** * Handlers *)

Definition isPlatformUser (s : state) : bool := isPlatform && bool_decide (createScope s = platform).
Definition newTenantId (s : state) : string := if isPlatform then createTenantId s else myTenantId.

(** [...(!isPlatformUser && tenantId ? { tenant_id: tenantId } : {})] *)
Definition tenant_field (s : state) : list (string * json) :=
  if negb (isPlatformUser s) && truthy (newTenantId s) then [("tenant_id", JStr (newTenantId s))] else [].

Definition user_body (s : state) : json :=
  JObj ([("email", JStr (email_ s)); ("name", JStr (name_ s)); ("password", JStr (password s));
         ("is_platform_admin", JBool (isPlatformUser s))] ++ tenant_field s).

Definition role_body (s : state) : json :=
  JObj (("role_id", JStr (createRoleId s)) :: tenant_field s).

(** [catch (err) { toast.error(...) } finally { setSaving(false) }] *)
Definition not_saved (title fallback : string) (x : thrown) : prog event state :=
  emit! toast_error title fallback x ;;
  set! (fun s => s <| saving := false |>) ;; Done.

Definition submit (s : state) : prog event state :=
  let created :=
    set! (fun s => s <| email_ := "" |>) ;; set! (fun s => s <| name_ := "" |>) ;;
    set! (fun s => s <| password := "" |>) ;; set! (fun s => s <| createScope := tenant |>) ;;
    set! (fun s => s <| createTenantId := "" |>) ;; set! (fun s => s <| createRoleId := "" |>) ;;
    set! (fun s => s <| showForm := false |>) ;;
    emit! success_msg "User created" (email_ s) ;;
    fork! load (args s) ;;
    set! (fun s => s <| saving := false |>) ;; Done in
  let failed := not_saved "Unable to create user" "Create failed" in
  set! (fun s => s <| saving := true |>) ;; set! (fun s => s <| error := "" |>) ;;
  await! r <- PostUser (user_body s) ;;
  match r with
  | Threw x => failed x
  | Ok uid =>
      if truthy (createRoleId s) then
        await! r <- PostUserRole uid (role_body s) ;;
        match r with Threw x => failed x | Ok _ => created end
      else created
  end.

Definition newStatus (u : User) : string := if decide (status u = "active") then "disabled" else "active".

Definition toggleUserStatus (u : User) (a : load_args) : prog event state :=
  await! r <- PutUser (id u) (JObj [("status", JStr (newStatus u))]) ;;
  match r with
  | Ok _ => emit! success_msg ("User " +:+ newStatus u) (email u) ;; fork! load a ;; Done
  | Threw x => emit! OToast ToastError "Unable to update user status" (message_of x) ;; Done
  end.

Definition remove (uid : string) (a : load_args) : prog event state :=
  await! r <- DeleteUser uid ;;
  match r with
  | Ok _ => emit! success "User deleted" ;; fork! load a ;; Done
  | Threw x => emit! OToast ToastError "Unable to delete user" (message_of x) ;; Done
  end.

Definition onConfirm (k : intent) : prog event state :=
  match k with Toggle u a => toggleUserStatus u a | Delete uid a => remove uid a end.

Definition startEdit (u : User) : prog event state :=
  set! (fun s => s <| editingId := Some (id u) |>) ;;
  set! (fun s => s <| editName := name u |>) ;;
  set! (fun s => s <| editEmail := email u |>) ;;
  set! (fun s => s <| editRoleId := "" |>) ;; Done.

Definition edit_body (s : state) : json :=
  JObj [("name", JStr (editName s)); ("email", JStr (editEmail s))].

(** The role to assign, with its tenant when it belongs to one. *)
Definition edit_role_body (s : state) : json :=
  JObj (("role_id", JStr (editRoleId s)) ::
    match find (fun r => bool_decide (r_id r = editRoleId s)) (roles s) with
    | Some r => if bool_decide (r_scope r = "tenant") && truthy (or_empty (r_tenant_id r))
                then [("tenant_id", JStr (or_empty (r_tenant_id r)))] else []
    | None => []
    end).

Definition saveEdit (uid : string) (s : state) : prog event state :=
  let updated :=
    set! (fun s => s <| editingId := None |>) ;;
    emit! success_msg "User updated" (editEmail s) ;;
    fork! load (args s) ;;
    set! (fun s => s <| saving := false |>) ;; Done in
  let failed := not_saved "Unable to update user" "Update failed" in
  set! (fun s => s <| saving := true |>) ;; set! (fun s => s <| error := "" |>) ;;
  await! r <- PutUser uid (edit_body s) ;;
  match r with
  | Threw x => failed x
  | Ok _ =>
      if truthy (editRoleId s) && isPlatform then
        await! r <- PostUserRole uid (edit_role_body s) ;;
        match r with Threw x => failed x | Ok _ => updated end
      else updated
  end.

Definition askToggle (u : User) (s : state) : prog event state :=
  let on := bool_decide (status u = "active") in
  set! (set_pending set_dialog (Some (Confirm.Intent
    ((if on then "Disable" else "Enable") +:+ " user") (Some "Confirm user status change")
    (Some ("Change " +:+ email u +:+ " to " +:+ (if on then "disabled" else "enabled") +:+ "?"))
    (Some (if on then "Disable" else "Enable")) on (Toggle u (args s))))) ;; Done.

Definition askDelete (u : User) (s : state) : prog event state :=
  set! (set_pending set_dialog (Some (Confirm.Intent "Delete user" (Some "This action cannot be undone")
    (Some ("Delete " +:+ email u +:+ "?")) (Some "Delete user") true (Delete (id u) (args s))))) ;; Done.

Definition handle (a : action) (s : state) : prog event state :=
  match a with
  | ToggleForm => set! (fun s' => s' <| showForm := negb (showForm s) |>) ;; Done
  | CloseForm => set! (fun s => s <| showForm := false |>) ;; Done
  | ListScope platform =>
      set! (fun s => s <| userListScope := platform |>) ;; set! (fun s => s <| tenantFilter := "" |>) ;; Done
  | ListScope tenant => set! (fun s => s <| userListScope := tenant |>) ;; Done
  | FilterTenant v => set! (fun s => s <| tenantFilter := v |>) ;; Done
  | Paging a => set! (fun s => s <| pg := Pagination.apply a (pg s) |>) ;; Done
  | SetName v => set! (fun s => s <| name_ := v |>) ;; Done
  | SetEmail v => set! (fun s => s <| email_ := v |>) ;; Done
  | SetPassword v => set! (fun s => s <| password := v |>) ;; Done
  | SetScope v =>
      set! (fun s => s <| createScope := v |>) ;; set! (fun s => s <| createTenantId := "" |>) ;;
      set! (fun s => s <| createRoleId := "" |>) ;; Done
  | SetTenant v =>
      set! (fun s => s <| createTenantId := v |>) ;; set! (fun s => s <| createRoleId := "" |>) ;; Done
  | SetRole v => set! (fun s => s <| createRoleId := v |>) ;; Done
  | Submit => submit s
  | ViewUser uid => set! (fun s => s <| viewingId := Some uid |>) ;; Done
  | CloseView => set! (fun s => s <| viewingId := None |>) ;; Done
  | EditViewed u => set! (fun s => s <| viewingId := None |>) ;; startEdit u
  | StartEdit u => startEdit u
  | CloseEdit => set! (fun s => s <| editingId := None |>) ;; Done
  | SetEditName v => set! (fun s => s <| editName := v |>) ;; Done
  | SetEditEmail v => set! (fun s => s <| editEmail := v |>) ;; Done
  | SetEditRole v => set! (fun s => s <| editRoleId := v |>) ;; Done
  | SaveEdit uid => saveEdit uid s
  | AskToggle u => askToggle u s
  | AskDelete u => askDelete u s
  | Dialog a => dialog_handle dialog set_dialog onConfirm a s
  end.

(** * Views *)

Definition editingUser (s : state) : option User :=
  find (fun u => bool_decide (Some (id u) = editingId s)) (items s).
Definition viewingUser (s : state) : option User :=
  find (fun u => bool_decide (Some (id u) = viewingId s)) (items s).

Definition is_scope (v : scope) (r : Role) : bool := bool_decide (r_scope r = scope_value v).
Definition role_tenant (r : Role) : string := or_empty (r_tenant_id r).

(** The roles an edited user can be given: those of the user's own scope. *)
Definition editRoleOptions (s : state) : list (string * string) :=
  map (fun r => (r_id r, r_name r +:+ " (" +:+ r_scope r +:+ ")"))
    (filter_by (fun r =>
       if from_option is_platform_admin true (editingUser s) then is_scope platform r
       else is_scope tenant r && truthy (role_tenant r)) (roles s)).

Definition createTenantRoles (s : state) : list Role :=
  filter_by (fun r => is_scope tenant r
    && (negb isPlatform || negb (truthy (role_tenant r))
        || bool_decide (r_tenant_id r = Some (createTenantId s)))) (roles s).
Definition createPlatformRoles (s : state) : list Role := filter_by (is_scope platform) (roles s).
Definition createRoles (s : state) : list Role :=
  match createScope s with platform => createPlatformRoles s | tenant => createTenantRoles s end.
Definition createRoleOptions (s : state) : list (string * string) :=
  map (fun r => (r_id r, r_name r +:+ " (" +:+ r_key r +:+ ")")) (createRoles s).

Definition createTenantRequired (s : state) : bool :=
  isPlatform && bool_decide (createScope s = tenant).
Definition createRoleRequired (s : state) : bool :=
  bool_decide (createScope s = platform) || negb isPlatform || truthy (createTenantId s).
Definition createDisabled (s : state) : bool :=
  saving s || createTenantRequired s && negb (truthy (createTenantId s))
  || createRoleRequired s && negb (truthy (createRoleId s)).

Definition role_select (s : state) : node action :=
  Sel "Role" (createRoleId s) false (createRoleOptions s) SetRole.

Definition create_modal (s : state) : node action :=
  Modal.Modal "Add user" "Create an account for the notification administration workspace." CloseForm
    ([ Inp "Full name" (name_ s) false SetName; Inp "Email address" (email_ s) false SetEmail;
       Inp "Temporary password" (password s) false SetPassword ]
     ++ when isPlatform
          [ Sel "Account type" (scope_value (createScope s)) false
              [("tenant", "Tenant user"); ("platform", "Admin user")] (fun v => SetScope (scope_of v));
            if decide (createScope s = platform) then role_select s
            else Sel "Tenant" (createTenantId s) false
                   (map (fun t => (t_id t, t_name t +:+ " (" +:+ t_slug t +:+ ")")) (tenants s)) SetTenant ]
     ++ when (negb isPlatform || bool_decide (createScope s = tenant)) [role_select s])
    [ Modal.ModalButton "Cancel" false CloseForm;
      Modal.ModalButton (if saving s then "Creating..." else "Create user") (createDisabled s) Submit ].

Definition edit_modal (s : state) (u : User) : node action :=
  Modal.Modal "Edit user" ("Update " +:+ name u +:+ "'s account and role assignment.") CloseEdit
    ([ Inp "Full name" (editName s) false SetEditName; Inp "Email address" (editEmail s) false SetEditEmail ]
     ++ when isPlatform
          [ Sel "Assign role" (editRoleId s) false (("", "No role change") :: editRoleOptions s) SetEditRole ])
    [ Modal.ModalButton "Cancel" false CloseEdit;
      Modal.ModalButton (if saving s then "Saving..." else "Save changes") (saving s) (SaveEdit (id u)) ].

Definition role_text (u : User) : string :=
  or_empty (roles_ u) ||| (if is_platform_admin u then "Platform user" else "Tenant user").

Definition view_modal (u : User) : node action :=
  Modal.Modal "User details" "Account identity, access level, and status." CloseView
    ([ Txt (name u); Txt (email u); Txt (role_text u); Txt (status u); Txt (created_at u) ]
     ++ when isPlatform [ Txt (or_empty (tenants_ u) ||| "-") ])
    (Modal.ModalButton "Close" false CloseView
     :: when (can "users.update") [Modal.ModalButton "Edit user" false (EditViewed u)]).

Definition row (u : User) : list (node action) :=
  let on := bool_decide (status u = "active") in
  [ Txt (name u); Txt (email u); Txt (role_text u);
    if can "users.update"
    then Status.StatusToggle on ((if on then "Disable " else "Enable ") +:+ email u) false (AskToggle u)
    else Txt (Status.StatusBadge (Status.SText (status u))).2 ]
  ++ when isPlatform [ Txt (or_empty (tenants_ u) ||| "-") ]
  ++ [ Btn "View" false (ViewUser (id u)) ]
  ++ when (can "users.update") [ Btn "Edit" false (StartEdit u) ]
  ++ when (can "users.delete") [ Btn "Delete" false (AskDelete u) ].

Definition tenant_options (s : state) : list TenantFilter.option_ :=
  map (fun t => TenantFilter.Opt (t_id t) (t_name t) (Some (t_slug t))) (tenants s).

Definition view (s : state) : list (node action) :=
  when (can "users.create") [ Btn (if showForm s then "Cancel" else "Add user") false ToggleForm ]
  ++ when isPlatform
       ([ Btn "Platform users" false (ListScope platform); Btn "Tenant users" false (ListScope tenant) ]
        ++ when (bool_decide (userListScope s = tenant))
             [ TenantFilter.view (tenantFilter s) FilterTenant (tenant_options s) ])
  ++ (if loading s then [Txt "Loading..."]
      else if bool_decide (length (items s) = 0%nat) then [Txt "No users found"]
      else concat (map row (items s)) ++ embed Paging (Pagination.TablePagination (meta_ s) (pg s)))
  ++ when (showForm s) [create_modal s]
  ++ (match editingUser s with Some u => [edit_modal s u] | None => [] end)
  ++ (match viewingUser s with Some u => [view_modal u] | None => [] end)
  ++ embed Dialog (Confirm.confirmDialog (dialog s)).

End UsersPage.

(** * Every request but one is authorized *)

(** The API has no route for the removal of a user. *)
Lemma delete_user_unrouted uid : ident uid = true ->
  find_route (DELETE ("/admin/api/v1/users/" +:+ uid)) = None.
Proof.
  unfold ident. rewrite !andb_true_iff, !negb_true_iff. intros [[Ht Hs] Hq].
  unfold find_route, api_segments. cbn [req_path DELETE].
  rewrite cut_nothing by (rewrite has_char_app, Hq; reflexivity). cbn [fst].
  assert (Hp : split slash ("/admin/api/v1/users/" +:+ uid) = [""; "admin"; "api"; "v1"; "users"; uid]).
  { change ("/admin/api/v1/users/" +:+ uid) with
      ("" +:+ String slash ("admin" +:+ String slash ("api" +:+ String slash
        ("v1" +:+ String slash ("users" +:+ String slash uid))))).
    do 5 (rewrite split_app_sep by reflexivity). by rewrite split_no_sep. }
  rewrite Hp. destruct uid as [|c uid]; [done|]. vm_compute. reflexivity.
Qed.

Section Safety.
Variable u : Principal.
Variable myTenantId : string.
Notation isPlatform := (Auth.is_platform_admin u).
Notation can := (hasPermission (Some u)).

(** What opening the page reads. *)
Definition given : list string := ["users.view"; "roles.manage"].

Definition unrouted (o : obs) : Prop :=
  exists uid, o = OReq (DELETE ("/admin/api/v1/users/" +:+ uid)) /\ can "users.delete" = true
    /\ (ident uid = true -> find_route (DELETE ("/admin/api/v1/users/" +:+ uid)) = None).

(** Assigning a role takes [roles.manage], which the page does not check: reading
    it takes that permission too. *)
Definition assigns_role (o : obs) : Prop :=
  exists uid b, o = OReq (POST ("/admin/api/v1/users/" +:+ uid +:+ "/roles") b)
    /\ understood "roles.manage" (POST ("/admin/api/v1/users/" +:+ uid +:+ "/roles") b).

Definition user_request (o : obs) : Prop := careful given u o \/ unrouted o \/ assigns_role o.

Definition guarded (s : state) : Prop :=
  (showForm s = true -> can "users.create" = true)
  /\ (editingId s <> None -> can "users.update" = true)
  /\ (forall i, Confirm.pending (dialog s) = Some i ->
      match Confirm.payload i with
      | Toggle _ _ => can "users.update" = true
      | Delete _ _ => can "users.delete" = true
      end).

Notation safe := (Ui.safe (http isPlatform) guarded user_request).

Lemma user_can m pat perm args r :
  Route m pat perm ∈ routes -> can perm = true -> perm <> "audit_logs.view" -> m = req_method r ->
  req_path r = api_path (fill pat args) -> body_fits (Route m pat perm) (req_body r) = true ->
  user_request (OReq r).
Proof.
  intros Hr Hc Hne Hm Hp Hb. left. apply (careful_can _ _ perm); [|done|done].
  by apply (served_path (Route m pat perm) args).
Qed.

Lemma user_load_safe a : safe (load isPlatform a).
Proof.
  unfold load. safe_walk. apply Ui.safe_join.
  - apply Forall_app. split; [apply Forall_cons_2; [|apply Forall_singleton]|]; cbn [http Ui.b_event].
    + apply Forall_singleton. left. apply (careful_read _ _ "users.view"); [|in_table|done].
      eexists (Route "GET" [L "users"] "users.view"), [], _. split; [in_table|]. do 2 (split; [done|]).
      split; [right; reflexivity|done].
    + apply Forall_singleton. left. reads "GET" [L "roles"] "roles.manage" (@nil string).
    + destruct isPlatform eqn:Hp; [|constructor]. apply Forall_singleton. cbn [http Ui.b_event].
      apply Forall_singleton. apply (user_can "GET" [L "tenants"] "tenants.view" []); [in_table| |done..].
      by apply platform_can.
  - apply Forall_app. split; [apply Forall_cons_2; [|apply Forall_singleton]|]; try (intros [x|e]; simpl; try done; keeps).
    destruct isPlatform; [|constructor]. apply Forall_singleton. intros [x|e]; simpl; try done; keeps.
  - intros []; safe_walk.
Qed.

Lemma users_offered s a : guarded s -> offered (view isPlatform can s) a ->
  match a with
  | Dialog (Confirm.Request _) => False
  | ToggleForm | Submit => can "users.create" = true
  | EditViewed _ | StartEdit _ | SaveEdit _ | AskToggle _ => can "users.update" = true
  | AskDelete _ => can "users.delete" = true
  | _ => True
  end.
Proof.
  intros (H1 & H2 & H3) Ha.
  assert (He : editingUser s <> None -> can "users.update" = true).
  { intros He. apply H2. destruct (editingUser s) as [i|] eqn:E; [|done].
    apply find_Some in E as [E%bool_decide_eq_true _]. congruence. }
  unfold view, row, create_modal, edit_modal, view_modal, role_select, TenantFilter.view,
    Status.StatusToggle, Modal.Modal, Modal.ModalButton, Pagination.TablePagination in Ha.
  page_cases Ha; subst; guards; try done; try (by apply H1); try (by apply He);
    by destruct act; apply confirmDialog_offers in Hact.
Qed.

Lemma user_role_request uid b : decodes AssignUserRole_req b = true ->
  user_request (OReq (POST ("/admin/api/v1/users/" +:+ uid +:+ "/roles") b)).
Proof.
  intros Hb. right. right. exists uid, b. split; [done|].
  by apply (served_path (Route "POST" [L "users"; V "user_id"; L "roles"] "roles.manage") [uid]); [in_table|..].
Qed.

Lemma user_bodies_read s :
  decodes CreateUser_req (user_body isPlatform myTenantId s) = true
  /\ decodes AssignUserRole_req (role_body isPlatform myTenantId s) = true
  /\ decodes AssignUserRole_req (edit_role_body s) = true.
Proof.
  unfold user_body, role_body, edit_role_body, tenant_field. repeat split; repeat case_match; done.
Qed.

Lemma user_submit_safe s : can "users.create" = true -> safe (submit isPlatform myTenantId s).
Proof.
  intros Hc. unfold submit, not_saved. safe_walk;
    try (apply Ui.safe_fork; [apply user_load_safe|safe_walk]); apply Forall_singleton.
  - by apply (user_can "POST" [L "users"] "users.create" []); [in_table|try done..]; apply user_bodies_read.
  - apply user_role_request, user_bodies_read.
Qed.

Lemma put_user_safe uid b : can "users.update" = true -> decodes UpdateUser_req b = true ->
  Forall (fun r => user_request (OReq r)) (http isPlatform _ (PutUser uid b)).
Proof.
  intros Hc Hb. apply Forall_singleton.
  by apply (user_can "PUT" [L "users"; V "id"] "users.update" [uid]); [in_table|..].
Qed.

Lemma user_save_safe uid s : can "users.update" = true -> safe (saveEdit isPlatform uid s).
Proof.
  intros Hc. unfold saveEdit, not_saved. safe_walk;
    try (apply Ui.safe_fork; [apply user_load_safe|safe_walk]).
  - by apply put_user_safe.
  - apply Forall_singleton, user_role_request, user_bodies_read.
Qed.

Lemma user_confirm_safe k :
  match k with Toggle _ _ => can "users.update" = true | Delete _ _ => can "users.delete" = true end ->
  safe (onConfirm isPlatform k).
Proof.
  intros Hc. destruct k as [v a|uid a]; simpl.
  - unfold toggleUserStatus. safe_walk; [by apply put_user_safe|].
    apply Ui.safe_fork; [apply user_load_safe|safe_walk].
  - unfold remove. safe_walk; [|apply Ui.safe_fork; [apply user_load_safe|safe_walk]].
    apply Forall_singleton. right. left. exists uid. split; [done|]. split; [done|]. apply delete_user_unrouted.
Qed.

Lemma user_handle_safe a s :
  guarded s -> offered (view isPlatform can s) a -> safe (handle isPlatform myTenantId a s).
Proof.
  intros Hs Ha. apply users_offered in Ha; [|done].
  destruct a; try (simpl; safe_walk; fail).
  - by apply user_submit_safe.
  - simpl. unfold startEdit. safe_walk.
  - simpl. unfold startEdit. safe_walk.
  - by apply user_save_safe.
  - simpl. unfold askToggle. safe_updates; [|safe_walk].
    intros s0 (H1 & H2 & H3). split; [done|]. split; [done|]. simpl. intros i [= <-]. done.
  - simpl. unfold askDelete. safe_updates; [|safe_walk].
    intros s0 (H1 & H2 & H3). split; [done|]. split; [done|]. simpl. intros i [= <-]. done.
  - cbn [handle]. apply dialog_safe; [by destruct a|keeps|intros ?; keeps|].
    intros i Hi. apply user_confirm_safe. by apply Hs.
Qed.
End Safety.

(** In every interleaving each request of the users page has a route and a
    permission that reading the page takes or that the user holds, users being
    created, changed and switched only under the permission to, except one: the
    page offers to delete users, and the API has no route for it, so a confirmed
    deletion always fails. *)
Theorem users_authorized u myTenantId c :
  let can := hasPermission (Some u) in
  let isPlatform := Auth.is_platform_admin u in
  Ui.reachable (http isPlatform) (effects isPlatform) (handle isPlatform myTenantId)
    (view isPlatform can) initial c ->
  Forall (user_request u) (Ui.c_trace c).
Proof.
  intros can isPlatform Hc.
  eapply (Ui.reachable_safe (http isPlatform) _ _ _ (guarded u) (user_request u)); [..|exact Hc].
  - intros r s _. unfold effects. apply Forall_app. split; [dmatch; [apply Forall_singleton; safe_walk|constructor]|].
    dmatch; [apply Forall_singleton, user_load_safe|constructor].
  - intros a s. apply user_handle_safe.
  - repeat split; by intros ?.
Qed.

Definition root_user : Principal := MkPrincipal "u1" None "root@example.com" true [].

Lemma users_authorized_witness :
  exists c : Ui.config (E := event) (S := state),
    length (Ui.c_trace c) = 3%nat /\ Forall (user_request root_user) (Ui.c_trace c).
Proof.
  exists (Ui.commit (http true) (effects true) (Ui.initial initial)). split; [reflexivity|].
  apply (users_authorized root_user ""). eapply Ui.reach_step; [apply Ui.reach_init|by apply Ui.step_commit].
Defined.

(** * Creating and editing *)

Definition post_user (b : json) : obs := OReq (POST "/admin/api/v1/users" b).
Definition post_role (uid : string) (b : json) : obs :=
  OReq (POST ("/admin/api/v1/users/" +:+ uid +:+ "/roles") b).

(** The requests of a reload. *)
Definition reload (isPlatform : bool) (s : state) : list obs :=
  map OReq (http isPlatform _ (ListUsers (args s)) ++ http isPlatform _ ListRoles
            ++ if isPlatform then http isPlatform _ ListTenants else []).

(** Creating a user, whatever the API answers: one request creates the
    account, for the platform or for the tenant on screen; exactly when a role
    was chosen a second one assigns it to the identifier just answered, in that
    same tenant; the form is cleared and closed and the list reloaded exactly
    when both succeed.  When only the second fails the user is told that the
    account could not be created and the form is left as it was, although the
    account exists, without a role. *)
Theorem create_user_flow isPlatform my srv s :
  let '(s', outs, started) := Ui.exec (http isPlatform) srv (submit isPlatform my s) s in
  let failed x := toast_error "Unable to create user" "Create failed" x in
  let ok := success_msg "User created" (email_ s) :: reload isPlatform s in
  let kept := started = [] /\ s' = s <| saving := false |> <| error := "" |> in
  let body := user_body isPlatform my s in
  let role := role_body isPlatform my s in
  saving s' = false
  /\ jfield role "tenant_id" = jfield body "tenant_id"
  /\ (jfield body "tenant_id" = None <-> isPlatformUser isPlatform s = true \/ newTenantId isPlatform my s = "")
  /\ match srv string (PostUser body) with
     | Threw x => outs = [post_user body; failed x] /\ kept
     | Ok uid =>
         if decide (createRoleId s = "") then outs = post_user body :: ok /\ showForm s' = false
         else match srv unit (PostUserRole uid role) with
              | Threw x => outs = [post_user body; post_role uid role; failed x] /\ kept
              | Ok _ => outs = post_user body :: post_role uid role :: ok
                  /\ showForm s' = false /\ password s' = ""
              end
     end.
Proof.
  assert (Hrun : let '(s', outs, started) := Ui.exec (http isPlatform) srv (submit isPlatform my s) s in
    saving s' = false /\ match srv string (PostUser (user_body isPlatform my s)) with
     | Threw x => outs = [post_user (user_body isPlatform my s);
                          toast_error "Unable to create user" "Create failed" x]
         /\ started = [] /\ s' = s <| saving := false |> <| error := "" |>
     | Ok uid =>
         let ok := success_msg "User created" (email_ s) :: reload isPlatform s in
         if decide (createRoleId s = "")
         then outs = post_user (user_body isPlatform my s) :: ok /\ showForm s' = false
         else
           let first := [post_user (user_body isPlatform my s); post_role uid (role_body isPlatform my s)] in
           match srv unit (PostUserRole uid (role_body isPlatform my s)) with
           | Threw x => outs = first ++ [toast_error "Unable to create user" "Create failed" x]
               /\ started = [] /\ s' = s <| saving := false |> <| error := "" |>
           | Ok _ => outs = first ++ ok /\ showForm s' = false /\ password s' = ""
           end
     end).
  { unfold submit, not_saved. simpl. destruct (srv _ _) as [uid|x]; simpl; [|by destruct s].
    unfold truthy. case_decide as Hd.
    - rewrite bool_decide_true by done. by destruct isPlatform.
    - rewrite bool_decide_false by done. simpl. destruct (srv _ _) as [[]|x]; simpl; [|by destruct s].
      by destruct isPlatform. }
  destruct (Ui.exec _ _ _ _) as [[s' outs] started]. destruct Hrun as [Hs Hrun].
  split; [done|]. split; [|split; [|exact Hrun]].
  - unfold role_body, user_body. by destruct (tenant_field _ _ _).
  - unfold user_body, tenant_field. destruct (isPlatformUser _ _); simpl; [tauto|].
    destruct (truthy _) eqn:E; simpl; [apply truthy_true in E|apply truthy_false in E]; naive_solver.
Qed.

(** The role of the form is one of the roles it offers. *)
Definition role_fits (isPlatform : bool) (s : state) : Prop :=
  createRoleId s = "" \/ exists r, r ∈ createRoles isPlatform s /\ r_id r = createRoleId s.

Lemma role_offered_fits isPlatform can s v :
  offered (view isPlatform can s) (SetRole v) -> exists r, r ∈ createRoles isPlatform s /\ r_id r = v.
Proof.
  intros Ha.
  unfold view, row, create_modal, edit_modal, view_modal, role_select, TenantFilter.view,
    Status.StatusToggle, Modal.Modal, Modal.ModalButton, Pagination.TablePagination in Ha.
  page_cases Ha; simplify_eq; try (destruct (can "users.update"); simplify_eq; done).
  all: try (unfold createRoleOptions in *;
    match goal with H : In _ (map _ _) |- _ => apply in_map_iff in H as (r & <- & Hr) end;
    exists r; split; [by apply list_elem_of_In|done]).
Qed.

Lemma user_submit_offered isPlatform can s :
  showForm s = true -> createDisabled isPlatform s = false -> offered (view isPlatform can s) Submit.
Proof.
  intros Hshow Hd. unfold view. do 3 (apply offered_app; right). apply offered_app. left.
  rewrite Hshow. left. apply offers_grp. do 2 (apply offered_app; right). right. left. by split.
Qed.

(** The role given to a new user is one of the user's own kind.  Every action
    the page offers keeps the chosen role among those of the account type and
    the tenant on screen, changing either of them dropping it; so when "Create
    user" is offered the role assigned is a platform role for an administrator,
    and for a tenant user a default role or one of that very tenant.  The name,
    the address and the password, marked required, are not checked by the button:
    it is offered whatever they are. *)
Theorem new_user_role_fits isPlatform my can s :
  role_fits isPlatform s ->
  (forall a, offered (view isPlatform can s) a ->
     role_fits isPlatform (Ui.sync (http isPlatform) (handle isPlatform my a s) s).1.1)
  /\ (createDisabled isPlatform s = false -> createRoleRequired isPlatform s = true ->
      exists r, r ∈ roles s /\ r_id r = createRoleId s /\ r_scope r = scope_value (createScope s)
        /\ (createScope s = tenant -> isPlatform = true ->
            role_tenant r = "" \/ r_tenant_id r = Some (createTenantId s)))
  /\ (forall nm em pw, showForm s = true -> createDisabled isPlatform s = false ->
      offered (view isPlatform can (s <| name_ := nm |> <| email_ := em |> <| password := pw |>)) Submit).
Proof.
  intros Hf. split; [|split].
  - intros a Ha. destruct a; try exact Hf; try (by left); try (destruct v; exact Hf).
    + right. by apply role_offered_fits in Ha.
    + simpl. rename a into d. destruct d as [| | |]; simpl; try exact Hf; repeat dmatch; try exact Hf.
      simpl. destruct (Confirm.payload _) as [v a'|uid a']; exact Hf.
  - unfold createDisabled. intros Hd Hr. rewrite Hr in Hd. guards. simpl in *.
    destruct Hf as [Hf|(r & Hin & Hid)]; [rewrite Hf in *; done|].
    exists r. unfold createRoles, createPlatformRoles, createTenantRoles, is_scope in Hin.
    destruct (createScope s); apply elem_of_filter_by in Hin as [Hp Hin].
    + apply andb_prop in Hp as [Hk%bool_decide_eq_true Ht]. repeat split; try done. intros _ ->. simpl in Ht.
      apply orb_prop in Ht as [Ht|Ht%bool_decide_eq_true]; [|by right].
      left. by apply negb_true_iff, truthy_false in Ht.
    + repeat split; try done. by apply bool_decide_eq_true in Hp.
  - intros nm em pw Hshow Hd. by apply user_submit_offered.
Qed.

Definition operator_role : Role := MkRole "r1" None "Operator" "operator" "tenant".

Lemma new_user_role_fits_witness :
  let s := initial <| roles := [operator_role] |> <| createRoleId := "r1" |> <| showForm := true |> in
  role_fits false s /\ offered (view false (fun _ => true) s) Submit.
Proof.
  set (s := initial <| roles := [operator_role] |> <| createRoleId := "r1" |> <| showForm := true |>).
  assert (Hf : role_fits false s).
  { right. exists operator_role. split; [apply list_elem_of_singleton; reflexivity|reflexivity]. }
  split; [exact Hf|].
  exact (proj2 (proj2 (new_user_role_fits false "t1" (fun _ => true) s Hf)) "" "" "" eq_refl eq_refl).
Defined.
