(* ===== verification/Roles.v ===== *)
(** pages/roles/RolesPage.tsx: the roles, their permissions, and the editor that
    assigns them. *)
From S2P Require Import Prelude Js React Query Client Components Auth Api Page.

Record Role := MkRole {
  id : string; tenant_id : string; name : string; key : string; scope : string; status : string;
  created_at : string }.
Record Permission := MkPermission { p_id : string; p_key : string; p_description : string }.
Record RoleDetail := MkDetail { role : Role; permissions_ : option (list Permission) }.
Record Tenant := MkTenant { t_id : string; t_name : string; t_slug : string; t_status : string }.

Definition CATEGORIES : list string :=
  ["users"; "roles"; "permissions"; "tenants"; "providers"; "contacts"; "campaigns"; "templates";
   "notifications"; "audit"; "api_keys"; "channels"; "queue_controls"; "features"; "settings"; "groups"].

Definition permissionCategory (key : string) : string :=
  or_empty (find (fun cat => starts_with cat key) CATEGORIES) ||| "other".

(** The permissions of the editor, by category. *)
Definition groupedPerms (allPerms : list Permission) : obj (list Permission) :=
  group_by (fun p => permissionCategory (p_key p)) allPerms.

Inductive role_view := platform | tenant_defaults | tenant_custom.
#[export] Instance role_view_eq : EqDecision role_view.
Proof. solve_decision. Defined.

(** What a [load] closes over. *)
Record load_args := LoadArgs { l_view : role_view; l_tenant : string; l_pg : Pagination.state }.

Record state := State {
  items : list Role; allPerms : list Permission; error : string; loading : bool; showForm : bool;
  name_ : string; key_ : string; tenantId : string; tenants : list Tenant; createPerms : list string;
  saving : bool; editingId : option string; editName : string; editPerms : list string;
  viewingId : option string; viewDetail : option RoleDetail; roleView : role_view;
  tenantFilter : string; meta_ : option Pagination.PaginationMeta; pg : Pagination.state;
  dialog : Confirm.state (string * load_args) }.
#[export] Instance eta_state : Eta state := fun s =>
  State (items s) (allPerms s) (error s) (loading s) (showForm s) (name_ s) (key_ s) (tenantId s)
    (tenants s) (createPerms s) (saving s) (editingId s) (editName s) (editPerms s) (viewingId s)
    (viewDetail s) (roleView s) (tenantFilter s) (meta_ s) (pg s) (dialog s).

Definition initial : state :=
  State [] [] "" true false "" "" "" [] [] false None "" [] None None platform "" None
    Pagination.usePagination Confirm.initial.

Definition set_dialog (f : Confirm.state (string * load_args) -> Confirm.state (string * load_args))
    (s : state) : state := s <| dialog := f (dialog s) |>.

Inductive action :=
| ToggleForm | CloseForm | SetView (v : role_view) | FilterTenant (v : string)
| Paging (a : Pagination.action) | SetName (v : string) | SetKey (v : string) | SetTenant (v : string)
| ToggleCreatePerm (pid : string) | SelectAll | Submit
| ViewRole (id : string) | CloseView | EditViewed (d : RoleDetail)
| StartEdit (i : Role) | CloseEdit | SetEditName (v : string) | TogglePerm (pid : string)
| SaveEdit (id : string) | Remove (i : Role) | Dialog (a : Confirm.action (string * load_args)).

Section RolesPage.
Variable isPlatform : bool.
Variable can : string -> bool.

Inductive event : Type -> Type :=
| ListRoles (a : load_args) : event (ApiList Role)
| ListPermissions : event (list Permission)
| ListTenants : event (list Tenant)
| PostRole (b : json) : event string
| PutPermissions (id : string) (pids : list string) : event unit
| PutRole (id : string) (name : string) : event unit
| DeleteRole (id : string) : event unit
| GetRole (id : string) : event (option RoleDetail).

Definition http (X : Type) (e : event X) : list request :=
  let roles := "/admin/api/v1/roles" in
  match e with
  | ListRoles a =>
      [listPage roles
         ([("filter_scope", Some (if isPlatform && bool_decide (l_view a = platform)
                                  then "platform" else "tenant"));
           ("filter_tenant_id", if isPlatform && bool_decide (l_view a = tenant_custom)
                                then Some (l_tenant a) else None)] ++ page_params (l_pg a))]
  | ListPermissions => [list_ "/admin/api/v1/permissions"]
  | ListTenants => [list_ "/admin/api/v1/tenants"]
  | PostRole b => [POST roles b]
  | PutPermissions id pids =>
      [PUT (roles +:+ "/" +:+ id +:+ "/permissions") (JObj [("permission_ids", jstrs pids)])]
  | PutRole id name => [PUT (roles +:+ "/" +:+ id) (JObj [("name", JStr name)])]
  | DeleteRole id => [DELETE (roles +:+ "/" +:+ id)]
  | GetRole id => [GET (roles +:+ "/" +:+ id)]
  end.

(** * Effects *)

Definition args (s : state) : load_args := LoadArgs (roleView s) (tenantFilter s) (pg s).

(** The rows a list shows: the API does not separate default from custom roles. *)
Definition shown_roles (a : load_args) (data : list Role) : list Role :=
  filter_by (fun i => negb isPlatform || negb (bool_decide (l_view a = tenant_custom))
                      || truthy (l_tenant a) || truthy (tenant_id i))
    (if decide (l_view a = tenant_defaults) then filter_by (fun i => negb (truthy (tenant_id i))) data
     else data).

Definition load (a : load_args) : prog event state :=
  set! (fun s => s <| loading := true |>) ;;
  Join
    [ Branch (ListRoles a) (fun r =>
        match r with
        | Ok res => inl (fun s => s <| items := shown_roles a (data res) |> <| meta_ := meta res |>)
        | Threw x => inr x
        end);
      Branch ListPermissions (fun r =>
        match r with Ok ps => inl (fun s => s <| allPerms := ps |>) | Threw x => inr x end) ]
    (fun rejected =>
      match rejected with
      | None => set! (fun s => s <| loading := false |>) ;; Done
      | Some x =>
          emit! toast_error "Unable to load roles" "Load failed" x ;;
          set! (fun s => s <| loading := false |>) ;; Done
      end).

Definition load_tenants : prog event state :=
  await! r <- ListTenants ;;
  match r with
  | Ok ts =>
      set! (fun s => s <| tenants := filter_by (fun t => bool_decide (t_status t = "active")) ts |>) ;; Done
  | Threw _ => Done
  end.

Definition filters (s : state) : role_view * string := (roleView s, tenantFilter s).
Definition paging (s : state) : Z * Z := (Pagination.page (pg s), Pagination.perPage (pg s)).

Definition effects (r : option state) (s : state) : list (prog event state) :=
  (if changed filters r s
   then [ set! (fun s => s <| pg := Pagination.setPage 1 (pg s) |>) ;; Done ] else [])
  ++ (if changed filters r s || changed paging r s then [ load (args s) ] else [])
  ++ (match r with None => if isPlatform then [ load_tenants ] else [] | Some _ => [] end).

(** * Handlers *)

Definition createScope (s : state) : string :=
  if isPlatform && bool_decide (roleView s = platform) then "platform" else "tenant".
Definition createTenantId (s : state) : string :=
  if isPlatform && bool_decide (roleView s = tenant_custom) then tenantId s else "".

Definition role_body (s : state) : json :=
  JObj ([("name", JStr (name_ s)); ("key", JStr (key_ s)); ("scope", JStr (createScope s))]
    ++ (if truthy (createTenantId s) then [("tenant_id", JStr (createTenantId s))] else [])).

(** [catch (err) { toast.error(...) } finally { setSaving(false) }] *)
Definition not_saved (title fallback : string) (x : thrown) : prog event state :=
  emit! toast_error title fallback x ;;
  set! (fun s => s <| saving := false |>) ;; Done.

Definition submit (s : state) : prog event state :=
  let created :=
    set! (fun s => s <| name_ := "" |>) ;; set! (fun s => s <| key_ := "" |>) ;;
    set! (fun s => s <| tenantId := "" |>) ;; set! (fun s => s <| createPerms := [] |>) ;;
    set! (fun s => s <| showForm := false |>) ;;
    emit! success_msg "Role created" (name_ s) ;;
    fork! load (args s) ;;
    set! (fun s => s <| saving := false |>) ;; Done in
  let failed := not_saved "Unable to create role" "Create failed" in
  set! (fun s => s <| saving := true |>) ;; set! (fun s => s <| error := "" |>) ;;
  await! r <- PostRole (role_body s) ;;
  match r with
  | Threw x => failed x
  | Ok rid =>
      if bool_decide (createPerms s = []) then created
      else
        await! r <- PutPermissions rid (createPerms s) ;;
        match r with Threw x => failed x | Ok _ => created end
  end.

(** The role to delete, with the list to load again, both as the dialog was opened. *)
Definition remove (k : string * load_args) : prog event state :=
  await! r <- DeleteRole k.1 ;;
  match r with
  | Ok _ => emit! success "Role deleted" ;; fork! load k.2 ;; Done
  | Threw x => emit! toast_error "Unable to delete role" "Delete failed" x ;; Done
  end.

Definition startEdit (i : Role) : prog event state :=
  set! (fun s => s <| editingId := Some (id i) |>) ;;
  set! (fun s => s <| editName := name i |>) ;;
  await! r <- GetRole (id i) ;;
  match r with
  | Ok res =>
      set! (fun s => s <| editPerms := unique (map p_id (from_option (fun d => default [] (permissions_ d)) [] res)) |>) ;; Done
  | Threw _ => set! (fun s => s <| editPerms := [] |>) ;; Done
  end.

Definition saveEdit (rid : string) (s : state) : prog event state :=
  let failed := not_saved "Unable to update role" "Update failed" in
  set! (fun s => s <| saving := true |>) ;; set! (fun s => s <| error := "" |>) ;;
  await! r <- PutRole rid (editName s) ;;
  match r with
  | Threw x => failed x
  | Ok _ =>
      await! r <- PutPermissions rid (editPerms s) ;;
      match r with
      | Threw x => failed x
      | Ok _ =>
          set! (fun s => s <| editingId := None |>) ;;
          emit! success_msg "Role updated" (editName s) ;;
          fork! load (args s) ;;
          set! (fun s => s <| saving := false |>) ;; Done
      end
  end.

Definition viewRole (rid : string) : prog event state :=
  await! r <- GetRole rid ;;
  match r with
  | Ok res =>
      set! (fun s => s <| viewDetail := res |>) ;; set! (fun s => s <| viewingId := Some rid |>) ;; Done
  | Threw _ => emit! failure "Unable to load role details" ;; Done
  end.

Definition select_all (s : state) : list string :=
  if decide (length (createPerms s) = length (allPerms s)) then [] else unique (map p_id (allPerms s)).

Definition requestRemove (i : Role) (s : state) : prog event state :=
  set! (set_pending set_dialog (Some (Confirm.Intent "Delete role" (Some "This action cannot be undone")
    (Some ("Delete " +:+ name i +:+ "?")) (Some "Delete role") true (id i, args s)))) ;; Done.

Definition handle (a : action) (s : state) : prog event state :=
  match a with
  | ToggleForm =>
      set! (fun s' => s' <| showForm := negb (showForm s) |>) ;;
      set! (fun s => s <| editingId := None |>) ;; Done
  | CloseForm => set! (fun s => s <| showForm := false |>) ;; Done
  | SetView tenant_custom => set! (fun s => s <| roleView := tenant_custom |>) ;; Done
  | SetView v =>
      set! (fun s => s <| roleView := v |>) ;; set! (fun s => s <| tenantFilter := "" |>) ;; Done
  | FilterTenant v => set! (fun s => s <| tenantFilter := v |>) ;; Done
  | Paging a => set! (fun s => s <| pg := Pagination.apply a (pg s) |>) ;; Done
  | SetName v => set! (fun s => s <| name_ := v |>) ;; Done
  | SetKey v => set! (fun s => s <| key_ := v |>) ;; Done
  | SetTenant v => set! (fun s => s <| tenantId := v |>) ;; Done
  | ToggleCreatePerm p => set! (fun s => s <| createPerms := toggle_elem p (createPerms s) |>) ;; Done
  | SelectAll => set! (fun s' => s' <| createPerms := select_all s |>) ;; Done
  | Submit => submit s
  | ViewRole rid => viewRole rid
  | CloseView =>
      set! (fun s => s <| viewingId := None |>) ;; set! (fun s => s <| viewDetail := None |>) ;; Done
  | EditViewed d =>
      set! (fun s => s <| viewingId := None |>) ;; set! (fun s => s <| viewDetail := None |>) ;;
      startEdit (role d)
  | StartEdit i => startEdit i
  | CloseEdit => set! (fun s => s <| editingId := None |>) ;; Done
  | SetEditName v => set! (fun s => s <| editName := v |>) ;; Done
  | TogglePerm p => set! (fun s => s <| editPerms := toggle_elem p (editPerms s) |>) ;; Done
  | SaveEdit rid => saveEdit rid s
  | Remove i => requestRemove i s
  | Dialog a => dialog_handle dialog set_dialog remove a s
  end.

(** * Views *)

Definition perm_check (checked : list string) (on_toggle : string -> action) (p : Permission) : node action :=
  Chk (p_key p +:+ " " +:+ p_description p) (includes checked (p_id p)) false (on_toggle (p_id p)).

(** The checkboxes of an editor, by category. *)
Definition perm_editor (s : state) (title : string -> string) (checked : list string)
    (on_toggle : string -> action) : list (node action) :=
  map (fun g => Grp (title g.1) (map (perm_check checked on_toggle) g.2)) (groupedPerms (allPerms s)).

Definition createNeedsTenant (s : state) : bool :=
  isPlatform && bool_decide (roleView s = tenant_custom).
Definition createDisabled (s : state) : bool :=
  saving s || createNeedsTenant s && negb (truthy (tenantId s)).

Definition tenantName (s : state) (tid : string) : string :=
  from_option t_name "" (find (fun t => bool_decide (t_id t = tid)) (tenants s)).

Definition create_modal (s : state) : node action :=
  let custom := "Tenant custom role" in
  Modal.Modal "Create role" "Define its permissions for the selected role group." CloseForm
    ([ Txt (if isPlatform then match roleView s with
             | platform => "Platform role" | tenant_defaults => "Default tenant role"
             | tenant_custom => custom end else custom) ]
     ++ when (createNeedsTenant s)
          [ Sel "Tenant" (tenantId s) false
              (map (fun t => (t_id t, t_name t +:+ " (" +:+ t_slug t +:+ ")")) (tenants s)) SetTenant ]
     ++ [ Inp "Role name" (name_ s) false SetName; Inp "Role key" (key_ s) false SetKey;
          Btn (if decide (length (createPerms s) = length (allPerms s)) then "Clear all" else "Select all")
            false SelectAll ]
     ++ perm_editor s spaced (createPerms s) ToggleCreatePerm)
    [ Modal.ModalButton "Cancel" false CloseForm;
      Modal.ModalButton (if saving s then "Creating..." else "Create role") (createDisabled s) Submit ].

Definition edit_modal (s : state) (i : Role) : node action :=
  Modal.Modal "Edit role" "Update the role name and its permission policy." CloseEdit
    (Inp "Role name" (editName s) false SetEditName
     :: perm_editor s Datatypes.id (editPerms s) TogglePerm)
    [ Modal.ModalButton "Cancel" false CloseEdit;
      Modal.ModalButton (if saving s then "Saving..." else "Save changes") (saving s) (SaveEdit (id i)) ].

Definition view_modal (d : RoleDetail) : node action :=
  Modal.Modal (name (role d)) "Role configuration and effective permissions." CloseView
    ([ Txt (key (role d)); Txt (scope (role d));
       Txt (Status.StatusBadge (Status.SText (status (role d)))).2; Txt (created_at (role d)) ]
     ++ map (fun p => Txt (p_key p)) (default [] (permissions_ d)))
    (Modal.ModalButton "Close" false CloseView
     :: when (can "roles.manage") [Modal.ModalButton "Edit role" false (EditViewed d)]).

Definition row (s : state) (i : Role) : list (node action) :=
  [ Txt (name i); Txt (key i); Txt (scope i) ]
  ++ when isPlatform
       [ Txt (if truthy (tenant_id i) then tenantName s (tenant_id i) ||| tenant_id i
              else if decide (scope i = "tenant") then "All tenants" else "-") ]
  ++ [ Txt (Status.StatusBadge (Status.SText (status i))).2; Btn "View" false (ViewRole (id i)) ]
  ++ when (can "roles.manage") [ Btn "Edit" false (StartEdit i); Btn "Delete" false (Remove i) ].

Definition editingRole (s : state) : option Role :=
  find (fun i => bool_decide (Some (id i) = editingId s)) (items s).

Definition tenant_options (s : state) : list TenantFilter.option_ :=
  map (fun t => TenantFilter.Opt (t_id t) (t_name t) (Some (t_slug t))) (tenants s).

Definition view (s : state) : list (node action) :=
  when (can "roles.manage") [ Btn (if showForm s then "Cancel" else "Create role") false ToggleForm ]
  ++ when isPlatform
       ([ Btn "Platform roles" false (SetView platform);
          Btn "Default tenant roles" false (SetView tenant_defaults);
          Btn "Tenant custom roles" false (SetView tenant_custom) ]
        ++ when (bool_decide (roleView s = tenant_custom))
             [ TenantFilter.view (tenantFilter s) FilterTenant (tenant_options s) ])
  ++ (if loading s then [Txt "Loading..."]
      else if bool_decide (length (items s) = 0%nat) then [Txt "No roles found"]
      else concat (map (row s) (items s)) ++ embed Paging (Pagination.TablePagination (meta_ s) (pg s)))
  ++ when (showForm s) [create_modal s]
  ++ (match editingRole s with Some i => [edit_modal s i] | None => [] end)
  ++ (match viewDetail s, viewingId s with
      | Some d, Some v => when (truthy v) [view_modal d]
      | _, _ => []
      end)
  ++ embed Dialog (Confirm.confirmDialog (dialog s)).

End RolesPage.

(** * The permissions of a role *)

(** The editor of a role shows each permission exactly once, under the one
    heading its key belongs to, and checked exactly when the role is to have it;
    clicking a checkbox changes that permission and no other. *)
Theorem permissions_shown_once s title checked f :
  (exists groups, perm_editor s title checked f = map (fun g => Grp (title g.1) g.2) groups
     /\ NoDup (map fst groups)
     /\ concat (map snd groups) ≡ₚ map (perm_check checked f) (allPerms s))
  /\ (forall cat ps p, (cat, ps) ∈ groupedPerms (allPerms s) -> p ∈ ps -> permissionCategory (p_key p) = cat)
  /\ (forall p q,
      includes (toggle_elem p checked) q = (if decide (q = p) then negb (includes checked q) else includes checked q)).
Proof.
  split; [|split].
  - exists (map (fun g => (g.1, map (perm_check checked f) g.2)) (groupedPerms (allPerms s))).
    unfold perm_editor. rewrite !map_map. split; [done|]. simpl. split; [apply NoDup_group_by|].
    rewrite <- map_map, <- concat_map. apply Permutation_map, group_by_perm.
  - intros cat ps p Hg Hp. exact (group_by_key _ _ _ _ _ Hg Hp).
  - intros p q. apply eq_true_iff_eq. rewrite includes_true, (elem_of_toggle p q checked).
    case_decide as H; subst.
    + rewrite negb_true_iff, includes_false. naive_solver.
    + rewrite includes_true. naive_solver.
Qed.

(** * Every request is authorized *)

Section Safety.
Variable u : Principal.
Notation isPlatform := (is_platform_admin u).
Notation can := (hasPermission (Some u)).

(** What opening the page reads. *)
Definition given : list string := ["roles.manage"; "permissions.manage"].

Definition guarded (s : state) : Prop :=
  (showForm s = true -> can "roles.manage" = true)
  /\ (editingId s <> None -> can "roles.manage" = true)
  /\ (Confirm.pending (dialog s) <> None -> can "roles.manage" = true).

Notation safe := (Ui.safe (http isPlatform) guarded (careful given u)).

Lemma role_load_safe a : safe (load isPlatform a).
Proof.
  unfold load. safe_walk. apply Ui.safe_join.
  - apply Forall_cons_2; [|apply Forall_singleton]; cbn [http Ui.b_event].
    + apply Forall_singleton. reads "GET" [L "roles"] "roles.manage" (@nil string).
    + apply Forall_singleton. reads "GET" [L "permissions"] "permissions.manage" (@nil string).
  - apply Forall_cons_2; [|apply Forall_singleton]; intros [x|e]; simpl; try done; keeps.
  - intros []; safe_walk.
Qed.

Lemma role_tenants_safe : isPlatform = true -> safe load_tenants.
Proof.
  intros Hp. unfold load_tenants. safe_walk. apply Forall_singleton.
  writes "GET" [L "tenants"] "tenants.view" (@nil string). by apply platform_can.
Qed.

Lemma role_offered s a : guarded s -> offered (view isPlatform can s) a ->
  match a with
  | Dialog (Confirm.Request _) => False
  | ToggleForm | Submit | EditViewed _ | StartEdit _ | SaveEdit _ | Remove _ => can "roles.manage" = true
  | _ => True
  end.
Proof.
  intros (H1 & H2 & H3) Ha.
  assert (He : editingRole s <> None -> can "roles.manage" = true).
  { intros He. apply H2. destruct (editingRole s) as [i|] eqn:E; [|done].
    apply find_Some in E as [E%bool_decide_eq_true _]. congruence. }
  unfold view, row, create_modal, edit_modal, view_modal, perm_editor, perm_check, TenantFilter.view,
    Modal.Modal, Modal.ModalButton, Pagination.TablePagination in Ha.
  page_cases Ha; subst; guards; try done; try (by apply H1); try (by apply He);
    by destruct act; apply confirmDialog_offers in Hact.
Qed.

Ltac role_write m pat args := apply Forall_singleton; writes m pat "roles.manage" args.

Lemma permissions_read pids :
  decodes SetRolePermissions_req (JObj [("permission_ids", jstrs pids)]) = true.
Proof. apply decodes_struct, Forall_singleton. by apply decodes_slice. Qed.

Lemma role_body_reads s : decodes CreateRole_req (role_body isPlatform s) = true.
Proof. unfold role_body. by destruct (truthy _). Qed.

Lemma role_submit_safe s : can "roles.manage" = true -> safe (submit isPlatform s).
Proof.
  intros Hc. unfold submit, not_saved. safe_walk.
  - apply Forall_singleton.
    writes_body "POST" [L "roles"] "roles.manage" (@nil string) (role_body_reads s).
  - apply Ui.safe_fork; [apply role_load_safe|safe_walk].
  - apply Forall_singleton.
    writes_body "PUT" [L "roles"; V "id"; L "permissions"] "roles.manage" [x] (permissions_read (createPerms s)).
  - apply Ui.safe_fork; [apply role_load_safe|safe_walk].
Qed.

Lemma role_save_safe rid s : can "roles.manage" = true -> safe (saveEdit isPlatform rid s).
Proof.
  intros Hc. unfold saveEdit, not_saved. safe_walk.
  - role_write "PUT" [L "roles"; V "id"] [rid].
  - apply Forall_singleton.
    writes_body "PUT" [L "roles"; V "id"; L "permissions"] "roles.manage" [rid] (permissions_read (editPerms s)).
  - apply Ui.safe_fork; [apply role_load_safe|safe_walk].
Qed.

Lemma role_remove_safe k : can "roles.manage" = true -> safe (remove isPlatform k).
Proof.
  intros Hc. unfold remove. safe_walk; [|apply Ui.safe_fork; [apply role_load_safe|safe_walk]].
  role_write "DELETE" [L "roles"; V "id"] [k.1].
Qed.

Lemma get_role_safe rid :
  Forall (fun r => careful given u (OReq r)) (http isPlatform _ (GetRole rid)).
Proof. apply Forall_singleton. reads "GET" [L "roles"; V "id"] "roles.manage" [rid]. Qed.

Lemma role_edit_safe i : can "roles.manage" = true -> safe (startEdit i).
Proof. intros Hc. unfold startEdit. safe_walk. apply get_role_safe. Qed.

Lemma role_handle_safe a s :
  guarded s -> offered (view isPlatform can s) a -> safe (handle isPlatform a s).
Proof.
  intros Hs Ha. apply role_offered in Ha; [|done].
  destruct a; try (simpl; safe_walk; fail).
  - by apply role_submit_safe.
  - simpl. unfold viewRole. safe_walk. apply get_role_safe.
  - simpl. unfold startEdit. safe_walk. apply get_role_safe.
  - by apply role_edit_safe.
  - by apply role_save_safe.
  - simpl. unfold requestRemove. safe_walk.
  - cbn [handle]. apply dialog_safe; [by destruct a|keeps|intros ?; keeps|].
    intros i Hi. apply role_remove_safe, Hs. congruence.
Qed.
End Safety.

(** The roles page only reads what opening it takes, and only ever creates,
    changes or deletes a role for a user who may manage roles: so for every
    interleaving, each of its requests having a route of the API. *)
Theorem roles_authorized u c :
  let can := hasPermission (Some u) in
  let isPlatform := is_platform_admin u in
  Ui.reachable (http isPlatform) (effects isPlatform) (handle isPlatform) (view isPlatform can) initial c ->
  Forall (careful given u) (Ui.c_trace c).
Proof.
  intros can isPlatform Hc.
  eapply (Ui.reachable_safe (http isPlatform) _ _ _ (guarded u) (careful given u)); [..|exact Hc].
  - intros r s _. unfold effects. apply Forall_app. split; [dmatch; [apply Forall_singleton; safe_walk|constructor]|].
    apply Forall_app. split; [dmatch; [apply Forall_singleton, role_load_safe|constructor]|].
    destruct r; [constructor|]. unfold isPlatform. destruct (is_platform_admin u) eqn:Hp; [|constructor].
    apply Forall_singleton. rewrite <- Hp. by apply role_tenants_safe.
  - intros a s. apply role_handle_safe.
  - repeat split; by intros ?.
Qed.

Definition manager : Principal := MkPrincipal "u1" None "root@example.com" true [].

Lemma roles_authorized_witness :
  exists c : Ui.config (E := event) (S := state),
    length (Ui.c_trace c) = 3%nat /\ Forall (careful given manager) (Ui.c_trace c).
Proof.
  exists (Ui.commit (http true) (effects true) (Ui.initial initial)). split; [reflexivity|].
  apply (roles_authorized manager). eapply Ui.reach_step; [apply Ui.reach_init|by apply Ui.step_commit].
Defined.

(** * What saving sends *)

Definition put_role (rid nm : string) : request :=
  PUT ("/admin/api/v1/roles/" +:+ rid) (JObj [("name", JStr nm)]).
Definition put_permissions (rid : string) (pids : list string) : request :=
  PUT ("/admin/api/v1/roles/" +:+ rid +:+ "/permissions") (JObj [("permission_ids", jstrs pids)]).

(** The requests of a reload. *)
Definition reload (isPlatform : bool) (s : state) : list obs :=
  map OReq (http isPlatform _ (ListRoles (args s)) ++ http isPlatform _ ListPermissions).

(** Creating a role, whatever the API answers: one request creates it with
    the group and the tenant on screen; exactly when permissions were checked a
    second one assigns them to the identifier just answered; the form is closed
    and the list reloaded exactly when both succeed.  When only the second fails
    the user is told that the role could not be created, with the form left as
    it was, although the role exists, without permissions. *)
Theorem create_role_flow isPlatform srv s :
  let '(s', outs, started) := Ui.exec (http isPlatform) srv (submit isPlatform s) s in
  let post := OReq (POST "/admin/api/v1/roles" (role_body isPlatform s)) in
  let failed x := toast_error "Unable to create role" "Create failed" x in
  let ok := success_msg "Role created" (name_ s) :: reload isPlatform s in
  saving s' = false
  /\ match srv string (PostRole (role_body isPlatform s)) with
     | Threw x => outs = [post; failed x] /\ started = []
         /\ s' = s <| saving := false |> <| error := "" |>
     | Ok rid =>
         if bool_decide (createPerms s = []) then outs = post :: ok /\ showForm s' = false
         else
           let assign := OReq (put_permissions rid (createPerms s)) in
           match srv unit (PutPermissions rid (createPerms s)) with
           | Threw x => outs = [post; assign; failed x] /\ started = []
               /\ s' = s <| saving := false |> <| error := "" |>
           | Ok _ => outs = post :: assign :: ok /\ showForm s' = false /\ createPerms s' = []
           end
     end.
Proof.
  unfold submit, not_saved. simpl. destruct (srv _ _) as [rid|x]; simpl; [|by destruct s].
  destruct (bool_decide _); simpl; [done|].
  destruct (srv _ _) as [[]|x]; simpl; [done|by destruct s].
Qed.

(** Saving an edited role, whatever the API answers: the name on screen, and
    then, exactly when that succeeded, the permissions checked on screen and no
    others, both for the role whose editor is open; the editor closes and the
    list is reloaded exactly when both succeed. *)
Theorem save_role_flow isPlatform srv rid s :
  let '(s', outs, started) := Ui.exec (http isPlatform) srv (saveEdit isPlatform rid s) s in
  let failed x := toast_error "Unable to update role" "Update failed" x in
  let rename := OReq (put_role rid (editName s)) in
  let assign := OReq (put_permissions rid (editPerms s)) in
  let kept := s' = s <| saving := false |> <| error := "" |> /\ started = [] in
  match srv unit (PutRole rid (editName s)), srv unit (PutPermissions rid (editPerms s)) with
  | Threw x, _ => outs = [rename; failed x] /\ kept
  | Ok _, Threw x => outs = [rename; assign; failed x] /\ kept
  | Ok _, Ok _ =>
      outs = rename :: assign :: success_msg "Role updated" (editName s) :: reload isPlatform s
      /\ editingId s' = None /\ saving s' = false
  end.
Proof.
  unfold saveEdit, not_saved. simpl. destruct (srv _ (PutRole _ _)) as [[]|x]; simpl; [|by destruct s].
  destruct (srv _ _) as [[]|x]; simpl; [done|by destruct s].
Qed.

(** * An editor with the permissions of another role *)

Definition support : Role := MkRole "r1" "" "Support" "support" "platform" "active" "".
Definition auditor : Role := MkRole "r2" "" "Auditor" "auditor" "platform" "active" "".
Definition users_manage : Permission := MkPermission "p1" "users.manage" "".
Definition audit_view : Permission := MkPermission "p2" "audit_logs.view" "".
Definition all_perms : list Permission := [users_manage; audit_view].

(** The API: the first role has one permission, the second another; only the
    details of the second fail to load when [broken]. *)
Definition sample_server (broken : bool) (X : Type) (e : event X) : result X :=
  match e with
  | ListRoles _ => Ok (MkList [support; auditor] None)
  | ListPermissions => Ok all_perms
  | ListTenants => Ok []
  | PostRole _ => Ok "r3"
  | PutPermissions _ _ | PutRole _ _ | DeleteRole _ => Ok tt
  | GetRole rid =>
      if decide (rid = "r1") then Ok (Some (MkDetail support (Some [users_manage])))
      else if broken then Threw NotAnError
      else Ok (Some (MkDetail auditor (Some [audit_view])))
  end.

Notation page_reachable :=
  (Ui.reachable (http true) (effects true) (handle true) (view true (fun _ => true)) initial).
Notation page_commit := (Ui.commit (http true) (effects true)).
Notation page_act a c := (Ui.resume (http true) c (Ui.c_pool c) (handle true a (Ui.c_state c))).
Notation answered b c := (page_commit (Ui.drain (http true) (sample_server b) 20 c)).

Definition listed : Ui.config := answered false (page_commit (page_commit (Ui.initial initial))).
(** The editor of the first role, loaded; then, without closing it, of the second. *)
Definition first_open : Ui.config := answered false (page_commit (page_act (StartEdit support) listed)).
Definition second_open : Ui.config := page_commit (page_act (StartEdit auditor) first_open).
Definition second_failed : Ui.config :=
  answered true (page_commit (page_act (StartEdit auditor) listed)).

Lemma role_commit_reach c : page_reachable c -> Ui.c_dirty c = true -> page_reachable (page_commit c).
Proof. intros Hc Hd. eapply Ui.reach_step; [done|by apply Ui.step_commit]. Qed.

Lemma start_edit_reach i c : page_reachable c -> Ui.c_dirty c = false ->
  loading (Ui.c_state c) = false -> items (Ui.c_state c) = [support; auditor] ->
  i = support \/ i = auditor ->
  page_reachable (page_commit (page_act (StartEdit i) c)).
Proof.
  intros Hc Hd Hl Hi Hor. apply role_commit_reach; [|].
  - eapply Ui.reach_step; [done|]. apply (Ui.step_event (http true) (effects true) (handle true)); [done|].
    unfold view. do 2 (apply offered_app; right). apply offered_app. left. rewrite Hl, Hi.
    apply offered_app. left. apply offered_concat. exists i. split; [destruct Hor; subst; [by left|by right; left]|].
    unfold row. do 3 (apply offered_app; right). left. by split.
  - unfold Ui.resume. by destruct (Ui.sync _ _ _) as [[? ?] ?].
Qed.

Lemma answered_reach b c : page_reachable c -> Ui.c_dirty (Ui.drain (http true) (sample_server b) 20 c) = true ->
  page_reachable (answered b c).
Proof. intros Hc Hd. apply role_commit_reach; [by apply Ui.drain_reachable|done]. Qed.

Lemma listed_reach : page_reachable listed.
Proof.
  apply answered_reach; [|vm_compute; reflexivity].
  do 2 (apply role_commit_reach; [|vm_compute; reflexivity]). apply Ui.reach_init.
Qed.

Lemma first_reach : page_reachable first_open.
Proof.
  apply answered_reach; [|vm_compute; reflexivity].
  apply start_edit_reach; [apply listed_reach|vm_compute; reflexivity..|by left].
Qed.

Lemma save_role_offered i s : editingRole s = Some i -> saving s = false ->
  offered (view true (fun _ => true) s) (SaveEdit (id i)).
Proof.
  intros Hi Hs. unfold view. do 4 (apply offered_app; right). apply offered_app. left. rewrite Hi.
  left. apply offers_grp. apply offered_app. right. apply offered_app. right. right. left. by split.
Qed.

(** The editor can save permissions that are not those of its role.  While
    the details of a role load it shows the permissions of the role edited
    before, and when they cannot be loaded it shows none; in both cases "Save
    changes" is offered, and sends them: a role gets the permissions of another,
    or loses its own. *)
Theorem role_editor_can_leak :
  (exists c, page_reachable c /\ Ui.c_dirty c = false
     /\ offered (view true (fun _ => true) (Ui.c_state c)) (SaveEdit (id auditor))
     /\ (Ui.exec (http true) (sample_server false) (handle true (SaveEdit (id auditor)) (Ui.c_state c))
           (Ui.c_state c)).1.2 !! 1%nat
        = Some (OReq (put_permissions (id auditor) (map p_id [users_manage]))))
  /\ (exists c, page_reachable c /\ Ui.c_dirty c = false /\ Ui.c_pool c = []
     /\ offered (view true (fun _ => true) (Ui.c_state c)) (SaveEdit (id auditor))
     /\ (Ui.exec (http true) (sample_server true) (handle true (SaveEdit (id auditor)) (Ui.c_state c))
           (Ui.c_state c)).1.2 !! 1%nat
        = Some (OReq (put_permissions (id auditor) []))).
Proof.
  split.
  - exists second_open.
    split; [apply start_edit_reach; [apply first_reach|vm_compute; reflexivity..|by right]|].
    split; [vm_compute; reflexivity|].
    split; [apply (save_role_offered auditor); vm_compute; reflexivity|vm_compute; reflexivity].
  - exists second_failed. split.
    { apply answered_reach; [|vm_compute; reflexivity].
      apply start_edit_reach; [apply listed_reach|vm_compute; reflexivity..|by right]. }
    do 2 (split; [vm_compute; reflexivity|]).
    split; [apply (save_role_offered auditor); vm_compute; reflexivity|vm_compute; reflexivity].
Qed.
