(* ===== verification/TenantDetail.v ===== *)
(** pages/tenants/TenantDetailPage.tsx: the workspace of one tenant, its tabs and
    the switches of its capabilities, channels and providers. *)
From S2P Require Import Prelude Js React Query Client Components Auth Api Template Page.

Record Tenant := MkTenant { t_id : string; t_name : string; t_slug : string; t_status : string }.
Record Feature := MkFeature {
  f_id : string; f_identifier : string; f_feature_key : string; f_name : string; f_description : string;
  f_category : string; f_enabled : bool }.
Record Channel := MkChannel {
  ch_id : string; ch_channel : string; ch_enabled : bool; ch_direction : string; ch_rate : Z; ch_quota : Z }.
Record Provider := MkProvider {
  p_id : string; p_channel : string; p_provider : string; p_is_default : bool; p_status : string }.
Record Counts := MkCounts {
  n_users : Z; n_contacts : Z; n_templates : Z; n_campaigns : Z; n_api_keys : Z }.
#[export] Instance eta_feature : Eta Feature := fun f =>
  MkFeature (f_id f) (f_identifier f) (f_feature_key f) (f_name f) (f_description f) (f_category f) (f_enabled f).
#[export] Instance eta_channel : Eta Channel := fun c =>
  MkChannel (ch_id c) (ch_channel c) (ch_enabled c) (ch_direction c) (ch_rate c) (ch_quota c).
#[export] Instance eta_provider : Eta Provider := fun p =>
  MkProvider (p_id p) (p_channel p) (p_provider p) (p_is_default p) (p_status p).

Record Overview := MkOverview {
  tenant : Tenant; features : list Feature; channels : list Channel; providers : list Provider;
  counts : Counts }.
#[export] Instance eta_overview : Eta Overview := fun o =>
  MkOverview (tenant o) (features o) (channels o) (providers o) (counts o).

(** Contacts, groups, campaigns and keys are read by key only ([Record<string, any>]). *)
Notation row := (obj json).
Record Template_ := MkTemplate {
  tp_tenant_id : string; tp_key : string; tp_channel : string; tp_subject : string;
  tp_body : option string; tp_status : string }.
Record AuditLog := MkLog {
  a_id : string; a_action : string; a_actor_type : string; a_resource_type : string;
  a_resource_id : option string; a_ip : option string; a_request_id : option string;
  a_session_id : option string; a_created_at : string }.

Inductive tab := overview_tab | integration | features_tab | channels_tab | providers_tab | contacts_tab
  | groups_tab | templates_tab | campaigns_tab | api_keys_tab | audit.
#[export] Instance tab_eq : EqDecision tab.
Proof. solve_decision. Defined.

Definition tab_label (t : tab) : string :=
  match t with
  | overview_tab => "Overview" | integration => "Integration" | features_tab => "Capabilities"
  | channels_tab => "Channels" | providers_tab => "Providers" | contacts_tab => "Contacts"
  | groups_tab => "Groups" | templates_tab => "Templates" | campaigns_tab => "Campaigns"
  | api_keys_tab => "API keys" | audit => "Audit log"
  end.

Inductive PreviewMode := text | markdown | html.

(** The switch a confirmation is asked for, and the state it is to be in. *)
Inductive switch :=
| SwitchFeature (id : string) (enabled : bool)
| SwitchChannel (id : string) (enabled : bool)
| SwitchProvider (id : string) (active : bool).

(** [id] is the segment of the path; [previewMode] belongs to the open preview. *)
Record state := State {
  id : string; overview : option Overview; loading : bool; error : string; tab_ : tab;
  contacts : list row; groups : list row; templates : list Template_; campaigns : list row;
  apiKeys : list row; auditLogs : list AuditLog; subLoading : bool;
  previewTemplate : option Template_; previewMode : PreviewMode;
  selectedAuditSession : string; selectedAuditLogs : list AuditLog; auditSessionLoading : bool;
  dialog : Confirm.state switch }.
#[export] Instance eta_state : Eta state := fun s =>
  State (id s) (overview s) (loading s) (error s) (tab_ s) (contacts s) (groups s) (templates s)
    (campaigns s) (apiKeys s) (auditLogs s) (subLoading s) (previewTemplate s) (previewMode s)
    (selectedAuditSession s) (selectedAuditLogs s) (auditSessionLoading s) (dialog s).

Definition initial (tid : string) : state :=
  State tid None true "" overview_tab [] [] [] [] [] [] false None text "" [] false Confirm.initial.

Definition set_dialog (f : Confirm.state switch -> Confirm.state switch) (s : state) : state :=
  s <| dialog := f (dialog s) |>.

(** [GoTo] is the browser's history: the same page with the id of another tenant. *)
Inductive action :=
| GoTo (tid : string) | Directory | SetTab (t : tab)
| AskFeature (f : Feature) | AskChannel (c : Channel) | AskProvider (p : Provider)
| Preview (t : Template_) | SetMode (m : PreviewMode) | ClosePreview
| ViewSession (session : string) | CloseSession | Dialog (a : Confirm.action switch).

Inductive event : Type -> Type :=
| GetOverview (tid : string) : event Overview
| ListContacts (tid : string) : event (list row)
| ListGroups (tid : string) : event (list row)
| ListTemplates (tid : string) : event (list Template_)
| ListCampaigns (tid : string) : event (list row)
| ListApiKeys : event (list row)
| ListAudit (tid : string) : event (list AuditLog)
| ListSession (tid session : string) : event (list AuditLog)
| PutSwitch (k : switch) : event unit.

Definition http (X : Type) (e : event X) : list request :=
  let of_tenant what tid := [list_ ("/admin/api/v1/" +:+ what +:+ "?tenant_id=" +:+ tid)] in
  match e with
  | GetOverview tid => [GET ("/admin/api/v1/tenants/" +:+ tid +:+ "/overview")]
  | ListContacts tid => of_tenant "contacts" tid
  | ListGroups tid => of_tenant "groups" tid
  | ListTemplates tid => of_tenant "templates" tid
  | ListCampaigns tid => of_tenant "campaigns" tid
  | ListApiKeys => [list_ "/admin/api/v1/api-keys"]
  | ListAudit tid =>
      [listPage "/admin/api/v1/audit-logs" [("tenant_id", Some tid); ("per_page", Some "100")]]
  | ListSession tid session =>
      [listPage "/admin/api/v1/audit-logs"
         [("tenant_id", Some tid); ("q", Some session); ("per_page", Some "100")]]
  | PutSwitch (SwitchFeature fid b) =>
      [PUT ("/admin/api/v1/features/" +:+ fid) (JObj [("enabled", JBool b)])]
  | PutSwitch (SwitchChannel cid b) =>
      [PUT ("/admin/api/v1/channels/" +:+ cid) (JObj [("enabled", JBool b)])]
  | PutSwitch (SwitchProvider pid b) =>
      [PUT ("/admin/api/v1/providers/" +:+ pid)
         (JObj [("status", JStr (if b then "active" else "disabled"))])]
  end.

(** * Effects *)

Definition load_overview (s : state) : prog event state :=
  set! (fun s => s <| loading := true |>) ;;
  await! r <- GetOverview (id s) ;;
  match r with
  | Ok ov =>
      set! (fun s => s <| overview := Some ov |>) ;; set! (fun s => s <| error := "" |>) ;;
      set! (fun s => s <| loading := false |>) ;; Done
  | Threw x =>
      set! (fun s => s <| error := getErrorMessage x "Unable to load tenant detail" |>) ;;
      set! (fun s => s <| loading := false |>) ;; Done
  end.

(** [row.tenant_id === tenantId] *)
Definition row_of (tid : string) (r : row) : bool :=
  match oget r "tenant_id" with Some (JStr t) => bool_decide (t = tid) | _ => false end.
Definition template_of (tid : string) (t : Template_) : bool := bool_decide (tp_tenant_id t = tid).

(** One case of [loadSubData]: the list it requests and the cell it sets. *)
Definition load_list {X} (e : event X) (set_ : X -> state -> state) : prog event state :=
  set! (fun s => s <| subLoading := true |>) ;;
  await! r <- e ;;
  match r with
  | Ok x => set! set_ x ;; set! (fun s => s <| subLoading := false |>) ;; Done
  | Threw x =>
      emit! toast_error "Unable to load tenant data" "Request failed" x ;;
      set! (fun s => s <| subLoading := false |>) ;; Done
  end.

Definition loadSubData (t : tab) (tid : string) : list (prog event state) :=
  let mine := filter_by (row_of tid) in
  match t with
  | contacts_tab => [ load_list (ListContacts tid) (fun x s => s <| contacts := mine x |>) ]
  | groups_tab => [ load_list (ListGroups tid) (fun x s => s <| groups := mine x |>) ]
  | templates_tab =>
      [ load_list (ListTemplates tid) (fun x s => s <| templates := filter_by (template_of tid) x |>) ]
  | campaigns_tab => [ load_list (ListCampaigns tid) (fun x s => s <| campaigns := mine x |>) ]
  | api_keys_tab => [ load_list ListApiKeys (fun x s => s <| apiKeys := mine x |>) ]
  | audit => [ load_list (ListAudit tid) (fun x s => s <| auditLogs := x |>) ]
  | overview_tab | integration | features_tab | channels_tab | providers_tab => []
  end.

Definition effects (r : option state) (s : state) : list (prog event state) :=
  (if changed id r s && truthy (id s) then [ load_overview s ] else [])
  ++ (if (changed id r s || changed tab_ r s) && truthy (id s) then loadSubData (tab_ s) (id s) else []).

(** * Handlers *)

Definition switch_feature (fid : string) (b : bool) (f : Feature) : Feature :=
  if decide (f_id f = fid) then f <| f_enabled := b |> else f.
Definition switch_channel (cid : string) (b : bool) (c : Channel) : Channel :=
  if decide (ch_id c = cid) then c <| ch_enabled := b |> else c.
Definition switch_provider (pid : string) (b : bool) (p : Provider) : Provider :=
  if decide (p_id p = pid) then p <| p_status := if b then "active" else "disabled" |> else p.

Definition apply_switch (k : switch) (o : Overview) : Overview :=
  match k with
  | SwitchFeature fid b => o <| features := map (switch_feature fid b) (features o) |>
  | SwitchChannel cid b => o <| channels := map (switch_channel cid b) (channels o) |>
  | SwitchProvider pid b => o <| providers := map (switch_provider pid b) (providers o) |>
  end.

Definition switch_kind (k : switch) : string * string :=
  match k with
  | SwitchFeature _ _ => ("Capability", "capability")
  | SwitchChannel _ _ => ("Channel", "channel")
  | SwitchProvider _ _ => ("Provider", "provider")
  end.
Definition switch_on (k : switch) : bool :=
  match k with SwitchFeature _ b | SwitchChannel _ b | SwitchProvider _ b => b end.

(** [toggleFeature], [toggleChannelFn] and [toggleProviderFn]. *)
Definition toggle (k : switch) : prog event state :=
  await! r <- PutSwitch k ;;
  match r with
  | Ok _ =>
      set! (fun s => s <| overview := option_map (apply_switch k) (overview s) |>) ;;
      emit! success ((switch_kind k).1 +:+ (if switch_on k then " enabled" else " disabled")) ;; Done
  | Threw x => emit! toast_error ("Unable to update " +:+ (switch_kind k).2) "Request failed" x ;; Done
  end.

Definition session_key (l : AuditLog) : string := or_empty (a_session_id l) ||| "No session".

Definition viewAuditSession (session : string) (s : state) : prog event state :=
  set! (fun s => s <| selectedAuditSession := session |>) ;;
  set! (fun s => s <| auditSessionLoading := true |>) ;;
  await! r <- ListSession (id s) session ;;
  match r with
  | Ok x =>
      set! (fun s => s <| selectedAuditLogs :=
        filter_by (fun l => bool_decide (session_key l = session)) x |>) ;;
      set! (fun s => s <| auditSessionLoading := false |>) ;; Done
  | Threw x =>
      emit! toast_error "Unable to load audit session" "Request failed" x ;;
      set! (fun s => s <| selectedAuditLogs := [] |>) ;;
      set! (fun s => s <| auditSessionLoading := false |>) ;; Done
  end.

Definition confirmToggle (name : string) (k : switch) : prog event state :=
  let verb := if switch_on k then "Enable" else "Disable" in
  set! (set_pending set_dialog (Some (Confirm.Intent (verb +:+ " " +:+ (switch_kind k).2)
    (Some "Confirm status change")
    (Some ("Change " +:+ name +:+ " to " +:+ (if switch_on k then "enabled" else "disabled") +:+ "?"))
    (Some verb) (negb (switch_on k)) k))) ;; Done.

Definition p_active (p : Provider) : bool := bool_decide (p_status p = "active").

Definition handle (a : action) (s : state) : prog event state :=
  match a with
  | GoTo tid => set! (fun s => s <| id := tid |>) ;; Done
  | Directory => emit! ONav "/tenants" ;; Done
  | SetTab t => set! (fun s => s <| tab_ := t |>) ;; Done
  | AskFeature f => confirmToggle (f_name f) (SwitchFeature (f_id f) (negb (f_enabled f)))
  | AskChannel c => confirmToggle (spaced (ch_channel c)) (SwitchChannel (ch_id c) (negb (ch_enabled c)))
  | AskProvider p => confirmToggle (p_provider p) (SwitchProvider (p_id p) (negb (p_active p)))
  | Preview t => set! (fun s => s <| previewTemplate := Some t |>) ;; Done
  | SetMode m => set! (fun s => s <| previewMode := m |>) ;; Done
  | ClosePreview =>   (* the preview unmounts with its mode *)
      set! (fun s => s <| previewTemplate := None |> <| previewMode := text |>) ;; Done
  | ViewSession session => viewAuditSession session s
  | CloseSession =>
      set! (fun s => s <| selectedAuditSession := "" |>) ;;
      set! (fun s => s <| selectedAuditLogs := [] |>) ;; Done
  | Dialog a => dialog_handle dialog set_dialog toggle a s
  end.

(** * Views *)

Section TenantDetailPage.
Variable isPlatform : bool.

Definition badge (s : string) : node action := Txt (Status.StatusBadge (Status.SText s)).2.
Definition count {A} (p : A -> bool) (xs : list A) : Z := Z.of_nat (length (filter_by p xs)).
Definition ratio {A} (p : A -> bool) (xs : list A) : node action :=
  Txt (pretty (count p xs) +:+ "/" +:+ pretty (Z.of_nat (length xs))).

Definition OverviewSection (ov : Overview) : list (node action) :=
  let t := tenant ov in
  [ Txt (t_name t); Txt (t_slug t); badge (t_status t) ]
  ++ map (fun n => Txt (pretty n))
       [ n_contacts (counts ov); n_campaigns (counts ov); n_templates (counts ov);
         n_api_keys (counts ov); n_users (counts ov) ]
  ++ [ ratio f_enabled (features ov); ratio ch_enabled (channels ov); ratio p_active (providers ov);
       Txt (pretty (count ch_enabled (channels ov)) +:+ " active") ]
  ++ concat (map (fun c =>
       [ Txt (replace_first_char (ascii_of_nat 95) (ascii_of_nat 32) (ch_channel c));
         Txt (Status.StatusBadge (Status.SBool (ch_enabled c))).2;
         Txt (pretty (ch_rate c)); Txt (pretty (ch_quota c)) ]) (channels ov))
  ++ when (bool_decide (length (channels ov) = 0%nat)) [ Txt "No channels configured" ].

(** One cell: a badge for a status, ["-"] for what is empty. *)
Definition cell (r : row) (key : string) : node action :=
  if decide (key = "status" \/ key = "enabled") then
    match oget r key with
    | Some (JBool b) => Txt (Status.StatusBadge (Status.SBool b)).2
    | Some (JStr s) => badge s
    | _ => Txt (Status.StatusBadge Status.SAbsent).2
    end
  else Txt (match oget r key with
            | Some v => if json_truthy (Some v) then js_String v else "-" | None => "-" end).

Definition GenericTable (columns : list (string * string)) (rows : list row) : list (node action) :=
  if bool_decide (length rows = 0%nat) then [ Txt "No data" ]
  else match columns with
  | [] => []
  | primary :: details =>
      concat (map (fun r =>
        [ Txt primary.2;
          Txt (match oget r primary.1 with Some JNull | None => "-" | Some v => js_String v end) ]
        ++ match oget r "status" with Some _ => [ cell r "status" ] | None => [] end
        ++ concat (map (fun c => [ Txt c.2; cell r c.1 ]) details)) rows)
  end.

Definition audit_row (session : string) (l : AuditLog) : list (node action) :=
  [ Txt (a_action l); Txt (a_actor_type l); Txt (a_resource_type l); Txt (a_created_at l);
    Btn "View" false (ViewSession session) ].

Definition TenantAuditTable (rows : list AuditLog) : list (node action) :=
  if bool_decide (length rows = 0%nat) then [ Txt "No audit logs" ]
  else map (fun g =>
    Grp g.1 (Btn (pretty (Z.of_nat (length g.2)) +:+ " events") false (ViewSession g.1)
             :: concat (map (audit_row g.1) g.2))) (group_by session_key rows).

Definition TenantTemplates (ts : list Template_) : list (node action) :=
  if bool_decide (length ts = 0%nat) then [ Txt "No templates" ]
  else concat (map (fun t =>
    [ Txt (tp_key t); badge (tp_status t); Txt (tp_channel t ||| "-"); Txt (tp_subject t ||| "-");
      Btn "Preview" false (Preview t) ]) ts).

(** The page's own copy of the rendering of the send page. *)
Definition renderMarkdownLite (value : string) : string := Template.renderMarkdownLite value.

Definition TenantTemplatePreview (t : Template_) (m : PreviewMode) : node action :=
  let body := or_empty (tp_body t) in
  Modal.Modal (tp_key t) "Tenant template preview." ClosePreview
    ([ Txt (tp_channel t ||| "-"); badge (tp_status t);
       Btn "text" false (SetMode text); Btn "markdown" false (SetMode markdown);
       Btn "html" false (SetMode html) ]
     ++ when (truthy (tp_subject t)) [ Txt (tp_subject t) ]
     ++ [ Txt (match m with
               | html => body ||| "<p></p>"
               | markdown => renderMarkdownLite body ||| "No body content"
               | text => body ||| "No body content"
               end) ])
    [ Modal.ModalButton "Close" false ClosePreview ].

Definition tabs : list tab :=
  [overview_tab; integration]
  ++ (if isPlatform then [features_tab; channels_tab; providers_tab] else [])
  ++ [contacts_tab; groups_tab; templates_tab; campaigns_tab; api_keys_tab; audit].

Definition Toggle {A} (value : bool) (on_change : A) (label : string) : node A :=
  Chk label value false on_change.

Definition StatusAction {A} (active : bool) (label : string) (on_confirm : A) : node A :=
  Toggle active on_confirm label.

Definition EmptyOptions {A} (title message : string) : node A := Grp title [ Txt message ].

(** [OptionCard] with its [StatusAction]. *)
Definition option_card (active : bool) (title label : string) (badges : list string) (description code : string)
    (on_change : action) (footer : string) : list (node action) :=
  [ Txt title ] ++ map Txt badges
  ++ [ Txt description; Txt code;
       StatusAction active ((if active then "Disable " else "Enable ") +:+ label) on_change; Txt footer ].

Definition available (ov : Overview) (b : bool) : string :=
  (if b then "Available to " else "Not available to ") +:+ t_name (tenant ov).

Definition feature_card (ov : Overview) (f : Feature) : list (node action) :=
  option_card (f_enabled f) (f_name f) (f_name f) [f_category f] (f_description f)
    (f_identifier f ||| f_feature_key f) (AskFeature f) (available ov (f_enabled f)).
Definition channel_card (ov : Overview) (c : Channel) : list (node action) :=
  option_card (ch_enabled c) (spaced (ch_channel c)) (ch_channel c +:+ " channel") [ch_direction c]
    ("Rate limit " +:+ pretty (ch_rate c) +:+ "/s · Daily quota " +:+ pretty (ch_quota c)) (ch_channel c)
    (AskChannel c) (available ov (ch_enabled c)).
Definition provider_card (p : Provider) : list (node action) :=
  option_card (p_active p) (p_provider p) (p_provider p +:+ " provider")
    (p_channel p :: if p_is_default p then ["default"] else [])
    (if p_is_default p then "Default provider for this channel."
     else "Configured provider available for this tenant.") (p_id p) (AskProvider p)
    (if p_active p then "Provider is active for this tenant" else "Provider is disabled for this tenant").

Definition provider_groups (ov : Overview) : obj (list Provider) := group_by p_channel (providers ov).

Definition renderTabContent (s : state) (ov : Overview) : list (node action) :=
  if subLoading s then [ Txt "Loading..." ]
  else match tab_ s with
  | overview_tab => OverviewSection ov
  | integration => [ Grp "Integration" [] ]
  | features_tab =>
      concat (map (feature_card ov) (features ov))
      ++ when (bool_decide (length (features ov) = 0%nat))
           [ EmptyOptions "No capabilities assigned"
               "This tenant does not have any catalog features configured." ]
  | channels_tab =>
      concat (map (channel_card ov) (channels ov))
      ++ when (bool_decide (length (channels ov) = 0%nat))
           [ EmptyOptions "No channels configured"
               "This tenant does not have any delivery channels configured." ]
  | providers_tab =>
      map (fun g => Grp (spaced g.1) (concat (map provider_card g.2))) (provider_groups ov)
      ++ when (bool_decide (length (providers ov) = 0%nat))
           [ EmptyOptions "No providers configured"
               "This tenant does not have any provider configs yet." ]
  | contacts_tab =>
      GenericTable [("name", "Name"); ("email", "Email"); ("phone", "Phone"); ("status", "Status")] (contacts s)
  | groups_tab =>
      GenericTable [("name", "Name"); ("description", "Description"); ("member_count", "Members");
                    ("status", "Status")] (groups s)
  | templates_tab => TenantTemplates (templates s)
  | campaigns_tab =>
      GenericTable [("name", "Name"); ("status", "Status"); ("scheduled_at", "Scheduled");
                    ("created_at", "Created")] (campaigns s)
  | api_keys_tab =>
      GenericTable [("name", "Name"); ("status", "Status"); ("last_used_at", "Last Used");
                    ("created_at", "Created")] (apiKeys s)
  | audit => TenantAuditTable (auditLogs s)
  end.

Definition log_line (l : AuditLog) : list (node action) :=
  [ Txt (a_action l); Txt (a_actor_type l); Txt (a_resource_type l); Txt (or_empty (a_resource_id l) ||| "-");
    Txt (or_empty (a_request_id l) ||| "-"); Txt (or_empty (a_ip l) ||| "-"); Txt (a_created_at l) ].

Definition session_modal (s : state) : node action :=
  Modal.Modal "Audit session" (selectedAuditSession s) CloseSession
    (if auditSessionLoading s then [ Txt "Loading session events..." ]
     else if bool_decide (length (selectedAuditLogs s) = 0%nat)
     then [ Txt "No audit events found for this session" ]
     else concat (map log_line (selectedAuditLogs s)))
    [ Modal.ModalButton "Close" false CloseSession ].

Definition view (s : state) : list (node action) :=
  if loading s then [ Txt "Loading..." ]
  else if truthy (error s) then [ Txt (error s) ]
  else match overview s with
  | None => [ Txt "Tenant not found" ]
  | Some ov =>
      [ Btn "Tenant directory" false Directory; Txt (to_upper (slice0 2 (t_name (tenant ov))));
        Txt (t_name (tenant ov)); Txt (t_slug (tenant ov)); badge (t_status (tenant ov)) ]
      ++ map (fun t => Btn (tab_label t) false (SetTab t)) tabs
      ++ [ Txt (tab_label (tab_ s)) ]
      ++ renderTabContent s ov
      ++ match previewTemplate s with Some t => [ TenantTemplatePreview t (previewMode s) ] | None => [] end
      ++ when (truthy (selectedAuditSession s)) [ session_modal s ]
      ++ embed Dialog (Confirm.confirmDialog (dialog s))
  end.

(** The page in a browser whose history holds the tenants [visited]. *)
Definition browser (visited : list string) (s : state) : list (node action) :=
  map (fun tid => Btn "History" false (GoTo tid)) visited ++ view s.

End TenantDetailPage.

(** * Rows of the tenants visited, and authorized requests *)

(** Tables without controls. *)
Lemma cell_silent r k a : ~ offers (cell r k) a.
Proof. unfold cell, badge. case_decide; [destruct (oget r k) as [[]|]|]; by intros []. Qed.

Lemma silent_concat_map {B} (f : B -> list (node action)) xs a :
  (forall x, ~ offered (f x) a) -> ~ offered (concat (map f xs)) a.
Proof. intros Hf (x & _ & Hx)%offered_concat. by apply (Hf x). Qed.

Lemma GenericTable_silent cs rows a : ~ offered (GenericTable cs rows) a.
Proof.
  unfold GenericTable. destruct (bool_decide _); [by intros [[]|[]]|]. destruct cs as [|c cs]; [by intros []|].
  apply silent_concat_map. intros r [[[]|[[]|[]]]|[Ha|Ha]%offered_app]%offered_app.
  - destruct (oget r "status"); [|by destruct Ha]. destruct Ha as [Ha|[]]. by apply cell_silent in Ha.
  - revert Ha. apply silent_concat_map. intros x [[]|[Ha|[]]]. by apply cell_silent in Ha.
Qed.

Lemma OverviewSection_silent ov a : ~ offered (OverviewSection ov) a.
Proof.
  unfold OverviewSection, ratio, badge. intros Ha. offers_cases Ha; try done.
Qed.

(** What the tabs read. *)
Definition given : list string :=
  ["tenants.view"; "contacts.view"; "groups.view"; "templates.view"; "campaigns.view"; "api_keys.view";
   "audit_logs.view"].

Definition platform_tab (t : tab) : bool :=
  match t with features_tab | channels_tab | providers_tab => true | _ => false end.

Definition rows_of (visited : list string) (rows : list row) : Prop :=
  Forall (fun r => exists tid, tid ∈ visited /\ oget r "tenant_id" = Some (JStr tid)) rows.

(** Every row of contacts, groups, campaigns, keys and templates belongs to a tenant
    visited.  The audit tab keeps what the API answers and is no part of this. *)
Definition isolated (visited : list string) (s : state) : Prop :=
  rows_of visited (contacts s) /\ rows_of visited (groups s) /\ rows_of visited (campaigns s)
  /\ rows_of visited (apiKeys s) /\ Forall (fun t => tp_tenant_id t ∈ visited) (templates s).

(** The tenant an event names, and requests that name no other than those visited. *)
Definition names_tenant {X} (e : event X) : option string :=
  match e with
  | GetOverview tid | ListContacts tid | ListGroups tid | ListTemplates tid | ListCampaigns tid
  | ListAudit tid | ListSession tid _ => Some tid
  | ListApiKeys | PutSwitch _ => None
  end.
Definition event_of (visited : list string) {X} (e : event X) : Prop :=
  forall tid, names_tenant e = Some tid -> tid ∈ visited.
Definition asks_of (visited : list string) (o : obs) : Prop :=
  match o with
  | OReq r => exists X (e : event X), r ∈ http X e /\ event_of visited e
  | _ => True
  end.

Section Safety.
Variable u : Principal.
Variable visited : list string.
Notation isPlatform := (is_platform_admin u).

Definition guarded (s : state) : Prop :=
  (platform_tab (tab_ s) = true -> isPlatform = true)
  /\ (Confirm.pending (dialog s) <> None -> isPlatform = true)
  /\ id s ∈ visited /\ isolated visited s.

Notation safe := (Ui.safe http guarded (careful given u)).

Lemma rows_of_filter tid rows : tid ∈ visited -> rows_of visited (filter_by (row_of tid) rows).
Proof.
  intros Hv. apply Forall_forall. intros r [Hr _]%elem_of_filter_by. exists tid. split; [done|].
  unfold row_of in Hr. destruct (oget r "tenant_id") as [[]|]; try done.
  by apply bool_decide_eq_true in Hr as ->.
Qed.

Lemma templates_of_filter tid ts : tid ∈ visited ->
  Forall (fun t => tp_tenant_id t ∈ visited) (filter_by (template_of tid) ts).
Proof.
  intros Hv. apply Forall_forall. intros t [Ht%bool_decide_eq_true _]%elem_of_filter_by. by rewrite Ht.
Qed.

Lemma load_list_safe {X} (e : event X) set_ :
  Forall (fun r => careful given u (OReq r)) (http X e) ->
  (forall x s, guarded s -> guarded (set_ x s)) -> safe (load_list e set_).
Proof.
  intros He Hset. unfold load_list. safe_walk; [done|]. apply (Hset x) in Hs. exact Hs.
Qed.

Lemma query_read pat perm q r :
  Route "GET" pat perm ∈ routes -> perm ∈ given -> req_method r = "GET" ->
  req_path r = api_path (fill pat []) +:+ String question q ->
  Forall (fun r => careful given u (OReq r)) [r].
Proof.
  intros Hr Hg Hm Hp. apply Forall_singleton. apply (careful_read _ _ perm); [|done|done].
  eexists (Route "GET" pat perm), [], q. do 3 (split; [done|]). split; [by right|done].
Qed.

Ltac sets_rows := intros x s0 (Ht & Hd & Hid & H1 & H2 & H3 & H4 & H5);
  repeat split; try done; by (apply rows_of_filter || apply templates_of_filter).

Lemma sub_safe t tid : tid ∈ visited -> Forall safe (loadSubData t tid).
Proof.
  intros Hv. destruct t; try apply Forall_nil_2; apply Forall_singleton; apply load_list_safe; try (by sets_rows).
  - apply (query_read [L "contacts"] "contacts.view" ("tenant_id=" +:+ tid)); [in_table|in_table|done..].
  - apply (query_read [L "groups"] "groups.view" ("tenant_id=" +:+ tid)); [in_table|in_table|done..].
  - apply (query_read [L "templates"] "templates.view" ("tenant_id=" +:+ tid)); [in_table|in_table|done..].
  - apply (query_read [L "campaigns"] "campaigns.view" ("tenant_id=" +:+ tid)); [in_table|in_table|done..].
  - apply Forall_singleton. reads "GET" [L "api-keys"] "api_keys.view" (@nil string).
  - apply Forall_singleton. apply (careful_read _ _ "audit_logs.view"); [|in_table|done].
    apply (served_listPage (Route "GET" [L "audit-logs"] "audit_logs.view") []); [in_table|done..].
Qed.

Lemma detail_effects_safe r s : guarded s -> Forall safe (effects r s).
Proof.
  intros (_ & _ & Hid & _). unfold effects. apply Forall_app. split; (dmatch; [|constructor]).
  - apply Forall_singleton. unfold load_overview. safe_walk. apply Forall_singleton.
    reads "GET" [L "tenants"; V "id"; L "overview"] "tenants.view" [id s].
  - by apply sub_safe.
Qed.

Lemma detail_offered s a : guarded s -> offered (browser isPlatform visited s) a ->
  match a with
  | GoTo tid => tid ∈ visited
  | SetTab t => platform_tab t = true -> isPlatform = true
  | AskFeature _ | AskChannel _ | AskProvider _ => isPlatform = true
  | Dialog (Confirm.Request _) => False
  | _ => True
  end.
Proof.
  intros (Htab & Hd & Hid & _) Ha. unfold browser in Ha.
  apply offered_app in Ha as [Ha|Ha].
  { apply offered_map in Ha as (tid & Hin & [_ ->]). done. }
  unfold view in Ha. destruct (loading s); [offers_cases Ha|]. destruct (truthy (error s)); [offers_cases Ha|].
  destruct (overview s) as [ov|]; [|offers_cases Ha].
  apply offered_app in Ha as [Ha|Ha]; [unfold badge in Ha; offers_cases Ha; by subst|].
  apply offered_app in Ha as [Ha|Ha].
  { apply offered_map in Ha as (t & Hin & [_ ->]). intros Ht. unfold tabs in Hin.
    destruct isPlatform; [done|]. exfalso. revert Hin Ht. simpl. rewrite !elem_of_cons, elem_of_nil.
    naive_solver. }
  apply offered_app in Ha as [Ha|Ha]; [offers_cases Ha|].
  apply offered_app in Ha as [Ha|Ha].
  - unfold renderTabContent in Ha. destruct (subLoading s); [offers_cases Ha|].
    destruct (tab_ s) eqn:Et; try (by apply GenericTable_silent in Ha); try (by apply OverviewSection_silent in Ha);
      unfold feature_card, channel_card, provider_card, option_card, StatusAction, Toggle,
        EmptyOptions, TenantTemplates, TenantAuditTable,
        audit_row, badge in Ha;
      offers_cases Ha; subst; try done; by apply Htab.
  - unfold TenantTemplatePreview, session_modal, log_line, badge, Modal.Modal, Modal.ModalButton in Ha.
    page_cases Ha; subst; try done. by destruct act; apply confirmDialog_offers in Hact.
Qed.

Lemma detail_toggle_safe k : isPlatform = true -> safe (toggle k).
Proof.
  intros Hp. unfold toggle. safe_walk. destruct k as [i b|i b|i b]; cbn [http]; apply Forall_singleton.
  - writes "PUT" [L "features"; V "id"] "features.update" [i]. by apply platform_can.
  - writes "PUT" [L "channels"; V "id"] "channels.update" [i]. by apply platform_can.
  - writes "PUT" [L "providers"; V "id"] "providers.update" [i]. by apply platform_can.
Qed.

Lemma detail_handle_safe a s :
  guarded s -> offered (browser isPlatform visited s) a -> safe (handle a s).
Proof.
  intros Hs Ha. apply detail_offered in Ha; [|done].
  destruct a; try (simpl; safe_walk; fail); try (simpl; unfold confirmToggle; safe_walk; fail).
  - simpl. unfold viewAuditSession. safe_walk. apply Forall_singleton.
    apply (careful_read _ _ "audit_logs.view"); [|in_table|done].
    apply (served_listPage (Route "GET" [L "audit-logs"] "audit_logs.view") []); [in_table|done..].
  - cbn [handle]. apply dialog_safe; [by destruct a|keeps|intros ?; keeps|].
    intros i Hi. apply detail_toggle_safe, Hs. congruence.
Qed.

(** Requests that name the tenants visited. *)
Notation modest := (Ui.safe http guarded (asks_of visited)).

Lemma asks_of_event {X} (e : event X) : event_of visited e ->
  Forall (fun r => asks_of visited (OReq r)) (http X e).
Proof. intros He. apply Forall_forall. intros r Hr. by exists X, e. Qed.

Lemma load_list_modest {X} (e : event X) set_ : event_of visited e ->
  (forall x s, guarded s -> guarded (set_ x s)) -> modest (load_list e set_).
Proof.
  intros He Hset. unfold load_list. safe_walk; [by apply asks_of_event|]. apply (Hset x) in Hs. exact Hs.
Qed.

Lemma event_of_one {X} (e : event X) tid : names_tenant e = Some tid -> tid ∈ visited -> event_of visited e.
Proof. intros He Hv t Ht. congruence. Qed.

Lemma sub_modest t tid : tid ∈ visited -> Forall modest (loadSubData t tid).
Proof.
  intros Hv. destruct t; try apply Forall_nil_2; apply Forall_singleton;
    apply load_list_modest; try (by sets_rows); first [by eapply event_of_one|by intros ?].
Qed.

Lemma detail_effects_modest r s : guarded s -> Forall modest (effects r s).
Proof.
  intros (_ & _ & Hid & _). unfold effects. apply Forall_app. split; (dmatch; [|constructor]).
  - apply Forall_singleton. unfold load_overview. safe_walk. apply asks_of_event. by eapply event_of_one.
  - by apply sub_modest.
Qed.

Lemma detail_handle_modest a s :
  guarded s -> offered (browser isPlatform visited s) a -> modest (handle a s).
Proof.
  intros Hs Ha. apply detail_offered in Ha; [|done].
  destruct a; try (simpl; safe_walk; fail); try (simpl; unfold confirmToggle; safe_walk; fail).
  - simpl. unfold viewAuditSession. safe_walk. apply asks_of_event. eapply event_of_one; [done|]. by apply Hs.
  - cbn [handle]. apply dialog_safe; [by destruct a|keeps|intros ?; keeps|].
    intros i Hi. unfold toggle. safe_walk. by apply asks_of_event.
Qed.

Lemma detail_modest tid c : tid ∈ visited ->
  Ui.reachable http effects handle (browser isPlatform visited) (initial tid) c ->
  Forall (asks_of visited) (Ui.c_trace c).
Proof.
  intros Htid Hc.
  destruct (Ui.reachable_safe http effects handle (browser isPlatform visited) guarded (asks_of visited)
    detail_effects_modest detail_handle_modest (initial tid) c) as (_ & _ & H); [|done|done].
  repeat split; try done; constructor.
Qed.

Lemma detail_safe tid c : tid ∈ visited ->
  Ui.reachable http effects handle (browser isPlatform visited) (initial tid) c ->
  guarded (Ui.c_state c) /\ Forall (careful given u) (Ui.c_trace c).
Proof.
  intros Htid Hc.
  destruct (Ui.reachable_safe http effects handle (browser isPlatform visited) guarded (careful given u)
    detail_effects_safe detail_handle_safe (initial tid) c) as (H1 & _ & H2); [|done|done].
  repeat split; try done; constructor.
Qed.
End Safety.

(** In every interleaving, history included, each request of the tenant page
    has a route of the API: it reads with the permissions its tabs take, and
    switches capabilities, channels and providers for platform users only. *)
Theorem tenant_detail_authorized u visited tid c :
  tid ∈ visited ->
  Ui.reachable http effects handle (browser (is_platform_admin u) visited) (initial tid) c ->
  Forall (careful given u) (Ui.c_trace c).
Proof. intros Ht Hc. by apply (detail_safe u visited tid). Qed.

(** C39: the rows of contacts, groups, templates, campaigns and keys on a tenant's
    page are always rows of a tenant visited, whatever the API answers and in
    whatever order; so a page opened on one tenant shows no such row of another.  Each
    request of the page that names a tenant names one visited.  That is all the page
    does for the events of the audit tab: they are kept as the API answers them
    ([audit_tab_shows_the_answer]). *)
Theorem tenant_rows_isolated u visited tid c :
  tid ∈ visited ->
  Ui.reachable http effects handle (browser (is_platform_admin u) visited) (initial tid) c ->
  isolated visited (Ui.c_state c) /\ Forall (asks_of visited) (Ui.c_trace c).
Proof. intros Ht Hc. split; [by apply (detail_safe u visited tid)|by apply (detail_modest u visited tid)]. Qed.

Definition administrator : Principal := MkPrincipal "u1" None "root@example.com" true [].

Lemma tenant_detail_authorized_witness :
  exists c : Ui.config (E := event) (S := state),
    length (Ui.c_trace c) = 1%nat /\ Forall (careful given administrator) (Ui.c_trace c).
Proof.
  exists (Ui.commit http effects (Ui.initial (initial "a"))). split; [reflexivity|].
  apply (tenant_detail_authorized administrator ["a"] "a"); [by left|].
  eapply Ui.reach_step; [apply Ui.reach_init|by apply Ui.step_commit].
Defined.

(** * The switches *)

(** The switch a card asks for: the opposite of what it shows. *)
Definition asks (a : action) : option switch :=
  match a with
  | AskFeature f => Some (SwitchFeature (f_id f) (negb (f_enabled f)))
  | AskChannel c => Some (SwitchChannel (ch_id c) (negb (ch_enabled c)))
  | AskProvider p => Some (SwitchProvider (p_id p) (negb (p_active p)))
  | _ => None
  end.

Definition feature_after (k : switch) (f : Feature) : bool :=
  match k with SwitchFeature i b => if decide (f_id f = i) then b else f_enabled f | _ => f_enabled f end.
Definition channel_after (k : switch) (c : Channel) : bool :=
  match k with SwitchChannel i b => if decide (ch_id c = i) then b else ch_enabled c | _ => ch_enabled c end.
Definition provider_after (k : switch) (p : Provider) : string :=
  match k with
  | SwitchProvider i b => if decide (p_id p = i) then (if b then "active" else "disabled") else p_status p
  | _ => p_status p
  end.

Lemma apply_switch_after k ov :
  let ov' := apply_switch k ov in
  tenant ov' = tenant ov /\ counts ov' = counts ov
  /\ features ov' = map (fun f => f <| f_enabled := feature_after k f |>) (features ov)
  /\ channels ov' = map (fun c => c <| ch_enabled := channel_after k c |>) (channels ov)
  /\ providers ov' = map (fun p => p <| p_status := provider_after k p |>) (providers ov).
Proof.
  assert (Hf : features ov = map (fun f => f <| f_enabled := f_enabled f |>) (features ov)).
  { rewrite <- (map_id (features ov)) at 1. apply map_ext. by intros []. }
  assert (Hc : channels ov = map (fun c => c <| ch_enabled := ch_enabled c |>) (channels ov)).
  { rewrite <- (map_id (channels ov)) at 1. apply map_ext. by intros []. }
  assert (Hp : providers ov = map (fun p => p <| p_status := p_status p |>) (providers ov)).
  { rewrite <- (map_id (providers ov)) at 1. apply map_ext. by intros []. }
  destruct k as [i b|i b|i b]; (split; [done|]; split; [done|]; split; [|split]);
    try (by apply Hf); try (by apply Hc); try (by apply Hp);
    apply map_ext; intros []; unfold switch_feature, switch_channel, switch_provider; simpl; by case_decide.
Qed.

(** A card's switch is asked for, not sent, and asks for the opposite of what
    the card shows; once confirmed it is one request, and if the API accepts it
    exactly the card of that identifier changes, to what was asked; if not,
    nothing does, and the user is told. *)
Theorem switch_changes_one_card srv k s :
  (forall a, asks a = Some k ->
     let '(s', outs, suspended) := Ui.sync http (handle a s) s in
     outs = [] /\ suspended = [] /\ overview s' = overview s
     /\ option_map Confirm.payload (Confirm.pending (dialog s')) = Some k)
  /\ let '(s', outs, started) := Ui.exec http srv (toggle k) s in
     started = [] /\
     match srv unit (PutSwitch k) with
     | Threw x =>
         s' = s /\ outs = map OReq (http _ (PutSwitch k))
           ++ [toast_error ("Unable to update " +:+ (switch_kind k).2) "Request failed" x]
     | Ok _ =>
         outs = map OReq (http _ (PutSwitch k))
           ++ [success ((switch_kind k).1 +:+ (if switch_on k then " enabled" else " disabled"))]
         /\ s' = s <| overview := overview s' |>
         /\ (overview s = None -> overview s' = None)
         /\ forall ov, overview s = Some ov -> exists ov', overview s' = Some ov'
            /\ tenant ov' = tenant ov /\ counts ov' = counts ov
            /\ features ov' = map (fun f => f <| f_enabled := feature_after k f |>) (features ov)
            /\ channels ov' = map (fun c => c <| ch_enabled := channel_after k c |>) (channels ov)
            /\ providers ov' = map (fun p => p <| p_status := provider_after k p |>) (providers ov)
     end.
Proof.
  split.
  - intros a Ha. destruct a; try done; injection Ha as <-; done.
  - unfold toggle. cbn [Ui.exec]. destruct (srv unit (PutSwitch k)) as [[]|x]; cbn [Ui.exec Ui.sync];
      (split; [done|]); [|done].
    split; [done|]. split; [by destruct s|]. destruct s as [? ov0]. simpl. split; [by intros ->|].
    intros ov ->. eexists. split; [done|]. apply apply_switch_after.
Qed.

(** * Late answers *)

Definition contact_of (tid : string) : row := [("name", JStr "Ada"); ("tenant_id", JStr tid)].
Definition overview_of (tid : string) : Overview :=
  MkOverview (MkTenant tid tid tid "active") [] [] [] (MkCounts 0 0 0 0 0).

(** Two tenants with one contact each. *)
Definition sample_server (X : Type) (e : event X) : result X :=
  match e with
  | GetOverview tid => Ok (overview_of tid)
  | ListContacts tid => Ok [contact_of tid]
  | ListGroups _ | ListCampaigns _ | ListApiKeys => Ok []
  | ListTemplates _ => Ok []
  | ListAudit _ | ListSession _ _ => Ok []
  | PutSwitch _ => Ok tt
  end.

Notation page_reachable visited :=
  (Ui.reachable http effects handle (browser true visited) (initial "a")).
Notation page_commit := (Ui.commit http effects).
Notation page_act a c := (Ui.resume http c (Ui.c_pool c) (handle a (Ui.c_state c))).
Notation replied i c := (page_commit (Ui.reply http sample_server i c)).

Definition opened : Ui.config := replied 0 (page_commit (page_commit (Ui.initial (initial "a")))).
Definition on_contacts : Ui.config := page_commit (page_commit (page_act (SetTab contacts_tab) opened)).
Definition moved : Ui.config := page_commit (page_commit (page_act (GoTo "b") on_contacts)).
(** The overview and the contacts of tenant b are answered, then the contacts of
    tenant a. *)
Definition late : Ui.config := replied 0 (replied 1 (replied 1 moved)).

Lemma detail_commit_reach v c : page_reachable v c -> Ui.c_dirty c = true -> page_reachable v (page_commit c).
Proof. intros Hc Hd. eapply Ui.reach_step; [done|by apply Ui.step_commit]. Qed.

Lemma replied_reach v i c : page_reachable v c -> Ui.c_dirty (Ui.reply http sample_server i c) = true ->
  page_reachable v (replied i c).
Proof. intros Hc Hd. apply detail_commit_reach; [by apply Ui.reply_reachable|done]. Qed.

Lemma goto_offered b visited s tid : tid ∈ visited -> offered (browser b visited s) (GoTo tid).
Proof. intros Hv. apply offered_app. left. apply offered_map. exists tid. split; [done|by split]. Qed.

Lemma set_tab_offered b visited s ov t :
  loading s = false -> error s = "" -> overview s = Some ov -> t ∈ tabs b ->
  offered (browser b visited s) (SetTab t).
Proof.
  intros Hl He Ho Ht. apply offered_app. right. unfold view. rewrite Hl, He, Ho.
  apply offered_app. right. apply offered_app. left. apply offered_map. exists t. split; [done|by split].
Qed.

Lemma late_reachable : page_reachable ["a"; "b"] late.
Proof.
  do 3 (apply replied_reach; [|vm_compute; reflexivity]).
  do 2 (apply detail_commit_reach; [|vm_compute; reflexivity]).
  eapply Ui.reach_step; [|apply Ui.step_event; [vm_compute; reflexivity|by apply goto_offered; right; left]].
  do 2 (apply detail_commit_reach; [|vm_compute; reflexivity]).
  eapply Ui.reach_step; [|apply Ui.step_event; [vm_compute; reflexivity|]].
  - apply replied_reach; [|vm_compute; reflexivity].
    do 2 (apply detail_commit_reach; [|vm_compute; reflexivity]). apply Ui.reach_init.
  - apply (set_tab_offered _ _ _ (overview_of "a")); [vm_compute; reflexivity..|].
    apply list_elem_of_In. simpl. tauto.
Qed.

(** The rows of one tenant can be shown under the name of another: when the
    history moves from tenant a to tenant b while the contacts of a are awaited
    and their answer comes last, the page of b, at rest with nothing awaited,
    lists the contacts of a. *)
Theorem late_rows_of_another_tenant :
  exists c, page_reachable ["a"; "b"] c /\ Ui.c_dirty c = false /\ Ui.c_pool c = []
    /\ id (Ui.c_state c) = "b" /\ option_map (fun o => t_id (tenant o)) (overview (Ui.c_state c)) = Some "b"
    /\ contacts (Ui.c_state c) = [contact_of "a"].
Proof.
  exists late. split; [exact late_reachable|repeat split; vm_compute; reflexivity].
Qed.

(** At the end of that run the page holds one contact, and it is of a tenant visited. *)
Lemma tenant_rows_isolated_witness :
  contacts (Ui.c_state late) = [contact_of "a"]
  /\ isolated ["a"; "b"] (Ui.c_state late) /\ Forall (asks_of ["a"; "b"]) (Ui.c_trace late).
Proof.
  split; [vm_compute; reflexivity|].
  apply (tenant_rows_isolated administrator ["a"; "b"] "a"); [by left|exact late_reachable].
Defined.

(** The audit tab shows the events the API answers, of whatever tenant: there is no
    filter as on the other tabs. *)
Theorem audit_tab_shows_the_answer logs :
  exists c, page_reachable ["a"] c /\ Ui.c_dirty c = false /\ id (Ui.c_state c) = "a"
    /\ tab_ (Ui.c_state c) = audit /\ auditLogs (Ui.c_state c) = logs.
Proof.
  set (on_audit := page_commit (page_commit (page_act (SetTab audit) opened)) : Ui.config).
  assert (Hr : page_reachable ["a"] on_audit).
  { do 2 (apply detail_commit_reach; [|vm_compute; reflexivity]).
    eapply Ui.reach_step; [|apply Ui.step_event; [vm_compute; reflexivity|]].
    - apply replied_reach; [|vm_compute; reflexivity].
      do 2 (apply detail_commit_reach; [|vm_compute; reflexivity]). apply Ui.reach_init.
    - apply (set_tab_offered _ _ _ (overview_of "a")); [vm_compute; reflexivity..|].
      apply list_elem_of_In. simpl. tauto. }
  eexists. split.
  { eapply Ui.reach_step; [eapply Ui.reach_step; [exact Hr|]|].
    - eapply (Ui.step_reply http effects handle _ _ 0 _ (ListAudit "a") _ (Ok logs)). vm_compute. reflexivity.
    - apply Ui.step_commit. vm_compute. reflexivity. }
  repeat split; vm_compute; reflexivity.
Qed.
