(* ===== verification/Templates.v ===== *)
(** pages/templates/TemplatesPage.tsx: the templates of notifications, their
    editor with its preview, and what the API stores of them. *)
From S2P Require Import Prelude Js React Query Client Components Auth Api Handlers Page Template.

Record Template := MkTemplate {
  id : string; tenant_id : string; tenant_name : option string; template_key : string;
  channel : string; subject : string; body : string; status : string }.
Record Tenant := MkTenant { t_id : string; t_name : string; t_slug : option string; t_status : string }.

Inductive ModalState := Create | View (t : Template) | Edit (t : Template) | Delete (t : Template).

Record FormValues := Form {
  f_tenantId : string; f_templateKey : string; f_channel : string; f_subject : string; f_body : string }.
#[export] Instance eta_form : Eta FormValues := fun f =>
  Form (f_tenantId f) (f_templateKey f) (f_channel f) (f_subject f) (f_body f).

Definition emptyForm : FormValues := Form "" "" "email" "" "".

Inductive PreviewMode := text | markdown | html.

(** What a [load] closes over. *)
Record load_args := LoadArgs {
  l_tenant : string; l_search : string; l_channel : string; l_pg : Pagination.state }.

(** [previewMode] is the state of [TemplatePreview], mounted with the details. *)
Record state := State {
  items : list Template; tenants : list Tenant; error : string; loading : bool; saving : bool;
  search : string; tenantFilter : string; channelFilter : string; modal : option ModalState;
  form : FormValues; formPreviewMode : PreviewMode; previewMode : PreviewMode;
  meta_ : option Pagination.PaginationMeta; pg : Pagination.state }.
#[export] Instance eta_state : Eta state := fun s =>
  State (items s) (tenants s) (error s) (loading s) (saving s) (search s) (tenantFilter s)
    (channelFilter s) (modal s) (form s) (formPreviewMode s) (previewMode s) (meta_ s) (pg s).

Definition initial : state :=
  State [] [] "" true false "" "" "" None emptyForm text text None Pagination.usePagination.

Inductive action :=
| SetSearch (v : string) | SetChannelFilter (v : string) | SetTenantFilter (v : string) | ClearFilters
| Paging (a : Pagination.action) | OpenCreate | OpenView (t : Template) | OpenEdit (t : Template)
| OpenDelete (t : Template) | CloseModal | SetTenant (v : string) | SetKey (v : string)
| SetChannel (v : string) | SetSubject (v : string) | SetBody (v : string)
| SetFormMode (m : PreviewMode) | SetPreviewMode (m : PreviewMode) | Submit | Remove (t : Template).

Inductive event : Type -> Type :=
| ListTemplates (a : load_args) : event (ApiList Template)
| ListTenants : event (list Tenant)
| PostTemplate (b : json) : event unit
| PutTemplate (id : string) (b : json) : event unit
| DeleteTemplate (id : string) : event unit.

Definition http (X : Type) (e : event X) : list request :=
  let templates := "/admin/api/v1/templates" in
  match e with
  | ListTemplates a =>
      [listPage templates
         ([("tenant_id", Some (l_tenant a)); ("q", Some (l_search a));
           ("filter_channel", Some (l_channel a))] ++ page_params (l_pg a))]
  | ListTenants => [list_ "/admin/api/v1/tenants"]
  | PostTemplate b => [POST templates b]
  | PutTemplate id b => [PUT (templates +:+ "/" +:+ id) b]
  | DeleteTemplate id => [DELETE (templates +:+ "/" +:+ id)]
  end.

Section TemplatesPage.
Variable isPlatform : bool.
Variable can : string -> bool.

(** * Effects *)

Definition args (s : state) : load_args :=
  LoadArgs (tenantFilter s) (search s) (channelFilter s) (pg s).

Definition load (a : load_args) : prog event state :=
  list_load (fun b s => if b then s <| loading := true |> <| error := "" |> else s <| loading := false |>)
    (fun res s => s <| items := data res |> <| meta_ := meta res |>)
    "Unable to load templates" (ListTemplates a).

Definition filters (s : state) : string * string * string := (tenantFilter s, search s, channelFilter s).
Definition paging (s : state) : Z * Z := (Pagination.page (pg s), Pagination.perPage (pg s)).

Definition effects (r : option state) (s : state) : list (prog event state) :=
  list_effects (changed filters r s) (changed paging r s)
    (fun s => s <| pg := Pagination.setPage 1 (pg s) |>) (load (args s))
  ++ (match r with
      | None =>
          if isPlatform then [ quiet_load (fun ts s => s <| tenants := ts |>) ListTenants ] else []
      | Some _ => []
      end).

(** * Handlers *)

Definition show (m : option ModalState) (s : state) : state :=
  s <| modal := m |>
    <| previewMode := match modal s, m with
                      | Some (View _), _ | _, None => previewMode s
                      | _, Some (View _) => text
                      | _, _ => previewMode s
                      end |>.

Definition openCreate (s : state) : prog event state :=
  set! (fun s' => s' <| form := emptyForm <| f_tenantId := tenantFilter s |> |>) ;;
  set! (fun s => s <| error := "" |>) ;; set! show (Some Create) ;; Done.

Definition edit_form (t : Template) : FormValues :=
  Form (tenant_id t) (template_key t) (channel t ||| "email") (subject t) (body t).

Definition openEdit (t : Template) : prog event state :=
  set! (fun s => s <| form := edit_form t |>) ;;
  set! (fun s => s <| error := "" |>) ;; set! show (Some (Edit t)) ;; Done.

Definition incomplete (s : state) : bool :=
  let f := form s in
  negb (truthy (trim (f_templateKey f))) || negb (truthy (f_channel f)) || negb (truthy (trim (f_body f)))
  || isPlatform && match modal s with Some Create => true | _ => false end && negb (truthy (f_tenantId f)).

Definition payload (f : FormValues) : json :=
  JObj [("tenant_id", JStr (f_tenantId f)); ("template_key", JStr (trim (f_templateKey f)));
        ("channel", JStr (f_channel f)); ("subject", JStr (trim (f_subject f)));
        ("body", JStr (f_body f))].

(** [catch (err) {...} finally { setSaving(false) }] *)
Definition not_done (msg : string) (x : thrown) : prog event state :=
  let m := getErrorMessage x (msg +:+ ".") in
  set! (fun s => s <| error := m |>) ;;
  emit! failure_msg msg m ;; set! (fun s => s <| saving := false |>) ;; Done.

Definition saveTemplate (s : state) : prog event state :=
  if incomplete s then
    set! (fun s => s <| error := "Complete all required fields before saving." |>) ;; Done
  else
    set! (fun s => s <| saving := true |>) ;; set! (fun s => s <| error := "" |>) ;;
    let finish title :=
      emit! success_msg title (f_templateKey (form s)) ;; set! show None ;;
      fork! load (args s) ;; set! (fun s => s <| saving := false |>) ;; Done in
    match modal s with
    | Some (Edit t) =>
        await! r <- PutTemplate (id t) (payload (form s)) ;;
        match r with Ok _ => finish "Template updated" | Threw x => not_done "Unable to save template" x end
    | _ =>
        await! r <- PostTemplate (payload (form s)) ;;
        match r with Ok _ => finish "Template created" | Threw x => not_done "Unable to save template" x end
    end.

Definition removeTemplate (t : Template) (s : state) : prog event state :=
  set! (fun s => s <| saving := true |>) ;; set! (fun s => s <| error := "" |>) ;;
  await! r <- DeleteTemplate (id t) ;;
  match r with
  | Ok _ =>
      set! show None ;; emit! success_msg "Template deleted" (template_key t) ;;
      fork! load (args s) ;; set! (fun s => s <| saving := false |>) ;; Done
  | Threw x => not_done "Unable to delete template" x
  end.

Definition set_form (f : FormValues) : prog event state := set! (fun s => s <| form := f |>) ;; Done.

Definition handle (a : action) (s : state) : prog event state :=
  match a with
  | SetSearch v => set! (fun s => s <| search := v |>) ;; Done
  | SetChannelFilter v => set! (fun s => s <| channelFilter := v |>) ;; Done
  | SetTenantFilter v => set! (fun s => s <| tenantFilter := v |>) ;; Done
  | ClearFilters =>
      set! (fun s => s <| search := "" |>) ;; set! (fun s => s <| channelFilter := "" |>) ;;
      set! (fun s => s <| tenantFilter := "" |>) ;; Done
  | Paging a => set! (fun s => s <| pg := Pagination.apply a (pg s) |>) ;; Done
  | OpenCreate => openCreate s
  | OpenView t => set! show (Some (View t)) ;; Done
  | OpenEdit t => openEdit t
  | OpenDelete t => set! show (Some (Delete t)) ;; Done
  | CloseModal => set! show None ;; Done
  | SetTenant v => set_form ((form s) <| f_tenantId := v |>)
  | SetKey v => set_form ((form s) <| f_templateKey := v |>)
  | SetChannel v => set_form ((form s) <| f_channel := v |>)
  | SetSubject v => set_form ((form s) <| f_subject := v |>)
  | SetBody v => set_form ((form s) <| f_body := v |>)
  | SetFormMode m => set! (fun s => s <| formPreviewMode := m |>) ;; Done
  | SetPreviewMode m => set! (fun s => s <| previewMode := m |>) ;; Done
  | Submit => saveTemplate s
  | Remove t => removeTemplate t s
  end.

(** * Views *)

Definition mode_name (m : PreviewMode) : string :=
  match m with text => "text" | markdown => "markdown" | html => "html" end.

(** The page's own copy of the rendering of the send page. *)
Definition renderMarkdownLite (value : string) : string := Template.renderMarkdownLite value.

(** The effect of the page's own dialog: [Escape] calls [onClose], and the
    document does not scroll while the dialog is open. *)
Definition closeOnEscape {A} (key : string) (on_close : A) : option A :=
  if bool_decide (key = "Escape") then Some on_close else None.

(** Running the effect on the [overflow] of the document: what it becomes, and
    what the cleanup gives it back. *)
Definition lock_scroll (overflow : string) : string * string := ("hidden", overflow).

(** A dialog open over [renders] more renders, each with an [onClose] of its
    own ([onClose] is a dependency: the effect is undone and run again), and then closed. *)
Fixpoint open_and_close (renders : nat) (overflow : string) : string :=
  let (_, previous) := lock_scroll overflow in
  match renders with O => previous | S n => open_and_close n previous end.

(** The dialog of the page: its footer, where it has one, is part of [children]. *)
Definition Modal {A} (title description : string) (on_close : A) (children : list (node A)) : node A :=
  Grp title
    ([Btn "Close modal" false on_close] ++ when (truthy description) [Txt description]
     ++ [Btn "Close" false on_close] ++ children).

Inductive channel_icon := Mail | MessageSquare | Smartphone | FileText.

Definition icon_name (i : channel_icon) : string :=
  match i with Mail => "mail" | MessageSquare => "message" | Smartphone => "phone" | FileText => "file" end.

(** The [config] of [ChannelBadge], with the entry of any other channel. *)
Definition channel_config (channel : string) : channel_icon * string :=
  if bool_decide (channel = "email") then (Mail, "bg-blue-50 text-blue-700 ring-blue-600/20")
  else if bool_decide (channel = "sms") then (MessageSquare, "bg-violet-50 text-violet-700 ring-violet-600/20")
  else if bool_decide (channel = "fcm") then (Smartphone, "bg-amber-50 text-amber-700 ring-amber-600/20")
  else (FileText, "bg-slate-50 text-slate-700 ring-slate-600/20").

Definition ChannelBadge {A} (channel : string) : node A :=
  Grp (icon_name (channel_config channel).1) [Txt channel].

Definition FormField {A} (label hint : string) (required : bool) (children : list (node A)) : node A :=
  Grp (if required then label +:+ "*" else label) (children ++ when (truthy hint) [Txt hint]).

(** The preview of a body; the markup of the [html] mode is rendered by a frame. *)
Definition TemplatePreviewPanel (subject body : string) (mode : PreviewMode)
    (on_mode : PreviewMode -> action) : node action :=
  Grp "Preview"
    (map (fun m => Btn (mode_name m) false (on_mode m)) [text; markdown; html]
     ++ when (truthy subject) [Txt subject]
     ++ [ Txt (match mode with
               | html => body ||| "<p></p>"
               | markdown => renderMarkdownLite body ||| "No body content"
               | text => body ||| "No body content"
               end) ]).

Definition channels (fcm : string) : list (string * string) :=
  [("email", "Email"); ("sms", "SMS"); ("fcm", fcm)].

Definition editor (creating : bool) (description : string) (s : state) : node action :=
  let f := form s in
  Modal (if creating then "Create notification template" else "Edit notification template")
    description CloseModal
    (when (truthy (error s)) [Txt (error s)]
     ++ when (isPlatform && creating)
          [ FormField "Tenant" "The tenant that owns this template." true
              [ Sel "Tenant" (f_tenantId f) false
                  (map (fun t => (t_id t, t_name t))
                     (filter_by (fun t => bool_decide (t_status t = "active")) (tenants s))) SetTenant ] ]
     ++ [ FormField "Template key" "Stable identifier used by the API." true
            [ Inp "Template key" (f_templateKey f) false SetKey ];
          FormField "Channel" "Delivery channel for this content." true
            [ Sel "Channel" (f_channel f) false (channels "FCM push") SetChannel ];
          FormField "Subject"
            (if bool_decide (f_channel f = "email") then "Email subject line. Variables are supported."
             else "Optional for this channel.") false
            [ Inp "Subject" (f_subject f) false SetSubject ];
          FormField "Message body" "Use double braces for variables, for example {{customer_name}}." true
            [ Inp "Message body" (f_body f) false SetBody ];
          TemplatePreviewPanel (f_subject f) (f_body f) (formPreviewMode s) SetFormMode;
          Btn "Cancel" false CloseModal;
          submit_button (if saving s then "Saving..." else if creating then "Create template" else "Save changes")
            (saving s) [f_templateKey f; f_body f] Submit ]).

Definition preview_modal (t : Template) (s : state) : node action :=
  Modal (template_key t) "Template details and rendered content preview." CloseModal
    ([ ChannelBadge (channel t); Txt (or_empty (tenant_name t) ||| "Current tenant"); Txt (status t);
       TemplatePreviewPanel (subject t) (body t) (previewMode s) SetPreviewMode;
       Btn "Close" false CloseModal ]
     ++ when (can "templates.update") [Btn "Edit template" false (OpenEdit t)]).

Definition delete_modal (t : Template) (s : state) : node action :=
  Modal "Delete template" "This action cannot be undone." CloseModal
    (Txt ("Delete " +:+ template_key t +:+ "? Applications using this key may no longer be able to send notifications.")
     :: when (truthy (error s)) [Txt (error s)]
     ++ [ Btn "Cancel" false CloseModal;
          Btn (if saving s then "Deleting..." else "Delete template") (saving s) (Remove t) ]).

Definition row (i : Template) : list (node action) :=
  [ Txt (template_key i) ]
  ++ when isPlatform [ Txt (or_empty (tenant_name i) ||| "-") ]
  ++ [ ChannelBadge (channel i); Txt (subject i ||| "No subject"); Txt (status i);
       Btn "View" false (OpenView i) ]
  ++ when (can "templates.update") [Btn "Edit" false (OpenEdit i)]
  ++ when (can "templates.delete") [Btn "Delete" false (OpenDelete i)].

Definition modal_view (s : state) : list (node action) :=
  match modal s with
  | Some Create =>
      [editor true "Build reusable content with variables such as {{customer_name}}." s]
  | Some (Edit t) => [editor false ("Editing " +:+ template_key t) s]
  | Some (View t) => [preview_modal t s]
  | Some (Delete t) => [delete_modal t s]
  | None => []
  end.

Definition view (s : state) : list (node action) :=
  when (can "templates.create") [Btn "New template" false OpenCreate]
  ++ [ Inp "Search templates" (search s) false SetSearch;
       Sel "Channel filter" (channelFilter s) false (("", "All channels") :: channels "FCM") SetChannelFilter ]
  ++ when isPlatform
       [ TenantFilter.view (tenantFilter s) SetTenantFilter
           (map (fun t => TenantFilter.Opt (t_id t) (t_name t) (t_slug t)) (tenants s)) ]
  ++ when (truthy (search s) || truthy (channelFilter s) || truthy (tenantFilter s))
       [ Btn "Clear filters" false ClearFilters ]
  ++ (if loading s then [Txt "Loading templates..."]
      else if bool_decide (length (items s) = 0%nat) then [Txt "No templates found"]
      else concat (map row (items s)))
  ++ when (negb (loading s)) (embed Paging (Pagination.TablePagination (meta_ s) (pg s)))
  ++ modal_view s.

End TemplatesPage.

(** A dialog that is closed leaves the document as scrollable as it was, however
    often it was rendered in between. *)
Lemma dialog_restores_scroll renders overflow : open_and_close renders overflow = overflow.
Proof. by induction renders. Qed.

(** * Every request is authorized *)

Section Safety.
Variable u : Principal.
Notation isPlatform := (is_platform_admin u).
Notation can := (hasPermission (Some u)).

Definition given : list string := ["templates.view"].

Definition guarded (s : state) : Prop :=
  match modal s with
  | Some Create => can "templates.create" = true
  | Some (Edit _) => can "templates.update" = true
  | Some (Delete _) => can "templates.delete" = true
  | _ => True
  end.

Notation safe := (Ui.safe http guarded (careful given u)).

Lemma template_load_safe a : safe (load a).
Proof.
  apply list_load_safe; [done| |intros []; keeps|intros ?; keeps].
  apply Forall_singleton. reads "GET" [L "templates"] "templates.view" (@nil string).
Qed.

Lemma template_tenants_safe : isPlatform = true ->
  safe (quiet_load (fun ts s => s <| tenants := ts |>) ListTenants).
Proof.
  intros Hp. apply quiet_load_safe; [|intros ?; keeps]. apply Forall_singleton.
  writes "GET" [L "tenants"] "tenants.view" (@nil string). by apply platform_can.
Qed.

(** What a control on screen says of the dialog and the permissions. *)
Lemma template_offered s a : offered (view isPlatform can s) a ->
  match a with
  | OpenCreate => can "templates.create" = true
  | OpenEdit _ => can "templates.update" = true
  | OpenDelete _ => can "templates.delete" = true
  | Submit => modal s = Some Create \/ exists t, modal s = Some (Edit t)
  | Remove t => modal s = Some (Delete t)
  | _ => True
  end.
Proof.
  intros Ha.
  unfold view, modal_view, editor, preview_modal, delete_modal, row, TemplatePreviewPanel, submit_button,
    ChannelBadge, FormField,
    TenantFilter.view, Modal, Pagination.TablePagination in Ha.
  page_cases Ha; subst; guards; eauto.
Qed.

Lemma template_save_safe s : guarded s ->
  modal s = Some Create \/ (exists t, modal s = Some (Edit t)) -> safe (saveTemplate isPlatform s).
Proof.
  intros Hg Hm. unfold guarded in Hg. unfold saveTemplate, not_done.
  destruct Hm as [Hm|[t Hm]]; rewrite Hm in Hg |- *; safe_walk;
    try (apply Ui.safe_fork; [apply template_load_safe|safe_walk]); apply Forall_singleton.
  - writes "POST" [L "templates"] "templates.create" (@nil string).
  - writes "PUT" [L "templates"; V "id"] "templates.update" [id t].
Qed.

Lemma template_remove_safe t s : can "templates.delete" = true -> safe (removeTemplate t s).
Proof.
  intros Hc. unfold removeTemplate, not_done. safe_walk;
    try (apply Ui.safe_fork; [apply template_load_safe|safe_walk]). apply Forall_singleton.
  writes "DELETE" [L "templates"; V "id"] "templates.delete" [id t].
Qed.

Lemma template_handle_safe a s :
  guarded s -> offered (view isPlatform can s) a -> safe (handle isPlatform a s).
Proof.
  intros Hs Ha. apply template_offered in Ha.
  destruct a; try (simpl; unfold set_form, openCreate, openEdit; safe_walk; fail).
  - by apply template_save_safe.
  - apply template_remove_safe. unfold guarded in Hs. by rewrite Ha in Hs.
Qed.
End Safety.

(** The page reads templates, and creates, changes and deletes them only for a user
    who may. *)
Theorem templates_authorized u c :
  let can := hasPermission (Some u) in
  let isPlatform := is_platform_admin u in
  Ui.reachable http (effects isPlatform) (handle isPlatform) (view isPlatform can) initial c ->
  Forall (careful given u) (Ui.c_trace c).
Proof.
  intros can isPlatform Hc.
  eapply (Ui.reachable_safe http _ _ _ (guarded u) (careful given u)); [..|exact Hc].
  - intros r s _. apply Forall_app. split; [apply list_effects_safe; [keeps|apply template_load_safe]|].
    destruct r; [constructor|]. destruct isPlatform eqn:Hp; [|constructor].
    apply Forall_singleton. by apply template_tenants_safe.
  - intros a s. apply template_handle_safe.
  - done.
Qed.

(** * What saving a template stores *)

(** The row of a saved form. *)
Definition stored (tenant : string) (f : FormValues) : TemplateRow.row :=
  TemplateRow.Row (Some tenant) (Some (trim (f_templateKey f))) (Some (f_channel f))
    (nullIfEmpty (trim (f_subject f))) (Some (f_body f)).

Lemma complete_fields isPlatform s : incomplete isPlatform s = false ->
  trim (f_templateKey (form s)) <> "" /\ f_channel (form s) <> "" /\ f_body (form s) <> ""
  /\ (isPlatform = true -> modal s = Some Create -> f_tenantId (form s) <> "").
Proof.
  unfold incomplete. intros H. guards.
  repeat match goal with H : truthy _ = true |- _ => apply truthy_true in H end.
  split; [done|]. split; [done|]. split; [by intros E; rewrite E in *|].
  intros -> Hm. rewrite Hm in *. simpl in *. apply truthy_true. by guards.
Qed.

Lemma update_stores db p s t0 (row : TemplateRow.row) isPlatform :
  incomplete isPlatform s = false -> TemplateRow.tenant row = Some t0 ->
  TemplateRow.UpdateTemplate db p (payload (form s)) row
  = update db (touches p t0) row (stored t0 (form s)).
Proof.
  intros (Hk & Hc & Hb & _)%complete_fields Ht. unfold TemplateRow.UpdateTemplate.
  change (decodes UpdateTemplate_req (payload (form s))) with true. cbn [negb].
  change (member (payload (form s)) "template_key") with (trim (f_templateKey (form s))).
  change (member (payload (form s)) "channel") with (f_channel (form s)).
  change (member (payload (form s)) "body") with (f_body (form s)).
  rewrite decide_False by tauto. by rewrite Ht.
Qed.

Lemma create_stores db p s :
  incomplete (is_platform_admin p) s = false -> modal s = Some Create ->
  (is_platform_admin p = false -> or_empty (Auth.tenant_id p) <> "") ->
  TemplateRow.CreateTemplate db p (payload (form s))
  = if db then (201, Some (stored (if is_platform_admin p then f_tenantId (form s)
                                   else or_empty (Auth.tenant_id p)) (form s)))
    else (500, None).
Proof.
  intros (Hk & Hc & Hb & Ht)%complete_fields Hm Hown. unfold TemplateRow.CreateTemplate.
  change (decodes CreateTemplate_req (payload (form s))) with true. cbn [negb].
  change (member (payload (form s)) "template_key") with (trim (f_templateKey (form s))).
  change (member (payload (form s)) "channel") with (f_channel (form s)).
  change (member (payload (form s)) "subject") with (trim (f_subject (form s))).
  change (member (payload (form s)) "body") with (f_body (form s)).
  rewrite decide_False by done. unfold tenant_for.
  change (member (payload (form s)) "tenant_id") with (f_tenantId (form s)).
  assert (Htn : nullIfEmpty (if is_platform_admin p then f_tenantId (form s) else or_empty (Auth.tenant_id p))
                = Some (if is_platform_admin p then f_tenantId (form s) else or_empty (Auth.tenant_id p))).
  { apply nullIfEmpty_Some. destruct (is_platform_admin p); auto. }
  unfold insert, stored. simpl. rewrite Htn, (nullIfEmpty_Some _ Hc), (nullIfEmpty_Some _ Hb). simpl.
  by destruct db.
Qed.

(** Saving a template.  An incomplete form sends nothing and says so.  A complete
    one sends one request, for every answer of the API; the API never finds it
    invalid, and the row it stores is the form on screen with its key and its
    subject trimmed, a blank subject being none, for the tenant chosen, for that
    of a user who has one, or for the tenant the template had.  The dialog closes
    and the list is loaded again exactly when the API accepts; otherwise it stays
    as it was, with the message. *)
Theorem saved_template_is_stored p srv s :
  let isPlatform := is_platform_admin p in
  let '(s', outs, started) := Ui.exec http srv (saveTemplate isPlatform s) s in
  let f := form s in
  if incomplete isPlatform s then
    outs = [] /\ s' = s <| error := "Complete all required fields before saving." |>
  else
    let '(r, title, answer) :=
      match modal s with
      | Some (Edit t) => (PUT ("/admin/api/v1/templates/" +:+ id t) (payload f), "Template updated",
                          srv unit (PutTemplate (id t) (payload f)))
      | _ => (POST "/admin/api/v1/templates" (payload f), "Template created",
              srv unit (PostTemplate (payload f)))
      end in
    saving s' = false
    /\ match answer with
       | Ok _ => modal s' = None
           /\ outs = OReq r :: success_msg title (f_templateKey f) :: map OReq (http _ (ListTemplates (args s)))
       | Threw x =>
           let m := getErrorMessage x "Unable to save template." in
           outs = [OReq r; failure_msg "Unable to save template" m]
           /\ s' = s <| saving := false |> <| error := m |>
       end
    /\ (forall db row t0, TemplateRow.tenant row = Some t0 ->
         TemplateRow.UpdateTemplate db p (payload f) row = update db (touches p t0) row (stored t0 f))
    /\ (modal s = Some Create -> (isPlatform = false -> or_empty (Auth.tenant_id p) <> "") ->
        TemplateRow.CreateTemplate true p (payload f)
        = (201, Some (stored (if isPlatform then f_tenantId f else or_empty (Auth.tenant_id p)) f))).
Proof.
  unfold saveTemplate, not_done. destruct (incomplete (is_platform_admin p) s) eqn:Hi; [done|].
  assert (Hstore : (forall db row t0, TemplateRow.tenant row = Some t0 ->
      TemplateRow.UpdateTemplate db p (payload (form s)) row = update db (touches p t0) row (stored t0 (form s)))
    /\ (modal s = Some Create -> (is_platform_admin p = false -> or_empty (Auth.tenant_id p) <> "") ->
        TemplateRow.CreateTemplate true p (payload (form s))
        = (201, Some (stored (if is_platform_admin p then f_tenantId (form s)
                              else or_empty (Auth.tenant_id p)) (form s))))).
  { split; intros; [by eapply update_stores|by rewrite create_stores]. }
  destruct (modal s) as [[|t|t|t]|]; simpl; destruct (srv _ _); simpl; destruct s; auto.
Qed.

(** * A save that reaches another dialog *)

Definition welcome : Template := MkTemplate "t1" "a" None "welcome" "email" "Hi" "Hello" "active".
Definition reminder : Template := MkTemplate "t2" "a" None "reminder" "email" "Due" "Pay" "active".

Definition sample_server (refused : bool) (X : Type) (e : event X) : result X :=
  match e with
  | ListTemplates _ => Ok (MkList [welcome; reminder] None)
  | ListTenants => Ok []
  | PostTemplate _ | PutTemplate _ _ | DeleteTemplate _ => if refused then Threw (ApiError 409 "conflict" "duplicate key") else Ok tt
  end.

Notation page_reachable :=
  (Ui.reachable http (effects false) (handle false) (view false (fun _ => true)) initial).
Notation played b ms :=
  (Ui.play http (effects false) (handle false) (view false (fun _ => true)) (sample_server b) ms
     (Ui.initial initial)).
Notation played_reach b ms :=
  (Ui.played http (effects false) (handle false) (view false (fun _ => true)) (sample_server b) initial ms).
Notation Do l := (Ui.Do (Click l)).
Notation Render := Ui.Render.

Definition opening : list (Ui.move) := [Render; Render; Ui.Settle 4; Render].

(** The first template is edited and saved; the dialog is closed while the request
    is under way, and the second template edited; then the answer comes. *)
Definition close_while_saving : list Ui.move :=
  opening ++ [Do "Edit" 0; Render; Do "Save changes" 0; Render; Do "Close" 0; Render;
              Do "Edit" 1; Render; Ui.Do (Fill "Subject" "Overdue") 0; Render]%nat.
(** The save is refused; the second template is to be deleted. *)
Definition refused_then_delete : list Ui.move :=
  opening ++ [Do "Edit" 0; Render; Do "Save changes" 0; Render; Ui.Settle 4; Render;
              Do "Cancel" 0; Render; Do "Delete" 1; Render]%nat.

(** The answer to a save reaches whatever dialog is open when it comes: closing
    the editor does not stop the request, and its success closes the editor of
    another template over what was typed there.  A refused save leaves its
    message, which the dialog that deletes another template shows, nothing having
    been deleted. *)
Theorem save_reaches_another_dialog :
  (exists c c', played false close_while_saving = Some c /\ page_reachable c
     /\ modal (Ui.c_state c) = Some (Edit reminder) /\ f_subject (form (Ui.c_state c)) = "Overdue"
     /\ Ui.step http (effects false) (handle false) (view false (fun _ => true)) c c'
     /\ modal (Ui.c_state c') = None)
  /\ (exists c, played true refused_then_delete = Some c /\ page_reachable c
     /\ modal (Ui.c_state c) = Some (Delete reminder)
     /\ error (Ui.c_state c) = "conflict (409): duplicate key"
     /\ Txt "conflict (409): duplicate key" ∈ match modal_view false (fun _ => true) (Ui.c_state c) with
                              | [Grp _ ns] => ns | _ => [] end).
Proof.
  split.
  - eexists _, _. split; [vm_compute; reflexivity|].
    split; [apply (played_reach false close_while_saving); vm_compute; reflexivity|].
    do 2 (split; [reflexivity|]).
    split; [eapply (Ui.turn_step _ _ _ _ (sample_server false)); vm_compute; reflexivity|reflexivity].
  - eexists. split; [vm_compute; reflexivity|].
    split; [apply (played_reach true refused_then_delete); vm_compute; reflexivity|].
    do 2 (split; [reflexivity|]). apply list_elem_of_In. vm_compute. tauto.
Qed.
