(* ===== verification/Contacts.v ===== *)
(** pages/contacts/ContactsPage.tsx: the recipients of a tenant, their editor, and
    what the API stores of them. *)
From S2P Require Import Prelude Js React Query Client Components Auth Api Handlers Page.

Record Contact := MkContact {
  id : string; tenant_id : string; name : string; email : string; phone : string; status : string;
  created_at : string; external_ref : option string; tenant_name : option string }.
Record Tenant := MkTenant { t_id : string; t_name : string; t_status : string }.

Inductive Mode := Create | View (c : Contact) | Edit (c : Contact) | Delete (c : Contact).

Record FormData := Form {
  f_tenantId : string; f_name : string; f_email : string; f_phone : string; f_externalRef : string }.
#[export] Instance eta_form : Eta FormData := fun f =>
  Form (f_tenantId f) (f_name f) (f_email f) (f_phone f) (f_externalRef f).

Definition emptyForm : FormData := Form "" "" "" "" "".

Record load_args := LoadArgs { l_tenant : string; l_search : string; l_pg : Pagination.state }.

Record state := State {
  items : list Contact; tenants : list Tenant; error : string; loading : bool; saving : bool;
  search : string; tenantFilter : string; mode : option Mode; form : FormData;
  meta_ : option Pagination.PaginationMeta; pg : Pagination.state }.
#[export] Instance eta_state : Eta state := fun s =>
  State (items s) (tenants s) (error s) (loading s) (saving s) (search s) (tenantFilter s) (mode s)
    (form s) (meta_ s) (pg s).

Definition initial : state :=
  State [] [] "" true false "" "" None emptyForm None Pagination.usePagination.

Inductive action :=
| SetSearch (v : string) | SetTenantFilter (v : string) | Paging (a : Pagination.action)
| OpenCreate | OpenView (c : Contact) | OpenEdit (c : Contact) | OpenDelete (c : Contact) | CloseMode
| SetTenant (v : string) | SetName (v : string) | SetEmail (v : string) | SetPhone (v : string)
| SetRef (v : string) | Save | Remove (c : Contact).

Inductive event : Type -> Type :=
| ListContacts (a : load_args) : event (ApiList Contact)
| ListTenants : event (list Tenant)
| PostContact (b : json) : event unit
| PutContact (id : string) (b : json) : event unit
| DeleteContact (id : string) : event unit.

Definition http (X : Type) (e : event X) : list request :=
  let contacts := "/admin/api/v1/contacts" in
  match e with
  | ListContacts a =>
      [listPage contacts
         ([("tenant_id", Some (l_tenant a)); ("q", Some (l_search a))] ++ page_params (l_pg a))]
  | ListTenants => [list_ "/admin/api/v1/tenants"]
  | PostContact b => [POST contacts b]
  | PutContact id b => [PUT (contacts +:+ "/" +:+ id) b]
  | DeleteContact id => [DELETE (contacts +:+ "/" +:+ id)]
  end.

Section ContactsPage.
Variable isPlatform : bool.
Variable can : string -> bool.

(** * Effects *)

Definition args (s : state) : load_args := LoadArgs (tenantFilter s) (search s) (pg s).

Definition load (a : load_args) : prog event state :=
  list_load (fun b s => if b then s <| loading := true |> <| error := "" |> else s <| loading := false |>)
    (fun res s => s <| items := data res |> <| meta_ := meta res |>)
    "Unable to load contacts" (ListContacts a).

Definition filters (s : state) : string * string := (tenantFilter s, search s).
Definition paging (s : state) : Z * Z := (Pagination.page (pg s), Pagination.perPage (pg s)).

Definition effects (r : option state) (s : state) : list (prog event state) :=
  list_effects (changed filters r s) (changed paging r s)
    (fun s => s <| pg := Pagination.setPage 1 (pg s) |>) (load (args s))
  ++ (match r with
      | None =>
          if isPlatform then [ quiet_load (fun ts s => s <| tenants := ts |>) ListTenants ] else []
      | Some _ => []
      end).

(** * Handlers *)

Definition edit_form (c : Contact) : FormData :=
  Form (tenant_id c) (name c) (email c) (phone c) (or_empty (external_ref c)).

Definition edit (c : Contact) : prog event state :=
  set! (fun s => s <| form := edit_form c |>) ;; set! (fun s => s <| mode := Some (Edit c) |>) ;;
  set! (fun s => s <| error := "" |>) ;; Done.

Definition create (s : state) : prog event state :=
  set! (fun s' => s' <| form := emptyForm <| f_tenantId := tenantFilter s |> |>) ;;
  set! (fun s => s <| mode := Some Create |>) ;; set! (fun s => s <| error := "" |>) ;; Done.

Definition incomplete (s : state) : bool :=
  let f := form s in
  negb (truthy (trim (f_name f)))
  || negb (truthy (trim (f_email f))) && negb (truthy (trim (f_phone f)))
  || isPlatform && match mode s with Some Create => true | _ => false end && negb (truthy (f_tenantId f)).

(** [external_ref: form.externalRef.trim() || undefined]: no member when blank. *)
Definition payload (f : FormData) : json :=
  JObj ([("tenant_id", JStr (f_tenantId f)); ("name", JStr (trim (f_name f)));
         ("email", JStr (trim (f_email f))); ("phone", JStr (trim (f_phone f)))]
    ++ (if truthy (trim (f_externalRef f)) then [("external_ref", JStr (trim (f_externalRef f)))] else [])).

Definition not_done (msg : string) (x : thrown) : prog event state :=
  let m := getErrorMessage x (msg +:+ ".") in
  set! (fun s => s <| error := m |>) ;;
  emit! failure_msg msg m ;; set! (fun s => s <| saving := false |>) ;; Done.

Definition save (s : state) : prog event state :=
  if incomplete s then
    set! (fun s => s <| error := "Name, tenant, and at least one delivery address are required." |>) ;; Done
  else
    set! (fun s => s <| saving := true |>) ;; set! (fun s => s <| error := "" |>) ;;
    let finish title :=
      emit! success title ;; set! (fun s => s <| mode := None |>) ;;
      fork! load (args s) ;; set! (fun s => s <| saving := false |>) ;; Done in
    match mode s with
    | Some (Edit c) =>
        await! r <- PutContact (id c) (payload (form s)) ;;
        match r with Ok _ => finish "Contact updated" | Threw x => not_done "Unable to save contact" x end
    | _ =>
        await! r <- PostContact (payload (form s)) ;;
        match r with Ok _ => finish "Contact created" | Threw x => not_done "Unable to save contact" x end
    end.

Definition remove (c : Contact) (s : state) : prog event state :=
  set! (fun s => s <| saving := true |>) ;; set! (fun s => s <| error := "" |>) ;;
  await! r <- DeleteContact (id c) ;;
  match r with
  | Ok _ =>
      set! (fun s => s <| mode := None |>) ;; emit! success_msg "Contact deleted" (name c) ;;
      fork! load (args s) ;; set! (fun s => s <| saving := false |>) ;; Done
  | Threw x => not_done "Unable to delete contact" x
  end.

Definition set_form (f : FormData) : prog event state := set! (fun s => s <| form := f |>) ;; Done.

Definition handle (a : action) (s : state) : prog event state :=
  match a with
  | SetSearch v => set! (fun s => s <| search := v |>) ;; Done
  | SetTenantFilter v => set! (fun s => s <| tenantFilter := v |>) ;; Done
  | Paging a => set! (fun s => s <| pg := Pagination.apply a (pg s) |>) ;; Done
  | OpenCreate => create s
  | OpenView c => set! (fun s => s <| mode := Some (View c) |>) ;; Done
  | OpenEdit c => edit c
  | OpenDelete c => set! (fun s => s <| mode := Some (Delete c) |>) ;; Done
  | CloseMode => set! (fun s => s <| mode := None |>) ;; Done
  | SetTenant v => set_form ((form s) <| f_tenantId := v |>)
  | SetName v => set_form ((form s) <| f_name := v |>)
  | SetEmail v => set_form ((form s) <| f_email := v |>)
  | SetPhone v => set_form ((form s) <| f_phone := v |>)
  | SetRef v => set_form ((form s) <| f_externalRef := v |>)
  | Save => save s
  | Remove c => remove c s
  end.

(** * Views *)

(** The button submits the form by a synthetic event: the browser checks neither
    the required name nor the form of the address. *)
Definition editor (creating : bool) (s : state) : node action :=
  let f := form s in
  Modal.Modal (if creating then "Create contact" else "Edit contact")
    "Store a recipient identity and one or more delivery addresses." CloseMode
    (when (truthy (error s)) [Txt (error s)]
     ++ when (isPlatform && creating)
          [ Sel "Tenant" (f_tenantId f) false
              (map (fun t => (t_id t, t_name t))
                 (filter_by (fun t => bool_decide (t_status t = "active")) (tenants s))) SetTenant ]
     ++ [ Inp "Full name" (f_name f) false SetName; Inp "Email address" (f_email f) false SetEmail;
          Inp "Phone number" (f_phone f) false SetPhone;
          Inp "External reference" (f_externalRef f) false SetRef ])
    [ Modal.ModalButton "Cancel" false CloseMode;
      Modal.ModalButton (if saving s then "Saving..." else if creating then "Create contact" else "Save changes")
        (saving s) Save ].

Definition view_modal (c : Contact) : node action :=
  Modal.Modal (name c) "Contact profile and available delivery addresses." CloseMode
    [ Txt (name c); Txt (or_empty (tenant_name c) ||| "Current tenant"); Txt (status c);
      Txt (email c ||| "Not provided"); Txt (phone c ||| "Not provided");
      Txt (or_empty (external_ref c) ||| "Not provided"); Txt (created_at c) ]
    (Modal.ModalButton "Close" false CloseMode
     :: when (can "contacts.update") [Modal.ModalButton "Edit contact" false (OpenEdit c)]).

Definition delete_modal (c : Contact) (s : state) : node action :=
  Modal.Modal "Delete contact" "This action cannot be undone." CloseMode
    [ Txt ("Delete " +:+ name c +:+ "? They will no longer be available as a notification recipient.") ]
    [ Modal.ModalButton "Cancel" false CloseMode;
      Modal.ModalButton (if saving s then "Deleting..." else "Delete contact") (saving s) (Remove c) ].

Definition row (i : Contact) : list (node action) :=
  [ Txt (name i) ]
  ++ when (truthy (or_empty (external_ref i))) [Txt ("Ref: " +:+ or_empty (external_ref i))]
  ++ [ Txt (email i ||| "-"); Txt (phone i ||| "-") ]
  ++ when isPlatform [ Txt (or_empty (tenant_name i) ||| "-") ]
  ++ [ Txt (status i); Btn "View" false (OpenView i) ]
  ++ when (can "contacts.update") [Btn "Edit" false (OpenEdit i)]
  ++ when (can "contacts.delete") [Btn "Delete" false (OpenDelete i)].

Definition mode_view (s : state) : list (node action) :=
  match mode s with
  | Some Create => [editor true s]
  | Some (Edit _) => [editor false s]
  | Some (View c) => [view_modal c]
  | Some (Delete c) => [delete_modal c s]
  | None => []
  end.

Definition view (s : state) : list (node action) :=
  when (can "contacts.create") [Btn "New contact" false OpenCreate]
  ++ [ Inp "Search contacts" (search s) false SetSearch ]
  ++ when isPlatform
       [ TenantFilter.view (tenantFilter s) SetTenantFilter
           (map (fun t => TenantFilter.Opt (t_id t) (t_name t) None) (tenants s)) ]
  ++ (if loading s then [Txt "Loading contacts..."]
      else if bool_decide (length (items s) = 0%nat) then [Txt "No contacts found"]
      else concat (map row (items s)))
  ++ when (negb (loading s)) (embed Paging (Pagination.TablePagination (meta_ s) (pg s)))
  ++ mode_view s.

End ContactsPage.

(** * Every request is authorized *)

Section Safety.
Variable u : Principal.
Notation isPlatform := (is_platform_admin u).
Notation can := (hasPermission (Some u)).

Definition given : list string := ["contacts.view"].

Definition guarded (s : state) : Prop :=
  match mode s with
  | Some Create => can "contacts.create" = true
  | Some (Edit _) => can "contacts.update" = true
  | Some (Delete _) => can "contacts.delete" = true
  | _ => True
  end.

Notation safe := (Ui.safe http guarded (careful given u)).

Lemma contact_load_safe a : safe (load a).
Proof.
  apply list_load_safe; [done| |intros []; keeps|intros ?; keeps].
  apply Forall_singleton. reads "GET" [L "contacts"] "contacts.view" (@nil string).
Qed.

Lemma contact_tenants_safe : isPlatform = true ->
  safe (quiet_load (fun ts s => s <| tenants := ts |>) ListTenants).
Proof.
  intros Hp. apply quiet_load_safe; [|intros ?; keeps]. apply Forall_singleton.
  writes "GET" [L "tenants"] "tenants.view" (@nil string). by apply platform_can.
Qed.

Lemma contact_offered s a : offered (view isPlatform can s) a ->
  match a with
  | OpenCreate => can "contacts.create" = true
  | OpenEdit _ => can "contacts.update" = true
  | OpenDelete _ => can "contacts.delete" = true
  | Save => mode s = Some Create \/ exists c, mode s = Some (Edit c)
  | Remove c => mode s = Some (Delete c)
  | _ => True
  end.
Proof.
  intros Ha.
  unfold view, mode_view, editor, view_modal, delete_modal, row, TenantFilter.view, Modal.Modal,
    Modal.ModalButton, Pagination.TablePagination in Ha.
  page_cases Ha; subst; guards; eauto.
Qed.

Lemma contact_body_reads f :
  decodes CreateContact_req (payload f) = true /\ decodes UpdateContact_req (payload f) = true.
Proof. unfold payload. by destruct (truthy _). Qed.

Lemma contact_save_safe s : guarded s ->
  mode s = Some Create \/ (exists c, mode s = Some (Edit c)) -> safe (save isPlatform s).
Proof.
  intros Hg Hm. unfold guarded in Hg. unfold save, not_done.
  destruct Hm as [Hm|[c Hm]]; rewrite Hm in Hg |- *; safe_walk;
    try (apply Ui.safe_fork; [apply contact_load_safe|safe_walk]); apply Forall_singleton.
  - writes_body "POST" [L "contacts"] "contacts.create" (@nil string) (proj1 (contact_body_reads (form s))).
  - writes_body "PUT" [L "contacts"; V "id"] "contacts.update" [id c] (proj2 (contact_body_reads (form s))).
Qed.

Lemma contact_remove_safe c s : can "contacts.delete" = true -> safe (remove c s).
Proof.
  intros Hc. unfold remove, not_done. safe_walk;
    try (apply Ui.safe_fork; [apply contact_load_safe|safe_walk]). apply Forall_singleton.
  writes "DELETE" [L "contacts"; V "id"] "contacts.delete" [id c].
Qed.

Lemma contact_handle_safe a s :
  guarded s -> offered (view isPlatform can s) a -> safe (handle isPlatform a s).
Proof.
  intros Hs Ha. apply contact_offered in Ha.
  destruct a; try (simpl; unfold set_form, create, edit; safe_walk; fail).
  - by apply contact_save_safe.
  - apply contact_remove_safe. unfold guarded in Hs. by rewrite Ha in Hs.
Qed.
End Safety.

(** The page reads contacts, and creates, changes and deletes them only for a user
    who may. *)
Theorem contacts_authorized u c :
  let can := hasPermission (Some u) in
  let isPlatform := is_platform_admin u in
  Ui.reachable http (effects isPlatform) (handle isPlatform) (view isPlatform can) initial c ->
  Forall (careful given u) (Ui.c_trace c).
Proof.
  intros can isPlatform Hc.
  eapply (Ui.reachable_safe http _ _ _ (guarded u) (careful given u)); [..|exact Hc].
  - intros r s _. apply Forall_app. split; [apply list_effects_safe; [keeps|apply contact_load_safe]|].
    destruct r; [constructor|]. destruct isPlatform eqn:Hp; [|constructor].
    apply Forall_singleton. by apply contact_tenants_safe.
  - intros a s. apply contact_handle_safe.
  - done.
Qed.

(** * What saving a contact stores *)

Lemma contact_complete isPlatform s : incomplete isPlatform s = false ->
  trim (f_name (form s)) <> ""
  /\ (isPlatform = true -> mode s = Some Create -> f_tenantId (form s) <> "").
Proof.
  unfold incomplete. intros H. guards.
  repeat match goal with H : truthy _ = true |- _ => apply truthy_true in H end.
  split; [done|]. intros -> Hm. rewrite Hm in *. simpl in *. apply truthy_true. by guards.
Qed.

Lemma contact_members f :
  member (payload f) "tenant_id" = f_tenantId f /\ member (payload f) "name" = trim (f_name f)
  /\ member (payload f) "email" = trim (f_email f) /\ member (payload f) "phone" = trim (f_phone f)
  /\ member (payload f) "external_user_id" = "".
Proof. unfold payload. destruct (truthy _); repeat split. Qed.

(** Saving over a stored contact. *)
Lemma update_contact db p s (row : ContactRow.row) isPlatform :
  incomplete isPlatform s = false ->
  ContactRow.UpdateContact db p (payload (form s)) row
  = update db (touches p (or_empty (ContactRow.tenant row))) row
      (ContactRow.Row (ContactRow.tenant row) (ContactRow.external_user_id row)
         (Some (trim (f_name (form s)))) (kept_null (ContactRow.email row) (trim (f_email (form s))))
         (kept_null (ContactRow.phone row) (trim (f_phone (form s))))).
Proof.
  intros [Hn _]%contact_complete. unfold ContactRow.UpdateContact.
  rewrite (proj2 (contact_body_reads _)). cbn [negb].
  destruct (contact_members (form s)) as (_ & -> & -> & -> & _).
  unfold kept_null at 1. by rewrite decide_False.
Qed.

Lemma create_contact p s :
  incomplete (is_platform_admin p) s = false -> mode s = Some Create ->
  (is_platform_admin p = false -> or_empty (Auth.tenant_id p) <> "") ->
  ContactRow.CreateContact true p (payload (form s))
  = (201, Some (ContactRow.Row
       (Some (if is_platform_admin p then f_tenantId (form s) else or_empty (Auth.tenant_id p))) None
       (Some (trim (f_name (form s)))) (nullIfEmpty (trim (f_email (form s))))
       (nullIfEmpty (trim (f_phone (form s)))))).
Proof.
  intros [Hn Ht]%contact_complete Hm Hown. unfold ContactRow.CreateContact, tenant_for, insert.
  rewrite (proj1 (contact_body_reads _)). cbn [negb].
  destruct (contact_members (form s)) as (-> & -> & -> & -> & ->).
  cbn [ContactRow.tenant ContactRow.name].
  rewrite (nullIfEmpty_Some _ Hn), (nullIfEmpty_Some (if is_platform_admin p then _ else _)); [done|].
  destruct (is_platform_admin p); auto.
Qed.

(** Saving a contact.  An incomplete form sends nothing and says so; a complete
    one sends one request, for every answer of the API, and the dialog closes and
    the list is loaded again exactly when the API accepts.  What is stored is not
    all of what was on screen: a new contact has the name and the addresses,
    trimmed, and never the external reference, which the API reads under another
    name; a changed contact keeps the address it had where the form was left
    blank, although the page reports success. *)
Theorem saved_contact_is_stored_in_part p srv s :
  let isPlatform := is_platform_admin p in
  let '(s', outs, started) := Ui.exec http srv (save isPlatform s) s in
  let f := form s in
  if incomplete isPlatform s then
    outs = [] /\ s' = s <| error := "Name, tenant, and at least one delivery address are required." |>
  else
    let '(r, title, answer) :=
      match mode s with
      | Some (Edit c) => (PUT ("/admin/api/v1/contacts/" +:+ id c) (payload f), "Contact updated",
                          srv unit (PutContact (id c) (payload f)))
      | _ => (POST "/admin/api/v1/contacts" (payload f), "Contact created",
              srv unit (PostContact (payload f)))
      end in
    saving s' = false
    /\ match answer with
       | Ok _ => mode s' = None
           /\ outs = OReq r :: success title :: map OReq (http _ (ListContacts (args s)))
       | Threw x =>
           let m := getErrorMessage x "Unable to save contact." in
           outs = [OReq r; failure_msg "Unable to save contact" m]
           /\ s' = s <| saving := false |> <| error := m |>
       end
    /\ (mode s = Some Create -> (isPlatform = false -> or_empty (Auth.tenant_id p) <> "") ->
        ContactRow.CreateContact true p (payload f)
        = (201, Some (ContactRow.Row
             (Some (if isPlatform then f_tenantId f else or_empty (Auth.tenant_id p))) None
             (Some (trim (f_name f))) (nullIfEmpty (trim (f_email f))) (nullIfEmpty (trim (f_phone f))))))
    /\ (forall row, touches p (or_empty (ContactRow.tenant row)) = true ->
        exists row', ContactRow.UpdateContact true p (payload f) row = (200, row')
          /\ ContactRow.name row' = Some (trim (f_name f))
          /\ ContactRow.external_user_id row' = ContactRow.external_user_id row
          /\ ContactRow.email row' = (if blank (f_email f) then ContactRow.email row
                                      else Some (trim (f_email f)))
          /\ ContactRow.phone row' = (if blank (f_phone f) then ContactRow.phone row
                                      else Some (trim (f_phone f)))).
Proof.
  assert (Hkept : forall o v, kept_null o (trim v) = if blank v then o else Some (trim v)).
  { intros o v. unfold kept_null. destruct (blank v) eqn:Hb.
    - apply trim_empty in Hb. by rewrite decide_True.
    - rewrite decide_False; [done|]. intros E%trim_empty. congruence. }
  unfold save, not_done. destruct (incomplete (is_platform_admin p) s) eqn:Hi; [done|].
  pose proof (create_contact p s Hi) as Hcreate.
  assert (Hup : forall row, touches p (or_empty (ContactRow.tenant row)) = true ->
    exists row', ContactRow.UpdateContact true p (payload (form s)) row = (200, row')
      /\ ContactRow.name row' = Some (trim (f_name (form s)))
      /\ ContactRow.external_user_id row' = ContactRow.external_user_id row
      /\ ContactRow.email row' = (if blank (f_email (form s)) then ContactRow.email row
                                  else Some (trim (f_email (form s))))
      /\ ContactRow.phone row' = (if blank (f_phone (form s)) then ContactRow.phone row
                                  else Some (trim (f_phone (form s))))).
  { intros row Ht. rewrite (update_contact _ _ _ _ _ Hi). unfold update. rewrite Ht, !Hkept. simpl. eauto 10. }
  destruct (mode s) as [[|c|c|c]|]; simpl; destruct (srv _ _); simpl; destruct s; auto.
Qed.
