(* ===== verification/Groups.v ===== *)
(** pages/groups/GroupsPage.tsx: the contact groups of a tenant and their members. *)
From S2P Require Import Prelude Js React Query Client Components Auth Api Handlers Page.

Record Group := MkGroup {
  id : string; tenant_id : string; tenant_name : option string; name : string; description : string;
  member_count : Z; status : string }.
Record Contact := MkContact { c_id : string; c_name : string; c_email : string; c_phone : string }.
Record Tenant := MkTenant { t_id : string; t_name : string; t_slug : string; t_status : string }.

Record load_args := LoadArgs { l_tenant : string; l_search : string; l_pg : Pagination.state }.

(** What is to be done once confirmed, with what the dialog was opened on. *)
Inductive confirmation :=
| DeleteGroup (id : string) (reload : load_args)
| RemoveMember (group contact : string).

Record state := State {
  items : list Group; contacts : list Contact; search : string; showForm : bool; formError : string;
  name_ : string; description_ : string; saving : bool; expanded : option string;
  members : list Contact; showAddMember : option string; loading : bool; tenantFilter : string;
  tenants : list Tenant; meta_ : option Pagination.PaginationMeta; pg : Pagination.state;
  dialog : Confirm.state confirmation }.
#[export] Instance eta_state : Eta state := fun s =>
  State (items s) (contacts s) (search s) (showForm s) (formError s) (name_ s) (description_ s)
    (saving s) (expanded s) (members s) (showAddMember s) (loading s) (tenantFilter s) (tenants s)
    (meta_ s) (pg s) (dialog s).

Definition initial : state :=
  State [] [] "" false "" "" "" false None [] None true "" [] None Pagination.usePagination
    Confirm.initial.

Definition set_dialog (f : Confirm.state confirmation -> Confirm.state confirmation) (s : state) : state :=
  s <| dialog := f (dialog s) |>.

Inductive action :=
| SetSearch (v : string) | SetTenantFilter (v : string) | Paging (a : Pagination.action) | ToggleForm
| CloseForm | SetName (v : string) | SetDescription (v : string) | Submit | Toggle (id : string)
| AskDelete (g : Group) | CloseMembers | ToggleAdd (gid : string) | Add (gid cid : string)
| AskRemove (gid : string) (m : Contact) | Dialog (a : Confirm.action confirmation).

Inductive event : Type -> Type :=
| ListGroups (a : load_args) : event (ApiList Group)
| ListContacts : event (list Contact)
| ListTenants : event (list Tenant)
| ListMembers (gid : string) : event (list Contact)
| PostGroup (b : json) : event unit
| DeleteGroup_ (gid : string) : event unit
| PostMember (gid : string) (b : json) : event unit
| DeleteMember (gid cid : string) : event unit.

Definition http (X : Type) (e : event X) : list request :=
  let groups := "/admin/api/v1/groups" in
  match e with
  | ListGroups a =>
      [listPage groups
         ([("tenant_id", Some (l_tenant a)); ("q", Some (l_search a))] ++ page_params (l_pg a))]
  | ListContacts => [list_ "/admin/api/v1/contacts"]
  | ListTenants => [list_ "/admin/api/v1/tenants"]
  | ListMembers gid => [list_ (groups +:+ "/" +:+ gid +:+ "/members")]
  | PostGroup b => [POST groups b]
  | DeleteGroup_ gid => [DELETE (groups +:+ "/" +:+ gid)]
  | PostMember gid b => [POST (groups +:+ "/" +:+ gid +:+ "/members") b]
  | DeleteMember gid cid => [DELETE (groups +:+ "/" +:+ gid +:+ "/members/" +:+ cid)]
  end.

Section GroupsPage.
Variable isPlatform : bool.
Variable can : string -> bool.

(** * Effects *)

Definition args (s : state) : load_args := LoadArgs (tenantFilter s) (search s) (pg s).

Definition load (a : load_args) : prog event state :=
  list_load (fun b s => s <| loading := b |>)
    (fun res s => s <| items := data res |> <| meta_ := meta res |>)
    "Unable to load groups" (ListGroups a).

Definition loadContacts : prog event state := quiet_load (fun cs s => s <| contacts := cs |>) ListContacts.

Definition filters (s : state) : string * string := (tenantFilter s, search s).
Definition paging (s : state) : Z * Z := (Pagination.page (pg s), Pagination.perPage (pg s)).

Definition effects (r : option state) (s : state) : list (prog event state) :=
  list_effects (changed filters r s) (changed paging r s)
    (fun s => s <| pg := Pagination.setPage 1 (pg s) |>) (fork! load (args s) ;; loadContacts)
  ++ (match r with
      | None =>
          if isPlatform then [ quiet_load (fun ts s => s <| tenants := ts |>) ListTenants ] else []
      | Some _ => []
      end).

(** * Handlers *)

Definition loadMembers (gid : string) : prog event state :=
  await! r <- ListMembers gid ;;
  match r with
  | Ok ms => set! (fun s => s <| members := ms |>) ;; Done
  | Threw x => emit! toast_error "Unable to load members" "Load failed" x ;; Done
  end.

Definition toggleGroup (gid : string) (s : state) : prog event state :=
  if bool_decide (expanded s = Some gid) then set! (fun s => s <| expanded := None |>) ;; Done
  else set! (fun s => s <| expanded := Some gid |>) ;; loadMembers gid.

Definition group_body (s : state) : json :=
  JObj [("name", JStr (name_ s)); ("description", JStr (description_ s))].

Definition submit (s : state) : prog event state :=
  set! (fun s => s <| saving := true |>) ;; set! (fun s => s <| formError := "" |>) ;;
  await! r <- PostGroup (group_body s) ;;
  match r with
  | Ok _ =>
      set! (fun s => s <| name_ := "" |>) ;; set! (fun s => s <| description_ := "" |>) ;;
      set! (fun s => s <| showForm := false |>) ;; emit! success_msg "Group created" (name_ s) ;;
      fork! load (args s) ;; set! (fun s => s <| saving := false |>) ;; Done
  | Threw x =>
      set! (fun s => s <| formError := getErrorMessage x "Create failed" |>) ;;
      emit! toast_error "Unable to create group" "Create failed" x ;;
      set! (fun s => s <| saving := false |>) ;; Done
  end.

Definition remove (gid : string) (a : load_args) : prog event state :=
  await! r <- DeleteGroup_ gid ;;
  match r with
  | Ok _ => emit! success "Group deleted" ;; fork! load a ;; Done
  | Threw x => emit! toast_error "Unable to delete group" "Delete failed" x ;; Done
  end.

Definition addMember (gid cid : string) : prog event state :=
  await! r <- PostMember gid (JObj [("contact_id", JStr cid)]) ;;
  match r with
  | Ok _ => emit! success "Member added" ;; fork! loadMembers gid ;; Done
  | Threw x => emit! toast_error "Unable to add member" "Add failed" x ;; Done
  end.

Definition removeMember (gid cid : string) : prog event state :=
  await! r <- DeleteMember gid cid ;;
  match r with
  | Ok _ => emit! success "Member removed" ;; fork! loadMembers gid ;; Done
  | Threw x => emit! toast_error "Unable to remove member" "Remove failed" x ;; Done
  end.

Definition onConfirm (k : confirmation) : prog event state :=
  match k with DeleteGroup gid a => remove gid a | RemoveMember g c => removeMember g c end.

Definition ask (title description body label : string) (k : confirmation) : prog event state :=
  set! (set_pending set_dialog (Some (Confirm.Intent title (Some description) (Some body) (Some label) true k))) ;; Done.

Definition close_members (s : state) : state := s <| expanded := None |> <| showAddMember := None |>.

Definition handle (a : action) (s : state) : prog event state :=
  match a with
  | SetSearch v => set! (fun s => s <| search := v |>) ;; Done
  | SetTenantFilter v => set! (fun s => s <| tenantFilter := v |>) ;; Done
  | Paging a => set! (fun s => s <| pg := Pagination.apply a (pg s) |>) ;; Done
  | ToggleForm =>
      set! (fun s => s <| formError := "" |>) ;; set! (fun s' => s' <| showForm := negb (showForm s) |>) ;; Done
  | CloseForm => set! (fun s => s <| showForm := false |>) ;; Done
  | SetName v => set! (fun s => s <| name_ := v |>) ;; Done
  | SetDescription v => set! (fun s => s <| description_ := v |>) ;; Done
  | Submit => submit s
  | Toggle gid => toggleGroup gid s
  | AskDelete g =>
      ask "Delete contact group" "This action cannot be undone" ("Delete " +:+ name g +:+ "?") "Delete group"
        (DeleteGroup (id g) (args s))
  | CloseMembers => set! close_members ;; Done
  | ToggleAdd gid =>
      set! (fun s' => s' <| showAddMember := match showAddMember s with
        | Some v => if truthy v then None else Some gid | None => Some gid end |>) ;; Done
  | Add gid cid => fork! addMember gid cid ;; set! (fun s => s <| showAddMember := None |>) ;; Done
  | AskRemove gid m =>
      ask "Remove group member" "Confirm member removal" ("Remove " +:+ c_name m +:+ " from this group?")
        "Remove member" (RemoveMember gid (c_id m))
  | Dialog a => dialog_handle dialog set_dialog onConfirm a s
  end.

(** * Views *)

Definition expandedGroup (s : state) : option Group :=
  find (fun i => bool_decide (Some (id i) = expanded s)) (items s).

Definition row (i : Group) : list (node action) :=
  [ Txt (name i) ]
  ++ when isPlatform [ Txt (or_empty (tenant_name i) ||| "-") ]
  ++ [ Txt (pretty (member_count i)); Txt (Status.StatusBadge (Status.SText (status i))).2;
       Btn "View members" false (Toggle (id i)) ]
  ++ when (can "groups.delete") [Btn "Delete" false (AskDelete i)].

(** The form has one text field and no button of its own: the return key submits it
    when the name is not blank, saving or not; the button submits it by a synthetic
    event, blank or not. *)
Definition create_modal (s : state) : node action :=
  Modal.Modal "Create contact group" "Create a reusable audience for notification delivery." CloseForm
    (when (truthy (formError s)) [Txt (formError s)]
     ++ [ Inp "Group name" (name_ s) false SetName; submit_button "Return" false [name_ s] Submit;
          Inp "Description" (description_ s) false SetDescription ])
    [ Modal.ModalButton "Cancel" false CloseForm;
      Modal.ModalButton (if saving s then "Creating..." else "Create group") (saving s) Submit ].

Definition contact_label (c : Contact) : string :=
  c_name c +:+ " (" +:+ (c_email c ||| c_phone c ||| "no contact info") +:+ ")".

(** The contacts that can be added: those that are not members. *)
Definition addable (s : state) : list Contact :=
  filter_by (fun c => negb (existsb (fun m => bool_decide (c_id m = c_id c)) (members s))) (contacts s).

Definition member_row (g : Group) (m : Contact) : list (node action) :=
  [ Txt (c_name m); Txt (c_email m ||| "-"); Txt (c_phone m ||| "-") ]
  ++ when (can "groups.members.manage") [Btn "Remove" false (AskRemove (id g) m)].

Definition members_modal (g : Group) (s : state) : node action :=
  Modal.Modal (name g) (pretty (member_count g) +:+ " contacts in this delivery audience.") CloseMembers
    (when (can "groups.members.manage")
       (Btn "Add member" false (ToggleAdd (id g))
        :: when (truthy (or_empty (showAddMember s)))
             [ Sel "Search contacts to add" "" false
                 (map (fun c => (c_id c, contact_label c)) (addable s)) (Add (id g)) ])
     ++ (if bool_decide (length (members s) = 0%nat) then [Txt "No members in this group"]
         else concat (map (member_row g) (members s))))
    [ Modal.ModalButton "Close" false CloseMembers ].

Definition view (s : state) : list (node action) :=
  when (can "groups.create") [Btn (if showForm s then "Cancel" else "Create group") false ToggleForm]
  ++ [ Inp "Search groups" (search s) false SetSearch ]
  ++ when isPlatform
       [ TenantFilter.view (tenantFilter s) SetTenantFilter
           (map (fun t => TenantFilter.Opt (t_id t) (t_name t) (Some (t_slug t))) (tenants s)) ]
  ++ (if loading s then [Txt "Loading..."]
      else if bool_decide (length (items s) = 0%nat) then [Txt "No groups found"]
      else concat (map row (items s)) ++ embed Paging (Pagination.TablePagination (meta_ s) (pg s)))
  ++ when (showForm s) [create_modal s]
  ++ (match expandedGroup s with Some g => [members_modal g s] | None => [] end)
  ++ embed Dialog (Confirm.confirmDialog (dialog s)).

End GroupsPage.

(** * Every request is authorized *)

Section Safety.
Variable u : Principal.
Notation isPlatform := (is_platform_admin u).
Notation can := (hasPermission (Some u)).

(** The page reads the contacts too, whether or not members may be managed. *)
Definition given : list string := ["groups.view"; "contacts.view"].

Definition confirmable (k : confirmation) : Prop :=
  match k with
  | DeleteGroup _ _ => can "groups.delete" = true
  | RemoveMember _ _ => can "groups.members.manage" = true
  end.

Definition guarded (s : state) : Prop :=
  (showForm s = true -> can "groups.create" = true)
  /\ (forall i, Confirm.pending (dialog s) = Some i -> confirmable (Confirm.payload i)).

Notation safe := (Ui.safe http guarded (careful given u)).

Lemma group_load_safe a : safe (load a).
Proof.
  apply list_load_safe; [done| |intros ?; keeps|intros ?; keeps].
  apply Forall_singleton. reads "GET" [L "groups"] "groups.view" (@nil string).
Qed.

Lemma group_lists_safe a : safe (fork! load a ;; loadContacts).
Proof.
  apply Ui.safe_fork; [apply group_load_safe|]. apply quiet_load_safe; [|intros ?; keeps].
  apply Forall_singleton. reads "GET" [L "contacts"] "contacts.view" (@nil string).
Qed.

Lemma group_tenants_safe : isPlatform = true ->
  safe (quiet_load (fun ts s => s <| tenants := ts |>) ListTenants).
Proof.
  intros Hp. apply quiet_load_safe; [|intros ?; keeps]. apply Forall_singleton.
  writes "GET" [L "tenants"] "tenants.view" (@nil string). by apply platform_can.
Qed.

Lemma members_safe gid : safe (loadMembers gid).
Proof.
  unfold loadMembers. safe_walk. apply Forall_singleton.
  reads "GET" [L "groups"; V "id"; L "members"] "groups.view" [gid].
Qed.

Lemma group_offered s a : guarded s -> offered (view isPlatform can s) a ->
  match a with
  | Dialog (Confirm.Request _) => False
  | ToggleForm | Submit => can "groups.create" = true
  | AskDelete _ => can "groups.delete" = true
  | Add _ _ | AskRemove _ _ => can "groups.members.manage" = true
  | _ => True
  end.
Proof.
  intros [H1 H2] Ha.
  unfold view, row, create_modal, members_modal, member_row, submit_button, TenantFilter.view, Modal.Modal,
    Modal.ModalButton, Pagination.TablePagination in Ha.
  page_cases Ha; subst; guards; try done; try (by apply H1);
    by destruct act; apply confirmDialog_offers in Hact.
Qed.

Lemma group_submit_safe s : can "groups.create" = true -> safe (submit s).
Proof.
  intros Hc. unfold submit. safe_walk; [|apply Ui.safe_fork; [apply group_load_safe|safe_walk]].
  apply Forall_singleton. writes "POST" [L "groups"] "groups.create" (@nil string).
Qed.

Lemma group_add_safe gid cid : can "groups.members.manage" = true -> safe (addMember gid cid).
Proof.
  intros Hc. unfold addMember. safe_walk; [|apply Ui.safe_fork; [apply members_safe|safe_walk]].
  apply Forall_singleton.
  writes "POST" [L "groups"; V "id"; L "members"] "groups.members.manage" [gid].
Qed.

Lemma group_confirm_safe k : confirmable k -> safe (onConfirm k).
Proof.
  intros Hc. destruct k as [gid a|gid cid]; simpl.
  - unfold remove. safe_walk; [|apply Ui.safe_fork; [apply group_load_safe|safe_walk]].
    apply Forall_singleton. writes "DELETE" [L "groups"; V "id"] "groups.delete" [gid].
  - unfold removeMember. safe_walk; [|apply Ui.safe_fork; [apply members_safe|safe_walk]].
    apply Forall_singleton.
    writes "DELETE" [L "groups"; V "id"; L "members"; V "contact_id"] "groups.members.manage" [gid; cid].
Qed.

Lemma group_ask_safe title d b l k : confirmable k -> safe (ask title d b l k).
Proof.
  intros Hc. unfold ask. safe_updates; [|safe_walk].
  intros s0 [H1 H2]. split; [done|]. simpl. by intros i [= <-].
Qed.

Lemma group_handle_safe a s :
  guarded s -> offered (view isPlatform can s) a -> safe (handle a s).
Proof.
  intros Hs Ha. apply group_offered in Ha; [|done].
  destruct a; try (simpl; safe_walk; fail).
  - by apply group_submit_safe.
  - simpl. unfold toggleGroup. safe_walk. apply members_safe.
  - by apply group_ask_safe.
  - simpl. apply Ui.safe_fork; [by apply group_add_safe|safe_walk].
  - by apply group_ask_safe.
  - cbn [handle]. apply dialog_safe; [by destruct a|keeps|intros ?; keeps|].
    intros i Hi. apply group_confirm_safe. by apply Hs.
Qed.
End Safety.

(** The page reads groups and contacts, and writes only for a user who may. *)
Theorem groups_authorized u c :
  let can := hasPermission (Some u) in
  let isPlatform := is_platform_admin u in
  Ui.reachable http (effects isPlatform) handle (view isPlatform can) initial c ->
  Forall (careful given u) (Ui.c_trace c).
Proof.
  intros can isPlatform Hc.
  eapply (Ui.reachable_safe http _ _ _ (guarded u) (careful given u)); [..|exact Hc].
  - intros r s _. apply Forall_app. split; [apply list_effects_safe; [keeps|apply group_lists_safe]|].
    destruct r; [constructor|]. destruct isPlatform eqn:Hp; [|constructor].
    apply Forall_singleton. by apply group_tenants_safe.
  - intros a s. apply group_handle_safe.
  - split; [done|]. by intros ?.
Qed.

(** * Creating a group *)

(** Creating a group, whatever the API answers: one request with the name and
    the description on screen, which the button sends blank or not; the form is
    emptied and closed and the list loaded again exactly when the API accepts.
    The API accepts exactly a name and a description of a user with a tenant: the
    description, optional on screen, is stored as null when blank, which the
    database refuses, and a platform user, for whom the page sends no tenant, is
    always refused. *)
Theorem create_group_flow p srv s :
  let '(s', outs, started) := Ui.exec http srv (submit s) s in
  let post := OReq (POST "/admin/api/v1/groups" (group_body s)) in
  saving s' = false
  /\ match srv unit (PostGroup (group_body s)) with
     | Ok _ =>
         outs = post :: success_msg "Group created" (name_ s) :: map OReq (http _ (ListGroups (args s)))
         /\ showForm s' = false /\ name_ s' = "" /\ description_ s' = ""
     | Threw x =>
         outs = [post; toast_error "Unable to create group" "Create failed" x]
         /\ s' = s <| saving := false |> <| formError := getErrorMessage x "Create failed" |>
     end
  /\ GroupRow.CreateGroup true p (group_body s) =
       if decide (name_ s = "") then (400, None)
       else match (if is_platform_admin p then None else nullIfEmpty (or_empty (Auth.tenant_id p))),
                  nullIfEmpty (description_ s) with
            | Some t, Some d => (201, Some (GroupRow.Row (Some t) (name_ s) (Some d)))
            | _, _ => (500, None)
            end.
Proof.
  assert (Hc : GroupRow.CreateGroup true p (group_body s) =
       if decide (name_ s = "") then (400, None)
       else match (if is_platform_admin p then None else nullIfEmpty (or_empty (Auth.tenant_id p))),
                  nullIfEmpty (description_ s) with
            | Some t, Some d => (201, Some (GroupRow.Row (Some t) (name_ s) (Some d)))
            | _, _ => (500, None)
            end).
  { unfold GroupRow.CreateGroup, tenant_for.
    change (decodes CreateGroup_req (group_body s)) with true.
    change (member (group_body s) "name") with (name_ s).
    change (member (group_body s) "description") with (description_ s).
    change (member (group_body s) "tenant_id") with "". cbn [negb]. case_decide; [done|].
    unfold insert. destruct (is_platform_admin p); [done|].
    destruct (nullIfEmpty (or_empty _)), (nullIfEmpty (description_ s)); done. }
  unfold submit. simpl. destruct (srv _ _); simpl; destruct s; auto 10.
Qed.

(** * The members of another group *)

Definition staff : Group := MkGroup "g1" "a" None "Staff" "" 1 "active".
Definition clients : Group := MkGroup "g2" "a" None "Clients" "" 1 "active".
Definition ada : Contact := MkContact "c1" "Ada" "ada@example.com" "".
Definition bob : Contact := MkContact "c2" "Bob" "bob@example.com" "".

Definition sample_server (X : Type) (e : event X) : result X :=
  match e with
  | ListGroups _ => Ok (MkList [staff; clients] None)
  | ListContacts => Ok [ada; bob]
  | ListTenants => Ok []
  | ListMembers gid => Ok (if decide (gid = "g1") then [ada] else [bob])
  | PostGroup _ | DeleteGroup_ _ | PostMember _ _ | DeleteMember _ _ => Ok tt
  end.

Notation page_reachable :=
  (Ui.reachable http (effects false) handle (view false (fun _ => true)) initial).
Notation played ms :=
  (Ui.play http (effects false) handle (view false (fun _ => true)) sample_server ms (Ui.initial initial)).
Notation played_reach ms :=
  (Ui.played http (effects false) handle (view false (fun _ => true)) sample_server initial ms).
Notation Do l := (Ui.Do (Click l)).
Notation Render := Ui.Render.

(** The members of the first group are asked for, then those of the second, whose
    answer comes first; then a removal is confirmed in the dialog of the second. *)
Definition late_members : list Ui.move :=
  [Render; Render; Ui.Settle 4; Render;
   Do "View members" 0; Render; Do "Close" 0; Render; Do "View members" 1; Render;
   Ui.Answer 1; Render; Ui.Answer 0; Render]%nat.
Definition removed_member : list Ui.move :=
  late_members ++ [Do "Remove" 0; Render; Do "Remove member" 0]%nat.

(** The dialog of a group can show, for good, the members of another: answers to
    the member lists come in any order and the last one wins, whatever group is
    on screen.  Removing a member it shows is then asked of the wrong group. *)
Theorem members_of_another_group :
  (exists c, played late_members = Some c /\ page_reachable c
     /\ Ui.c_pool c = [] /\ Ui.c_dirty c = false
     /\ expandedGroup (Ui.c_state c) = Some clients /\ members (Ui.c_state c) = [ada])
  /\ (exists c, played removed_member = Some c /\ page_reachable c
     /\ head (Ui.c_trace c) = Some (OReq (DELETE "/admin/api/v1/groups/g2/members/c1"))).
Proof.
  split.
  - eexists. split; [vm_compute; reflexivity|].
    split; [apply (played_reach late_members); vm_compute; reflexivity|done].
  - eexists. split; [vm_compute; reflexivity|].
    split; [apply (played_reach removed_member); vm_compute; reflexivity|done].
Qed.
