(* ===== verification/Campaigns.v ===== *)
(** pages/campaigns/CampaignsPage.tsx: the campaigns of a tenant and the steps of
    their life. *)
From S2P Require Import Prelude Js React Query Client Components Auth Api Handlers Page.

Record Campaign := MkCampaign {
  id : string; tenant_id : string; tenant_name : option string; name : string; description : string;
  status : string; scheduled_at : string; created_at : string }.
Record Tenant := MkTenant { t_id : string; t_name : string; t_slug : option string; t_status : string }.

Record load_args := LoadArgs { l_tenant : string; l_search : string; l_pg : Pagination.state }.

(** The campaign and the action to confirm, with the list to load again. *)
Record intent := Transition { i_id : string; i_action : string; i_reload : load_args }.

Record state := State {
  items : list Campaign; error : string; loading : bool; showForm : bool; formError : string;
  name_ : string; description_ : string; saving : bool; tenantFilter : string; tenants : list Tenant;
  search : string; meta_ : option Pagination.PaginationMeta; pg : Pagination.state;
  dialog : Confirm.state intent }.
#[export] Instance eta_state : Eta state := fun s =>
  State (items s) (error s) (loading s) (showForm s) (formError s) (name_ s) (description_ s) (saving s)
    (tenantFilter s) (tenants s) (search s) (meta_ s) (pg s) (dialog s).

Definition initial : state :=
  State [] "" true false "" "" "" false "" [] "" None Pagination.usePagination Confirm.initial.

Definition set_dialog (f : Confirm.state intent -> Confirm.state intent) (s : state) : state :=
  s <| dialog := f (dialog s) |>.

(** The actions of a campaign: the last segment of their path. *)
Inductive step_ := approve | send | cancel.
Definition path_of (a : step_) : string :=
  match a with approve => "approve" | send => "send" | cancel => "cancel" end.

Inductive action :=
| SetSearch (v : string) | SetTenantFilter (v : string) | ClearFilters | Paging (a : Pagination.action)
| ToggleForm | CloseForm | SetName (v : string) | SetDescription (v : string) | Submit
| Ask (a : step_) (c : Campaign) | Dialog (a : Confirm.action intent).

Inductive event : Type -> Type :=
| ListCampaigns (a : load_args) : event (ApiList Campaign)
| ListTenants : event (list Tenant)
| PostCampaign (b : json) : event unit
| PostAction (id action : string) : event unit.

Definition http (X : Type) (e : event X) : list request :=
  let campaigns := "/admin/api/v1/campaigns" in
  match e with
  | ListCampaigns a =>
      [listPage campaigns
         ([("tenant_id", Some (l_tenant a)); ("q", Some (l_search a))] ++ page_params (l_pg a))]
  | ListTenants => [list_ "/admin/api/v1/tenants"]
  | PostCampaign b => [POST campaigns b]
  | PostAction id action => [Request "POST" (campaigns +:+ "/" +:+ id +:+ "/" +:+ action) None]
  end.

Section CampaignsPage.
Variable isPlatform : bool.
Variable can : string -> bool.

(** * Effects *)

Definition args (s : state) : load_args := LoadArgs (tenantFilter s) (search s) (pg s).

Definition load (a : load_args) : prog event state :=
  list_load (fun b s => s <| loading := b |>)
    (fun res s => s <| items := data res |> <| meta_ := meta res |>)
    "Unable to load campaigns" (ListCampaigns a).

Definition filters (s : state) : string * string := (tenantFilter s, search s).
Definition paging (s : state) : Z * Z := (Pagination.page (pg s), Pagination.perPage (pg s)).

Definition effects (r : option state) (s : state) : list (prog event state) :=
  (if changed filters r s
   then [ set! (fun s => s <| pg := Pagination.setPage 1 (pg s) |>) ;; Done ] else [])
  ++ (match r with
      | None =>
          if isPlatform then [ quiet_load (fun ts s => s <| tenants := ts |>) ListTenants ] else []
      | Some _ => []
      end)
  ++ (if changed filters r s || changed paging r s then [ load (args s) ] else []).

(** * Handlers *)

Definition campaign_body (s : state) : json :=
  JObj [("name", JStr (name_ s)); ("description", JStr (description_ s))].

Definition submit (s : state) : prog event state :=
  set! (fun s => s <| saving := true |>) ;; set! (fun s => s <| error := "" |>) ;;
  set! (fun s => s <| formError := "" |>) ;;
  await! r <- PostCampaign (campaign_body s) ;;
  match r with
  | Ok _ =>
      set! (fun s => s <| name_ := "" |>) ;; set! (fun s => s <| description_ := "" |>) ;;
      set! (fun s => s <| showForm := false |>) ;; emit! success_msg "Campaign created" (name_ s) ;;
      fork! load (args s) ;; set! (fun s => s <| saving := false |>) ;; Done
  | Threw x =>
      set! (fun s => s <| formError := getErrorMessage x "Create failed" |>) ;;
      emit! toast_error "Unable to create campaign" "Create failed" x ;;
      set! (fun s => s <| saving := false |>) ;; Done
  end.

Definition transition (k : intent) : prog event state :=
  await! r <- PostAction (i_id k) (i_action k) ;;
  match r with
  | Ok _ => emit! success ("Campaign " +:+ i_action k +:+ "ed") ;; fork! load (i_reload k) ;; Done
  | Threw x => emit! toast_error "Campaign action failed" "Action failed" x ;; Done
  end.

Definition ask (a : step_) (c : Campaign) (s : state) : prog event state :=
  let '(title, body, label, danger) :=
    match a with
    | approve => ("Approve campaign", "Approve " +:+ name c +:+ "?", "Approve", false)
    | send => ("Send campaign", "Send " +:+ name c +:+ " now?", "Send campaign", false)
    | cancel => ("Cancel campaign", "Cancel " +:+ name c +:+ "?", "Cancel campaign", true)
    end in
  set! (set_pending set_dialog (Some (Confirm.Intent title (Some "Confirm campaign action") (Some body)
    (Some label) danger (Transition (id c) (path_of a) (args s))))) ;; Done.

Definition handle (a : action) (s : state) : prog event state :=
  match a with
  | SetSearch v => set! (fun s => s <| search := v |>) ;; Done
  | SetTenantFilter v => set! (fun s => s <| tenantFilter := v |>) ;; Done
  | ClearFilters =>
      set! (fun s => s <| search := "" |>) ;; set! (fun s => s <| tenantFilter := "" |>) ;; Done
  | Paging a => set! (fun s => s <| pg := Pagination.apply a (pg s) |>) ;; Done
  | ToggleForm =>
      set! (fun s => s <| formError := "" |>) ;; set! (fun s' => s' <| showForm := negb (showForm s) |>) ;; Done
  | CloseForm => set! (fun s => s <| showForm := false |>) ;; Done
  | SetName v => set! (fun s => s <| name_ := v |>) ;; Done
  | SetDescription v => set! (fun s => s <| description_ := v |>) ;; Done
  | Submit => submit s
  | Ask a c => ask a c s
  | Dialog a => dialog_handle dialog set_dialog transition a s
  end.

(** * Views *)

(** One text field and no button of its own: the return key submits the form too. *)
Definition create_modal (s : state) : node action :=
  Modal.Modal "Create campaign" "Create a coordinated notification campaign for review and delivery." CloseForm
    (when (truthy (formError s)) [Txt (formError s)]
     ++ [ Inp "Campaign name" (name_ s) false SetName; submit_button "Return" false [name_ s] Submit;
          Inp "Description" (description_ s) false SetDescription ])
    [ Modal.ModalButton "Cancel" false CloseForm;
      Modal.ModalButton (if saving s then "Creating..." else "Create campaign") (saving s) Submit ].

Definition row (i : Campaign) : list (node action) :=
  [ Txt (name i) ]
  ++ when isPlatform [ Txt (or_empty (tenant_name i) ||| "-") ]
  ++ [ Txt (Status.StatusBadge (Status.SText (status i))).2; Txt (scheduled_at i ||| "-");
       Txt (created_at i) ]
  ++ when (bool_decide (status i = "draft") && can "campaigns.approve") [Btn "Approve" false (Ask approve i)]
  ++ when (bool_decide (status i = "approved") && can "campaigns.send") [Btn "Send" false (Ask send i)]
  ++ when (bool_decide (status i = "draft" \/ status i = "approved") && can "campaigns.cancel")
       [Btn "Cancel" false (Ask cancel i)].

Definition rows (s : state) : list (node action) :=
  if loading s then [Txt "Loading..."]
  else if bool_decide (length (items s) = 0%nat) then [Txt "No campaigns found"]
  else concat (map row (items s)) ++ embed Paging (Pagination.TablePagination (meta_ s) (pg s)).

Definition view (s : state) : list (node action) :=
  when (can "campaigns.create") [Btn (if showForm s then "Cancel" else "Create campaign") false ToggleForm]
  ++ when (showForm s) [create_modal s]
  ++ [ Inp "Search campaigns" (search s) false SetSearch ]
  ++ when isPlatform
       [ TenantFilter.view (tenantFilter s) SetTenantFilter
           (map (fun t => TenantFilter.Opt (t_id t) (t_name t) (t_slug t)) (tenants s)) ]
  ++ when (truthy (search s) || truthy (tenantFilter s)) [ Btn "Clear filters" false ClearFilters ]
  ++ rows s
  ++ embed Dialog (Confirm.confirmDialog (dialog s)).

End CampaignsPage.

(** * Every request is authorized *)

Section Safety.
Variable u : Principal.
Notation isPlatform := (is_platform_admin u).
Notation can := (hasPermission (Some u)).

Definition given : list string := ["campaigns.view"].

Definition permission_of (a : step_) : string := "campaigns." +:+ path_of a.

Definition guarded (s : state) : Prop :=
  (showForm s = true -> can "campaigns.create" = true)
  /\ (forall i, Confirm.pending (dialog s) = Some i ->
      exists a, i_action (Confirm.payload i) = path_of a /\ can (permission_of a) = true).

Notation safe := (Ui.safe http guarded (careful given u)).

Lemma campaign_load_safe a : safe (load a).
Proof.
  apply list_load_safe; [done| |intros ?; keeps|intros ?; keeps].
  apply Forall_singleton. reads "GET" [L "campaigns"] "campaigns.view" (@nil string).
Qed.

Lemma campaign_tenants_safe : isPlatform = true ->
  safe (quiet_load (fun ts s => s <| tenants := ts |>) ListTenants).
Proof.
  intros Hp. apply quiet_load_safe; [|intros ?; keeps]. apply Forall_singleton.
  writes "GET" [L "tenants"] "tenants.view" (@nil string). by apply platform_can.
Qed.

Lemma campaign_offered s a : guarded s -> offered (view isPlatform can s) a ->
  match a with
  | Dialog (Confirm.Request _) => False
  | ToggleForm | Submit => can "campaigns.create" = true
  | Ask a _ => can (permission_of a) = true
  | _ => True
  end.
Proof.
  intros [H1 H2] Ha.
  unfold view, rows, row, create_modal, submit_button, TenantFilter.view, Modal.Modal,
    Modal.ModalButton, Pagination.TablePagination in Ha.
  page_cases Ha; subst; guards; try done; try (by apply H1);
    by destruct act; apply confirmDialog_offers in Hact.
Qed.

Lemma campaign_submit_safe s : can "campaigns.create" = true -> safe (submit s).
Proof.
  intros Hc. unfold submit. safe_walk; [|apply Ui.safe_fork; [apply campaign_load_safe|safe_walk]].
  apply Forall_singleton. writes "POST" [L "campaigns"] "campaigns.create" (@nil string).
Qed.

Lemma campaign_transition_safe k a :
  i_action k = path_of a -> can (permission_of a) = true -> safe (transition k).
Proof.
  intros Hk Hc. unfold transition.
  safe_walk; [|apply Ui.safe_fork; [apply campaign_load_safe|safe_walk]].
  apply Forall_singleton. rewrite Hk. destruct a; unfold permission_of in Hc; simpl in Hc;
    [ writes "POST" [L "campaigns"; V "id"; L "approve"] "campaigns.approve" [i_id k]
    | writes "POST" [L "campaigns"; V "id"; L "send"] "campaigns.send" [i_id k]
    | writes "POST" [L "campaigns"; V "id"; L "cancel"] "campaigns.cancel" [i_id k] ].
Qed.

Lemma campaign_handle_safe a s :
  guarded s -> offered (view isPlatform can s) a -> safe (handle a s).
Proof.
  intros Hs Ha. apply campaign_offered in Ha; [|done].
  destruct a; try (simpl; safe_walk; fail).
  - by apply campaign_submit_safe.
  - assert (Hk : forall t d b l g, safe (set! (set_pending set_dialog
      (Some (Confirm.Intent t d b l g (Transition (id c) (path_of a) (args s))))) ;; Done)).
    { intros. safe_updates; [|safe_walk]. intros s0 [H1 H2]. split; [done|].
      simpl. intros i [= <-]. by exists a. }
    simpl. unfold ask. destruct a; apply Hk.
  - cbn [handle]. apply dialog_safe; [by destruct a|keeps|intros ?; keeps|].
    intros i Hi. destruct Hs as [_ Hs]. destruct (Hs _ Hi) as (a' & H1 & H2).
    by eapply campaign_transition_safe.
Qed.
End Safety.

(** The page reads campaigns, and takes each step only for a user who may. *)
Theorem campaigns_authorized u c :
  let can := hasPermission (Some u) in
  let isPlatform := is_platform_admin u in
  Ui.reachable http (effects isPlatform) handle (view isPlatform can) initial c ->
  Forall (careful given u) (Ui.c_trace c).
Proof.
  intros can isPlatform Hc.
  eapply (Ui.reachable_safe http _ _ _ (guarded u) (careful given u)); [..|exact Hc].
  - intros r s _. apply Forall_app. split; [dmatch; [apply Forall_singleton; safe_walk|constructor]|].
    apply Forall_app. split.
    + destruct r; [constructor|]. destruct isPlatform eqn:Hp; [|constructor].
      apply Forall_singleton. by apply campaign_tenants_safe.
    + dmatch; [apply Forall_singleton, campaign_load_safe|constructor].
  - intros a s. apply campaign_handle_safe.
  - split; [done|]. by intros ?.
Qed.

(** * The life of a campaign *)

(** What a campaign goes through, as the controls present it. *)
Inductive lifecycle : string -> step_ -> string -> Prop :=
| life_approve : lifecycle "draft" approve "approved"
| life_send : lifecycle "approved" send "sending"
| life_cancel st : st = "draft" \/ st = "approved" -> lifecycle st cancel "cancelled".

(** The controls of a campaign are the steps of its life.  A row offers a step
    exactly when the life of a campaign in the status it shows takes it, for a user
    with its permission; confirming it, the API leaves the campaign in the status
    the step leads to.  The API itself checks no status: a step confirmed on a row
    that is out of date is made whatever the campaign has become, so that a
    cancelled campaign can be sent. *)
Theorem campaign_steps_refine_life isPlatform can p s a c :
  loading s = false ->
  (offered (rows isPlatform can s) (Ask a c) <->
   c ∈ items s /\ can (permission_of a) = true /\ exists st', lifecycle (status c) a st')
  /\ (forall db row st', lifecycle (status c) a st' ->
      CampaignRow.target_status (path_of a) = Some st'
      /\ (CampaignRow.campaignStatusTransition db p st' row).2
         = if db && touches p (or_empty (CampaignRow.tenant row))
           then CampaignRow.Row (CampaignRow.tenant row) (CampaignRow.name row) (CampaignRow.description row) st'
           else row).
Proof.
  intros Hl. split.
  - unfold rows. rewrite Hl. split.
    + intros Ha. case_bool_decide; [by page_cases Ha|]. unfold row, Pagination.TablePagination in Ha.
      page_cases Ha; try done; simplify_eq; guards;
        repeat match goal with H : bool_decide _ = true |- _ => apply bool_decide_eq_true in H end;
        (split; [done|split; [done|]]).
      * match goal with H : status _ = _ |- _ => rewrite H end. eauto using lifecycle.
      * match goal with H : status _ = _ |- _ => rewrite H end. eauto using lifecycle.
      * eauto using lifecycle.
    + intros (Hc & Hp & st' & Hst). rewrite bool_decide_false by (destruct (items s); [by apply not_elem_of_nil in Hc|done]).
      apply offered_app. left. apply offered_concat. exists c. split; [done|]. unfold row.
      repeat setoid_rewrite offered_app. repeat setoid_rewrite offered_when.
      inversion Hst as [Hs|Hs|st Hs]; subst.
      * do 3 right. left. rewrite bool_decide_true by done. split; [exact Hp|by left].
      * do 4 right. left. rewrite bool_decide_true by done. split; [exact Hp|by left].
      * do 5 right. rewrite bool_decide_true by done. split; [exact Hp|by left].
  - intros db row st' Hst. split; [by inversion Hst|].
    unfold CampaignRow.campaignStatusTransition, update. by destruct db, (touches _ _).
Qed.

Definition spring : Campaign := MkCampaign "c1" "a" None "Spring" "" "approved" "" "".
Definition owner : Principal := MkPrincipal "u1" (Some "a") "owner@example.com" false ["campaigns.manage"].
Definition listed : state := initial <| loading := false |> <| items := [spring] |>.

Lemma campaign_steps_refine_life_witness :
  (offered (rows false (hasPermission (Some owner)) listed) (Ask send spring) <->
   spring ∈ items listed /\ hasPermission (Some owner) (permission_of send) = true
   /\ exists st', lifecycle (status spring) send st')
  /\ (forall db row st', lifecycle (status spring) send st' ->
      CampaignRow.target_status (path_of send) = Some st'
      /\ (CampaignRow.campaignStatusTransition db owner st' row).2
         = if db && touches owner (or_empty (CampaignRow.tenant row))
           then CampaignRow.Row (CampaignRow.tenant row) (CampaignRow.name row) (CampaignRow.description row) st'
           else row).
Proof. apply (campaign_steps_refine_life false _ owner listed send spring). reflexivity. Defined.
