(* ===== verification/ApiKeys.v ===== *)
(** pages/api-keys/ApiKeysPage.tsx: the API keys of a tenant, shown once when they
    are created. *)
From S2P Require Import Prelude Js React Query Client Components Auth Api Page.

Record ApiKey := MkKey {
  id : string; tenant_id : string; tenant_name : option string; name : string; scopes : string;
  status : string; last_used_at : string; created_at : string }.
Record Tenant := MkTenant { t_id : string; t_name : string; t_slug : string; t_status : string }.

Record load_args := LoadArgs { l_tenant : string; l_search : string; l_pg : Pagination.state }.

Record state := State {
  items : list ApiKey; loading : bool; showForm : bool; name_ : string; saving : bool; newKey : string;
  copied : bool; revokeTarget : option ApiKey; selected : option ApiKey; tenants : list Tenant;
  tenantId : string; tenantFilter : string; search : string;
  meta_ : option Pagination.PaginationMeta; pg : Pagination.state }.
#[export] Instance eta_state : Eta state := fun s =>
  State (items s) (loading s) (showForm s) (name_ s) (saving s) (newKey s) (copied s) (revokeTarget s)
    (selected s) (tenants s) (tenantId s) (tenantFilter s) (search s) (meta_ s) (pg s).

Definition initial : state :=
  State [] true false "" false "" false None None [] "" "" "" None Pagination.usePagination.

Inductive action :=
| SetSearch (v : string) | SetTenantFilter (v : string) | ClearFilters | Paging (a : Pagination.action)
| ToggleForm | CloseForm | ChooseTenant (v : string) | SetName (v : string) | Submit
| Select (k : ApiKey) | CloseSelected | Revoke (k : ApiKey) | RevokeSelected (k : ApiKey) | CloseRevoke
| ConfirmRevoke (kid : string) | CopyKey | CloseNew.

(** [WriteClipboard] and [Wait] are the browser's: no request. *)
Inductive event : Type -> Type :=
| ListKeys (a : load_args) : event (ApiList ApiKey)
| ListTenants : event (list Tenant)
| PostKey (b : json) : event string
| DeleteKey (id : string) : event unit
| WriteClipboard (text : string) : event unit
| Wait : event unit.

Definition http (X : Type) (e : event X) : list request :=
  let keys := "/admin/api/v1/api-keys" in
  match e with
  | ListKeys a =>
      [listPage keys
         ([("tenant_id", Some (l_tenant a)); ("q", Some (l_search a))] ++ page_params (l_pg a))]
  | ListTenants => [list_ "/admin/api/v1/tenants"]
  | PostKey b => [POST keys b]
  | DeleteKey id => [DELETE (keys +:+ "/" +:+ id)]
  | WriteClipboard _ | Wait => []
  end.

Section ApiKeysPage.
Variable isPlatform : bool.
Variable can : string -> bool.

(** * Effects *)

Definition args (s : state) : load_args := LoadArgs (tenantFilter s) (search s) (pg s).

Definition load (a : load_args) : prog event state :=
  list_load (fun b s => s <| loading := b |>)
    (fun res s => s <| items := data res |> <| meta_ := meta res |>)
    "Unable to load API keys" (ListKeys a).

Definition filters (s : state) : string * string := (tenantFilter s, search s).
Definition paging (s : state) : Z * Z := (Pagination.page (pg s), Pagination.perPage (pg s)).

Definition effects (r : option state) (s : state) : list (prog event state) :=
  list_effects (changed filters r s) (changed paging r s)
    (fun s => s <| pg := Pagination.setPage 1 (pg s) |>) (load (args s))
  ++ (match r with
      | None =>
          if isPlatform then [ quiet_load (fun ts s => s <| tenants := ts |>) ListTenants ] else []
      | Some _ => []
      end).

(** * Handlers *)

Definition default_name (t : Tenant) : string := t_name t +:+ " API Key".

Definition chooseTenant (value : string) (s : state) : prog event state :=
  set! (fun s => s <| tenantId := value |>) ;;
  match find (fun t => bool_decide (t_id t = value)) (tenants s) with
  | Some t =>
      if negb (truthy (name_ s)) || existsb (fun t => bool_decide (name_ s = default_name t)) (tenants s)
      then set! (fun s => s <| name_ := default_name t |>) ;; Done
      else Done
  | None => Done
  end.

Definition key_body (s : state) : json :=
  JObj ([("name", JStr (name_ s))] ++ (if isPlatform then [("tenant_id", JStr (tenantId s))] else [])).

Definition submit (s : state) : prog event state :=
  set! (fun s => s <| saving := true |>) ;; set! (fun s => s <| newKey := "" |>) ;;
  await! r <- PostKey (key_body s) ;;
  match r with
  | Ok key =>
      set! (fun s => s <| newKey := key |>) ;; set! (fun s => s <| name_ := "" |>) ;;
      emit! success_msg "API key created" "Copy it now. It will not be shown again." ;;
      fork! load (args s) ;; set! (fun s => s <| saving := false |>) ;; Done
  | Threw x =>
      emit! toast_error "Unable to create API key" "Create failed" x ;;
      set! (fun s => s <| saving := false |>) ;; Done
  end.

(** The permission to write to the clipboard may be refused. *)
Definition copyKey (s : state) : prog event state :=
  if negb (truthy (newKey s)) then Done
  else
    await! r <- WriteClipboard (newKey s) ;;
    match r with
    | Ok _ =>
        emit! OClipboard (newKey s) ;; set! (fun s => s <| copied := true |>) ;;
        await! _r <- Wait ;; set! (fun s => s <| copied := false |>) ;; Done
    | Threw _ => Done
    end.

Definition revoke (kid : string) (a : load_args) : prog event state :=
  await! r <- DeleteKey kid ;;
  match r with
  | Ok _ =>
      set! (fun s => s <| revokeTarget := None |>) ;; emit! success "API key revoked" ;;
      fork! load a ;; Done
  | Threw x => emit! toast_error "Unable to revoke API key" "Revoke failed" x ;; Done
  end.

Definition handle (a : action) (s : state) : prog event state :=
  match a with
  | SetSearch v => set! (fun s => s <| search := v |>) ;; Done
  | SetTenantFilter v => set! (fun s => s <| tenantFilter := v |>) ;; Done
  | ClearFilters =>
      set! (fun s => s <| search := "" |>) ;; set! (fun s => s <| tenantFilter := "" |>) ;; Done
  | Paging a => set! (fun s => s <| pg := Pagination.apply a (pg s) |>) ;; Done
  | ToggleForm =>
      set! (fun s' => s' <| tenantId := tenantFilter s |>) ;;
      set! (fun s' => s' <| showForm := negb (showForm s) |>) ;; Done
  | CloseForm => set! (fun s => s <| showForm := false |>) ;; Done
  | ChooseTenant v => chooseTenant v s
  | SetName v => set! (fun s => s <| name_ := v |>) ;; Done
  | Submit => submit s
  | Select k => set! (fun s => s <| selected := Some k |>) ;; Done
  | CloseSelected => set! (fun s => s <| selected := None |>) ;; Done
  | Revoke k => set! (fun s => s <| revokeTarget := Some k |>) ;; Done
  | RevokeSelected k =>
      set! (fun s => s <| selected := None |>) ;; set! (fun s => s <| revokeTarget := Some k |>) ;; Done
  | CloseRevoke => set! (fun s => s <| revokeTarget := None |>) ;; Done
  | ConfirmRevoke kid => revoke kid (args s)
  | CopyKey => copyKey s
  | CloseNew =>
      set! (fun s => s <| newKey := "" |>) ;; set! (fun s => s <| showForm := false |>) ;; Done
  end.

(** * Views *)

Definition active (k : ApiKey) : bool := bool_decide (status k = "active").

(** The button submits the form by a synthetic event, under its own condition; the
    return key in the one text field submits it by the browser, which checks only
    that the name is not empty. *)
Definition create_modal (s : state) : node action :=
  Modal.Modal "Create API key"
    "Create a tenant-scoped credential for a server, integration, or automated workflow." CloseForm
    (when isPlatform
       [ Sel "Tenant" (tenantId s) false
           (map (fun t => (t_id t, t_name t +:+ " (" +:+ t_slug t +:+ ")"))
              (filter_by (fun t => bool_decide (t_status t = "active")) (tenants s))) ChooseTenant ]
     ++ [ Inp "Key name" (name_ s) false SetName; submit_button "Return" false [name_ s] Submit ])
    [ Modal.ModalButton "Cancel" false CloseForm;
      Modal.ModalButton (if saving s then "Creating..." else "Create API key")
        (saving s || isPlatform && negb (truthy (tenantId s))) Submit ].

Definition manage_modal (k : ApiKey) : node action :=
  Modal.Modal (name k) "Tenant API key metadata and administrative controls." CloseSelected
    [ Txt (or_empty (tenant_name k) ||| tenant_id k); Txt (status k); Txt (scopes k ||| "[]");
      Txt (last_used_at k ||| "Never"); Txt (created_at k); Txt (id k) ]
    (Modal.ModalButton "Close" false CloseSelected
     :: when (active k && can "api_keys.revoke") [Modal.ModalButton "Revoke key" false (RevokeSelected k)]).

Definition created_modal (s : state) : node action :=
  Modal.Modal "API key created" "Copy this credential now. For security, it cannot be displayed again." CloseNew
    [ Txt (newKey s); Btn (if copied s then "Copied" else "Copy") false CopyKey ]
    [ Modal.ModalButton "I have saved the key" false CloseNew ].

Definition revoke_modal (k : ApiKey) : node action :=
  Modal.Modal "Revoke API key" "This credential will stop working immediately." CloseRevoke
    [ Txt ("Revoke " +:+ name k +:+ "? Any integration using this key will lose access and may begin failing.") ]
    [ Modal.ModalButton "Cancel" false CloseRevoke;
      Modal.ModalButton "Revoke key" false (ConfirmRevoke (id k)) ].

Definition row (i : ApiKey) : list (node action) :=
  [ Txt (name i) ]
  ++ when isPlatform [ Txt (or_empty (tenant_name i) ||| "-") ]
  ++ [ Txt (Status.StatusBadge (Status.SText (status i))).2; Txt (last_used_at i ||| "never");
       Txt (created_at i) ]
  ++ when (can "api_keys.view") [Btn "Manage" false (Select i)]
  ++ when (active i && can "api_keys.revoke") [Btn "Revoke" false (Revoke i)].

Definition view (s : state) : list (node action) :=
  when (can "api_keys.create") [Btn (if showForm s then "Cancel" else "Create API key") false ToggleForm]
  ++ [ Inp "Search API keys" (search s) false SetSearch ]
  ++ when isPlatform
       [ TenantFilter.view (tenantFilter s) SetTenantFilter
           (map (fun t => TenantFilter.Opt (t_id t) (t_name t) (Some (t_slug t))) (tenants s)) ]
  ++ when (truthy (search s) || truthy (tenantFilter s)) [ Btn "Clear filters" false ClearFilters ]
  ++ (if loading s then [Txt "Loading..."]
      else if bool_decide (length (items s) = 0%nat) then [Txt "No API keys found"]
      else concat (map row (items s)) ++ embed Paging (Pagination.TablePagination (meta_ s) (pg s)))
  ++ when (showForm s && negb (truthy (newKey s))) [create_modal s]
  ++ (match selected s with Some k => [manage_modal k] | None => [] end)
  ++ when (truthy (newKey s)) [created_modal s]
  ++ (match revokeTarget s with Some k => [revoke_modal k] | None => [] end).

End ApiKeysPage.

(** * Every request is authorized *)

Section Safety.
Variable u : Principal.
Notation isPlatform := (is_platform_admin u).
Notation can := (hasPermission (Some u)).

Definition given : list string := ["api_keys.view"].

Definition guarded (s : state) : Prop :=
  (showForm s = true -> can "api_keys.create" = true)
  /\ (revokeTarget s <> None -> can "api_keys.revoke" = true).

Notation safe := (Ui.safe http guarded (careful given u)).

Lemma key_load_safe a : safe (load a).
Proof.
  apply list_load_safe; [done| |intros ?; keeps|intros ?; keeps].
  apply Forall_singleton. reads "GET" [L "api-keys"] "api_keys.view" (@nil string).
Qed.

Lemma key_tenants_safe : isPlatform = true ->
  safe (quiet_load (fun ts s => s <| tenants := ts |>) ListTenants).
Proof.
  intros Hp. apply quiet_load_safe; [|intros ?; keeps]. apply Forall_singleton.
  writes "GET" [L "tenants"] "tenants.view" (@nil string). by apply platform_can.
Qed.

Lemma key_offered s a : guarded s -> offered (view isPlatform can s) a ->
  match a with
  | ToggleForm | Submit => can "api_keys.create" = true
  | Revoke _ | RevokeSelected _ | ConfirmRevoke _ => can "api_keys.revoke" = true
  | _ => True
  end.
Proof.
  intros [H1 H2] Ha.
  unfold view, row, create_modal, manage_modal, created_modal, revoke_modal, submit_button,
    TenantFilter.view, Modal.Modal, Modal.ModalButton, Pagination.TablePagination in Ha.
  page_cases Ha; subst; guards; try done; try (by apply H1); by apply H2; congruence.
Qed.

Lemma key_body_reads s : decodes CreateAPIKey_req (key_body isPlatform s) = true.
Proof. unfold key_body. by destruct isPlatform. Qed.

Lemma key_submit_safe s : can "api_keys.create" = true -> safe (submit isPlatform s).
Proof.
  intros Hc. unfold submit. safe_walk; [|apply Ui.safe_fork; [apply key_load_safe|safe_walk]].
  apply Forall_singleton. writes_body "POST" [L "api-keys"] "api_keys.create" (@nil string) (key_body_reads s).
Qed.

Lemma key_handle_safe a s :
  guarded s -> offered (view isPlatform can s) a -> safe (handle isPlatform a s).
Proof.
  intros Hs Ha. apply key_offered in Ha; [|done].
  destruct a; try (simpl; unfold chooseTenant, copyKey; safe_walk; try constructor; fail).
  - by apply key_submit_safe.
  - simpl. unfold revoke. safe_walk; [|apply Ui.safe_fork; [apply key_load_safe|safe_walk]].
    apply Forall_singleton. writes "DELETE" [L "api-keys"; V "id"] "api_keys.revoke" [kid].
Qed.
End Safety.

(** The page reads keys, and creates and revokes them only for a user who may. *)
Theorem api_keys_authorized u c :
  let can := hasPermission (Some u) in
  let isPlatform := is_platform_admin u in
  Ui.reachable http (effects isPlatform) (handle isPlatform) (view isPlatform can) initial c ->
  Forall (careful given u) (Ui.c_trace c).
Proof.
  intros can isPlatform Hc.
  eapply (Ui.reachable_safe http _ _ _ (guarded u) (careful given u)); [..|exact Hc].
  - intros r s _. apply Forall_app. split; [apply list_effects_safe; [keeps|apply key_load_safe]|].
    destruct r; [constructor|]. destruct isPlatform eqn:Hp; [|constructor].
    apply Forall_singleton. by apply key_tenants_safe.
  - intros a s. apply key_handle_safe.
  - split; [done|]. by intros ?.
Qed.

(** * A key nobody sees *)

(** The API: each key is named after its request. *)
Definition sample_server (X : Type) (e : event X) : result X :=
  match e with
  | ListKeys _ => Ok (MkList [] None)
  | ListTenants => Ok [MkTenant "a" "Acme" "acme" "active"]
  | PostKey b => Ok ("key-of-" +:+ match jfield b "name" with Some (JStr n) => n | _ => "" end)
  | DeleteKey _ | WriteClipboard _ | Wait => Ok tt
  end.

Notation page_reachable p :=
  (Ui.reachable http (effects p) (handle p) (view p (fun _ => true)) initial).
Notation played p ms :=
  (Ui.play http (effects p) (handle p) (view p (fun _ => true)) sample_server ms (Ui.initial initial)).
Notation played_reach p ms :=
  (Ui.played http (effects p) (handle p) (view p (fun _ => true)) sample_server initial ms).
Notation Do l := (Ui.Do (Click l)).
Notation Render := Ui.Render.

Definition open_form : list Ui.move :=
  [Render; Render; Ui.Settle 4; Render; Do "Create API key" 0; Render]%nat.
(** Return, another name, Return again; then both answers. *)
Definition return_twice : list Ui.move :=
  open_form ++ [Ui.Do (Fill "Key name" "A") 0; Render; Do "Return" 0; Render;
                Ui.Do (Fill "Key name" "B") 0; Render; Do "Return" 0; Render; Ui.Settle 8; Render]%nat.
Definition return_without_tenant : list Ui.move :=
  open_form ++ [Ui.Do (Fill "Key name" "A") 0; Render; Do "Return" 0]%nat.

(** The return key in the name field submits the creation form whatever the
    button's own conditions: while a creation is under way, so that two keys are
    created and the dialog, which shows each key for the only time, is left with
    the second; and for a platform user with no tenant chosen, which the API
    refuses. *)
Theorem return_key_creates_unseen_key :
  (exists c, played false return_twice = Some c /\ page_reachable false c
     /\ Ui.c_pool c = [] /\ newKey (Ui.c_state c) = "key-of-B"
     /\ OReq (POST "/admin/api/v1/api-keys" (JObj [("name", JStr "A")])) ∈ Ui.c_trace c
     /\ OReq (POST "/admin/api/v1/api-keys" (JObj [("name", JStr "B")])) ∈ Ui.c_trace c
     /\ OClipboard "key-of-A" ∉ Ui.c_trace c)
  /\ (exists c, played true return_without_tenant = Some c /\ page_reachable true c
     /\ head (Ui.c_trace c)
        = Some (OReq (POST "/admin/api/v1/api-keys" (JObj [("name", JStr "A"); ("tenant_id", JStr "")])))).
Proof.
  split.
  - eexists. split; [vm_compute; reflexivity|].
    split; [apply (played_reach false return_twice); vm_compute; reflexivity|].
    do 2 (split; [reflexivity|]). rewrite !list_elem_of_In.
    split; [vm_compute; tauto|]. split; [vm_compute; tauto|].
    vm_compute. intros H. repeat destruct H as [H|H]; done.
  - eexists. split; [vm_compute; reflexivity|].
    split; [apply (played_reach true return_without_tenant); vm_compute; reflexivity|done].
Qed.
