(* ===== verification/Channels.v ===== *)
(** pages/channels/ChannelsPage.tsx: the channels of the platform and their switches. *)
From S2P Require Import Prelude Js React Query Client Components Auth Api Page.

Record ChannelCatalogItem := Item {
  channel : string; description : string; tenant_count : Z; enabled : bool }.
#[export] Instance eta_item : Eta ChannelCatalogItem := fun c =>
  Item (channel c) (description c) (tenant_count c) (enabled c).

Definition CHANNEL_MODES : obj string :=
  [ ("email", "one_way/two_way"); ("sms", "one_way/two_way"); ("fcm", "one_way");
    ("websocket", "two_way"); ("in_app", "two_way"); ("whatsapp", "two_way"); ("web_push", "one_way") ].

Record load_args := LoadArgs { l_search : string; l_status : string; l_pg : Pagination.state }.

Record state := State {
  items : list ChannelCatalogItem; loading : bool; saving : string;
  meta_ : option Pagination.PaginationMeta; search : string; statusFilter : string;
  pg : Pagination.state; dialog : Confirm.state ChannelCatalogItem }.
#[export] Instance eta_state : Eta state := fun s =>
  State (items s) (loading s) (saving s) (meta_ s) (search s) (statusFilter s) (pg s) (dialog s).

Definition initial : state := State [] true "" None "" "" Pagination.usePagination Confirm.initial.

Definition set_dialog (f : Confirm.state ChannelCatalogItem -> Confirm.state ChannelCatalogItem)
    (s : state) : state := s <| dialog := f (dialog s) |>.

Inductive action :=
| SetSearch (v : string) | SetStatusFilter (v : string) | ClearFilters | Paging (a : Pagination.action)
| AskToggle (i : ChannelCatalogItem) | Dialog (a : Confirm.action ChannelCatalogItem).

Inductive event : Type -> Type :=
| ListChannels (a : load_args) : event (ApiList ChannelCatalogItem)
| PutChannel (channel : string) (enabled : bool) : event unit.

Definition http (X : Type) (e : event X) : list request :=
  let catalog := "/admin/api/v1/channel-catalog" in
  match e with
  | ListChannels a =>
      [listPage catalog
         ([("q", Some (l_search a)); ("filter_enabled", Some (l_status a))] ++ page_params (l_pg a))]
  | PutChannel c b => [PUT (catalog +:+ "/" +:+ c) (JObj [("enabled", JBool b)])]
  end.

Section ChannelsPage.
Variable can : string -> bool.

Definition args (s : state) : load_args := LoadArgs (search s) (statusFilter s) (pg s).

Definition load (a : load_args) : prog event state :=
  list_load (fun b s => s <| loading := b |>)
    (fun res s => s <| items := data res |> <| meta_ := meta res |>)
    "Unable to load channel catalog" (ListChannels a).

Definition filters (s : state) : string * string := (search s, statusFilter s).
Definition paging (s : state) : Z * Z := (Pagination.page (pg s), Pagination.perPage (pg s)).

Definition effects (r : option state) (s : state) : list (prog event state) :=
  list_effects (changed filters r s) (changed paging r s)
    (fun s => s <| pg := Pagination.setPage 1 (pg s) |>) (load (args s)).

(** [item.channel.replace('_', ' ')]: the first underscore only. *)
Definition shown_name (i : ChannelCatalogItem) : string :=
  replace_first_char (ascii_of_nat 95) (ascii_of_nat 32) (channel i).

(** Sends the opposite of what the item had when the dialog was opened; switches
    what the row has now. *)
Definition toggle (item : ChannelCatalogItem) : prog event state :=
  set! (fun s => s <| saving := channel item |>) ;;
  await! r <- PutChannel (channel item) (negb (enabled item)) ;;
  match r with
  | Ok _ =>
      set! (fun s => s <| items := map (fun x =>
        if decide (channel x = channel item) then x <| enabled := negb (enabled x) |> else x) (items s) |>) ;;
      emit! success_msg (if enabled item then "Channel disabled globally" else "Channel enabled globally")
        (shown_name item) ;;
      set! (fun s => s <| saving := "" |>) ;; Done
  | Threw x =>
      emit! toast_error "Unable to update channel" "Update failed" x ;;
      set! (fun s => s <| saving := "" |>) ;; Done
  end.

Definition askToggle (i : ChannelCatalogItem) : prog event state :=
  if negb (can "channels.update") then Done
  else
    set! (set_pending set_dialog (Some (Confirm.Intent
      ((if enabled i then "Disable" else "Enable") +:+ " channel globally")
      (Some "Confirm global channel status change")
      (Some ("Change " +:+ shown_name i +:+ " for every tenant?"))
      (Some (if enabled i then "Disable globally" else "Enable globally")) (enabled i) i))) ;; Done.

Definition handle (a : action) (s : state) : prog event state :=
  match a with
  | SetSearch v => set! (fun s => s <| search := v |>) ;; Done
  | SetStatusFilter v => set! (fun s => s <| statusFilter := v |>) ;; Done
  | ClearFilters =>
      set! (fun s => s <| search := "" |>) ;; set! (fun s => s <| statusFilter := "" |>) ;; Done
  | Paging a => set! (fun s => s <| pg := Pagination.apply a (pg s) |>) ;; Done
  | AskToggle i => askToggle i
  | Dialog a => dialog_handle dialog set_dialog toggle a s
  end.

Definition row (s : state) (i : ChannelCatalogItem) : list (node action) :=
  [ Txt (shown_name i); Txt (channel i); Txt (description i ||| "-");
    Txt (oget_str CHANNEL_MODES (channel i) ||| "-");
    Txt (pretty (tenant_count i) +:+ " tenant" +:+ (if decide (tenant_count i = 1) then "" else "s"));
    Status.StatusToggle (enabled i) ((if enabled i then "Disable " else "Enable ") +:+ channel i)
      (negb (can "channels.update") || bool_decide (saving s = channel i)) (AskToggle i) ].

Definition view (s : state) : list (node action) :=
  [ Inp "Search channels" (search s) false SetSearch;
    Sel "Status" (statusFilter s) false
      [("", "All statuses"); ("true", "Enabled"); ("false", "Disabled")] SetStatusFilter ]
  ++ when (truthy (search s) || truthy (statusFilter s)) [ Btn "Clear filters" false ClearFilters ]
  ++ (if loading s then [Txt "Loading..."]
      else if bool_decide (length (items s) = 0%nat) then [Txt "No channels found"]
      else concat (map (row s) (items s)))
  ++ when (negb (loading s)) (embed Paging (Pagination.TablePagination (meta_ s) (pg s)))
  ++ embed Dialog (Confirm.confirmDialog (dialog s)).

End ChannelsPage.

(** * Every request is authorized *)

Section Safety.
Variable u : Principal.
Notation can := (hasPermission (Some u)).

Definition given : list string := ["channels.view"].

Definition guarded (s : state) : Prop :=
  Confirm.pending (dialog s) <> None -> can "channels.update" = true.

Notation safe := (Ui.safe http guarded (careful given u)).

Lemma channel_load_safe a : safe (load a).
Proof.
  apply list_load_safe; [done| |intros ?; keeps|intros ?; keeps].
  apply Forall_singleton. reads "GET" [L "channel-catalog"] "channels.view" (@nil string).
Qed.

Lemma channel_toggle_safe i : can "channels.update" = true -> safe (toggle i).
Proof.
  intros Hc. unfold toggle. safe_walk. apply Forall_singleton.
  writes "PUT" [L "channel-catalog"; V "channel"] "channels.update" [channel i].
Qed.

Lemma channel_handle_safe a s :
  guarded s -> offered (view can s) a -> safe (handle can a s).
Proof.
  intros Hs Ha. destruct a; try (simpl; safe_walk; fail).
  - simpl. unfold askToggle. safe_walk. intros _. by guards.
  - cbn [handle]. apply dialog_safe; [|keeps|intros ?; keeps|].
    + unfold view, row, Status.StatusToggle, Pagination.TablePagination in Ha.
      page_cases Ha; try done; simplify_eq. by destruct act; apply confirmDialog_offers in Hact.
    + intros i Hi. apply channel_toggle_safe, Hs. congruence.
Qed.
End Safety.

(** The page reads the catalog and switches a channel only for a user who may. *)
Theorem channels_authorized u c :
  let can := hasPermission (Some u) in
  Ui.reachable http effects (handle can) (view can) initial c ->
  Forall (careful given u) (Ui.c_trace c).
Proof.
  intros can Hc.
  eapply (Ui.reachable_safe http _ _ _ (guarded u) (careful given u)); [..|exact Hc].
  - intros r s _. apply list_effects_safe; [keeps|apply channel_load_safe].
  - intros a s. apply channel_handle_safe.
  - by intros ?.
Qed.

(** * What a switch shows *)

Definition email (b : bool) : ChannelCatalogItem := Item "email" "" 1 b.

(** The API: the channel is on in the first list; another administrator switches it
    off before the second, which is asked for with a search. *)
Definition sample_server (X : Type) (e : event X) : result X :=
  match e with
  | ListChannels a => Ok (MkList [email (bool_decide (l_search a = ""))] None)
  | PutChannel _ _ => Ok tt
  end.

Notation page_reachable :=
  (Ui.reachable http effects (handle (fun _ => true)) (view (fun _ => true)) initial).
Notation played ms :=
  (Ui.play http effects (handle (fun _ => true)) (view (fun _ => true)) sample_server ms (Ui.initial initial)).
Notation played_reach ms :=
  (Ui.played http effects (handle (fun _ => true)) (view (fun _ => true)) sample_server initial ms).
Notation Do l := (Ui.Do (Click l)).
Notation Render := Ui.Render.

(** The dialog is opened; with it open a search is typed and its rows arrive; the
    dialog is confirmed. *)
Definition stale_switch : list Ui.move :=
  [Render; Render; Ui.Settle 4; Render; Do "Disable email: Enabled" 0; Render;
   Ui.Do (Fill "Search channels" "e") 0; Render; Render; Ui.Settle 4; Render;
   Do "Disable globally" 0; Render; Ui.Settle 4; Render]%nat.

(** Confirming a switch sends the opposite of what its row had when the dialog
    was opened, and then switches the row as it is: a row that has not changed
    shows what was sent, and a row that has shows the opposite: the channel just
    disabled for every tenant is shown enabled. *)
Theorem switch_can_show_the_opposite :
  (forall (srv : forall X, event X -> result X) item s, srv unit (PutChannel (channel item) (negb (enabled item))) = Ok tt ->
     let '(s', outs, _) := Ui.exec http srv (toggle item) s in
     head outs = Some (OReq (PUT ("/admin/api/v1/channel-catalog/" +:+ channel item)
                                 (JObj [("enabled", JBool (negb (enabled item)))])))
     /\ forall n x, items s !! n = Some x -> exists x', items s' !! n = Some x' /\ channel x' = channel x
        /\ enabled x' = (if decide (channel x = channel item) then negb (enabled x) else enabled x))
  /\ (exists c, played stale_switch = Some c /\ page_reachable c
     /\ Ui.c_pool c = [] /\ Ui.c_dirty c = false /\ items (Ui.c_state c) = [email true]
     /\ OReq (PUT "/admin/api/v1/channel-catalog/email" (JObj [("enabled", JBool false)])) ∈ Ui.c_trace c
     /\ OReq (PUT "/admin/api/v1/channel-catalog/email" (JObj [("enabled", JBool true)])) ∉ Ui.c_trace c).
Proof.
  split.
  - intros srv item s Hs. unfold toggle. simpl. rewrite Hs. simpl. split; [done|].
    intros n x Hx. rewrite list_lookup_fmap, Hx. simpl. eexists. split; [done|].
    by case_decide.
  - eexists. split; [vm_compute; reflexivity|].
    split; [apply (played_reach stale_switch); vm_compute; reflexivity|].
    do 3 (split; [reflexivity|]). rewrite !list_elem_of_In. split; [vm_compute; tauto|].
    vm_compute. intros H. repeat destruct H as [H|H]; done.
Qed.
