(* ===== verification/Features.v ===== *)
(** pages/features/FeaturesPage.tsx: the features of the platform and their switches. *)
From S2P Require Import Prelude Js React Query Client Components Auth Api Page.

Record FeatureCatalogItem := Item {
  identifier : string; feature_key : string; name : string; description : string; category : string;
  tenant_count : Z; status : option string; enabled : bool }.
#[export] Instance eta_item : Eta FeatureCatalogItem := fun c =>
  Item (identifier c) (feature_key c) (name c) (description c) (category c) (tenant_count c) (status c)
    (enabled c).

Record load_args := LoadArgs { l_search : string; l_category : string; l_pg : Pagination.state }.

Record state := State {
  items : list FeatureCatalogItem; loading : bool; search : string; categoryFilter : string;
  meta_ : option Pagination.PaginationMeta; pg : Pagination.state;
  dialog : Confirm.state FeatureCatalogItem }.
#[export] Instance eta_state : Eta state := fun s =>
  State (items s) (loading s) (search s) (categoryFilter s) (meta_ s) (pg s) (dialog s).

Definition initial : state := State [] true "" "" None Pagination.usePagination Confirm.initial.

Definition set_dialog (f : Confirm.state FeatureCatalogItem -> Confirm.state FeatureCatalogItem)
    (s : state) : state := s <| dialog := f (dialog s) |>.

Inductive action :=
| SetSearch (v : string) | SetCategory (v : string) | Paging (a : Pagination.action)
| AskToggle (i : FeatureCatalogItem) | Dialog (a : Confirm.action FeatureCatalogItem).

Inductive event : Type -> Type :=
| ListFeatures (a : load_args) : event (ApiList FeatureCatalogItem)
| PutFeature (identifier : string) (enabled : bool) : event unit.

Definition http (X : Type) (e : event X) : list request :=
  let catalog := "/admin/api/v1/feature-catalog" in
  match e with
  | ListFeatures a =>
      [listPage catalog
         ([("q", Some (l_search a)); ("filter_category", Some (l_category a))] ++ page_params (l_pg a))]
  | PutFeature i b => [PUT (catalog +:+ "/" +:+ encodeURIComponent i) (JObj [("enabled", JBool b)])]
  end.

Section FeaturesPage.
Variable can : string -> bool.

Definition args (s : state) : load_args := LoadArgs (search s) (categoryFilter s) (pg s).

Definition load (a : load_args) : prog event state :=
  list_load (fun b s => s <| loading := b |>)
    (fun res s => s <| items := data res |> <| meta_ := meta res |>)
    "Unable to load feature catalog" (ListFeatures a).

Definition filters (s : state) : string * string := (search s, categoryFilter s).
Definition paging (s : state) : Z * Z := (Pagination.page (pg s), Pagination.perPage (pg s)).

Definition effects (r : option state) (s : state) : list (prog event state) :=
  list_effects (changed filters r s) (changed paging r s)
    (fun s => s <| pg := Pagination.setPage 1 (pg s) |>) (load (args s)).

(** The categories offered are those of the rows listed. *)
Definition categories (s : state) : list string := unique (map category (items s)).

Definition toggleFeature (item : FeatureCatalogItem) : prog event state :=
  let enabled' := negb (enabled item) in
  await! r <- PutFeature (identifier item) enabled' ;;
  match r with
  | Ok _ =>
      set! (fun s => s <| items := map (fun x =>
        if decide (identifier x = identifier item)
        then x <| enabled := enabled' |> <| status := Some (if enabled' then "active" else "disabled") |>
        else x) (items s) |>) ;;
      emit! success_msg (if enabled' then "Feature enabled" else "Feature disabled") (name item) ;; Done
  | Threw x => emit! toast_error "Unable to update feature" "Update failed" x ;; Done
  end.

Definition askToggle (i : FeatureCatalogItem) : prog event state :=
  set! (set_pending set_dialog (Some (Confirm.Intent
    ((if enabled i then "Disable" else "Enable") +:+ " feature")
    (Some "Confirm feature catalog status change")
    (Some ("Change " +:+ name i +:+ " to " +:+ (if enabled i then "disabled" else "enabled") +:+ "?"))
    (Some (if enabled i then "Disable" else "Enable")) (enabled i) i))) ;; Done.

Definition handle (a : action) (s : state) : prog event state :=
  match a with
  | SetSearch v => set! (fun s => s <| search := v |>) ;; Done
  | SetCategory v => set! (fun s => s <| categoryFilter := v |>) ;; Done
  | Paging a => set! (fun s => s <| pg := Pagination.apply a (pg s) |>) ;; Done
  | AskToggle i => askToggle i
  | Dialog a => dialog_handle dialog set_dialog toggleFeature a s
  end.

Definition row (i : FeatureCatalogItem) : list (node action) :=
  [ Txt (name i); Txt (identifier i); Txt (description i); Txt (category i);
    Txt (pretty (tenant_count i) +:+ " tenant" +:+ (if decide (tenant_count i = 1) then "" else "s"));
    Status.StatusToggle (enabled i) ((if enabled i then "Disable " else "Enable ") +:+ name i)
      (negb (can "features.update")) (AskToggle i) ].

Definition view (s : state) : list (node action) :=
  [ Inp "Search features" (search s) false SetSearch;
    Sel "Category" (categoryFilter s) false
      (("", "All categories") :: map (fun v => (v, v)) (categories s)) SetCategory;
    Txt (pretty (from_option Pagination.m_total (Z.of_nat (length (items s))) (meta_ s))
         +:+ " platform capabilities") ]
  ++ (if loading s then [Txt "Loading feature catalog..."]
      else if bool_decide (length (items s) = 0%nat) then [Txt "No matching features"]
      else concat (map row (items s)))
  ++ when (negb (loading s)) (embed Paging (Pagination.TablePagination (meta_ s) (pg s)))
  ++ embed Dialog (Confirm.confirmDialog (dialog s)).

End FeaturesPage.

(** * Every request is authorized *)

Section Safety.
Variable u : Principal.
Notation can := (hasPermission (Some u)).

Definition given : list string := ["features.view"].

Definition guarded (s : state) : Prop :=
  Confirm.pending (dialog s) <> None -> can "features.update" = true.

Notation safe := (Ui.safe http guarded (careful given u)).

Lemma feature_load_safe a : safe (load a).
Proof.
  apply list_load_safe; [done| |intros ?; keeps|intros ?; keeps].
  apply Forall_singleton. reads "GET" [L "feature-catalog"] "features.view" (@nil string).
Qed.

Lemma feature_toggle_safe i : can "features.update" = true -> safe (toggleFeature i).
Proof.
  intros Hc. unfold toggleFeature. safe_walk. apply Forall_singleton.
  writes "PUT" [L "feature-catalog"; V "identifier"] "features.update" [encodeURIComponent (identifier i)].
Qed.

Lemma feature_handle_safe a s :
  guarded s -> offered (view can s) a -> safe (handle a s).
Proof.
  intros Hs Ha. destruct a; try (simpl; safe_walk; fail).
  - simpl. unfold askToggle. safe_updates; [|safe_walk]. intros ? _ _.
    unfold view, row, Status.StatusToggle, Pagination.TablePagination in Ha.
    page_cases Ha; try done; simplify_eq. by guards.
  - cbn [handle]. apply dialog_safe; [|keeps|intros ?; keeps|].
    + unfold view, row, Status.StatusToggle, Pagination.TablePagination in Ha.
      page_cases Ha; try done; simplify_eq. by destruct act; apply confirmDialog_offers in Hact.
    + intros i Hi. apply feature_toggle_safe, Hs. congruence.
Qed.
End Safety.

(** The page reads the catalog and switches a feature only for a user who may. *)
Theorem features_authorized u c :
  let can := hasPermission (Some u) in
  Ui.reachable http effects handle (view can) initial c ->
  Forall (careful given u) (Ui.c_trace c).
Proof.
  intros can Hc.
  eapply (Ui.reachable_safe http _ _ _ (guarded u) (careful given u)); [..|exact Hc].
  - intros r s _. apply list_effects_safe; [keeps|apply feature_load_safe].
  - intros a s. apply feature_handle_safe.
  - by intros ?.
Qed.

(** * What a switch shows *)

(** Whatever the rows have become since the dialog was opened, a switch that
    succeeds leaves the row of the feature with the value sent, the other rows as
    they were, and one that fails changes no row. *)
Theorem feature_row_shows_what_was_sent srv item s n x :
  items s !! n = Some x ->
  let sent := negb (enabled item) in
  let '(s', outs, _) := Ui.exec http srv (toggleFeature item) s in
  head outs = Some (OReq (PUT ("/admin/api/v1/feature-catalog/" +:+ encodeURIComponent (identifier item))
                              (JObj [("enabled", JBool sent)])))
  /\ match srv unit (PutFeature (identifier item) sent) with
     | Ok _ => exists x', items s' !! n = Some x' /\ identifier x' = identifier x
         /\ (if decide (identifier x = identifier item)
             then enabled x' = sent /\ status x' = Some (if sent then "active" else "disabled")
             else x' = x)
     | Threw _ => items s' = items s
     end.
Proof.
  intros Hx. unfold toggleFeature. simpl. destruct (srv _ _); simpl; (split; [done|]); [|done].
  rewrite list_lookup_fmap, Hx. simpl. eexists. split; [done|]. by case_decide.
Qed.

Definition campaigns : FeatureCatalogItem := Item "campaigns" "campaigns" "Campaigns" "" "delivery" 1 None true.

Lemma feature_row_shows_what_was_sent_witness :
  let '(s', outs, _) := Ui.exec http (fun X e => match e with ListFeatures _ => Ok (MkList [] None) | PutFeature _ _ => Ok tt end)
      (toggleFeature campaigns) (initial <| items := [campaigns] |>) in
  head outs = Some (OReq (PUT "/admin/api/v1/feature-catalog/campaigns" (JObj [("enabled", JBool false)])))
  /\ exists x', items s' !! 0%nat = Some x' /\ identifier x' = "campaigns"
     /\ enabled x' = false /\ status x' = Some "disabled".
Proof.
  apply (feature_row_shows_what_was_sent (fun X e => match e with ListFeatures _ => Ok (MkList [] None) | PutFeature _ _ => Ok tt end)
    campaigns (initial <| items := [campaigns] |>) 0 campaigns). reflexivity.
Defined.
