(* ===== verification/Switches.v ===== *)
(** The switches of the platform and of its tenants (internal/http/handlers/handlers.go):
    the catalogs of features, channels and providers, and the features, channels and
    providers of a tenant; the queries of internal/features and internal/channels that
    a send makes of them; and what the switches on the pages of the catalogs and of a
    tenant do to the sends of every tenant.

    A write is one statement; [succeeds] says whether it is answered. *)
From stdpp Require Import gmap.
From S2P Require Channels Features Providers TenantDetail.
From S2P Require Import Prelude Js Json React Query Client Components Auth Api Page Handlers Accounts Secrets Rbac.
From S2P Require Import Template SendPage Delivery Notify ProviderConfigs Provision.

(** * Tables *)

Record tenant_feature := TenantFeature { tf_tenant : string; tf_key : string; tf_enabled : bool }.
#[export] Instance eta_tenant_feature : Eta tenant_feature := fun f =>
  TenantFeature (tf_tenant f) (tf_key f) (tf_enabled f).
Record tenant_channel := TenantChannel { tc_tenant : string; tc_channel : string; tc_row : channel_row }.
#[export] Instance eta_tenant_channel : Eta tenant_channel := fun c =>
  TenantChannel (tc_tenant c) (tc_channel c) (tc_row c).
#[export] Instance eta_channel_row : Eta channel_row := fun c =>
  ChannelRow (ch_enabled c) (ch_direction c) (ch_rate c) (ch_quota c) (ch_priority c).

(** The catalogs by their keys, with the status of a feature and whether a channel or a
    provider is enabled; the rows of tenants by their identifiers. *)
Record platform := Platform {
  feature_catalog : gmap string string;
  platform_channels : gmap string bool;
  platform_providers : gmap string bool;
  tenant_features : gmap string tenant_feature;
  tenant_channels : gmap string tenant_channel;
  provider_configs : provider_table }.
#[export] Instance eta_platform : Eta platform := fun d =>
  Platform (feature_catalog d) (platform_channels d) (platform_providers d) (tenant_features d)
    (tenant_channels d) (provider_configs d).

(** * Handlers *)

(** [UPDATE ... SET ... WHERE key = ...] on a catalog, for a platform user. *)
Definition update_catalog {V} (w : around) (p : Principal) (key : string) (value : bool -> V) (body : option json)
    (rows : gmap string V) : Z * gmap string V :=
  if negb (is_platform_admin p) then (403, rows)
  else
    match decoded enabled_req body with
    | None => (400, rows)
    | Some b =>
        match jfield b "enabled" with
        | Some (JBool enabled) =>
            if negb (succeeds w) then (500, rows)
            else if row_exists rows key then (200, <[key := value enabled]> rows) else (404, rows)
        | _ => (400, rows)
        end
    end.

Definition UpdateFeatureCatalog (w : around) (p : Principal) (identifier : string) (body : option json) (d : platform)
    : Z * platform :=
  let '(st, rows) := update_catalog w p identifier (fun b : bool => if b then "active" else "disabled") body
                       (feature_catalog d) in
  (st, d <| feature_catalog := rows |>).
Definition UpdatePlatformChannel (w : around) (p : Principal) (channel : string) (body : option json) (d : platform)
    : Z * platform :=
  let '(st, rows) := update_catalog w p channel id body (platform_channels d) in
  (st, d <| platform_channels := rows |>).
Definition UpdateProviderType (w : around) (p : Principal) (provider : string) (body : option json) (d : platform)
    : Z * platform :=
  let '(st, rows) := update_catalog w p provider id body (platform_providers d) in
  (st, d <| platform_providers := rows |>).

(** [UPDATE ... WHERE id = ...], and of the tenant unless the user is of the platform. *)
Definition update_row {V} (w : around) (p : Principal) (tenant_of : V -> string) (i : string) (f : V -> V)
    (rows : gmap string V) : Z * gmap string V :=
  if negb (succeeds w) then (500, rows)
  else
    match rows !! i with
    | Some r => if touches p (tenant_of r) then (200, <[i := f r]> rows) else (404, rows)
    | None => (404, rows)
    end.

Definition UpdateFeature (w : around) (p : Principal) (i : string) (body : option json) (d : platform) : Z * platform :=
  match decoded enabled_req body with
  | None => (400, d)
  | Some b =>
      let '(st, rows) := update_row w p tf_tenant i (fun f => f <| tf_enabled := flag b "enabled" |>)
                           (tenant_features d) in
      (st, d <| tenant_features := rows |>)
  end.

(** The members that are sent; a number that a column of four bytes does not hold is an
    error. *)
Definition UpdateChannel (w : around) (p : Principal) (i : string) (body : option json) (d : platform) : Z * platform :=
  match decoded UpdateChannel_req body with
  | None => (400, d)
  | Some b =>
      let set k old := default old (QueueRow.pint b k) in
      if negb (forallb (fun k => int4 (set k 0)) ["rate_limit_per_second"; "daily_quota"; "priority"]) then (500, d)
      else
        let '(st, rows) :=
          update_row w p tc_tenant i (fun c =>
            c <| tc_row := ChannelRow
                   (match jfield b "enabled" with Some (JBool x) => x | _ => ch_enabled (tc_row c) end)
                   (Handlers.kept (ch_direction (tc_row c)) (member b "direction"))
                   (set "rate_limit_per_second" (ch_rate (tc_row c)))
                   (set "daily_quota" (ch_quota (tc_row c)))
                   (set "priority" (ch_priority (tc_row c))) |>) (tenant_channels d) in
        (st, d <| tenant_channels := rows |>)
  end.

(** * What a send reads *)

Definition feature_row (tenantID key : string) (f : tenant_feature) : bool :=
  bool_decide (tf_tenant f = tenantID /\ tf_key f = key).
Definition channel_of (tenantID channel : string) (c : tenant_channel) : bool :=
  bool_decide (tc_tenant c = tenantID /\ tc_channel c = channel).
Definition default_of (tenantID channel : string) (x : string * provider_row) : bool :=
  bool_decide (x.1 = tenantID /\ pr_channel x.2 = channel) && active_default x.2.

(** [features.Enabled] *)
Definition Enabled (d : platform) (tenantID key : string) : option bool :=
  (fun r => tf_enabled r.2) <$> row_where (feature_row tenantID key) (tenant_features d).

(** The provider of the query of [channels.ValidateSend], empty if there is none. *)
Definition default_provider (d : platform) (tenantID channel : string) : string :=
  match row_where (default_of tenantID channel) (provider_configs d) with
  | Some (_, (_, r)) => if decide (platform_providers d !! pr_provider r = Some true) then pr_provider r else ""
  | None => ""
  end.

(** The row of the query. *)
Definition config_row (d : platform) (tenantID channel : string) : option (bool * string * string) :=
  c ← row_where (channel_of tenantID channel) (tenant_channels d);
  if decide (platform_channels d !! channel = Some true)
  then Some (ch_enabled (tc_row c.2), ch_direction (tc_row c.2), default_provider d tenantID channel) else None.

(** The surroundings of a send, with these answers. *)
Definition sends_on (d : platform) (tenantID : string) (w : surroundings) : surroundings :=
  Surroundings (tenant_status w) (tenant_slug w) (Enabled d tenantID) (config_row d tenantID) (limits w) (redis_ w) (clock w)
    (today w) (Notify.stmt w) (control_stmt w) (pub w) (public_id w) (notification_id w) (delivery_id w).

(** * Routes *)

Section Routes.
Context `{cipher : Aead}.
Variable encKey : option string.

Definition switch_handlers (w : around) (p : Principal) : handled_routes platform :=
  [ ("PUT", [L "feature-catalog"; V "identifier"], fun v b => UpdateFeatureCatalog w p (arg v 0) b);
    ("PUT", [L "channel-catalog"; V "channel"], fun v b => UpdatePlatformChannel w p (arg v 0) b);
    ("PUT", [L "provider-types"; V "provider"], fun v b => UpdateProviderType w p (arg v 0) b);
    ("PUT", [L "features"; V "id"], fun v b => UpdateFeature w p (arg v 0) b);
    ("PUT", [L "channels"; V "id"], fun v b => UpdateChannel w p (arg v 0) b);
    ("PUT", [L "providers"; V "id"], fun v b d =>
       let '(st, t) := UpdateProviderConfig encKey w p (arg v 0) b (provider_configs d) in
       (st, d <| provider_configs := t |>)) ].

Definition serve_switch (w : around) (p : Principal) (r : request) (d : platform) : option (Z * platform) :=
  route_to (switch_handlers w p) p r d.
End Routes.

(** * Switches of the pages *)

Inductive switch :=
| OfFeature (identifier : string) | OfChannel (channel : string) | OfProvider (provider : string)
| OfTenantFeature (i : string) | OfTenantChannel (i : string) | OfTenantProvider (i : string).

(** What a page sends for a switch. *)
Definition sent (s : switch) (on : bool) : list request :=
  match s with
  | OfFeature x => Features.http _ (Features.PutFeature x on)
  | OfChannel x => Channels.http _ (Channels.PutChannel x on)
  | OfProvider x => Providers.http _ (Providers.PutType x on)
  | OfTenantFeature x => TenantDetail.http _ (TenantDetail.PutSwitch (TenantDetail.SwitchFeature x on))
  | OfTenantChannel x => TenantDetail.http _ (TenantDetail.PutSwitch (TenantDetail.SwitchChannel x on))
  | OfTenantProvider x => TenantDetail.http _ (TenantDetail.PutSwitch (TenantDetail.SwitchProvider x on))
  end.
Definition switch_key (s : switch) : string :=
  match s with
  | OfFeature x | OfChannel x | OfProvider x | OfTenantFeature x | OfTenantChannel x | OfTenantProvider x => x
  end.
(** A key that stands in a path as it is. *)
Definition plain_key (x : string) : Prop := ident x = true /\ encodeURIComponent x = x.

(** * What is served *)

(** What a tenant needs to send on a channel. *)
Definition feature_on (d : platform) (t ch : string) : Prop :=
  exists i, tenant_features d !! i = Some (TenantFeature t ("channel." +:+ ch) true).
Definition channel_on (d : platform) (t ch : string) : Prop :=
  exists i row, tenant_channels d !! i = Some (TenantChannel t ch row)
    /\ ch_enabled row = true /\ ch_direction row ∈ ["one_way"; "two_way"].
Definition provider_on (d : platform) (t ch : string) : Prop :=
  exists i r, provider_configs d !! i = Some (t, r) /\ pr_channel r = ch /\ active_default r = true
    /\ platform_providers d !! pr_provider r = Some true /\ pr_provider r <> "".
Record served (d : platform) (t ch : string) : Prop := Served {
  served_feature : feature_on d t ch;
  served_everywhere : platform_channels d !! ch = Some true;
  served_channel : channel_on d t ch;
  served_provider : provider_on d t ch }.

(** The unique columns. *)
Record unique_rows (d : platform) : Prop := {
  unique_features : forall i j f g, tenant_features d !! i = Some f -> tenant_features d !! j = Some g ->
    tf_tenant f = tf_tenant g -> tf_key f = tf_key g -> i = j;
  unique_channels : forall i j c e, tenant_channels d !! i = Some c -> tenant_channels d !! j = Some e ->
    tc_tenant c = tc_tenant e -> tc_channel c = tc_channel e -> i = j;
  unique_defaults : forall i j tn r r', provider_configs d !! i = Some (tn, r) -> provider_configs d !! j = Some (tn, r') ->
    pr_channel r = pr_channel r' -> active_default r = true -> active_default r' = true -> i = j }.

(** A switch names what a tenant needs for a channel. *)
Definition governs (d : platform) (s : switch) (on : bool) (t ch : string) : Prop :=
  match s with
  | OfFeature _ => False
  | OfChannel x => x = ch
  | OfProvider x => exists i r, provider_configs d !! i = Some (t, r) /\ pr_channel r = ch
      /\ active_default r = true /\ pr_provider r = x
  | OfTenantFeature i => exists f, tenant_features d !! i = Some f /\ tf_tenant f = t /\ tf_key f = "channel." +:+ ch
  | OfTenantChannel i => exists c, tenant_channels d !! i = Some c /\ tc_tenant c = t /\ tc_channel c = ch
  | OfTenantProvider i => exists r, provider_configs d !! i = Some (t, r) /\ pr_channel r = ch /\ pr_default r = true
      /\ (on = true \/ pr_status r = "active")
  end.

(** * A send passes the switches *)

(** The row found is the only one. *)
Lemma found_iff {V} (f : V -> bool) (rows : gmap string V) :
  (forall i j v w, rows !! i = Some v -> rows !! j = Some w -> f v = true -> f w = true -> i = j) ->
  forall i v, row_where f rows = Some (i, v) <-> rows !! i = Some v /\ f v = true.
Proof. intros Hu i v. split; [apply row_where_Some|intros []; by apply row_where_unique]. Qed.

Lemma feature_row_iff d t key : unique_rows d ->
  forall i f, row_where (feature_row t key) (tenant_features d) = Some (i, f)
  <-> tenant_features d !! i = Some f /\ tf_tenant f = t /\ tf_key f = key.
Proof.
  intros Hu i f. rewrite found_iff; unfold feature_row; [by rewrite bool_decide_eq_true|].
  intros ???? Hi Hj []%bool_decide_eq_true []%bool_decide_eq_true. eapply (unique_features _ Hu); [done..|congruence|congruence].
Qed.
Lemma channel_row_iff d t ch : unique_rows d ->
  forall i c, row_where (channel_of t ch) (tenant_channels d) = Some (i, c)
  <-> tenant_channels d !! i = Some c /\ tc_tenant c = t /\ tc_channel c = ch.
Proof.
  intros Hu i c. rewrite found_iff; unfold channel_of; [by rewrite bool_decide_eq_true|].
  intros ???? Hi Hj []%bool_decide_eq_true []%bool_decide_eq_true. eapply (unique_channels _ Hu); [done..|congruence|congruence].
Qed.
Lemma default_row_iff d t ch : unique_rows d ->
  forall i x, row_where (default_of t ch) (provider_configs d) = Some (i, x)
  <-> provider_configs d !! i = Some x /\ x.1 = t /\ pr_channel x.2 = ch /\ active_default x.2 = true.
Proof.
  intros Hu i x. rewrite found_iff; unfold default_of.
  - rewrite andb_true_iff, bool_decide_eq_true. tauto.
  - intros j k [t1 r1] [t2 r2] Hi Hj [[Ht1 Hc1]%bool_decide_eq_true Ha1]%andb_prop [[Ht2 Hc2]%bool_decide_eq_true Ha2]%andb_prop.
    simpl in *. subst t1 t2. eapply (unique_defaults _ Hu); [done..|congruence|done|done].
Qed.

Lemma Enabled_on d t ch : unique_rows d ->
  default false (Enabled d t ("channel." +:+ ch)) = true <-> feature_on d t ch.
Proof.
  intros Hu. unfold Enabled, feature_on. destruct (row_where _ _) as [[i f]|] eqn:E.
  - pose proof (proj1 (feature_row_iff _ _ _ Hu _ _) E) as (Hi & Ht & Hk). destruct f as [t' k' b]. simpl in *. subst t' k'.
    split; [intros ->; by exists i|]. intros (j & Hj).
    by rewrite (unique_features _ Hu _ _ _ _ Hi Hj eq_refl eq_refl), Hj in Hi; simplify_eq.
  - split; [done|]. intros (j & Hj). by rewrite (proj2 (feature_row_iff d t ("channel." +:+ ch) Hu j _) (conj Hj (conj eq_refl eq_refl))) in E.
Qed.

Lemma provider_on_iff d t ch : unique_rows d -> provider_on d t ch <-> default_provider d t ch <> "".
Proof.
  intros Hu. unfold provider_on, default_provider. destruct (row_where _ _) as [[i [t' r]]|] eqn:E.
  - apply default_row_iff in E as (Hi & Ht & Hc & Ha); [|done]. simpl in *. subst t'. split.
    + intros (j & r' & Hj & Hc' & Ha' & Hp & Hn).
      assert (i = j) as -> by (eapply (unique_defaults _ Hu); [done..|congruence|done|done]).
      assert (r' = r) as -> by congruence. by rewrite decide_True.
    + case_decide as Hp; [|done]. intros Hn. by exists i, r.
  - split; [|done]. intros (j & r & Hj & Hc & Ha & _).
    by rewrite (proj2 (default_row_iff d t ch Hu j (t, r))) in E.
Qed.

Lemma ValidateSend_on d t ch : unique_rows d ->
  ValidateSend "one_way" (config_row d t ch) = None
  <-> platform_channels d !! ch = Some true /\ channel_on d t ch /\ provider_on d t ch.
Proof.
  intros Hu. rewrite (provider_on_iff d t ch Hu). unfold config_row.
  assert (Hch : channel_on d t ch <-> exists i row, row_where (channel_of t ch) (tenant_channels d) = Some (i, TenantChannel t ch row)
    /\ ch_enabled row = true /\ ch_direction row ∈ ["one_way"; "two_way"]).
  { unfold channel_on. setoid_rewrite (channel_row_iff _ _ _ Hu). naive_solver. }
  rewrite Hch. destruct (row_where (channel_of t ch) (tenant_channels d)) as [[i c]|] eqn:E; cbn [mbind option_bind].
  - apply channel_row_iff in E as (_ & Ht & Hc); [|done]. destruct c as [t' c' row]. simpl in *. subst t' c'.
    case_decide as Hp; [|split; [done|intros []; done]]. unfold ValidateSend.
    destruct (ch_enabled row) eqn:He; cbn [negb]; [|split; [done|intros (_ & (? & ? & [= <- <-] & ? & _) & _); congruence]].
    destruct (bool_decide (ch_direction row = "one_way" \/ ch_direction row = "two_way")) eqn:Hd; cbn [negb].
    + apply bool_decide_eq_true in Hd. case_decide as Hpr; [split; [done|intros (_ & _ & ?); done]|].
      split; [|done]. intros _. split; [done|]. split; [|done]. exists i, row. split; [done|]. split; [done|].
      rewrite !elem_of_cons. tauto.
    + apply bool_decide_eq_false in Hd. split; [done|]. intros (_ & (? & ? & [= <- <-] & _ & Hin) & _).
      rewrite !elem_of_cons in Hin. destruct Hin as [?|[?|?%elem_of_nil]]; tauto.
  - split; [done|]. intros (_ & (? & ? & ? & _) & _). done.
Qed.

Lemma served_iff d t ch : unique_rows d ->
  served d t ch <->
  default false (Enabled d t ("channel." +:+ ch)) = true /\ ValidateSend "one_way" (config_row d t ch) = None.
Proof.
  intros Hu. rewrite (Enabled_on d t ch Hu), (ValidateSend_on d t ch Hu). split; [intros []; done|].
  intros (? & ? & ? & ?). by split.
Qed.

(** The loop over the channels comes to a channel that is not served, or to the end. *)
Lemma check_channels_served d t w chs c :
  unique_rows d ->
  let '(_, err) := check_channels (sends_on d t w) t chs c in
  (err = None -> Forall (served d t) chs)
  /\ (Forall (served d t) chs -> forall e, err = Some e -> exists ch, ch ∈ chs /\ e = ch +:+ ": rate limit exceeded").
Proof.
  intros Hu. revert c. induction chs as [|ch chs IH]; intros c; [by split|]. cbn [check_channels].
  pose proof (served_iff d t ch Hu) as Hs. change (feature (sends_on d t w)) with (Enabled d t).
  change (channel_config (sends_on d t w) ch) with (config_row d t ch).
  destruct (default false (Enabled d t ("channel." +:+ ch))); cbn [negb].
  2: { split; [done|]. intros [[? _]%Hs _]%List.Forall_cons_iff. done. }
  destruct (ValidateSend _ _).
  1: { split; [done|]. intros [[_ ?]%Hs _]%List.Forall_cons_iff. done. }
  destruct (Allow _ _ _ _) as [c' ok]. destruct (default false ok).
  - specialize (IH c'). destruct (check_channels _ _ _ _) as [c2 err]. destruct IH as [H1 H2]. split.
    + intros He. constructor; [by apply Hs|by apply H1].
    + intros [_ Hall]%List.Forall_cons_iff e He. destruct (H2 Hall e He) as (x & Hx & ->). exists x. split; [by right|done].
  - split; [done|]. intros _ e [= <-]. exists ch. split; [by left|done].
Qed.

(** What the check of the channels refuses is refused. *)
Lemma Send_refused w a tenantID req :
  (check_channels w tenantID (Channels req) (a_counters a)).2 <> None ->
  exists a' err, Send w a tenantID req = refuse a' err.
Proof.
  intros Hn. unfold Send. case_decide; [by eexists _, _|]. case_decide; [by eexists _, _|].
  destruct (EnsureActive _); [by eexists _, _|].
  assert (Hch : Channels (if decide (s_type (Schedule_ req) = "")
      then req <| Schedule_ := MkSchedule "instant" (s_send_at (Schedule_ req)) |> else req) = Channels req)
    by by case_decide.
  rewrite Hch. destruct (check_channels _ _ _ _) as [c [err|]]; [by eexists _, _|done].
Qed.

(** C15: a send passes all the switches.  Over the tables of the platform, the API accepts
    a notification only if every channel of it is served for the tenant: its feature on,
    the channel on for the platform and for the tenant in a direction that sends, and an
    active default provider of an enabled type; otherwise nothing is stored and nothing
    published.  And nothing else of a channel counts: when all are served, the checks of
    the channels refuse by a rate limit only. *)
Theorem sends_pass_the_switches d w a tenantID req :
  unique_rows d ->
  let o := Send (sends_on d tenantID w) a tenantID req in
  (forall x, o_answer o = inr x -> Forall (served d tenantID) (Channels req))
  /\ (~ Forall (served d tenantID) (Channels req) ->
       (exists err, o_answer o = inl err)
       /\ o_notification o = None /\ o_job o = None /\ o_rows o = [] /\ o_messages o = [])
  /\ (Forall (served d tenantID) (Channels req) -> forall err,
       (check_channels (sends_on d tenantID w) tenantID (Channels req) (a_counters a)).2 = Some err ->
       exists ch, ch ∈ Channels req /\ err = ch +:+ ": rate limit exceeded").
Proof.
  intros Hu o.
  pose proof (check_channels_served d tenantID w (Channels req) (a_counters a) Hu) as Hc.
  pose proof (Send_refused (sends_on d tenantID w) a tenantID req) as Hr. fold o in Hr.
  destruct (check_channels _ _ _ _) as [c [err|]]; destruct Hc as [Hnone Hsome]; cbn [snd] in *.
  - destruct (Hr ltac:(done)) as (a' & e & ->). split; [done|]. split; [by split; [eexists|]|].
    intros Hall err' [= <-]. by apply Hsome.
  - specialize (Hnone eq_refl). split; [done|]. split; [done|]. done.
Qed.

(** * What a switch changes *)

Section Served.
Context `{cipher : Aead}.
Variable encKey : option string.
Notation serve_switch := (serve_switch encKey).
Notation switch_handlers := (switch_handlers encKey).

Lemma switches_once w p : NoDup (map fst (switch_handlers w p)).
Proof.
  change (NoDup [("PUT", [L "feature-catalog"; V "identifier"]); ("PUT", [L "channel-catalog"; V "channel"]);
    ("PUT", [L "provider-types"; V "provider"]); ("PUT", [L "features"; V "id"]); ("PUT", [L "channels"; V "id"]);
    ("PUT", [L "providers"; V "id"])]).
  apply (bool_decide_unpack _). vm_compute. done.
Qed.

(** The handler of the nth route answers its requests. *)
Lemma put_switch_served w p n what v (h : handler platform) perm x b d st d' :
  switch_handlers w p !! n = Some ("PUT", [L what; V v], h) -> Route "PUT" [L what; V v] perm ∈ routes -> perm <> "" ->
  ident what = true -> ident x = true ->
  serve_switch w p (PUT ("/admin/api/v1/" +:+ what +:+ "/" +:+ x) b) d = Some (st, d') -> st <> 403 ->
  h [x] (Some b) d = (st, d').
Proof.
  intros Hh Hr Hp Hw Hx. unfold Switches.serve_switch.
  rewrite (route_at _ _ n "PUT" [L what; V v] h perm [what; x] _ d (switches_once w p) Hh Hr); try done.
  - cbn [wildcards]. destruct (HasPermission p perm); intros [= E]; simplify_eq; done.
  - repeat constructor; done.
  - simpl. rewrite bool_decide_true, andb_true_r by done. unfold ident in Hx. by destruct (truthy x).
Qed.

Definition changed_by (p : Principal) (s : switch) (on : bool) (d d' : platform) : Prop :=
  match s with
  | OfFeature x => is_platform_admin p = true
      /\ d' = d <| feature_catalog := <[x := if on then "active" else "disabled"]> (feature_catalog d) |>
  | OfChannel x => is_platform_admin p = true /\ d' = d <| platform_channels := <[x := on]> (platform_channels d) |>
  | OfProvider x => is_platform_admin p = true /\ d' = d <| platform_providers := <[x := on]> (platform_providers d) |>
  | OfTenantFeature i => exists f, tenant_features d !! i = Some f /\ touches p (tf_tenant f) = true
      /\ d' = d <| tenant_features := <[i := f <| tf_enabled := on |>]> (tenant_features d) |>
  | OfTenantChannel i => exists c, tenant_channels d !! i = Some c /\ touches p (tc_tenant c) = true
      /\ d' = d <| tenant_channels := <[i := c <| tc_row := (tc_row c) <| ch_enabled := on |> |>]> (tenant_channels d) |>
  | OfTenantProvider i => exists tn r, provider_configs d !! i = Some (tn, r) /\ touches p tn = true
      /\ let r' := r <| pr_status := if on then "active" else "disabled" |> in
         second_default tn r' (delete i (provider_configs d)) = false
         /\ d' = d <| provider_configs := <[i := (tn, r')]> (provider_configs d) |>
  end.

Lemma update_catalog_switch {V} w p x (value : bool -> V) on rows rows' :
  update_catalog w p x value (Some (JObj [("enabled", JBool on)])) rows = (200, rows') ->
  is_platform_admin p = true /\ rows' = <[x := value on]> rows.
Proof.
  unfold update_catalog. destruct (is_platform_admin p); [|done]. cbn [negb].
  change (decoded enabled_req (Some (JObj [("enabled", JBool on)]))) with (Some (JObj [("enabled", JBool on)])).
  change (jfield (JObj [("enabled", JBool on)]) "enabled") with (Some (JBool on)).
  destruct (negb (succeeds w)); [done|]. destruct (row_exists rows x); [|done]. by intros [= <-].
Qed.

Lemma update_row_switch {V} w p (tenant_of : V -> string) i f rows rows' :
  update_row w p tenant_of i f rows = (200, rows') ->
  exists r, rows !! i = Some r /\ touches p (tenant_of r) = true /\ rows' = <[i := f r]> rows.
Proof.
  unfold update_row. destruct (negb (succeeds w)); [done|]. destruct (rows !! i) as [r|]; [|done].
  destruct (touches p (tenant_of r)) eqn:Ht; [|done]. intros [= <-]. by exists r.
Qed.

(** What an accepted switch leaves. *)
Lemma switched w p s on r d d' :
  plain_key (switch_key s) -> sent s on = [r] -> serve_switch w p r d = Some (200, d') -> changed_by p s on d d'.
Proof.
  intros [Hx He] Hr Hs. destruct s as [x|x|x|i|i|i]; injection Hr as <-; cbn [switch_key] in *; rewrite ?He in Hs.
  - eapply (put_switch_served w p 0 "feature-catalog" "identifier" _ "features.update" x) in Hs; [|reflexivity|in_table|done..].
    unfold UpdateFeatureCatalog in Hs. cbn [arg] in Hs.
    change (arg [x] 0) with x in Hs. destruct (update_catalog _ _ _ _ _ _) as [st rows] eqn:E. simplify_eq.
    by apply update_catalog_switch in E as [? ->].
  - eapply (put_switch_served w p 1 "channel-catalog" "channel" _ "channels.update" x) in Hs; [|reflexivity|in_table|done..].
    unfold UpdatePlatformChannel in Hs. change (arg [x] 0) with x in Hs.
    destruct (update_catalog _ _ _ _ _ _) as [st rows] eqn:E. simplify_eq. by apply update_catalog_switch in E as [? ->].
  - eapply (put_switch_served w p 2 "provider-types" "provider" _ "providers.update" x) in Hs; [|reflexivity|in_table|done..].
    unfold UpdateProviderType in Hs. change (arg [x] 0) with x in Hs.
    destruct (update_catalog _ _ _ _ _ _) as [st rows] eqn:E. simplify_eq. by apply update_catalog_switch in E as [? ->].
  - eapply (put_switch_served w p 3 "features" "id" _ "features.update" i) in Hs; [|reflexivity|in_table|done..].
    unfold UpdateFeature in Hs. change (arg [i] 0) with i in Hs.
    change (decoded enabled_req (Some (JObj [("enabled", JBool on)]))) with (Some (JObj [("enabled", JBool on)])) in Hs.
    cbv beta iota in Hs. destruct (update_row _ _ _ _ _ _) as [st rows] eqn:E. simplify_eq.
    by apply update_row_switch in E as (f & ? & ? & ->); exists f.
  - eapply (put_switch_served w p 4 "channels" "id" _ "channels.update" i) in Hs; [|reflexivity|in_table|done..].
    unfold UpdateChannel in Hs. change (arg [i] 0) with i in Hs.
    change (decoded UpdateChannel_req (Some (JObj [("enabled", JBool on)]))) with (Some (JObj [("enabled", JBool on)])) in Hs.
    cbv beta iota zeta in Hs. destruct (negb (forallb _ _)); [done|]. destruct (update_row _ _ _ _ _ _) as [st rows] eqn:E. simplify_eq.
    by apply update_row_switch in E as (c & ? & ? & ->); exists c.
  - eapply (put_switch_served w p 5 "providers" "id" _ "providers.update" i) in Hs; [|reflexivity|in_table|done..].
    change (arg [i] 0) with i in Hs. unfold UpdateProviderConfig in Hs.
    set (b := JObj [("status", JStr (if on then "active" else "disabled"))]) in Hs.
    change (decoded UpdateProviderConfig_req (Some b)) with (Some b) in Hs. cbv beta iota in Hs.
    change (member b "config_json") with "" in Hs. cbn [decide] in Hs. rewrite (decide_True (P := "" = "")) in Hs by done.
    destruct (negb (succeeds w)); [done|]. change (arg [i] 0) with i in Hs.
    destruct (provider_configs d !! i) as [[tn r]|] eqn:E; [|done]. destruct (touches p tn) eqn:Ht; [|done].
    assert (Hb : ProviderRow (pr_channel r) (Handlers.kept (pr_provider r) (member b "provider")) (default (pr_config r) None)
        (match jfield b "is_default" with Some (JBool x) => x | _ => pr_default r end)
        (Handlers.kept (pr_status r) (member b "status")) = r <| pr_status := if on then "active" else "disabled" |>)
      by (by destruct on).
    rewrite Hb in Hs. destruct (second_default _ _ _) eqn:Hd; [done|]. simplify_eq. by exists tn, r.
Qed.

(** * The switches and what is served *)

Lemma row_put {V} (rows : gmap string V) i v j x :
  <[i := v]> rows !! j = Some x <-> (j = i /\ x = v) \/ (j <> i /\ rows !! j = Some x).
Proof. rewrite lookup_insert_Some. naive_solver. Qed.

Lemma changed_unique p s on d d' : changed_by p s on d d' -> unique_rows d -> unique_rows d'.
Proof.
  intros H [Hf Hc Hd]. destruct s as [x|x|x|i|i|i]; cbn [changed_by] in H.
  - destruct H as [_ ->]. by split.
  - destruct H as [_ ->]. by split.
  - destruct H as [_ ->]. by split.
  - destruct H as (f & Hi & _ & ->). split; [|done..]. intros j k a b. simpl. rewrite !row_put.
    intros [[-> ->]|[Hj Ha]] [[-> ->]|[Hk Hb]] Ht Hky; simpl in *; [done|by eapply Hf..].
  - destruct H as (c & Hi & _ & ->). split; [done| |done]. intros j k a b. simpl. rewrite !row_put.
    intros [[-> ->]|[Hj Ha]] [[-> ->]|[Hk Hb]] Ht Hky; simpl in *; [done|by eapply Hc..].
  - destruct H as (tn & r & Hi & _ & Hno & ->). split; [done..|]. intros j k tn' a b. simpl.
    rewrite !row_put. pose proof (no_second_default _ _ _ Hno) as Hn.
    intros [[-> Ea]|[Hj Ha]] [[-> Eb]|[Hk Hb]] Hch Haa Hab; simplify_eq; [done|..|by eapply Hd].
    + by destruct (Hn k b (eq_trans (lookup_delete_ne _ _ _ (not_eq_sym Hk)) Hb) Hch Haa Hab).
    + by destruct (Hn j a (eq_trans (lookup_delete_ne _ _ _ (not_eq_sym Hj)) Ha) (eq_sym Hch) Hab Haa).
Qed.

(** Whom a switch of a user reaches. *)
Lemma governs_mine p s on d d' t ch :
  changed_by p s on d d' -> governs d s on t ch -> is_platform_admin p = true \/ t = or_empty (tenant_id p).
Proof.
  assert (Ht : forall tn, touches p tn = true -> is_platform_admin p = true \/ tn = or_empty (tenant_id p)).
  { intros tn. unfold touches. intros [?| ?%bool_decide_eq_true]%orb_prop; tauto. }
  destruct s; cbn [changed_by governs]; naive_solver.
Qed.

Lemma switched_off p s d d' t ch :
  unique_rows d -> changed_by p s false d d' -> governs d s false t ch -> ~ served d' t ch.
Proof.
  intros [Hf Hc Hd] H Hg [(j & Hj) He (k & row & Hk & Hen & _) (l & r' & Hl & Hch & Ha & Hp & _)].
  destruct s as [x|x|x|i|i|i]; cbn [changed_by governs] in *.
  - done.
  - destruct H as [_ ->]. subst x. simpl in He. by rewrite lookup_insert_eq in He.
  - destruct H as [_ ->]. destruct Hg as (i & r & Hi & Hr & Har & <-). simpl in *.
    assert (i = l) as -> by (eapply Hd; [done..|congruence|done|done]).
    assert (r' = r) as -> by congruence. by rewrite lookup_insert_eq in Hp.
  - destruct H as (f & Hi & _ & ->), Hg as (f' & Hi' & Ht & Hky). assert (f' = f) as -> by congruence.
    simpl in Hj. apply row_put in Hj as [[-> E]|[Hne Hj]].
    + apply (f_equal tf_enabled) in E. done.
    + by destruct Hne; eapply Hf.
  - destruct H as (c & Hi & _ & ->), Hg as (c' & Hi' & Ht & Hky). assert (c' = c) as -> by congruence.
    simpl in Hk. apply row_put in Hk as [[-> E]|[Hne Hk]].
    + apply (f_equal (fun c => ch_enabled (tc_row c))) in E. simpl in E. congruence.
    + by destruct Hne; eapply Hc.
  - destruct H as (tn & r & Hi & _ & _ & ->), Hg as (r0 & Hi' & Hr & Hdef & [?|Hst]); [done|].
    assert (tn = t /\ r0 = r) as [-> ->] by naive_solver. simpl in Hl.
    apply row_put in Hl as [[-> E]|[Hne Hl]].
    + injection E as ->. unfold active_default in Ha. simpl in Ha. by rewrite andb_false_r in Ha.
    + destruct Hne. eapply Hd; [done..|congruence|done|]. unfold active_default. rewrite Hdef, Hst. done.
Qed.

(** What the switch does not name is as before. *)
Lemma switched_elsewhere p s on d d' t ch :
  unique_rows d -> changed_by p s on d d' -> ~ governs d s on t ch -> (served d' t ch <-> served d t ch).
Proof.
  intros _ H Hg.
  assert (Hiff : (feature_on d' t ch <-> feature_on d t ch)
    /\ (platform_channels d' !! ch = Some true <-> platform_channels d !! ch = Some true)
    /\ (channel_on d' t ch <-> channel_on d t ch) /\ (provider_on d' t ch <-> provider_on d t ch));
    [|split; intros []; split; tauto].
  destruct s as [x|x|x|i|i|i]; cbn [changed_by governs] in *.
  - by destruct H as [_ ->].
  - destruct H as [_ ->]. simpl. by rewrite lookup_insert_ne.
  - destruct H as [_ ->]. split_and!; [done..|]. unfold provider_on. simpl.
    split; intros (i & r & Hi & Hch & Ha & Hp & Hn); exists i, r; split_and!; try done.
    + rewrite lookup_insert_ne in Hp; [done|]. intros ->. by destruct Hg; exists i, r.
    + rewrite lookup_insert_ne; [done|]. intros ->. by destruct Hg; exists i, r.
  - destruct H as (f & Hi & _ & ->). split_and!; [|done..]. unfold feature_on. simpl.
    split; intros (j & Hj); exists j.
    + apply row_put in Hj as [[-> E]|[_ Hj]]; [|done]. destruct Hg. exists f.
      split; [done|]. split; [by apply (f_equal tf_tenant) in E|by apply (f_equal tf_key) in E].
    + apply row_put. right. split; [|done]. intros ->. destruct Hg. rewrite Hj in Hi. injection Hi as <-. by eexists.
  - destruct H as (c & Hi & _ & ->). split_and!; [done|done| |done]. unfold channel_on. simpl.
    split; intros (j & row & Hj & He); exists j, row; (split; [|done]).
    + apply row_put in Hj as [[-> E]|[_ Hj]]; [|done]. destruct Hg. exists c.
      split; [done|]. split; [by apply (f_equal tc_tenant) in E|by apply (f_equal tc_channel) in E].
    + apply row_put. right. split; [|done]. intros ->. destruct Hg. rewrite Hj in Hi. injection Hi as <-. by eexists.
  - destruct H as (tn & r & Hi & _ & _ & ->). split_and!; [done..|]. unfold provider_on. simpl.
    split; intros (j & r' & Hj & Hch & Ha & Hrest); exists j, r'; (split; [|done]).
    + apply row_put in Hj as [[-> E]|[_ Hj]]; [|done]. injection E as <- ->. destruct Hg. exists r.
      unfold active_default in Ha. simpl in *. apply andb_prop in Ha as [Hd Hs]. destruct on; [tauto|done].
    + apply row_put. right. split; [|done]. intros ->. rewrite Hj in Hi. injection Hi as <- <-. destruct Hg. exists r'.
      unfold active_default in Ha. apply andb_prop in Ha as [Hd Hs%bool_decide_eq_true]. tauto.
Qed.

(** A switch that is put on takes nothing away. *)
Lemma switched_on p s d d' t ch : changed_by p s true d d' -> served d t ch -> served d' t ch.
Proof.
  intros H [(j & Hj) He (k & row & Hk & Hen & Hdir) (l & r' & Hl & Hch & Ha & Hp & Hn)].
  destruct s as [x|x|x|i|i|i]; cbn [changed_by] in *.
  - destruct H as [_ ->]. split; [by exists j|done|by exists k, row|by exists l, r'].
  - destruct H as [_ ->]. split; [by exists j| |by exists k, row|by exists l, r'].
    simpl. apply lookup_insert_Some. destruct (decide (x = ch)); [by left|by right].
  - destruct H as [_ ->]. split; [by exists j|done|by exists k, row|]. exists l, r'. split_and!; try done.
    simpl. apply lookup_insert_Some. destruct (decide (x = pr_provider r')); [by left|by right].
  - destruct H as (f & Hi & _ & ->). split; [|done|by exists k, row|by exists l, r']. exists j. simpl. apply row_put.
    destruct (decide (j = i)) as [->|]; [left|by right]. rewrite Hj in Hi. by injection Hi as <-.
  - destruct H as (c & Hi & _ & ->). split; [by exists j|done| |by exists l, r'].
    destruct (decide (k = i)) as [->|].
    + rewrite Hk in Hi. injection Hi as <-. exists i, (row <| ch_enabled := true |>). simpl. rewrite lookup_insert_eq. done.
    + exists k, row. simpl. by rewrite lookup_insert_ne.
  - destruct H as (tn & r & Hi & _ & _ & ->). split; [by exists j|done|by exists k, row|].
    destruct (decide (l = i)) as [->|].
    + rewrite Hl in Hi. injection Hi as <- <-. exists i, (r' <| pr_status := "active" |>). simpl. rewrite lookup_insert_eq.
      split_and!; try done. unfold active_default in *. simpl. by apply andb_prop in Ha as [-> _].
    + exists l, r'. simpl. by rewrite lookup_insert_ne.
Qed.

(** Off and on again is on. *)
Lemma off_and_on p p' s d d1 d2 :
  changed_by p s false d d1 -> changed_by p' s true d1 d2 -> changed_by p' s true d d2.
Proof.
  intros H1 H2. destruct s as [x|x|x|i|i|i]; cbn [changed_by] in *.
  - destruct H1 as [_ ->], H2 as [? ->]. simpl. by rewrite insert_insert_eq.
  - destruct H1 as [_ ->], H2 as [? ->]. simpl. by rewrite insert_insert_eq.
  - destruct H1 as [_ ->], H2 as [? ->]. simpl. by rewrite insert_insert_eq.
  - destruct H1 as (f & Hi & _ & ->), H2 as (f1 & Hi1 & Ht & ->). simpl in *. rewrite lookup_insert_eq in Hi1.
    injection Hi1 as <-. exists f. by rewrite insert_insert_eq.
  - destruct H1 as (c & Hi & _ & ->), H2 as (c1 & Hi1 & Ht & ->). simpl in *. rewrite lookup_insert_eq in Hi1.
    injection Hi1 as <-. exists c. by rewrite insert_insert_eq.
  - destruct H1 as (tn & r & Hi & _ & _ & ->), H2 as (tn1 & r1 & Hi1 & Ht & Hno & ->). simpl in *.
    rewrite lookup_insert_eq in Hi1. injection Hi1 as <- <-. rewrite delete_insert_eq in Hno.
    exists tn, r. by rewrite insert_insert_eq.
Qed.

(** C14: the switches of the pages govern the sends of the tenants.  A switch that the API
    answers with 200 keeps the unique rows unique; put off, it stops the sends on what it
    names: a channel of the platform for every tenant, a type of providers for every
    tenant whose default it is, a feature, a channel or a default provider of a tenant
    for that tenant; what it does not name stays as served as it was; put on, it takes
    nothing away; put off and on again, by whomever, everything that was served is
    served; and a user of a tenant reaches with it nobody else.  The catalog of features
    names nothing. *)
Theorem switches_govern_sends w p s on r d d' t ch :
  unique_rows d -> plain_key (switch_key s) -> sent s on = [r] ->
  serve_switch w p r d = Some (200, d') ->
  unique_rows d'
  /\ (governs d s on t ch -> on = false -> ~ served d' t ch)
  /\ (~ governs d s on t ch -> served d' t ch <-> served d t ch)
  /\ (on = true -> served d t ch -> served d' t ch)
  /\ (on = false -> forall w' p' r' d2, sent s true = [r'] -> serve_switch w' p' r' d' = Some (200, d2) ->
        served d t ch -> served d2 t ch)
  /\ (governs d s on t ch -> is_platform_admin p = true \/ t = or_empty (tenant_id p)).
Proof.
  intros Hu Hk Hr Hs. pose proof (switched w p s on r d d' Hk Hr Hs) as Hc.
  split; [by eapply changed_unique|]. split; [intros Hg ->; by eapply switched_off|].
  split; [intros Hg; by eapply switched_elsewhere|]. split; [intros ->; by eapply switched_on|].
  split; [|intros Hg; by eapply governs_mine].
  intros -> w' p' r' d2 Hr' Hs'. eapply switched_on, off_and_on; [exact Hc|by eapply switched].
Qed.
End Served.

(** * Samples *)

Section Samples.
#[local] Existing Instance boxed.
Definition mail_row : channel_row := ChannelRow true "one_way" 10 10000 5.
Definition all_on : platform :=
  Platform {["channel.email" := "active"]} {["email" := true]} {["mock_email" := true]}
    {["f1" := TenantFeature "t1" "channel.email" true]} {["c1" := TenantChannel "t1" "email" mail_row]}
    {["p1" := ("t1", ProviderRow "email" "mock_email" (JStr "") true "active")]}.
Definition root : Principal := MkPrincipal "u0" None "root@x.org" true [].
Definition steady : around := Around true "" None.
Definition mail_request (sched : Schedule) : Request :=
  MkRequest "order.confirmed" ["email"] "order" (MkTarget "direct_email" {["email" := JStr "ada@x.org"]} "")
    {["name" := JStr "Ada"]} 5 sched "".

Lemma singleton_unique {V} (m : gmap string V) x v i j a b :
  m = {[x := v]} -> m !! i = Some a -> m !! j = Some b -> i = j.
Proof. intros -> [<- _]%lookup_singleton_Some [<- _]%lookup_singleton_Some. done. Qed.

Lemma singletons_unique d x y z f c e :
  tenant_features d = {[x := f]} -> tenant_channels d = {[y := c]} -> provider_configs d = {[z := e]} -> unique_rows d.
Proof. intros Hf Hc He. split.
  - intros i j a b Hi Hj _ _. by eapply (singleton_unique _ _ _ _ _ _ _ Hf).
  - intros i j a b Hi Hj _ _. by eapply (singleton_unique _ _ _ _ _ _ _ Hc).
  - intros i j tn a b Hi Hj _ _ _. by eapply (singleton_unique _ _ _ _ _ _ _ He).
Qed.

(** A feature that is disabled in the catalog is sent as before: the queries of a send do
    not read the catalog, and neither do the other features. *)
Theorem disabled_feature_is_still_sent :
  (forall d x status t ch, served (d <| feature_catalog := <[x := status]> (feature_catalog d) |>) t ch <-> served d t ch)
  /\ exists d', serve_switch None steady root
         (PUT "/admin/api/v1/feature-catalog/channel.email" (JObj [("enabled", JBool false)])) all_on = Some (200, d')
     /\ feature_catalog d' !! "channel.email" = Some "disabled"
     /\ o_answer (Send (sends_on d' "t1" (well "acme")) nothing_yet "t1" (mail_request (MkSchedule "" ""))) = inr "ntf_1".
Proof.
  split; [intros; split; intros []; by split|]. eexists. split; [vm_compute; reflexivity|]. split; vm_compute; reflexivity.
Qed.

(** A channel that is disabled for every tenant goes on sending what was scheduled before:
    the pass over the due jobs asks for no switch. *)
Theorem scheduled_mail_passes_a_disabled_channel :
  let before := Send (sends_on all_on "t1" (well "acme")) nothing_yet "t1" (mail_request at_ten) in
  exists d' n j, o_notification before = Some n /\ o_job before = Some j
    /\ serve_switch None steady root
         (PUT "/admin/api/v1/channel-catalog/email" (JObj [("enabled", JBool false)])) all_on = Some (200, d')
    /\ o_answer (Send (sends_on d' "t1" (well "acme")) nothing_yet "t1" (mail_request at_ten))
       = inl "email: no rows in result set"
    /\ let '(_, rows, ms, ok) := route_job (sends_on d' "t1" (well "acme")) nothing_yet j n in
       ok = true /\ map fst ms = [channelQueue "email"] /\ length rows = 1%nat.
Proof. cbv zeta. eexists _, _, _. repeat (split; [vm_compute; reflexivity|]). vm_compute. repeat split. Qed.

Lemma sends_pass_the_switches_witness :
  let d := all_on <| platform_channels := {["email" := false]} |> in
  exists err, o_answer (Send (sends_on d "t1" (well "acme")) nothing_yet "t1" (mail_request (MkSchedule "" ""))) = inl err.
Proof.
  cbv zeta. destruct (sends_pass_the_switches (all_on <| platform_channels := {["email" := false]} |>) (well "acme")
    nothing_yet "t1" (mail_request (MkSchedule "" "")) ltac:(by eapply singletons_unique))
    as (_ & H & _).
  destruct H as [H _]; [|exact H]. intros Hall. apply List.Forall_cons_iff in Hall as [[_ He _ _] _]. vm_compute in He. discriminate.
Defined.

Lemma switches_govern_sends_witness :
  exists d', serve_switch None steady root
      (PUT "/admin/api/v1/channel-catalog/email" (JObj [("enabled", JBool false)])) all_on = Some (200, d')
    /\ ~ served d' "t1" "email".
Proof.
  destruct (serve_switch None steady root
    (PUT "/admin/api/v1/channel-catalog/email" (JObj [("enabled", JBool false)])) all_on) as [[st d']|] eqn:E;
    [|vm_compute in E; discriminate].
  assert (st = 200) as -> by (apply (f_equal (fun x => fst <$> x)) in E; vm_compute in E; congruence).
  exists d'. split; [reflexivity|].
  destruct (switches_govern_sends None steady root (OfChannel "email") false _ all_on d' "t1" "email" ltac:(by eapply singletons_unique)
    ltac:(by split) eq_refl E) as (_ & H & _).
  by apply H.
Defined.
End Samples.
