(* ===== verification/Queues.v ===== *)
(** pages/queues/QueueControlsPage.tsx: the delivery queues of a tenant, paused,
    stopped and resumed. *)
From S2P Require Import Prelude Js React Query Client Components Auth Api Handlers Page.

Record QueueControl := MkQueue {
  id : string; tenant_id : string; tenant_name : option string; channel : string; queue_name : string;
  status : string; max_attempts : Z; retry_delay_seconds : Z; notes : string; updated_at : string }.
#[export] Instance eta_queue : Eta QueueControl := fun q =>
  MkQueue (id q) (tenant_id q) (tenant_name q) (channel q) (queue_name q) (status q) (max_attempts q)
    (retry_delay_seconds q) (notes q) (updated_at q).
Record Tenant := MkTenant { t_id : string; t_name : string; t_slug : option string; t_status : string }.

Record load_args := LoadArgs {
  l_tenant : string; l_search : string; l_channel : string; l_status : string; l_pg : Pagination.state }.

Record state := State {
  items : list QueueControl; tenants : list Tenant; loading : bool; tenantFilter : string;
  search : string; channelFilter : string; statusFilter : string; saving : string;
  meta_ : option Pagination.PaginationMeta; pg : Pagination.state }.
#[export] Instance eta_state : Eta state := fun s =>
  State (items s) (tenants s) (loading s) (tenantFilter s) (search s) (channelFilter s) (statusFilter s)
    (saving s) (meta_ s) (pg s).

Definition initial : state := State [] [] true "" "" "" "" "" None Pagination.usePagination.

Inductive action :=
| SetSearch (v : string) | SetChannelFilter (v : string) | SetStatusFilter (v : string)
| SetTenantFilter (v : string) | ClearFilters | Paging (a : Pagination.action)
| UpdateStatus (i : QueueControl) (status : string).

Inductive event : Type -> Type :=
| ListQueues (a : load_args) : event (ApiList QueueControl)
| ListTenants : event (list Tenant)
| PatchQueue (id status : string) : event unit.

Definition http (X : Type) (e : event X) : list request :=
  let queues := "/admin/api/v1/queue-controls" in
  match e with
  | ListQueues a =>
      [listPage queues
         ([("tenant_id", Some (l_tenant a)); ("q", Some (l_search a));
           ("filter_channel", Some (l_channel a)); ("filter_status", Some (l_status a))]
          ++ page_params (l_pg a))]
  | ListTenants => [list_ "/admin/api/v1/tenants"]
  | PatchQueue id status => [PATCH (queues +:+ "/" +:+ id) (JObj [("status", JStr status)])]
  end.

Section QueueControlsPage.
Variable isPlatform : bool.
Variable can : string -> bool.

Definition args (s : state) : load_args :=
  LoadArgs (tenantFilter s) (search s) (channelFilter s) (statusFilter s) (pg s).

Definition load (a : load_args) : prog event state :=
  list_load (fun b s => s <| loading := b |>)
    (fun res s => s <| items := data res |> <| meta_ := meta res |>)
    "Unable to load queue controls" (ListQueues a).

Definition filters (s : state) : string * string * string * string :=
  (tenantFilter s, search s, channelFilter s, statusFilter s).
Definition paging (s : state) : Z * Z := (Pagination.page (pg s), Pagination.perPage (pg s)).

Definition effects (r : option state) (s : state) : list (prog event state) :=
  list_effects (changed filters r s) (changed paging r s)
    (fun s => s <| pg := Pagination.setPage 1 (pg s) |>) (load (args s))
  ++ (match r with
      | None =>
          if isPlatform then [ quiet_load (fun ts s => s <| tenants := ts |>) ListTenants ] else []
      | Some _ => []
      end).

Definition updateStatus (item : QueueControl) (st : string) (s : state) : prog event state :=
  set! (fun s => s <| saving := id item |>) ;;
  await! r <- PatchQueue (id item) st ;;
  match r with
  | Ok _ =>
      emit! success_msg ("Queue " +:+ st) (queue_name item) ;;
      fork! load (args s) ;; set! (fun s => s <| saving := "" |>) ;; Done
  | Threw x =>
      emit! toast_error "Unable to update queue" "Update failed" x ;;
      set! (fun s => s <| saving := "" |>) ;; Done
  end.

Definition handle (a : action) (s : state) : prog event state :=
  match a with
  | SetSearch v => set! (fun s => s <| search := v |>) ;; Done
  | SetChannelFilter v => set! (fun s => s <| channelFilter := v |>) ;; Done
  | SetStatusFilter v => set! (fun s => s <| statusFilter := v |>) ;; Done
  | SetTenantFilter v => set! (fun s => s <| tenantFilter := v |>) ;; Done
  | ClearFilters =>
      set! (fun s => s <| search := "" |>) ;; set! (fun s => s <| channelFilter := "" |>) ;;
      set! (fun s => s <| statusFilter := "" |>) ;; set! (fun s => s <| tenantFilter := "" |>) ;; Done
  | Paging a => set! (fun s => s <| pg := Pagination.apply a (pg s) |>) ;; Done
  | UpdateStatus i st => updateStatus i st s
  end.

(** A control for each status but the one of the row. *)
Definition status_control (s : state) (i : QueueControl) (label st : string) : list (node action) :=
  when (negb (bool_decide (status i = st)) && can "queue_controls.update")
    [Btn label (bool_decide (saving s = id i)) (UpdateStatus i st)].

Definition row (s : state) (i : QueueControl) : list (node action) :=
  [ Txt (queue_name i) ]
  ++ when (truthy (notes i)) [Txt (notes i)]
  ++ when isPlatform [ Txt (or_empty (tenant_name i) ||| tenant_id i) ]
  ++ [ Txt (replace_first_char (ascii_of_nat 95) (ascii_of_nat 32) (channel i));
       Txt (Status.StatusBadge (Status.SText (status i))).2;
       Txt (pretty (max_attempts i) +:+ " attempts / " +:+ pretty (retry_delay_seconds i) +:+ "s");
       Txt (updated_at i) ]
  ++ status_control s i "Resume" "active" ++ status_control s i "Pause" "paused"
  ++ status_control s i "Stop" "stopped".

Definition rows (s : state) : list (node action) :=
  if loading s then [Txt "Loading queue controls..."]
  else if bool_decide (length (items s) = 0%nat) then [Txt "No queue controls found"]
  else concat (map (row s) (items s)) ++ embed Paging (Pagination.TablePagination (meta_ s) (pg s)).

Definition view (s : state) : list (node action) :=
  [ Inp "Search queues" (search s) false SetSearch;
    Sel "Channel" (channelFilter s) false
      [("", "All channels"); ("email", "Email"); ("sms", "SMS"); ("fcm", "FCM"); ("websocket", "WebSocket")]
      SetChannelFilter;
    Sel "Status" (statusFilter s) false
      [("", "All statuses"); ("active", "Active"); ("paused", "Paused"); ("stopped", "Stopped")]
      SetStatusFilter ]
  ++ when isPlatform
       [ TenantFilter.view (tenantFilter s) SetTenantFilter
           (map (fun t => TenantFilter.Opt (t_id t) (t_name t) (t_slug t)) (tenants s)) ]
  ++ when (truthy (search s) || truthy (channelFilter s) || truthy (statusFilter s) || truthy (tenantFilter s))
       [ Btn "Clear filters" false ClearFilters ]
  ++ rows s.

End QueueControlsPage.

(** The statuses on offer are three, and never the one the row has. *)
Lemma queue_offered isPlatform can s i st : offered (view isPlatform can s) (UpdateStatus i st) ->
  can "queue_controls.update" = true /\ saving s <> id i /\ status i <> st
  /\ st ∈ ["active"; "paused"; "stopped"].
Proof.
  intros Ha. unfold view, rows, row, status_control, TenantFilter.view, Pagination.TablePagination in Ha.
  page_cases Ha; try done; simplify_eq; guards;
    repeat match goal with H : bool_decide _ = false |- _ => apply bool_decide_eq_false in H end;
    (repeat split; [done..|set_solver]).
Qed.

(** * Every request is authorized *)

Section Safety.
Variable u : Principal.
Notation isPlatform := (is_platform_admin u).
Notation can := (hasPermission (Some u)).

Definition given : list string := ["queue_controls.view"].

Notation safe := (Ui.safe http (fun _ => True) (careful given u)).

Lemma queue_load_safe a : safe (load a).
Proof.
  apply list_load_safe; [done| |done..].
  apply Forall_singleton. reads "GET" [L "queue-controls"] "queue_controls.view" (@nil string).
Qed.

Lemma queue_tenants_safe : isPlatform = true ->
  safe (quiet_load (fun ts s => s <| tenants := ts |>) ListTenants).
Proof.
  intros Hp. apply quiet_load_safe; [|done]. apply Forall_singleton.
  writes "GET" [L "tenants"] "tenants.view" (@nil string). by apply platform_can.
Qed.

Lemma queue_handle_safe a s : offered (view isPlatform can s) a -> safe (handle a s).
Proof.
  intros Ha. destruct a; try (simpl; safe_walk; fail).
  apply queue_offered in Ha as (Hc & _). simpl. unfold updateStatus.
  safe_walk; [|apply Ui.safe_fork; [apply queue_load_safe|safe_walk]].
  apply Forall_singleton. writes "PATCH" [L "queue-controls"; V "id"] "queue_controls.update" [id i].
Qed.
End Safety.

(** The page reads the queues, and changes their status only for a user who may. *)
Theorem queues_authorized u c :
  let can := hasPermission (Some u) in
  let isPlatform := is_platform_admin u in
  Ui.reachable http (effects isPlatform) handle (view isPlatform can) initial c ->
  Forall (careful given u) (Ui.c_trace c).
Proof.
  intros can isPlatform Hc.
  eapply (Ui.reachable_safe http _ _ _ (fun _ => True) (careful given u)); [..|exact Hc]; [| |done].
  - intros r s _. apply Forall_app. split; [apply list_effects_safe; [done|apply queue_load_safe]|].
    destruct r; [constructor|]. destruct isPlatform eqn:Hp; [|constructor].
    apply Forall_singleton. by apply queue_tenants_safe.
  - intros a s _. apply queue_handle_safe.
Qed.

(** * What changing a status does *)

(** A queue is changed as its row says.  A row offers the statuses it does not
    have, each as one request; the API accepts it, leaves the queue in that status
    and changes nothing else of it; and whatever is sent to the API, here or by
    another client, a queue keeps one of the three statuses, between 1 and 20
    attempts and a delay of at most a day. *)
Theorem queue_change_stays_in_bounds p isPlatform can s i st srv row :
  offered (view isPlatform can s) (UpdateStatus i st) ->
  QueueRow.wf row -> touches p (QueueRow.tenant row) = true ->
  let body := JObj [("status", JStr st)] in
  st <> status i
  /\ head (Ui.exec http srv (updateStatus i st s) s).1.2
     = Some (OReq (PATCH ("/admin/api/v1/queue-controls/" +:+ id i) body))
  /\ QueueRow.UpdateQueueControl true true p body row = (200, row <| QueueRow.status := st |>)
  /\ forall db found q b, QueueRow.wf (QueueRow.UpdateQueueControl db found q b row).2.
Proof.
  intros Ha Hw Ht body.
  apply queue_offered in Ha as (_ & _ & Hne & Hin). split; [congruence|]. split.
  { unfold updateStatus. simpl. by destruct (srv _ _). }
  split; [|intros; by apply QueueRow.UpdateQueueControl_wf].
  unfold QueueRow.UpdateQueueControl.
  change (decodes UpdateQueueControl_req body) with true. rewrite Ht.
  change (QueueRow.pstring body "status") with (Some st).
  change (QueueRow.pint body "max_attempts") with (@None Z).
  change (QueueRow.pint body "retry_delay_seconds") with (@None Z).
  change (QueueRow.pstring body "notes") with (@None string).
  apply includes_true in Hin. unfold QueueRow.statuses. rewrite Hin. by destruct row.
Qed.

Definition sample_queue : QueueControl := MkQueue "q1" "a" None "email" "a.email" "active" 3 60 "" "".
Definition listed : state := initial <| loading := false |> <| items := [sample_queue] |>.
Definition operator : Principal := MkPrincipal "u1" (Some "a") "ops@example.com" false ["channels.manage"].
Definition sample_row : QueueRow.row := QueueRow.Row "a" "active" 3 60 "".

Lemma queue_change_stays_in_bounds_witness :
  let body := JObj [("status", JStr "paused")] in
  "paused" <> status sample_queue
  /\ head (Ui.exec http (fun X e => Threw NotAnError) (updateStatus sample_queue "paused" listed) listed).1.2
     = Some (OReq (PATCH "/admin/api/v1/queue-controls/q1" body))
  /\ QueueRow.UpdateQueueControl true true operator body sample_row
     = (200, QueueRow.Row "a" "paused" 3 60 "")
  /\ forall db found q b, QueueRow.wf (QueueRow.UpdateQueueControl db found q b sample_row).2.
Proof.
  apply (queue_change_stays_in_bounds operator false (fun _ => true) listed sample_queue "paused").
  - unfold view. apply offered_app. right. apply offered_app. right. apply offered_app. right.
    apply offered_app. left. apply offered_concat. exists sample_queue. split; [by left|].
    do 5 (apply offered_app; right). apply offered_app. left. by left.
  - repeat split; try done. by left.
  - reflexivity.
Defined.
