(* ===== verification/AuditLogs.v ===== *)
(** pages/audit-logs/AuditLogsPage.tsx: the audit trail, by session. *)
From S2P Require Import Prelude Js React Query Client Components Auth Api Page.

Record AuditLog := MkLog {
  id : string; action_ : string; actor_type : string; resource_type : string; resource_id : string;
  ip_address : string; request_id : option string; session_id : option string; created_at : string;
  tenant_name : option string }.
Record Tenant := MkTenant { t_id : string; t_name : string; t_slug : option string; t_status : string }.

Record load_args := LoadArgs { l_tenant : string; l_search : string; l_pg : Pagination.state }.

Record state := State {
  items : list AuditLog; loading : bool; selectedSession : string; selectedLogs : list AuditLog;
  sessionLoading : bool; tenantFilter : string; tenants : list Tenant; search : string;
  meta_ : option Pagination.PaginationMeta; pg : Pagination.state }.
#[export] Instance eta_state : Eta state := fun s =>
  State (items s) (loading s) (selectedSession s) (selectedLogs s) (sessionLoading s) (tenantFilter s)
    (tenants s) (search s) (meta_ s) (pg s).

Definition initial : state := State [] true "" [] false "" [] "" None Pagination.usePagination.

Inductive action :=
| SetSearch (v : string) | SetTenantFilter (v : string) | ClearFilters | Paging (a : Pagination.action)
| ViewSession (sid : string) | CloseSession.

Inductive event : Type -> Type :=
| ListLogs (a : load_args) : event (ApiList AuditLog)
| ListTenants : event (list Tenant)
| ListSession (tenant sid : string) : event (ApiList AuditLog).

Definition http (X : Type) (e : event X) : list request :=
  let logs := "/admin/api/v1/audit-logs" in
  match e with
  | ListLogs a =>
      [listPage logs
         ([("tenant_id", Some (l_tenant a)); ("q", Some (l_search a))] ++ page_params (l_pg a))]
  | ListTenants => [list_ "/admin/api/v1/tenants"]
  | ListSession tenant sid =>
      [listPage logs [("tenant_id", Some tenant); ("q", Some sid); ("per_page", Some (pretty 100))]]
  end.

(** [item.session_id || 'No session'] *)
Definition session_of (i : AuditLog) : string := or_empty (session_id i) ||| "No session".

(** [Object.entries(grouped)]; session identifiers are no array indices. *)
Definition sessions (s : state) : obj (list AuditLog) := group_by session_of (items s).

Section AuditLogsPage.
Variable isPlatform : bool.

Definition args (s : state) : load_args := LoadArgs (tenantFilter s) (search s) (pg s).

Definition load (a : load_args) : prog event state :=
  list_load (fun b s => s <| loading := b |>)
    (fun res s => s <| items := data res |> <| meta_ := meta res |>)
    "Unable to load audit logs" (ListLogs a).

Definition filters (s : state) : string * string := (tenantFilter s, search s).
Definition paging (s : state) : Z * Z := (Pagination.page (pg s), Pagination.perPage (pg s)).

Definition effects (r : option state) (s : state) : list (prog event state) :=
  list_effects (changed filters r s) (changed paging r s)
    (fun s => s <| pg := Pagination.setPage 1 (pg s) |>) (load (args s))
  ++ (match r with
      | None =>
          if isPlatform then [ quiet_load (fun ts s => s <| tenants := ts |>) ListTenants ] else []
      | Some _ => []
      end).

Definition viewSession (sid : string) (s : state) : prog event state :=
  set! (fun s => s <| selectedSession := sid |>) ;; set! (fun s => s <| sessionLoading := true |>) ;;
  await! r <- ListSession (tenantFilter s) sid ;;
  match r with
  | Ok res =>
      set! (fun s => s <| selectedLogs := filter_by (fun i => bool_decide (session_of i = sid)) (data res) |>) ;;
      set! (fun s => s <| sessionLoading := false |>) ;; Done
  | Threw x =>
      emit! toast_error "Unable to load audit session" "Load failed" x ;;
      set! (fun s => s <| selectedLogs := [] |>) ;;
      set! (fun s => s <| sessionLoading := false |>) ;; Done
  end.

Definition handle (a : action) (s : state) : prog event state :=
  match a with
  | SetSearch v => set! (fun s => s <| search := v |>) ;; Done
  | SetTenantFilter v => set! (fun s => s <| tenantFilter := v |>) ;; Done
  | ClearFilters =>
      set! (fun s => s <| search := "" |>) ;; set! (fun s => s <| tenantFilter := "" |>) ;; Done
  | Paging a => set! (fun s => s <| pg := Pagination.apply a (pg s) |>) ;; Done
  | ViewSession sid => viewSession sid s
  | CloseSession =>
      set! (fun s => s <| selectedSession := "" |>) ;; set! (fun s => s <| selectedLogs := [] |>) ;; Done
  end.

Definition cells (i : AuditLog) : list (node action) :=
  [ Txt (action_ i); Txt (actor_type i); Txt (resource_type i); Txt (resource_id i ||| "-") ].

Definition tenant_cell (i : AuditLog) : list (node action) :=
  when isPlatform [Txt (or_empty (tenant_name i) ||| "-")].

Definition log_row (i : AuditLog) : list (node action) :=
  cells i ++ [ Txt (ip_address i ||| "-"); Txt (created_at i) ] ++ tenant_cell i
  ++ [ Btn "View" false (ViewSession (session_of i)) ].

Definition session_section (g : string * list AuditLog) : node action :=
  Grp "Session"
    ([ Txt g.1; Btn (pretty (Z.of_nat (length g.2)) +:+ " events") false (ViewSession g.1) ]
     ++ concat (map log_row g.2)).

Definition session_row (i : AuditLog) : list (node action) :=
  cells i ++ [ Txt (or_empty (request_id i) ||| "-"); Txt (ip_address i ||| "-"); Txt (created_at i) ]
  ++ tenant_cell i.

Definition session_modal (s : state) : node action :=
  Modal.Modal "Audit session" (selectedSession s) CloseSession
    (if sessionLoading s then [Txt "Loading session events..."]
     else if bool_decide (length (selectedLogs s) = 0%nat) then [Txt "No audit events found for this session"]
     else concat (map session_row (selectedLogs s)))
    [ Modal.ModalButton "Close" false CloseSession ].

Definition view (s : state) : list (node action) :=
  [ Inp "Search audit logs" (search s) false SetSearch ]
  ++ when isPlatform
       [ TenantFilter.view (tenantFilter s) SetTenantFilter
           (map (fun t => TenantFilter.Opt (t_id t) (t_name t) (t_slug t)) (tenants s)) ]
  ++ when (truthy (search s) || truthy (tenantFilter s)) [ Btn "Clear filters" false ClearFilters ]
  ++ (if loading s then [Txt "Loading..."]
      else if bool_decide (length (items s) = 0%nat) then [Txt "No audit logs found"]
      else map session_section (sessions s) ++ embed Paging (Pagination.TablePagination (meta_ s) (pg s)))
  ++ when (truthy (selectedSession s)) [session_modal s].

End AuditLogsPage.

(** * Every request is authorized *)

Section Safety.
Variable u : Principal.
Notation isPlatform := (is_platform_admin u).

Definition given : list string := ["audit_logs.view"].

Notation safe := (Ui.safe http (fun _ => True) (careful given u)).

Lemma audit_load_safe a : safe (load a).
Proof.
  apply list_load_safe; [done| |done..].
  apply Forall_singleton. reads "GET" [L "audit-logs"] "audit_logs.view" (@nil string).
Qed.

Lemma audit_tenants_safe : isPlatform = true ->
  safe (quiet_load (fun ts s => s <| tenants := ts |>) ListTenants).
Proof.
  intros Hp. apply quiet_load_safe; [|done]. apply Forall_singleton.
  writes "GET" [L "tenants"] "tenants.view" (@nil string). by apply platform_can.
Qed.

Lemma audit_handle_safe a s : safe (handle a s).
Proof.
  destruct a; try (simpl; safe_walk; fail). simpl. unfold viewSession. safe_walk.
  apply Forall_singleton. reads "GET" [L "audit-logs"] "audit_logs.view" (@nil string).
Qed.
End Safety.

(** The page only reads the audit trail. *)
Theorem audit_logs_authorized u c :
  let isPlatform := is_platform_admin u in
  Ui.reachable http (effects isPlatform) handle (view isPlatform) initial c ->
  Forall (careful given u) (Ui.c_trace c).
Proof.
  intros isPlatform Hc.
  eapply (Ui.reachable_safe http _ _ _ (fun _ => True) (careful given u)); [..|exact Hc]; [| |done].
  - intros r s _. apply Forall_app. split; [apply list_effects_safe; [done|apply audit_load_safe]|].
    destruct r; [constructor|]. destruct isPlatform eqn:Hp; [|constructor].
    apply Forall_singleton. by apply audit_tenants_safe.
  - intros a s _ _. apply audit_handle_safe.
Qed.

(** * What the sessions show *)

(** A row of the API as the page reads it. *)
Definition text_of (row : obj json) (k : string) : string :=
  match oget row k with Some (JStr s) => s | _ => "" end.
Definition log_of (row : obj json) : AuditLog :=
  let f := text_of row in
  MkLog (f "id") (f "action") (f "actor_type") (f "resource_type") (f "resource_id") (f "ip_address")
    (Some (f "request_id")) (Some (f "session_id")) (f "created_at") None.

(** Two events of an API key, without a session, and one of a signed-in user. *)
Definition sample_row (id action actor session : string) : obj json :=
  map (fun kv => (kv.1, JStr kv.2))
    [ ("action", action); ("actor_type", actor); ("actor_user_id", ""); ("created_at", "2025-01-01T00:00:00Z");
      ("id", id); ("ip_address", ""); ("request_id", "req_1"); ("resource_id", ""); ("resource_type", "notification");
      ("session_id", session); ("tenant_id", "a") ].
Definition trail : list (obj json) :=
  [ sample_row "1" "notification.send" "api_key" ""; sample_row "2" "notification.send" "api_key" "";
    sample_row "3" "login.success" "tenant_user" "s-1" ].

(** The API on these rows: the search of a list. *)
Definition sample_server (X : Type) (e : event X) : result X :=
  match e with
  | ListLogs a => Ok (MkList (map log_of (DataTable.filtered trail [("q", l_search a)])) None)
  | ListTenants => Ok []
  | ListSession _ sid => Ok (MkList (map log_of (DataTable.filtered trail [("q", sid)])) None)
  end.

Notation page_reachable := (Ui.reachable http (effects false) handle (view false) initial).
Notation played ms :=
  (Ui.play http (effects false) handle (view false) sample_server ms (Ui.initial initial)).
Notation played_reach ms :=
  (Ui.played http (effects false) handle (view false) sample_server initial ms).
Notation Do l := (Ui.Do (Click l)).
Notation Render := Ui.Render.

Definition open_session (label : string) : list Ui.move :=
  [Render; Render; Ui.Settle 4; Render; Do label 0; Render; Ui.Settle 4; Render]%nat.

(** The sections of the audit page show every event of the list exactly once,
    under its session, the events of no session together.  Opening a session lists
    its events; opening those of no session searches for the words that stand for
    it, which no row contains, and says that there are none. *)
Theorem audit_sessions_partition :
  (forall s, NoDup (okeys (sessions s)) /\ concat (map snd (sessions s)) ≡ₚ items s
     /\ forall sid l i, (sid, l) ∈ sessions s -> i ∈ l -> session_of i = sid)
  /\ (exists c, played (open_session "1 events") = Some c /\ page_reachable c
     /\ Ui.c_pool c = [] /\ selectedSession (Ui.c_state c) = "s-1"
     /\ map id (selectedLogs (Ui.c_state c)) = ["3"])
  /\ (exists c, played (open_session "2 events") = Some c /\ page_reachable c
     /\ Ui.c_pool c = [] /\ selectedSession (Ui.c_state c) = "No session"
     /\ option_map (map id) (oget (sessions (Ui.c_state c)) "No session") = Some ["1"; "2"]
     /\ selectedLogs (Ui.c_state c) = [] /\ sessionLoading (Ui.c_state c) = false).
Proof.
  split; [|split].
  - intros s. split; [apply NoDup_group_by|]. split; [apply group_by_perm|].
    intros sid l i. apply group_by_key.
  - eexists. split; [vm_compute; reflexivity|].
    split; [apply (played_reach (open_session "1 events")); vm_compute; reflexivity|done].
  - eexists. split; [vm_compute; reflexivity|].
    split; [apply (played_reach (open_session "2 events")); vm_compute; reflexivity|done].
Qed.
