(* ===== verification/Notifications.v ===== *)
(** pages/notifications/NotificationsPage.tsx: the log of notifications, and the two
    pagings its list goes through in the API. *)
From S2P Require Import Prelude Js React Query Client Components Auth Api Page.

Record NotificationLog := MkLog {
  public_id : string; tenant : string; event_ : string; status_ : string; delivery_status : string;
  channel_ : string; provider : string; created_at : string }.
Record FailureInfo := Failure { f_code : string; f_explanation : string; f_suggested_action : string }.
Record TimelineEvent := MkEvent {
  e_type : string; e_timestamp : string; e_channel : option string; e_provider : option string;
  e_attempt_no : option Z; e_explanation : option string; e_failure : option FailureInfo }.
Record DeliveryDetail := MkDelivery {
  d_id : string; d_channel : string; d_provider : string; d_status : string; d_failure : FailureInfo;
  d_attempts : Z }.
Record NotificationDetail := MkDetail {
  n_public_id : string; n_tenant : string; n_event : string; n_status : string; n_template_key : string;
  n_schedule_type : string; n_created_at : string; n_deliveries : list DeliveryDetail;
  n_timeline : list TimelineEvent }.

Record load_args := LoadArgs {
  l_pg : Pagination.state; l_search : string; l_status : string; l_channel : string }.

Record state := State {
  items : list NotificationLog; error : string; loading : bool;
  meta_ : option Pagination.PaginationMeta; search : string; status : string; channel : string;
  detail : option NotificationDetail; detailLoading : bool; pg : Pagination.state }.
#[export] Instance eta_state : Eta state := fun s =>
  State (items s) (error s) (loading s) (meta_ s) (search s) (status s) (channel s) (detail s)
    (detailLoading s) (pg s).

Definition initial : state := State [] "" true None "" "" "" None false Pagination.usePagination.

Inductive action :=
| SetSearch (v : string) | SetStatus (v : string) | SetChannel (v : string)
| Paging (a : Pagination.action) | OpenDetail (pid : string) | CloseDetail.

Inductive event : Type -> Type :=
| ListNotifications (a : load_args) : event (ApiList NotificationLog)
| GetNotification (pid : string) : event NotificationDetail.

(** The parameters of the list, in the order of the filters. *)
Definition list_params (a : load_args) : list (string * option string) :=
  page_params (l_pg a)
  ++ [("search", Some (l_search a)); ("status", Some (l_status a)); ("channel", Some (l_channel a))].

Definition http (X : Type) (e : event X) : list request :=
  let notifications := "/admin/api/v1/notifications" in
  match e with
  | ListNotifications a => [listPage notifications (list_params a)]
  | GetNotification pid => [GET (notifications +:+ "/" +:+ pid)]
  end.

Section NotificationsPage.
Variable can : string -> bool.

Definition args (s : state) : load_args := LoadArgs (pg s) (search s) (status s) (channel s).

Definition load (a : load_args) : prog event state :=
  set! (fun s => s <| loading := true |>) ;;
  await! r <- ListNotifications a ;;
  match r with
  | Ok res =>
      set! (fun s => s <| items := data res |> <| meta_ := meta res |>) ;;
      set! (fun s => s <| loading := false |>) ;; Done
  | Threw x =>
      set! (fun s => s <| error := or_empty (message_of x) |>) ;;
      set! (fun s => s <| loading := false |>) ;; Done
  end.

(** The memoized filters: the page is one of them. *)
Definition filters (s : state) : (Z * Z) * string * string * string :=
  ((Pagination.page (pg s), Pagination.perPage (pg s)), search s, status s, channel s).

Definition effects (r : option state) (s : state) : list (prog event state) :=
  (match r with
   | None => [ set! (fun s => s <| pg := Pagination.setPage 1 (pg s) |>) ;; Done ]
   | Some _ => []
   end)
  ++ (if changed filters r s then [ load (args s) ] else []).

(** [updateFilter]: the filter and the first page, in one batch. *)
Definition updateFilter (set : state -> state) : prog event state :=
  set! set ;; set! (fun s => s <| pg := Pagination.setPage 1 (pg s) |>) ;; Done.

Definition openDetail (pid : string) : prog event state :=
  set! (fun s => s <| detailLoading := true |>) ;; set! (fun s => s <| error := "" |>) ;;
  await! r <- GetNotification pid ;;
  match r with
  | Ok d =>
      set! (fun s => s <| detail := Some d |>) ;; set! (fun s => s <| detailLoading := false |>) ;; Done
  | Threw x =>
      set! (fun s => s <| error := getErrorMessage x "Unable to load notification details" |>) ;;
      set! (fun s => s <| detailLoading := false |>) ;; Done
  end.

Definition handle (a : action) (s : state) : prog event state :=
  match a with
  | SetSearch v => updateFilter (fun s => s <| search := v |>)
  | SetStatus v => updateFilter (fun s => s <| status := v |>)
  | SetChannel v => updateFilter (fun s => s <| channel := v |>)
  | Paging a => set! (fun s => s <| pg := Pagination.apply a (pg s) |>) ;; Done
  | OpenDetail pid => openDetail pid
  | CloseDetail => set! (fun s => s <| detail := None |>) ;; Done
  end.

(** * Views *)

Definition badge (st : string) : node action := Txt (Status.StatusBadge (Status.SText st)).2.

Definition row (s : state) (i : NotificationLog) : list (node action) :=
  [ Txt (public_id i); Txt (tenant i); Txt (event_ i); Txt (channel_ i ||| "-"); Txt (provider i ||| "-");
    badge (delivery_status i ||| status_ i); Txt (created_at i);
    Btn "View" (detailLoading s) (OpenDetail (public_id i)) ].

Definition delivery_row (d : DeliveryDetail) : list (node action) :=
  [ Txt (d_channel d); Txt (d_provider d); badge (d_status d); Txt (pretty (d_attempts d));
    Txt (f_code (d_failure d)); Txt (f_suggested_action (d_failure d)) ].

(** An attempt number of 0 is shown as a bare 0. *)
Definition timeline_row (e : TimelineEvent) : list (node action) :=
  [ Txt (spaced (e_type e)) ]
  ++ when (truthy (or_empty (e_channel e))) [Txt (or_empty (e_channel e))]
  ++ when (truthy (or_empty (e_provider e))) [Txt (or_empty (e_provider e))]
  ++ (match e_attempt_no e with
      | Some n => [Txt (if decide (n = 0) then "0" else "attempt " +:+ pretty n)]
      | None => []
      end)
  ++ [ Txt (e_timestamp e);
       Txt (or_empty (e_explanation e) ||| from_option f_explanation "" (e_failure e)) ].

Definition detail_modal (d : NotificationDetail) : node action :=
  Modal.Modal ("Notification " +:+ n_public_id d) (n_tenant d +:+ " · " +:+ n_event d) CloseDetail
    ([ badge (n_status d); Txt (n_template_key d ||| "-"); Txt (n_schedule_type d); Txt (n_created_at d) ]
     ++ concat (map delivery_row (n_deliveries d)) ++ concat (map timeline_row (n_timeline d)))
    [ Modal.ModalButton "Close" false CloseDetail ].

Definition view (s : state) : list (node action) :=
  when (can "notifications.send") [Link "Send" "/notifications/send"]
  ++ when (truthy (error s)) [Txt (error s)]
  ++ [ Inp "Search" (search s) false SetSearch;
       Sel "Status" (status s) false
         [("", "All statuses"); ("queued", "Queued"); ("sending", "Sending"); ("sent", "Sent");
          ("failed", "Failed"); ("dead", "Dead-lettered"); ("blocked", "Blocked")] SetStatus;
       Sel "Channel" (channel s) false
         [("", "All channels"); ("email", "Email"); ("sms", "SMS"); ("fcm", "Mobile push");
          ("websocket", "WebSocket")] SetChannel ]
  ++ (if loading s then [Txt "Loading..."]
      else if bool_decide (length (items s) = 0%nat) then [Txt "No notifications found"]
      else concat (map (row s) (items s)) ++ embed Paging (Pagination.TablePagination (meta_ s) (pg s)))
  ++ (match detail s with Some d => [detail_modal d] | None => [] end).

End NotificationsPage.

(** * Every request is authorized *)

Section Safety.
Variable u : Principal.

Definition given : list string := ["notifications.view"].

Notation safe := (Ui.safe http (fun _ => True) (careful given u)).

Lemma notification_load_safe a : safe (load a).
Proof.
  unfold load. safe_walk. apply Forall_singleton.
  reads "GET" [L "notifications"] "notifications.view" (@nil string).
Qed.

Lemma notification_handle_safe a s : safe (handle a s).
Proof.
  destruct a; try (simpl; unfold updateFilter; safe_walk; fail). simpl. unfold openDetail. safe_walk.
  apply Forall_singleton. reads "GET" [L "notifications"; V "public_id"] "notifications.view" [pid].
Qed.
End Safety.

(** The page only reads notifications. *)
Theorem notifications_authorized u c :
  let can := hasPermission (Some u) in
  Ui.reachable http effects handle (view can) initial c -> Forall (careful given u) (Ui.c_trace c).
Proof.
  intros can Hc.
  eapply (Ui.reachable_safe http _ _ _ (fun _ => True) (careful given u)); [..|exact Hc]; [| |done].
  - intros r s _. apply Forall_app. split.
    + destruct r; [constructor|]. apply Forall_singleton. safe_walk.
    + dmatch; [apply Forall_singleton, notification_load_safe|constructor].
  - intros a s _ _. apply notification_handle_safe.
Qed.

(** * Two pagings *)

(** [strconv.Atoi] with its error dropped: 0 for a syntax error, the nearest integer
    of 64 bits for a value out of range. *)
Definition atoi_or_zero (s : string) : Z :=
  match atoi s with
  | Some z => z
  | None =>
      let '(neg, u) := read_sign s in
      let '(v, n, rest) := read_digits 0 0 u in
      if (0 <? n) && bool_decide (rest = "") then (if neg then - 2 ^ 63 else 2 ^ 63 - 1) else 0
  end.

(** The page, its size and its offset, as the handler of the list reads them. *)
Definition pagination (q : params) : Z * Z * Z :=
  let page := atoi_or_zero (query_get q "page") in
  let perPage := atoi_or_zero (query_get q "per_page") in
  let page := if page <? 1 then 1 else page in
  let perPage := if perPage <? 1 then 20 else perPage in
  let perPage := if 100 <? perPage then 100 else perPage in
  (page, perPage, DataTable.int64 (DataTable.int64 (page - 1) * perPage)).

(** The rows the handler lists of those that match its own parameters: the database
    refuses a negative offset. *)
Definition ListNotificationLogs {A} (matching : list A) (q : params) : option (list A) :=
  let '(page, perPage, offset) := pagination q in
  if offset <? 0 then None
  else Some (firstn (Z.to_nat perPage) (skipn (Z.to_nat offset) matching)).

(** The answer of the route: the handler behind [Chain], whose [DataTableQuery]
    pages what the handler lists once more and replaces its meta. *)
Definition notifications_route (matching : list (obj json)) (q : params)
    : option (list (obj json) * Pagination.PaginationMeta) :=
  match ListNotificationLogs matching q with
  | Some listed => DataTable.DataTableQuery (DataTable.filtered listed q) q
  | None => None
  end.

(** The query of the list, as the page sends it. *)
Definition list_query (a : load_args) : params := set_params [] (list_params a).

Lemma list_query_gets a p k : l_pg a = Pagination.State p k -> 0 < p < 2 ^ 63 -> 0 < k < 2 ^ 63 ->
  query_get (list_query a) "page" = pretty p /\ query_get (list_query a) "per_page" = pretty k
  /\ query_get (list_query a) "q" = ""
  /\ forall row, DataTable.matchesFilters row (list_query a) = true.
Proof.
  intros Ha Hp Hk. unfold list_query, list_params, page_params. rewrite Ha.
  cbn [Pagination.page Pagination.perPage app set_params fold_left snd].
  rewrite (DataTable.pretty_truthy p), (DataTable.pretty_truthy k) by lia.
  destruct (truthy (l_search a)), (truthy (l_status a)), (truthy (l_channel a)); repeat split.
Qed.

Lemma filtered_all rows q : query_get q "q" = "" ->
  (forall row, DataTable.matchesFilters row q = true) -> DataTable.filtered rows q = rows.
Proof.
  intros Hq Hf. unfold DataTable.filtered. apply filter_by_all, Forall_forall. intros row _.
  unfold DataTable.matchesSearch. by rewrite Hq, Hf.
Qed.

Lemma atoi_or_zero_pretty z : 0 < z < 2 ^ 63 -> atoi_or_zero (pretty z) = z.
Proof. intros Hz. unfold atoi_or_zero. by rewrite DataTable.atoi_pretty. Qed.

(** The notification log shows its first page and no other.  The handler of the
    list pages its rows, and [DataTableQuery] pages the page again: the first page
    comes out right, but with its own length as the total, so that the page offers
    no other; and any other page that is asked for is answered empty, whatever the
    rows: a notification older than the page size chosen cannot be listed. *)
Theorem only_first_page_is_shown rows a k p :
  l_pg a = Pagination.State p k -> In k Pagination.sizes -> 1 <= p <= 2 ^ 55 ->
  exists data meta,
    notifications_route rows (list_query a) = Some (data, meta)
    /\ data = (if decide (p = 1) then firstn (Z.to_nat k) rows else [])
    /\ Pagination.totalPages (Some meta) = 1
    /\ (p = 1 -> forall act, offered (Pagination.TablePagination (Some meta) (Pagination.State p k)) act ->
        exists n, act = Pagination.PerPageChange n).
Proof.
  intros Ha Hk Hp. assert (0 < k <= 100) as Hk' by (simpl in Hk; lia). clear Hk.
  destruct (list_query_gets a p k Ha ltac:(lia) ltac:(lia)) as (Hpage & Hper & Hq & Hf).
  set (listed := firstn (Z.to_nat k) (skipn (Z.to_nat ((p - 1) * k)) rows)).
  assert (Hl : Z.of_nat (length listed) <= k) by (subst listed; rewrite length_firstn; lia).
  assert (Hroute : notifications_route rows (list_query a)
    = Some (DataTable.chunk listed (Z.to_nat k) (Z.to_nat (p - 1)), DataTable.meta_of listed p k)).
  { unfold notifications_route, ListNotificationLogs, pagination. rewrite Hpage, Hper.
    rewrite (atoi_or_zero_pretty p), (atoi_or_zero_pretty k) by lia. cbv zeta.
    replace (p <? 1) with false by lia. replace (k <? 1) with false by lia.
    replace (100 <? k) with false by lia.
    rewrite (DataTable.int64_id (p - 1)) by lia. rewrite DataTable.int64_id by nia.
    replace ((p - 1) * k <? 0) with false by nia. rewrite filtered_all by done.
    apply DataTable.DataTableQuery_at; [done|done|lia..]. }
  assert (Htp : Pagination.totalPages (Some (DataTable.meta_of listed p k)) = 1).
  { unfold Pagination.totalPages, DataTable.meta_of. simpl.
    assert ((Z.of_nat (length listed) + k - 1) / k < 2); [|lia].
    apply Z.div_lt_upper_bound; lia. }
  eexists _, _. split; [exact Hroute|]. split; [|split; [done|]].
  - unfold DataTable.chunk. case_decide as H1.
    + subst p. subst listed. simpl. rewrite !skipn_O. by rewrite firstn_firstn, Nat.min_id.
    + rewrite (skipn_all2 (n := (Z.to_nat (p - 1) * Z.to_nat k)%nat)); [by rewrite firstn_nil|nia].
  - intros H1 act Hact. unfold Pagination.TablePagination in Hact. rewrite Htp, H1 in Hact.
    cbn [Pagination.page] in Hact. offers_cases Hact; subst; try done; eauto.
Qed.

Lemma only_first_page_is_shown_witness :
  exists data meta,
    notifications_route (repeat [("public_id", JStr "n")] 60)
      (list_query (LoadArgs (Pagination.State 2 25) "" "" "")) = Some (data, meta)
    /\ data = [] /\ Pagination.totalPages (Some meta) = 1.
Proof.
  destruct (only_first_page_is_shown (repeat [("public_id", JStr "n")] 60)
    (LoadArgs (Pagination.State 2 25) "" "" "") 25 2) as (data & meta & H1 & H2 & H3 & _);
    [reflexivity|simpl; lia|lia|]. exists data, meta. split; [exact H1|]. split; [exact H2|exact H3].
Defined.
