(* ===== verification/Permissions.v ===== *)
(** pages/permissions/PermissionsPage.tsx: the catalog of permissions, by category,
    with the roles that hold each. *)
From S2P Require Import Prelude Js Json React Query Client Components Auth Api Page.

(** The roles as the page keeps them: a list, once normalized. *)
Record Permission := MkPermission { id : string; key : string; description : string; roles : json }.
#[export] Instance eta_permission : Eta Permission := fun p =>
  MkPermission (id p) (key p) (description p) (roles p).

Record state := State {
  items : list Permission; error : string; loading : bool;
  meta_ : option Pagination.PaginationMeta; pg : Pagination.state }.
#[export] Instance eta_state : Eta state := fun s =>
  State (items s) (error s) (loading s) (meta_ s) (pg s).

Definition initial : state := State [] "" true None Pagination.usePagination.

Inductive action := Paging (a : Pagination.action).

Inductive event : Type -> Type :=
| ListPermissions (a : Pagination.state) : event (ApiList Permission).

Definition http (X : Type) (e : event X) : list request :=
  match e with ListPermissions a => [listPage "/admin/api/v1/permissions" (page_params a)] end.

(** The roles of an answer: a list, the text of one, or the base64 of its text. *)
Definition roles_of (r : json) : json :=
  match r with
  | JArr xs => JArr xs
  | JStr t =>
      match Json.parse t with
      | Some v => v
      | None =>
          match atob t with
          | Some u => match Json.parse u with Some v => v | None => JArr [] end
          | None => JArr []
          end
      end
  | _ => JArr []
  end.

Definition normalize (p : Permission) : Permission :=
  match roles p with JArr _ => p | r => p <| roles := roles_of r |> end.

Definition load (a : Pagination.state) : prog event state :=
  set! (fun s => s <| loading := true |>) ;;
  await! r <- ListPermissions a ;;
  match r with
  | Ok res =>
      set! (fun s => s <| items := map normalize (data res) |>) ;;
      set! (fun s => s <| meta_ := meta res |>) ;; set! (fun s => s <| loading := false |>) ;; Done
  | Threw x =>
      set! (fun s => s <| error := or_empty (message_of x) |>) ;;
      set! (fun s => s <| loading := false |>) ;; Done
  end.

Definition paging (s : state) : Z * Z := (Pagination.page (pg s), Pagination.perPage (pg s)).

(** [usePagination] without keys to reset on. *)
Definition effects (r : option state) (s : state) : list (prog event state) :=
  (match r with
   | None => [ set! (fun s => s <| pg := Pagination.setPage 1 (pg s) |>) ;; Done ]
   | Some _ => []
   end)
  ++ (if changed paging r s then [ load (pg s) ] else []).

Definition handle (a : action) (s : state) : prog event state :=
  match a with Paging a => set! (fun s => s <| pg := Pagination.apply a (pg s) |>) ;; Done end.

(** [p.key.split('.')[0] || 'other'] *)
Definition category (p : Permission) : string :=
  match split (ascii_of_nat 46) (key p) with c :: _ => c ||| "other" | [] => "other" end.

(** [Object.entries(categories)]: no category is named like an array index or like
    a member every object has. *)
Definition categories (s : state) : obj (list Permission) := group_by category (items s).

(** A name that is no text is left blank. *)
Definition role_name (r : json) : string :=
  match jfield r "name" with Some (JStr s) => s | _ => "" end.

(** The cell of the roles; [None] when reading it throws: a text that is not empty, or
    an object with a positive [length], has no [map], and null no [name]. *)
Definition role_cell (r : json) : option (list (node action)) :=
  match r with
  | JArr [] => Some [Txt "-"]
  | JArr rs =>
      if existsb (fun x => match x with JNull => true | _ => false end) rs then None
      else Some (map (fun x => Txt (role_name x)) rs)
  | JStr t => if truthy t then None else Some [Txt "-"]
  | JObj kvs =>
      match oget kvs "length" with
      | Some (JNum (Dec m _)) => if 0 <? m then None else Some [Txt "-"]
      | Some (JNum (Infinity false)) | Some (JBool true) => None
      | Some (JStr t) =>
          match Number t with Dec m _ => if 0 <? m then None else Some [Txt "-"]
                            | Infinity false => None | _ => Some [Txt "-"] end
      | _ => Some [Txt "-"]
      end
  | _ => Some [Txt "-"]
  end.

Definition row (p : Permission) : option (list (node action)) :=
  option_map (fun cell => [ Txt (key p); Txt (description p) ] ++ cell) (role_cell (roles p)).

Definition section (g : string * list Permission) : list (node action) :=
  Txt (spaced g.1) :: concat (map (fun p => default [] (row p)) g.2).

(** A render that throws leaves nothing of the page. *)
Definition view (s : state) : list (node action) :=
  if negb (loading s) && negb (forallb (fun p => bool_decide (is_Some (row p))) (items s)) then []
  else
    when (truthy (error s)) [ Txt (error s) ]
    ++ (if loading s then [ Txt "Loading..." ]
        else if bool_decide (length (items s) = 0%nat) then [ Txt "No permissions found" ]
        else concat (map section (categories s)))
    ++ when (negb (loading s)) (embed Paging (Pagination.TablePagination (meta_ s) (pg s))).

(** * Every request is authorized *)

Section Safety.
Variable u : Principal.

Definition given : list string := ["permissions.manage"].

Notation safe := (Ui.safe http (fun _ => True) (careful given u)).

Lemma permission_load_safe a : safe (load a).
Proof.
  unfold load. safe_walk. apply Forall_singleton.
  reads "GET" [L "permissions"] "permissions.manage" (@nil string).
Qed.
End Safety.

(** The page only reads the catalog. *)
Theorem permissions_authorized u c :
  Ui.reachable http effects handle view initial c -> Forall (careful given u) (Ui.c_trace c).
Proof.
  intros Hc.
  eapply (Ui.reachable_safe http _ _ _ (fun _ => True) (careful given u)); [..|exact Hc]; [| |done].
  - intros r s _. apply Forall_app. split.
    + destruct r; [constructor|]. apply Forall_singleton. safe_walk.
    + dmatch; [apply Forall_singleton, permission_load_safe|constructor].
  - intros a s _ _. destruct a. simpl. safe_walk.
Qed.

(** * What is shown *)

(** The roles of a permission come out the same from a list and from its text, and a
    text that is neither JSON nor base64 of JSON leaves none. *)
Lemma roles_read_back xs : plain (JArr xs) ->
  roles_of (JArr xs) = JArr xs /\ roles_of (JStr (show "" (JArr xs))) = JArr xs.
Proof. intros Hp. split; [done|]. unfold roles_of. by rewrite parse_show. Qed.

Example roles_base64 : roles_of (JStr "W3siaWQiOiIxIiwibmFtZSI6Ik9wcyJ9XQ==")
  = JArr [JObj [("id", JStr "1"); ("name", JStr "Ops")]].
Proof. vm_compute. reflexivity. Qed.

(** Every permission of the page is shown under its category and nowhere else. *)
Lemma permissions_by_category s :
  concat (map snd (categories s)) ≡ₚ items s
  /\ forall c ps p, (c, ps) ∈ categories s -> p ∈ ps -> category p = c.
Proof.
  split; [apply group_by_perm|]. intros c ps p Hc Hp.
  by eapply group_by_key.
Qed.
