(* ===== verification/Settings.v ===== *)
(** pages/settings/SettingsPage.tsx: the settings of a tenant, and what the API makes
    of a saved form. *)
From S2P Require Import Prelude Js Json React Query Client Components Auth Api Page Handlers.

Record TenantOption := MkOption { t_id : string; t_name : string; t_slug : string }.

Record state := State {
  tenants : list TenantOption; selectedTenantId : string; timezone : string; country : string;
  defaultSender : string; defaultSms : string; brandingLogo : string; metadata : string;
  loading : bool; saving : bool; error : string }.
#[export] Instance eta_state : Eta state := fun s =>
  State (tenants s) (selectedTenantId s) (timezone s) (country s) (defaultSender s) (defaultSms s)
    (brandingLogo s) (metadata s) (loading s) (saving s) (error s).

Inductive action :=
| SelectTenant (v : string) | SetTimezone (v : string) | SetCountry (v : string)
| SetDefaultSender (v : string) | SetDefaultSms (v : string) | SetBrandingLogo (v : string)
| SetMetadata (v : string) | Submit.

Inductive event : Type -> Type :=
| ListTenants : event (list TenantOption)
| GetSettings (tid : string) : event json
| PutSettings (tid : string) (b : json) : event unit.

Definition settings_path (tid : string) : string :=
  "/admin/api/v1/tenants/" +:+ tid +:+ "/settings".

Definition http (X : Type) (e : event X) : list request :=
  match e with
  | ListTenants => [list_ "/admin/api/v1/tenants"]
  | GetSettings tid => [GET (settings_path tid)]
  | PutSettings tid b => [PUT (settings_path tid) b]
  end.

Section SettingsPage.
Variable isPlatform : bool.
Variable myTenantId : string.
Variable can : string -> bool.

Definition initial : state :=
  State [] (if isPlatform then "" else myTenantId) "" "" "" "" "" "" true false "".

(** * Effects *)

(** [res.data.length && !selectedTenantId], of the render of the effect. *)
Definition load_tenants (selected : string) : prog event state :=
  await! r <- ListTenants ;;
  match r with
  | Ok ts =>
      set! (fun s => s <| tenants := ts |>) ;;
      match ts with
      | t :: _ =>
          if truthy selected then Done else set! (fun s => s <| selectedTenantId := t_id t |>) ;; Done
      | [] => Done
      end
  | Threw _ => Done
  end.

(** [d.timezone || '']: the API writes only texts there. *)
Definition shown (d : json) (k : string) : string :=
  match jfield d k with Some (JStr v) => v | _ => "" end.

Definition shown_metadata (d : json) : string :=
  match jfield d "metadata" with
  | Some m => if json_truthy (Some m) then show "" m else ""
  | None => ""
  end.

(** The setters of a loaded answer. *)
Definition fill (d : json) (s : state) : state :=
  s <| timezone := shown d "timezone" |> <| country := shown d "country" |>
    <| defaultSender := shown d "default_sender" |> <| defaultSms := shown d "default_sms" |>
    <| brandingLogo := shown d "branding_logo" |> <| metadata := shown_metadata d |>.

Definition load (tid : string) : prog event state :=
  if negb (truthy tid) then set! (fun s => s <| loading := false |>) ;; Done
  else
    list_load (fun b s => s <| loading := b |>) fill "Unable to load settings" (GetSettings tid).

Definition effects (r : option state) (s : state) : list (prog event state) :=
  if changed selectedTenantId r s then
    (if isPlatform then [load_tenants (selectedTenantId s)] else []) ++ [load (selectedTenantId s)]
  else [].

(** * Handlers *)

(** [value || null] *)
Definition or_null (v : string) : json := if truthy v then JStr v else JNull.

Definition form (s : state) : obj string :=
  [ ("timezone", timezone s); ("country", country s); ("default_sender", defaultSender s);
    ("default_sms", defaultSms s); ("branding_logo", brandingLogo s) ].

Definition fields (s : state) : obj json := map (fun kv => (kv.1, or_null kv.2)) (form s).

(** The body of a submission; [None] when the metadata is no JSON. *)
Definition body (s : state) : option json :=
  if truthy (trim (metadata s)) then
    option_map (fun v => JObj (fields s ++ [("metadata", v)])) (Json.parse (metadata s))
  else Some (JObj (fields s)).

Definition submit (s : state) : prog event state :=
  if negb (truthy (selectedTenantId s)) then Done
  else
    set! (fun s => s <| saving := true |>) ;; set! (fun s => s <| error := "" |>) ;;
    match body s with
    | None =>
        set! (fun s => s <| error := "Invalid JSON in metadata" |>) ;;
        set! (fun s => s <| saving := false |>) ;; Done
    | Some b =>
        await! r <- PutSettings (selectedTenantId s) b ;;
        match r with
        | Ok _ => emit! success "Settings saved" ;; set! (fun s => s <| saving := false |>) ;; Done
        | Threw x =>
            emit! toast_error "Unable to save settings" "Save failed" x ;;
            set! (fun s => s <| saving := false |>) ;; Done
        end
    end.

Definition handle (a : action) (s : state) : prog event state :=
  match a with
  | SelectTenant v => set! (fun s => s <| selectedTenantId := v |>) ;; Done
  | SetTimezone v => set! (fun s => s <| timezone := v |>) ;; Done
  | SetCountry v => set! (fun s => s <| country := v |>) ;; Done
  | SetDefaultSender v => set! (fun s => s <| defaultSender := v |>) ;; Done
  | SetDefaultSms v => set! (fun s => s <| defaultSms := v |>) ;; Done
  | SetBrandingLogo v => set! (fun s => s <| brandingLogo := v |>) ;; Done
  | SetMetadata v => set! (fun s => s <| metadata := v |>) ;; Done
  | Submit => submit s
  end.

(** * View *)

Definition zones : list string :=
  [""; "America/New_York"; "America/Chicago"; "America/Denver"; "America/Los_Angeles"; "Europe/London";
   "Europe/Berlin"; "Asia/Shanghai"; "Asia/Tokyo"; "Asia/Kolkata"; "Australia/Sydney"; "Pacific/Auckland"].

(** The form has no submit button and several fields, so that the return key does
    not submit it; the save button is above it, and does not wait for the load. *)
Definition view (s : state) : list (node action) :=
  if negb (truthy (selectedTenantId s)) then [ Txt "Select a tenant to manage settings" ]
  else
    when (can "settings.update") [ Btn (if saving s then "Saving..." else "Save") (saving s) Submit ]
    ++ when (truthy (error s)) [ Txt (error s) ]
    ++ when isPlatform
         [ Sel "Tenant" (selectedTenantId s) false
             (map (fun t => (t_id t, t_name t +:+ " (" +:+ t_slug t +:+ ")")) (tenants s)) SelectTenant ]
    ++ (if loading s then [ Txt "Loading settings..." ]
        else
          [ Sel "Timezone" (timezone s) false (map (fun z => (z, z ||| "Default (UTC)")) zones) SetTimezone;
            Inp "Country" (country s) false SetCountry;
            Inp "Default Email Sender" (defaultSender s) false SetDefaultSender;
            Inp "Default SMS Sender" (defaultSms s) false SetDefaultSms;
            Inp "Logo URL" (brandingLogo s) false SetBrandingLogo ]
          ++ when isPlatform [ Inp "Custom JSON" (metadata s) false SetMetadata ]).

End SettingsPage.

(** * Every request is authorized *)

Section Safety.
Variable u : Principal.
Notation isPlatform := (is_platform_admin u).
Notation can := (hasPermission (Some u)).

Definition given : list string := ["settings.view"].

Notation safe := (Ui.safe http (fun _ => True) (careful given u)).

Lemma settings_load_safe tid : safe (load tid).
Proof.
  unfold load. destruct (negb (truthy tid)); [safe_walk|].
  apply list_load_safe; try done. apply Forall_singleton.
  reads "GET" [L "tenants"; V "id"; L "settings"] "settings.view" [tid].
Qed.

Lemma settings_tenants_safe selected : isPlatform = true -> safe (load_tenants selected).
Proof.
  intros Hp. unfold load_tenants. safe_walk. apply Forall_singleton.
  writes "GET" [L "tenants"] "tenants.view" (@nil string). by apply platform_can.
Qed.

Lemma fields_read s rest : decodes UpdateTenantSettings_req (JObj (fields s ++ rest)) = true.
Proof.
  apply decodes_struct. unfold fields, form, or_null.
  repeat (apply Forall_cons; split; [cbn [app oget]; simpl; try destruct (truthy _); done|]).
  apply Forall_singleton. simpl. destruct (oget rest "metadata") as [[]|]; done.
Qed.

Lemma body_reads s b : body s = Some b -> decodes UpdateTenantSettings_req b = true.
Proof.
  unfold body. destruct (truthy _).
  - destruct (Json.parse _) as [v|]; [|done]. intros [= <-]. apply fields_read.
  - intros [= <-]. rewrite <- (app_nil_r (fields s)). apply fields_read.
Qed.

Lemma settings_handle_safe a s : offered (view isPlatform can s) a -> safe (handle a s).
Proof.
  intros Ha. destruct a; try (simpl; safe_walk; fail). simpl. unfold submit.
  destruct (negb (truthy (selectedTenantId s))) eqn:Ht; [safe_walk|].
  assert (Hc : can "settings.update" = true).
  { unfold view in Ha. rewrite Ht in Ha. page_cases Ha; by subst. }
  destruct (body s) as [b|] eqn:Hb; [|safe_walk]. safe_walk. apply Forall_singleton.
  writes_body "PUT" [L "tenants"; V "id"; L "settings"] "settings.update" [selectedTenantId s]
    (body_reads s b Hb).
Qed.
End Safety.

(** The page reads settings, and writes them only for a user who may. *)
Theorem settings_authorized u c :
  let can := hasPermission (Some u) in
  let isPlatform := is_platform_admin u in
  Ui.reachable http (effects isPlatform) handle (view isPlatform can)
    (initial isPlatform (or_empty (Auth.tenant_id u))) c ->
  Forall (careful given u) (Ui.c_trace c).
Proof.
  intros can isPlatform Hc.
  eapply (Ui.reachable_safe http _ _ _ (fun _ => True) (careful given u)); [..|exact Hc].
  - intros r s _. unfold effects. destruct (changed _ _ _); [|constructor]. apply Forall_app. split.
    + destruct isPlatform eqn:Hp; [|constructor]. apply Forall_singleton. by apply settings_tenants_safe.
    + apply Forall_singleton, settings_load_safe.
  - intros a s _. apply settings_handle_safe.
  - done.
Qed.

(** * What a save leaves *)

(** The metadata of a body, as the text of the form reads. *)
Definition typed_metadata (s : state) : option json :=
  if truthy (trim (metadata s)) then Json.parse (metadata s) else None.

Lemma jfield_body s b k : body s = Some b ->
  jfield b k
  = if decide (k = "metadata") then typed_metadata s else option_map or_null (oget (form s) k).
Proof.
  unfold body, typed_metadata. destruct (truthy (trim (metadata s))).
  - destruct (Json.parse (metadata s)) as [v|]; [|done]. intros [= <-]. simpl.
    repeat (case_decide; [by subst|]). done.
  - intros [= <-]. simpl. repeat (case_decide; [by subst|]). done.
Qed.

Lemma settings_keys s k : k ∈ TenantConfig.settings <-> oget (form s) k <> None.
Proof.
  change TenantConfig.settings with (okeys (form s)). rewrite oget_None.
  destruct (decide (k ∈ okeys (form s))); tauto.
Qed.

Lemma settings_NoDup : NoDup TenantConfig.settings.
Proof. by apply (bool_decide_unpack _); vm_compute. Qed.

(** The configuration a save leaves: every setting of the form that is not blank, and
    metadata that is an object or null; all the rest as it was. *)
Definition merged (s : state) (cfg : obj json) (k : string) : option json :=
  if decide (k = "metadata") then
    match typed_metadata s with
    | Some (JObj m) => Some (JObj m) | Some JNull => Some JNull | _ => oget cfg k
    end
  else match oget (form s) k with
       | Some v => if truthy v then Some (JStr v) else oget cfg k
       | None => oget cfg k
       end.

Definition may_touch (p : Principal) (tid : string) : Prop :=
  is_platform_admin p = true \/ or_empty (Auth.tenant_id p) = tid.

Lemma may_touch_open p tid : may_touch p tid ->
  negb (is_platform_admin p) && negb (bool_decide (or_empty (Auth.tenant_id p) = tid)) = false.
Proof. intros [-> | H]; [done|]. by rewrite bool_decide_eq_true_2, andb_false_r. Qed.

Lemma update_merges p tid s b cfg : body s = Some b -> tid <> "" -> may_touch p tid ->
  exists cfg', TenantConfig.UpdateTenantSettings true true p tid b cfg = (200, cfg')
    /\ forall k, oget cfg' k = merged s cfg k.
Proof.
  intros Hb Ht Hp. unfold TenantConfig.UpdateTenantSettings.
  rewrite may_touch_open, (body_reads s b Hb), decide_False by done.
  eexists. split; [reflexivity|]. intros k.
  rewrite TenantConfig.oget_set_metadata, TenantConfig.oget_set_settings by apply settings_NoDup.
  rewrite !(jfield_body s b) by done. unfold merged. rewrite (decide_True (P := "metadata" = "metadata")) by done.
  pose proof (settings_keys s k) as Hk. destruct (decide (k = "metadata")) as [->|Hne].
  - destruct (typed_metadata s) as [[]|]; try done; by rewrite decide_False by (intros H; vm_compute in H; clear -H; set_solver).
  - destruct (oget (form s) k) as [v|]; [|done]. simpl. unfold or_null.
    destruct (truthy v); [|done]. by rewrite decide_True by by apply Hk.
Qed.

(** What a save of the settings does, from the form to the database.  Metadata
    that is not JSON is refused with no request; otherwise one request is sent, whose
    answer is told, and the form stays.  When the API accepts it, every setting that
    is not blank is the form's, the metadata is the form's when it is an object or
    null, and everything else of the configuration is as it was: a setting cannot
    be cleared, and metadata that is a list, a number or a text is reported saved
    and dropped. *)
Theorem saved_settings_merge p srv s cfg :
  selectedTenantId s <> "" -> may_touch p (selectedTenantId s) ->
  let tid := selectedTenantId s in
  let '(s', outs, started) := Ui.exec http srv (submit s) s in
  started = [] /\ saving s' = false /\ form s' = form s /\ metadata s' = metadata s
  /\ match body s with
     | None =>
         truthy (trim (metadata s)) = true /\ Json.parse (metadata s) = None
         /\ outs = [] /\ error s' = "Invalid JSON in metadata"
     | Some b =>
         error s' = ""
         /\ outs = [OReq (PUT (settings_path tid) b);
                    match srv unit (PutSettings tid b) with
                    | Ok _ => success "Settings saved"
                    | Threw x => toast_error "Unable to save settings" "Save failed" x
                    end]
         /\ exists cfg', TenantConfig.UpdateTenantSettings true true p tid b cfg = (200, cfg')
            /\ forall k, oget cfg' k = merged s cfg k
     end.
Proof.
  intros Ht Hp tid. unfold submit. assert (Hs : truthy tid = true) by by apply truthy_true.
  subst tid. rewrite Hs. cbn [negb]. destruct (body s) as [b|] eqn:Hb.
  - destruct (update_merges p _ s b cfg Hb Ht Hp) as (cfg' & Hu & Hk).
    simpl. destruct (srv unit _); simpl; repeat (split; [reflexivity|]); eauto.
  - unfold body in Hb. simpl. repeat (split; [reflexivity|]).
    destruct (truthy (trim (metadata s))); [|done]. by destruct (Json.parse (metadata s)).
Qed.

Definition admin : Principal := MkPrincipal "u1" None "root@example.com" true [].
Definition list_typed : state :=
  (initial true "") <| selectedTenantId := "t1" |> <| country := "US" |> <| metadata := "[1]" |>.
Definition stored : obj json :=
  [("country", JStr "DE"); ("timezone", JStr "Asia/Tokyo"); ("metadata", JObj [("plan", JStr "pro")])].

(** The blank zone and the list are dropped, and the user is told they were saved. *)
Lemma saved_settings_merge_witness :
  let b := JObj [("timezone", JNull); ("country", JStr "US"); ("default_sender", JNull);
                 ("default_sms", JNull); ("branding_logo", JNull); ("metadata", JArr [JNum (int 1)])] in
  body list_typed = Some b
  /\ exists cfg', TenantConfig.UpdateTenantSettings true true admin "t1" b stored = (200, cfg')
     /\ forall k, oget cfg' k = oget (oset stored "country" (JStr "US")) k.
Proof.
  pose proof (saved_settings_merge admin (fun X e => Threw NotAnError) list_typed stored
    ltac:(done) ltac:(by left)) as H.
  destruct (Ui.exec _ _ _ _) as [[s' outs] started].
  destruct H as (_ & _ & _ & _ & H). split; [reflexivity|].
  destruct H as (_ & _ & cfg' & Hu & Hk). exists cfg'. split; [exact Hu|].
  intros k. rewrite Hk. unfold merged. case_decide as H1; [by subst|]. simpl.
  repeat (case_decide; [by subst|]). done.
Defined.

(** * What a load and a save leave *)

(** The configurations the API and the pages write: texts for the settings. *)
Definition wf_config (cfg : obj json) : Prop :=
  (forall k, k ∈ TenantConfig.settings ->
     match oget cfg k with None | Some JNull | Some (JStr _) => True | _ => False end)
  /\ match oget cfg "metadata" with Some m => plain m | None => True end.

Lemma show_head v : plain v -> exists c r, show "" v = String c r /\ is_space c = false.
Proof.
  destruct v as [|[]|[|neg|z e]|s|[|x xs]|[|kv kvs]]; try done; try (by eexists _, _).
  intros [-> Hz]. change (show "" (JNum (Dec z 0))) with (num_text (int z)).
  assert (Hpos : forall p, Z.pos p <= 2 ^ 53 -> exists c r,
    num_text (int (Z.pos p)) = String c r /\ 48 < byte c <= 57).
  { intros q Hq. rewrite num_text_pos, pretty_go by lia. apply go_head. lia. }
  destruct z as [|q|q]; [by eexists _, _| |].
  - destruct (Hpos q) as (c & r & -> & Hc); [lia|]. exists c, r. split; [done|].
    unfold is_space. lia.
  - rewrite num_text_neg. by eexists _, _.
Qed.

Lemma show_nonblank v : plain v -> truthy (trim (show "" v)) = true.
Proof.
  intros Hv. apply truthy_true. rewrite trim_empty.
  destruct (show_head v Hv) as (c & r & -> & Hc). simpl. by rewrite Hc.
Qed.

Lemma jfield_settings p tid cfg d k : TenantConfig.GetTenantSettings p tid cfg = (200, d) ->
  k ∈ TenantConfig.settings \/ k = "metadata" -> jfield d k = Some (default JNull (oget cfg k)).
Proof.
  unfold TenantConfig.GetTenantSettings. destruct (_ && _); [done|]. intros [= <-] Hk.
  unfold TenantConfig.settings in Hk. rewrite !elem_of_cons, elem_of_nil in Hk.
  naive_solver.
Qed.

Lemma filled_metadata p tid cfg d s : TenantConfig.GetTenantSettings p tid cfg = (200, d) ->
  metadata (fill d s)
  = match oget cfg "metadata" with Some m => if json_truthy (Some m) then show "" m else "" | None => "" end.
Proof.
  intros Hd. change (metadata (fill d s)) with (shown_metadata d). unfold shown_metadata.
  rewrite (jfield_settings p tid cfg d) by auto. by destruct (oget cfg "metadata").
Qed.

(** C36: opening the settings and saving them changes nothing.  From the answer of the
    API for a configuration whose settings are texts and whose metadata is JSON with
    integers and no key twice, the form the page fills is sent back as a body the
    API understands, and the configuration it leaves has the same members with the
    same values, the metadata having been printed over several lines and parsed. *)
Theorem settings_load_save_roundtrip p tid cfg d s :
  wf_config cfg -> TenantConfig.GetTenantSettings p tid cfg = (200, d) -> tid <> "" ->
  exists b cfg', body (fill d s) = Some b
    /\ TenantConfig.UpdateTenantSettings true true p tid b cfg = (200, cfg')
    /\ forall k, oget cfg' k = oget cfg k.
Proof.
  intros [Hset Hmeta] Hd Ht.
  assert (Hp : may_touch p tid).
  { unfold TenantConfig.GetTenantSettings in Hd. unfold may_touch.
    destruct (is_platform_admin p); [by left|]. right.
    by destruct (decide (or_empty (Auth.tenant_id p) = tid)); [|rewrite bool_decide_eq_false_2 in Hd]. }
  assert (Hm : typed_metadata (fill d s)
    = match oget cfg "metadata" with Some m => if json_truthy (Some m) then Some m else None | None => None end).
  { unfold typed_metadata. rewrite (filled_metadata p tid cfg) by done.
    destruct (oget cfg "metadata") as [m|]; [|done]. destruct (json_truthy (Some m)); [|done].
    by rewrite show_nonblank, parse_show by done. }
  assert (Hb : exists b, body (fill d s) = Some b).
  { unfold body. rewrite (filled_metadata p tid cfg) by done.
    destruct (oget cfg "metadata") as [m|]; [|by eexists]. destruct (json_truthy (Some m)); [|by eexists].
    rewrite show_nonblank, parse_show by done. by eexists. }
  destruct Hb as [b Hb]. destruct (update_merges p tid _ b cfg Hb Ht Hp) as (cfg' & Hu & Hk).
  exists b, cfg'. split; [done|]. split; [done|]. intros k. rewrite Hk. unfold merged. rewrite Hm.
  case_decide as Hkm; [subst k|].
  - by destruct (oget cfg "metadata") as [[|[]|[]| | |]|]; simpl; try destruct (_ =? _); try destruct (truthy _).
  - destruct (oget (form (fill d s)) k) as [v|] eqn:Hv; [|done].
    assert (Hin : k ∈ TenantConfig.settings) by (apply (settings_keys (fill d s)); congruence).
    assert (v = shown d k) as ->.
    { simpl in Hv. repeat (case_decide; [by simplify_eq|]). done. }
    unfold shown. rewrite (jfield_settings p tid cfg d) by auto. specialize (Hset k Hin).
    destruct (oget cfg k) as [[]|]; try done; simpl. destruct (truthy s0) eqn:E; [done|].
    by destruct (truthy s0).
Qed.

Definition nested : obj json :=
  [("timezone", JStr "Asia/Tokyo"); ("country", JNull);
   ("metadata", JObj [("plan", JStr "pro"); ("limits", JArr [JNum (int 10); JNum (int (-1))])])].
Definition nested_answer : json := (TenantConfig.GetTenantSettings admin "t1" nested).2.

Lemma settings_load_save_roundtrip_witness :
  exists b cfg', body (fill nested_answer (initial true "")) = Some b
    /\ TenantConfig.UpdateTenantSettings true true admin "t1" b nested = (200, cfg')
    /\ forall k, oget cfg' k = oget nested k.
Proof.
  apply (settings_load_save_roundtrip admin "t1" nested nested_answer (initial true "")); [|reflexivity|done].
  split.
  - intros k Hk. unfold TenantConfig.settings in Hk. rewrite !elem_of_cons, elem_of_nil in Hk. naive_solver.
  - simpl. repeat split; try lia; repeat constructor; set_solver.
Defined.

(** * Saving while the settings are loaded *)

Definition config_of (tid : string) : obj json :=
  if decide (tid = "a") then [("default_sender", JStr "mail@acme.com"); ("country", JStr "US")]
  else [("default_sender", JStr "post@globex.de"); ("country", JStr "DE")].

Definition sample_server (X : Type) (e : event X) : result X :=
  match e with
  | ListTenants => Ok [MkOption "a" "Acme" "acme"; MkOption "b" "Globex" "globex"]
  | GetSettings tid => Ok (TenantConfig.GetTenantSettings admin tid (config_of tid)).2
  | PutSettings _ _ => Ok tt
  end.

Notation page_reachable :=
  (Ui.reachable http (effects true) handle (view true (fun _ => true)) (initial true "")).
Notation played ms :=
  (Ui.play http (effects true) handle (view true (fun _ => true)) sample_server ms
     (Ui.initial (initial true ""))).
Notation played_reach ms :=
  (Ui.played http (effects true) handle (view true (fun _ => true)) sample_server (initial true "") ms).
Notation Do l := (Ui.Do (Click l)).
Notation Render := Ui.Render.

(** The first tenant's settings are loaded; the second is chosen; its settings have
    not come yet. *)
Definition save_at_once : list Ui.move :=
  [Render; Ui.Settle 9; Render; Ui.Settle 9; Render; Ui.Do (Fill "Tenant" "b") 0; Render; Ui.Settle 1;
   Render; Do "Save" 0]%nat.

Definition acme_body : json :=
  JObj [("timezone", JNull); ("country", JStr "US"); ("default_sender", JStr "mail@acme.com");
        ("default_sms", JNull); ("branding_logo", JNull)].

(** Choosing another tenant and saving before its settings have come writes the
    settings of the one tenant over those of the other: the form is hidden, but the
    save button is not, and it sends what is left in the state. *)
Theorem save_while_loading_copies_settings :
  exists c b cfg', played save_at_once = Some c /\ page_reachable c
    /\ selectedTenantId (Ui.c_state c) = "b" /\ loading (Ui.c_state c) = true
    /\ head (Ui.c_trace c) = Some (OReq (PUT (settings_path "b") b))
    /\ TenantConfig.UpdateTenantSettings true true admin "b" b (config_of "b") = (200, cfg')
    /\ oget cfg' "default_sender" = oget (config_of "a") "default_sender"
    /\ oget cfg' "country" = oget (config_of "a") "country".
Proof.
  assert (H : (fun c => (selectedTenantId (Ui.c_state c), loading (Ui.c_state c), head (Ui.c_trace c)))
    <$> played save_at_once = Some ("b", true, Some (OReq (PUT (settings_path "b") acme_body))))
    by (vm_compute; reflexivity).
  apply fmap_Some in H as (c & Hc & [= Hs Hl Ht]).
  exists c, acme_body. eexists. split; [exact Hc|]. split; [exact (played_reach save_at_once c Hc)|].
  do 3 (split; [done|]). split; [vm_compute; reflexivity|done].
Qed.
