(* ===== verification/Dashboard.v ===== *)
(** pages/dashboard/DashboardPage.tsx: the operations overview, and the rate the API
    computes for it. *)
From Stdlib Require Import QArith Qround.
From S2P Require Import Prelude Js React Query Client Components Auth Api Page.
#[local] Open Scope Z_scope.

Record ChannelStat := MkStat { channel : string; count : Z }.
Record DashboardStats := MkStats {
  queued : Z; sent_today : Z; failed : Z; retry_count : Z; dead_letter_count : Z; active_campaigns : Z;
  ws_connections : Z; success_rate : Q; channels : list ChannelStat }.

Record state := State { stats : option DashboardStats; loading : bool; error : option string }.
#[export] Instance eta_state : Eta state := fun s => State (stats s) (loading s) (error s).

Definition initial : state := State None true None.

(** The page offers nothing to act on. *)
Inductive action :=.

Inductive event : Type -> Type := GetStats : event DashboardStats.

Definition http (X : Type) (e : event X) : list request :=
  match e with GetStats => [GET "/admin/api/v1/dashboard/stats"] end.

Definition load : prog event state :=
  set! (fun s => s <| loading := true |>) ;;
  await! r <- GetStats ;;
  match r with
  | Ok d => set! (fun s => s <| stats := Some d |>) ;; set! (fun s => s <| loading := false |>) ;; Done
  | Threw x =>
      set! (fun s => s <| error := message_of x |>) ;; set! (fun s => s <| loading := false |>) ;; Done
  end.

Definition effects (r : option state) (s : state) : list (prog event state) :=
  match r with None => [load] | Some _ => [] end.

Definition handle (a : action) (s : state) : prog event state := match a with end.

(** * What is drawn

    Shares are exact fractions, before their rounding to a double. *)

(** [x.toFixed(1)] of a number that is not negative, without its sign. *)
Definition toFixed1 (x : Q) : string :=
  let tenths := Qfloor (x * 10 + (1 # 2)) in
  pretty (tenths / 10) +:+ "." +:+ pretty (tenths mod 10).

Definition maxChannel (s : option DashboardStats) : Z :=
  fold_right Z.max 1 (map count (match s with Some d => channels d | None => [] end)).

(** The width of a bar, in percent. *)
Definition width (d : DashboardStats) (ch : ChannelStat) : Q :=
  let share := (inject_Z (count ch) / inject_Z (maxChannel (Some d)) * 100)%Q in
  if Qle_bool share 4 then 4%Q else share.

Definition total (s : option DashboardStats) : Z :=
  match s with Some d => sent_today d + failed d + queued d | None => 0 end.

(** Where the green and the red of the ring end, in percent; [None] is a grey ring. *)
Definition ring (d : DashboardStats) : option (Q * Q) :=
  let t := total (Some d) in
  if t =? 0 then None
  else Some ((inject_Z (sent_today d) / inject_Z t * 100)%Q,
             (inject_Z (sent_today d + failed d) / inject_Z t * 100)%Q).

Definition cards (s : option DashboardStats) : list (string * string) :=
  let number (f : DashboardStats -> Z) := match s with Some d => pretty (f d) | None => "-" end in
  [ ("Queued", number queued); ("Sent today", number sent_today); ("Failed", number failed);
    ("Success rate", match s with Some d => toFixed1 (success_rate d) +:+ "%" | None => "-" end);
    ("Retries", number retry_count); ("Dead letter", number dead_letter_count);
    ("Active campaigns", number active_campaigns); ("WS connections", number ws_connections) ].

(** [ch.channel.replace('_', ' ')] replaces the first underscore. *)
Definition channel_row (ch : ChannelStat) : list (node action) :=
  [ Txt (replace_first_char (ascii_of_nat 95) (ascii_of_nat 32) (channel ch)); Txt (pretty (count ch)) ].

Definition view (s : state) : list (node action) :=
  if loading s then []
  else
    (match error s with Some e => when (truthy e) [Txt e] | None => [] end)
    ++ [ Txt "Operations overview" ]
    ++ concat (map (fun c => [Txt c.1; Txt c.2]) (cards (stats s)))
    ++ match stats s with
       | Some d =>
           (if bool_decide (length (channels d) = 0%nat)
            then [ Txt "Channel activity will appear after the first delivery." ]
            else concat (map channel_row (channels d)))
           ++ [ Txt (pretty (total (stats s))); Txt (pretty (sent_today d)); Txt (pretty (failed d));
                Txt (pretty (queued d)) ]
       | None => []
       end.

(** [successRate] of the API, in floating point before rounding. *)
Definition successRate (sentToday failed : Z) : Q :=
  let totalDeliveries := sentToday + failed in
  if 0 <? totalDeliveries then (inject_Z sentToday / inject_Z totalDeliveries * 100)%Q else 0%Q.

(** * Every request is authorized *)

Definition given : list string := ["notifications.view"].

(** The page reads its numbers once. *)
Theorem dashboard_authorized u c :
  Ui.reachable http effects handle view initial c -> Forall (careful given u) (Ui.c_trace c).
Proof.
  intros Hc.
  eapply (Ui.reachable_safe http _ _ _ (fun _ => True) (careful given u)); [..|exact Hc]; [| |done].
  - intros [r|] s _; [constructor|]. apply Forall_singleton. unfold load. safe_walk.
    apply Forall_singleton. reads "GET" [L "dashboard"; L "stats"] "notifications.view" (@nil string).
  - by intros [].
Qed.

(** * Bounds *)

Lemma maxChannel_ge d : 1 <= maxChannel (Some d).
Proof. unfold maxChannel. induction (map count _); simpl; lia. Qed.

Lemma maxChannel_bound d ch : ch ∈ channels d -> count ch <= maxChannel (Some d).
Proof.
  unfold maxChannel. induction (channels d) as [|x xs IH]; [by rewrite elem_of_nil|].
  rewrite elem_of_cons. intros [->|H]; simpl; [lia|]. specialize (IH H). lia.
Qed.

Lemma widest d : Exists (fun ch => 1 <= count ch) (channels d) ->
  exists ch, ch ∈ channels d /\ count ch = maxChannel (Some d).
Proof.
  unfold maxChannel. induction (channels d) as [|x xs IH]; [by rewrite Exists_nil|].
  set (m := fold_right Z.max 1 (map count xs)) in *. simpl. fold m. rewrite Exists_cons. intros H.
  destruct (decide (m <= count x /\ 1 <= count x)) as [[Hm _]|Hn].
  - exists x. split; [by left|lia].
  - assert (Hm : 1 <= m) by (subst m; clear; induction xs; simpl; lia).
    destruct (decide (Exists (fun ch => 1 <= count ch) xs)) as [Hx|Hx].
    + destruct (IH Hx) as (ch & Hin & Hch). exists ch. split; [by right|lia].
    + assert (m = 1).
      { subst m. clear -Hx. induction xs as [|y ys IHy]; [done|]. simpl.
        rewrite Exists_cons in Hx. rewrite IHy by tauto. lia. }
      destruct H as [H|H]; [lia|done].
Qed.

(** A part of a total, in percent. *)
Lemma share_bounds a b : 0 <= a <= b -> 0 < b ->
  (0 <= inject_Z a / inject_Z b * 100 <= 100)%Q.
Proof.
  intros Ha Hb. destruct b as [|b|b]; [lia| |lia].
  unfold Qle, Qmult, Qdiv, Qinv, inject_Z. simpl. lia.
Qed.

(** What the overview draws stays in its frame.  For counts that are not negative,
    each bar is between 4 and 100 percent wide, one of the widest channels filling
    it when there was any delivery; the sectors of the ring come in order and end
    by 100 percent, the ring being grey only when there are no counts; and the success
    rate of the API is between 0 and 100. *)
Theorem overview_in_frame d :
  0 <= queued d -> 0 <= sent_today d -> 0 <= failed d -> Forall (fun ch => 0 <= count ch) (channels d) ->
  (forall ch, ch ∈ channels d -> (4 <= width d ch <= 100)%Q)
  /\ (Exists (fun ch => 1 <= count ch) (channels d) ->
      exists ch, ch ∈ channels d /\ count ch = maxChannel (Some d) /\ (width d ch == 100)%Q)
  /\ match ring d with
     | Some (green, red) => (0 <= green <= red)%Q /\ (red <= 100)%Q
     | None => queued d = 0 /\ sent_today d = 0 /\ failed d = 0
     end
  /\ (0 <= successRate (sent_today d) (failed d) <= 100)%Q.
Proof.
  intros Hq Hs Hf Hc. rewrite Forall_forall in Hc. split; [|split; [|split]].
  - intros ch Hin. unfold width. pose proof (maxChannel_ge d).
    destruct (share_bounds (count ch) (maxChannel (Some d))) as [_ H1];
      [split; [by apply Hc|by apply maxChannel_bound]|lia|].
    destruct (Qle_bool _ 4) eqn:E; [split; discriminate|]. split; [|exact H1].
    apply Qlt_le_weak, Qnot_le_lt. intros H2. apply Qle_bool_iff in H2. congruence.
  - intros Hex. destruct (widest d Hex) as (ch & Hin & Hm). exists ch. split; [done|]. split; [done|].
    unfold width. rewrite Hm. pose proof (maxChannel_ge d).
    set (m := maxChannel (Some d)) in *. clearbody m. destruct m as [|m|m]; [lia| |lia].
    replace (Qle_bool _ 4) with false; [unfold Qeq, Qmult, Qdiv, Qinv, inject_Z; simpl; lia|].
    symmetry. apply not_true_iff_false. rewrite Qle_bool_iff.
    unfold Qle, Qmult, Qdiv, Qinv, inject_Z. simpl. lia.
  - unfold ring, total. destruct (_ =? 0) eqn:E; [lia|].
    destruct (share_bounds (sent_today d + failed d) (sent_today d + failed d + queued d)) as [_ H2]; [lia..|].
    destruct (share_bounds (sent_today d) (sent_today d + failed d + queued d)) as [H1 _]; [lia..|].
    split; [split; [exact H1|]|exact H2].
    set (t := sent_today d + failed d + queued d) in *. assert (0 < t) by lia. clearbody t.
    destruct t as [|t|t]; [lia| |lia]. unfold Qle, Qmult, Qdiv, Qinv, inject_Z. simpl. nia.
  - unfold successRate. destruct (0 <? _) eqn:E; [apply share_bounds; lia|split; discriminate].
Qed.

Definition sample_stats : DashboardStats :=
  MkStats 2 6 1 0 0 1 3 (600 # 7) [MkStat "email" 40; MkStat "in_app" 1].

Lemma overview_in_frame_witness :
  (4 <= width sample_stats (MkStat "in_app" 1) <= 100)%Q
  /\ (width sample_stats (MkStat "email" 40) == 100)%Q.
Proof.
  destruct (overview_in_frame sample_stats) as (H1 & H2 & _);
    [done|done|done|by repeat constructor|].
  split; [apply H1; right; by left|].
  destruct H2 as (ch & Hin & _ & Hw); [by constructor|].
  simpl in Hin. rewrite !elem_of_cons, elem_of_nil in Hin.
  destruct Hin as [-> | [-> | []]]; [exact Hw|]. by vm_compute in Hw.
Defined.
