(* ===== verification/Integration.v ===== *)
(** pages/integration/IntegrationPage.tsx and IntegrationGuide.tsx: the guide a tenant
    integrates with, and the examples it hands out. *)
From S2P Require Import Prelude Js Json React Query Client Components Auth Api Page.

Record Check := MkCheck {
  k_id : string; k_label : string; k_complete : bool; k_description : string; k_action_path : string }.
Record ChannelLimit := MkLimit { l_channel : string; l_rate : Z; l_quota : Z }.
Record RecentError := MkError {
  e_notification_id : string; e_status : string; e_code : string; e_suggested_action : string }.
Record IntegrationData := MkData {
  tenant_id : string; tenant_name : string; slug : string; api_base_url : string; api_version : string;
  auth_header : string; summary_status : string; completion_percent : num; active_credentials : Z;
  enabled_channels : Z; recommended_next_action : string; rate_limit_per_second : Z; daily_quota : Z;
  checklist : list Check; channels : list ChannelLimit; recent_errors : list RecentError }.

Record state := State {
  data_ : option IntegrationData; loading : bool; error : string; tab : string; copied : string }.
#[export] Instance eta_state : Eta state := fun s =>
  State (data_ s) (loading s) (error s) (tab s) (copied s).

Definition initial : state := State None true "" "curl" "".

Inductive action := SetTab (k : string) | Copy (id value : string).

(** [WriteClipboard] and [Wait] are the browser's: no request. *)
Inductive event : Type -> Type :=
| GetGuide (endpoint : string) : event IntegrationData
| WriteClipboard (text : string) : event unit
| Wait : event unit.

Definition http (X : Type) (e : event X) : list request :=
  match e with GetGuide endpoint => [GET endpoint] | WriteClipboard _ | Wait => [] end.

(** * The examples

    A tilde stands for a double quote. *)

Definition dq (s : string) : string := replace_all_char (ascii_of_nat 126) quote s.

Definition url_of (d : IntegrationData) : string := api_base_url d +:+ "/notifications".

Definition payload (slug_ : string) : string :=
  dq "{
  ~event~: ~integration.test~,
  ~channels~: [~email~],
  ~template~: ~welcome~,
  ~target~: {
    ~type~: ~single~,
    ~recipient~: {
      ~email~: ~developer@example.com~
    }
  },
  ~data~: {
    ~customer_name~: ~Developer~,
    ~message~: ~Hello from "
  +:+ slug_
  +:+ dq "~
  },
  ~priority~: 5,
  ~schedule~: { ~type~: ~instant~ },
  ~idempotency_key~: ~integration-test-001~
}".

Definition phpArrayPayload (slug_ : string) : string :=
  "[
  'event' => 'integration.test',
  'channels' => ['email'],
  'template' => 'welcome',
  'target' => ['type' => 'single', 'recipient' => ['email' => 'developer@example.com']],
  'data' => ['customer_name' => 'Developer', 'message' => 'Hello from "
  +:+ slug_
  +:+ "'],
  'priority' => 5,
  'schedule' => ['type' => 'instant'],
  'idempotency_key' => 'integration-test-001',
]".

Definition pythonPayload (slug_ : string) : string :=
  "{
    'event': 'integration.test',
    'channels': ['email'],
    'template': 'welcome',
    'target': {'type': 'single', 'recipient': {'email': 'developer@example.com'}},
    'data': {'customer_name': 'Developer', 'message': 'Hello from "
  +:+ slug_
  +:+ "'},
    'priority': 5,
    'schedule': {'type': 'instant'},
    'idempotency_key': 'integration-test-001',
}".

Definition example_curl (d : IntegrationData) : string :=
  "curl --request POST '"
  +:+ url_of d
  +:+ "' \
  --header 'Authorization: Bearer YOUR_API_KEY' \
  --header 'Content-Type: application/json' \
  --data '"
  +:+ payload (slug d)
  +:+ "'".

Definition example_JavaScript (d : IntegrationData) : string :=
  "const response = await fetch('"
  +:+ url_of d
  +:+ "', {
  method: 'POST',
  headers: {
    Authorization: 'Bearer YOUR_API_KEY',
    'Content-Type': 'application/json'
  },
  body: JSON.stringify("
  +:+ payload (slug d)
  +:+ ")
});
const body = await response.json();
if (!response.ok) throw new Error(body.error || 'Notification failed');
console.log(body.notification_id);".

Definition example_Node (d : IntegrationData) : string :=
  "import fetch from 'node-fetch';

const controller = new AbortController();
setTimeout(() => controller.abort(), 10000);

const response = await fetch('"
  +:+ url_of d
  +:+ "', {
  method: 'POST',
  signal: controller.signal,
  headers: { Authorization: 'Bearer YOUR_API_KEY', 'Content-Type': 'application/json' },
  body: JSON.stringify("
  +:+ payload (slug d)
  +:+ ")
});
console.log(response.status, await response.json());".

Definition example_PHP (d : IntegrationData) : string :=
  "<?php
$payload = "
  +:+ phpArrayPayload (slug d)
  +:+ ";
$ch = curl_init('"
  +:+ url_of d
  +:+ "');
curl_setopt_array($ch, [
  CURLOPT_POST => true,
  CURLOPT_HTTPHEADER => ['Authorization: Bearer YOUR_API_KEY', 'Content-Type: application/json'],
  CURLOPT_POSTFIELDS => json_encode($payload),
  CURLOPT_RETURNTRANSFER => true,
  CURLOPT_TIMEOUT => 10,
]);
$body = curl_exec($ch);
$status = curl_getinfo($ch, CURLINFO_HTTP_CODE);
curl_close($ch);
echo $status . PHP_EOL . $body;".

Definition example_Laravel (d : IntegrationData) : string :=
  "use Illuminate\Support\Facades\Http;

$response = Http::timeout(10)
    ->withToken('YOUR_API_KEY')
    ->post('"
  +:+ url_of d
  +:+ "', "
  +:+ phpArrayPayload (slug d)
  +:+ ");

if ($response->failed()) {
    throw new RuntimeException($response->body());
}

$notificationId = $response->json('notification_id');".

Definition example_Python (d : IntegrationData) : string :=
  "import requests

payload = "
  +:+ pythonPayload (slug d)
  +:+ "
response = requests.post(
    '"
  +:+ url_of d
  +:+ "',
    headers={'Authorization': 'Bearer YOUR_API_KEY', 'Content-Type': 'application/json'},
    json=payload,
    timeout=10,
)
response.raise_for_status()
print(response.json()['notification_id'])".

Definition example_Go (d : IntegrationData) : string :=
  dq "package main

import (
  ~bytes~
  ~context~
  ~fmt~
  ~net/http~
  ~time~
)

func main() {
  body := []byte(`"
  +:+ payload (slug d)
  +:+ dq "`)
  ctx, cancel := context.WithTimeout(context.Background(), 10*time.Second)
  defer cancel()
  req, _ := http.NewRequestWithContext(ctx, http.MethodPost, ~"
  +:+ url_of d
  +:+ dq "~, bytes.NewReader(body))
  req.Header.Set(~Authorization~, ~Bearer YOUR_API_KEY~)
  req.Header.Set(~Content-Type~, ~application/json~)
  resp, err := http.DefaultClient.Do(req)
  if err != nil { panic(err) }
  defer resp.Body.Close()
  fmt.Println(resp.Status)
}".

Definition buildExamples (d : IntegrationData) : obj string :=
  [ ("curl", example_curl d); ("JavaScript", example_JavaScript d); ("Node", example_Node d);
    ("PHP", example_PHP d); ("Laravel", example_Laravel d); ("Python", example_Python d);
    ("Go", example_Go d) ].

Definition examples (s : state) : obj string :=
  match data_ s with Some d => buildExamples d | None => [] end.

(** * The guide *)

Section IntegrationGuide.
Variable endpoint : string.
Variable platformTenantId : option string.

(** The endpoint does not change while the guide is shown. *)
Definition effects (r : option state) (s : state) : list (prog event state) :=
  match r with
  | None =>
      [ set! (fun s => s <| loading := true |>) ;;
        await! r <- GetGuide endpoint ;;
        match r with
        | Ok d =>
            set! (fun s => s <| data_ := Some d |>) ;; set! (fun s => s <| error := "" |>) ;;
            set! (fun s => s <| loading := false |>) ;; Done
        | Threw x =>
            set! (fun s => s <| error := getErrorMessage x "Unable to load integration guide" |>) ;;
            set! (fun s => s <| loading := false |>) ;; Done
        end ]
  | Some _ => []
  end.

(** A refused permission to write to the clipboard is not caught. *)
Definition copy (id value : string) : prog event state :=
  await! r <- WriteClipboard value ;;
  match r with
  | Ok _ =>
      emit! OClipboard value ;; set! (fun s => s <| copied := id |>) ;;
      await! _r <- Wait ;; set! (fun s => s <| copied := "" |>) ;; Done
  | Threw _ => Done
  end.

Definition handle (a : action) (s : state) : prog event state :=
  match a with
  | SetTab k => set! (fun s => s <| tab := k |>) ;; Done
  | Copy id value => copy id value
  end.

Definition Metric (label value : string) : list (node action) := [ Txt label; Txt value ].

Definition Info (label value : string) (onCopy : option action) (copied : bool) : list (node action) :=
  [ Txt label; Txt (value ||| "-") ]
  ++ match onCopy with Some a => [ Btn (if copied then "Copied" else "Copy") false a ] | None => [] end.

Definition GuideCard (title text : string) (link : option string) : list (node action) :=
  [ Txt title; Txt text ] ++ match link with Some to => when (truthy to) [ Link title to ] | None => [] end.

Definition Endpoint (method path label : string) : list (node action) :=
  [ Txt method; Txt path; Txt label ].

Definition check_item (k : Check) : list (node action) :=
  [ Txt (k_label k); Txt (k_description k); Link "Open related page" (k_action_path k) ].

Definition complete_count (d : IntegrationData) : string :=
  pretty (Z.of_nat (length (filter_by k_complete (checklist d)))) +:+ "/"
  +:+ pretty (Z.of_nat (length (checklist d))) +:+ " complete".

Definition channel_item (c : ChannelLimit) : list (node action) :=
  [ Txt (spaced (l_channel c)); Txt (pretty (l_rate c) +:+ "/s · " +:+ pretty (l_quota c) +:+ "/day") ].

Definition error_item (e : RecentError) : list (node action) :=
  [ Txt (e_notification_id e); Txt (Status.StatusBadge (Status.SText (e_status e))).2;
    Txt (e_code e +:+ ": " +:+ e_suggested_action e) ].

Definition guide (s : state) (d : IntegrationData) : list (node action) :=
  let credentialPath :=
    if truthy (or_empty platformTenantId) then "/tenants/" +:+ or_empty platformTenantId else "/api-keys" in
  [ Txt (tenant_name d +:+ " integration"); Txt (tenant_id d);
    Txt (Status.StatusBadge (Status.SText (summary_status d))).2 ]
  ++ Metric "Completion" (num_text (completion_percent d) +:+ "%")
  ++ Metric "Active credentials" (pretty (active_credentials d))
  ++ Metric "Enabled channels" (pretty (enabled_channels d))
  ++ [ Txt (recommended_next_action d) ]
  ++ Info "API base URL" (api_base_url d) (Some (Copy "api-base" (api_base_url d)))
       (bool_decide (copied s = "api-base"))
  ++ Info "Version" (api_version d) None false ++ Info "Auth" (auth_header d) None false
  ++ [ Txt (complete_count d) ] ++ concat (map check_item (checklist d))
  ++ GuideCard "1. Create credentials"
       "Create a tenant API key from API Keys. The raw key is shown once, then stored only as a hash."
       (Some credentialPath)
  ++ GuideCard "2. Authenticate"
       "Send the key as Authorization: Bearer YOUR_API_KEY. Do not place API keys in browser code or mobile apps."
       None
  ++ GuideCard "3. Send and inspect"
       "POST a notification request, then open Notification Logs with the returned notification ID."
       (Some "/notifications")
  ++ map (fun k => Btn k false (SetTab k)) (okeys (examples s))
  ++ [ Btn (if decide (copied s = tab s) then "Copied" else "Copy") false
         (Copy (tab s) (oget_str (examples s) (tab s)));
       Txt (oget_str (examples s) (tab s)) ]
  ++ Metric "Requests/sec across enabled channels" (pretty (rate_limit_per_second d))
  ++ Metric "Daily quota across enabled channels" (pretty (daily_quota d))
  ++ concat (map channel_item (channels d))
  ++ (if bool_decide (length (recent_errors d) = 0%nat) then [ Txt "No recent failed deliveries" ]
      else concat (map error_item (recent_errors d)))
  ++ Endpoint "POST" "/api/v1/notifications" "Submit notification".

Definition view (s : state) : list (node action) :=
  if loading s then [ Txt "Loading integration guide..." ]
  else if truthy (error s) then [ Txt (error s) ]
  else match data_ s with None => [ Txt "No integration data found" ] | Some d => guide s d end.

End IntegrationGuide.

(** * Every request is authorized *)

Definition given : list string := ["integration.view"].

(** The endpoints of a guide: the page of a tenant's own, and the tab of a tenant's page. *)
Definition own_endpoint : string := "/admin/api/v1/integration".
Definition tenant_endpoint (tid : string) : string := "/admin/api/v1/tenants/" +:+ tid +:+ "/integration".

Lemma guide_authorized u endpoint platformTenantId c :
  careful given u (OReq (GET endpoint)) ->
  Ui.reachable http (effects endpoint) handle (view platformTenantId) initial c ->
  Forall (careful given u) (Ui.c_trace c).
Proof.
  intros He Hc.
  eapply (Ui.reachable_safe http _ _ _ (fun _ => True) (careful given u)); [..|exact Hc]; [| |done].
  - intros [r|] s _; [constructor|]. apply Forall_singleton. safe_walk. by apply Forall_singleton.
  - intros a s _ _. destruct a; simpl; unfold copy; safe_walk; constructor.
Qed.

(** A guide is read once, by the page of a tenant's own... *)
Theorem integration_authorized u c :
  Ui.reachable http (effects own_endpoint) handle (view None) initial c ->
  Forall (careful given u) (Ui.c_trace c).
Proof. apply guide_authorized. reads "GET" [L "integration"] "integration.view" (@nil string). Qed.

(** ... and by the tab of a tenant's page. *)
Theorem tenant_guide_authorized u tid c :
  Ui.reachable http (effects (tenant_endpoint tid)) handle (view (Some tid)) initial c ->
  Forall (careful given u) (Ui.c_trace c).
Proof.
  apply guide_authorized. reads "GET" [L "tenants"; V "id"; L "integration"] "integration.view" [tid].
Qed.

(** * What the examples send *)

(** The request of the guide, as a value. *)
Definition guide_request (slug_ : string) : json :=
  JObj [ ("event", JStr "integration.test"); ("channels", JArr [JStr "email"]);
         ("template", JStr "welcome");
         ("target", JObj [("type", JStr "single");
                          ("recipient", JObj [("email", JStr "developer@example.com")])]);
         ("data", JObj [("customer_name", JStr "Developer"); ("message", JStr ("Hello from " +:+ slug_))]);
         ("priority", JNum (int 5)); ("schedule", JObj [("type", JStr "instant")]);
         ("idempotency_key", JStr "integration-test-001") ].

(** A character a JSON literal holds as it is. *)
Definition verbatim (c : ascii) : bool :=
  (32 <=? byte c) && negb (bool_decide (c = quote \/ c = backslash)).

Fixpoint all_verbatim (s : string) : bool :=
  match s with EmptyString => true | String c s => verbatim c && all_verbatim s end.

Fixpoint raws (s : string) : list unit_ :=
  match s with EmptyString => [] | String c s => Raw c :: raws s end.

Lemma text_raws s : text (raws s) = s.
Proof. induction s as [|c s IH]; simpl; [done|by rewrite IH]. Qed.

Lemma raws_app a b : raws (a +:+ b) = raws a ++ raws b.
Proof. induction a as [|c a IH]; [done|]. rewrite app_cons_str. simpl. by rewrite IH. Qed.

Lemma lex_raws s out us r : all_verbatim s = true ->
  lex_from (InStr out us) (s +:+ r) = lex_from (InStr out (us ++ raws s)) r.
Proof.
  revert us. induction s as [|c s IH]; intros us Hs; [by rewrite app_nil_r|].
  cbn [all_verbatim] in Hs. apply andb_prop in Hs as [Hc Hs]. rewrite app_cons_str.
  unfold verbatim in Hc. apply andb_prop in Hc as [H32 Hq].
  apply negb_true_iff, bool_decide_eq_false in Hq.
  cbn [lex_from lex_char raws]. rewrite !decide_False by tauto.
  replace (byte c <? 32) with false by lia. rewrite IH by done. by rewrite <- app_assoc.
Qed.


Lemma lex_close out us r :
  lex_from (InStr out us) (String quote r) = lex_from (Idle (out ++ [TStr (text us)])) r.
Proof. done. Qed.

(** The request every example sends is JSON, and what the guide means.  For a slug
    without a quote, a backslash or a control character, the text of the payload
    parses as the request with the slug in its message, which the API's decoder
    accepts.  (A slug with a quote leaves no JSON, and the API puts no condition on
    the slug of a tenant.) *)
Theorem guide_payload_parses slug_ : all_verbatim slug_ = true ->
  Json.parse (payload slug_) = Some (guide_request slug_)
  /\ decodes SendAdminNotification_req (guide_request slug_) = true.
Proof.
  intros Hs. split; [|reflexivity]. unfold Json.parse, lex, payload. rewrite lex_from_app.
  match goal with |- context [lex_from (Idle []) ?a] =>
    let r := eval vm_compute in (lex_from (Idle []) a) in
    replace (lex_from (Idle []) a) with r by (vm_compute; reflexivity) end.
  cbv beta iota. rewrite lex_raws by done.
  match goal with |- context [InStr _ (?us ++ raws slug_)] =>
    change us with (raws "Hello from ") end.
  rewrite <- raws_app. unfold guide_request.
  match goal with |- context [dq ?b] => let r := eval vm_compute in (dq b) in change (dq b) with r end.
  rewrite lex_close, text_raws. generalize ("Hello from " +:+ slug_). intros m.
  vm_compute. reflexivity.
Qed.

Lemma guide_payload_parses_witness :
  Json.parse (payload "acme-2") = Some (guide_request "acme-2")
  /\ decodes SendAdminNotification_req (guide_request "acme-2") = true.
Proof. apply (guide_payload_parses "acme-2"). reflexivity. Defined.

Example payload_of_quote : Json.parse (payload (String quote "")) = None.
Proof. vm_compute. reflexivity. Qed.
