(* ===== verification/App.v ===== *)
(** The pages together: what every run of every page asks of the API, and which
    entries of the side bar lead to a page whose reads the API grants. *)
From S2P Require Import SendPage Providers Tenants Users Roles TenantDetail Templates Contacts Groups.
From S2P Require Import Campaigns ApiKeys Channels Features Queues AuditLogs Notifications Permissions.
From S2P Require Import Settings Dashboard Integration.
From S2P Require Import Prelude Js React Query Client Components Auth Api Page.

Section App.
Variable u : Principal.
Notation isPlatform := (is_platform_admin u).
Notation can := (hasPermission (Some u)).
Notation myTenantId := (or_empty (Auth.tenant_id u)).

(** [tr] is what some run of page [pg] has shown to the world, newest first, the user
    [u] being signed in: any answers in any order, any events the renders offer.  On
    the page of a tenant the tab with the guide is a component with a state of its
    own, whose run is one of its own too. *)
Definition runs (pg : page) (tr : list obs) : Prop :=
  match pg with
  | Auth.Dashboard => exists c, tr = Ui.c_trace c /\
      Ui.reachable Dashboard.http Dashboard.effects Dashboard.handle Dashboard.view Dashboard.initial c
  | Auth.Tenants => exists c, tr = Ui.c_trace c /\ Tenants.gate can = None /\
      Ui.reachable Tenants.http Tenants.effects Tenants.handle (Tenants.view isPlatform) Tenants.initial c
  | Auth.TenantDetail tid =>
      (exists visited c, tr = Ui.c_trace c /\ tid ∈ visited /\
        Ui.reachable TenantDetail.http TenantDetail.effects TenantDetail.handle
          (TenantDetail.browser isPlatform visited) (TenantDetail.initial tid) c)
      \/ (exists shown c, tr = Ui.c_trace c /\
        Ui.reachable Integration.http (Integration.effects (Integration.tenant_endpoint shown))
          Integration.handle (Integration.view (Some shown)) Integration.initial c)
  | Auth.Notifications => exists c, tr = Ui.c_trace c /\
      Ui.reachable Notifications.http Notifications.effects Notifications.handle (Notifications.view can)
        Notifications.initial c
  | SendNotification => exists c, tr = Ui.c_trace c /\
      Ui.reachable SendPage.http (SendPage.effects isPlatform myTenantId) (SendPage.handle isPlatform)
        (SendPage.view isPlatform myTenantId (can "notifications.send"))
        (SendPage.initial isPlatform myTenantId) c
  | Auth.Users => exists c, tr = Ui.c_trace c /\
      Ui.reachable (Users.http isPlatform) (Users.effects isPlatform) (Users.handle isPlatform myTenantId)
        (Users.view isPlatform can) Users.initial c
  | Auth.Contacts => exists c, tr = Ui.c_trace c /\
      Ui.reachable Contacts.http (Contacts.effects isPlatform) (Contacts.handle isPlatform)
        (Contacts.view isPlatform can) Contacts.initial c
  | Auth.Templates => exists c, tr = Ui.c_trace c /\
      Ui.reachable Templates.http (Templates.effects isPlatform) (Templates.handle isPlatform)
        (Templates.view isPlatform can) Templates.initial c
  | Auth.Campaigns => exists c, tr = Ui.c_trace c /\
      Ui.reachable Campaigns.http (Campaigns.effects isPlatform) Campaigns.handle
        (Campaigns.view isPlatform can) Campaigns.initial c
  | Auth.Roles => exists c, tr = Ui.c_trace c /\
      Ui.reachable (Roles.http isPlatform) (Roles.effects isPlatform) (Roles.handle isPlatform)
        (Roles.view isPlatform can) Roles.initial c
  | Auth.Permissions => exists c, tr = Ui.c_trace c /\
      Ui.reachable Permissions.http Permissions.effects Permissions.handle Permissions.view
        Permissions.initial c
  | Auth.ApiKeys => exists c, tr = Ui.c_trace c /\
      Ui.reachable ApiKeys.http (ApiKeys.effects isPlatform) (ApiKeys.handle isPlatform)
        (ApiKeys.view isPlatform can) ApiKeys.initial c
  | Auth.AuditLogs => exists c, tr = Ui.c_trace c /\
      Ui.reachable AuditLogs.http (AuditLogs.effects isPlatform) AuditLogs.handle
        (AuditLogs.view isPlatform) AuditLogs.initial c
  | Auth.Groups => exists c, tr = Ui.c_trace c /\
      Ui.reachable Groups.http (Groups.effects isPlatform) Groups.handle (Groups.view isPlatform can)
        Groups.initial c
  | Auth.Features => exists c, tr = Ui.c_trace c /\
      Ui.reachable Features.http Features.effects Features.handle (Features.view can) Features.initial c
  | Auth.Channels => exists c, tr = Ui.c_trace c /\
      Ui.reachable Channels.http Channels.effects (Channels.handle can) (Channels.view can)
        Channels.initial c
  | Auth.Providers => exists c, tr = Ui.c_trace c /\
      Ui.reachable Providers.http (Providers.effects isPlatform) (Providers.handle can)
        (Providers.view isPlatform can) Providers.initial c
  | Auth.Queues => exists c, tr = Ui.c_trace c /\
      Ui.reachable Queues.http (Queues.effects isPlatform) Queues.handle (Queues.view isPlatform can)
        Queues.initial c
  | Auth.Integration => exists c, tr = Ui.c_trace c /\
      Ui.reachable Integration.http (Integration.effects Integration.own_endpoint) Integration.handle
        (Integration.view None) Integration.initial c
  | Auth.Settings => exists c, tr = Ui.c_trace c /\
      Ui.reachable Settings.http (Settings.effects isPlatform) Settings.handle
        (Settings.view isPlatform can) (Settings.initial isPlatform myTenantId) c
  end.

(** The permissions the API asks for what a page reads. *)
Definition needs (pg : page) : list string :=
  match pg with
  | Auth.Dashboard => Dashboard.given
  | Auth.Tenants => Tenants.given
  | Auth.TenantDetail _ => "integration.view" :: TenantDetail.given
  | Auth.Notifications => Notifications.given
  | SendNotification => ["contacts.view"; "groups.view"; "templates.view"; "channels.view"]
  | Auth.Users => Users.given
  | Auth.Contacts => Contacts.given
  | Auth.Templates => Templates.given
  | Auth.Campaigns => Campaigns.given
  | Auth.Roles => Roles.given
  | Auth.Permissions => Permissions.given
  | Auth.ApiKeys => ApiKeys.given
  | Auth.AuditLogs => AuditLogs.given
  | Auth.Groups => Groups.given
  | Auth.Features => Features.given
  | Auth.Channels => Channels.given
  | Auth.Providers => Providers.given
  | Auth.Queues => Queues.given
  | Auth.Integration => Integration.given
  | Auth.Settings => Settings.given
  end.

(** On the send page, what is sent: the reads of the page, and what the user may do. *)
Definition send_request (o : obs) : Prop :=
  match o with
  | OReq r => exists p, served p r
      /\ (HasPermission u p = true \/ p ∈ needs SendNotification /\ req_method r = "GET")
  | _ => True
  end.

(** What page [pg] may ask: on the users page, two requests besides. *)
Definition page_request (pg : page) (o : obs) : Prop :=
  match pg with
  | Auth.Users => Users.user_request u o
  | SendNotification => send_request o
  | _ => careful (needs pg) u o
  end.

Lemma send_permitted o :
  SendPage.permitted isPlatform (can "notifications.send") o -> send_request o.
Proof.
  destruct o as [r| | | |]; try done. intros (p & Hp & Hs & Hsend & Hplat & Hget). exists p. split; [done|].
  unfold SendPage.routes_used in Hp. rewrite !elem_of_cons in Hp.
  destruct Hp as [->|[->|[->|[->|[->|[->|?%elem_of_nil]]]]]]; [|right; split; [in_table|by apply Hget]..| |done].
  - left. unfold HasPermission. by rewrite Hplat.
  - left. rewrite <- can_HasPermission by done. by apply Hsend.
Qed.

End App.

(** C17: no page asks the API for what it does not understand or the user may not do.
    In every run of every page, whatever the API answers and in whatever order, and
    whatever the user does, every request has a route, its body decodes into the Go
    type of the handler, and the user has its permission or it is a read of the
    page's own lists.  On the users page two requests are excepted: a deletion, which
    has no route, and the assignment of a role, which a user without the permission
    for it is offered; of the send page the types of the body are not claimed (its
    priority can be any number). *)
Theorem app_authorized u pg tr : runs u pg tr -> Forall (page_request u pg) tr.
Proof.
  destruct pg as [| |tid| | | | | | | | | | | | | | | | |]; intros H.
  3: { destruct H as [(visited & c & -> & Ht & Hc)|(shown & c & -> & Hc)].
       - eapply Forall_impl; [by apply (TenantDetail.tenant_detail_authorized u visited tid)|].
         intros o. apply careful_more. intros p Hp. by right.
       - eapply Forall_impl; [by apply (Integration.tenant_guide_authorized u shown)|].
         intros o. apply careful_more. intros p ->%list_elem_of_singleton. by left. }
  all: destruct H as (c & -> & Hc).
  - by apply Dashboard.dashboard_authorized.
  - destruct Hc as [Hg Hc]. by apply Tenants.tenants_authorized.
  - by apply Notifications.notifications_authorized.
  - apply SendPage.page_invariant in Hc as (_ & _ & Hc & _). eapply Forall_impl; [exact Hc|apply send_permitted].
  - by eapply Users.users_authorized.
  - by apply Contacts.contacts_authorized.
  - by apply Templates.templates_authorized.
  - by apply Campaigns.campaigns_authorized.
  - by apply Roles.roles_authorized.
  - by apply Permissions.permissions_authorized.
  - by apply ApiKeys.api_keys_authorized.
  - by apply AuditLogs.audit_logs_authorized.
  - by apply Groups.groups_authorized.
  - by apply Features.features_authorized.
  - by apply Channels.channels_authorized.
  - by apply Providers.providers_authorized.
  - by apply Queues.queues_authorized.
  - by apply Integration.integration_authorized.
  - by apply Settings.settings_authorized.
Qed.

Definition auditor : Principal := MkPrincipal "u2" (Some "a") "audit@example.com" false ["audit_logs.view"].

(** The audit page, once its first effects have run. *)
Definition audit_opened : Ui.config (E := AuditLogs.event) (S := AuditLogs.state) :=
  Ui.commit AuditLogs.http (AuditLogs.effects false) (Ui.initial AuditLogs.initial).

Lemma app_authorized_witness :
  length (Ui.c_trace audit_opened) = 1%nat
  /\ Forall (page_request auditor Auth.AuditLogs) (Ui.c_trace audit_opened).
Proof.
  split; [reflexivity|]. apply (app_authorized auditor Auth.AuditLogs (Ui.c_trace audit_opened)).
  exists audit_opened. split; [reflexivity|]. apply Ui.commit_reachable; [apply Ui.reach_init|reflexivity].
Defined.

(** * The side bar *)

(** What a page behind an entry of a tenant user's side bar needs beyond the
    permission of the entry. *)
Definition beyond (pg : page) : list string :=
  match pg with
  | SendNotification => ["contacts.view"; "groups.view"; "templates.view"; "channels.view"]
  | Auth.Groups => ["contacts.view"]
  | Auth.Providers => ["channels.view"]
  | Auth.AuditLogs => ["audit_logs.view"]
  | _ => []
  end.

Definition granted (u : Principal) (ps : list string) : Prop := Forall (fun p => HasPermission u p = true) ps.

Lemma platform_granted u ps : is_platform_admin u = true -> granted u ps.
Proof. intros Hu. apply Forall_forall. intros p _. unfold HasPermission. by rewrite Hu. Qed.

Lemma visible_item user i : i ∈ visible user ->
  i ∈ concat (map snd (nav user)) /\ hasPermission user (permission_ i) = true.
Proof.
  unfold visible. rewrite !list_elem_of_In, !in_concat. intros (l & Hl & Hi).
  apply in_map_iff in Hl as (g & <- & Hg). apply list_elem_of_In, elem_of_filter_by in Hi as [Hp Hi].
  split; [|done]. exists g.2. split; [by apply in_map|by apply list_elem_of_In].
Qed.

Lemma item_page user i : i ∈ concat (map snd (nav user)) -> exists pg, match_route (to_ i) = Some pg.
Proof.
  intros Hi. unfold nav in Hi. destruct (is_admin user); simpl in Hi;
    rewrite !elem_of_cons, elem_of_nil in Hi;
    repeat destruct Hi as [->|Hi]; try done; eexists; reflexivity.
Qed.

Lemma beyond_granted u i pg :
  is_platform_admin u = false ->
  i ∈ concat (map snd tenantNav) -> hasPermission (Some u) (permission_ i) = true ->
  match_route (to_ i) = Some pg -> granted u (needs pg) <-> granted u (beyond pg).
Proof.
  intros Hu Hi. simpl in Hi. rewrite !elem_of_cons, elem_of_nil in Hi.
  intros Hc Hm. unfold granted.
  repeat destruct Hi as [->|Hi]; try done; vm_compute in Hm; injection Hm as <-;
    cbn [permission_] in Hc; rewrite ?can_HasPermission in Hc by discriminate;
    lazy [needs beyond Dashboard.given Tenants.given TenantDetail.given Notifications.given Users.given Contacts.given Templates.given Campaigns.given Roles.given Permissions.given ApiKeys.given
      AuditLogs.given Groups.given Features.given Channels.given Providers.given Queues.given Integration.given Settings.given];
    rewrite ?Forall_cons, ?Forall_nil; tauto.
Qed.

(** An entry of the side bar leads to a page, and the API grants that page its
    reads.  A platform administrator may read everything.  A tenant user who is
    shown an entry has the permissions its page reads with, unless the page reads
    more than its entry asks for: the groups page reads contacts, the providers page
    the channels, the send page what it composes from, and the audit page is shown
    under a permission the API does not take. *)
Theorem menu_entries_open u i :
  i ∈ visible (Some u) ->
  exists pg, match_route (to_ i) = Some pg
    /\ (granted u (needs pg) <-> is_platform_admin u = true \/ granted u (beyond pg)).
Proof.
  intros [Hi Hc]%visible_item. destruct (item_page _ _ Hi) as [pg Hpg].
  exists pg. split; [done|]. destruct (is_platform_admin u) eqn:Hu.
  - split; [by left|]. intros _. by apply platform_granted.
  - unfold nav in Hi. simpl in Hi. rewrite Hu in Hi.
    rewrite (beyond_granted u i pg) by done. naive_solver.
Qed.

Definition writer : Principal :=
  MkPrincipal "u3" (Some "a") "write@example.com" false ["groups.view"; "templates.view"].
Definition groups_entry : nav_item := NavItem "/groups" "Groups" "groups.view".

(** Who may see groups but not contacts is led to a page that cannot load. *)
Lemma menu_entries_open_witness :
  exists pg, match_route "/groups" = Some pg /\ ~ granted writer (needs pg).
Proof.
  destruct (menu_entries_open writer groups_entry) as (pg & Hm & Hg).
  - unfold visible. apply list_elem_of_In. vm_compute. tauto.
  - exists pg. split; [exact Hm|]. rewrite Hg. vm_compute in Hm. injection Hm as <-.
    intros [H|H]; [discriminate|]. apply Forall_inv in H. discriminate.
Defined.
