(* ===== verification/Access.v ===== *)
(** From the pages to the accounts: what the forms of users, roles and API keys leave
    in the tables of the API, and what their users may do afterwards. *)
From stdpp Require Import sorting gmap.
From S2P Require Import Users Roles ApiKeys.
From S2P Require Import Prelude Js React Query Client Components Auth Api Page Handlers Accounts Sessions Rbac.

(** The requests of a run that change anything. *)
Definition writes (outs : list obs) : list request :=
  omap (fun o => match o with
                 | OReq r => if decide (req_method r = "GET") then None else Some r
                 | _ => None
                 end) outs.

(** The keys of a role's permissions. *)
Definition role_permits (d : tables) (role k : string) : Prop :=
  exists i, (role, i) ∈ role_permissions d /\ permission_rows d !! i = Some k.

(** The foreign keys of a user: whatever names one names a row. *)
Definition users_exist (d : tables) : Prop :=
  (forall g, g ∈ user_roles d \/ g ∈ allowed d \/ g ∈ denied d -> is_Some (users d !! g_user g))
  /\ (forall i t st, (i, t, st) ∈ tenant_users d -> is_Some (users d !! i)).

Lemma held_of_nobody d i t gs :
  (forall g, g ∈ gs -> is_Some (users d !! g_user g)) -> users d !! i = None -> held i t gs = [].
Proof.
  intros Hgs Hi. destruct (held i t gs) as [|x xs] eqn:E; [done|].
  assert (Hx : x ∈ held i t gs) by (rewrite E; by left).
  apply elem_of_held in Hx as (g & Hg & _ & Hh). unfold holds_in in Hh. apply bool_decide_eq_true in Hh.
  destruct Hh as [Hu _]. apply Hgs in Hg. rewrite Hu, Hi in Hg. by destruct Hg.
Qed.

Lemma nullIfEmpty_cases v : nullIfEmpty v = None \/ nullIfEmpty v = Some v.
Proof. unfold nullIfEmpty. case_decide; [by left|by right]. Qed.

Lemma held_app i t gs gs' : held i t (gs ++ gs') = held i t gs ++ held i t gs'.
Proof. unfold held. by rewrite filter_by_app, map_app. Qed.

(** * Users *)

Section Access.
Variable matches : string -> string -> bool.
Variable HashSecret : string -> string.
Variable bcryptHash : string -> option string.
Variable ParseDuration : string -> option Z.
Variable accessTokenTTL refreshTokenTTL loginLockout loginMaxFailures : Z.
(** A password matches its own hash. *)
Hypothesis bcrypt_matches : forall pw h, bcryptHash pw = Some h -> matches h pw = true.

Notation serve_all := (serve_all HashSecret bcryptHash ParseDuration).
Notation Login := (Login matches HashSecret accessTokenTTL refreshTokenTTL loginLockout loginMaxFailures).

(** The user that an accepted creation leaves. *)
Lemma CreateUser_created w p b d d' :
  CreateUser bcryptHash w p (Some b) d = (201, d') ->
  let platform := is_platform_admin p && flag b "is_platform_admin" in
  exists hash, bcryptHash (member b "password") = Some hash
    /\ users d !! new_id w = None
    /\ (forall i u, users d !! i = Some u -> u_email u <> member b "email")
    /\ d' = d <| users := <[new_id w := MkUser (member b "email") (member b "name") hash platform "active" 0 None]> (users d) |>
             <| tenant_users := tenant_users d' |>
    /\ (platform = false -> tenant_for p b <> "")
    /\ (stmt w 1 = true -> users_exist d ->
        tenant_users d' = tenant_users d ++
          (if decide (tenant_for p b <> "" /\ tenant_for p b ∈ tenants d) then [(new_id w, tenant_for p b, "active")] else [])).
Proof.
  unfold CreateUser, decoded. destruct (decodes _ b); [|done]. case_decide; [done|].
  destruct (bcryptHash _) as [hash|]; [|done]. simpl.
  set (platform := is_platform_admin p && flag b "is_platform_admin").
  destruct (negb platform && _) eqn:E1; [done|]. destruct (stmt w 0 && _ && _) eqn:E2; [|done].
  intros [= <-]. rewrite !andb_true_iff, !negb_true_iff in E2. destruct E2 as [[_ Ht] Hn].
  apply row_exists_false in Hn. pose proof (taken_false _ _ Ht) as Hf. exists hash. split_and!; try done.
  - intros i u Hi. apply Hf in Hi. by apply bool_decide_eq_false in Hi.
  - intros Hp. rewrite Hp in E1. simpl in E1. by apply bool_decide_eq_false in E1.
  - intros Hs [_ Hm]. simpl. rewrite Hs.
    assert (Hex : existsb (fun m => bool_decide (m.1 = (new_id w, tenant_for p b))) (tenant_users d) = false).
    { apply not_true_iff_false. intros ([m st] & Hin & E)%existsb_exists. apply bool_decide_eq_true in E.
      simpl in E. subst m. apply list_elem_of_In, Hm in Hin. rewrite Hn in Hin. by destruct Hin. }
    rewrite Hex. simpl. repeat case_bool_decide; case_decide; simpl; rewrite ?app_nil_r; naive_solver.
Qed.

(** An accepted assignment. *)
Lemma AssignUserRole_assigned w p u b d d' :
  AssignUserRole w p u (Some b) d = (201, d') ->
  d' = d <| user_roles := user_roles d ++ [Grant u (member b "role_id") (nullIfEmpty (tenant_for p b))] |>
  /\ (tenant_for p b <> "" -> tenant_for p b ∈ tenants d).
Proof.
  unfold AssignUserRole, decoded. destruct (decodes _ b); [|done]. destruct (negb _ && _); [done|].
  case_decide; [done|]. destruct (stmt w 1 && _ && _ && _ && _) eqn:E; [|done]. intros [= <-]. split; [done|].
  intros Hne. rewrite !andb_true_iff in E. destruct E as [[[[_ E] _] _] _]. simpl in E.
  rewrite nullIfEmpty_Some in E by done. by apply bool_decide_eq_true in E.
Qed.

(** Signing in with the right password. *)
Lemma Login_succeeds a now email pw d i u :
  users d !! i = Some u -> u_email u = email -> u_status u = "active" -> locked now u = false ->
  (forall j v, users d !! j = Some v -> u_email v = email -> j = i) ->
  matches (password_hash u) pw = true -> (forall n, db a n = true) ->
  sessions d !! HashSecret (new_refresh a) = None ->
  exists d', Login a now email pw d
    = (inr (sign_claims accessTokenTTL now
         (MkPrincipal i (nullIfEmpty (first_tenant d i)) email (u_platform u)
            (EffectivePermissions d i (first_tenant d i))) (new_session a), new_refresh a), true, d').
Proof.
  intros Hi He Hst Hl Hu Hm Hdb Hn. rewrite Login_whole. rewrite !Hdb.
  assert (Hrow : user_by_email d email = Some (i, u)).
  { apply row_where_unique; [|done|by apply bool_decide_eq_true].
    intros j k v w Hj Hk Hv Hw. rewrite bool_decide_eq_true in Hv, Hw.
    rewrite (Hu j v), (Hu k w); naive_solver. }
  rewrite Hrow, Hl, Hm. cbn [negb]. unfold createSession. rewrite Hdb, bool_decide_true by done. cbn [andb].
  rewrite He. by eexists.
Qed.

Lemma writes_cons o outs : writes (o :: outs) = writes [o] ++ writes outs.
Proof. apply (omap_app _ [o] outs). Qed.
Lemma writes_reload ip s : writes (Users.reload ip s) = [].
Proof. by destruct ip. Qed.

(** The requests of the form of a new user, with a role. *)
Lemma user_form_writes ip my (srv : forall X, Users.event X -> result X) s uid :
  srv string (Users.PostUser (Users.user_body ip my s)) = Ok uid ->
  srv unit (Users.PostUserRole uid (Users.role_body ip my s)) = Ok tt -> Users.createRoleId s <> "" ->
  writes (Ui.exec (Users.http ip) srv (Users.submit ip my s) s).1.2
  = [POST "/admin/api/v1/users" (Users.user_body ip my s);
     POST (api_path ["users"; uid; "roles"]) (Users.role_body ip my s)].
Proof.
  intros H1 H2 Hr. pose proof (Users.create_user_flow ip my srv s) as H.
  destruct (Ui.exec _ _ _ _) as [[s' outs] started]. destruct H as (_ & _ & _ & H).
  rewrite H1, decide_False, H2 in H by done. destruct H as (Ho & _ & _). cbn [fst snd]. rewrite Ho.
  rewrite (writes_cons (Users.post_user _)), (writes_cons (Users.post_role _ _)), (writes_cons (success_msg _ _)).
  rewrite writes_reload. done.
Qed.

(** The calls of a page of the user [p], each with what its surroundings answer. *)
Definition calls (p : Principal) (now : Z) (ws : list world) (rs : list request) : list call :=
  zip_with (fun w r => Call p now w r) ws rs.

Lemma serve_all_cons c cs d st sts d' :
  serve_all (c :: cs) d = Some (st :: sts, d') ->
  exists d1, serve HashSecret bcryptHash ParseDuration (c_world c) (c_at c) (c_by c) (c_request c) d = Some (st, d1)
    /\ serve_all cs d1 = Some (sts, d').
Proof.
  simpl. destruct (serve _ _ _ _ _ _ _ d) as [[st1 d1]|]; [|done]. simpl.
  destruct (Rbac.serve_all _ _ _ cs d1) as [[sts1 d2]|] eqn:E; [|done]. simpl. intros [= -> -> ->]. by exists d1.
Qed.

Lemma users_post_served w now p b d st d' :
  serve HashSecret bcryptHash ParseDuration w now p (POST "/admin/api/v1/users" b) d = Some (st, d') -> st <> 403 ->
  CreateUser bcryptHash w p (Some b) d = (st, d').
Proof.
  rewrite (serve_at _ _ _ w now p 2 _ _ _ "users.create" ["users"] _ d eq_refl); try done.
  - destruct (HasPermission p _); intros [= H]; simplify_eq; done.
  - apply list_elem_of_In. vm_compute. tauto.
  - repeat constructor; done.
Qed.

Lemma user_role_post_served w now p uid b d st d' : ident uid = true ->
  serve HashSecret bcryptHash ParseDuration w now p (POST (api_path ["users"; uid; "roles"]) b) d = Some (st, d') ->
  st <> 403 -> AssignUserRole w p uid (Some b) d = (st, d').
Proof.
  intros Hu. rewrite (serve_at _ _ _ w now p 10 _ _ _ "roles.manage" ["users"; uid; "roles"] _ d eq_refl); try done.
  - destruct (HasPermission p _); intros [= H]; simplify_eq; done.
  - apply list_elem_of_In. vm_compute. tauto.
  - repeat constructor; done.
  - simpl. by rewrite (proj1 (ident_plain _ Hu)).
Qed.

(** The tenant of a form, as the two handlers read it. *)
Lemma user_form_tenant p s :
  let ip := is_platform_admin p in
  let my := or_empty (tenant_id p) in
  let tenantID := if Users.isPlatformUser ip s then "" else Users.newTenantId ip my s in
  is_platform_admin p && flag (Users.user_body ip my s) "is_platform_admin" = Users.isPlatformUser ip s
  /\ tenant_for p (Users.user_body ip my s) = tenantID /\ tenant_for p (Users.role_body ip my s) = tenantID.
Proof.
  unfold tenant_for, Users.user_body, Users.role_body, Users.tenant_field, Users.isPlatformUser, Users.newTenantId.
  destruct (is_platform_admin p); [|done]. simpl. destruct (bool_decide _); [done|]. simpl.
  unfold truthy. by destruct (bool_decide_reflect (Users.createTenantId s = "")) as [->|].
Qed.

Lemma first_tenant_new d uid t : users d !! uid = None -> users_exist d ->
  forall d', tenant_users d' = tenant_users d ++ (if decide (t <> "" /\ t ∈ tenants d) then [(uid, t, "active")] else []) ->
  (t <> "" -> t ∈ tenants d) -> first_tenant d' uid = t.
Proof.
  intros Hu [_ Hm] d' Ht Hin. unfold first_tenant. rewrite Ht.
  assert (Hn : forall x, x ∈ tenant_users d -> bool_decide (x.1.1 = uid /\ x.2 = "active") = false).
  { intros [[i t'] st] Hx. apply bool_decide_eq_false. intros [E _]. simpl in E. subst i.
    apply Hm in Hx. rewrite Hu in Hx. by destruct Hx. }
  clear Hm Ht. induction (tenant_users d) as [|x xs IH]; simpl.
  - destruct (decide (t = "")) as [->|Hne]; [by rewrite decide_False by naive_solver|].
    rewrite decide_True by auto. simpl. by rewrite bool_decide_true.
  - rewrite (Hn x) by (by left). apply IH. intros y Hy. apply Hn. by right.
Qed.

(** C10: a user created on the users page can work.  When the API has accepted both
    requests of the form, and its statements succeed, the new user signs in with the address and the password of
    the form, as a platform user or in the tenant that was chosen, and holds exactly
    the permissions of the role that was chosen. *)
Theorem created_user_signs_in p (srv : forall X, Users.event X -> result X) s uid w1 w2 now d d' a t0 :
  let ip := is_platform_admin p in
  let my := or_empty (tenant_id p) in
  let rs := writes (Ui.exec (Users.http ip) srv (Users.submit ip my s) s).1.2 in
  srv string (Users.PostUser (Users.user_body ip my s)) = Ok uid ->
  srv unit (Users.PostUserRole uid (Users.role_body ip my s)) = Ok tt ->
  Users.createRoleId s <> "" -> ident uid = true -> new_id w1 = uid -> stmt w1 1 = true -> users_exist d ->
  serve_all (calls p now [w1; w2] rs) d = Some ([201; 201], d') ->
  (forall n, db a n = true) -> sessions d !! HashSecret (new_refresh a) = None ->
  exists c d2, Login a t0 (Users.email_ s) (Users.password s) d' = (inr (c, new_refresh a), true, d2)
    /\ user_id (c_principal c) = uid
    /\ is_platform_admin (c_principal c) = Users.isPlatformUser ip s
    /\ tenant_id (c_principal c) = (if Users.isPlatformUser ip s then None else Some (Users.newTenantId ip my s))
    /\ forall k, k ∈ permissions (c_principal c) <-> role_permits d (Users.createRoleId s) k.
Proof.
  intros ip my rs Hs1 Hs2 Hrole Huid Hw1 Hst Hex Hserve Hdb Hfresh.
  unfold rs in Hserve. rewrite (user_form_writes ip my srv s uid Hs1 Hs2 Hrole) in Hserve.
  apply serve_all_cons in Hserve as (d1 & H1 & Hserve). apply serve_all_cons in Hserve as (d2 & H2 & Hserve).
  simpl in Hserve, H1, H2. simplify_eq. apply users_post_served in H1; [|done]. apply user_role_post_served in H2; [|done|done].
  apply CreateUser_created in H1; cbv zeta in H1; destruct H1 as (hash & Hh & Hnew & Hemail & Hd1 & Hten & Hms).
  apply AssignUserRole_assigned in H2 as [Hd2 Ht2]. specialize (Hms Hst Hex).
  set (b := Users.user_body ip my s) in *. set (rb := Users.role_body ip my s) in *.
  destruct (user_form_tenant p s) as (Hflag & Hb & Hrb). fold ip my b rb in Hflag, Hb, Hrb.
  set (tid := if Users.isPlatformUser ip s then "" else _) in *. rewrite Hrb in Hd2, Ht2. rewrite Hb in Hms, Hten.
  change (is_platform_admin p) with ip in Hd1, Hten. rewrite Hflag in Hd1, Hten. set (u := MkUser _ _ _ _ _ _ _) in Hd1.
  assert (Husers : users d' = <[new_id w1 := u]> (users d)) by (by rewrite Hd2; simpl; rewrite Hd1).
  assert (Hfirst : first_tenant d' (new_id w1) = tid).
  { apply (first_tenant_new d (new_id w1) tid Hnew Hex); [by rewrite Hd2|]. rewrite Hd1 in Ht2. exact Ht2. }
  destruct (Login_succeeds a t0 (Users.email_ s) (Users.password s) d' (new_id w1) u) as [d3 Hlogin].
  - rewrite Husers. apply lookup_insert_eq.
  - done.
  - done.
  - done.
  - intros j v. rewrite Husers. destruct (decide (new_id w1 = j)) as [<-|Hne]; [done|].
    rewrite lookup_insert_ne by done. intros Hj Hv. by apply Hemail in Hj.
  - by apply bcrypt_matches.
  - done.
  - rewrite Hd2. simpl. by rewrite Hd1.
  - eexists _, d3. split; [exact Hlogin|]. simpl. rewrite Hfirst. split; [done|]. split; [done|]. split.
    { unfold tid. destruct (Users.isPlatformUser ip s); [done|]. apply nullIfEmpty_Some. by apply Hten. }
    intros k. rewrite EffectivePermissions_spec.
    assert (Hrows : permission_rows d' = permission_rows d /\ role_permissions d' = role_permissions d
      /\ allowed d' = allowed d /\ denied d' = denied d) by (rewrite Hd2; simpl; by rewrite Hd1).
    destruct Hrows as (-> & -> & -> & ->).
    rewrite (held_of_nobody d _ _ (allowed d)), (held_of_nobody d _ _ (denied d)) by (done || (intros g Hg; apply (proj1 Hex); tauto)).
    assert (Hheld : held (new_id w1) tid (user_roles d') = [Users.createRoleId s]).
    { rewrite Hd2. simpl user_roles. rewrite held_app, Hd1. simpl user_roles.
      rewrite (held_of_nobody d) by (done || (intros g Hg; apply (proj1 Hex); tauto)). simpl.
      unfold held, holds_in. simpl. rewrite bool_decide_true; [done|]. split; [done|].
      apply nullIfEmpty_cases. }
    rewrite Hheld. unfold role_permits. setoid_rewrite list_elem_of_singleton. setoid_rewrite elem_of_nil. naive_solver.
Qed.

(** * Roles *)

Lemma SetRolePermissions_set w p id b d d' :
  SetRolePermissions w p id (Some b) d = (200, d') ->
  d' = d <| role_permissions := role_permissions d' |>
  /\ forall x, x ∈ role_permissions d' <->
       (x ∈ role_permissions d /\ x.1 <> id) \/ (x.1 = id /\ x.2 ∈ texts b "permission_ids").
Proof.
  unfold SetRolePermissions, decoded. destruct (decodes _ b); [|done]. destruct (closed_role _ _); [done|].
  do 2 (destruct (negb _); [done|]). destruct (add_permissions _ _ _ _ _) as [d1|] eqn:E; [|done].
  intros [= <-]. apply add_permissions_spec in E as [E H]. split; [by rewrite E|].
  intros x. rewrite H. simpl. rewrite elem_of_filter_by, negb_true_iff, bool_decide_eq_false. tauto.
Qed.

Lemma UpdateRole_renamed w p id nm d d' :
  UpdateRole w p id (Some (JObj [("name", JStr nm)])) d = (200, d') ->
  exists r, roles d !! id = Some r /\ d' = d <| roles := <[id := r <| r_name := kept (r_name r) nm |>]> (roles d) |>.
Proof.
  unfold UpdateRole. change (decoded UpdateRole_req (Some (JObj [("name", JStr nm)]))) with (Some (JObj [("name", JStr nm)])).
  cbv iota beta. destruct (closed_role _ _); [done|]. destruct (negb _); [done|].
  destruct (roles d !! id) as [r|]; [|done]. destruct (touches _ _); [|done]. intros [= <-]. exists r. split; [done|].
  change (member (JObj [("name", JStr nm)]) "name") with nm. destruct r. by destruct (is_platform_admin p).
Qed.

Lemma texts_jstrs k xs : texts (JObj [(k, jstrs xs)]) k = xs.
Proof.
  unfold texts, jfield. simpl. rewrite decide_True by done. unfold jstrs. rewrite map_map. by apply map_id.
Qed.

Lemma roles_put_served w now p rid b d st d' : ident rid = true ->
  serve HashSecret bcryptHash ParseDuration w now p (PUT (api_path ["roles"; rid]) b) d = Some (st, d') -> st <> 403 ->
  UpdateRole w p rid (Some b) d = (st, d').
Proof.
  intros Hu. rewrite (serve_at _ _ _ w now p 5 _ _ _ "roles.manage" ["roles"; rid] _ d eq_refl); try done.
  - destruct (HasPermission p _); intros [= H]; simplify_eq; done.
  - apply list_elem_of_In. vm_compute. tauto.
  - repeat constructor; done.
  - simpl. by rewrite (proj1 (ident_plain _ Hu)).
Qed.

Lemma role_permissions_put_served w now p rid b d st d' : ident rid = true ->
  serve HashSecret bcryptHash ParseDuration w now p (PUT (api_path ["roles"; rid; "permissions"]) b) d = Some (st, d') ->
  st <> 403 -> SetRolePermissions w p rid (Some b) d = (st, d').
Proof.
  intros Hu. rewrite (serve_at _ _ _ w now p 7 _ _ _ "roles.manage" ["roles"; rid; "permissions"] _ d eq_refl); try done.
  - destruct (HasPermission p _); intros [= H]; simplify_eq; done.
  - apply list_elem_of_In. vm_compute. tauto.
  - repeat constructor; done.
  - simpl. by rewrite (proj1 (ident_plain _ Hu)).
Qed.

(** C11: the editor of a role decides what its holders may do.  When the API has accepted
    both requests of the editor, the role has the name of the form, when one was
    given, and exactly the permissions checked; nothing else has changed; whoever
    holds the role has every permission checked that is not denied to them, and
    whoever does not has what they had. *)
Theorem saved_role_grants p (srv : forall X, Roles.event X -> result X) s rid w1 w2 now d d' :
  let ip := is_platform_admin p in
  let rs := writes (Ui.exec (Roles.http ip) srv (Roles.saveEdit ip rid s) s).1.2 in
  srv unit (Roles.PutRole rid (Roles.editName s)) = Ok tt ->
  srv unit (Roles.PutPermissions rid (Roles.editPerms s)) = Ok tt -> ident rid = true ->
  serve_all (calls p now [w1; w2] rs) d = Some ([200; 200], d') ->
  (exists r, roles d !! rid = Some r
     /\ d' = d <| roles := <[rid := r <| r_name := kept (r_name r) (Roles.editName s) |>]> (roles d) |>
             <| role_permissions := role_permissions d' |>)
  /\ (forall k, role_permits d' rid k <-> exists i, i ∈ Roles.editPerms s /\ permission_rows d !! i = Some k)
  /\ (forall r k, r <> rid -> role_permits d' r k <-> role_permits d r k)
  /\ (forall u t k, rid ∈ held u t (user_roles d) -> role_permits d' rid k ->
       (forall i, permission_rows d !! i = Some k -> i ∉ held u t (denied d)) -> k ∈ EffectivePermissions d' u t)
  /\ (forall u t k, rid ∉ held u t (user_roles d) -> k ∈ EffectivePermissions d' u t <-> k ∈ EffectivePermissions d u t).
Proof.
  intros ip rs Hs1 Hs2 Hrid Hserve.
  assert (Hrs : rs = [PUT (api_path ["roles"; rid]) (JObj [("name", JStr (Roles.editName s))]);
    PUT (api_path ["roles"; rid; "permissions"]) (JObj [("permission_ids", jstrs (Roles.editPerms s))])]).
  { unfold rs. pose proof (Roles.save_role_flow ip srv rid s) as H. destruct (Ui.exec _ _ _ _) as [[s' outs] started].
    cbn [fst snd]. rewrite Hs1, Hs2 in H. destruct H as [-> _]. by destruct ip. }
  rewrite Hrs in Hserve.
  apply serve_all_cons in Hserve as (d1 & H1 & Hserve). apply serve_all_cons in Hserve as (d2 & H2 & Hserve).
  simpl in Hserve, H1, H2. simplify_eq. apply roles_put_served in H1; [|done|done].
  apply role_permissions_put_served in H2; [|done|done].
  apply UpdateRole_renamed in H1 as (r & Hr & Hd1). apply SetRolePermissions_set in H2 as [Hd2 Hin].
  rewrite texts_jstrs in Hin. rewrite Hd1 in Hin. simpl in Hin.
  assert (Hrows : permission_rows d' = permission_rows d /\ user_roles d' = user_roles d
    /\ allowed d' = allowed d /\ denied d' = denied d) by (rewrite Hd2; simpl; by rewrite Hd1).
  destruct Hrows as (Hp & Hu & Ha & Hd).
  split; [exists r; split; [done|]; rewrite Hd2; simpl; by rewrite Hd1|].
  assert (Hpermits : forall q k, role_permits d' q k <->
    if decide (q = rid) then exists i, i ∈ Roles.editPerms s /\ permission_rows d !! i = Some k else role_permits d q k).
  { intros q k. unfold role_permits. rewrite Hp. setoid_rewrite Hin. simpl. case_decide; naive_solver. }
  split_and!.
  - intros k. rewrite Hpermits. by rewrite decide_True.
  - intros q k Hq. rewrite Hpermits. by rewrite decide_False.
  - intros u t k Hh (i & Hi & Hk) Hn. apply EffectivePermissions_spec. rewrite Hu, Ha, Hd, Hp in *. split.
    + exists i. split; [done|]. left. by exists rid.
    + intros (j & Hj & Hjd). by apply (Hn j).
  - intros u t k Hn. rewrite !EffectivePermissions_spec, Hu, Ha, Hd, Hp.
    setoid_rewrite Hin. simpl. naive_solver.
Qed.

(** * API keys *)

Lemma keys_post_served w now p b d st d' :
  serve HashSecret bcryptHash ParseDuration w now p (POST "/admin/api/v1/api-keys" b) d = Some (st, d') -> st <> 403 ->
  CreateAPIKey HashSecret ParseDuration w now p (Some b) d = (st, d').
Proof.
  rewrite (serve_at _ _ _ w now p 0 _ _ _ "api_keys.create" ["api-keys"] _ d eq_refl); try done.
  - destruct (HasPermission p _); intros [= H]; simplify_eq; done.
  - apply list_elem_of_In. vm_compute. tauto.
  - repeat constructor; done.
Qed.

(** C29: a key made on the page of API keys opens nothing.  The form sends no scopes, so
    every public call with the key is refused, whatever scope it needs and whatever
    happens to the tables afterwards: 403 as long as the key is good, 401 when it
    has been revoked. *)
Theorem page_keys_open_nothing p (srv : forall X, ApiKeys.event X -> result X) s w now d d1 cs sts d' w' now' scope :
  let ip := is_platform_admin p in
  let rs := writes (Ui.exec (ApiKeys.http) srv (ApiKeys.submit ip s) s).1.2 in
  srv string (ApiKeys.PostKey (ApiKeys.key_body ip s)) = Ok (new_key w) -> unique_hashes d ->
  serve_all (calls p now [w] rs) d = Some ([201], d1) -> serve_all cs d1 = Some (sts, d') -> stmt w' 0 = true ->
  APIKeyScope HashSecret w' now' (new_key w) scope d'
  = Some (if existsb (revokes (new_id w)) (zip cs sts) then 401 else 403).
Proof.
  intros ip rs Hsrv Hu Hserve Hcs Hw.
  assert (Hrs : rs = [POST "/admin/api/v1/api-keys" (ApiKeys.key_body ip s)]).
  { unfold rs, ApiKeys.submit. simpl. rewrite Hsrv. done. }
  rewrite Hrs in Hserve. apply serve_all_cons in Hserve as (d2 & H1 & Hserve). simpl in Hserve, H1. simplify_eq.
  apply keys_post_served in H1; [|done]. apply create_key in H1 as [Hu1 [[? _]|H1]]; [done| |done].
  destruct H1 as (b & k & Hb & _ & Hk & _ & Hsc & Hh & Ha & Hr & Hexp).
  assert (Hnone : k_scopes k = [] /\ k_expires k = None).
  { assert (b = ApiKeys.key_body ip s) as -> by (unfold decoded in Hb; by destruct (decodes _ _); simplify_eq).
    rewrite Hsc. unfold ApiKeys.key_body in *. destruct ip; (split; [done|by apply Hexp]). }
  destruct Hnone as [Hs0 He0].
  apply (f_equal (lookup (new_id w))) in Hk. rewrite lookup_insert_eq in Hk.
  destruct (keys_kept HashSecret bcryptHash ParseDuration cs d1 sts d' _ k Hcs Hu1 Hk) as [Hu' Hk'].
  unfold APIKeyScope. erewrite verify_key by done. rewrite He0. simpl. rewrite orb_false_r.
  destruct (existsb _ _); [done|]. by rewrite Hs0.
Qed.

End Access.

(** * Samples *)

Definition clerk : Principal :=
  MkPrincipal "u1" (Some "t1") "ada@x.org" false ["users.create"; "roles.manage"; "api_keys.create"].
Definition users_server (X : Type) (e : Users.event X) : result X :=
  match e in Users.event X return result X with
  | Users.PostUser _ => Ok "u2" | Users.PostUserRole _ _ => Ok tt | _ => Threw NotAnError
  end.
Definition user_form : Users.state :=
  Users.initial <| Users.email_ := "bo@x.org" |> <| Users.name_ := "Bo" |> <| Users.password := "secret" |>
    <| Users.createRoleId := "r1" |>.
Definition keep (pw : string) : option string := Some pw.
Definition no_duration (_ : string) : option Z := None.

Lemma sample_users_exist : users_exist sample_tables.
Proof.
  split.
  - intros g [Hg|[Hg|Hg]]; [|by apply elem_of_nil in Hg..]. apply list_elem_of_singleton in Hg as ->.
    vm_compute. by eexists.
  - intros i t st Hm. apply list_elem_of_singleton in Hm. simplify_eq. vm_compute. by eexists.
Qed.

Definition form_calls : list call :=
  calls clerk 0 [calm "u2" ""; calm "" ""] (writes (Ui.exec (Users.http false) users_server (Users.submit false "t1" user_form) user_form).1.2).

Lemma created_user_signs_in_witness :
  exists d', serve_all hash keep no_duration form_calls sample_tables = Some ([201; 201], d')
    /\ exists c d2, Login same hash (minutes 15) (minutes 20160) (minutes 15) 5 (ok "s2" "r2") 0 "bo@x.org" "secret" d'
         = (inr (c, "r2"), true, d2) /\ "users.view" ∈ permissions (c_principal c).
Proof.
  destruct (serve_all hash keep no_duration form_calls sample_tables) as [[sts d']|] eqn:E;
    [|vm_compute in E; discriminate].
  assert (sts = [201; 201]) as -> by (apply (f_equal (fmap fst)) in E; vm_compute in E; congruence).
  exists d'. split; [done|].
  destruct (created_user_signs_in same hash keep no_duration (minutes 15) (minutes 20160) (minutes 15) 5
    ltac:(intros pw h [= <-]; by apply bool_decide_eq_true) clerk users_server user_form "u2" (calm "u2" "") (calm "" "") 0
    sample_tables d' (ok "s2" "r2") 0 eq_refl eq_refl ltac:(done) eq_refl eq_refl eq_refl sample_users_exist E
    (fun _ => eq_refl) eq_refl) as (c & d2 & Hl & _ & _ & _ & Hp).
  exists c, d2. split; [exact Hl|]. apply Hp. exists "p1". split; [by left|reflexivity].
Defined.

Definition roles_server (X : Type) (e : Roles.event X) : result X :=
  match e in Roles.event X return result X with
  | Roles.PutRole _ _ => Ok tt | Roles.PutPermissions _ _ => Ok tt | _ => Threw NotAnError
  end.
Definition role_form : Roles.state := Roles.initial <| Roles.editName := "Staff" |>.
Definition role_calls : list call :=
  calls clerk 0 [calm "" ""; calm "" ""] (writes (Ui.exec (Roles.http false) roles_server (Roles.saveEdit false "r1" role_form) role_form).1.2).

Lemma saved_role_grants_witness :
  exists d', serve_all hash keep no_duration role_calls sample_tables = Some ([200; 200], d')
    /\ forall k, ~ role_permits d' "r1" k.
Proof.
  destruct (serve_all hash keep no_duration role_calls sample_tables) as [[sts d']|] eqn:E;
    [|vm_compute in E; discriminate].
  assert (sts = [200; 200]) as -> by (apply (f_equal (fmap fst)) in E; vm_compute in E; congruence).
  exists d'. split; [done|].
  destruct (saved_role_grants hash keep no_duration clerk roles_server role_form "r1" (calm "" "") (calm "" "") 0
    sample_tables d' eq_refl eq_refl eq_refl E) as (_ & Hp & _).
  intros k Hk. apply Hp in Hk as (i & Hi & _). by apply elem_of_nil in Hi.
Defined.

Definition keys_server (X : Type) (e : ApiKeys.event X) : result X :=
  match e in ApiKeys.event X return result X with ApiKeys.PostKey _ => Ok "secret" | _ => Threw NotAnError end.
Definition key_form : ApiKeys.state := ApiKeys.initial <| ApiKeys.name_ := "Shop" |>.
Definition key_calls : list call :=
  calls clerk 0 [calm "k1" "secret"] (writes (Ui.exec ApiKeys.http keys_server (ApiKeys.submit false key_form) key_form).1.2).

Lemma page_keys_open_nothing_witness :
  exists d1, serve_all hash keep no_duration key_calls sample_tables = Some ([201], d1)
    /\ APIKeyScope hash (calm "" "") 1 "secret" "notifications:create" d1 = Some 403.
Proof.
  destruct (serve_all hash keep no_duration key_calls sample_tables) as [[sts d1]|] eqn:E;
    [|vm_compute in E; discriminate].
  assert (sts = [201]) as -> by (apply (f_equal (fmap fst)) in E; vm_compute in E; congruence).
  exists d1. split; [done|].
  apply (page_keys_open_nothing hash keep no_duration clerk keys_server key_form (calm "k1" "secret") 0 sample_tables
    d1 [] [] d1 (calm "" "") 1 "notifications:create" eq_refl ltac:(intros i j k l Hi; vm_compute in Hi; discriminate)
    E eq_refl eq_refl).
Defined.
